(* ===== verification/_CoqProject ===== *)
-Q . S2P
Prelude.v
Memory.v
Arch.v
KString.v
Kmalloc.v
KmallocSpec.v
KmallocProof.v
KmallocRefine.v
KmallocSafety.v
KmallocIface.v
Translate.v
TranslateProof.v
PageTables.v
AddressSpace.v
Hypercall.v
Hypervisor.v
HypercallProof.v
HypervisorProof.v
VmTypes.v
Kernel.v
Exec.v
KernelProof.v
Boundary.v
SyscallProof.v
MmapProof.v
FileMap.v
ElfProof.v
UserStrings.v
StackProof.v
ExecProof.v
Isolation.v
BpfLoad.v
BpfLoadProof.v
BpfLoadCopies.v
Packet.v
SecurityGroup.v
TcpPush.v
HttpSimple.v
HttpParse.v
HttpParseProof.v
Samplefs.v
SamplefsProof.v
SamplefsDays.v
SampleBlk.v
SampleBlkProof.v
KvmTests.v
Sockmap.v
Libc.v
SockProxy.v
Tracing.v
Threads.v
Device.v
Modules.v
FaultTest.v
