(* ===== verification/Prelude.v ===== *)
(** * A verification library for the bpf-examples repository

    The repository collects small systems programs in C.  This library models those that
    carry logic of their own and proves what makes them correct.  Paths below are relative
    to src/; K stands for kvm_test/kvm-kernel-example.

    ** Conventions

    - A [w]-bit integer is a [Z]; wrap-around is written with [u8], [u16], [u32], [u64],
      two's complement readings with [s32] and [s64] (Prelude).
    - Code with effects is a command [cmd S A]: from a state [S] it returns a value and a
      new state ([Ok]) or stops ([Halt]) with a reason: a kernel panic, a failed assertion,
      an access to memory that is not there, the end of the process, a loop that does not
      end.  Theorems say [= Ok ...] wherever the code returns, so they exclude the stops.
    - Loops whose bound is in the data run under [mloop], for at most [2^64] rounds
      ([LOOP_BITS]); the evaluation halves the count, so it is executable.  No loop of the
      programs has more rounds: they count bytes or list cells of a 64-bit address space.
      The theorems prove that the loops end; none assumes it.
    - Code that is not in the repository is a parameter: the operating system behind the
      hypervisor ([host_os], and [fails] for the KVM calls that fail), libelf and the
      system calls of the BPF loader, bcc's header accessors ([proto]), the Linux kernel
      behind samplefs and the block driver ([kernel],
      [blk_kernel]), KVM ([kvm]), the network ([sockets], [resolver]), the fault injector
      ([injector]).  What is relied on is a named record of laws
      ([wire_layout], [kernel_ok], [blk_kernel_ok]), and the witnesses exhibit an instance.
    - A [witness] lemma applies a theorem to a concrete machine, packet or file, so its
      hypotheses hold somewhere.

    ** The virtual machine: K/hypervisor and K/kernel

    A host process runs a small kernel under KVM; the kernel runs one user program.  The
    kernel reaches the host by hypercalls (an [out] and an [in] on a port), the program
    reaches the kernel by system calls.

    - Memory, Arch: bytes of physical memory, the constants of K/kernel/mm/translate.h,
      K/kernel/utils, K/hypervisor/definition.h, and [walk], the four-level
      page walk of the processor, against which all page-table code is judged.
    - KString: K/kernel/utils/string.c.
    - Kmalloc: K/kernel/mm/kmalloc.c.  The chunk headers and the sorted free list live in
      the bytes of memory, as in the source.  KmallocSpec is an allocator without memory:
      free chunks, live chunks and a boundary, tiling the arena.  KmallocProof shows that
      the pointer loops compute the list functions of the specification; KmallocRefine
      that every call refines its abstract operation; KmallocSafety states what callers
      get: blocks that are disjoint, zeroed, large enough and aligned, no other live byte
      changed, after any sequence of calls; success whenever the top area suffices; and
      the failure path, which clears memory at address 0.  KmallocIface is the class
      [Allocator] against which callers are verified, with [kmalloc.c] as its instance; it
      says as well that a block taken and given back leaves the room there was
      ([al_nested]), so that a caller can be served for ever.
    - Translate, TranslateProof, PageTables: K/kernel/mm/translate.c.  [translate] answers
      what the processor's walk answers; after [add_trans_user] and [modify_permission]
      the walk yields the frame and the permissions that were asked for.  AddressSpace
      takes the tables together: as long as they form a tree over the allocator's live
      pages ([aspace]), both operations change the translation of one page only.
    - Hypercall, HypercallProof: K/hypervisor/hypercall.c.  State: guest memory, the file
      table and the static result of each handler.  The result of an [out] is delivered to
      the next [in], once; reads and writes of the host stay in guest memory; descriptors
      are the least closed ones; a closed one is refused.
    - Hypervisor, HypervisorProof: K/hypervisor/hypervisor.c.  The machine that is booted
      has the documented registers and page tables; together with the kernel's
      [init_pagetable] every kernel address translates to its physical address; arguments
      are laid out on the stack as the ABI says; ports are refused to user mode.
    - Kernel, Exec, KernelProof: the rest of K/kernel: hypercall stubs, uaccess.c, mmap.c,
      the system calls, execve and kernel_main.  [access_ok] accepts exactly the ranges the
      processor lets user mode access (except ranges that wrap around, see
      [access_ok_wraps]), so copies do not fault; bad descriptors and buffers are
      refused with no change of state.
    - Boundary: the tables of the booted machine, and what keeps kernel addresses out of the
      reach of user mode ([hidden]): the entries of the direct map, of the first 2MB and of
      the upper half of the first table, none of which lies on the path of a user page.
    - SyscallProof: read and write through all layers, from the system call to the
      system behind the hypervisor and back: the bytes arrive unchanged, nothing else
      changes, no kernel memory is kept.
    - MmapProof: mmap and mprotect on whole ranges; the anonymous [sys_mmap] maps new
      zeroed memory with the permissions asked for and no other page changes.
    - FileMap: [sys_mmap] of a file, through lseek and read of the host: the pages hold the
      bytes of the file.  A [region] is a mapped range with its content; [step_on] says what
      calls of the kernel keep, so that mappings made one after the other live together.
    - ElfProof: [load_binary]: after it every loadable segment of the ELF file is at its
      address, with its permissions, its file bytes and its zeros, and the stack is there.
    - UserStrings: strings and vectors of strings in the user's memory ([cstring],
      [cstrings]): the checks of the kernel accept them, and they are read the same while the
      kernel writes elsewhere ([near]).  StackProof: [create_elf_info] builds the stack of
      the program; the vectors it finds there are the caller's.  ExecProof: open from the
      system call to the system, and [sys_execve] through all of this up to the entry point.
    - Isolation: the layers together, seen from the program.  [isolated] (FileMap) is the
      invariant: what user mode reaches lies in whole pages the kernel has given to it, which
      are no tables, and the kernel's own addresses are out of its reach.  It holds when the
      kernel has booted ([boot_isolated]) and is kept by [sys_execve] ([sys_execve_starts]).
      A running program is a sequence of [user_step]s: stores the processor allows, and
      system calls.  Whatever they are, the program stays in its pages and every other byte
      in use keeps its value ([program_isolated]); every call returns or is exit
      ([syscalls_return]); a refused execve leaves the caller mapped ([sys_execve_refuses]).
      [modest] is what the calls must satisfy: the length of a buffer is positive, its end
      does not wrap around, and the kernel has memory for it.  Outside of it the source goes
      wrong (a failed kmalloc is not tested, see KmallocSafety and [access_ok_wraps]).  The
      page kernel_main itself maps is not given out whole ([switch_user_page_shared]); the
      theorems are about programs whose pages are, as those of mmap and [load_binary].
    - VmTypes: the C types of the hypervisor's state as an invariant of everything it does.

    ** The BPF loader: bpf_load.c of fexit_example, crash_systemd and kprobe_file_read

    BpfLoad models the loader; BpfLoadCopies gives the copies without the fexit sections;
    BpfLoadProof shows that maps and descriptors correspond one to one, that a relocation
    patches the instruction it names and no other, that symbols are sorted by offset,
    that a loaded program is registered, and two inputs on which the code goes wrong.

    ** Packet programs

    Packet holds packets, header layouts and the one's complement sum.  SecurityGroup
    (xdp-security-group/sg.bpf.c), TcpPush (tcp_push/tcp_push.c), HttpSimple
    (ebpf-http/http-parse-simple.c), HttpParse and HttpParseProof
    (ebpf-http/http-parse-complete.c) give each program's decision on every packet, in
    terms of the bytes of the packet, with the effect on packet and tables; returning at
    all includes staying inside the packet.

    ** The sample file system: lktm/fs/samplefs

    Samplefs follows day 11 and takes the day as an argument where the copies differ;
    SamplefsDays names the other days.  SamplefsProof: mounting and unmounting give back
    what they took; directories have the right link counts after any creations; names that
    compare equal hash equally; options compose; the /proc file reads back whole.

    ** The sample block driver: lktm/drivers/block/sampleblk

    SampleBlk models both copies of the disk in memory.  SampleBlkProof: the request queue
    of day2 refines a disk that is an array of bytes on which each request moves one range;
    what is written is read back; day1 agrees for requests whose segments have one length;
    loading takes back what it took when it fails, and unloading after such a load faults.

    ** The stand-alone KVM tests: kvm_test/run_simple, page_table, kernel

    KvmTests: the set-up and the exit loop of the three programs, and a processor for the
    instructions of their code.  The tests return and print what they mean to; the page
    tables map exactly the first 2MB onto themselves.

    ** Sockets: sockmap_1, sockmap_2

    Sockmap: a message is handed to the peer of its sender or takes the ordinary way.
    SockProxy: the verdict program and the user-space loop of the proxy forward what each
    server sends to the other, and only that; from the command line on (Libc has [atoi]).

    ** Tracing programs: kprobe_file_read, crash_systemd, fexit_example, tc, xdp-helloworld

    Tracing: the reads of a watched process are answered with data and end of file in turn;
    the comparison of bytes; the counters.

    ** Threads and devices of kernel modules: modules/deadlock, makeKernelDead, device

    Threads: every run of the two threads of deadlock.c ends with a thread that waits for
    ever; the server of makeKernelDead runs at most once for each event and stops when told
    to.  Device: the buffer belongs to the last writer; positions stay in range; loading
    gives back what it took, the cdev after a failed cdev_add apart.

    ** Small modules and tests: modules/print_super_block, modules/d_process, softlockup_test,
       lktm/drivers/nmi, pure_kprobe_example, linux_inject

    Modules: the list of super blocks is printed whole under its lock; handlers are registered
    exactly while their module is loaded (class [Balanced]); the two modules that hang do.
    FaultTest: the test of the fault injector ends and closes what it opened.

    ** Not modelled

    Output (perror, printk, printf), assembly entry code beyond its effect, and everything
    not in C or generated (vmlinux.h): bcc_example, bpftrace_script, mmap_test,
    modify-arguments-on-the-fly and trace-tcpreset-and-tcpretransmit are Python, bpftrace, C++
    and Go.

    This file holds the integers, the command monad with its tactics, and the loops. *)

From Stdlib Require Export ZArith Lia Bool ZifyBool.
From stdpp Require Export prelude strings gmap list.

#[export] Set Default Goal Selector "!".
Open Scope Z_scope.

(** ** Fixed-width integers

    A [w]-bit C integer is a [Z]; the wrap-around of its arithmetic is written
    out with [u8], [u16], [u32] and [u64]; [s32] and [s64] reinterpret a bit
    pattern as two's complement. *)

Definition u8 (n : Z) : Z := n mod 2 ^ 8.
Definition u16 (n : Z) : Z := n mod 2 ^ 16.
Definition u32 (n : Z) : Z := n mod 2 ^ 32.
Definition u64 (n : Z) : Z := n mod 2 ^ 64.
Definition signed (w n : Z) : Z :=
  let m := n mod 2 ^ w in if m <? 2 ^ (w - 1) then m else m - 2 ^ w.
Definition s32 (n : Z) : Z := signed 32 n.
Definition s64 (n : Z) : Z := signed 64 n.

(** C truth values. *)
Definition nonzero (n : Z) : bool := negb (n =? 0).
Definition b2i (b : bool) : Z := if b then 1 else 0.

(** Testing a mask, as in [x & MASK]. *)
Definition has (x mask : Z) : bool := nonzero (Z.land x mask).

Create HintDb words.
Create Rewrite HintDb words.

Lemma u8_range n : 0 <= u8 n < 256.
Proof. apply Z.mod_pos_bound. lia. Qed.
Lemma u16_range n : 0 <= u16 n < 2 ^ 16.
Proof. apply Z.mod_pos_bound. lia. Qed.
Lemma u32_range n : 0 <= u32 n < 2 ^ 32.
Proof. apply Z.mod_pos_bound. lia. Qed.
Lemma u64_range n : 0 <= u64 n < 2 ^ 64.
Proof. apply Z.mod_pos_bound. lia. Qed.
Lemma u64_small n : 0 <= n < 2 ^ 64 -> u64 n = n.
Proof. apply Z.mod_small. Qed.
Lemma u32_small n : 0 <= n < 2 ^ 32 -> u32 n = n.
Proof. apply Z.mod_small. Qed.
Lemma u16_small n : 0 <= n < 2 ^ 16 -> u16 n = n.
Proof. apply Z.mod_small. Qed.
Lemma s32_small n : 0 <= n < 2 ^ 31 -> s32 n = n.
Proof.
  intros H. unfold s32, signed. rewrite Z.mod_small by lia.
  change (2 ^ (32 - 1)) with (2 ^ 31). destruct (Z.ltb_spec n (2 ^ 31)); lia.
Qed.
Lemma s32_range n : - 2 ^ 31 <= s32 n < 2 ^ 31.
Proof.
  unfold s32, signed. pose proof (Z.mod_pos_bound n (2 ^ 32) ltac:(lia)).
  change (2 ^ (32 - 1)) with (2 ^ 31). destruct (Z.ltb_spec (n mod 2 ^ 32) (2 ^ 31)); lia.
Qed.
(** A negative 32-bit value survives being stored as an unsigned word. *)
Lemma s32_u32 n : s32 (u32 n) = s32 n.
Proof. unfold s32, signed, u32. rewrite Zmod_mod. reflexivity. Qed.
Lemma s32_neg n : - 2 ^ 31 <= n < 0 -> s32 n = n.
Proof.
  intros H. unfold s32, signed.
  replace (n mod 2 ^ 32) with (n + 2 ^ 32)
    by (symmetry; rewrite <- (Z.mod_add n 1 (2 ^ 32)) by lia; rewrite Z.mod_small; lia).
  change (2 ^ (32 - 1)) with (2 ^ 31).
  destruct (Z.ltb_spec (n + 2 ^ 32) (2 ^ 31)); lia.
Qed.

Lemma s32_s32 n : s32 (s32 n) = s32 n.
Proof.
  pose proof (s32_range n). destruct (Z.ltb_spec (s32 n) 0); [apply s32_neg|apply s32_small]; lia.
Qed.

#[export] Hint Rewrite u64_small u32_small u16_small s32_small using lia : words.
#[export] Hint Resolve u8_range u16_range u32_range u64_range s32_range : words.

(** *** Masks *)

(** [v & (2^k - 1)] is the remainder. *)
Lemma land_low v k : 0 <= k -> Z.land v (2 ^ k - 1) = v mod 2 ^ k.
Proof. intros. rewrite <- Z.land_ones by lia. f_equal. rewrite Z.ones_equiv. lia. Qed.

(** [v & (2^w - 2^k)] clears the low [k] bits of a [w]-bit word. *)
Lemma land_high w k v :
  0 <= k <= w -> 0 <= v < 2 ^ w -> Z.land v (2 ^ w - 2 ^ k) = v - v mod 2 ^ k.
Proof.
  intros Hk Hv.
  replace (2 ^ w - 2 ^ k) with (Z.shiftl (Z.ones (w - k)) k).
  2:{ rewrite Z.shiftl_mul_pow2, Z.ones_equiv by lia.
      rewrite <- Z.sub_1_r, Z.mul_sub_distr_r, <- Z.pow_add_r by lia.
      replace (w - k + k) with w by lia. lia. }
  replace (Z.land v (Z.shiftl (Z.ones (w - k)) k))
    with (Z.shiftl (Z.land (Z.shiftr v k) (Z.ones (w - k))) k).
  2:{ apply Z.bits_inj'. intros i Hi.
      rewrite Z.shiftl_spec, !Z.land_spec, Z.shiftl_spec by lia.
      destruct (Z.ltb_spec i k).
      - rewrite !(Z.testbit_neg_r _ (i - k)) by lia. by rewrite !andb_false_r.
      - rewrite Z.shiftr_spec by lia. do 2 f_equal. lia. }
  rewrite Z.land_ones, Z.shiftr_div_pow2, Z.shiftl_mul_pow2 by lia.
  rewrite (Z.mod_small (v / 2 ^ k)).
  - pose proof (Z.div_mod v (2 ^ k)). lia.
  - split; [apply Z.div_pos; lia|]. apply Z.div_lt_upper_bound; [lia|].
    rewrite <- Z.pow_add_r by lia. replace (k + (w - k)) with w by lia. lia.
Qed.

(** Bits of disjoint weight add up. *)
Lemma lor_disjoint a b k :
  0 <= k -> 0 <= b < 2 ^ k -> a mod 2 ^ k = 0 -> Z.lor a b = a + b.
Proof.
  intros Hk Hb Ha. symmetry. apply Z.add_nocarry_lor. apply Z.bits_inj'. intros i Hi.
  rewrite Z.bits_0, Z.land_spec. destruct (Z.ltb_spec i k).
  - replace (Z.testbit a i) with (Z.testbit (a mod 2 ^ k) i)
      by (apply Z.mod_pow2_bits_low; lia).
    by rewrite Ha, Z.bits_0.
  - replace b with (b mod 2 ^ k) by (apply Z.mod_small; lia).
    rewrite Z.mod_pow2_bits_high by lia. apply andb_false_r.
Qed.

(** ** Computations that change a state and may stop the machine *)

(** How a run can end other than by returning: the kernel's [panic], a fault
    (an access to unmapped or unbacked memory: with no interrupt table the guest
    shuts down), the host's [assert], a process [exit], and exhaustion of the
    fuel that bounds a modelled loop. *)
Inductive stop :=
| Panic (msg : string)
| Fault (va : Z)
| AssertFail
| ExitProc (code : Z)
| OutOfFuel.

Inductive outcome (S A : Type) :=
| Ok (a : A) (s : S)
| Halt (e : stop).
Arguments Ok {S A} a s.
Arguments Halt {S A} e.

Definition cmd (S A : Type) : Type := S -> outcome S A.

#[export] Instance cmd_ret {S} : MRet (cmd S) := fun A (a : A) s => Ok a s.
#[export] Instance cmd_bind {S} : MBind (cmd S) := fun A B f m s =>
  match m s with
  | Ok a s' => f a s'
  | Halt e => Halt e
  end.
Definition get {S} : cmd S S := fun s => Ok s s.
Definition put {S} (s' : S) : cmd S unit := fun _ => Ok tt s'.
Definition modify {S} (f : S -> S) : cmd S unit := fun s => Ok tt (f s).
Definition halt {S A} (e : stop) : cmd S A := fun _ => Halt e.
Definition panic {S A} (msg : string) : cmd S A := halt (Panic msg).

Lemma bind_ok {S A B} (m : cmd S A) (f : A -> cmd S B) s a s' :
  m s = Ok a s' -> (m ≫= f) s = f a s'.
Proof. intros H. unfold mbind, cmd_bind. by rewrite H. Qed.
Lemma bind_halt {S A B} (m : cmd S A) (f : A -> cmd S B) s e :
  m s = Halt e -> (m ≫= f) s = Halt e.
Proof. intros H. unfold mbind, cmd_bind. by rewrite H. Qed.
Lemma bind_ret {S A B} (a : A) (f : A -> cmd S B) s : (mret a ≫= f) s = f a s.
Proof. reflexivity. Qed.
Lemma bind_get {S B} (f : S -> cmd S B) s : (get ≫= f) s = f s s.
Proof. reflexivity. Qed.
Lemma bind_modify {S B} (g : S -> S) (f : unit -> cmd S B) s : (modify g ≫= f) s = f tt (g s).
Proof. reflexivity. Qed.
Lemma bind_bind {S A B C} (m : cmd S A) (f : A -> cmd S B) (g : B -> cmd S C) s :
  ((m ≫= f) ≫= g) s = (m ≫= (fun x => f x ≫= g)) s.
Proof. unfold mbind, cmd_bind. by destruct (m s). Qed.

Lemma bind_inv {S A B} (m : cmd S A) (f : A -> cmd S B) s b s' :
  (m ≫= f) s = Ok b s' -> exists a s1, m s = Ok a s1 /\ f a s1 = Ok b s'.
Proof. unfold mbind, cmd_bind. destruct (m s) as [a s1|]; [|done]. eauto. Qed.

(** Step one command of a sequence whose run is known. *)
Ltac mstep H := erewrite bind_ok by (eapply H; eauto).
Ltac mgo := rewrite ?bind_get, ?bind_ret, ?bind_modify.

(** Running a computation on a part of a larger state. *)
Definition zoom {S T A} (proj : S -> T) (upd : T -> S -> S) (m : cmd T A) : cmd S A :=
  fun s => match m (proj s) with
           | Ok a t => Ok a (upd t s)
           | Halt e => Halt e
           end.

(** ** Lists *)

(** Every two elements at different positions are related. *)
Fixpoint pairwise {A} (R : A -> A -> Prop) (l : list A) : Prop :=
  match l with
  | [] => True
  | a :: l' => Forall (R a) l' /\ pairwise R l'
  end.

Lemma pairwise_app {A} (R : A -> A -> Prop) l1 l2 :
  pairwise R (l1 ++ l2) <->
  pairwise R l1 /\ pairwise R l2 /\ Forall (fun a => Forall (R a) l2) l1.
Proof.
  induction l1 as [|a l1 IH]; simpl.
  - intuition (auto using Forall_nil_2).
  - rewrite IH, Forall_app, Forall_cons. tauto.
Qed.

Lemma pairwise_perm {A} (R : A -> A -> Prop) `{!Symmetric R} l1 l2 :
  l1 ≡ₚ l2 -> pairwise R l1 -> pairwise R l2.
Proof.
  induction 1 as [|a l1 l2 Hp IH|a b l|l1 l2 l3 _ IH1 _ IH2]; simpl; auto.
  - intros [Ha Hl]. split; [|auto]. by rewrite <- Hp.
  - rewrite !Forall_cons. intros [[Hab Hb] [Ha Hl]]. auto.
Qed.

(** ** Loops

    A C loop is a body that either continues with a new loop state ([inl]) or
    leaves the loop with a result ([inr]).  [loopn k] runs it for at most [2^k]
    iterations without building a unary number, so a bound of [2^64] iterations
    costs nothing; [run n] is the same with a unary counter, for proofs. *)

Section Loops.
Context {X R : Type} (body : X -> X + R).

Fixpoint loopn (k : nat) (x : X) : X + R :=
  match k with
  | O => body x
  | S k' => match loopn k' x with
            | inl x' => loopn k' x'
            | inr r => inr r
            end
  end.

Fixpoint run (n : nat) (x : X) : X + R :=
  match n with
  | O => inl x
  | S n' => match body x with
            | inl x' => run n' x'
            | inr r => inr r
            end
  end.

Lemma run_add n m x :
  run (n + m) x = match run n x with inl x' => run m x' | inr r => inr r end.
Proof. revert x. induction n as [|n IH]; intros x; simpl; [done|]. by destruct (body x). Qed.

Lemma run_mono n m x r : run n x = inr r -> (n <= m)%nat -> run m x = inr r.
Proof. intros H Hle. replace m with (n + (m - n))%nat by lia. by rewrite run_add, H. Qed.

Lemma loopn_run k x : loopn k x = run (2 ^ k) x.
Proof.
  revert x. induction k as [|k IH]; intros x; simpl.
  - by destruct (body x).
  - rewrite Nat.add_0_r, run_add, IH. by destruct (run (2 ^ k) x).
Qed.

Lemma loopn_result k n x r :
  run n x = inr r -> Z.of_nat n <= 2 ^ Z.of_nat k -> loopn k x = inr r.
Proof.
  intros H Hn. rewrite loopn_run. eapply run_mono; [exact H|].
  apply Nat2Z.inj_le. by rewrite Nat2Z.inj_pow.
Qed.

(** An invariant of the body holds of a state the loop stops in. *)
Lemma run_invariant (P : X -> Prop) (Q : R -> Prop) n x :
  (forall y, P y -> match body y with inl y' => P y' | inr r => Q r end) ->
  P x -> match run n x with inl x' => P x' | inr r => Q r end.
Proof.
  intros Hb. revert x. induction n as [|n IH]; intros x Hx; simpl; [done|].
  specialize (Hb x Hx). destruct (body x); [by apply IH|done].
Qed.
End Loops.

Definition LOOP_BITS : nat := 64.

(** A loop over pure state; [None] when [2^64] iterations do not leave it. *)
Definition loop {X R} (body : X -> X + R) (x : X) : option R :=
  match loopn body LOOP_BITS x with inl _ => None | inr r => Some r end.

(** A loop of commands. *)
Definition mbody {S X R} (body : X -> cmd S (X + R)) (p : X * S) : (X * S) + outcome S R :=
  match body p.1 p.2 with
  | Ok (inl x') s' => inl (x', s')
  | Ok (inr r) s' => inr (Ok r s')
  | Halt e => inr (Halt e)
  end.
Definition mloop {S X R} (body : X -> cmd S (X + R)) (x : X) : cmd S R := fun s =>
  match loopn (mbody body) LOOP_BITS (x, s) with
  | inl _ => Halt OutOfFuel
  | inr o => o
  end.

Lemma loop_result {X R} (body : X -> X + R) n x r :
  run body n x = inr r -> Z.of_nat n <= 2 ^ 64 -> loop body x = Some r.
Proof. intros H Hn. unfold loop. by erewrite loopn_result by (try apply H; done). Qed.

Lemma mloop_result {S X R} (body : X -> cmd S (X + R)) n x s o :
  run (mbody body) n (x, s) = inr o -> Z.of_nat n <= 2 ^ 64 -> mloop body x s = o.
Proof. intros H Hn. unfold mloop. by erewrite loopn_result by (try apply H; done). Qed.

Lemma mbody_next {S X R} (body : X -> cmd S (X + R)) n x s x' s' :
  body x s = Ok (inl x') s' -> run (mbody body) (Datatypes.S n) (x, s) = run (mbody body) n (x', s').
Proof. intros H. simpl. unfold mbody at 1. simpl. by rewrite H. Qed.
Lemma mbody_done {S X R} (body : X -> cmd S (X + R)) n x s r s' :
  body x s = Ok (inr r) s' -> run (mbody body) (Datatypes.S n) (x, s) = inr (Ok r s').
Proof. intros H. simpl. unfold mbody at 1. simpl. by rewrite H. Qed.

#[global] Opaque LOOP_BITS.
