(* ===== verification/Memory.v ===== *)
(** * Byte memory and the kernel's string routines

    Guest physical memory is a function from addresses to bytes; words are read
    and written in little-endian order, as on x86-64.  The second half models
    [kernel/utils/string.c] of [kvm-kernel-example] over an arbitrary address
    space: the routines receive the function that reads a byte at a pointer. *)

From S2P Require Import Prelude.

Definition mem : Type := Z -> Z.

(** ** Words in memory *)

(** The [n]-byte little-endian word at [a]. *)
Fixpoint ld (n : nat) (m : mem) (a : Z) : Z :=
  match n with
  | O => 0
  | S n' => u8 (m a) + 256 * ld n' m (a + 1)
  end.

(** Writing the [n]-byte word [v] at [a]. *)
Definition st (n : nat) (m : mem) (a v : Z) : mem := fun x =>
  if (a <=? x) && (x <? a + Z.of_nat n) then u8 (Z.shiftr v (8 * (x - a))) else m x.

Definition ld8 := ld 1.
Definition ld16 := ld 2.
Definition ld32 := ld 4.
Definition ld64 := ld 8.
Definition st32 := st 4.
Definition st64 := st 8.

(** [memset] and [rep movsb] on a flat memory.  [rep movsb] copies forwards one
    byte at a time, so a destination that starts inside the source sees the bytes
    already copied: they repeat with period [dst - src]. *)
Definition mset (m : mem) (a c len : Z) : mem := fun x =>
  if (a <=? x) && (x <? a + len) then u8 c else m x.

Definition movsb (m : mem) (dst src len : Z) : mem := fun x =>
  if (dst <=? x) && (x <? dst + len) then
    let d := dst - src in
    if (0 <? d) && (d <? len) then m (src + (x - dst) mod d) else m (src + (x - dst))
  else m x.

(** The instruction as it executes: one byte, then the rest. *)
Fixpoint movsb_loop (n : nat) (m : mem) (dst src : Z) : mem :=
  match n with
  | O => m
  | S n' => movsb_loop n' (fun x => if x =? dst then m src else m x) (dst + 1) (src + 1)
  end.

(** Memories that agree on a set of addresses. *)
Definition eq_on (P : Z -> Prop) (m m' : mem) : Prop := forall x, P x -> m x = m' x.
Definition mem_eq : mem -> mem -> Prop := eq_on (fun _ => True).
Definition rng (a n x : Z) : Prop := a <= x < a + n.

#[export] Instance eq_on_equiv P : Equivalence (eq_on P).
Proof.
  split.
  - intros m x _. reflexivity.
  - intros m m' H x Hx. symmetry. auto.
  - intros m1 m2 m3 H1 H2 x Hx. rewrite H1 by done. auto.
Qed.

Lemma eq_on_weaken (P Q : Z -> Prop) m m' :
  (forall x, P x -> Q x) -> eq_on Q m m' -> eq_on P m m'.
Proof. intros H HQ x Hx. auto. Qed.

Lemma ld_range n m a : 0 <= ld n m a < 256 ^ Z.of_nat n.
Proof.
  revert a. induction n as [|n IH]; intros a; [simpl; lia|].
  change (ld (S n) m a) with (u8 (m a) + 256 * ld n m (a + 1)).
  specialize (IH (a + 1)). pose proof (u8_range (m a)).
  rewrite Nat2Z.inj_succ, Z.pow_succ_r by lia. lia.
Qed.
Lemma ld64_range m a : 0 <= ld64 m a < 2 ^ 64.
Proof. exact (ld_range 8 m a). Qed.

Lemma ld_ext n m m' a : eq_on (rng a (Z.of_nat n)) m m' -> ld n m a = ld n m' a.
Proof.
  revert a. induction n as [|n IH]; intros a H; [done|].
  simpl. rewrite (H a) by (unfold rng; lia). f_equal. f_equal.
  apply IH. intros x Hx. apply H. unfold rng in *. lia.
Qed.

#[export] Instance ld_proper n : Proper (mem_eq ==> (=) ==> (=)) (ld n).
Proof. intros m m' H a ? <-. apply ld_ext. intros x _. by apply H. Qed.
#[export] Instance st_proper n : Proper (mem_eq ==> (=) ==> (=) ==> mem_eq) (st n).
Proof. intros m m' H a ? <- v ? <- x _. unfold st. by rewrite (H x). Qed.

(** A word whose bytes are those of [v] is [v]. *)
Lemma ld_bytes n m a v :
  (forall i, 0 <= i < Z.of_nat n -> m (a + i) = u8 (Z.shiftr v (8 * i))) ->
  ld n m a = v mod 256 ^ Z.of_nat n.
Proof.
  revert a v. induction n as [|n IH]; intros a v H; [by rewrite Z.mod_1_r|].
  change (ld (S n) m a) with (u8 (m a) + 256 * ld n m (a + 1)).
  rewrite (IH (a + 1) (Z.shiftr v 8)).
  - replace (m a) with (m (a + 0)) by (f_equal; lia). rewrite (H 0) by lia.
    rewrite Z.mul_0_r, Z.shiftr_0_r. unfold u8. rewrite Zmod_mod.
    rewrite Nat2Z.inj_succ, Z.pow_succ_r, Z.shiftr_div_pow2 by lia.
    change (2 ^ 8) with 256. symmetry. apply Z.rem_mul_r; lia.
  - intros i Hi. replace (a + 1 + i) with (a + (i + 1)) by lia.
    rewrite (H (i + 1)) by lia. rewrite Z.shiftr_shiftr by lia. do 2 f_equal. lia.
Qed.

Lemma ld_st n m a v : ld n (st n m a v) a = v mod 256 ^ Z.of_nat n.
Proof.
  apply ld_bytes. intros i Hi. unfold st.
  rewrite (proj2 (andb_true_iff _ _)) by lia. do 2 f_equal. lia.
Qed.
Lemma ld64_st64 m a v : 0 <= v < 2 ^ 64 -> ld64 (st64 m a v) a = v.
Proof. intros H. unfold ld64, st64. rewrite ld_st. apply Z.mod_small. exact H. Qed.
Lemma ld32_st32 m a v : 0 <= v < 2 ^ 32 -> ld32 (st32 m a v) a = v.
Proof. intros H. unfold ld32, st32. rewrite ld_st. apply Z.mod_small. exact H. Qed.

Lemma st_outside n m a v x : ~ rng a (Z.of_nat n) x -> st n m a v x = m x.
Proof.
  unfold rng, st. intros H.
  destruct (Z.leb_spec a x), (Z.ltb_spec x (a + Z.of_nat n)); simpl; auto; lia.
Qed.
Lemma mset_outside m a c len x : ~ rng a len x -> mset m a c len x = m x.
Proof.
  unfold rng, mset. intros H.
  destruct (Z.leb_spec a x), (Z.ltb_spec x (a + len)); simpl; auto; lia.
Qed.
Lemma mset_inside m a c len x : rng a len x -> mset m a c len x = u8 c.
Proof. unfold rng, mset. intros H. rewrite (proj2 (andb_true_iff _ _)) by lia. done. Qed.
Lemma movsb_outside m dst src len x : ~ rng dst len x -> movsb m dst src len x = m x.
Proof.
  unfold rng, movsb. intros H.
  destruct (Z.leb_spec dst x), (Z.ltb_spec x (dst + len)); simpl; auto; lia.
Qed.
(** Without overlap the destination receives the source. *)
Lemma movsb_inside m dst src len i :
  0 <= i < len -> dst <= src \/ src + len <= dst ->
  movsb m dst src len (dst + i) = m (src + i).
Proof.
  intros Hi Hov. unfold movsb. rewrite (proj2 (andb_true_iff _ _)) by lia. simpl.
  rewrite (proj2 (andb_false_iff _ _)) by lia. f_equal. lia.
Qed.

Lemma ld_st_other k n m a b v :
  b + Z.of_nat k <= a \/ a + Z.of_nat n <= b -> ld k (st n m a v) b = ld k m b.
Proof. intros H. apply ld_ext. intros x Hx. apply st_outside. unfold rng in *. lia. Qed.
Lemma ld_mset_other k m a c len b :
  b + Z.of_nat k <= a \/ a + len <= b -> ld k (mset m a c len) b = ld k m b.
Proof. intros H. apply ld_ext. intros x Hx. apply mset_outside. unfold rng in *. lia. Qed.
Lemma ld_mset_zero k m a len b :
  a <= b -> b + Z.of_nat k <= a + len -> ld k (mset m a 0 len) b = 0.
Proof.
  intros H1 H2. rewrite (ld_bytes _ _ _ 0).
  - apply Z.mod_0_l. lia.
  - intros i Hi. rewrite mset_inside by (unfold rng; lia). by rewrite Z.shiftr_0_l.
Qed.
