(* ===== verification/Arch.v ===== *)
(** * Machine layout shared by the hypervisor and the guest kernel

    The numeric constants of [kernel/mm/translate.h], [kernel/utils/misc.h],
    [kernel/utils/errno.h] and of the top of [hypervisor/hypervisor.c], the
    addresses at which kernel code reaches physical memory, and the four-level
    page walk an x86-64 processor performs, which is the reference the page-table
    code of the kernel and of the hypervisor is verified against. *)

From S2P Require Import Prelude Memory.

(** ** Constants *)

(* kernel/mm/translate.h *)
Definition PROT_R : Z := 1.
Definition PROT_W : Z := 2.
Definition PROT_X : Z := 4.
Definition PROT_RW : Z := Z.lor PROT_R PROT_W.
Definition PDE64_PRESENT : Z := 1.
Definition PDE64_RW : Z := Z.shiftl 1 1.
Definition PDE64_USER : Z := Z.shiftl 1 2.
Definition PDE64_PS : Z := Z.shiftl 1 7.
Definition KERNEL_PAGING_SIZE : Z := 0x200000.
Definition MIN_USER_MEM : Z := KERNEL_PAGING_SIZE.
Definition KERNEL_BASE_OFFSET : Z := 0x8000000000.

(** [USER_MEM_RANGE_OK(v)]: above the kernel's first 2MB, below [2^48] and
    outside the slot of the kernel's direct map. *)
Definition USER_MEM_RANGE_OK (v : Z) : bool :=
  (MIN_USER_MEM <=? u64 v) && (Z.shiftr (u64 v) 48 =? 0) && negb (Z.shiftr (u64 v) 39 =? 1).

(* kernel/utils/misc.h; a negative int literal converts to uint64_t *)
Definition aligndown (v : Z) : Z := Z.land (u64 v) (u64 (-0x1000)).
Definition alignup (v : Z) : Z :=
  if nonzero (Z.land (u64 v) 0xfff) then u64 (aligndown v + 0x1000) else u64 v.
Definition alignok (v : Z) : bool := u64 v =? aligndown v.

(* kernel/utils/errno.h *)
Definition EPERM : Z := 1.
Definition ENOEXEC : Z := 8.
Definition EBADF : Z := 9.
Definition ENOMEM : Z := 12.
Definition EACCES : Z := 13.
Definition EFAULT : Z := 14.
Definition EINVAL : Z := 22.
Definition ENFILE : Z := 23.
Definition ENOSYS : Z := 38.

(* hypervisor/hypervisor.c *)
Definition PS_LIMIT : Z := 0x200000.
Definition KERNEL_STACK_SIZE : Z := 0x4000.
Definition PAGE_TABLE_SIZE : Z := 0x5000.
Definition MAX_KERNEL_SIZE : Z := PS_LIMIT - PAGE_TABLE_SIZE - KERNEL_STACK_SIZE.
Definition MEM_SIZE : Z := PS_LIMIT * 2.

(** ** Kernel addresses

    After [init_pagetable] the kernel reaches physical address [p] at
    [KERNEL_BASE_OFFSET + p]; the hypervisor's identity map of the first 2MB is
    still there.  [krange va len] is the physical address of a range accessed by
    the kernel; [None] is a fault (unmapped, or no RAM behind it). *)
Definition krange (va len : Z) : option Z :=
  if (KERNEL_BASE_OFFSET <=? va) && (va + len <=? KERNEL_BASE_OFFSET + MEM_SIZE)
  then Some (va - KERNEL_BASE_OFFSET)
  else if (0 <=? va) && (va + len <=? KERNEL_PAGING_SIZE) then Some va
  else None.

Lemma krange_direct va len :
  KERNEL_BASE_OFFSET <= va -> va + len <= KERNEL_BASE_OFFSET + MEM_SIZE ->
  krange va len = Some (va - KERNEL_BASE_OFFSET).
Proof. intros H1 H2. unfold krange. by rewrite (proj2 (andb_true_iff _ _)) by lia. Qed.

(** ** The processor's page walk *)

(** A translation: the physical address, and whether every level allows user
    mode and writing. *)
Record xlat := Xlat { x_pa : Z; x_user : bool; x_rw : bool }.

Definition tbl_index (va bits : Z) : Z := Z.land (Z.shiftr va bits) 0x1ff.
(** Bits 51:k of an entry: the physical address of a table or of a page. *)
Definition entry_addr (k e : Z) : Z := e mod 2 ^ 52 - e mod 2 ^ k.
Definition entry (m : mem) (table va bits : Z) : Z := ld64 m (table + 8 * tbl_index va bits).

Definition walk (m : mem) (cr3 va : Z) : option xlat :=
  if negb ((0 <=? va) && (va <? 2 ^ 47)) then None (* not canonical, or kernel half *)
  else
  let e4 := entry m (entry_addr 12 cr3) va 39 in
  if negb (has e4 PDE64_PRESENT) then None else
  let e3 := entry m (entry_addr 12 e4) va 30 in
  if negb (has e3 PDE64_PRESENT) then None else
  let us3 := has e4 PDE64_USER && has e3 PDE64_USER in
  let rw3 := has e4 PDE64_RW && has e3 PDE64_RW in
  if has e3 PDE64_PS then Some (Xlat (entry_addr 30 e3 + va mod 2 ^ 30) us3 rw3) else
  let e2 := entry m (entry_addr 12 e3) va 21 in
  if negb (has e2 PDE64_PRESENT) then None else
  let us2 := us3 && has e2 PDE64_USER in
  let rw2 := rw3 && has e2 PDE64_RW in
  if has e2 PDE64_PS then Some (Xlat (entry_addr 21 e2 + va mod 2 ^ 21) us2 rw2) else
  let e1 := entry m (entry_addr 12 e2) va 12 in
  if negb (has e1 PDE64_PRESENT) then None else
  Some (Xlat (entry_addr 12 e1 + va mod 2 ^ 12) (us2 && has e1 PDE64_USER)
             (rw2 && has e1 PDE64_RW)).

(** ** Alignment as arithmetic *)

Lemma u64_neg_page : u64 (-0x1000) = 2 ^ 64 - 2 ^ 12.
Proof. reflexivity. Qed.

Lemma aligndown_mod v : 0 <= v < 2 ^ 64 -> aligndown v = v - v mod 4096.
Proof.
  intros H. unfold aligndown. rewrite u64_small by done. rewrite u64_neg_page.
  by rewrite (land_high 64 12) by lia.
Qed.

Lemma low12_mod v : Z.land v 0xfff = v mod 4096.
Proof. exact (land_low v 12 ltac:(lia)). Qed.

Lemma alignok_mod v : 0 <= v < 2 ^ 64 -> alignok v = (v mod 4096 =? 0).
Proof.
  intros H. unfold alignok. rewrite u64_small, aligndown_mod by done.
  destruct (Z.eqb_spec (v mod 4096) 0); lia.
Qed.

(** [alignup] is the least multiple of the page size that is not below [v]. *)
Lemma alignup_spec v :
  0 <= v <= 2 ^ 64 - 4096 -> alignup v mod 4096 = 0 /\ v <= alignup v < v + 4096.
Proof.
  intros H. unfold alignup, nonzero.
  rewrite (u64_small v), low12_mod, aligndown_mod by lia.
  pose proof (Z.div_mod v 4096 ltac:(lia)).
  pose proof (Z.mod_pos_bound v 4096 ltac:(lia)).
  destruct (Z.eqb_spec (v mod 4096) 0); simpl; [lia|].
  rewrite u64_small by lia. split; [|lia].
  replace (v - v mod 4096 + 4096) with ((v / 4096 + 1) * 4096) by lia.
  apply Z.mod_mul. lia.
Qed.
