(* ===== verification/KString.v ===== *)
(** * The guest kernel's string routines (kernel/utils/string.c)

    The routines read through a function [rd] that loads the byte at a pointer,
    so that they apply to kernel and to user addresses.  [memset] and [memcpy]
    work on flat memory; their closed forms [mset] and [movsb] are shown equal to
    the byte loops of the source and of the instruction. *)

From S2P Require Import Prelude Memory.

Section Strings.
Context {S : Type} (rd : Z -> cmd S Z).

Definition strnlen (s maxlen : Z) : cmd S Z :=
  mloop (fun '(i, p) =>
    if i <? maxlen then
      c ← rd p;
      if c =? 0 then mret (inr i) else mret (inl (u64 (i + 1), u64 (p + 1)))
    else mret (inr maxlen)) (0, s).

Definition strlen (s : Z) : cmd S Z := strnlen s (2 ^ 63 - 1).

Definition memcmp (s1 s2 n : Z) : cmd S Z :=
  mloop (fun '(n, p1, p2) =>
    if n =? 0 then mret (inr 0)
    else c1 ← rd p1; c2 ← rd p2;
         if c1 =? c2 then mret (inl (n - 1, u64 (p1 + 1), u64 (p2 + 1)))
         else mret (inr (c1 - c2))) (n, s1, s2).

(** Bytes [b 0 .. b (n-1)] are readable at [s]. *)
Definition readable (st : S) (s n : Z) (b : Z -> Z) : Prop :=
  0 <= s /\ s + n < 2 ^ 64 /\ forall i, 0 <= i < n -> rd (s + i) st = Ok (b i) st.

Lemma strnlen_run st s n b maxlen k i :
  readable st s n b -> 0 <= i -> i + Z.of_nat k < maxlen -> maxlen < 2 ^ 64 ->
  i + Z.of_nat k < n ->
  (forall j, 0 <= j < i + Z.of_nat k -> b j <> 0) -> b (i + Z.of_nat k) = 0 ->
  run (mbody (fun '(i, p) =>
    if i <? maxlen then
      c ← rd p;
      if c =? 0 then mret (inr i) else mret (inl (u64 (i + 1), u64 (p + 1)))
    else mret (inr maxlen))) (Datatypes.S k) ((i, s + i), st) = inr (Ok (i + Z.of_nat k) st).
Proof.
  intros (Hs0 & Hs1 & Hrd) Hi Hmax Hmax' Hn Hnz Hz. revert i Hi Hmax Hn Hnz Hz.
  induction k as [|k IH]; intros i Hi Hmax Hn Hnz Hz.
  - apply mbody_done. rewrite (proj2 (Z.ltb_lt _ _)) by lia.
    rewrite (bind_ok _ _ _ _ _ (Hrd i ltac:(lia))).
    rewrite Z.add_0_r in Hz |- *. by rewrite Hz.
  - erewrite mbody_next.
    2:{ rewrite (proj2 (Z.ltb_lt _ _)) by lia.
        rewrite (bind_ok _ _ _ _ _ (Hrd i ltac:(lia))).
        rewrite (proj2 (Z.eqb_neq _ _)) by (apply Hnz; lia). reflexivity. }
    rewrite !u64_small by lia. replace (s + i + 1) with (s + (i + 1)) by lia.
    replace (i + Z.of_nat (Datatypes.S k)) with (i + 1 + Z.of_nat k) in * by lia.
    apply IH; auto; lia.
Qed.

(** A terminated string has the length up to its first zero byte. *)
Lemma strnlen_found st s n b maxlen k :
  readable st s n b -> 0 <= k < n -> k < maxlen < 2 ^ 64 ->
  (forall j, 0 <= j < k -> b j <> 0) -> b k = 0 ->
  strnlen s maxlen st = Ok k st.
Proof.
  intros Hr Hk Hmax Hnz Hz. unfold strnlen.
  eapply (mloop_result _ (Datatypes.S (Z.to_nat k))); [|lia].
  pose proof (strnlen_run st s n b maxlen (Z.to_nat k) 0 Hr) as H.
  rewrite Z2Nat.id in H by lia. rewrite Z.add_0_r in H. rewrite !Z.add_0_l in H.
  apply H; auto; lia.
Qed.

(** With no zero byte before the limit, the limit is returned. *)
Lemma strnlen_limit st s b maxlen :
  0 <= maxlen < 2 ^ 63 -> readable st s maxlen b ->
  (forall j, 0 <= j < maxlen -> b j <> 0) ->
  strnlen s maxlen st = Ok maxlen st.
Proof.
  intros Hm (Hs0 & Hs1 & Hrd) Hnz. unfold strnlen.
  eapply (mloop_result _ (Datatypes.S (Z.to_nat maxlen))); [|lia].
  enough (forall k i, 0 <= i -> i + Z.of_nat k = maxlen ->
    run (mbody (fun '(i, p) =>
      if i <? maxlen then
        c ← rd p;
        if c =? 0 then mret (inr i) else mret (inl (u64 (i + 1), u64 (p + 1)))
      else mret (inr maxlen))) (Datatypes.S k) ((i, s + i), st) = inr (Ok maxlen st)) as H.
  { specialize (H (Z.to_nat maxlen) 0). rewrite Z.add_0_r in H. apply H; lia. }
  induction k as [|k IH]; intros i Hi Heq.
  - apply mbody_done. by rewrite (proj2 (Z.ltb_ge _ _)) by lia.
  - erewrite mbody_next.
    2:{ rewrite (proj2 (Z.ltb_lt _ _)) by lia.
        rewrite (bind_ok _ _ _ _ _ (Hrd i ltac:(lia))).
        rewrite (proj2 (Z.eqb_neq _ _)) by (apply Hnz; lia). reflexivity. }
    rewrite !u64_small by lia. replace (s + i + 1) with (s + (i + 1)) by lia.
    apply IH; lia.
Qed.

(** [memcmp] is zero exactly on equal ranges. *)
Lemma memcmp_spec st s1 s2 n b1 b2 :
  0 <= n < 2 ^ 63 -> readable st s1 n b1 -> readable st s2 n b2 ->
  exists r, memcmp s1 s2 n st = Ok r st /\
            (r = 0 <-> forall j, 0 <= j < n -> b1 j = b2 j).
Proof.
  intros Hn (H10 & H11 & Hr1) (H20 & H21 & Hr2).
  enough (forall k i, 0 <= i -> i + Z.of_nat k = n ->
    exists r, run (mbody (fun '(n, p1, p2) =>
      if n =? 0 then mret (inr 0)
      else c1 ← rd p1; c2 ← rd p2;
           if c1 =? c2 then mret (inl (n - 1, u64 (p1 + 1), u64 (p2 + 1)))
           else mret (inr (c1 - c2)))) (Datatypes.S k)
        ((Z.of_nat k, s1 + i, s2 + i), st) = inr (Ok r st) /\
      (r = 0 <-> forall j, i <= j < n -> b1 j = b2 j)) as H.
  { destruct (H (Z.to_nat n) 0) as (r & Hrun & Hr); [lia|lia|].
    rewrite Z2Nat.id, !Z.add_0_r in Hrun by lia. exists r. split; [|done].
    eapply mloop_result; [exact Hrun|lia]. }
  induction k as [|k IH]; intros i Hi Heq.
  - exists 0. split; [by apply mbody_done|]. split; [intros _ j Hj; lia|done].
  - destruct (Z.eqb_spec (b1 i) (b2 i)) as [He|Hne].
    + destruct (IH (i + 1)) as (r & Hrun & Hr); [lia|lia|]. exists r. split.
      * erewrite mbody_next.
        2:{ rewrite (proj2 (Z.eqb_neq _ _)) by lia.
            rewrite (bind_ok _ _ _ _ _ (Hr1 i ltac:(lia))).
            rewrite (bind_ok _ _ _ _ _ (Hr2 i ltac:(lia))).
            rewrite He, Z.eqb_refl. reflexivity. }
        rewrite !u64_small by lia.
        replace (Z.of_nat (Datatypes.S k) - 1) with (Z.of_nat k) by lia.
        replace (s1 + i + 1) with (s1 + (i + 1)) by lia.
        replace (s2 + i + 1) with (s2 + (i + 1)) by lia. exact Hrun.
      * rewrite Hr. split; intros Hall j Hj; [|apply Hall; lia].
        destruct (Z.eq_dec j i) as [->|]; [done|]. apply Hall. lia.
    + exists (b1 i - b2 i). split.
      * apply mbody_done. rewrite (proj2 (Z.eqb_neq _ _)) by lia.
        rewrite (bind_ok _ _ _ _ _ (Hr1 i ltac:(lia))).
        rewrite (bind_ok _ _ _ _ _ (Hr2 i ltac:(lia))).
        by rewrite (proj2 (Z.eqb_neq _ _)) by done.
      * split; [lia|]. intros Hall. exfalso. apply Hne, Hall. lia.
Qed.
End Strings.

(** ** [memset] and [memcpy] *)

(** The loop of [memset]: [i] is an [int], compared with the [uint64_t] length. *)
Definition memset_loop (m : mem) (b c len : Z) : option mem :=
  loop (fun '(i, m) =>
    if u64 i <? len then inl (s32 (i + 1), fun x => if x =? b + i then u8 c else m x)
    else inr m) (0, m).

(** The loop writes what [mset] writes whenever the length fits an [int]. *)
Lemma memset_loop_mset m b c len :
  0 <= len < 2 ^ 31 ->
  exists m', memset_loop m b c len = Some m' /\ mem_eq m' (mset m b c len).
Proof.
  intros Hlen. unfold memset_loop.
  enough (forall k i m0, 0 <= i -> i + Z.of_nat k = len ->
    exists m', run (fun '(i, m) =>
        if u64 i <? len then inl (s32 (i + 1), fun x => if x =? b + i then u8 c else m x)
        else inr m) (Datatypes.S k) (i, m0) = inr m' /\
      mem_eq m' (mset m0 (b + i) c (len - i))) as H.
  { destruct (H (Z.to_nat len) 0 m) as (m' & Hrun & Hm); [lia|lia|].
    exists m'. split; [eapply loop_result; [exact Hrun|lia]|].
    by rewrite Z.add_0_r, Z.sub_0_r in Hm. }
  induction k as [|k IH]; intros i m0 Hi Heq.
  - exists m0. simpl. rewrite u64_small, (proj2 (Z.ltb_ge _ _)) by lia. split; [done|].
    intros x _. rewrite mset_outside; [done|]. unfold rng. lia.
  - destruct (IH (i + 1) (fun x => if x =? b + i then u8 c else m0 x)) as (m' & Hrun & Hm);
      [lia|lia|].
    exists m'. split.
    + remember (Datatypes.S k) as k' eqn:Ek. simpl. rewrite u64_small by lia.
      rewrite (proj2 (Z.ltb_lt _ _)), s32_small by lia. exact Hrun.
    + intros x Hx. rewrite (Hm x Hx). unfold mset.
      destruct (Z.eqb_spec x (b + i)) as [->|Hne].
      * rewrite (proj2 (Z.leb_gt _ _)) by lia. simpl.
        rewrite (proj2 (andb_true_iff _ _)) by lia. done.
      * destruct (Z.leb_spec (b + (i + 1)) x), (Z.ltb_spec x (b + (i + 1) + (len - (i + 1))));
          simpl; [rewrite (proj2 (andb_true_iff _ _)) by lia; done|..];
          rewrite (proj2 (andb_false_iff _ _)) by lia; done.
Qed.

(** [rep movsb]: copying forwards byte by byte is [movsb], overlap included. *)
Lemma movsb_loop_movsb n m dst src :
  mem_eq (movsb_loop n m dst src) (movsb m dst src (Z.of_nat n)).
Proof.
  revert m dst src. induction n as [|n IH]; intros m dst src x Hx.
  - simpl. rewrite movsb_outside; [done|]. unfold rng. lia.
  - cbn [movsb_loop]. rewrite (IH _ _ _ x Hx). unfold movsb.
    rewrite Nat2Z.inj_succ.
    replace (dst + 1 - (src + 1)) with (dst - src) by lia.
    destruct (Z.eq_dec x dst) as [->|Hne].
    + rewrite (proj2 (Z.leb_gt _ _)) by lia. simpl. rewrite Z.eqb_refl.
      rewrite (proj2 (andb_true_iff _ _)) by lia. rewrite Z.sub_diag.
      destruct ((0 <? dst - src) && (dst - src <? Z.succ (Z.of_nat n))) eqn:E.
      * rewrite Z.mod_0_l by lia. f_equal. lia.
      * f_equal. lia.
    + destruct ((dst + 1 <=? x) && (x <? dst + 1 + Z.of_nat n)) eqn:Ein.
      2:{ rewrite (proj2 (Z.eqb_neq _ _)) by done.
          by rewrite (proj2 (andb_false_iff _ _)) by lia. }
      rewrite (proj2 (andb_true_iff (dst <=? x) _)) by lia.
      set (d := dst - src) in *. set (i := x - dst).
      assert (Hi : 0 < i < Z.of_nat n + 1) by lia.
      replace (x - (dst + 1)) with (i - 1) by lia.
      destruct ((0 <? d) && (d <? Z.succ (Z.of_nat n))) eqn:Ed.
      * destruct (Z.ltb_spec d (Z.of_nat n)) as [Hd|Hd].
        -- rewrite andb_true_r. rewrite (proj2 (Z.ltb_lt 0 d)) by lia.
           pose proof (Z.div_mod (i - 1) d ltac:(lia)).
           pose proof (Z.mod_pos_bound (i - 1) d ltac:(lia)).
           destruct (Z.eqb_spec (src + 1 + (i - 1) mod d) dst) as [Heq|Hneq].
           ++ replace (i mod d) with 0; [f_equal; lia|].
              replace i with (d * ((i - 1) / d + 1)) by lia.
              rewrite Z.mul_comm, Z.mod_mul by lia. done.
           ++ f_equal.
              assert (i mod d = (i - 1) mod d + 1) as ->; [|lia].
              symmetry. apply (Z.mod_unique_pos i d ((i - 1) / d)); lia.
        -- assert (d = Z.of_nat n) by lia. rewrite andb_false_r.
           destruct (Z.eqb_spec (src + 1 + (i - 1)) dst) as [Heq|Hneq].
           ++ replace i with d by lia. rewrite Z.mod_same by lia. f_equal. lia.
           ++ rewrite (Z.mod_small i) by lia. f_equal. lia.
      * rewrite (proj2 (andb_false_iff (0 <? d) (d <? Z.of_nat n))) by lia.
        rewrite (proj2 (Z.eqb_neq _ _)) by lia. f_equal. lia.
Qed.
