(* ===== verification/Kmalloc.v ===== *)
(** * The guest kernel's allocator (kernel/mm/kmalloc.c)

    The state is the physical memory, in which the chunk headers live, and the
    static [arena].  Pointers are 64-bit kernel addresses; every access goes
    through [krange], so a wild pointer is a fault and not a default value. *)

From S2P Require Import Prelude Memory Arch.

(** [struct kmalloc_arena]; [sorted_bin] is the embedded list head. *)
Record arena := Arena {
  top : Z;
  top_size : Z;
  min_addr : Z;
  bin_size : Z;
  bin_pad : Z;
  bin_next : Z
}.

Record heap := Heap { h_mem : mem; h_arena : arena }.

Definition set_mem (m : mem) (h : heap) : heap := Heap m (h_arena h).
Definition set_top (t sz : Z) (a : arena) : arena :=
  Arena t sz (min_addr a) (bin_size a) (bin_pad a) (bin_next a).
Definition set_bin_next (n : Z) (a : arena) : arena :=
  Arena (top a) (top_size a) (min_addr a) (bin_size a) (bin_pad a) n.
Definition set_arena (a : arena) (h : heap) : heap := Heap (h_mem h) a.

(** ** Kernel memory accesses *)

Definition kload (va : Z) : cmd heap Z := fun h =>
  match krange va 8 with
  | Some pa => Ok (ld64 (h_mem h) pa) h
  | None => Halt (Fault va)
  end.
Definition kstore (va v : Z) : cmd heap unit := fun h =>
  match krange va 8 with
  | Some pa => Ok tt (set_mem (st64 (h_mem h) pa v) h)
  | None => Halt (Fault va)
  end.
(** [memset(b, c, len)]; see [KString.memset_loop_mset] for the loop. *)
Definition kmemset (va c len : Z) : cmd heap unit := fun h =>
  if len =? 0 then Ok tt h else
  match krange va len with
  | Some pa => Ok tt (set_mem (mset (h_mem h) pa c len) h)
  | None => Halt (Fault va)
  end.

(** ** Chunks: [struct chunk { size; pad; next }] *)

Definition OFF_NEXT : Z := 16. (* offsetof(struct chunk, next) *)
Definition SIZEOF_CHUNK : Z := 24.
Definition chunk2mem (c : Z) : Z := u64 (c + OFF_NEXT).
Definition mem2chunk (m : Z) : Z := u64 (m - OFF_NEXT).

(** A [struct chunk *] that [insert_sorted] and [fetch_sorted_bin] keep as
    [prev]: the list head inside the arena, or a chunk in memory. *)
Inductive slot := Bin | Node (c : Z).
#[export] Instance slot_eq_dec : EqDecision slot.
Proof. solve_decision. Defined.

Definition set_next (p : slot) (v : Z) : cmd heap unit :=
  match p with
  | Bin => modify (fun h => set_arena (set_bin_next v (h_arena h)) h)
  | Node c => kstore (c + OFF_NEXT) v
  end.

Definition MALLOC_NO_ALIGN : Z := 0.
Definition MALLOC_PAGE_ALIGN : Z := 0x1000.

(** ** Operations *)

Definition init_allocator (addr len : Z) : cmd heap unit :=
  if (len =? 0) || nonzero (Z.land len 0xfff)
  then panic "kmalloc.c#init_allocator: invalid length"
  else modify (fun h => set_arena (Arena addr len addr 0 0 0) h).

Definition invalid_chunk_size (s : Z) : bool :=
  if s =? 0 then true
  else if 2 ^ 32 <=? s then true
  else if nonzero (Z.land s 0xf) then true
  else false.

(** The body of the [while] loop of [insert_sorted], and its two final stores. *)
Definition insert_body (c : Z) (st : Z * slot) : cmd heap ((Z * slot) + unit) :=
  let '(now, prev) := st in
  if now =? 0 then
    set_next prev c ;; kstore (c + OFF_NEXT) now ;; mret (inr tt)
  else
    nsz ← kload now;
    csz ← kload c;
    if nsz <? csz then
      nx ← kload (now + OFF_NEXT);
      mret (inl (nx, Node now))
    else
      set_next prev c ;; kstore (c + OFF_NEXT) now ;; mret (inr tt).

Definition insert_sorted (c : Z) : cmd heap unit :=
  h ← get;
  mloop (insert_body c) (bin_next (h_arena h), Bin).

Definition fetch_body (nb : Z) (st : Z * slot) : cmd heap ((Z * slot) + Z) :=
  let '(now, prev) := st in
  if now =? 0 then mret (inr 0)
  else
    sz ← kload now;
    if invalid_chunk_size sz then panic "kmalloc.c: invalid size of sorted bin"
    else if nb <=? sz then
      nx ← kload (now + OFF_NEXT);
      set_next prev nx ;;
      (if sz =? nb then mret tt
       else
         let r := u64 (now + nb) in
         kstore r (u64 (sz - nb)) ;;
         insert_sorted r) ;;
      kmemset now 0 SIZEOF_CHUNK ;;
      kstore now nb ;;
      mret (inr (chunk2mem now))
    else
      nx ← kload (now + OFF_NEXT);
      mret (inl (nx, Node now)).

Definition fetch_sorted_bin (nb : Z) : cmd heap Z :=
  h ← get;
  mloop (fetch_body nb) (bin_next (h_arena h), Bin).

Definition malloc_top (nb : Z) : cmd heap Z :=
  h ← get;
  let a := h_arena h in
  if top_size a <? nb then mret 0
  else
    modify (fun h => set_arena (set_top (top a) (u64 (top_size a - nb)) (h_arena h)) h) ;;
    kstore (top a) nb ;;
    modify (fun h => set_arena (set_top (u64 (top a + nb)) (top_size (h_arena h)) (h_arena h)) h) ;;
    mret (chunk2mem (top a)).

Definition kfree (m : Z) : cmd heap unit :=
  if m =? 0 then mret tt
  else
    let c := mem2chunk m in
    sz ← kload c;
    if invalid_chunk_size sz then panic "kmalloc.c#kfree: invalid size"
    else
      h ← get;
      if u64 (sz + c) =? top (h_arena h) then
        modify (fun h => set_arena (set_top c (u64 (top_size (h_arena h) + sz)) (h_arena h)) h) ;;
        kstore c 0
      else insert_sorted c.

Definition int_kmalloc (nb align : Z) : cmd heap Z :=
  if align =? MALLOC_NO_ALIGN then
    ret ← fetch_sorted_bin nb;
    if ret =? 0 then malloc_top nb else mret ret
  else if negb (align =? MALLOC_PAGE_ALIGN) then panic "kmalloc.c#kmalloc: invalid alignment"
  else
    h ← get;
    let cur := Z.land (top (h_arena h)) (align - 1) in
    let consume := Z.land (u64 (align - OFF_NEXT - cur)) (align - 1) in
    gap ← (if consume =? 0 then mret (Some 0)
           else
             g ← malloc_top consume;
             if g =? 0 then mret None else mret (Some g));
    match gap with
    | None => mret 0
    | Some g =>
        ret ← malloc_top nb;
        kfree g ;;
        mret ret
    end.

(** The two-argument [alignup(v, p)] macro of this file. *)
Definition alignup_to (v p : Z) : Z :=
  if nonzero (Z.land v (p - 1)) then u64 (Z.land v (u64 (- p)) + p) else v.

Definition kmalloc (len align : Z) : cmd heap Z :=
  if 2 ^ 32 <=? len then mret 0
  else
    let nb := alignup_to (u64 (len + OFF_NEXT)) 0x80 in
    victim ← int_kmalloc nb align;
    if negb (align =? MALLOC_NO_ALIGN) && nonzero (Z.land victim (align - 1))
    then panic "kmalloc.c#kmalloc: alignment request failed"
    else
      kmemset victim 0 len ;;
      mret victim.
