(* ===== verification/KmallocSpec.v ===== *)
(** * Specification of the allocator

    An abstract allocator keeps the list of free chunks in bin order, the list of
    live chunks and the boundary [a_top] of the untouched area; it has no pointers
    and no memory.  [wf] is its invariant: every byte between the base and the top
    belongs to exactly one chunk.  [repr] relates it to the arena and the linked
    list of headers in memory. *)

From S2P Require Import Prelude Memory Arch Kmalloc.

Abbreviation chunk := (Z * Z)%type (only parsing). (* address of the header, size of the chunk *)

Record aheap := AHeap {
  a_base : Z;
  a_top : Z;
  a_end : Z;
  a_free : list chunk;
  a_live : list chunk
}.

(** ** The abstract operations *)

Fixpoint insert_chunk (c : chunk) (l : list chunk) : list chunk :=
  match l with
  | [] => [c]
  | d :: l' => if d.2 <? c.2 then d :: insert_chunk c l' else c :: d :: l'
  end.

(** The first free chunk that is large enough, and the others. *)
Fixpoint take_fit (nb : Z) (l : list chunk) : option (chunk * list chunk) :=
  match l with
  | [] => None
  | d :: l' =>
      if nb <=? d.2 then Some (d, l')
      else match take_fit nb l' with
           | Some (x, r) => Some (x, d :: r)
           | None => None
           end
  end.

Definition a_fetch (nb : Z) (a : aheap) : option (Z * aheap) :=
  match take_fit nb (a_free a) with
  | None => None
  | Some ((c, s), rest) =>
      let free' := if s =? nb then rest else insert_chunk (c + nb, s - nb) rest in
      Some (c + OFF_NEXT, AHeap (a_base a) (a_top a) (a_end a) free' ((c, nb) :: a_live a))
  end.

Definition a_malloc_top (nb : Z) (a : aheap) : option (Z * aheap) :=
  if a_end a - a_top a <? nb then None
  else Some (a_top a + OFF_NEXT,
             AHeap (a_base a) (a_top a + nb) (a_end a) (a_free a) ((a_top a, nb) :: a_live a)).

Fixpoint drop_chunk (c : Z) (l : list chunk) : list chunk :=
  match l with
  | [] => []
  | d :: l' => if d.1 =? c then l' else d :: drop_chunk c l'
  end.

(** Freeing the live chunk [(c, s)]. *)
Definition a_release (c s : Z) (a : aheap) : aheap :=
  if s + c =? a_top a
  then AHeap (a_base a) c (a_end a) (a_free a) (drop_chunk c (a_live a))
  else AHeap (a_base a) (a_top a) (a_end a) (insert_chunk (c, s) (a_free a))
             (drop_chunk c (a_live a)).

(** Bytes to skip so that the next chunk's payload starts a page. *)
Definition page_gap (t : Z) : Z := (MALLOC_PAGE_ALIGN - OFF_NEXT - t) mod 4096.

Definition a_malloc_page (nb : Z) (a : aheap) : option Z * aheap :=
  let g := page_gap (a_top a) in
  if g =? 0 then
    match a_malloc_top nb a with Some (p, a') => (Some p, a') | None => (None, a) end
  else
    match a_malloc_top g a with
    | None => (None, a)
    | Some (_, a1) =>
        match a_malloc_top nb a1 with
        | Some (p, a2) => (Some p, a_release (a_top a) g a2)
        | None => (None, a_release (a_top a) g a1)
        end
    end.

Definition a_malloc (nb align : Z) (a : aheap) : option Z * aheap :=
  if align =? MALLOC_NO_ALIGN then
    match a_fetch nb a with
    | Some (p, a') => (Some p, a')
    | None => match a_malloc_top nb a with Some (p, a') => (Some p, a') | None => (None, a) end
    end
  else a_malloc_page nb a.

(** ** The invariant *)

Definition inb (x : Z) (d : chunk) : bool := (d.1 <=? x) && (x <? d.1 + d.2).
(** How many chunks contain the byte [x]. *)
Definition ncover (l : list chunk) (x : Z) : Z :=
  foldr (fun d n => Z.b2z (inb x d) + n) 0 l.

(** Addresses and sizes that occur: requests are rounded to [0x80], and only the
    gap before a page-aligned chunk has a size that is [0x70] modulo [0x80]. *)
Definition chunk_ok (d : chunk) : Prop :=
  0x70 <= d.2 /\
  ((d.1 mod 0x80 = 0 /\ (d.2 mod 0x80 = 0 \/ d.2 mod 0x80 = 0x70)) \/
   (d.1 mod 0x80 = 0x70 /\ d.2 mod 0x80 = 0)).

Definition a_chunks (a : aheap) : list chunk := a_free a ++ a_live a.

Record wf (a : aheap) : Prop := Wf {
  wf_base : KERNEL_BASE_OFFSET + KERNEL_PAGING_SIZE <= a_base a;
  wf_base_page : a_base a mod 4096 = 0;
  wf_end : a_end a <= KERNEL_BASE_OFFSET + MEM_SIZE;
  wf_top : a_base a <= a_top a <= a_end a;
  wf_top_mod : a_top a mod 0x80 = 0 \/ a_top a mod 0x80 = 0x70;
  wf_chunks : Forall chunk_ok (a_chunks a);
  wf_tiles : forall x, ncover (a_chunks a) x = Z.b2z ((a_base a <=? x) && (x <? a_top a))
}.

(** ** Representation in memory *)

Definition ldk (m : mem) (va : Z) : Z := ld64 m (va - KERNEL_BASE_OFFSET).
Definition stk (m : mem) (va v : Z) : mem := st64 m (va - KERNEL_BASE_OFFSET) v.

(** The linked list from [p] to [q] holds the chunks [l]. *)
Fixpoint seg (m : mem) (p : Z) (l : list chunk) (q : Z) : Prop :=
  match l with
  | [] => p = q
  | (c, s) :: l' => p = c /\ ldk m c = s /\ seg m (ldk m (c + OFF_NEXT)) l' q
  end.

Record repr (h : heap) (a : aheap) : Prop := Repr {
  r_top : top (h_arena h) = a_top a;
  r_size : top_size (h_arena h) = a_end a - a_top a;
  r_min : min_addr (h_arena h) = a_base a;
  r_bin : seg (h_mem h) (bin_next (h_arena h)) (a_free a) 0;
  r_live : Forall (fun d => ldk (h_mem h) d.1 = d.2) (a_live a)
}.

(** The heap is well-formed and represented. *)
Definition hinv (h : heap) (a : aheap) : Prop := repr h a /\ wf a.

(** ** Counting *)

Lemma ncover_app l1 l2 x : ncover (l1 ++ l2) x = ncover l1 x + ncover l2 x.
Proof. unfold ncover. induction l1 as [|d l IH]; simpl in *; lia. Qed.
Lemma ncover_cons d l x : ncover (d :: l) x = Z.b2z (inb x d) + ncover l x.
Proof. reflexivity. Qed.
Lemma ncover_nonneg l x : 0 <= ncover l x.
Proof. induction l as [|d l IH]; [done|]. rewrite ncover_cons. destruct (inb x d); simpl; lia. Qed.
#[export] Instance ncover_perm : Proper ((≡ₚ) ==> (=) ==> (=)) ncover.
Proof.
  intros l1 l2 Hp x ? <-. induction Hp; rewrite ?ncover_cons in *; try lia; done.
Qed.
Lemma ncover_elem d l x : d ∈ l -> inb x d = true -> 1 <= ncover l x.
Proof.
  intros Hd Hx. induction Hd as [d l|d e l Hd IH]; rewrite ncover_cons.
  - rewrite Hx. simpl. pose proof (ncover_nonneg l x). lia.
  - specialize (IH Hx). destruct (inb x e); simpl; lia.
Qed.
Lemma ncover_zero l x : ncover l x = 0 -> Forall (fun d => inb x d = false) l.
Proof.
  induction l as [|d l IH]; [constructor|]. rewrite ncover_cons.
  pose proof (ncover_nonneg l x). destruct (inb x d) eqn:E; simpl; [lia|].
  intros. constructor; auto.
Qed.

Lemma insert_chunk_perm c l : insert_chunk c l ≡ₚ c :: l.
Proof.
  induction l as [|d l IH]; simpl; [done|]. destruct (d.2 <? c.2); [|done].
  rewrite IH. constructor.
Qed.
Lemma take_fit_perm nb l d r : take_fit nb l = Some (d, r) -> l ≡ₚ d :: r /\ nb <= d.2.
Proof.
  revert r. induction l as [|e l IH]; intros r; simpl; [done|].
  destruct (Z.leb_spec nb e.2).
  - intros [= <- <-]. auto.
  - destruct (take_fit nb l) as [[x r']|]; [|done]. intros [= -> <-].
    destruct (IH r' eq_refl) as [Hp Hle]. split; [|done]. rewrite Hp. constructor.
Qed.
Lemma drop_chunk_perm c s l :
  (c, s) ∈ l -> (forall t, (c, t) ∈ l -> t = s) -> l ≡ₚ (c, s) :: drop_chunk c l.
Proof.
  induction l as [|[d t] l IH]; intros Hin Hu; [by apply not_elem_of_nil in Hin|].
  simpl. destruct (Z.eqb_spec d c) as [->|Hne].
  - rewrite (Hu t) by (left). done.
  - apply elem_of_cons in Hin as [[= -> ->]|Hin]; [done|].
    rewrite IH at 1 by (auto; intros u Hu'; apply Hu; by right). constructor.
Qed.

(** ** Disjointness *)

Definition bdisj (d e : chunk) : Prop := d.1 + d.2 <= e.1 \/ e.1 + e.2 <= d.1.
#[export] Instance bdisj_sym : Symmetric bdisj.
Proof. unfold bdisj. intros d e. lia. Qed.

Lemma cover_disj l :
  (forall x, ncover l x <= 1) -> Forall (fun d => 0 < d.2) l -> pairwise bdisj l.
Proof.
  induction l as [|d l IH]; intros Hc Hp; [done|]. apply Forall_cons in Hp as [Hd Hp].
  split.
  - apply Forall_forall. intros e He. rewrite Forall_forall in Hp. specialize (Hp e He).
    destruct (decide (bdisj d e)) as [|Hn]; [done|]. exfalso.
    unfold bdisj in Hn. specialize (Hc (Z.max d.1 e.1)). rewrite ncover_cons in Hc.
    assert (1 <= ncover l (Z.max d.1 e.1))
      by (apply (ncover_elem e); [done|]; unfold inb; apply andb_true_iff; lia).
    assert (inb (Z.max d.1 e.1) d = true) as E by (unfold inb; apply andb_true_iff; lia).
    rewrite E in Hc. simpl in Hc. lia.
  - apply IH; [|done]. intros x. specialize (Hc x). rewrite ncover_cons in Hc.
    destruct (inb x d); simpl in Hc; lia.
Qed.

Lemma chunk_ok_pos l : Forall chunk_ok l -> Forall (fun d => 0 < d.2) l.
Proof. intros H. eapply Forall_impl; [exact H|]. unfold chunk_ok. intros d. lia. Qed.

Lemma wf_disj a : wf a -> pairwise bdisj (a_chunks a).
Proof.
  intros W. apply cover_disj; [|apply chunk_ok_pos, W].
  intros x. rewrite (wf_tiles _ W). destruct (_ && _); simpl; lia.
Qed.

(** A chunk lies between the base and the top. *)
Lemma wf_within a d : wf a -> d ∈ a_chunks a -> a_base a <= d.1 /\ d.1 + d.2 <= a_top a.
Proof.
  intros W Hd. pose proof (wf_chunks _ W) as Hok. rewrite Forall_forall in Hok.
  specialize (Hok d Hd). unfold chunk_ok in Hok.
  assert (forall x, inb x d = true -> a_base a <= x < a_top a) as Hx.
  { intros x Hx. pose proof (ncover_elem d _ x Hd Hx) as H. rewrite (wf_tiles _ W) in H.
    destruct (_ && _) eqn:E; simpl in H; lia. }
  pose proof (Hx d.1). pose proof (Hx (d.1 + d.2 - 1)). unfold inb in *. lia.
Qed.
