(* ===== verification/KmallocProof.v ===== *)
(** * The allocator refines its specification

    Pointer-level reasoning: the loops over the linked list of free chunks compute
    the list functions of [KmallocSpec], and change no byte outside the headers
    they link. *)

From S2P Require Import Prelude Memory Arch Kmalloc KmallocSpec.

(** ** Headers *)

(** The 24-byte headers at [p] and [q] do not overlap. *)
Definition hdisj (p q : Z) : Prop := p + SIZEOF_CHUNK <= q \/ q + SIZEOF_CHUNK <= p.
#[export] Instance hdisj_sym : Symmetric hdisj.
Proof. unfold hdisj. intros p q. lia. Qed.
(** The header at [p] is in RAM. *)
Definition hram (p : Z) : Prop :=
  KERNEL_BASE_OFFSET <= p /\ p + SIZEOF_CHUNK <= KERNEL_BASE_OFFSET + MEM_SIZE.

(** A list of headers that are in RAM and apart. *)
Definition hdrs (l : list Z) : Prop := Forall hram l /\ pairwise hdisj l.

Lemma hdrs_perm l1 l2 : l1 ≡ₚ l2 -> hdrs l1 -> hdrs l2.
Proof. intros Hp [H1 H2]. split; [by rewrite <- Hp|exact (pairwise_perm _ _ _ Hp H2)]. Qed.
Lemma hdrs_tail p l : hdrs (p :: l) -> hdrs l.
Proof. intros [H1 [H2 H3]]. apply Forall_cons in H1 as [_ H1]. by split. Qed.
Lemma hdrs_skip p q l : hdrs (p :: q :: l) -> hdrs (p :: l).
Proof. intros H. apply (hdrs_tail q). eapply hdrs_perm; [|exact H]. constructor. Qed.
Lemma hdrs_head p l : hdrs (p :: l) -> hram p.
Proof. intros [H1 _]. by apply Forall_cons in H1 as [? _]. Qed.
Lemma hdrs_in p l : hdrs l -> p ∈ l -> hram p.
Proof. intros [H1 _]. rewrite Forall_forall in H1. apply H1. Qed.
Lemma hdrs_apart p l q : hdrs (p :: l) -> q ∈ l -> hdisj p q.
Proof. intros [_ [H _]]. rewrite Forall_forall in H. apply H. Qed.

(** The bytes of the [next] fields of the headers [l]. *)
Definition in_next (l : list Z) (x : Z) : Prop :=
  exists p, p ∈ l /\ rng (p + OFF_NEXT - KERNEL_BASE_OFFSET) 8 x.

Lemma in_next_mono l1 l2 x : l1 ⊆ l2 -> in_next l1 x -> in_next l2 x.
Proof. intros Hs (p & Hp & Hx). exists p. auto. Qed.

(** A header apart from [l] is not touched by writes to next fields of [l]. *)
Lemma hdr_outside p l x :
  Forall (hdisj p) l -> rng (p - KERNEL_BASE_OFFSET) SIZEOF_CHUNK x -> ~ in_next l x.
Proof.
  intros Hd Hx (q & Hq & Hr). rewrite Forall_forall in Hd. specialize (Hd q Hq).
  unfold hdisj, rng, SIZEOF_CHUNK, OFF_NEXT in *. lia.
Qed.

Lemma ldk_frame m m' va :
  (forall x, rng (va - KERNEL_BASE_OFFSET) 8 x -> m' x = m x) -> ldk m' va = ldk m va.
Proof. intros H. apply ld_ext. exact H. Qed.

(** Both words of a header that no write touched. *)
Lemma hdr_frame m m' p l :
  (forall x, ~ in_next l x -> m' x = m x) -> Forall (hdisj p) l ->
  ldk m' p = ldk m p /\ ldk m' (p + OFF_NEXT) = ldk m (p + OFF_NEXT).
Proof.
  intros Hf Hd. split; apply ldk_frame; intros x Hx; apply Hf; eapply hdr_outside;
    try exact Hd; unfold rng, SIZEOF_CHUNK, OFF_NEXT in *; lia.
Qed.

(** The size word of [p] survives even when its own next field is written. *)
Lemma size_frame m m' p l :
  (forall x, ~ in_next (p :: l) x -> m' x = m x) -> Forall (hdisj p) l ->
  ldk m' p = ldk m p.
Proof.
  intros Hf Hd. apply ldk_frame. intros x Hx. apply Hf. intros (q & Hq & Hr).
  apply elem_of_cons in Hq as [->|Hq].
  - unfold rng, OFF_NEXT in *. lia.
  - rewrite Forall_forall in Hd. specialize (Hd q Hq).
    unfold hdisj, rng, SIZEOF_CHUNK, OFF_NEXT in *. lia.
Qed.

Lemma seg_frame m m' p l q :
  seg m p l q ->
  (forall d, d ∈ l -> ldk m' d.1 = ldk m d.1 /\ ldk m' (d.1 + OFF_NEXT) = ldk m (d.1 + OFF_NEXT)) ->
  seg m' p l q.
Proof.
  revert p. induction l as [|[c s] l IH]; intros p; simpl; [done|].
  intros (-> & Hs & Hl) Hf. destruct (Hf (c, s)) as [H1 H2]; [by left|]. simpl in *.
  split; [done|]. split; [by rewrite H1|]. rewrite H2. apply IH; [done|].
  intros d Hd. apply Hf. by right.
Qed.

Lemma seg_app m p l1 l2 q :
  seg m p (l1 ++ l2) q <-> exists r, seg m p l1 r /\ seg m r l2 q.
Proof.
  revert p. induction l1 as [|[c s] l1 IH]; intros p; simpl.
  - split; [eauto|]. by intros (r & -> & H).
  - rewrite IH. split.
    + intros (Hp & Hs & r & H1 & H2). exists r. auto.
    + intros (r & (Hp & Hs & H1) & H2). split; [done|]. split; [done|]. by exists r.
Qed.

(** ** Accesses that cannot fault *)

Lemma kload_ok va m ar :
  KERNEL_BASE_OFFSET <= va -> va + 8 <= KERNEL_BASE_OFFSET + MEM_SIZE ->
  kload va (Heap m ar) = Ok (ldk m va) (Heap m ar).
Proof. intros H1 H2. unfold kload. by rewrite krange_direct by done. Qed.
Lemma kstore_ok va v m ar :
  KERNEL_BASE_OFFSET <= va -> va + 8 <= KERNEL_BASE_OFFSET + MEM_SIZE ->
  kstore va v (Heap m ar) = Ok tt (Heap (stk m va v) ar).
Proof. intros H1 H2. unfold kstore. by rewrite krange_direct by done. Qed.
Lemma kmemset_ok va c len m ar :
  0 < len -> KERNEL_BASE_OFFSET <= va -> va + len <= KERNEL_BASE_OFFSET + MEM_SIZE ->
  kmemset va c len (Heap m ar) = Ok tt (Heap (mset m (va - KERNEL_BASE_OFFSET) c len) ar).
Proof.
  intros H0 H1 H2. unfold kmemset. rewrite (proj2 (Z.eqb_neq _ _)) by lia.
  by rewrite krange_direct by done.
Qed.

Lemma ldk_stk m va v : 0 <= v < 2 ^ 64 -> ldk (stk m va v) va = v.
Proof. apply ld64_st64. Qed.
Lemma ldk_stk_other m va vb v : vb + 8 <= va \/ va + 8 <= vb -> ldk (stk m va v) vb = ldk m vb.
Proof. intros H. unfold ldk, stk, ld64, st64. apply ld_st_other. lia. Qed.
Lemma stk_outside m va v x : ~ rng (va - KERNEL_BASE_OFFSET) 8 x -> stk m va v x = m x.
Proof. exact (st_outside 8 m _ v x). Qed.

Lemma hram_load p m ar : hram p -> kload p (Heap m ar) = Ok (ldk m p) (Heap m ar).
Proof. unfold hram, SIZEOF_CHUNK. intros H. apply kload_ok; lia. Qed.
Lemma hram_load_next p m ar :
  hram p -> kload (p + OFF_NEXT) (Heap m ar) = Ok (ldk m (p + OFF_NEXT)) (Heap m ar).
Proof. unfold hram, SIZEOF_CHUNK, OFF_NEXT. intros H. apply kload_ok; lia. Qed.
Lemma hram_store_next p v m ar :
  hram p -> kstore (p + OFF_NEXT) v (Heap m ar) = Ok tt (Heap (stk m (p + OFF_NEXT) v) ar).
Proof. unfold hram, SIZEOF_CHUNK, OFF_NEXT. intros H. apply kstore_ok; lia. Qed.
Lemma hram_word p : hram p -> 0 <= p < 2 ^ 64 /\ p <> 0.
Proof.
  unfold hram, SIZEOF_CHUNK, KERNEL_BASE_OFFSET, MEM_SIZE, PS_LIMIT. lia.
Qed.

(** ** [insert_sorted] *)

Definition slot_hdr (p : slot) : list Z := match p with Bin => [] | Node c => [c] end.
Definition slot_next (m : mem) (ar : arena) (p : slot) : Z :=
  match p with Bin => bin_next ar | Node c => ldk m (c + OFF_NEXT) end.
Definition arena_upd (p : slot) (v : Z) (ar : arena) : arena :=
  match p with Bin => set_bin_next v ar | Node _ => ar end.

(** The two stores that link [c] between [prev] and [now]. *)
Lemma link_stores c now prev m ar l :
  hdrs (c :: slot_hdr prev ++ l) -> 0 <= now < 2 ^ 64 ->
  exists m',
    (set_next prev c ;; kstore (c + OFF_NEXT) now ;; mret (inr tt : (Z * slot) + unit))
      (Heap m ar) = Ok (inr tt) (Heap m' (arena_upd prev c ar)) /\
    slot_next m' (arena_upd prev c ar) prev = c /\
    ldk m' (c + OFF_NEXT) = now /\ ldk m' c = ldk m c /\
    forall x, ~ in_next (c :: slot_hdr prev) x -> m' x = m x.
Proof.
  intros Hh Hnow. pose proof (hdrs_head _ _ Hh) as Hc. destruct prev as [|p]; simpl in *.
  - exists (stk m (c + OFF_NEXT) now). unfold set_next. mgo. simpl. unfold set_arena.
    rewrite (bind_ok _ _ _ _ _ (hram_store_next c now m _ Hc)). repeat split.
    + by apply ldk_stk.
    + apply ldk_stk_other. unfold OFF_NEXT. lia.
    + intros x Hx. apply stk_outside. intros Hr. apply Hx. exists c. split; [left|done].
  - assert (hdisj c p) as Hd by (eapply hdrs_apart; [exact Hh|left]).
    assert (hram p) as Hp by (apply (hdrs_in _ _ Hh); right; left).
    exists (stk (stk m (p + OFF_NEXT) c) (c + OFF_NEXT) now).
    rewrite (bind_ok _ _ _ _ _ (hram_store_next p c m ar Hp)).
    rewrite (bind_ok _ _ _ _ _ (hram_store_next c now _ ar Hc)).
    unfold hdisj, SIZEOF_CHUNK in Hd. repeat split.
    + rewrite ldk_stk_other by (unfold OFF_NEXT; lia). apply ldk_stk.
      by apply hram_word.
    + by apply ldk_stk.
    + rewrite !ldk_stk_other by (unfold OFF_NEXT; lia). done.
    + intros x Hx. rewrite !stk_outside; [done|..]; intros Hr; apply Hx.
      * exists p. split; [right; left|done].
      * exists c. split; [left|done].
Qed.

(** The last iteration: [c] goes in front of the rest of the list. *)
Lemma insert_here l m ar now prev c s :
  seg m now l 0 -> ldk m c = s -> hdrs (c :: slot_hdr prev ++ map fst l) ->
  match l with [] => True | (_, t) :: _ => s <= t end ->
  exists m',
    insert_body c (now, prev) (Heap m ar) = Ok (inr tt) (Heap m' (arena_upd prev c ar)) /\
    c = slot_next m' (arena_upd prev c ar) prev /\
    seg m' c ((c, s) :: l) 0 /\
    (forall x, ~ in_next (c :: slot_hdr prev) x -> m' x = m x).
Proof.
  intros Hseg Hs Hh Hle. pose proof (hdrs_head _ _ Hh) as Hc.
  assert (0 <= now < 2 ^ 64) as Hnow.
  { destruct l as [|[d t] l]; simpl in Hseg; [lia|]. destruct Hseg as (-> & _).
    apply hram_word, (hdrs_in _ _ Hh). right. apply elem_of_app. right. by left. }
  destruct (link_stores c now prev m ar _ Hh Hnow) as (m' & Hrun & Hn & Hcn & Hcs & Hf).
  exists m'. split; [|split; [done|split; [|done]]].
  - unfold insert_body. destruct l as [|[d t] l]; simpl in Hseg.
    + subst now. by rewrite Z.eqb_refl.
    + destruct Hseg as (-> & Ht & _).
      assert (hram d) as Hd
        by (apply (hdrs_in _ _ Hh); right; apply elem_of_app; right; by left).
      rewrite (proj2 (Z.eqb_neq d 0)) by (by apply hram_word).
      rewrite (bind_ok _ _ _ _ _ (hram_load d m ar Hd)).
      rewrite (bind_ok _ _ _ _ _ (hram_load c m ar Hc)).
      by rewrite Ht, Hs, (proj2 (Z.ltb_ge _ _)) by done.
  - simpl. split; [done|]. split; [by rewrite Hcs|]. rewrite Hcn.
    apply (seg_frame m m' now l 0 Hseg). intros e He.
    apply (hdr_frame m m' e.1 (c :: slot_hdr prev)); [done|].
    apply (list_elem_of_fmap_2 fst) in He.
    destruct Hh as [_ Hpw]. change (c :: slot_hdr prev ++ map fst l)
      with ((c :: slot_hdr prev) ++ map fst l) in Hpw.
    apply pairwise_app in Hpw as (_ & _ & Hpw).
    rewrite Forall_forall in Hpw |- *. intros q Hq. apply symmetry.
    specialize (Hpw q Hq). rewrite Forall_forall in Hpw. by apply Hpw.
Qed.

(** An earlier iteration: the loop moves past a smaller chunk. *)
Lemma insert_past m ar d t c s prev :
  hram d -> hram c -> ldk m d = t -> ldk m c = s -> t < s ->
  insert_body c (d, prev) (Heap m ar) = Ok (inl (ldk m (d + OFF_NEXT), Node d)) (Heap m ar).
Proof.
  intros Hd Hc Ht Hs Hlt. unfold insert_body.
  rewrite (proj2 (Z.eqb_neq d 0)) by (by apply hram_word).
  rewrite (bind_ok _ _ _ _ _ (hram_load d m ar Hd)).
  rewrite (bind_ok _ _ _ _ _ (hram_load c m ar Hc)).
  rewrite Ht, Hs, (proj2 (Z.ltb_lt _ _)) by done.
  by rewrite (bind_ok _ _ _ _ _ (hram_load_next d m ar Hd)).
Qed.

(** After the rest of the list behind [d] was rebuilt, [prev] and [d] still read
    as before. *)
Lemma insert_prefix m m' ar prev d t c l :
  hdrs (c :: slot_hdr prev ++ d :: l) -> ldk m d = t -> slot_next m ar prev = d ->
  (forall x, ~ in_next (c :: d :: l) x -> m' x = m x) ->
  ldk m' d = t /\ slot_next m' ar prev = d.
Proof.
  intros Hh Ht Hnext Hf.
  assert (hdrs (d :: c :: slot_hdr prev ++ l)) as Hh'.
  { eapply hdrs_perm; [|exact Hh]. rewrite <- Permutation_middle. constructor. }
  split.
  - rewrite <- Ht. apply (size_frame m m' d (c :: l)).
    + intros x Hx. apply Hf. intros Hi. apply Hx. eapply in_next_mono; [|exact Hi].
      intros q. rewrite !elem_of_cons. tauto.
    + apply Forall_forall. intros q Hq. eapply hdrs_apart; [exact Hh'|].
      apply elem_of_cons in Hq as [->|Hq]; [left|right]. apply elem_of_app. by right.
  - rewrite <- Hnext. destruct prev as [|p]; simpl in *; [done|].
    apply (hdr_frame m m' p (c :: d :: l)); [done|].
    apply Forall_forall. intros q Hq.
    eapply (hdrs_apart p (c :: d :: l)); [|exact Hq].
    eapply hdrs_perm; [|exact Hh]. apply perm_swap.
Qed.

(** The loop of [insert_sorted] inserts by size into the list that starts at the
    [next] field of [prev]. *)
Lemma insert_run l : forall m ar now prev c s,
  seg m now l 0 -> slot_next m ar prev = now -> ldk m c = s ->
  hdrs (c :: slot_hdr prev ++ map fst l) ->
  exists n m' v,
    run (mbody (insert_body c)) n ((now, prev), Heap m ar) =
      inr (Ok tt (Heap m' (arena_upd prev v ar))) /\
    (n <= Datatypes.S (length l))%nat /\
    v = slot_next m' (arena_upd prev v ar) prev /\
    seg m' v (insert_chunk (c, s) l) 0 /\
    (forall x, ~ in_next (c :: slot_hdr prev ++ map fst l) x -> m' x = m x).
Proof.
  induction l as [|[d t] l IH]; intros m ar now prev c s Hseg Hnext Hs Hh.
  - destruct (insert_here [] m ar now prev c s) as (m' & Hrun & Hv & Hl & Hf); try done.
    exists 1%nat, m', c. split; [by apply mbody_done|]. split; [simpl; lia|].
    split; [done|]. split; [done|]. by rewrite app_nil_r.
  - simpl in Hh. destruct (Z.ltb_spec t s) as [Hlt|Hge].
    + destruct Hseg as (-> & Ht & Hl).
      destruct (IH m ar (ldk m (d + OFF_NEXT)) (Node d) c s)
        as (n & m' & v & Hrun & Hn & Hv & Hins & Hf); [done|done|done|..].
      { simpl. destruct prev as [|p]; [done|]. simpl in Hh.
        apply (hdrs_tail p). eapply hdrs_perm; [|exact Hh]. apply perm_swap. }
      simpl in Hv, Hrun, Hf.
      destruct (insert_prefix m m' ar prev d t c (map fst l)) as [Hdt Hpn]; try done.
      exists (Datatypes.S n), m', d. split; [|split; [simpl; lia|split; [|split]]].
      * erewrite mbody_next.
        2:{ apply (insert_past m ar d t c s); try done;
            apply (hdrs_in _ _ Hh); [|left]. right. apply elem_of_app. right. by left. }
        rewrite Hrun. destruct prev; simpl in *; [|done]. subst d. by destruct ar.
      * by destruct prev.
      * simpl. rewrite (proj2 (Z.ltb_lt _ _)) by done. simpl. by rewrite Hdt, <- Hv.
      * intros x Hx. apply Hf. intros Hi. apply Hx. eapply in_next_mono; [|exact Hi].
        intros q. simpl. rewrite !elem_of_cons, elem_of_app, elem_of_cons. tauto.
    + destruct (insert_here ((d, t) :: l) m ar now prev c s) as (m' & Hrun & Hv & Hl & Hf);
        try done.
      exists 1%nat, m', c. split; [by apply mbody_done|]. split; [simpl; lia|].
      split; [done|]. simpl. rewrite (proj2 (Z.ltb_ge _ _)) by done. split; [done|].
      intros x Hx. apply Hf. intros Hi. apply Hx. eapply in_next_mono; [|exact Hi].
      intros q. rewrite !elem_of_cons, elem_of_app. tauto.
Qed.

(** ** How many headers there can be *)

Lemma hdrs_length l : hdrs l -> Z.of_nat (length l) <= MEM_SIZE.
Proof.
  intros [Hr Hp].
  assert (NoDup l) as Hnd.
  { clear Hr. induction l as [|p l IH]; [constructor|]. destruct Hp as [Hd Hp].
    constructor; [|auto]. intros Hin. rewrite Forall_forall in Hd. specialize (Hd p Hin).
    unfold hdisj, SIZEOF_CHUNK in Hd. lia. }
  assert (l ⊆ seqZ KERNEL_BASE_OFFSET MEM_SIZE) as Hs.
  { intros p Hin. rewrite Forall_forall in Hr. specialize (Hr p Hin).
    unfold hram, SIZEOF_CHUNK in Hr. apply elem_of_seqZ. lia. }
  apply (NoDup_submseteq _ _ Hnd) in Hs. apply submseteq_length in Hs.
  rewrite length_seqZ in Hs. unfold MEM_SIZE, PS_LIMIT in *. lia.
Qed.

Lemma insert_sorted_ok m ar l c s :
  seg m (bin_next ar) l 0 -> ldk m c = s -> hdrs (c :: map fst l) ->
  exists m' v,
    insert_sorted c (Heap m ar) = Ok tt (Heap m' (set_bin_next v ar)) /\
    seg m' v (insert_chunk (c, s) l) 0 /\
    (forall x, ~ in_next (c :: map fst l) x -> m' x = m x).
Proof.
  intros Hseg Hs Hh.
  destruct (insert_run l m ar (bin_next ar) Bin c s) as (n & m' & v & Hrun & Hn & Hv & Hl & Hf);
    try done.
  exists m', v. split; [|done]. unfold insert_sorted. rewrite bind_get.
  eapply mloop_result; [exact Hrun|].
  apply hdrs_tail, hdrs_length in Hh. rewrite length_map in Hh.
  unfold MEM_SIZE, PS_LIMIT in Hh. lia.
Qed.

(** ** [fetch_sorted_bin] *)

Definition last_slot (l : list chunk) : slot :=
  match last l with None => Bin | Some d => Node d.1 end.

Lemma last_slot_snoc l d : last_slot (l ++ [d]) = Node d.1.
Proof. unfold last_slot. by rewrite last_snoc. Qed.

(** Overwriting the [next] field of the last chunk before [q] redirects the list. *)
Lemma seg_redirect m ar pre q v :
  seg m (bin_next ar) pre q -> hdrs (map fst pre) -> 0 <= v < 2 ^ 64 ->
  exists m' ar',
    set_next (last_slot pre) v (Heap m ar) = Ok tt (Heap m' ar') /\
    seg m' (bin_next ar') pre v /\
    (exists b, ar' = set_bin_next b ar) /\
    (forall x, ~ in_next (map fst pre) x -> m' x = m x).
Proof.
  intros Hseg Hh Hv. destruct pre as [|[d t] pre' _] using rev_ind.
  - exists m, (set_bin_next v ar). simpl. eauto 10.
  - rewrite last_slot_snoc, map_app in *. simpl in *.
    assert (hdrs (d :: map fst pre')) as Hh'.
    { eapply hdrs_perm; [|exact Hh]. by rewrite Permutation_app_comm. }
    exists (stk m (d + OFF_NEXT) v), ar.
    assert (forall x, ~ in_next [d] x -> stk m (d + OFF_NEXT) v x = m x) as Hf.
    { intros x Hx. apply stk_outside. intros Hr. apply Hx. exists d. split; [left|done]. }
    split; [apply hram_store_next, (hdrs_head _ _ Hh')|]. split; [|split].
    + apply seg_app in Hseg as (r & H1 & H2). simpl in H2. destruct H2 as (-> & Ht & _).
      apply seg_app. exists d. split.
      * apply (seg_frame m _ _ _ _ H1). intros e He. apply (hdr_frame m _ e.1 [d] Hf).
        constructor; [|constructor]. apply symmetry. eapply hdrs_apart; [exact Hh'|].
        by apply (list_elem_of_fmap_2 fst).
      * simpl. split; [done|]. split.
        -- rewrite ldk_stk_other by (unfold OFF_NEXT; lia). done.
        -- by apply ldk_stk.
    + exists (bin_next ar). by destruct ar.
    + intros x Hx. apply Hf. intros Hi. apply Hx. eapply in_next_mono; [|exact Hi].
      intros q'. rewrite list_elem_of_singleton, elem_of_app. intros ->. right. left.
Qed.

(** ** Blocks: chunks with their payload *)

Definition blk_ram (d : chunk) : Prop :=
  KERNEL_BASE_OFFSET <= d.1 /\ d.1 + d.2 <= KERNEL_BASE_OFFSET + MEM_SIZE /\ SIZEOF_CHUNK <= d.2.
Definition blocks (l : list chunk) : Prop := Forall blk_ram l /\ pairwise bdisj l.
(** The physical bytes of the blocks [l]. *)
Definition in_blocks (l : list chunk) (x : Z) : Prop :=
  exists d, d ∈ l /\ rng (d.1 - KERNEL_BASE_OFFSET) d.2 x.

Lemma blocks_perm l1 l2 : l1 ≡ₚ l2 -> blocks l1 -> blocks l2.
Proof. intros Hp [H1 H2]. split; [by rewrite <- Hp|exact (pairwise_perm _ _ _ Hp H2)]. Qed.
Lemma blocks_tail d l : blocks (d :: l) -> blocks l.
Proof. intros [H1 [H2 H3]]. apply Forall_cons in H1 as [_ H1]. by split. Qed.
Lemma blocks_app l1 l2 : blocks (l1 ++ l2) -> blocks l1.
Proof.
  intros [H1 H2]. apply Forall_app in H1 as [H1 _]. apply pairwise_app in H2 as (H2 & _).
  by split.
Qed.
Lemma blocks_hdrs l : blocks l -> hdrs (map fst l).
Proof.
  unfold blocks, hdrs. intros [Hr Hp]. induction l as [|d l IH]; simpl in *; [done|].
  apply Forall_cons in Hr as [Hd Hr]. destruct Hp as [Hdis Hp]. destruct (IH Hr Hp) as [H1 H2].
  split; [constructor; [|done]|split; [|done]].
  - unfold blk_ram, hram in *. lia.
  - apply Forall_forall. intros q Hq. apply list_elem_of_fmap_1 in Hq as (e & -> & He).
    rewrite Forall_forall in Hdis, Hr. specialize (Hdis e He). specialize (Hr e He).
    unfold bdisj, hdisj, blk_ram in *. lia.
Qed.
(** Splitting the first block. *)
Lemma blocks_split c s nb l :
  SIZEOF_CHUNK <= nb -> SIZEOF_CHUNK <= s - nb -> blocks ((c, s) :: l) ->
  blocks ((c, nb) :: (c + nb, s - nb) :: l).
Proof.
  intros Hnb Hs [Hr Hp]. apply Forall_cons in Hr as [Hd Hr]. simpl in Hp.
  destruct Hp as [Hdis Hp]. unfold blocks, blk_ram, SIZEOF_CHUNK in *. simpl in *.
  split; [|split; [|split]].
  - do 2 (apply Forall_cons; split; [simpl; lia|]). done.
  - apply Forall_cons. split; [unfold bdisj; simpl; lia|].
    eapply Forall_impl; [exact Hdis|]. unfold bdisj. simpl. intros d. lia.
  - eapply Forall_impl; [exact Hdis|]. unfold bdisj. simpl. intros d. lia.
  - done.
Qed.
Lemma in_next_blocks l x : Forall blk_ram l -> in_next (map fst l) x -> in_blocks l x.
Proof.
  intros Hr (p & Hp & Hx). apply list_elem_of_fmap_1 in Hp as (d & -> & Hd).
  exists d. split; [done|]. rewrite Forall_forall in Hr. specialize (Hr d Hd).
  unfold blk_ram, rng, SIZEOF_CHUNK, OFF_NEXT in *. lia.
Qed.
Lemma in_blocks_mono l1 l2 x : l1 ⊆ l2 -> in_blocks l1 x -> in_blocks l2 x.
Proof. intros Hs (d & Hd & Hx). exists d. auto. Qed.
(** Distinct blocks share no byte. *)
Lemma blocks_apart d l x :
  blocks (d :: l) -> rng (d.1 - KERNEL_BASE_OFFSET) d.2 x -> ~ in_blocks l x.
Proof.
  intros [_ [Hd _]] Hx (e & He & Hx'). rewrite Forall_forall in Hd. specialize (Hd e He).
  unfold bdisj, rng in *. lia.
Qed.

(** ** Taking a chunk from the bin *)

Lemma valid_size s : 0 < s < 2 ^ 32 -> s mod 16 = 0 -> invalid_chunk_size s = false.
Proof.
  intros H1 H2. unfold invalid_chunk_size.
  rewrite (proj2 (Z.eqb_neq _ _)), (proj2 (Z.leb_gt _ _)) by lia.
  change 0xf with (2 ^ 4 - 1). rewrite land_low by lia. change (2 ^ 4) with 16. by rewrite H2.
Qed.

(** Splitting a chunk that is too large: the remainder goes back to the bin. *)
Lemma split_ok m ar rest c s nb :
  seg m (bin_next ar) rest 0 -> blocks ((c, s) :: rest) ->
  SIZEOF_CHUNK <= nb -> s = nb \/ SIZEOF_CHUNK <= s - nb ->
  exists m' b,
    (if s =? nb then mret tt
     else kstore (u64 (c + nb)) (u64 (s - nb)) ;; insert_sorted (u64 (c + nb))) (Heap m ar)
      = Ok tt (Heap m' (set_bin_next b ar)) /\
    seg m' b (if s =? nb then rest else insert_chunk (c + nb, s - nb) rest) 0 /\
    (forall x, ~ in_blocks ((c, s) :: rest) x -> m' x = m x).
Proof.
  intros Hseg Hb Hnb Hs. destruct (Z.eqb_spec s nb) as [->|Hne].
  { exists m, (bin_next ar). repeat split; [by destruct ar|done]. }
  destruct Hs as [|Hs]; [done|].
  pose proof (blocks_split c s nb rest Hnb Hs Hb) as Hb'.
  pose proof (blocks_tail _ _ Hb') as Hb''. pose proof (blocks_hdrs _ Hb'') as Hh. simpl in Hh.
  pose proof (hdrs_head _ _ Hh) as Hr. pose proof (hram_word _ Hr) as [Hw _].
  assert (0 <= s - nb < 2 ^ 64) as Hw'.
  { destruct Hb as [Hb _]. apply Forall_cons in Hb as [Hb _].
    unfold blk_ram, SIZEOF_CHUNK, KERNEL_BASE_OFFSET, MEM_SIZE, PS_LIMIT in *. simpl in Hb. lia. }
  rewrite !u64_small by done. unfold hram in Hr.
  rewrite (bind_ok _ _ _ _ _ (kstore_ok (c + nb) (s - nb) m ar ltac:(lia)
             ltac:(unfold SIZEOF_CHUNK in *; lia))).
  destruct (insert_sorted_ok (stk m (c + nb) (s - nb)) ar rest (c + nb) (s - nb))
    as (m' & v & Hrun & Hl & Hf).
  - apply (seg_frame m _ _ _ _ Hseg). intros d Hd.
    assert (hdisj (c + nb) d.1) as Hdis.
    { eapply hdrs_apart; [exact Hh|]. by apply (list_elem_of_fmap_2 fst). }
    unfold hdisj, SIZEOF_CHUNK in Hdis.
    rewrite !ldk_stk_other by (unfold OFF_NEXT; lia). done.
  - by apply ldk_stk.
  - done.
  - exists m', v. split; [done|]. split; [done|]. intros x Hx. rewrite Hf.
    + apply stk_outside. intros Hx'. apply Hx. exists (c, s). split; [left|].
      unfold rng, SIZEOF_CHUNK in *. simpl. lia.
    + intros Hi. apply (in_next_blocks ((c + nb, s - nb) :: rest)) in Hi; [|apply Hb''].
      destruct Hi as (d & Hd & Hx'). apply elem_of_cons in Hd as [->|Hd].
      * apply Hx. exists (c, s). split; [left|]. unfold rng, SIZEOF_CHUNK in *. simpl in *. lia.
      * apply Hx. exists d. split; [by right|done].
Qed.

(** Clearing the header of a chunk that left the bin, and writing its size. *)
Lemma clear_header m ar c nb :
  hram c -> 0 <= nb < 2 ^ 64 ->
  exists m',
    (kmemset c 0 SIZEOF_CHUNK ;; kstore c nb) (Heap m ar) = Ok tt (Heap m' ar) /\
    ldk m' c = nb /\
    (forall x, ~ rng (c - KERNEL_BASE_OFFSET) SIZEOF_CHUNK x -> m' x = m x).
Proof.
  intros Hc Hnb. eexists. unfold hram in Hc. unfold SIZEOF_CHUNK in *.
  rewrite (bind_ok _ _ _ _ _ (kmemset_ok c 0 24 m ar ltac:(lia) ltac:(lia) ltac:(lia))).
  rewrite kstore_ok by lia. split; [reflexivity|]. split; [by apply ldk_stk|].
  intros x Hx. rewrite stk_outside, mset_outside; [done|done|]. unfold rng in *. lia.
Qed.

Lemma seg_same_ldk m m' p l q P :
  seg m p l q -> (forall x, ~ P x -> m' x = m x) ->
  (forall d x, d ∈ l -> rng (d.1 - KERNEL_BASE_OFFSET) SIZEOF_CHUNK x -> ~ P x) ->
  seg m' p l q.
Proof.
  intros Hseg Hf Hd. apply (seg_frame m _ _ _ _ Hseg). intros d Hin.
  split; apply ldk_frame; intros x Hx; apply Hf, (Hd d); try done;
    unfold rng, SIZEOF_CHUNK, OFF_NEXT in *; lia.
Qed.

(** Taking the chunk [c] out of the list: the slot before it points past it. *)
Lemma unlink_ok m ar pre c s post :
  seg m (bin_next ar) (pre ++ (c, s) :: post) 0 -> blocks (pre ++ (c, s) :: post) ->
  exists m' b,
    set_next (last_slot pre) (ldk m (c + OFF_NEXT)) (Heap m ar) = Ok tt (Heap m' (set_bin_next b ar)) /\
    seg m' b (pre ++ post) 0 /\
    (forall x, ~ in_blocks pre x -> m' x = m x).
Proof.
  intros Hseg Hb. apply seg_app in Hseg as (r & Hpre & Hpost). destruct Hpost as (-> & Hsz & Hpost).
  pose proof (blocks_hdrs _ Hb) as [Hr Hp]. rewrite map_app in Hr, Hp.
  apply Forall_app in Hr as [Hr _]. apply pairwise_app in Hp as (Hp & _ & Hcross).
  destruct (seg_redirect m ar pre c (ldk m (c + OFF_NEXT)) Hpre) as (m1 & ar1 & H1 & Hpre1 & (b1 & ->) & Hf1);
    [by split|apply ld64_range|].
  exists m1, b1. split; [done|]. split.
  - apply seg_app. exists (ldk m (c + OFF_NEXT)). split; [done|].
    apply (seg_frame m _ _ _ _ Hpost). intros d Hd. apply (hdr_frame m m1 d.1 (map fst pre) Hf1).
    rewrite Forall_forall in Hcross |- *. intros q Hq. apply symmetry. specialize (Hcross q Hq).
    rewrite Forall_forall in Hcross. apply Hcross. right. by apply (list_elem_of_fmap_2 fst).
  - intros x Hx. apply Hf1. intros Hi. apply Hx, in_next_blocks; [|done].
    by apply blocks_app in Hb; apply Hb.
Qed.

(** What stays in the bin is apart from the header that left it. *)
Lemma remainder_apart c s nb rest d :
  blocks ((c, s) :: rest) -> SIZEOF_CHUNK <= nb -> s = nb \/ SIZEOF_CHUNK <= s - nb ->
  d ∈ (if s =? nb then rest else insert_chunk (c + nb, s - nb) rest) -> hdisj c d.1.
Proof.
  intros Hb Hnb Hsp Hd. destruct (Z.eqb_spec s nb) as [->|Hne].
  - eapply hdrs_apart; [exact (blocks_hdrs _ Hb)|]. by apply (list_elem_of_fmap_2 fst).
  - destruct Hsp as [|Hsp]; [done|]. rewrite insert_chunk_perm in Hd.
    pose proof (blocks_hdrs _ (blocks_split c s nb rest Hnb Hsp Hb)) as Hh.
    eapply hdrs_apart; [exact Hh|]. by apply (list_elem_of_fmap_2 fst) in Hd.
Qed.

(** The iteration that finds a chunk. *)
Lemma fetch_found m ar pre c s post nb :
  seg m (bin_next ar) (pre ++ (c, s) :: post) 0 -> blocks (pre ++ (c, s) :: post) ->
  s < 2 ^ 32 -> s mod 16 = 0 -> nb <= s -> SIZEOF_CHUNK <= nb ->
  s = nb \/ SIZEOF_CHUNK <= s - nb ->
  exists m' b,
    fetch_body nb (c, last_slot pre) (Heap m ar) =
      Ok (inr (c + OFF_NEXT)) (Heap m' (set_bin_next b ar)) /\
    seg m' b (if s =? nb then pre ++ post else insert_chunk (c + nb, s - nb) (pre ++ post)) 0 /\
    ldk m' c = nb /\
    (forall x, ~ in_blocks (pre ++ (c, s) :: post) x -> m' x = m x).
Proof.
  intros Hseg Hb Hs32 Hs16 Hle Hnb Hsp.
  assert (blocks ((c, s) :: pre ++ post)) as Hb'.
  { eapply blocks_perm; [|exact Hb]. by rewrite <- Permutation_middle. }
  pose proof (hdrs_head _ _ (blocks_hdrs _ Hb')) as Hc. simpl in Hc.
  assert (ldk m c = s) as Hsz by (apply seg_app in Hseg as (r & _ & -> & Hsz & _); exact Hsz).
  destruct (unlink_ok m ar pre c s post Hseg Hb) as (m1 & b1 & H1 & Hseg1 & Hf1).
  destruct (split_ok m1 (set_bin_next b1 ar) (pre ++ post) c s nb) as (m2 & b2 & H2 & Hseg2 & Hf2); try done.
  destruct (clear_header m2 (set_bin_next b2 ar) c nb Hc) as (m3 & H3 & Hnb3 & Hf3).
  { unfold SIZEOF_CHUNK in Hnb. lia. }
  exists m3, b2. split; [|split; [|split; [done|]]].
  - unfold fetch_body. rewrite (proj2 (Z.eqb_neq c 0)) by (by apply hram_word).
    rewrite (bind_ok _ _ _ _ _ (hram_load c m ar Hc)). rewrite Hsz.
    rewrite valid_size by (unfold SIZEOF_CHUNK in *; lia).
    rewrite (proj2 (Z.leb_le _ _)) by done.
    rewrite (bind_ok _ _ _ _ _ (hram_load_next c m ar Hc)).
    rewrite (bind_ok _ _ _ _ _ H1), (bind_ok _ _ _ _ _ H2).
    rewrite <- bind_bind. rewrite (bind_ok _ _ _ _ _ H3).
    unfold mret, cmd_ret, chunk2mem. rewrite u64_small; [done|].
    unfold hram, SIZEOF_CHUNK, OFF_NEXT, KERNEL_BASE_OFFSET, MEM_SIZE, PS_LIMIT in *. lia.
  - apply (seg_same_ldk m2 m3 _ _ _ _ Hseg2 Hf3). intros d x Hd Hx Hx'.
    pose proof (remainder_apart c s nb _ d Hb' Hnb Hsp Hd). unfold hdisj, rng, SIZEOF_CHUNK in *. lia.
  - intros x Hx. rewrite Hf3, Hf2, Hf1; [done|..].
    + intros Hi. apply Hx. eapply in_blocks_mono; [|exact Hi]. intros d. rewrite elem_of_app. auto.
    + intros Hi. apply Hx. eapply in_blocks_mono; [|exact Hi].
      intros d. rewrite elem_of_cons, !elem_of_app, elem_of_cons. tauto.
    + intros Hi. apply Hx. exists (c, s). split; [rewrite elem_of_app; right; left|].
      unfold rng, SIZEOF_CHUNK in *. simpl. lia.
Qed.

(** Sizes the bin may hold when [nb] bytes are wanted. *)
Definition fits (nb : Z) (d : chunk) : Prop :=
  d.2 < 2 ^ 32 /\ d.2 mod 16 = 0 /\ (nb <= d.2 -> d.2 = nb \/ SIZEOF_CHUNK <= d.2 - nb).

(** What [fetch_sorted_bin] returns on the free list [l]. *)
Definition fetch_result (nb : Z) (l : list chunk) (pre : list chunk) (m : mem) (ar : arena)
    (o : outcome heap Z) : Prop :=
  match take_fit nb l with
  | None => o = Ok 0 (Heap m ar)
  | Some ((c, s), rest) =>
      exists m' b,
        o = Ok (c + OFF_NEXT) (Heap m' (set_bin_next b ar)) /\
        seg m' b (if s =? nb then pre ++ rest
                  else insert_chunk (c + nb, s - nb) (pre ++ rest)) 0 /\
        ldk m' c = nb /\
        (forall x, ~ in_blocks (pre ++ l) x -> m' x = m x)
  end.

Lemma fetch_run nb l : forall pre m ar now,
  seg m (bin_next ar) pre now -> seg m now l 0 -> blocks (pre ++ l) ->
  Forall (fits nb) l -> SIZEOF_CHUNK <= nb ->
  exists n o,
    run (mbody (fetch_body nb)) n ((now, last_slot pre), Heap m ar) = inr o /\
    (n <= Datatypes.S (length l))%nat /\ fetch_result nb l pre m ar o.
Proof.
  induction l as [|[d t] l IH]; intros pre m ar now Hpre Hl Hb Hfit Hnb.
  - simpl in Hl. subst now. exists 1%nat, (Ok 0 (Heap m ar)).
    split; [by apply mbody_done|]. split; [simpl; lia|reflexivity].
  - destruct (Forall_cons_1 _ _ _ Hfit) as [(H32 & H16 & Hsp) Hfit']. simpl in H32, H16, Hsp.
    assert (hram d) as Hd.
    { apply blocks_hdrs in Hb. apply (hdrs_in _ _ Hb). rewrite map_app. apply elem_of_app.
      right. by left. }
    destruct (Z.leb_spec nb t) as [Hle|Hgt].
    + destruct (fetch_found m ar pre d t l nb) as (m' & b & Hrun & Hseg & Hc & Hf); auto.
      { apply seg_app. by exists now. }
      destruct Hl as (-> & _).
      exists 1%nat, (Ok (d + OFF_NEXT) (Heap m' (set_bin_next b ar))).
      split; [by apply mbody_done|]. split; [simpl; lia|].
      unfold fetch_result. simpl. rewrite (proj2 (Z.leb_le _ _)) by done. by exists m', b.
    + simpl in Hl. destruct Hl as (-> & Ht & Hl).
      destruct (IH (pre ++ [(d, t)]) m ar (ldk m (d + OFF_NEXT))) as (n & o & Hrun & Hn & Hres);
        auto.
      { apply seg_app. exists d. simpl. auto. }
      { by rewrite <- app_assoc. }
      exists (Datatypes.S n), o. split; [|split; [simpl; lia|]].
      * rewrite last_slot_snoc in Hrun. erewrite mbody_next; [exact Hrun|].
        unfold fetch_body. rewrite (proj2 (Z.eqb_neq d 0)) by (by apply hram_word).
        rewrite (bind_ok _ _ _ _ _ (hram_load d m ar Hd)). rewrite Ht.
        assert (0 < t) as Hpos.
        { destruct Hb as [Hb _]. apply Forall_app in Hb as [_ Hb].
          apply Forall_cons in Hb as [Hb _]. unfold blk_ram, SIZEOF_CHUNK in Hb. simpl in Hb. lia. }
        rewrite valid_size, (proj2 (Z.leb_gt _ _)) by done.
        by rewrite (bind_ok _ _ _ _ _ (hram_load_next d m ar Hd)).
      * unfold fetch_result in *. simpl. rewrite (proj2 (Z.leb_gt _ _)) by done.
        destruct (take_fit nb l) as [[[c s] rest]|]; [|done].
        destruct Hres as (m' & b & Ho & Hseg & Hc & Hf). exists m', b.
        rewrite <- app_assoc in Hseg, Hf. done.
Qed.

Lemma fetch_sorted_bin_ok nb l m ar :
  seg m (bin_next ar) l 0 -> blocks l -> Forall (fits nb) l -> SIZEOF_CHUNK <= nb ->
  fetch_result nb l [] m ar (fetch_sorted_bin nb (Heap m ar)).
Proof.
  intros Hseg Hb Hfit Hnb.
  destruct (fetch_run nb l [] m ar (bin_next ar)) as (n & o & Hrun & Hn & Hres); try done.
  enough (fetch_sorted_bin nb (Heap m ar) = o) as -> by done.
  unfold fetch_sorted_bin. rewrite bind_get. eapply mloop_result; [exact Hrun|].
  apply blocks_hdrs, hdrs_length in Hb. rewrite length_map in Hb.
  unfold MEM_SIZE, PS_LIMIT in Hb. lia.
Qed.

(** ** From the invariant to blocks *)

Lemma wf_blk a d : wf a -> d ∈ a_chunks a -> blk_ram d.
Proof.
  intros W Hd. pose proof (wf_within a d W Hd) as [H1 H2].
  pose proof (wf_chunks _ W) as Hok. rewrite Forall_forall in Hok. specialize (Hok d Hd).
  pose proof (wf_base _ W). pose proof (wf_end _ W). pose proof (wf_top _ W).
  unfold blk_ram, chunk_ok, SIZEOF_CHUNK, KERNEL_PAGING_SIZE in *. lia.
Qed.
Lemma wf_blocks a : wf a -> blocks (a_chunks a).
Proof.
  intros W. split; [|by apply wf_disj]. apply Forall_forall. intros d Hd. by eapply wf_blk.
Qed.
Lemma wf_free_blocks a : wf a -> blocks (a_free a).
Proof. intros W. apply wf_blocks, blocks_app in W. done. Qed.

(** A request as [kmalloc] rounds it. *)
Definition request (nb : Z) : Prop := 0x80 <= nb /\ nb mod 0x80 = 0.

Lemma mod_mul_mod x k n : 0 < n -> 0 < k -> x mod (k * n) mod n = x mod n.
Proof. intros Hn Hk. apply Z.mod_mod_divide. by exists k. Qed.
Lemma chunk_size_mod16 d : chunk_ok d -> d.2 mod 16 = 0 /\ d.1 mod 16 = 0.
Proof.
  unfold chunk_ok. intros (_ & H).
  rewrite <- (mod_mul_mod d.2 8 16), <- (mod_mul_mod d.1 8 16) by lia.
  change (8 * 16) with 0x80.
  destruct H as [(-> & [-> | ->])|(-> & ->)]; done.
Qed.

Lemma wf_fits a nb d : wf a -> d ∈ a_chunks a -> request nb -> fits nb d.
Proof.
  intros W Hd [Hnb Hm]. pose proof (wf_blk a d W Hd) as Hb.
  pose proof (wf_chunks _ W) as Hok. rewrite Forall_forall in Hok. specialize (Hok d Hd).
  split; [|split; [by apply chunk_size_mod16|]].
  - unfold blk_ram, KERNEL_BASE_OFFSET, MEM_SIZE, PS_LIMIT in Hb. lia.
  - intros Hle. unfold chunk_ok, SIZEOF_CHUNK in *.
    assert (d.2 mod 0x80 = 0 \/ d.2 mod 0x80 = 0x70) as Hr by tauto.
    pose proof (Z.div_mod d.2 0x80). pose proof (Z.div_mod nb 0x80). lia.
Qed.

(** ** The abstract operations keep the invariant *)

Lemma b2z_split x c s nb :
  0 <= nb <= s ->
  Z.b2z (inb x (c, s)) = Z.b2z (inb x (c, nb)) + Z.b2z (inb x (c + nb, s - nb)).
Proof.
  intros H. unfold inb. simpl.
  destruct (Z.leb_spec c x), (Z.ltb_spec x (c + s)), (Z.ltb_spec x (c + nb)),
    (Z.leb_spec (c + nb) x), (Z.ltb_spec x (c + nb + (s - nb))); simpl; lia.
Qed.

Lemma chunk_ok_split c s nb :
  chunk_ok (c, s) -> request nb -> nb <= s ->
  chunk_ok (c, nb) /\ (s <> nb -> chunk_ok (c + nb, s - nb)).
Proof.
  unfold chunk_ok, request. simpl. intros (Hs & Hm) [Hnb Hn] Hle.
  pose proof (Z.div_mod s 0x80). pose proof (Z.div_mod nb 0x80). pose proof (Z.div_mod c 0x80).
  assert ((c + nb) mod 0x80 = c mod 0x80) as Hc.
  { rewrite <- Zplus_mod_idemp_r, Hn, Z.add_0_r. done. }
  assert ((s - nb) mod 0x80 = s mod 0x80) as Hs'.
  { rewrite <- Zminus_mod_idemp_r, Hn, Z.sub_0_r. done. }
  split; [split; [lia|tauto]|]. intros Hne. rewrite Hc, Hs'. split; [lia|done].
Qed.

Lemma a_fetch_wf nb a p a' :
  wf a -> request nb -> a_fetch nb a = Some (p, a') -> wf a'.
Proof.
  intros W Hnb. unfold a_fetch.
  destruct (take_fit nb (a_free a)) as [[[c s] rest]|] eqn:E; [|done]. intros [= <- <-].
  apply take_fit_perm in E as [Hp Hle]. simpl in Hle.
  pose proof (wf_chunks _ W) as Hok. pose proof (wf_tiles _ W) as Ht.
  unfold a_chunks in *. rewrite Hp in Hok. apply Forall_app in Hok as [Hok Hlive].
  apply Forall_cons in Hok as [Hc Hrest].
  destruct (chunk_ok_split c s nb Hc Hnb Hle) as [Hc1 Hc2].
  destruct W as [W1 W2 W3 W4 W5 _ _]. split; simpl; try done.
  - unfold a_chunks. simpl. apply Forall_app. split; [|by constructor].
    destruct (Z.eqb_spec s nb) as [->|Hne]; [done|]. rewrite insert_chunk_perm.
    constructor; auto.
  - intros x. unfold a_chunks. simpl. rewrite <- Ht, Hp, !ncover_app, !ncover_cons.
    rewrite (b2z_split x c s nb) by (unfold request in Hnb; lia).
    destruct (Z.eqb_spec s nb) as [->|Hne].
    + assert (inb x (c + nb, nb - nb) = false) as ->; [|simpl; lia].
      unfold inb. simpl. apply andb_false_iff. lia.
    + rewrite insert_chunk_perm, ncover_cons. lia.
Qed.

Lemma a_malloc_top_wf nb a p a' :
  wf a -> chunk_ok (a_top a, nb) -> a_malloc_top nb a = Some (p, a') -> wf a'.
Proof.
  intros [W1 W2 W3 W4 W5 W6 W7] Hc. unfold a_malloc_top.
  destruct (Z.ltb_spec (a_end a - a_top a) nb); [done|]. intros [= <- <-].
  pose proof Hc as (Hlo & Hm). simpl in Hlo, Hm. split; simpl; try done; try lia.
  - rewrite Zplus_mod. destruct Hm as [(-> & [-> | ->])|(-> & ->)]; auto.
  - unfold a_chunks in *. simpl. rewrite <- Permutation_middle. by constructor.
  - intros x. unfold a_chunks in *. simpl. rewrite <- Permutation_middle, ncover_cons, W7.
    unfold inb. simpl. destruct (Z.leb_spec (a_top a) x), (Z.leb_spec (a_base a) x),
      (Z.ltb_spec x (a_top a)), (Z.ltb_spec x (a_top a + nb)); simpl; lia.
Qed.

(** Addresses identify live chunks. *)
Lemma wf_live_unique a c s t : wf a -> (c, s) ∈ a_live a -> (c, t) ∈ a_live a -> t = s.
Proof.
  intros W Hs Ht. destruct (decide (t = s)) as [|Hne]; [done|]. exfalso.
  pose proof (wf_disj _ W) as Hp. pose proof (wf_chunks _ W) as Hok.
  apply elem_of_Permutation in Hs as (l & Hl).
  assert ((c, t) ∈ l) as Ht'. { rewrite Hl in Ht. apply elem_of_cons in Ht as [[=]|]; done. }
  unfold a_chunks in *. rewrite Hl in Hok.
  eapply pairwise_perm in Hp; [|exact _|rewrite Hl, <- Permutation_middle; reflexivity].
  destruct Hp as [Hp _]. rewrite Forall_forall in Hp, Hok.
  specialize (Hp (c, t)). specialize (Hok (c, t)).
  assert (0x70 <= t) by (apply Hok; apply elem_of_app; right; by right).
  assert (0x70 <= s).
  { pose proof (wf_chunks _ W) as Hok'. rewrite Forall_forall in Hok'.
    apply (Hok' (c, s)). unfold a_chunks. rewrite Hl. apply elem_of_app. right. by left. }
  assert (bdisj (c, s) (c, t)) as Hd by (apply Hp, elem_of_app; by right).
  unfold bdisj in Hd. simpl in Hd. lia.
Qed.

Lemma wf_drop a c s : wf a -> (c, s) ∈ a_live a -> a_live a ≡ₚ (c, s) :: drop_chunk c (a_live a).
Proof.
  intros W Hin. apply drop_chunk_perm; [done|]. intros t Ht. by eapply wf_live_unique.
Qed.

Lemma a_release_wf c s a : wf a -> (c, s) ∈ a_live a -> wf (a_release c s a).
Proof.
  intros W Hin. pose proof (wf_drop _ _ _ W Hin) as Hp.
  pose proof (wf_within a (c, s) W) as Hw. pose proof (wf_chunks _ W) as Hok.
  pose proof (wf_tiles _ W) as Ht. unfold a_chunks in *.
  destruct Hw as [Hw1 Hw2]; [apply elem_of_app; by right|]. simpl in Hw1, Hw2.
  rewrite Hp, <- Permutation_middle in Hok. apply Forall_cons in Hok as [Hc Hok].
  destruct W as [W1 W2 W3 W4 W5 _ _]. unfold a_release.
  destruct (Z.eqb_spec (s + c) (a_top a)) as [Heq|Hne]; split; simpl; try done.
  - unfold chunk_ok in Hc. simpl in Hc. lia.
  - destruct Hc as (_ & Hc). simpl in Hc. tauto.
  - intros x. specialize (Ht x). rewrite Hp, <- Permutation_middle, ncover_cons in Ht.
    unfold a_chunks. simpl.
    unfold inb in Ht. simpl in Ht. unfold chunk_ok in Hc. simpl in Hc.
    destruct (Z.leb_spec c x), (Z.leb_spec (a_base a) x), (Z.ltb_spec x (c + s)),
      (Z.ltb_spec x (a_top a)), (Z.ltb_spec x c); simpl in *; lia.
  - unfold a_chunks. simpl. rewrite insert_chunk_perm. by constructor.
  - intros x. specialize (Ht x). rewrite Hp, <- Permutation_middle, ncover_cons in Ht.
    unfold a_chunks. simpl. rewrite insert_chunk_perm, <- app_comm_cons, ncover_cons. done.
Qed.
