(* ===== verification/KmallocRefine.v ===== *)
(** * [kmalloc] and [kfree] against the abstract allocator

    Every operation run from a heap that satisfies [hinv] returns (no panic, no
    fault, no endless loop), computes what the abstract operation computes, and
    changes only bytes the allocator owns. *)

From S2P Require Import Prelude Memory Arch Kmalloc KmallocSpec KmallocProof.

(** The physical bytes that belong to the allocator: free chunks and the area
    above the top. *)
Definition own (a : aheap) (x : Z) : Prop :=
  in_blocks (a_free a) x \/ a_top a <= x + KERNEL_BASE_OFFSET < a_end a.

(** Live chunks are not the allocator's. *)
Lemma live_not_own a x : wf a -> in_blocks (a_live a) x -> ~ own a x.
Proof.
  intros W (d & Hd & Hx) [Hf|Ht].
  - destruct Hf as (e & He & Hx'). pose proof (wf_disj _ W) as Hp. unfold a_chunks in Hp.
    apply pairwise_app in Hp as (_ & _ & Hp). rewrite Forall_forall in Hp. specialize (Hp e He).
    rewrite Forall_forall in Hp. specialize (Hp d Hd). unfold bdisj, rng in *. lia.
  - destruct (wf_within a d W) as [_ H]; [apply elem_of_app; by right|].
    unfold rng in Hx. lia.
Qed.
(** Nor is anything outside the heap. *)
Lemma outside_not_own a x :
  wf a -> ~ (a_base a <= x + KERNEL_BASE_OFFSET < a_end a) -> ~ own a x.
Proof.
  intros W Hx [(d & Hd & Hr)|Ht].
  - destruct (wf_within a d W) as [H1 H2]; [apply elem_of_app; by left|].
    pose proof (wf_top _ W). unfold rng in Hr. lia.
  - pose proof (wf_top _ W). lia.
Qed.

Lemma live_headers m m' l :
  Forall (fun d => ldk m d.1 = d.2) l -> Forall blk_ram l ->
  (forall x, in_blocks l x -> m' x = m x) -> Forall (fun d => ldk m' d.1 = d.2) l.
Proof.
  intros Hl Hr Hf. rewrite Forall_forall in Hl, Hr |- *. intros d Hd. rewrite <- (Hl d Hd).
  apply ldk_frame. intros x Hx. apply Hf. exists d. split; [done|]. specialize (Hr d Hd).
  unfold blk_ram, rng, SIZEOF_CHUNK in *. lia.
Qed.

Lemma wf_live_ram a : wf a -> Forall blk_ram (a_live a).
Proof. intros W. apply wf_blocks in W as [W _]. by apply Forall_app in W as [_ W]. Qed.

(** ** Each operation *)

(** A changed memory still represents the heap if live headers and the bin do. *)
Definition step_ok (h : heap) (a : aheap) (h' : heap) (a' : aheap) : Prop :=
  hinv h' a' /\ forall x, ~ own a x -> h_mem h' x = h_mem h x.

Lemma fetch_refines nb h a :
  hinv h a -> request nb ->
  match a_fetch nb a with
  | None => fetch_sorted_bin nb h = Ok 0 h
  | Some (p, a') => exists h', fetch_sorted_bin nb h = Ok p h' /\ step_ok h a h' a'
  end.
Proof.
  intros [R W] Hnb. destruct h as [m ar]. pose proof (wf_free_blocks _ W) as Hb.
  pose proof (fetch_sorted_bin_ok nb (a_free a) m ar (r_bin _ _ R) Hb) as Hres.
  unfold fetch_result in Hres. destruct (a_fetch nb a) as [[p a']|] eqn:Ef.
  - pose proof (a_fetch_wf nb a p a' W Hnb Ef) as W'. unfold a_fetch in Ef.
    destruct (take_fit nb (a_free a)) as [[[c s] rest]|]; [|done]. injection Ef as <- <-.
    destruct Hres as (m' & b & Hrun & Hseg & Hc & Hf).
    + apply Forall_forall. intros d Hd. apply (wf_fits a); [done| |done].
      apply elem_of_app. by left.
    + unfold request, SIZEOF_CHUNK in *. lia.
    + simpl in Hf. eexists. split; [exact Hrun|]. split; [split; [|exact W']|].
      * destruct R as [R1 R2 R3 R4 R5]. split; simpl in *; try done.
        constructor; [done|]. eapply live_headers; [exact R5|by apply wf_live_ram|].
        intros x Hx. apply Hf. intros Hi. by apply (live_not_own a x W Hx); left.
      * intros x Hx. apply Hf. intros Hi. apply Hx. by left.
  - unfold a_fetch in Ef. destruct (take_fit nb (a_free a)) as [[[c s] rest]|]; [done|].
    apply Hres.
    + apply Forall_forall. intros d Hd. apply (wf_fits a); [done| |done].
      apply elem_of_app. by left.
    + unfold request, SIZEOF_CHUNK in *. lia.
Qed.

(** [malloc_top] when the untouched area is large enough. *)
Lemma malloc_top_run nb m ar :
  nb <= top_size ar -> hram (top ar) ->
  malloc_top nb (Heap m ar) =
    Ok (chunk2mem (top ar))
       (Heap (stk m (top ar) nb) (set_top (u64 (top ar + nb)) (u64 (top_size ar - nb)) ar)).
Proof.
  intros Hle Ht. unfold malloc_top. mgo. simpl. rewrite (proj2 (Z.ltb_ge _ _)) by done. mgo.
  unfold set_arena. simpl. unfold hram, SIZEOF_CHUNK in Ht.
  rewrite (bind_ok _ _ _ _ _ (kstore_ok (top ar) nb m _ ltac:(lia) ltac:(lia))). by mgo.
Qed.

(** Writing above the top touches no chunk. *)
Lemma top_store_frame a nb m x :
  a_top a + 8 <= a_end a -> ~ own a x -> stk m (a_top a) nb x = m x.
Proof.
  intros H Hx. apply stk_outside. intros Hr. apply Hx. right. unfold rng in Hr. lia.
Qed.

Lemma free_own a d x :
  wf a -> d ∈ a_free a -> rng (d.1 - KERNEL_BASE_OFFSET) SIZEOF_CHUNK x ->
  x + KERNEL_BASE_OFFSET < a_top a.
Proof.
  intros W Hd Hx. destruct (wf_within a d W) as [_ H2]; [apply elem_of_app; by left|].
  pose proof (wf_free_blocks _ W) as [Hb _]. rewrite Forall_forall in Hb.
  specialize (Hb d Hd). unfold blk_ram, rng in *. lia.
Qed.

Lemma top_refines nb h a :
  hinv h a -> chunk_ok (a_top a, nb) ->
  match a_malloc_top nb a with
  | None => malloc_top nb h = Ok 0 h
  | Some (p, a') => exists h', malloc_top nb h = Ok p h' /\ step_ok h a h' a'
  end.
Proof.
  intros [R W] Hc. pose proof R as [R1 R2 R3 R4 R5]. destruct h as [m ar]. simpl in *.
  destruct (a_malloc_top nb a) as [[p a']|] eqn:E.
  - pose proof (a_malloc_top_wf nb a p a' W Hc E) as W'. unfold a_malloc_top in E.
    destruct (Z.ltb_spec (a_end a - a_top a) nb) as [|Hle]; [done|]. injection E as <- <-.
    pose proof (wf_base _ W). pose proof (wf_end _ W). pose proof (wf_top _ W).
    destruct Hc as (Hlo & _). simpl in Hlo.
    assert (forall x, ~ own a x -> stk m (a_top a) nb x = m x) as Hf
      by (intros x; apply top_store_frame; lia).
    eexists. split.
    { rewrite malloc_top_run, R1; [|lia|].
      - unfold chunk2mem. rewrite u64_small; [reflexivity|].
        unfold OFF_NEXT, KERNEL_BASE_OFFSET, MEM_SIZE, PS_LIMIT, KERNEL_PAGING_SIZE in *. lia.
      - unfold hram, SIZEOF_CHUNK, KERNEL_PAGING_SIZE in *. lia. }
    unfold KERNEL_BASE_OFFSET, MEM_SIZE, PS_LIMIT, KERNEL_PAGING_SIZE in *.
    split; [split; [split|exact W']|exact Hf]; simpl.
    + apply u64_small. lia.
    + rewrite u64_small by lia. lia.
    + done.
    + apply (seg_same_ldk m _ _ _ _ (rng (a_top a - KERNEL_BASE_OFFSET) 8) R4).
      * intros x Hx. by apply stk_outside.
      * intros d x Hd Hx Hr. pose proof (free_own a d x W Hd Hx).
        unfold rng, KERNEL_BASE_OFFSET in *. lia.
    + constructor; [apply ldk_stk; simpl; lia|]. eapply live_headers; [exact R5|by apply wf_live_ram|].
      intros x Hx. apply Hf. by apply live_not_own.
  - unfold a_malloc_top in E. destruct (Z.ltb_spec (a_end a - a_top a) nb) as [Hlt|]; [|done].
    unfold malloc_top. mgo. simpl. by rewrite R2, (proj2 (Z.ltb_lt _ _)).
Qed.

(** The chunk to release, the free chunks and the other live chunks are apart. *)
Lemma release_blocks a c s :
  wf a -> (c, s) ∈ a_live a -> blocks ((c, s) :: a_free a ++ drop_chunk c (a_live a)).
Proof.
  intros W Hin. eapply blocks_perm; [|apply (wf_blocks _ W)]. unfold a_chunks.
  rewrite (wf_drop _ _ _ W Hin) at 1. by rewrite <- Permutation_middle.
Qed.

Lemma release_frees a c s x :
  wf a -> (c, s) ∈ a_live a -> in_blocks (drop_chunk c (a_live a)) x ->
  ~ in_blocks ((c, s) :: a_free a) x.
Proof.
  intros W Hin (e & He & Hx) (d & Hd & Hx').
  pose proof (release_blocks a c s W Hin) as [_ Hp]. rewrite app_comm_cons in Hp.
  apply pairwise_app in Hp as (_ & _ & Hp). rewrite Forall_forall in Hp. specialize (Hp d Hd).
  rewrite Forall_forall in Hp. specialize (Hp e He). unfold bdisj, rng in *. lia.
Qed.

(** Writes confined to the released chunk and the free chunks keep the headers of
    the remaining live chunks. *)
Lemma release_live m m' a c s :
  wf a -> (c, s) ∈ a_live a -> Forall (fun d => ldk m d.1 = d.2) (a_live a) ->
  (forall x, ~ in_blocks ((c, s) :: a_free a) x -> m' x = m x) ->
  Forall (fun d => ldk m' d.1 = d.2) (drop_chunk c (a_live a)).
Proof.
  intros W Hin Hl Hf. pose proof (wf_drop _ _ _ W Hin) as Hp.
  pose proof (wf_live_ram _ W) as Hr. rewrite Hp in Hl, Hr.
  apply Forall_cons in Hl as [_ Hl]. apply Forall_cons in Hr as [_ Hr].
  eapply live_headers; [exact Hl|exact Hr|]. intros x Hx. apply Hf. by eapply release_frees.
Qed.

(** Releasing the topmost chunk gives it back to the untouched area. *)
Lemma release_top m ar a c s :
  hinv (Heap m ar) a -> (c, s) ∈ a_live a -> s + c = a_top a ->
  hinv (Heap (stk m c 0) (set_top c (u64 (top_size ar + s)) ar)) (a_release c s a).
Proof.
  intros [[R1 R2 R3 R4 R5] W] Hin Heq. split; [|by apply a_release_wf].
  pose proof (release_blocks a c s W Hin) as Hb.
  pose proof (wf_within a (c, s) W) as [Hlo _]; [apply elem_of_app; by right|].
  pose proof (wf_base _ W). pose proof (wf_end _ W). pose proof (wf_top _ W).
  simpl in *. unfold a_release. rewrite (proj2 (Z.eqb_eq _ _)) by done.
  assert (blk_ram (c, s)) as Hc by (destruct Hb as [Hb _]; by apply Forall_cons in Hb as [? _]).
  unfold blk_ram in Hc. simpl in Hc.
  assert (forall x, ~ in_blocks [(c, s)] x -> stk m c 0 x = m x) as Hf.
  { intros x Hx. apply stk_outside. intros Hr. apply Hx. exists (c, s). split; [left|].
    unfold rng, SIZEOF_CHUNK in *. simpl. lia. }
  split; simpl; try done.
  - rewrite R2, u64_small; [lia|].
    unfold SIZEOF_CHUNK, KERNEL_BASE_OFFSET, KERNEL_PAGING_SIZE, MEM_SIZE, PS_LIMIT in *. lia.
  - apply (seg_same_ldk m _ _ _ _ _ R4 Hf). intros d x Hd Hx (e & He & Hx').
    apply list_elem_of_singleton in He as ->. destruct Hb as [Hb [Hdis _]].
    rewrite Forall_forall in Hdis, Hb.
    specialize (Hdis d ltac:(apply elem_of_app; by left)).
    specialize (Hb d ltac:(right; apply elem_of_app; by left)).
    unfold bdisj, blk_ram, rng, SIZEOF_CHUNK in *. simpl in *. lia.
  - eapply release_live; [done..|]. intros x Hx. apply Hf. intros Hi. apply Hx.
    eapply in_blocks_mono; [|exact Hi]. intros d. rewrite list_elem_of_singleton. intros ->. left.
Qed.

Lemma kfree_refines c s h a :
  hinv h a -> (c, s) ∈ a_live a ->
  exists h', kfree (c + OFF_NEXT) h = Ok tt h' /\ hinv h' (a_release c s a) /\
             forall x, ~ own a x -> ~ rng (c - KERNEL_BASE_OFFSET) s x -> h_mem h' x = h_mem h x.
Proof.
  intros [R W] Hin. pose proof R as [R1 R2 R3 R4 R5]. destruct h as [m ar]. simpl in *.
  pose proof (release_blocks a c s W Hin) as Hb.
  assert (blk_ram (c, s)) as Hc by (destruct Hb as [Hb' _]; by apply Forall_cons in Hb' as [? _]).
  assert (chunk_ok (c, s)) as Hok.
  { pose proof (wf_chunks _ W) as Hok. rewrite Forall_forall in Hok. apply Hok.
    apply elem_of_app. by right. }
  apply chunk_size_mod16 in Hok as [H16 _]. simpl in H16.
  assert (hram c) as Hh by (unfold blk_ram, hram in *; simpl in *; lia).
  assert (ldk m c = s) as Hsz by (rewrite Forall_forall in R5; exact (R5 (c, s) Hin)).
  unfold kfree, blk_ram, KERNEL_BASE_OFFSET, MEM_SIZE, PS_LIMIT, SIZEOF_CHUNK in *. simpl in Hc.
  rewrite (proj2 (Z.eqb_neq _ _)) by (unfold OFF_NEXT; lia).
  unfold mem2chunk. replace (c + OFF_NEXT - OFF_NEXT) with c by lia. rewrite u64_small by lia.
  rewrite (bind_ok _ _ _ _ _ (hram_load c m ar Hh)), Hsz, valid_size by lia. mgo. simpl.
  rewrite R1, u64_small by lia. destruct (Z.eqb_spec (s + c) (a_top a)) as [Heq|Hne].
  - mgo. unfold set_arena. simpl. rewrite kstore_ok; [|unfold KERNEL_BASE_OFFSET, MEM_SIZE, PS_LIMIT; lia..].
    eexists. split; [reflexivity|]. split; [by apply release_top|].
    intros x _ Hx. simpl. apply stk_outside. intros Hr. apply Hx. unfold rng, KERNEL_BASE_OFFSET in *. lia.
  - destruct (insert_sorted_ok m ar (a_free a) c s R4 Hsz) as (m' & v & Hrun & Hseg & Hf).
    { apply (blocks_hdrs ((c, s) :: a_free a)). by apply (blocks_app ((c, s) :: a_free a)) in Hb. }
    assert (forall x, ~ in_blocks ((c, s) :: a_free a) x -> m' x = m x) as Hf'.
    { intros x Hx. apply Hf. intros Hi. apply Hx. apply in_next_blocks; [|done].
      apply (blocks_app ((c, s) :: a_free a)) in Hb. apply Hb. }
    eexists. split; [exact Hrun|]. split.
    + split; [|by apply a_release_wf]. unfold a_release. rewrite (proj2 (Z.eqb_neq _ _)) by done.
      split; simpl; try done. by eapply release_live.
    + intros x Ho Hx. simpl. apply Hf'. intros (d & Hd & Hr).
      apply elem_of_cons in Hd as [->|Hd]; [done|]. apply Ho. left. by exists d.
Qed.

(** ** Allocation *)

Lemma gap_consume t :
  0 <= t -> Z.land (u64 (MALLOC_PAGE_ALIGN - OFF_NEXT - Z.land t (MALLOC_PAGE_ALIGN - 1)))
                   (MALLOC_PAGE_ALIGN - 1) = page_gap t.
Proof.
  intros Ht. unfold page_gap, MALLOC_PAGE_ALIGN, OFF_NEXT.
  change (4096 - 1) with 0xfff. rewrite !low12_mod. unfold u64.
  change (2 ^ 64) with (2 ^ 52 * 4096). rewrite mod_mul_mod by lia.
  by rewrite Zminus_mod_idemp_r.
Qed.

Lemma page_gap_props t :
  t mod 0x80 = 0 \/ t mod 0x80 = 0x70 ->
  0 <= page_gap t < 4096 /\ (t + page_gap t + OFF_NEXT) mod 4096 = 0 /\
  (page_gap t = 0 -> t mod 0x80 = 0x70) /\
  (page_gap t <> 0 -> chunk_ok (t, page_gap t)) /\ (t + page_gap t) mod 0x80 = 0x70.
Proof.
  intros Ht. unfold page_gap, MALLOC_PAGE_ALIGN, OFF_NEXT.
  set (g := (4096 - 16 - t) mod 4096).
  assert (0 <= g < 4096) as Hg by (apply Z.mod_pos_bound; lia).
  assert ((t + g + 16) mod 4096 = 0) as Hp.
  { unfold g. rewrite <- Z.add_assoc, <- Zplus_mod_idemp_r, Zplus_mod_idemp_l, Zplus_mod_idemp_r.
    replace (t + (4096 - 16 - t + 16)) with 4096 by lia. done. }
  assert ((t + g) mod 0x80 = 0x70) as Hm.
  { assert ((t + g + 16) mod 0x80 = 0) as H0.
    { rewrite <- (mod_mul_mod _ 32 0x80) by lia. change (32 * 0x80) with 4096. by rewrite Hp. }
    pose proof (Z.div_mod (t + g + 16) 0x80). pose proof (Z.mod_pos_bound (t + g) 0x80).
    pose proof (Z.div_mod (t + g) 0x80). lia. }
  assert (g mod 0x80 = (0x70 - t mod 0x80) mod 0x80) as Hgm.
  { rewrite <- Hm, Zminus_mod_idemp_l, Zminus_mod_idemp_r. f_equal. lia. }
  split; [done|]. split; [done|]. split; [|split; [|done]].
  - intros H0. rewrite H0 in Hm. by rewrite Z.add_0_r in Hm.
  - intros H0. unfold chunk_ok. simpl. pose proof (Z.div_mod g 0x80).
    pose proof (Z.mod_pos_bound g 0x80).
    clearbody g. destruct Ht as [Ht|Ht]; rewrite Ht in Hgm |- *.
    + change (g mod 128 = 112) in Hgm. lia.
    + change (g mod 128 = 0) in Hgm. lia.
Qed.

Lemma chunk_ok_request t nb :
  t mod 0x80 = 0 \/ t mod 0x80 = 0x70 -> request nb -> chunk_ok (t, nb).
Proof. unfold chunk_ok, request. simpl. lia. Qed.

Lemma own_top_mono a nb p a' x :
  0 <= nb -> a_malloc_top nb a = Some (p, a') -> own a' x -> own a x.
Proof.
  intros Hnb. unfold a_malloc_top. destruct (_ <? _); [done|]. intros [= <- <-].
  unfold own. simpl. intros [?|?]; [by left|right; lia].
Qed.

Lemma step_ok_trans h1 a1 h2 a2 h3 a3 :
  step_ok h1 a1 h2 a2 -> (forall x, own a2 x -> own a1 x) -> step_ok h2 a2 h3 a3 ->
  step_ok h1 a1 h3 a3.
Proof.
  intros [_ F1] Ho [I F2]. split; [done|]. intros x Hx. rewrite F2, F1; auto.
Qed.
Lemma step_ok_refl h a : hinv h a -> step_ok h a h a.
Proof. by split. Qed.

Lemma wf_top_pos a : wf a -> 0 < a_top a.
Proof.
  intros W. pose proof (wf_base _ W). pose proof (wf_top _ W).
  unfold KERNEL_BASE_OFFSET, KERNEL_PAGING_SIZE in *. lia.
Qed.

(** [kfree(NULL)] does nothing. *)
Lemma kfree_null h : kfree 0 h = Ok tt h.
Proof. reflexivity. Qed.

(** Releasing the gap chunk writes only to bytes that were above the old top. *)
Lemma free_gap h a h1 a1 h2 a2 g :
  step_ok h a h1 a1 -> (forall x, own a1 x -> own a x) ->
  a_top a + g <= a_end a -> hinv h2 a2 ->
  (forall x, ~ own a1 x -> ~ rng (a_top a - KERNEL_BASE_OFFSET) g x -> h_mem h2 x = h_mem h1 x) ->
  step_ok h a h2 a2.
Proof.
  intros [_ F1] Ho Hend I F2. split; [done|]. intros x Hx. rewrite F2, F1; auto.
  intros Hr. apply Hx. right. unfold rng in Hr. lia.
Qed.

Lemma page_refines nb h a :
  hinv h a -> request nb ->
  exists h', int_kmalloc nb MALLOC_PAGE_ALIGN h = Ok (default 0 (a_malloc_page nb a).1) h' /\
             step_ok h a h' (a_malloc_page nb a).2.
Proof.
  intros [R W] Hnb. pose proof (wf_top_pos _ W) as Hpos.
  destruct (page_gap_props (a_top a) (wf_top_mod _ W)) as (Hg & _ & Hg0 & Hgc & Hgm).
  unfold int_kmalloc. simpl. mgo. rewrite (r_top _ _ R), gap_consume by lia.
  unfold a_malloc_page. destruct (Z.eqb_spec (page_gap (a_top a)) 0) as [E|E].
  - mgo. pose proof (top_refines nb h a (conj R W)) as H.
    destruct (a_malloc_top nb a) as [[p a']|]; simpl.
    + destruct H as (h' & Hrun & Hs); [apply chunk_ok_request; auto|].
      exists h'. rewrite (bind_ok _ _ _ _ _ Hrun). done.
    + exists h. rewrite (bind_ok _ _ _ _ _ (H ltac:(apply chunk_ok_request; auto))).
      split; [done|by apply step_ok_refl].
  - specialize (Hgc E). pose proof (top_refines _ h a (conj R W) Hgc) as H. rewrite bind_bind.
    destruct (a_malloc_top (page_gap (a_top a)) a) as [[p a1]|] eqn:E1.
    2:{ exists h. rewrite (bind_ok _ _ _ _ _ H). split; [done|by apply step_ok_refl]. }
    destruct H as (h1 & Hrun1 & S1). pose proof S1 as [I1 _].
    rewrite (bind_ok _ _ _ _ _ Hrun1).
    assert (forall x, own a1 x -> own a x) as Ho1
      by (intros x; eapply own_top_mono; [|exact E1]; lia).
    assert (p = a_top a + OFF_NEXT /\ a_top a1 = a_top a + page_gap (a_top a) /\
            a_end a1 = a_end a /\ (a_top a, page_gap (a_top a)) ∈ a_live a1 /\
            a_top a + page_gap (a_top a) <= a_end a) as (-> & Ht1 & He1 & Hin1 & Hend).
    { unfold a_malloc_top in E1. destruct (Z.ltb_spec (a_end a - a_top a) (page_gap (a_top a)));
        [done|]. injection E1 as <- <-. simpl. repeat split; [left|lia]. }
    rewrite (proj2 (Z.eqb_neq _ _)) by (unfold OFF_NEXT; lia). mgo.
    pose proof (top_refines nb h1 a1 I1) as H2.
    destruct (a_malloc_top nb a1) as [[p a2]|] eqn:E2; simpl.
    + destruct H2 as (h2 & Hrun2 & S2); [apply chunk_ok_request; [rewrite Ht1; auto|done]|].
      rewrite (bind_ok _ _ _ _ _ Hrun2).
      assert (a_end a2 = a_end a1 /\ (a_top a, page_gap (a_top a)) ∈ a_live a2) as [He2 Hin2].
      { unfold a_malloc_top in E2. destruct (_ <? _); [done|]. injection E2 as <- <-. simpl.
        split; [done|by right]. }
      assert (forall x, own a2 x -> own a1 x) as Ho2
        by (intros x; eapply own_top_mono; [|exact E2]; unfold request in Hnb; lia).
      destruct (kfree_refines _ _ h2 a2 (proj1 S2) Hin2) as (h3 & Hrun3 & I3 & F3).
      exists h3. rewrite (bind_ok _ _ _ _ _ Hrun3). split; [done|].
      apply (free_gap h a h2 a2 h3 _ (page_gap (a_top a)) (step_ok_trans _ _ _ _ _ _ S1 Ho1 S2)); auto.
    + rewrite (bind_ok _ _ _ _ _ (H2 ltac:(apply chunk_ok_request; [rewrite Ht1; auto|done]))).
      destruct (kfree_refines _ _ h1 a1 I1 Hin1) as (h3 & Hrun3 & I3 & F3).
      exists h3. rewrite (bind_ok _ _ _ _ _ Hrun3). split; [done|].
      apply (free_gap h a h1 a1 h3 _ (page_gap (a_top a)) S1); auto.
Qed.

Lemma int_kmalloc_refines nb align h a :
  hinv h a -> request nb -> align = MALLOC_NO_ALIGN \/ align = MALLOC_PAGE_ALIGN ->
  exists h', int_kmalloc nb align h = Ok (default 0 (a_malloc nb align a).1) h' /\
             step_ok h a h' (a_malloc nb align a).2.
Proof.
  intros I Hnb [->| ->]; [|by apply page_refines].
  pose proof I as [_ W]. unfold int_kmalloc, a_malloc. simpl.
  pose proof (fetch_refines nb h a I Hnb) as Hf.
  destruct (a_fetch nb a) as [[p a']|] eqn:E.
  - destruct Hf as (h' & Hrun & Hs). exists h'. rewrite (bind_ok _ _ _ _ _ Hrun).
    simpl. rewrite (proj2 (Z.eqb_neq _ _)); [done|].
    unfold a_fetch in E. destruct (take_fit nb (a_free a)) as [[[c s] rest]|] eqn:Et; [|done].
    injection E as <- _. apply take_fit_perm in Et as [Hp _].
    destruct (wf_within a (c, s) W) as [Hlo _].
    { apply elem_of_app. left. rewrite Hp. left. }
    pose proof (wf_base _ W). simpl in Hlo.
    unfold OFF_NEXT, KERNEL_BASE_OFFSET, KERNEL_PAGING_SIZE in *. lia.
  - rewrite (bind_ok _ _ _ _ _ Hf). simpl.
    pose proof (top_refines nb h a I) as Ht.
    destruct (a_malloc_top nb a) as [[p a']|]; simpl.
    + destruct Ht as (h' & Hrun & Hs); [apply chunk_ok_request; [apply W|done]|]. eauto.
    + exists h. split; [|by apply step_ok_refl].
      apply Ht, chunk_ok_request; [apply W|done].
Qed.

(** What an abstract allocation does to the live chunks. *)
Lemma a_malloc_top_inv nb a p a' :
  a_malloc_top nb a = Some (p, a') ->
  p = a_top a + OFF_NEXT /\ a_live a' = (a_top a, nb) :: a_live a /\
  a_top a' = a_top a + nb /\ a_base a' = a_base a /\ a_end a' = a_end a.
Proof.
  unfold a_malloc_top. destruct (_ <? _); [done|]. by intros [= <- <-].
Qed.

Lemma a_malloc_some nb align a p a' :
  wf a -> request nb -> a_malloc nb align a = (Some p, a') ->
  a_live a' = (p - OFF_NEXT, nb) :: a_live a /\ a_base a' = a_base a /\ a_end a' = a_end a /\
  (align <> MALLOC_NO_ALIGN -> p mod 4096 = 0).
Proof.
  intros W Hnb. unfold a_malloc. destruct (Z.eqb_spec align MALLOC_NO_ALIGN) as [->|Hal].
  - destruct (a_fetch nb a) as [[q b]|] eqn:E.
    + intros [= -> ->]. unfold a_fetch in E.
      destruct (take_fit nb (a_free a)) as [[[c s] rest]|]; [|done]. injection E as <- <-.
      simpl. by replace (c + OFF_NEXT - OFF_NEXT) with c by lia.
    + destruct (a_malloc_top nb a) as [[q b]|] eqn:Et; [|done]. intros [= -> ->].
      apply a_malloc_top_inv in Et as (-> & -> & _ & -> & ->).
      by replace (a_top a + OFF_NEXT - OFF_NEXT) with (a_top a) by lia.
  - destruct (page_gap_props (a_top a) (wf_top_mod _ W)) as (Hg & Hpg & _ & _ & _).
    unfold a_malloc_page. destruct (Z.eqb_spec (page_gap (a_top a)) 0) as [E|E].
    + destruct (a_malloc_top nb a) as [[q b]|] eqn:Et; [|done]. intros [= -> ->].
      apply a_malloc_top_inv in Et as (-> & -> & _ & -> & ->). rewrite E, Z.add_0_r in Hpg.
      by replace (a_top a + OFF_NEXT - OFF_NEXT) with (a_top a) by lia.
    + destruct (a_malloc_top _ a) as [[q b]|] eqn:E1; [|done].
      apply a_malloc_top_inv in E1 as (_ & Hl1 & Ht1 & Hb1 & He1).
      destruct (a_malloc_top nb b) as [[q' b']|] eqn:E2; [|done]. intros [= -> <-].
      apply a_malloc_top_inv in E2 as (-> & Hl2 & Ht2 & Hb2 & He2).
      unfold a_release, request in *. rewrite (proj2 (Z.eqb_neq _ _)) by lia. simpl.
      rewrite Hl2, Hl1, Hb2, Hb1, He2, He1. simpl.
      rewrite (proj2 (Z.eqb_neq (a_top b) _)), Z.eqb_refl by lia.
      replace (a_top b + OFF_NEXT - OFF_NEXT) with (a_top b) by lia. rewrite Ht1. done.
Qed.

(** A failed allocation changes nothing abstractly. *)
Lemma a_malloc_none nb align a a' : a_malloc nb align a = (None, a') -> a' = a.
Proof.
  unfold a_malloc, a_malloc_page. destruct (align =? MALLOC_NO_ALIGN).
  - destruct (a_fetch nb a) as [[q b]|]; [done|].
    destruct (a_malloc_top nb a) as [[q b]|]; [done|]. by intros [= ->].
  - destruct (page_gap (a_top a) =? 0).
    + destruct (a_malloc_top nb a) as [[q b]|]; [done|]. by intros [= ->].
    + destruct (a_malloc_top _ a) as [[q b]|] eqn:E; [|by intros [= ->]].
      unfold a_malloc_top in E. destruct (_ <? _); [done|]. injection E as <- <-.
      destruct (a_malloc_top nb _) as [[q' b']|]; [done|]. intros [= <-].
      unfold a_release. simpl. rewrite (proj2 (Z.eqb_eq _ _)), Z.eqb_refl by lia. by destruct a.
Qed.
