(* ===== verification/KmallocSafety.v ===== *)
(** * What the allocator promises its callers

    The contract of [kmalloc], [kfree] and [init_allocator], for one call and for
    every sequence of calls, with the failure path of [kmalloc], which clears
    memory at address 0. *)

From S2P Require Import Prelude Memory Arch Kmalloc KmallocSpec KmallocProof KmallocRefine.

(** The chunk size [kmalloc] asks for. *)
Definition chunk_size (len : Z) : Z := alignup_to (u64 (len + OFF_NEXT)) 0x80.

Lemma alignup_to_80 v :
  0 <= v < 2 ^ 40 -> alignup_to v 0x80 mod 0x80 = 0 /\ v <= alignup_to v 0x80 < v + 0x80.
Proof.
  intros Hv. unfold alignup_to, nonzero. change (0x80 - 1) with (2 ^ 7 - 1).
  rewrite land_low by lia. change (u64 (- 0x80)) with (2 ^ 64 - 2 ^ 7).
  rewrite (land_high 64 7) by lia. change (2 ^ 7) with 128.
  pose proof (Z.div_mod v 128). pose proof (Z.mod_pos_bound v 128).
  destruct (Z.eqb_spec (v mod 128) 0); simpl; [lia|]. rewrite u64_small by lia.
  split; [|lia]. replace (v - v mod 128 + 128) with ((v / 128 + 1) * 128) by lia.
  by apply Z.mod_mul.
Qed.

Lemma chunk_size_request len :
  0 <= len < 2 ^ 32 -> request (chunk_size len) /\ len + OFF_NEXT <= chunk_size len.
Proof.
  intros H. unfold chunk_size. rewrite u64_small by (unfold OFF_NEXT; lia).
  destruct (alignup_to_80 (len + OFF_NEXT)) as [H1 H2]; [unfold OFF_NEXT; lia|].
  unfold request, OFF_NEXT in *. pose proof (Z.div_mod (alignup_to (len + 16) 0x80) 0x80). lia.
Qed.

(** Writes into the payload of a live chunk keep the invariant: the caller of
    [kmalloc] may use its memory freely. *)
Lemma payload_write m m' ar a c s :
  hinv (Heap m ar) a -> (c, s) ∈ a_live a ->
  (forall x, ~ rng (c + OFF_NEXT - KERNEL_BASE_OFFSET) (s - OFF_NEXT) x -> m' x = m x) ->
  hinv (Heap m' ar) a.
Proof.
  intros [[R1 R2 R3 R4 R5] W] Hin Hf. split; [|done]. simpl in *.
  pose proof (release_blocks a c s W Hin) as Hb. pose proof (wf_drop _ _ _ W Hin) as Hp.
  split; simpl; try done.
  - apply (seg_same_ldk m m' _ _ _ _ R4 Hf). intros d x Hd Hx Hx'.
    destruct Hb as [Hb [Hdis _]]. rewrite Forall_forall in Hb, Hdis.
    specialize (Hdis d ltac:(apply elem_of_app; by left)).
    specialize (Hb d ltac:(right; apply elem_of_app; by left)).
    unfold bdisj, blk_ram, rng, SIZEOF_CHUNK, OFF_NEXT in *. simpl in *. lia.
  - rewrite Hp in R5 |- *. apply Forall_cons in R5 as [Rc Rl]. simpl in Rc.
    assert (forall d, d ∈ drop_chunk c (a_live a) -> bdisj (c, s) d /\ blk_ram d) as Hd.
    { destruct Hb as [Hb [Hdis _]]. rewrite Forall_forall in Hb, Hdis. intros d Hd.
      split; [apply Hdis|apply Hb; right]; apply elem_of_app; by right. }
    constructor; [|apply Forall_forall; intros d Hd'; rewrite Forall_forall in Rl;
                   rewrite <- (Rl d Hd')].
    + simpl. etransitivity; [|exact Rc]. apply ldk_frame. intros x Hx. apply Hf. unfold rng, OFF_NEXT in *. lia.
    + apply ldk_frame. intros x Hx. apply Hf. destruct (Hd d Hd').
      unfold bdisj, blk_ram, rng, SIZEOF_CHUNK, OFF_NEXT in *. simpl in *. lia.
Qed.

Lemma low12_page p : p mod 4096 = 0 -> nonzero (Z.land p (MALLOC_PAGE_ALIGN - 1)) = false.
Proof. intros H. unfold nonzero. change (MALLOC_PAGE_ALIGN - 1) with 0xfff. by rewrite low12_mod, H. Qed.

(** A byte of the heap that is in no live chunk is the allocator's. *)
Lemma not_live_own a x :
  wf a -> a_base a <= x + KERNEL_BASE_OFFSET < a_end a -> ~ in_blocks (a_live a) x -> own a x.
Proof.
  intros W Hx Hl. destruct (Z.ltb_spec (x + KERNEL_BASE_OFFSET) (a_top a)) as [Hlt|]; [|right; lia].
  left. pose proof (wf_tiles _ W (x + KERNEL_BASE_OFFSET)) as Ht.
  rewrite (proj2 (andb_true_iff _ _)) in Ht by lia. unfold a_chunks in Ht.
  rewrite ncover_app in Ht.
  assert (forall l, ncover l (x + KERNEL_BASE_OFFSET) = 0 \/ in_blocks l x) as Hn.
  { clear. induction l as [|d l [IH|(e & He & Hx)]]; [by left|..].
    - rewrite ncover_cons, IH. destruct (inb (x + KERNEL_BASE_OFFSET) d) eqn:E; [|by left].
      right. exists d. split; [left|]. unfold inb, rng in *. lia.
    - right. exists e. split; [by right|done]. }
  destruct (Hn (a_live a)) as [H0|]; [|done]. destruct (Hn (a_free a)) as [H1|]; [|done].
  rewrite H0, H1 in Ht. done.
Qed.

(** A new chunk is taken from the allocator's bytes. *)
Lemma fresh_own a a' d x :
  wf a -> wf a' -> a_live a' = d :: a_live a -> a_base a' = a_base a -> a_end a' = a_end a ->
  rng (d.1 - KERNEL_BASE_OFFSET) d.2 x -> own a x.
Proof.
  intros W W' Hl Hb He Hx. assert (d ∈ a_live a') as Hin by (rewrite Hl; left).
  destruct (wf_within a' d W') as [H1 H2]; [apply elem_of_app; by right|].
  pose proof (wf_top _ W'). apply not_live_own; [done|unfold rng in Hx; lia|].
  pose proof (wf_blocks _ W') as Hbl. unfold a_chunks in Hbl. rewrite Hl in Hbl.
  eapply blocks_perm in Hbl; [|apply Permutation_app_comm].
  apply (blocks_app (d :: a_live a)) in Hbl. eapply blocks_apart; [exact Hbl|done].
Qed.

(** Clearing the payload of a new chunk. *)
Lemma clear_payload m ar a p s len :
  hinv (Heap m ar) a -> (p - OFF_NEXT, s) ∈ a_live a -> 0 <= len -> len + OFF_NEXT <= s ->
  exists m', (kmemset p 0 len ;; mret p) (Heap m ar) = Ok p (Heap m' ar) /\
    hinv (Heap m' ar) a /\ (forall x, rng (p - KERNEL_BASE_OFFSET) len x -> m' x = 0) /\
    (forall x, ~ rng (p - KERNEL_BASE_OFFSET) len x -> m' x = m x).
Proof.
  intros I Hin Hlen Hs. pose proof I as [_ W].
  destruct (wf_within a _ W ltac:(apply elem_of_app; right; exact Hin)) as [Hw1 Hw2].
  pose proof (wf_base _ W). pose proof (wf_end _ W). pose proof (wf_top _ W). simpl in Hw1, Hw2.
  destruct (Z.eqb_spec len 0) as [->|Hne].
  - exists m. split; [done|]. split; [done|]. split; [unfold rng; lia|done].
  - exists (mset m (p - KERNEL_BASE_OFFSET) 0 len). unfold OFF_NEXT, KERNEL_PAGING_SIZE in *.
    rewrite (bind_ok _ _ _ _ _ (kmemset_ok p 0 len m ar ltac:(lia) ltac:(lia) ltac:(lia))).
    split; [done|]. split; [|split].
    + eapply payload_write; [exact I|exact Hin|]. intros x Hx. apply mset_outside.
      intros Hr. apply Hx. unfold rng, OFF_NEXT in *. lia.
    + intros x Hx. by rewrite mset_inside.
    + intros x Hx. by rewrite mset_outside.
Qed.

(** A successful [kmalloc]: which abstract step it is, and what it does to memory. *)
Lemma kmalloc_some len align h a p a' :
  hinv h a -> 0 <= len < 2 ^ 32 -> align = MALLOC_NO_ALIGN \/ align = MALLOC_PAGE_ALIGN ->
  a_malloc (chunk_size len) align a = (Some p, a') ->
  exists h', kmalloc len align h = Ok p h' /\ hinv h' a' /\
    (forall x, rng (p - KERNEL_BASE_OFFSET) len x -> h_mem h' x = 0) /\
    (forall x, ~ own a x -> h_mem h' x = h_mem h x).
Proof.
  intros I Hlen Hal Hm. destruct (chunk_size_request len Hlen) as [Hnb Hsz].
  pose proof (a_malloc_some _ _ _ _ _ (proj2 I) Hnb Hm) as (Hl & Hb & He & Hpg).
  destruct (int_kmalloc_refines _ align h a I Hnb Hal) as (h1 & Hrun & [I1 F1]).
  rewrite Hm in Hrun, I1. simpl in Hrun, I1. destruct h1 as [m1 ar1].
  destruct (clear_payload m1 ar1 a' p (chunk_size len) len) as (m2 & Hrun2 & I2 & Z2 & F2);
    [done|rewrite Hl; left|lia|done|].
  exists (Heap m2 ar1). split; [|split; [done|split; [done|]]].
  - unfold kmalloc. rewrite (proj2 (Z.leb_gt _ _)) by lia. fold (chunk_size len).
    rewrite (bind_ok _ _ _ _ _ Hrun).
    assert (negb (align =? MALLOC_NO_ALIGN) && nonzero (Z.land p (align - 1)) = false) as ->;
      [|exact Hrun2].
    destruct Hal as [->| ->]; [done|]. simpl. by apply low12_page, Hpg.
  - intros x Hx. simpl. rewrite F2; [by apply F1|]. intros Hr. apply Hx.
    eapply (fresh_own a a' _ x (proj2 I) (proj2 I1) Hl Hb He).
    unfold rng, OFF_NEXT in *. simpl. lia.
Qed.

(** A failing [kmalloc] clears the memory at address 0. *)
Lemma kmalloc_none len align h a :
  hinv h a -> 0 <= len < 2 ^ 32 -> align = MALLOC_NO_ALIGN \/ align = MALLOC_PAGE_ALIGN ->
  (a_malloc (chunk_size len) align a).1 = None ->
  exists h1, step_ok h a h1 a /\
    kmalloc len align h = (kmemset 0 0 len ;; mret 0) h1.
Proof.
  intros I Hlen Hal Hm. destruct (chunk_size_request len Hlen) as [Hnb _].
  destruct (int_kmalloc_refines _ align h a I Hnb Hal) as (h1 & Hrun & S1).
  destruct (a_malloc (chunk_size len) align a) as [[p|] a'] eqn:E; [done|].
  apply a_malloc_none in E as ->. exists h1. split; [done|].
  unfold kmalloc. rewrite (proj2 (Z.leb_gt _ _)) by lia. fold (chunk_size len).
  rewrite (bind_ok _ _ _ _ _ Hrun). simpl.
  by rewrite andb_false_r.
Qed.

(** A fresh heap. *)
Definition fresh_aheap (addr len : Z) : aheap := AHeap addr addr (addr + len) [] [].

Lemma init_allocator_run addr len h :
  KERNEL_BASE_OFFSET + KERNEL_PAGING_SIZE <= addr -> addr mod 4096 = 0 ->
  addr + len <= KERNEL_BASE_OFFSET + MEM_SIZE -> 0 < len -> len mod 4096 = 0 ->
  exists h', init_allocator addr len h = Ok tt h' /\ hinv h' (fresh_aheap addr len) /\
             h_mem h' = h_mem h.
Proof.
  intros Hb Hp He Hl Hlp. unfold init_allocator. rewrite low12_mod, Hlp.
  rewrite (proj2 (Z.eqb_neq len 0)) by lia. simpl.
  eexists. split; [reflexivity|]. split; [|done].
  assert (addr mod 0x80 = 0) as H80.
  { rewrite <- (mod_mul_mod _ 32 0x80) by lia. change (32 * 0x80) with 4096. by rewrite Hp. }
  split; split; simpl; auto; try lia; try constructor.
Qed.

(** ** Sequences of calls

    [trace L h]: the heap [h] is reached from an initialised allocator by calls to
    [kmalloc] and [kfree] and by writes to allocated memory, and [L] holds the
    pointers that are allocated, with the lengths that were asked for. *)
Inductive trace : list (Z * Z) -> heap -> Prop :=
| trace_init addr len h0 h :
    KERNEL_BASE_OFFSET + KERNEL_PAGING_SIZE <= addr -> addr mod 4096 = 0 -> 0 < len ->
    addr + len <= KERNEL_BASE_OFFSET + MEM_SIZE ->
    init_allocator addr len h0 = Ok tt h -> trace [] h
| trace_malloc L h len align p h' :
    trace L h -> 0 <= len < 2 ^ 64 -> align = MALLOC_NO_ALIGN \/ align = MALLOC_PAGE_ALIGN ->
    kmalloc len align h = Ok p h' -> p <> 0 -> trace ((p, len) :: L) h'
| trace_malloc_null L h len align h' :
    trace L h -> 0 <= len < 2 ^ 64 -> align = MALLOC_NO_ALIGN \/ align = MALLOC_PAGE_ALIGN ->
    kmalloc len align h = Ok 0 h' -> trace L h'
| trace_free L h p len h' :
    trace L h -> (p, len) ∈ L -> kfree p h = Ok tt h' -> trace (drop_chunk p L) h'
| trace_write L m ar p len m' :
    trace L (Heap m ar) -> (p, len) ∈ L ->
    (forall x, ~ rng (p - KERNEL_BASE_OFFSET) len x -> m' x = m x) ->
    trace L (Heap m' ar).

(** The allocated chunks behind the client's list. *)
Definition chunk_of (b : Z * Z) : chunk := (b.1 - OFF_NEXT, chunk_size b.2).
Definition client_ok (L : list (Z * Z)) (h : heap) : Prop :=
  exists a, hinv h a /\ a_live a = map chunk_of L /\ Forall (fun b => 0 <= b.2 < 2 ^ 32) L.

Lemma drop_chunk_map p L :
  drop_chunk (p - OFF_NEXT) (map chunk_of L) = map chunk_of (drop_chunk p L).
Proof.
  induction L as [|[q n] L IH]; [done|]. simpl.
  destruct (Z.eqb_spec q p) as [->|Hne]; [by rewrite Z.eqb_refl|].
  rewrite (proj2 (Z.eqb_neq _ _)) by (unfold OFF_NEXT; lia). simpl. by rewrite IH.
Qed.
Lemma Forall_drop_chunk (P : Z * Z -> Prop) c l : Forall P l -> Forall P (drop_chunk c l).
Proof.
  induction 1 as [|d l Hd Hl IH]; simpl; [constructor|]. destruct (d.1 =? c); [done|by constructor].
Qed.

(** Clearing low memory does not disturb the heap. *)
Lemma low_write m m' ar a :
  hinv (Heap m ar) a -> (forall x, KERNEL_PAGING_SIZE <= x -> m' x = m x) ->
  hinv (Heap m' ar) a.
Proof.
  intros [[R1 R2 R3 R4 R5] W] Hf. split; [|done]. simpl in *.
  assert (forall d x, d ∈ a_chunks a -> rng (d.1 - KERNEL_BASE_OFFSET) SIZEOF_CHUNK x ->
                      m' x = m x) as Hx.
  { intros d x Hd Hx. destruct (wf_within a d W Hd) as [H1 _]. pose proof (wf_base _ W).
    apply Hf. unfold rng in Hx. lia. }
  split; simpl; try done.
  - apply (seg_frame m _ _ _ _ R4). intros d Hd.
    split; apply ldk_frame; intros x Hr; apply (Hx d); try (apply elem_of_app; by left);
      unfold rng, SIZEOF_CHUNK, OFF_NEXT in *; lia.
  - rewrite Forall_forall in R5 |- *. intros d Hd. rewrite <- (R5 d Hd). apply ldk_frame.
    intros x Hr. apply (Hx d); [apply elem_of_app; by right|].
    unfold rng, SIZEOF_CHUNK in *. lia.
Qed.

(** What a failed allocation leaves behind. *)
Lemma clear_low len h :
  0 <= len ->
  (kmemset 0 0 len ;; mret 0) h =
    if len =? 0 then Ok 0 h
    else if len <=? KERNEL_PAGING_SIZE then Ok 0 (set_mem (mset (h_mem h) 0 0 len) h)
    else Halt (Fault 0).
Proof.
  intros Hlen. unfold mbind, cmd_bind, kmemset. destruct (Z.eqb_spec len 0); [done|].
  unfold krange. change (KERNEL_BASE_OFFSET <=? 0) with false. cbn [andb].
  change (0 + len) with len. by destruct (len <=? KERNEL_PAGING_SIZE).
Qed.

Lemma kmalloc_null_inv len align h a h' :
  hinv h a -> 0 <= len < 2 ^ 64 -> align = MALLOC_NO_ALIGN \/ align = MALLOC_PAGE_ALIGN ->
  kmalloc len align h = Ok 0 h' -> hinv h' a.
Proof.
  intros I Hlen Hal Hk. destruct (Z.leb_spec (2 ^ 32) len) as [Hbig|Hsmall].
  - unfold kmalloc in Hk. rewrite (proj2 (Z.leb_le _ _)) in Hk by done. by injection Hk as <-.
  - destruct (a_malloc (chunk_size len) align a) as [[p|] a'] eqn:E.
    + destruct (kmalloc_some len align h a p a') as (h1 & Hrun & I1 & _); [done|lia|done..|].
      exfalso. rewrite Hk in Hrun. injection Hrun as <- <-.
      destruct (chunk_size_request len) as [Hnb _]; [lia|].
      apply a_malloc_some in E as (Hl & _); [|apply I|done].
      destruct (wf_within a' (0 - OFF_NEXT, chunk_size len) (proj2 I1)) as [H1 _].
      { apply elem_of_app. right. rewrite Hl. left. }
      pose proof (wf_base _ (proj2 I1)). simpl in H1.
      unfold OFF_NEXT, KERNEL_BASE_OFFSET, KERNEL_PAGING_SIZE in *. lia.
    + destruct (kmalloc_none len align h a) as ([m1 ar1] & [I1 _] & Hrun);
        [done|lia|done|by rewrite E|].
      rewrite Hk, clear_low in Hrun by lia. destruct (len =? 0); [by injection Hrun as ->|].
      destruct (Z.leb_spec len KERNEL_PAGING_SIZE); [|done]. injection Hrun as ->.
      eapply low_write; [exact I1|]. intros x Hx. simpl. apply mset_outside. unfold rng. lia.
Qed.

Lemma trace_client_ok L h : trace L h -> client_ok L h.
Proof.
  induction 1 as [addr len h0 h Hb Hp Hl He Hi|L h len align p h' _ IH Hlen Hal Hk Hp
    |L h len align h' _ IH Hlen Hal Hk|L h p len h' _ IH Hin Hk|L m ar p len m' _ IH Hin Hf].
  - assert (len mod 4096 = 0) as Hlp.
    { unfold init_allocator in Hi. rewrite low12_mod in Hi. unfold nonzero in Hi.
      destruct (Z.eqb_spec (len mod 4096) 0); [done|]. rewrite orb_true_r in Hi. done. }
    destruct (init_allocator_run addr len h0) as (h1 & Hrun & I & _); [done..|].
    rewrite Hi in Hrun. injection Hrun as <-. exists (fresh_aheap addr len).
    split; [done|]. split; [done|constructor].
  - destruct IH as (a & I & Hlive & HL). destruct (Z.leb_spec (2 ^ 32) len) as [Hbig|Hsmall].
    { unfold kmalloc in Hk. rewrite (proj2 (Z.leb_le _ _)) in Hk by done. by injection Hk as <-. }
    destruct (a_malloc (chunk_size len) align a) as [[q|] a'] eqn:E.
    + destruct (kmalloc_some len align h a q a') as (h1 & Hrun & I1 & _); [done|lia|done..|].
      rewrite Hk in Hrun. injection Hrun as -> ->. exists a'.
      apply a_malloc_some in E as (Hl & _); [|apply I|apply chunk_size_request; lia].
      split; [done|]. split; [by rewrite Hl, Hlive|]. apply Forall_cons. split; [simpl; lia|done].
    + destruct (kmalloc_none len align h a) as (h1 & _ & Hrun); [done|lia|done|by rewrite E|].
      rewrite Hk, clear_low in Hrun by lia. exfalso.
      destruct (len =? 0); [by injection Hrun as ->|].
      destruct (len <=? KERNEL_PAGING_SIZE); [by injection Hrun as ->|done].
  - destruct IH as (a & I & Hlive & HL). exists a. split; [by eapply kmalloc_null_inv|done].
  - destruct IH as (a & I & Hlive & HL).
    assert (chunk_of (p, len) ∈ a_live a) as Hc.
    { rewrite Hlive. by apply (list_elem_of_fmap_2 chunk_of). }
    destruct (kfree_refines _ _ h a I Hc) as (h1 & Hrun & I1 & _). simpl in Hrun.
    replace (p - OFF_NEXT + OFF_NEXT) with p in Hrun by lia. rewrite Hk in Hrun.
    injection Hrun as <-. exists (a_release (p - OFF_NEXT) (chunk_size len) a). split; [done|].
    split; [|by apply Forall_drop_chunk]. rewrite <- drop_chunk_map, <- Hlive.
    unfold a_release. by destruct (_ =? _).
  - destruct IH as (a & I & Hlive & HL). exists a. split; [|done].
    eapply (payload_write m m' ar a _ _ I).
    { rewrite Hlive. by apply (list_elem_of_fmap_2 chunk_of). }
    intros x Hx. apply Hf. intros Hr. apply Hx. simpl. rewrite Forall_forall in HL.
    specialize (HL _ Hin). simpl in HL. destruct (chunk_size_request len HL) as [_ Hs].
    unfold rng, OFF_NEXT in *. lia.
Qed.

(** ** The contract *)

Lemma live_apart a d e : wf a -> a_live a = d :: e -> Forall (bdisj d) e.
Proof.
  intros W Hl. pose proof (wf_disj _ W) as Hp. unfold a_chunks in Hp.
  apply pairwise_app in Hp as (_ & Hp & _). rewrite Hl in Hp. apply Hp.
Qed.

(** C3: A successful allocation returns zeroed, aligned memory that overlaps no live
    chunk, changes neither live chunks nor anything outside the heap, and keeps
    the heap invariant. *)
Theorem kmalloc_contract len align h a p a' :
  hinv h a -> 0 <= len < 2 ^ 32 -> align = MALLOC_NO_ALIGN \/ align = MALLOC_PAGE_ALIGN ->
  a_malloc (chunk_size len) align a = (Some p, a') ->
  exists h',
    kmalloc len align h = Ok p h' /\ hinv h' a' /\
    a_live a' = (p - OFF_NEXT, chunk_size len) :: a_live a /\
    len + OFF_NEXT <= chunk_size len /\
    p mod 16 = 0 /\ (align = MALLOC_PAGE_ALIGN -> p mod 4096 = 0) /\
    (forall x, rng (p - KERNEL_BASE_OFFSET) len x -> h_mem h' x = 0) /\
    Forall (bdisj (p - OFF_NEXT, chunk_size len)) (a_live a) /\
    (forall x, in_blocks (a_live a) x \/
               ~ (a_base a <= x + KERNEL_BASE_OFFSET < a_end a) -> h_mem h' x = h_mem h x).
Proof.
  intros I Hlen Hal Hm. destruct (chunk_size_request len Hlen) as [Hnb Hsz].
  destruct (kmalloc_some len align h a p a' I Hlen Hal Hm) as (h' & Hrun & I' & Hz & Hf).
  pose proof (a_malloc_some _ _ _ _ _ (proj2 I) Hnb Hm) as (Hl & _ & _ & Hpg).
  exists h'. do 4 (split; [done|]). split; [|split; [|split; [done|split]]].
  - pose proof (wf_chunks _ (proj2 I')) as Hok. unfold a_chunks in Hok. rewrite Hl in Hok.
    apply Forall_app in Hok as [_ Hok]. apply Forall_cons in Hok as [Hok _].
    apply chunk_size_mod16 in Hok as [_ H16]. simpl in H16. unfold OFF_NEXT in H16.
    pose proof (Z.div_mod (p - 16) 16). rewrite <- (Z.mod_add (p - 16) 1 16) in H16 by lia.
    by replace (p - 16 + 1 * 16) with p in H16 by lia.
  - intros ->. by apply Hpg.
  - exact (live_apart a' _ _ (proj2 I') Hl).
  - pose proof I as [_ W].
    intros x [Hx|Hx]; apply Hf; [by apply live_not_own|by apply outside_not_own].
Qed.

(** Allocation succeeds while the untouched area is large enough. *)
Theorem kmalloc_succeeds len align h a :
  hinv h a -> 0 <= len < 2 ^ 32 -> align = MALLOC_NO_ALIGN \/ align = MALLOC_PAGE_ALIGN ->
  (if align =? MALLOC_PAGE_ALIGN then page_gap (a_top a) else 0) + chunk_size len
    <= a_end a - a_top a ->
  exists p h', kmalloc len align h = Ok p h' /\ a_base a < p < a_end a.
Proof.
  intros I Hlen Hal Hroom. destruct (chunk_size_request len Hlen) as [Hnb Hsz].
  pose proof (page_gap_props (a_top a) (wf_top_mod _ (proj2 I))) as (Hg & _).
  assert (exists p a', a_malloc (chunk_size len) align a = (Some p, a')) as (p & a' & Hm).
  { unfold a_malloc, a_malloc_page, a_malloc_top, request in *.
    destruct Hal as [->| ->]; simpl in *.
    - destruct (a_fetch (chunk_size len) a) as [[q b]|]; [by eauto|].
      rewrite (proj2 (Z.ltb_ge _ _)) by lia. eauto.
    - destruct (page_gap (a_top a) =? 0); simpl.
      + rewrite (proj2 (Z.ltb_ge _ _)) by lia. eauto.
      + rewrite (proj2 (Z.ltb_ge _ (page_gap _))) by lia. simpl.
        rewrite (proj2 (Z.ltb_ge _ _)) by lia. eauto. }
  destruct (kmalloc_some len align h a p a' I Hlen Hal Hm) as (h' & Hrun & I' & _).
  exists p, h'. split; [done|]. apply a_malloc_some in Hm as (Hl & Hb & He & _); [|apply I|done].
  destruct (wf_within a' (p - OFF_NEXT, chunk_size len) (proj2 I')) as [H1 H2].
  { apply elem_of_app. right. rewrite Hl. left. }
  pose proof (wf_top _ (proj2 I')). unfold request, OFF_NEXT in *. simpl in *. lia.
Qed.

(** When no chunk is found, [kmalloc] returns NULL after clearing [len] bytes at
    physical address 0, where the kernel's code is, and faults when [len] exceeds
    the identity-mapped 2MB. *)
Theorem kmalloc_null_clears len align h a :
  hinv h a -> 0 < len < 2 ^ 32 -> align = MALLOC_NO_ALIGN \/ align = MALLOC_PAGE_ALIGN ->
  (a_malloc (chunk_size len) align a).1 = None ->
  (len <= KERNEL_PAGING_SIZE ->
   exists h', kmalloc len align h = Ok 0 h' /\ hinv h' a /\
     (forall x, 0 <= x < len -> h_mem h' x = 0) /\
     (forall x, in_blocks (a_live a) x -> h_mem h' x = h_mem h x)) /\
  (KERNEL_PAGING_SIZE < len -> kmalloc len align h = Halt (Fault 0)).
Proof.
  intros I Hlen Hal Hm.
  destruct (kmalloc_none len align h a I ltac:(lia) Hal Hm) as ([m1 ar1] & [I1 F1] & Hrun).
  rewrite clear_low, (proj2 (Z.eqb_neq _ _)) in Hrun by lia.
  split; intros Hle; rewrite Hrun.
  - rewrite (proj2 (Z.leb_le _ _)) by done. eexists. split; [done|].
    split; [|split; simpl].
    + eapply low_write; [exact I1|]. intros x Hx. apply mset_outside. unfold rng. lia.
    + intros x Hx. by rewrite mset_inside by (unfold rng; lia).
    + intros x Hx. rewrite mset_outside; [apply F1, live_not_own; [apply I|done]|].
      destruct Hx as (d & Hd & Hx). destruct (wf_within a d (proj2 I)) as [H1 _].
      { apply elem_of_app. by right. }
      pose proof (wf_base _ (proj2 I)). unfold rng in *. lia.
  - by rewrite (proj2 (Z.leb_gt _ _)) by done.
Qed.

(** C4: Freeing a live chunk succeeds, removes exactly that chunk from the live set,
    and changes no byte of another live chunk. *)
Theorem kfree_contract c s h a :
  hinv h a -> (c, s) ∈ a_live a ->
  exists h', kfree (c + OFF_NEXT) h = Ok tt h' /\ hinv h' (a_release c s a) /\
    a_live a ≡ₚ (c, s) :: a_live (a_release c s a) /\
    (forall x, in_blocks (a_live (a_release c s a)) x -> h_mem h' x = h_mem h x).
Proof.
  intros I Hin. destruct (kfree_refines c s h a I Hin) as (h' & Hrun & I' & Hf).
  assert (a_live (a_release c s a) = drop_chunk c (a_live a)) as El
    by (unfold a_release; by destruct (_ =? _)).
  exists h'. do 2 (split; [done|]). rewrite El. split; [apply wf_drop; [apply I|done]|].
  intros x Hx. pose proof (release_frees a c s x (proj2 I) Hin Hx) as Hn. apply Hf.
  - apply live_not_own; [apply I|]. eapply in_blocks_mono; [|exact Hx].
    intros d. rewrite (wf_drop a c s (proj2 I) Hin) at 2. by right.
  - intros Hr. apply Hn. exists (c, s). split; [left|done].
Qed.


(** ** Concrete instances *)

(** The heap the guest kernel starts with, and one of a single page. *)
Definition BOOT_HEAP : Z := KERNEL_BASE_OFFSET + KERNEL_PAGING_SIZE.
Definition boot_heap (len : Z) : heap := Heap (fun _ => 0) (Arena BOOT_HEAP len BOOT_HEAP 0 0 0).

Lemma boot_heap_inv len :
  0 < len -> len mod 4096 = 0 -> len <= KERNEL_PAGING_SIZE ->
  hinv (boot_heap len) (fresh_aheap BOOT_HEAP len).
Proof.
  intros Hl Hm Hle.
  destruct (init_allocator_run BOOT_HEAP len (boot_heap len)) as (h' & Hrun & I & _);
    [done|done|unfold BOOT_HEAP, KERNEL_PAGING_SIZE, MEM_SIZE, PS_LIMIT in *; lia|done|done|].
  unfold init_allocator in Hrun. rewrite low12_mod, Hm in Hrun.
  rewrite (proj2 (Z.eqb_neq len 0)) in Hrun by lia. by injection Hrun as <-.
Qed.

Lemma kmalloc_contract_witness :
  exists h', kmalloc 24 MALLOC_PAGE_ALIGN (boot_heap 0x200000) = Ok (BOOT_HEAP + 0x1000) h' /\
             h_mem h' 0x201000 = 0.
Proof.
  destruct (kmalloc_contract 24 MALLOC_PAGE_ALIGN (boot_heap 0x200000)
              (fresh_aheap BOOT_HEAP 0x200000) (BOOT_HEAP + 0x1000)
              (a_malloc (chunk_size 24) MALLOC_PAGE_ALIGN (fresh_aheap BOOT_HEAP 0x200000)).2)
    as (h' & Hrun & _ & _ & _ & _ & _ & Hz & _).
  - by apply boot_heap_inv.
  - lia.
  - by right.
  - reflexivity.
  - exists h'. split; [exact Hrun|]. apply Hz. vm_compute. split; [discriminate|reflexivity].
Defined.

Lemma kmalloc_succeeds_witness :
  exists p h', kmalloc 0x1000 MALLOC_PAGE_ALIGN (boot_heap 0x200000) = Ok p h' /\
               BOOT_HEAP < p < BOOT_HEAP + 0x200000.
Proof.
  apply (kmalloc_succeeds 0x1000 MALLOC_PAGE_ALIGN (boot_heap 0x200000)
           (fresh_aheap BOOT_HEAP 0x200000)).
  - by apply boot_heap_inv.
  - lia.
  - by right.
  - vm_compute. discriminate.
Defined.

Lemma kmalloc_null_clears_witness :
  exists h', kmalloc 0x1000 MALLOC_NO_ALIGN (boot_heap 0x1000) = Ok 0 h' /\ h_mem h' 0 = 0.
Proof.
  destruct (kmalloc_null_clears 0x1000 MALLOC_NO_ALIGN (boot_heap 0x1000)
              (fresh_aheap BOOT_HEAP 0x1000)) as [H _].
  - by apply boot_heap_inv.
  - lia.
  - by left.
  - reflexivity.
  - destruct (H ltac:(done)) as (h' & Hrun & _ & Hz & _). exists h'.
    split; [exact Hrun|]. apply Hz. lia.
Defined.

(** A heap with one live chunk of 0x80 bytes. *)
Definition one_heap : heap :=
  Heap (stk (fun _ => 0) BOOT_HEAP 0x80) (Arena (BOOT_HEAP + 0x80) (0x200000 - 0x80) BOOT_HEAP 0 0 0).
Definition one_aheap : aheap :=
  AHeap BOOT_HEAP (BOOT_HEAP + 0x80) (BOOT_HEAP + 0x200000) [] [(BOOT_HEAP, 0x80)].
Lemma one_heap_inv : hinv one_heap one_aheap.
Proof.
  split; split; simpl; auto; try done.
  - constructor; [|constructor]. unfold chunk_ok. simpl. by split; [|left; split; [|left]].
  - intros x. unfold a_chunks. simpl. unfold inb. simpl.
    destruct (BOOT_HEAP <=? x), (x <? BOOT_HEAP + 128); reflexivity.
Qed.

Lemma kfree_contract_witness :
  exists h', kfree (BOOT_HEAP + OFF_NEXT) one_heap = Ok tt h' /\
             hinv h' (a_release BOOT_HEAP 0x80 one_aheap).
Proof.
  destruct (kfree_contract BOOT_HEAP 0x80 one_heap one_aheap one_heap_inv) as (h' & H1 & H2 & _).
  - left.
  - exists h'. split; [exact H1|exact H2].
Defined.

