(* ===== verification/KmallocIface.v ===== *)
(** * The allocator as its callers see it

    A class states what the rest of the kernel relies on: the blocks that belong to
    callers, the heap they are taken from, and how much can still be allocated.  The
    callers are verified against the class; the theorems on [kmalloc.c] discharge
    it. *)

From S2P Require Import Prelude Memory Arch Kmalloc KmallocSpec KmallocProof KmallocRefine KmallocSafety.

(** The physical bytes of the block of [len] bytes at pointer [p]. *)
Definition block_bytes (p len x : Z) : Prop := rng (p - KERNEL_BASE_OFFSET) len x.

(** The bytes of a heap that are in none of the blocks given out. *)
Definition unused (hp : Z -> Prop) (bs : list (Z * Z)) (x : Z) : Prop :=
  hp x /\ forall p len, (p, len) ∈ bs -> ~ block_bytes p len x.

Class Allocator (A : Type) := {
  al_inv : heap -> A -> Prop;
  al_heap : A -> Z -> Prop;        (* the bytes of the heap *)
  al_blocks : A -> list (Z * Z);   (* the pointers given out, with the lengths asked for *)
  al_room : A -> Z;                (* how much has never been given out, or was given back last *)
  al_end : A -> Z;                 (* where that ends: it starts at [al_end a - al_room a] *)

  al_malloc h a len :
    al_inv h a -> 0 <= len < 2 ^ 32 -> chunk_size len <= al_room a ->
    exists p h' a', kmalloc len MALLOC_NO_ALIGN h = Ok p h' /\ al_inv h' a' /\
      al_heap a' = al_heap a /\ al_blocks a' = (p, len) :: al_blocks a /\
      (al_end a' = al_end a /\ al_room a - chunk_size len <= al_room a' /\
       (al_room a' = al_room a \/ p + chunk_size len = OFF_NEXT + al_end a - al_room a')) /\
      KERNEL_BASE_OFFSET <= p /\ p + len <= KERNEL_BASE_OFFSET + MEM_SIZE /\
      (forall x, block_bytes p len x -> unused (al_heap a) (al_blocks a) x) /\
      (forall x, ~ unused (al_heap a) (al_blocks a) x -> h_mem h' x = h_mem h x) /\
      (forall x, block_bytes p len x -> h_mem h' x = 0);
  al_free h a p len :
    al_inv h a -> (p, len) ∈ al_blocks a ->
    exists h' a', kfree p h = Ok tt h' /\ al_inv h' a' /\
      al_heap a' = al_heap a /\ al_blocks a ≡ₚ (p, len) :: al_blocks a' /\
      (al_end a' = al_end a /\ al_room a <= al_room a' /\
       (p + chunk_size len = OFF_NEXT + al_end a - al_room a -> al_room a + chunk_size len <= al_room a')) /\
      (forall x, ~ unused (al_heap a) (al_blocks a) x -> ~ block_bytes p len x ->
                 h_mem h' x = h_mem h x);
  al_write m m' ar a :
    al_inv (Heap m ar) a ->
    (forall x, unused (al_heap a) (al_blocks a) x -> m' x = m x) -> al_inv (Heap m' ar) a;
  al_below h a p len :
    al_inv h a -> (p, len) ∈ al_blocks a -> p + chunk_size len <= OFF_NEXT + al_end a - al_room a
}.

(** No room is lost between two states. *)
Definition al_kept `{Allocator A} (a a' : A) : Prop := al_end a' = al_end a /\ al_room a <= al_room a'.
Lemma al_kept_trans `{Allocator A} (a b c : A) : al_kept a b -> al_kept b c -> al_kept a c.
Proof. unfold al_kept. lia. Qed.

(** A block that is taken, and given back after work that loses no room: none is lost. *)
Lemma al_nested `{Allocator A} h (a a1 a2 a3 : A) p len :
  (al_end a1 = al_end a /\ al_room a - chunk_size len <= al_room a1 /\
   (al_room a1 = al_room a \/ p + chunk_size len = OFF_NEXT + al_end a - al_room a1)) ->
  al_kept a1 a2 -> al_inv h a2 -> (p, len) ∈ al_blocks a2 ->
  (al_end a3 = al_end a2 /\ al_room a2 <= al_room a3 /\
   (p + chunk_size len = OFF_NEXT + al_end a2 - al_room a2 -> al_room a2 + chunk_size len <= al_room a3)) ->
  al_kept a a3.
Proof.
  intros (E1 & R1 & T1) [E2 R2] I2 Hin (E3 & R3 & T3). pose proof (al_below h a2 p len I2 Hin).
  unfold al_kept. destruct T1 as [T1|T1]; [lia|]. destruct (Z.eq_dec (al_room a2) (al_room a1)); [|lia].
  assert (p + chunk_size len = OFF_NEXT + al_end a2 - al_room a2) as T by lia. specialize (T3 T). lia.
Qed.

(** ** [kmalloc.c] *)

Definition al_state : Type := aheap * list (Z * Z).
Definition heap_bytes (a : aheap) (x : Z) : Prop := a_base a <= x + KERNEL_BASE_OFFSET < a_end a.
Definition kmalloc_inv (h : heap) (al : al_state) : Prop :=
  hinv h al.1 /\ a_live al.1 = map chunk_of al.2 /\ Forall (fun b => 0 <= b.2 < 2 ^ 32) al.2.

Lemma own_heap a x : wf a -> own a x -> heap_bytes a x.
Proof.
  intros W Ho. destruct (decide (a_base a <= x + KERNEL_BASE_OFFSET < a_end a)); [done|].
  exfalso. by apply (outside_not_own a x W).
Qed.

Lemma block_in_chunk p len x :
  0 <= len < 2 ^ 32 -> block_bytes p len x ->
  rng ((chunk_of (p, len)).1 - KERNEL_BASE_OFFSET) (chunk_of (p, len)).2 x.
Proof.
  intros Hl Hx. destruct (chunk_size_request len Hl) as [_ Hs].
  unfold block_bytes, chunk_of, rng, OFF_NEXT in *. simpl. lia.
Qed.

Lemma own_unused h al x : kmalloc_inv h al -> own al.1 x -> unused (heap_bytes al.1) al.2 x.
Proof.
  intros ([_ W] & Hl & Hf) Ho. split; [by apply own_heap|]. intros p len Hin Hx.
  rewrite Forall_forall in Hf. apply (live_not_own al.1 x W); [|done].
  exists (chunk_of (p, len)). split; [rewrite Hl; by apply (list_elem_of_fmap_2 chunk_of)|].
  apply block_in_chunk; [exact (Hf _ Hin)|done].
Qed.

(** The headers of the live chunks are in no block. *)
Lemma header_unused h al d x :
  kmalloc_inv h al -> d ∈ a_live al.1 -> rng (d.1 - KERNEL_BASE_OFFSET) OFF_NEXT x ->
  unused (heap_bytes al.1) al.2 x.
Proof.
  intros ([_ W] & Hl & Hf) Hd Hx. pose proof (wf_live_ram _ W) as Hr.
  rewrite Forall_forall in Hf, Hr. pose proof (Hr d Hd) as Hd'.
  unfold blk_ram, SIZEOF_CHUNK, OFF_NEXT, rng in *. split.
  - destruct (wf_within al.1 d W) as [H1 H2]; [apply elem_of_app; by right|].
    pose proof (wf_top _ W). unfold heap_bytes. lia.
  - intros p len Hin Hb.
    assert (chunk_of (p, len) ∈ a_live al.1) as Hc
      by (rewrite Hl; by apply (list_elem_of_fmap_2 chunk_of)).
    pose proof (block_in_chunk p len x (Hf _ Hin) Hb) as Hb'. destruct d as [c s].
    pose proof (wf_drop al.1 c s W Hd) as Hp. rewrite Hp in Hc.
    apply elem_of_cons in Hc as [Hc|Hc].
    + unfold chunk_of in Hc. injection Hc as <- <-. unfold block_bytes, rng, OFF_NEXT in *. simpl in *. lia.
    + apply (release_frees al.1 c s x W Hd); [by exists (chunk_of (p, len))|].
      exists (c, s). split; [left|]. unfold rng. simpl in *. lia.
Qed.

(** A pointer is given out once. *)
Lemma blocks_unique L p len n :
  pairwise bdisj (map chunk_of L) -> Forall (fun b => 0 <= b.2 < 2 ^ 32) L ->
  (p, len) ∈ L -> (p, n) ∈ L -> len = n.
Proof.
  induction L as [|b L IH]; intros Hd Hf H1 H2; [by apply not_elem_of_nil in H1|].
  apply Forall_cons in Hf as [Hb Hf]. destruct Hd as [Hh Hd].
  assert (forall i j, (p, j) ∈ L -> b = (p, i) -> False) as Hx.
  { intros i j Hin ->. rewrite Forall_forall in Hh, Hf. specialize (Hf _ Hin). simpl in Hb, Hf.
    specialize (Hh _ (list_elem_of_fmap_2 chunk_of _ _ Hin)). unfold bdisj, chunk_of in Hh. simpl in Hh.
    destruct (chunk_size_request i Hb) as [_ ?], (chunk_size_request j Hf) as [_ ?].
    unfold OFF_NEXT in *. lia. }
  apply elem_of_cons in H1 as [<-|H1], H2 as [H2|H2]; subst; try (by exfalso; eauto); auto.
  by injection H2.
Qed.

(** What lies in a chunk is its block or unused. *)
Lemma chunk_unused h al p len x :
  kmalloc_inv h al -> (p, len) ∈ al.2 ->
  rng ((chunk_of (p, len)).1 - KERNEL_BASE_OFFSET) (chunk_of (p, len)).2 x ->
  ~ block_bytes p len x -> unused (heap_bytes al.1) al.2 x.
Proof.
  intros ([_ W] & Hl & Hf) Hin Hx Hn. pose proof Hf as Hf'. rewrite Forall_forall in Hf.
  assert (forall q n, (q, n) ∈ al.2 -> chunk_of (q, n) ∈ a_live al.1) as Hc
    by (intros q n Hq; rewrite Hl; by apply (list_elem_of_fmap_2 chunk_of)). split.
  - destruct (wf_within al.1 (chunk_of (p, len)) W) as [H1 H2]; [apply elem_of_app; right; auto|].
    pose proof (wf_top _ W). unfold heap_bytes, rng in *. lia.
  - intros q n Hq Hb. pose proof (block_in_chunk q n x (Hf _ Hq) Hb) as Hb'.
    pose proof (Hc q n Hq) as Hcq. pose proof (wf_drop al.1 _ _ W (Hc _ _ Hin)) as Hp.
    setoid_rewrite Hp in Hcq. apply elem_of_cons in Hcq as [E|Hcq].
    + assert (q = p) as -> by (injection E as E _; unfold OFF_NEXT in E; lia).
      pose proof (wf_disj _ W) as Hd. unfold a_chunks in Hd. rewrite Hl in Hd.
      apply pairwise_app in Hd as (_ & Hd & _).
      by rewrite (blocks_unique _ _ _ _ Hd Hf' Hq Hin) in Hb.
    + eapply (release_frees al.1 _ _ x W (Hc _ _ Hin)); [by eexists|]. eexists. split; [left|done].
Qed.

Lemma malloc_room nb a :
  0 <= nb <= a_end a - a_top a ->
  exists p a', a_malloc nb MALLOC_NO_ALIGN a = (Some p, a') /\
    a_end a' = a_end a /\ a_end a - a_top a - nb <= a_end a' - a_top a' /\
    (a_top a' = a_top a \/ p + nb = OFF_NEXT + a_top a').
Proof.
  intros Hroom. unfold a_malloc, a_fetch, a_malloc_top. simpl.
  destruct (take_fit nb (a_free a)) as [[[c s] rest]|];
    [|rewrite (proj2 (Z.ltb_ge _ _)) by lia]; eexists _, _; (split; [reflexivity|]); simpl; unfold OFF_NEXT; lia.
Qed.

Lemma kmalloc_law h al len :
  kmalloc_inv h al -> 0 <= len < 2 ^ 32 -> chunk_size len <= a_end al.1 - a_top al.1 ->
  exists p h' al', kmalloc len MALLOC_NO_ALIGN h = Ok p h' /\ kmalloc_inv h' al' /\
    heap_bytes al'.1 = heap_bytes al.1 /\ al'.2 = (p, len) :: al.2 /\
    (a_end al'.1 = a_end al.1 /\ a_end al.1 - a_top al.1 - chunk_size len <= a_end al'.1 - a_top al'.1 /\
     (a_end al'.1 - a_top al'.1 = a_end al.1 - a_top al.1 \/
      p + chunk_size len = OFF_NEXT + a_end al.1 - (a_end al'.1 - a_top al'.1))) /\
    KERNEL_BASE_OFFSET <= p /\ p + len <= KERNEL_BASE_OFFSET + MEM_SIZE /\
    (forall x, block_bytes p len x -> unused (heap_bytes al.1) al.2 x) /\
    (forall x, ~ unused (heap_bytes al.1) al.2 x -> h_mem h' x = h_mem h x) /\
    (forall x, block_bytes p len x -> h_mem h' x = 0).
Proof.
  intros I Hlen Hroom. destruct (chunk_size_request len Hlen) as [Hnb Hs].
  destruct (malloc_room (chunk_size len) al.1) as (p & a' & Hm & Hr & Ht); [unfold request in *; lia|].
  destruct (kmalloc_some len MALLOC_NO_ALIGN h al.1 p a') as (h' & Hrun & I' & Hz & Hf);
    [apply I|done|by left|done|].
  pose proof I as ([_ W] & Hl & HL).
  destruct (a_malloc_some _ _ _ _ _ W Hnb Hm) as (Hl' & Hb & He & _).
  assert (kmalloc_inv h' (a', (p, len) :: al.2)) as I2.
  { split; [done|]. simpl. rewrite Hl', Hl. split; [done|]. by apply Forall_cons. }
  destruct (wf_within a' (p - OFF_NEXT, chunk_size len) (proj2 I')) as [H1 H2].
  { apply elem_of_app. right. rewrite Hl'. left. }
  pose proof (wf_base _ (proj2 I')). pose proof (wf_end _ (proj2 I')). pose proof (wf_top _ (proj2 I')).
  unfold OFF_NEXT, KERNEL_PAGING_SIZE in *. simpl in H1, H2.
  exists p, h', (a', (p, len) :: al.2). split; [done|]. split; [done|]. simpl.
  split; [unfold heap_bytes; by rewrite Hb, He|]. split; [done|]. split; [unfold OFF_NEXT in *; lia|].
  split; [lia|]. split; [lia|]. split; [|split; [|exact Hz]].
  - intros x Hx. apply (own_unused h); [done|].
    apply (fresh_own al.1 a' _ x W (proj2 I') Hl' Hb He). by apply (block_in_chunk p len).
  - intros x Hx. apply Hf. intros Ho. apply Hx. by apply (own_unused h).
Qed.

Lemma kfree_law h al p len :
  kmalloc_inv h al -> (p, len) ∈ al.2 ->
  exists h' al', kfree p h = Ok tt h' /\ kmalloc_inv h' al' /\
    heap_bytes al'.1 = heap_bytes al.1 /\ al.2 ≡ₚ (p, len) :: al'.2 /\
    (a_end al'.1 = a_end al.1 /\ a_end al.1 - a_top al.1 <= a_end al'.1 - a_top al'.1 /\
     (p + chunk_size len = OFF_NEXT + a_end al.1 - (a_end al.1 - a_top al.1) ->
      a_end al.1 - a_top al.1 + chunk_size len <= a_end al'.1 - a_top al'.1)) /\
    (forall x, ~ unused (heap_bytes al.1) al.2 x -> ~ block_bytes p len x -> h_mem h' x = h_mem h x).
Proof.
  intros I Hin. pose proof I as (Hi & Hl & HL). pose proof Hi as [_ W].
  assert (chunk_of (p, len) ∈ a_live al.1) as Hc
    by (rewrite Hl; by apply (list_elem_of_fmap_2 chunk_of)).
  destruct (kfree_refines _ _ h al.1 Hi Hc) as (h' & Hrun & I' & Hf).
  simpl fst in *. simpl snd in *. rewrite Z.sub_add in Hrun.
  exists h', (a_release (p - OFF_NEXT) (chunk_size len) al.1, drop_chunk p al.2).
  split; [exact Hrun|]. split; [|split; [|split; [|split]]].
  - split; [done|]. split; [|by apply Forall_drop_chunk]. simpl. rewrite <- drop_chunk_map, <- Hl.
    unfold a_release. by destruct (_ =? _).
  - unfold heap_bytes, a_release. simpl. by destruct (_ =? _).
  - apply drop_chunk_perm; [done|]. intros t Ht.
    pose proof (wf_disj _ W) as Hd. unfold a_chunks in Hd. rewrite Hl in Hd.
    apply pairwise_app in Hd as (_ & Hd & _). exact (blocks_unique _ _ _ _ Hd HL Ht Hin).
  - unfold a_release. simpl. destruct (chunk_size_request len) as [Hr _].
    { rewrite Forall_forall in HL. exact (HL _ Hin). }
    unfold request in Hr. destruct (Z.eqb_spec (chunk_size len + (p - OFF_NEXT)) (a_top al.1)); simpl; unfold OFF_NEXT in *; lia.
  - intros x Hx Hb. apply Hf.
    + intros Ho. apply Hx. by apply (own_unused h).
    + intros Hr. apply Hx. by apply (chunk_unused h al p len).
Qed.

Lemma write_law m m' ar al :
  kmalloc_inv (Heap m ar) al -> (forall x, unused (heap_bytes al.1) al.2 x -> m' x = m x) ->
  kmalloc_inv (Heap m' ar) al.
Proof.
  intros I Hf. pose proof I as ([[R1 R2 R3 R4 R5] W] & Hl & HL). split; [|done]. split; [|done].
  simpl in *. split; simpl; try done.
  - apply (seg_frame m _ _ _ _ R4). intros d Hd.
    assert (forall x, rng (d.1 - KERNEL_BASE_OFFSET) SIZEOF_CHUNK x -> m' x = m x) as Hx.
    { intros x Hx. apply Hf, (own_unused _ _ _ I). left. exists d. split; [done|].
      pose proof (wf_free_blocks _ W) as [Hb _]. rewrite Forall_forall in Hb. specialize (Hb d Hd).
      unfold blk_ram, rng in *. lia. }
    split; apply ldk_frame; intros x Hr; apply Hx; unfold rng, SIZEOF_CHUNK, OFF_NEXT in *; lia.
  - rewrite Forall_forall in R5 |- *. intros d Hd. rewrite <- (R5 d Hd). apply ldk_frame.
    intros x Hr. apply Hf, (header_unused _ _ d _ I Hd). unfold rng, OFF_NEXT in *. lia.
Qed.

Lemma below_law h al p len :
  kmalloc_inv h al -> (p, len) ∈ al.2 ->
  p + chunk_size len <= OFF_NEXT + a_end al.1 - (a_end al.1 - a_top al.1).
Proof.
  intros ([_ W] & Hl & _) Hin. destruct (wf_within al.1 (chunk_of (p, len)) W) as [_ H].
  - apply elem_of_app. right. rewrite Hl. by apply (list_elem_of_fmap_2 chunk_of).
  - unfold chunk_of in H. simpl in H. lia.
Qed.

#[export] Instance kmalloc_allocator : Allocator al_state := {
  al_inv := kmalloc_inv;
  al_heap al := heap_bytes al.1;
  al_blocks al := al.2;
  al_room al := a_end al.1 - a_top al.1;
  al_end al := a_end al.1;
  al_malloc := kmalloc_law;
  al_free := kfree_law;
  al_write := write_law;
  al_below := below_law
}.
