(* ===== verification/Translate.v ===== *)
(** * Page tables of the guest kernel (kernel/mm/translate.c)

    The routines run on the kernel's memory and allocator state; the register CR3,
    which the kernel only reads, is a parameter.  The reference they are verified
    against is [Arch.walk], the translation the processor performs. *)

From S2P Require Import Prelude Memory Arch Kmalloc.

(** ** The code *)

(** [vaddr ^ KERNEL_BASE_OFFSET]: the physical address behind a kernel address. *)
Definition physical (vaddr : Z) : cmd heap Z :=
  if has vaddr KERNEL_BASE_OFFSET then mret (Z.lxor vaddr KERNEL_BASE_OFFSET)
  else panic "translate.c#physical: don't pass non-kernel based address".

Definition PF_R : Z := 4.
Definition PF_W : Z := 2.
Definition PF_X : Z := 1.
Definition pf_to_prot (pf : Z) : Z :=
  let ret := 0 in
  let ret := if has pf PF_R then Z.lor ret PROT_R else ret in
  let ret := if has pf PF_W then Z.lor ret PROT_W else ret in
  if has pf PF_X then Z.lor ret PROT_X else ret.

Definition PML4OFF (v : Z) : Z := tbl_index (u64 v) 39.
Definition PDPOFF (v : Z) : Z := tbl_index (u64 v) 30.
Definition PDOFF (v : Z) : Z := tbl_index (u64 v) 21.
Definition PTOFF (v : Z) : Z := tbl_index (u64 v) 12.

(** [&table[i]] for a table of 64-bit entries. *)
Definition slot_at (table i : Z) : Z := u64 (table + 8 * i).
(** [(uint64_t* ) ((e & -0x1000) | KERNEL_BASE_OFFSET)]. *)
Definition table_of (e : Z) : Z := Z.lor (Z.land e (u64 (-0x1000))) KERNEL_BASE_OFFSET.

Section Translate.
Context (cr3 : Z).

(** The loop that fills the page directory. *)
Definition pd_body (pd : Z) (i : Z) : cmd heap (Z + unit) :=
  if i <? 0x200 then
    kstore (slot_at pd i)
      (Z.lor (Z.lor (Z.lor PDE64_PRESENT PDE64_RW) PDE64_PS) (u64 (i * KERNEL_PAGING_SIZE))) ;;
    mret (inl (i + 1))
  else mret (inr tt).

Definition init_pagetable : cmd heap unit :=
  let pml4 := cr3 in
  let pdp := u64 (pml4 + 0x3000) in
  kstore (slot_at pml4 1) (Z.lor (Z.lor PDE64_PRESENT PDE64_RW) pdp) ;;
  let pd := u64 (pdp + 0x1000) in
  kstore (slot_at pdp 0) (Z.lor (Z.lor PDE64_PRESENT PDE64_RW) pd) ;;
  mloop (pd_body pd) 0.

Definition get_pml4_addr : Z := Z.lor cr3 KERNEL_BASE_OFFSET.

(** [PAGING(p, c)] of [add_trans_user]: find or create the next table. *)
Definition paging_alloc (p : Z) : cmd heap Z :=
  e ← kload p;
  if negb (has e PDE64_PRESENT) then
    c ← kmalloc 0x1000 MALLOC_PAGE_ALIGN;
    ph ← physical c;
    kstore p (Z.lor (Z.lor (Z.lor PDE64_PRESENT PDE64_RW) PDE64_USER) ph) ;;
    mret c
  else if negb (has e PDE64_USER) then panic "translate.c#add_trans_user: invalid address"
  else mret (table_of e).

(** [*p |= bit]. *)
Definition or_entry (p bit : Z) : cmd heap unit :=
  e ← kload p; kstore p (Z.lor e bit).

Definition add_trans_user (vaddr paddr_ prot : Z) : cmd heap unit :=
  if negb (USER_MEM_RANGE_OK vaddr) then panic "translate.c#add_trans_user: not allowed"
  else
    let paddr := Z.land paddr_ (u64 (Z.lnot KERNEL_BASE_OFFSET)) in
    let pml4 := get_pml4_addr in
    pdp ← paging_alloc (slot_at pml4 (PML4OFF vaddr));
    pd ← paging_alloc (slot_at pdp (PDPOFF vaddr));
    pt ← paging_alloc (slot_at pd (PDOFF vaddr));
    let e := slot_at pt (PTOFF vaddr) in
    kstore e (Z.lor PDE64_PRESENT paddr) ;;
    (if has prot PROT_R then or_entry e PDE64_USER else mret tt) ;;
    (if has prot PROT_W then or_entry e PDE64_RW else mret tt).

(** [PAGING(p, c)] of [modify_permission]; [None] is [return -1]. *)
Definition paging_find (p : Z) : cmd heap (option Z) :=
  e ← kload p;
  mret (if negb (has e PDE64_PRESENT) then None else Some (table_of e)).

Definition modify_permission (vaddr prot : Z) : cmd heap Z :=
  let pml4 := get_pml4_addr in
  o ← paging_find (slot_at pml4 (PML4OFF vaddr));
  match o with None => mret (-1) | Some pdp =>
  o ← paging_find (slot_at pdp (PDPOFF vaddr));
  match o with None => mret (-1) | Some pd =>
  o ← paging_find (slot_at pd (PDOFF vaddr));
  match o with None => mret (-1) | Some pt =>
  let e := slot_at pt (PTOFF vaddr) in
  v ← kload e;
  if negb (has v PDE64_PRESENT) then mret (-1)
  else
    kstore e (Z.land v (u64 (Z.lnot (Z.lor PDE64_USER PDE64_RW)))) ;;
    (if has prot PROT_R then or_entry e PDE64_USER else mret tt) ;;
    (if has prot PROT_W then or_entry e PDE64_RW else mret tt) ;;
    mret 0
  end end end.

(** [PAGING(p, c)] of [translate]. *)
Definition paging_check (usermode writable : Z) (p : Z) : cmd heap (option Z) :=
  e ← kload p;
  mret (if negb (has e PDE64_PRESENT) then None
        else if nonzero usermode && negb (has e PDE64_USER) then None
        else if nonzero writable && negb (has e PDE64_RW) then None
        else Some (table_of e)).

Definition NO_TRANS : Z := u64 (-1).

Definition translate (vaddr usermode writable : Z) : cmd heap Z :=
  let PAGING := paging_check usermode writable in
  let pml4 := get_pml4_addr in
  o ← PAGING (slot_at pml4 (PML4OFF vaddr));
  match o with None => mret NO_TRANS | Some pdp =>
  o ← PAGING (slot_at pdp (PDPOFF vaddr));
  match o with None => mret NO_TRANS | Some pd =>
  o ← PAGING (slot_at pd (PDOFF vaddr));
  match o with None => mret NO_TRANS | Some pt =>
  e2 ← kload (slot_at pd (PDOFF vaddr));
  if has e2 PDE64_PS then
    mret (u64 (Z.land e2 (u64 (-0x200000)) + Z.land (u64 vaddr) 0x1fffff))
  else
    o ← PAGING (slot_at pt (PTOFF vaddr));
    match o with None => mret NO_TRANS | Some ret =>
    r ← physical ret;
    mret (u64 (r + Z.land (u64 vaddr) 0xfff))
    end
  end end end.

End Translate.
