(* ===== verification/TranslateProof.v ===== *)
(** * The kernel's page-table code against the processor's page walk *)

From S2P Require Import Prelude Memory Arch Kmalloc KmallocSpec KmallocProof Translate.

(** ** Arithmetic of entries *)

Lemma tbl_index_range v bits : 0 <= tbl_index v bits < 512.
Proof.
  unfold tbl_index. change 0x1ff with (2 ^ 9 - 1). rewrite land_low by lia.
  apply Z.mod_pos_bound. lia.
Qed.

(** A table pointer held in an entry: a page of RAM. *)
Definition good_table (e : Z) : Prop := 0 <= e < 2 ^ 39 /\ entry_addr 12 e + 4096 <= MEM_SIZE.

Lemma entry_addr_small e : 0 <= e < 2 ^ 39 -> entry_addr 12 e = e - e mod 4096.
Proof. intros H. unfold entry_addr. by rewrite (Z.mod_small e (2 ^ 52)) by lia. Qed.

Lemma page_of_mod e : (e - e mod 4096) mod 4096 = 0.
Proof.
  replace (e - e mod 4096) with (e / 4096 * 4096) by (pose proof (Z.div_mod e 4096); lia).
  apply Z.mod_mul. lia.
Qed.

Lemma kbase_lor p : 0 <= p < 2 ^ 39 -> Z.lor p KERNEL_BASE_OFFSET = KERNEL_BASE_OFFSET + p.
Proof. intros H. rewrite Z.lor_comm. by apply (lor_disjoint _ _ 39). Qed.

Lemma table_of_addr e : 0 <= e < 2 ^ 39 -> table_of e = KERNEL_BASE_OFFSET + entry_addr 12 e.
Proof.
  intros H. unfold table_of. rewrite entry_addr_small, u64_neg_page by done.
  rewrite (land_high 64 12) by lia. change (2 ^ 12) with 4096.
  pose proof (Z.mod_pos_bound e 4096). pose proof (Z.mod_le e 4096). apply kbase_lor. lia.
Qed.

Lemma kbase_land p : 0 <= p < 2 ^ 39 -> Z.land p KERNEL_BASE_OFFSET = 0.
Proof.
  intros H. change KERNEL_BASE_OFFSET with (2 ^ 39). apply Z.bits_inj'. intros i Hi.
  rewrite Z.bits_0, Z.land_spec, Z.pow2_bits_eqb by lia.
  destruct (Z.eqb_spec 39 i) as [<-|]; [|apply andb_false_r].
  rewrite <- (Z.mod_small p (2 ^ 39)) by lia. by rewrite Z.mod_pow2_bits_high by lia.
Qed.

Lemma physical_direct p h : 0 <= p < 2 ^ 39 -> physical (KERNEL_BASE_OFFSET + p) h = Ok p h.
Proof.
  intros H. rewrite <- kbase_lor by done. unfold physical, has.
  rewrite Z.land_lor_distr_l, Z.land_diag, kbase_land by done. simpl.
  rewrite <- Z.lxor_lor, Z.lxor_assoc, Z.lxor_nilpotent, Z.lxor_0_r by (by apply kbase_land). done.
Qed.

(** Loading an entry of a table in RAM. *)
Lemma entry_load t v bits m ar :
  0 <= t -> t + 4096 <= MEM_SIZE ->
  kload (slot_at (KERNEL_BASE_OFFSET + t) (tbl_index v bits)) (Heap m ar) =
    Ok (entry m t v bits) (Heap m ar).
Proof.
  intros H1 H2. pose proof (tbl_index_range v bits). unfold slot_at.
  rewrite u64_small by (unfold KERNEL_BASE_OFFSET, MEM_SIZE, PS_LIMIT in *; lia).
  rewrite kload_ok by lia. unfold ldk, entry. do 3 f_equal. lia.
Qed.
Lemma entry_store t v bits w m ar :
  0 <= t -> t + 4096 <= MEM_SIZE ->
  kstore (slot_at (KERNEL_BASE_OFFSET + t) (tbl_index v bits)) w (Heap m ar) =
    Ok tt (Heap (st64 m (t + 8 * tbl_index v bits) w) ar).
Proof.
  intros H1 H2. pose proof (tbl_index_range v bits). unfold slot_at.
  rewrite u64_small by (unfold KERNEL_BASE_OFFSET, MEM_SIZE, PS_LIMIT in *; lia).
  rewrite kstore_ok by lia. unfold stk. do 3 f_equal. lia.
Qed.

(** ** [translate] *)

(** The tables on the way to [va] are in RAM, and no 1GB page is met. *)
Definition path_ok (m : mem) (cr3 va : Z) : Prop :=
  0 <= va < 2 ^ 47 /\ 0 <= cr3 /\ cr3 + 4096 <= MEM_SIZE /\ cr3 mod 4096 = 0 /\
  let e4 := entry m cr3 va 39 in
  has e4 PDE64_PRESENT = true -> good_table e4 /\
  let e3 := entry m (entry_addr 12 e4) va 30 in
  has e3 PDE64_PRESENT = true -> good_table e3 /\ has e3 PDE64_PS = false /\
  let e2 := entry m (entry_addr 12 e3) va 21 in
  has e2 PDE64_PRESENT = true -> e2 < 2 ^ 39 /\
  (has e2 PDE64_PS = false -> good_table e2 /\
   entry m (entry_addr 12 e2) va 12 < 2 ^ 39).

(** Whether the flags of an entry, or of a translation, admit the access. *)
Definition permits (user write us rw : bool) : bool := (negb user || us) && (negb write || rw).

Lemma permits_and u w a b c d :
  permits u w (a && b) (c && d) = permits u w a c && permits u w b d.
Proof. by destruct u, w, a, b, c, d. Qed.

Definition walk_result (user write : bool) (o : option xlat) : Z :=
  match o with
  | Some x => if permits user write (x_user x) (x_rw x) then x_pa x else NO_TRANS
  | None => NO_TRANS
  end.

Lemma cr3_addr cr3 : 0 <= cr3 -> cr3 + 4096 <= MEM_SIZE -> cr3 mod 4096 = 0 ->
  get_pml4_addr cr3 = KERNEL_BASE_OFFSET + cr3 /\ entry_addr 12 cr3 = cr3.
Proof.
  intros H1 H2 H3. unfold MEM_SIZE, PS_LIMIT in *. split; [apply kbase_lor; lia|].
  rewrite entry_addr_small by lia. lia.
Qed.
Lemma good_table_bounds e :
  good_table e -> 0 <= entry_addr 12 e /\ entry_addr 12 e + 4096 <= MEM_SIZE /\
                  table_of e = KERNEL_BASE_OFFSET + entry_addr 12 e.
Proof.
  intros [H1 H2]. rewrite table_of_addr by done. split; [|done].
  rewrite entry_addr_small by done. pose proof (Z.mod_le e 4096). lia.
Qed.

(** One level of [translate]. *)
Lemma paging_check_ok um wr t v bits m ar :
  0 <= t -> t + 4096 <= MEM_SIZE ->
  paging_check um wr (slot_at (KERNEL_BASE_OFFSET + t) (tbl_index v bits)) (Heap m ar) =
    let e := entry m t v bits in
    Ok (if negb (has e PDE64_PRESENT) then None
        else if permits (nonzero um) (nonzero wr) (has e PDE64_USER) (has e PDE64_RW)
        then Some (table_of e) else None) (Heap m ar).
Proof.
  intros H1 H2. unfold paging_check. rewrite (bind_ok _ _ _ _ _ (entry_load t v bits m ar H1 H2)).
  unfold permits, mret, cmd_ret. simpl.
  destruct (has _ PDE64_PRESENT), (nonzero um), (nonzero wr), (has _ PDE64_USER), (has _ PDE64_RW);
    done.
Qed.

Lemma big_page e va :
  0 <= e < 2 ^ 39 -> 0 <= va < 2 ^ 47 ->
  u64 (Z.land e (u64 (-0x200000)) + Z.land va 0x1fffff) = entry_addr 21 e + va mod 2 ^ 21.
Proof.
  intros He Hv. change (u64 (-0x200000)) with (2 ^ 64 - 2 ^ 21). change 0x1fffff with (2 ^ 21 - 1).
  rewrite (land_high 64 21), land_low by lia. unfold entry_addr.
  rewrite (Z.mod_small e (2 ^ 52)) by lia.
  pose proof (Z.mod_pos_bound va (2 ^ 21)). pose proof (Z.mod_le e (2 ^ 21)).
  pose proof (Z.mod_pos_bound e (2 ^ 21)). rewrite u64_small by lia. done.
Qed.

Lemma small_page e va h :
  0 <= e < 2 ^ 39 -> 0 <= va < 2 ^ 47 ->
  (r ← physical (table_of e); mret (u64 (r + Z.land va 0xfff))) h =
    Ok (entry_addr 12 e + va mod 2 ^ 12) h.
Proof.
  intros He Hv. rewrite table_of_addr by done. rewrite entry_addr_small by done.
  pose proof (Z.mod_pos_bound e 4096). pose proof (Z.mod_le e 4096).
  rewrite (bind_ok _ _ _ _ _ (physical_direct (e - e mod 4096) h ltac:(lia))).
  rewrite low12_mod. change (2 ^ 12) with 4096.
  pose proof (Z.mod_pos_bound va 4096). unfold mret, cmd_ret. by rewrite u64_small by lia.
Qed.

(** When a level denies the access, so does the whole walk. *)
Ltac deny H :=
  repeat (case_match; try reflexivity);
  cbn [walk_result x_user x_rw]; rewrite ?permits_and, H, ?andb_false_r, ?andb_false_l; reflexivity.

Lemma translate_run cr3 va um wr m ar :
  path_ok m cr3 va ->
  translate cr3 va um wr (Heap m ar) =
    Ok (walk_result (nonzero um) (nonzero wr) (walk m cr3 va)) (Heap m ar).
Proof.
  intros (Hva & C1 & C2 & C3 & P4). cbn zeta in P4.
  destruct (cr3_addr cr3 C1 C2 C3) as [Ecr3 Ecr3'].
  unfold translate, PML4OFF, PDPOFF, PDOFF, PTOFF. rewrite Ecr3, (u64_small va) by lia.
  unfold walk. rewrite (proj2 (andb_true_iff _ _)) by lia. cbn [negb]. rewrite Ecr3'.
  rewrite (bind_ok _ _ _ _ _ (paging_check_ok um wr cr3 va 39 m ar C1 C2)). cbn zeta.
  remember (entry m cr3 va 39) as e4 eqn:D4. clear D4.
  destruct (has e4 PDE64_PRESENT) eqn:E4; [|done]. destruct (P4 eq_refl) as [G4 P3].
  destruct (good_table_bounds _ G4) as (B41 & B42 & ->). cbn [negb].
  destruct (permits _ _ (has e4 PDE64_USER) (has e4 PDE64_RW)) eqn:A4; [|by deny A4].
  rewrite (bind_ok _ _ _ _ _ (paging_check_ok um wr _ va 30 m ar B41 B42)). cbn zeta.
  remember (entry m (entry_addr 12 e4) va 30) as e3 eqn:D3. clear D3.
  destruct (has e3 PDE64_PRESENT) eqn:E3; [|done]. destruct (P3 eq_refl) as (G3 & PS3 & P2).
  destruct (good_table_bounds _ G3) as (B31 & B32 & ->). rewrite PS3. cbn [negb].
  destruct (permits _ _ (has e3 PDE64_USER) (has e3 PDE64_RW)) eqn:A3; [|by deny A3].
  rewrite (bind_ok _ _ _ _ _ (paging_check_ok um wr _ va 21 m ar B31 B32)). cbn zeta.
  assert (0 <= entry m (entry_addr 12 e3) va 21) as R2 by apply ld64_range.
  destruct (has (entry m (entry_addr 12 e3) va 21) PDE64_PRESENT) eqn:E2; [|done].
  destruct (P2 eq_refl) as (L2 & P1). cbn [negb].
  destruct (permits _ _ (has (entry m (entry_addr 12 e3) va 21) PDE64_USER) _) eqn:A2;
    [|by deny A2].
  rewrite (bind_ok _ _ _ _ _ (entry_load (entry_addr 12 e3) va 21 m ar B31 B32)).
  remember (entry m (entry_addr 12 e3) va 21) as e2 eqn:D2. clear D2.
  destruct (has e2 PDE64_PS) eqn:PS2.
  { rewrite big_page by lia. cbn [walk_result x_user x_rw x_pa].
    by rewrite !permits_and, A4, A3, A2. }
  destruct (P1 eq_refl) as [G2 L1]. destruct (good_table_bounds _ G2) as (B21 & B22 & ->).
  rewrite (bind_ok _ _ _ _ _ (paging_check_ok um wr _ va 12 m ar B21 B22)). cbn zeta.
  assert (0 <= entry m (entry_addr 12 e2) va 12) as R1 by apply ld64_range.
  remember (entry m (entry_addr 12 e2) va 12) as e1 eqn:D1. clear D1.
  destruct (has e1 PDE64_PRESENT) eqn:E1; [|done]. cbn [negb].
  destruct (permits _ _ (has e1 PDE64_USER) (has e1 PDE64_RW)) eqn:A1; [|by deny A1].
  cbn [walk_result x_user x_rw x_pa]. rewrite !permits_and, A4, A3, A2, A1. cbn [andb].
  by apply small_page.
Qed.

(** ** [init_pagetable] *)

(** Flags below bit 12 of an entry only depend on its low 12 bits. *)
Lemma has_low e mask : 0 <= mask < 4096 -> has e mask = has (e mod 4096) mask.
Proof.
  intros H. unfold has. f_equal. rewrite <- low12_mod, <- Z.land_assoc. f_equal.
  rewrite Z.land_comm, low12_mod. symmetry. by apply Z.mod_small.
Qed.

(** An entry built from a page address and flags. *)
Lemma entry_parts p f :
  0 <= p -> p mod 4096 = 0 -> 0 <= f < 4096 -> p < 2 ^ 39 ->
  Z.lor f p = p + f /\ (p + f) mod 4096 = f /\ entry_addr 12 (p + f) = p.
Proof.
  intros H1 H2 H3 H4.
  assert ((p + f) mod 4096 = f) as Hm
    by (rewrite <- Zplus_mod_idemp_l, H2; apply Z.mod_small; lia).
  split; [|split; [done|]].
  - rewrite Z.lor_comm. by apply (lor_disjoint _ _ 12); [lia|lia|].
  - assert (p + f < 2 ^ 39) by (pose proof (Z.div_mod p 4096); lia).
    rewrite entry_addr_small by lia. lia.
Qed.

(** Stores through the identity map of low memory. *)
Lemma kstore_low va v m ar :
  0 <= va -> va + 8 <= KERNEL_PAGING_SIZE ->
  kstore va v (Heap m ar) = Ok tt (Heap (st64 m va v) ar).
Proof.
  intros H1 H2. unfold kstore, krange.
  rewrite (proj2 (andb_false_iff _ _))
    by (unfold KERNEL_BASE_OFFSET, KERNEL_PAGING_SIZE in *; lia).
  by rewrite (proj2 (andb_true_iff _ _)) by lia.
Qed.

Definition pd_entry (i : Z) : Z :=
  Z.lor (Z.lor (Z.lor PDE64_PRESENT PDE64_RW) PDE64_PS) (u64 (i * KERNEL_PAGING_SIZE)).

Lemma pd_run pd ar k : forall i m,
  0 <= pd -> pd + 4096 <= KERNEL_PAGING_SIZE -> 0 <= i -> i + Z.of_nat k = 512 ->
  exists m',
    run (mbody (pd_body pd)) (Datatypes.S k) (i, Heap m ar) = inr (Ok tt (Heap m' ar)) /\
    (forall j, i <= j < 512 -> ld64 m' (pd + 8 * j) = pd_entry j) /\
    (forall x, ~ rng (pd + 8 * i) (8 * (512 - i)) x -> m' x = m x).
Proof.
  induction k as [|k IH]; intros i m Hp1 Hp2 Hi Hk; unfold KERNEL_PAGING_SIZE in *.
  - exists m. split; [|split; [lia|done]].
    apply mbody_done. unfold pd_body. by rewrite (proj2 (Z.ltb_ge _ _)) by lia.
  - destruct (IH (i + 1) (st64 m (pd + 8 * i) (pd_entry i))) as (m' & Hrun & Hj & Hf); try lia.
    exists m'. split; [|split].
    + erewrite mbody_next; [exact Hrun|]. unfold pd_body.
      rewrite (proj2 (Z.ltb_lt _ _)) by lia. unfold slot_at. rewrite (u64_small (pd + 8 * i)) by lia.
      rewrite (bind_ok _ _ _ _ _ (kstore_low (pd + 8 * i) _ m ar ltac:(lia)
                                    ltac:(unfold KERNEL_PAGING_SIZE; lia))). done.
    + intros j Hji. destruct (Z.eq_dec j i) as [->|Hne]; [|apply Hj; lia].
      rewrite <- (ld64_st64 m (pd + 8 * i) (pd_entry i)).
      * apply ld_ext. intros x Hx. apply Hf. unfold rng in *. lia.
      * unfold pd_entry. destruct (entry_parts (i * KERNEL_PAGING_SIZE) 131) as (E & _ & _);
          [unfold KERNEL_PAGING_SIZE; lia| |lia|unfold KERNEL_PAGING_SIZE; lia|].
        { unfold KERNEL_PAGING_SIZE. replace (i * 2097152) with (i * 512 * 4096) by lia.
          apply Z.mod_mul. lia. }
        change (Z.lor (Z.lor PDE64_PRESENT PDE64_RW) PDE64_PS) with 131.
        rewrite u64_small by (unfold KERNEL_PAGING_SIZE; lia). rewrite E.
        unfold KERNEL_PAGING_SIZE. lia.
    + intros x Hx. rewrite Hf by (unfold rng in *; lia). apply st_outside. unfold rng in *. lia.
Qed.

(** The five page-table pages the hypervisor reserves below the kernel stack. *)
Definition boot_cr3 (cr3 : Z) : Prop :=
  0 <= cr3 /\ cr3 mod 4096 = 0 /\ cr3 + PAGE_TABLE_SIZE <= KERNEL_PAGING_SIZE.

Lemma init_pagetable_run cr3 m ar :
  boot_cr3 cr3 ->
  exists m', init_pagetable cr3 (Heap m ar) = Ok tt (Heap m' ar) /\
    ld64 m' (cr3 + 8) = cr3 + 0x3000 + 3 /\ ld64 m' (cr3 + 0x3000) = cr3 + 0x4000 + 3 /\
    (forall j, 0 <= j < 512 -> ld64 m' (cr3 + 0x4000 + 8 * j) = j * KERNEL_PAGING_SIZE + 131) /\
    (forall x, ~ rng (cr3 + 8) 8 x -> ~ rng (cr3 + 0x3000) 8 x -> ~ rng (cr3 + 0x4000) 0x1000 x ->
               m' x = m x).
Proof.
  intros (H1 & H2 & H3). unfold PAGE_TABLE_SIZE, KERNEL_PAGING_SIZE in H3.
  assert (forall p, p mod 4096 = 0 -> (cr3 + p) mod 4096 = 0) as Hal.
  { intros p Hp. by rewrite <- Zplus_mod_idemp_l, H2, <- Zplus_mod_idemp_r, Hp. }
  destruct (entry_parts (cr3 + 0x3000) 3) as (E1 & _ & _); [lia|by apply Hal|lia|lia|].
  destruct (entry_parts (cr3 + 0x4000) 3) as (E2 & _ & _); [lia|by apply Hal|lia|lia|].
  set (m1 := st64 m (cr3 + 8) (cr3 + 0x3000 + 3)).
  set (m2 := st64 m1 (cr3 + 0x3000) (cr3 + 0x4000 + 3)).
  destruct (pd_run (cr3 + 0x4000) ar 512 0 m2) as (m' & Hrun & Hj & Hf);
    [lia|unfold KERNEL_PAGING_SIZE; lia|lia|lia|].
  exists m'. split; [|split; [|split; [|split]]].
  - unfold init_pagetable, slot_at. rewrite (u64_small (cr3 + 12288)) by lia.
    replace (cr3 + 12288 + 4096) with (cr3 + 0x4000) by lia. rewrite !(u64_small (_ + _)) by lia.
    change (Z.lor PDE64_PRESENT PDE64_RW) with 3. rewrite E1, E2.
    rewrite (bind_ok _ _ _ _ _ (kstore_low (cr3 + 8 * 1) _ m ar ltac:(lia)
                                  ltac:(unfold KERNEL_PAGING_SIZE; lia))).
    rewrite (bind_ok _ _ _ _ _ (kstore_low (cr3 + 12288 + 8 * 0) _ _ ar ltac:(lia)
                                  ltac:(unfold KERNEL_PAGING_SIZE; lia))).
    eapply (mloop_result _ 513); [|lia]. rewrite Z.mul_1_r, Z.mul_0_r, Z.add_0_r. exact Hrun.
  - unfold ld64. rewrite (ld_ext 8 m' m1).
    + apply ld64_st64. lia.
    + intros x Hx. rewrite Hf by (unfold rng in *; lia). apply st_outside. unfold rng in *. lia.
  - unfold ld64. rewrite (ld_ext 8 m' m2).
    + apply ld64_st64. lia.
    + intros x Hx. apply Hf. unfold rng in *. lia.
  - intros j Hj'. rewrite Hj by lia. unfold pd_entry, KERNEL_PAGING_SIZE. rewrite u64_small by lia.
    destruct (entry_parts (j * 2097152) 131) as (E & _ & _); [lia| |lia|lia|exact E].
    replace (j * 2097152) with (j * 512 * 4096) by lia. apply Z.mod_mul. lia.
  - intros x X1 X2 X3. rewrite Hf by (unfold rng in *; lia). unfold m2, m1, st64.
    rewrite !st_outside; [done|exact X1|exact X2].
Qed.

(** ** The direct map *)

Lemma tbl_index_div va bits : 0 <= bits -> tbl_index va bits = (va / 2 ^ bits) mod 512.
Proof.
  intros H. unfold tbl_index. change 0x1ff with (2 ^ 9 - 1).
  by rewrite land_low, Z.shiftr_div_pow2 by lia.
Qed.

(** A walk that ends in a 2MB page. *)
Lemma walk_big m cr3 va t3 t2 f4 f3 p f2 :
  0 <= va < 2 ^ 47 -> entry_addr 12 cr3 = cr3 ->
  entry m cr3 va 39 = t3 + f4 -> entry m t3 va 30 = t2 + f3 -> entry m t2 va 21 = p + f2 ->
  0 <= t3 < 2 ^ 39 -> t3 mod 4096 = 0 -> 0 <= t2 < 2 ^ 39 -> t2 mod 4096 = 0 ->
  0 <= p < 2 ^ 39 -> p mod 2 ^ 21 = 0 ->
  0 <= f4 < 4096 -> 0 <= f3 < 4096 -> 0 <= f2 < 4096 ->
  has f4 PDE64_PRESENT = true -> has f3 PDE64_PRESENT = true -> has f2 PDE64_PRESENT = true ->
  has f3 PDE64_PS = false -> has f2 PDE64_PS = true ->
  walk m cr3 va =
    Some (Xlat (p + va mod 2 ^ 21)
               (has f4 PDE64_USER && has f3 PDE64_USER && has f2 PDE64_USER)
               (has f4 PDE64_RW && has f3 PDE64_RW && has f2 PDE64_RW)).
Proof.
  intros Hva Hc E4 E3 E2 T3 T3' T2 T2' Hp Hp' F4 F3 F2 P4 P3 P2 S3 S2.
  assert (p mod 4096 = 0) as Hp4.
  { rewrite <- (mod_mul_mod p 512 4096) by lia. change (512 * 4096) with (2 ^ 21). by rewrite Hp'. }
  destruct (entry_parts t3 f4) as (_ & M4 & A4); [lia..|].
  destruct (entry_parts t2 f3) as (_ & M3 & A3); [lia..|].
  destruct (entry_parts p f2) as (_ & M2 & _); [lia..|].
  assert (entry_addr 21 (p + f2) = p) as A2.
  { unfold entry_addr. pose proof (Z.div_mod p (2 ^ 21)). rewrite (Z.mod_small _ (2 ^ 52)) by lia.
    rewrite <- Zplus_mod_idemp_l, Hp', Z.add_0_l, (Z.mod_small f2) by lia. lia. }
  unfold walk. rewrite (proj2 (andb_true_iff _ _)) by lia. cbn [negb].
  rewrite Hc, E4, A4, E3, A3, E2, A2.
  rewrite !(has_low (t3 + f4)), !(has_low (t2 + f3)), !(has_low (p + f2)) by done.
  by rewrite M4, M3, M2, P4, P3, P2, S3, S2.
Qed.

(** The address space after [init_pagetable]: [KERNEL_BASE_OFFSET + p] is physical
    address [p] for the first GB, for the kernel only, and writable. *)
Lemma direct_map m cr3 va :
  boot_cr3 cr3 ->
  ld64 m (cr3 + 8) = cr3 + 0x3000 + 3 -> ld64 m (cr3 + 0x3000) = cr3 + 0x4000 + 3 ->
  (forall j, 0 <= j < 512 -> ld64 m (cr3 + 0x4000 + 8 * j) = j * KERNEL_PAGING_SIZE + 131) ->
  KERNEL_BASE_OFFSET <= va < KERNEL_BASE_OFFSET + 2 ^ 30 ->
  walk m cr3 va = Some (Xlat (va - KERNEL_BASE_OFFSET) false true).
Proof.
  intros (C1 & C2 & C3) E4 E3 E2 Hva. unfold PAGE_TABLE_SIZE, KERNEL_PAGING_SIZE in *.
  unfold KERNEL_BASE_OFFSET in *. set (j := (va - 0x8000000000) / 2 ^ 21).
  pose proof (Z.div_mod (va - 0x8000000000) (2 ^ 21) ltac:(lia)) as Dj. fold j in Dj.
  pose proof (Z.mod_pos_bound (va - 0x8000000000) (2 ^ 21) ltac:(lia)) as Mj.
  assert (0 <= j < 512) as Hj by lia.
  assert (va mod 2 ^ 21 = (va - 0x8000000000) mod 2 ^ 21) as Hm.
  { symmetry. rewrite <- (Z.mod_add (va - 0x8000000000) (2 ^ 18) (2 ^ 21)) by lia. f_equal. lia. }
  assert (va / 2 ^ 39 = 1) as H39 by (symmetry; apply (Z.div_unique _ _ _ (va - 2 ^ 39)); lia).
  assert (va / 2 ^ 30 = 512) as H30 by (symmetry; apply (Z.div_unique _ _ _ (va - 2 ^ 39)); lia).
  assert (va / 2 ^ 21 = 2 ^ 18 + j) as H21.
  { symmetry. apply (Z.div_unique _ _ _ ((va - 0x8000000000) mod 2 ^ 21)); lia. }
  assert (forall p, p mod 4096 = 0 -> (cr3 + p) mod 4096 = 0) as Hal.
  { intros p Hp. by rewrite <- Zplus_mod_idemp_l, C2, <- Zplus_mod_idemp_r, Hp. }
  rewrite (walk_big m cr3 va (cr3 + 0x3000) (cr3 + 0x4000) 3 3 (j * 0x200000) 131);
    try reflexivity; try lia; try (by apply Hal).
  - f_equal. f_equal. rewrite Hm. lia.
  - rewrite entry_addr_small by lia. lia.
  - unfold entry. rewrite tbl_index_div, H39 by lia. exact E4.
  - unfold entry. rewrite tbl_index_div, H30 by lia.
    change (512 mod 512) with 0. rewrite Z.mul_0_r, Z.add_0_r. exact E3.
  - unfold entry. rewrite tbl_index_div, H21 by lia.
    replace (2 ^ 18 + j) with (j + 512 * 512) by lia. rewrite Z.mod_add, Z.mod_small by lia. by apply E2.
  - by apply Z.mod_mul.
Qed.
