(* ===== verification/PageTables.v ===== *)
(** * Building user mappings (kernel/mm/translate.c, [add_trans_user])

    [add_trans_user] walks three levels of tables, taking a zeroed page from the
    allocator where a table is missing, and writes the last entry.  The theorem at
    the end: when the call returns, the processor's walk of that address yields
    the frame that was asked for, with the permissions that were asked for. *)

From S2P Require Import Prelude Memory Arch Kmalloc KmallocSpec KmallocProof KmallocRefine KmallocSafety.
From S2P Require Import Translate TranslateProof.

(** ** Pages that may hold a table *)

(** A page below the heap (the boot page tables) or inside the payload of a live chunk. *)
Definition usable (a : aheap) (t : Z) : Prop :=
  0 <= t /\ t mod 4096 = 0 /\
  (t + 4096 <= KERNEL_PAGING_SIZE \/
   exists d, d ∈ a_live a /\ d.1 + OFF_NEXT <= KERNEL_BASE_OFFSET + t /\
             KERNEL_BASE_OFFSET + t + 4096 <= d.1 + d.2).

Lemma usable_ram a t : wf a -> usable a t -> t + 4096 <= MEM_SIZE.
Proof.
  intros W (H1 & _ & [H|(d & Hd & H2 & H3)]).
  - unfold KERNEL_PAGING_SIZE, MEM_SIZE, PS_LIMIT in *. lia.
  - destruct (wf_within a d W) as [_ H4]; [apply elem_of_app; by right|].
    pose proof (wf_top _ W). pose proof (wf_end _ W). lia.
Qed.

Lemma usable_not_own a t x : wf a -> usable a t -> rng t 4096 x -> ~ own a x.
Proof.
  intros W (H1 & _ & [H|(d & Hd & H2 & H3)]) Hx.
  - apply outside_not_own; [done|]. pose proof (wf_base _ W). unfold rng in Hx. lia.
  - apply live_not_own; [done|]. exists d. split; [done|]. unfold rng, OFF_NEXT in *. lia.
Qed.

(** Writing inside such a page keeps the allocator's invariant. *)
Lemma usable_write m m' ar a t :
  hinv (Heap m ar) a -> usable a t -> (forall x, ~ rng t 4096 x -> m' x = m x) ->
  hinv (Heap m' ar) a.
Proof.
  intros I (H1 & _ & [H|([c s] & Hd & H2 & H3)]) Hf.
  - eapply low_write; [exact I|]. intros x Hx. apply Hf. unfold rng. lia.
  - eapply (payload_write m m' ar a c s I Hd). intros x Hx. apply Hf. intros Hr. apply Hx.
    unfold rng, OFF_NEXT in *. simpl in *. lia.
Qed.

(** Two page-aligned pages are equal or apart. *)
Lemma pages_apart t u x :
  t mod 4096 = 0 -> u mod 4096 = 0 -> t <> u -> rng t 4096 x -> ~ rng u 4096 x.
Proof.
  intros Ht Hu Hne Hx Hx'. unfold rng in *.
  pose proof (Z.div_mod t 4096). pose proof (Z.div_mod u 4096). lia.
Qed.

(** Taking a page for a new table. *)
Definition PAGE_COST : Z := 0x2080.

Lemma a_malloc_page_room nb a :
  0 < nb -> page_gap (a_top a) + nb <= a_end a - a_top a -> 0 <= page_gap (a_top a) ->
  exists p a', a_malloc nb MALLOC_PAGE_ALIGN a = (Some p, a') /\
               a_top a' = a_top a + page_gap (a_top a) + nb.
Proof.
  intros Hnb Hroom Hg. unfold a_malloc, a_malloc_page, a_malloc_top. simpl.
  destruct (Z.eqb_spec (page_gap (a_top a)) 0) as [E|E].
  - rewrite (proj2 (Z.ltb_ge _ _)) by lia. eexists _, _. split; [done|]. simpl. lia.
  - rewrite (proj2 (Z.ltb_ge _ (page_gap _))) by lia. simpl.
    rewrite (proj2 (Z.ltb_ge _ _)) by lia. eexists _, _. split; [done|].
    unfold a_release. simpl. rewrite (proj2 (Z.eqb_neq _ _)) by lia. done.
Qed.

(** Allocation takes bytes from the allocator and gives it none. *)
Lemma own_mono a a' x :
  wf a -> wf a' -> a_base a' = a_base a -> a_end a' = a_end a -> a_live a ⊆ a_live a' ->
  own a' x -> own a x.
Proof.
  intros W W' Hb He Hl Ho. apply not_live_own; [done| |].
  - rewrite <- Hb, <- He. destruct (decide (a_base a' <= x + KERNEL_BASE_OFFSET < a_end a')); [done|].
    by exfalso; apply (outside_not_own a' x).
  - intros Hx. apply (live_not_own a' x W'); [|done]. by apply (in_blocks_mono (a_live a)).
Qed.

(** Chunks given out to requests have sizes that are multiples of [0x80]. *)
Definition sized (a : aheap) : Prop := Forall (fun d => d.2 mod 0x80 = 0) (a_live a).
(** What an allocation does: bytes leave the allocator, and chunks are added. *)
Record allocs (a a' : aheap) : Prop := Allocs {
  ta_own : forall x, own a' x -> own a x;
  ta_live : a_live a ⊆ a_live a';
  ta_sized : sized a -> sized a'
}.
Lemma allocs_refl a : allocs a a.
Proof. split; auto. Qed.
Lemma allocs_trans a b c : allocs a b -> allocs b c -> allocs a c.
Proof. intros [O1 L1 S1] [O2 L2 S2]. split; [auto|by transitivity (a_live b)|auto]. Qed.

Lemma take_range m ar a len :
  hinv (Heap m ar) a -> 0 < len < 2 ^ 32 -> len mod 4096 = 0 ->
  4096 + chunk_size len <= a_end a - a_top a ->
  exists t m' ar' a',
    kmalloc len MALLOC_PAGE_ALIGN (Heap m ar) = Ok (KERNEL_BASE_OFFSET + t) (Heap m' ar') /\
    hinv (Heap m' ar') a' /\ t + len <= MEM_SIZE /\
    (forall j, 0 <= j < len -> j mod 4096 = 0 -> usable a' (t + j)) /\
    (forall x, rng t len x -> m' x = 0 /\ own a x) /\
    (forall x, ~ own a x -> m' x = m x) /\
    (forall u, usable a u -> usable a' u) /\
    a_end a' = a_end a /\ a_top a' <= a_top a + 4096 + chunk_size len /\ allocs a a'.
Proof.
  intros I Hlen Hlp Hroom. pose proof I as [_ W].
  destruct (page_gap_props (a_top a) (wf_top_mod _ W)) as (Hg & _).
  destruct (chunk_size_request len ltac:(lia)) as [Hreq Hcs].
  assert (0 < chunk_size len) as Hpos by (unfold request in Hreq; lia).
  destruct (a_malloc_page_room (chunk_size len) a) as (p & a' & Hm & Htop); [lia..|].
  destruct (kmalloc_some len MALLOC_PAGE_ALIGN (Heap m ar) a p a' I) as ([m' ar'] & Hrun & I' & Hz & Hf);
    [lia|by right|done|].
  destruct (a_malloc_some _ _ _ _ _ W Hreq Hm) as (Hl & Hb & He & Hp).
  specialize (Hp ltac:(done)). pose proof I' as [_ W'].
  assert ((p - OFF_NEXT, chunk_size len) ∈ a_live a') as Hin by (rewrite Hl; left).
  destruct (wf_within a' _ W' ltac:(apply elem_of_app; right; exact Hin)) as [B1 B2].
  pose proof (wf_base _ W'). pose proof (wf_top _ W'). pose proof (wf_end _ W').
  simpl in B1, B2. unfold OFF_NEXT in *.
  exists (p - KERNEL_BASE_OFFSET), m', ar', a'.
  replace (KERNEL_BASE_OFFSET + (p - KERNEL_BASE_OFFSET)) with p by lia.
  split; [done|]. split; [done|]. split; [lia|]. split; [|split; [|split; [done|split; [|split; [done|split]]]]].
  - intros j Hj Hjp. split; [unfold KERNEL_PAGING_SIZE in *; lia|]. split.
    + change KERNEL_BASE_OFFSET with (2 ^ 27 * 4096).
      rewrite <- Zplus_mod_idemp_l, <- Zminus_mod_idemp_r, Z.mod_mul, Z.sub_0_r, Hp by lia. done.
    + right. eexists. split; [exact Hin|]. simpl. unfold OFF_NEXT.
      pose proof (Z.div_mod j 4096). pose proof (Z.div_mod len 4096). lia.
  - intros x Hx. split; [by apply Hz|].
    apply (fresh_own a a' _ x W W' Hl Hb He). simpl. unfold rng in *. lia.
  - intros u (U1 & U2 & [U3|(d & Hd & U3)]); (split; [done|split; [done|]]); [by left|].
    right. exists d. split; [|done]. rewrite Hl. by right.
  - lia.
  - assert (a_live a ⊆ a_live a') as Hs by (intros d; rewrite Hl; by right).
    split; [intros x; by apply own_mono|done|]. unfold sized. rewrite Hl. apply Forall_cons_2. apply Hreq.
Qed.

Lemma take_page m ar a :
  hinv (Heap m ar) a -> PAGE_COST <= a_end a - a_top a ->
  exists t m' ar' a',
    kmalloc 0x1000 MALLOC_PAGE_ALIGN (Heap m ar) = Ok (KERNEL_BASE_OFFSET + t) (Heap m' ar') /\
    hinv (Heap m' ar') a' /\ usable a' t /\ t < MEM_SIZE /\
    (forall x, rng t 4096 x -> m' x = 0 /\ own a x) /\
    (forall x, ~ own a x -> m' x = m x) /\
    (forall u, usable a u -> usable a' u) /\
    a_end a' = a_end a /\ a_top a' <= a_top a + PAGE_COST /\ allocs a a'.
Proof.
  intros I Hroom. change PAGE_COST with (4096 + chunk_size 0x1000) in *.
  destruct (take_range m ar a 0x1000 I) as (t & m' & ar' & a' & H1 & H2 & H3 & H4 & H5); [lia|done|done|].
  exists t, m', ar', a'. do 2 (split; [done|]).
  split; [by rewrite <- (Z.add_0_r t); apply H4|]. split; [lia|]. by rewrite Z.add_assoc.
Qed.

(** ** One level *)

(** An entry that points to a table usable by user mode. *)
Definition table_entry (e : Z) : Prop :=
  0 <= e < 2 ^ 39 /\ has e PDE64_PRESENT = true /\ has e PDE64_USER = true /\
  has e PDE64_RW = true /\ has e PDE64_PS = false.

Lemma table_entry_new t :
  0 <= t < 2 ^ 39 -> t mod 4096 = 0 -> t < MEM_SIZE ->
  let e := Z.lor (Z.lor (Z.lor PDE64_PRESENT PDE64_RW) PDE64_USER) t in
  table_entry e /\ entry_addr 12 e = t.
Proof.
  intros H1 H2 H3. change (Z.lor (Z.lor PDE64_PRESENT PDE64_RW) PDE64_USER) with 7. cbn zeta.
  destruct (entry_parts t 7) as (-> & Hm & Ha); [lia..|]. split; [|done].
  unfold MEM_SIZE, PS_LIMIT in H3. split; [lia|]. by rewrite !(has_low (t + 7)), Hm by done.
Qed.

Lemma entry_unchanged m m' t va bits :
  (forall x, rng t 4096 x -> m' x = m x) -> entry m' t va bits = entry m t va bits.
Proof.
  intros Hf. apply ld_ext. intros x Hx. apply Hf. pose proof (tbl_index_range va bits).
  unfold rng in *. lia.
Qed.

(** [PAGING(p, c)]: either the table exists and nothing changes, or a fresh zeroed
    page is linked; pages that held tables keep their content, the entry apart. *)
Lemma paging_alloc_ok m ar a t va bits :
  hinv (Heap m ar) a -> usable a t ->
  (has (entry m t va bits) PDE64_PRESENT = false -> PAGE_COST <= a_end a - a_top a) ->
  (has (entry m t va bits) PDE64_PRESENT = true ->
   table_entry (entry m t va bits) /\ usable a (entry_addr 12 (entry m t va bits))) ->
  exists t' m' ar' a',
    paging_alloc (slot_at (KERNEL_BASE_OFFSET + t) (tbl_index va bits)) (Heap m ar) =
      Ok (KERNEL_BASE_OFFSET + t') (Heap m' ar') /\
    hinv (Heap m' ar') a' /\ usable a' t' /\
    table_entry (entry m' t va bits) /\ entry_addr 12 (entry m' t va bits) = t' /\
    (forall u, usable a u -> usable a' u) /\
    (forall u x, usable a u -> u <> t -> rng u 4096 x -> m' x = m x) /\
    a_end a' = a_end a /\ a_top a' <= a_top a + PAGE_COST /\
    ((m' = m /\ a' = a /\ entry_addr 12 (entry m t va bits) = t' /\
      has (entry m t va bits) PDE64_PRESENT = true) \/
     (~ usable a t' /\ has (entry m t va bits) PDE64_PRESENT = false /\
      (forall x, rng t' 4096 x -> m' x = 0 /\ own a x) /\ allocs a a' /\
      forall x, ~ own a x -> ~ rng (t + 8 * tbl_index va bits) 8 x -> m' x = m x)).
Proof.
  intros I Hu Hroom Hp. pose proof I as [_ W]. pose proof (usable_ram a t W Hu) as Hram.
  destruct Hu as (U1 & U2 & U3) eqn:EU. clear EU. assert (usable a t) as Hu' by done.
  unfold paging_alloc. rewrite (bind_ok _ _ _ _ _ (entry_load t va bits m ar U1 Hram)).
  destruct (has (entry m t va bits) PDE64_PRESENT) eqn:E; cbn [negb].
  - destruct (Hp eq_refl) as [Te Ue]. pose proof Te as (T1 & T2 & T3 & T4 & T5). rewrite T3.
    cbn [negb]. exists (entry_addr 12 (entry m t va bits)), m, ar, a.
    rewrite <- table_of_addr by done. split; [done|]. do 6 (split; [done|]).
    split; [done|]. split; [unfold PAGE_COST; lia|]. by left.
  - destruct (take_page m ar a I (Hroom eq_refl)) as (t' & m1 & ar1 & a1 & Hrun & I1 & Ut & Tm & Hz & Hf & Hmono & He & Htop & Hown).
    rewrite (bind_ok _ _ _ _ _ Hrun).
    assert (0 <= t' < 2 ^ 39) as Tr by (destruct Ut; unfold MEM_SIZE, PS_LIMIT in Tm; lia).
    rewrite (bind_ok _ _ _ _ _ (physical_direct t' _ Tr)).
    rewrite (bind_ok _ _ _ _ _ (entry_store t va bits _ m1 ar1 U1 Hram)).
    destruct (table_entry_new t' Tr ltac:(apply Ut) Tm) as [Te Ta]. cbn zeta in Te, Ta.
    set (e := Z.lor _ t') in *. pose proof (tbl_index_range va bits) as Hi.
    assert (entry (st64 m1 (t + 8 * tbl_index va bits) e) t va bits = e) as Ee.
    { apply ld64_st64. destruct Te; lia. }
    assert (forall x, ~ rng t 4096 x -> st64 m1 (t + 8 * tbl_index va bits) e x = m1 x) as Hs.
    { intros x Hx. apply st_outside. intros Hr. apply Hx. unfold rng in *. lia. }
    assert (~ usable a t') as Hnew.
    { intros Hc. destruct (Hz t') as [_ Ho]; [unfold rng; lia|].
      by apply (usable_not_own a t' t' W Hc); [unfold rng; lia|]. }
    assert (t <> t') as Hne by (intros ->; done).
    eexists t', _, ar1, a1. split; [done|].
    split; [eapply usable_write; [exact I1|by apply Hmono|exact Hs]|].
    split; [done|]. rewrite Ee. do 3 (split; [done|]). split; [|split; [done|split; [done|]]].
    + intros u x Hu2 Hut Hx. rewrite Hs; [apply Hf; by eapply usable_not_own|].
      apply (pages_apart u t x); [apply Hu2|done..].
    + right. split; [done|]. split; [done|]. split; [|split; [done|]].
      * intros x Hx. split; [|by apply Hz]. rewrite Hs; [by apply Hz|].
        apply (pages_apart t' t x); [apply Ut|done|done|done].
      * intros x Hx Hw. unfold st64. rewrite st_outside by done. by apply Hf.
Qed.

(** ** The descent *)

(** Entries [bits] from table [t] lead to the table [t'] through tables other than [t']. *)
Fixpoint chain (a : aheap) (m : mem) (va : Z) (bits : list Z) (t t' : Z) : Prop :=
  usable a t /\
  match bits with
  | [] => t = t'
  | b :: bs => t <> t' /\ table_entry (entry m t va b) /\
               chain a m va bs (entry_addr 12 (entry m t va b)) t'
  end.

Lemma chain_end a m va bits t t' : chain a m va bits t t' -> usable a t'.
Proof.
  revert t. induction bits as [|b bs IH]; intros t; simpl; [by intros [? <-]|].
  intros (_ & _ & _ & H). by eapply IH.
Qed.
Lemma chain_frame a m m' va bits t t' :
  chain a m va bits t t' -> (forall x, ~ rng t' 4096 x -> m' x = m x) ->
  chain a m' va bits t t'.
Proof.
  intros H Hf. pose proof (chain_end _ _ _ _ _ _ H) as (_ & Ht' & _). revert t H.
  induction bits as [|b bs IH]; intros t; simpl; [done|].
  intros (H1 & H2 & H3 & H4). rewrite (entry_unchanged m m' t va b).
  - auto.
  - intros x Hx. apply Hf. apply (pages_apart t t'); [apply H1|done..].
Qed.

(** The tables already on the way are proper, usable and distinct. *)
Fixpoint path_inv (m : mem) (a : aheap) (va : Z) (bits : list Z) (seen : list Z) (t : Z) : Prop :=
  match bits with
  | [] => True
  | b :: bs =>
      let e := entry m t va b in
      has e PDE64_PRESENT = true ->
      table_entry e /\ usable a (entry_addr 12 e) /\ ~ (entry_addr 12 e ∈ t :: seen) /\
      path_inv m a va bs (t :: seen) (entry_addr 12 e)
  end.

Fixpoint descend (va : Z) (bits : list Z) (p : Z) : cmd heap Z :=
  match bits with
  | [] => mret p
  | b :: bs => c ← paging_alloc (slot_at p (tbl_index va b)); descend va bs c
  end.

Lemma path_inv_zero m a va bits seen t :
  (forall x, rng t 4096 x -> m x = 0) -> path_inv m a va bits seen t.
Proof.
  destruct bits as [|b bs]; simpl; [done|]. intros Hz.
  assert (entry m t va b = 0) as ->; [|done].
  rewrite (entry_unchanged (fun _ => 0) m) by done. reflexivity.
Qed.

Lemma descend_ok va bits : forall m ar a t seen,
  hinv (Heap m ar) a -> usable a t -> Forall (usable a) seen -> ~ (t ∈ seen) ->
  path_inv m a va bits seen t ->
  PAGE_COST * Z.of_nat (length bits) <= a_end a - a_top a ->
  exists t' m' ar' a',
    descend va bits (KERNEL_BASE_OFFSET + t) (Heap m ar) =
      Ok (KERNEL_BASE_OFFSET + t') (Heap m' ar') /\
    hinv (Heap m' ar') a' /\ usable a' t' /\ ~ (t' ∈ seen) /\ chain a' m' va bits t t' /\
    (forall u, usable a u -> usable a' u) /\
    (forall u x, u ∈ seen -> rng u 4096 x -> m' x = m x).
Proof.
  induction bits as [|b bs IH]; intros m ar a t seen I Hu Hs Hn Hp Hroom; simpl in Hp, Hroom.
  - exists t, m, ar, a. simpl. auto 10.
  - destruct (paging_alloc_ok m ar a t va b I Hu) as
      (t1 & m1 & ar1 & a1 & Hrun & I1 & U1 & Te & Ta & Hmono & Hf & He & Htop & Hcase).
    { unfold PAGE_COST in *. intros _. lia. }
    { intros E. destruct (Hp E) as (? & ? & _). done. }
    assert (~ (t1 ∈ t :: seen)) as Hn1.
    { destruct Hcase as [(_ & _ & <- & E)|[Hnew _]]; [by apply (Hp E)|].
      intros [->|Hin]%elem_of_cons; [done|]. rewrite Forall_forall in Hs. by apply Hnew, Hs. }
    destruct (IH m1 ar1 a1 t1 (t :: seen)) as (t' & m' & ar' & a' & Hrun' & I' & U' & Hn' & Hc & Hmono' & Hf').
    { done. }
    { done. }
    { constructor; [by apply Hmono|]. eapply Forall_impl; [exact Hs|done]. }
    { done. }
    { destruct Hcase as [(-> & -> & <- & E)|(_ & _ & Hz & _)]; [by apply (Hp E)|].
      apply path_inv_zero. intros x Hx. by apply Hz. }
    { unfold PAGE_COST in *. lia. }
    exists t', m', ar', a'. simpl. rewrite (bind_ok _ _ _ _ _ Hrun).
    rewrite elem_of_cons in Hn'. assert (entry m' t va b = entry m1 t va b) as Ee.
    { apply entry_unchanged. intros x Hx. apply (Hf' t); [left|done]. }
    split; [done|]. do 2 (split; [done|]). split; [tauto|]. split.
    + rewrite Ee, Ta. split; [by apply Hmono', Hmono|]. split; [intros ->; tauto|done].
    + split; [by auto|]. intros u x Hin Hx. rewrite (Hf' u) by (done || by right).
      rewrite Forall_forall in Hs. apply (Hf u); [by apply Hs| |done]. by intros ->.
Qed.

(** ** The last entry *)

Definition prot_bits (prot : Z) : Z :=
  Z.lor (if has prot PROT_R then PDE64_USER else 0) (if has prot PROT_W then PDE64_RW else 0).

(** [if(prot & PROT_R) *e |= PDE64_USER; if(prot & PROT_W) *e |= PDE64_RW;] *)
Lemma set_flags t va prot m ar :
  0 <= t -> t + 4096 <= MEM_SIZE -> 
  exists m',
    ((if has prot PROT_R then or_entry (slot_at (KERNEL_BASE_OFFSET + t) (tbl_index va 12)) PDE64_USER
      else mret tt) ;;
     (if has prot PROT_W then or_entry (slot_at (KERNEL_BASE_OFFSET + t) (tbl_index va 12)) PDE64_RW
      else mret tt)) (Heap m ar) = Ok tt (Heap m' ar) /\
    entry m' t va 12 = Z.lor (entry m t va 12) (prot_bits prot) /\
    (forall x, ~ rng (t + 8 * tbl_index va 12) 8 x -> m' x = m x).
Proof.
  intros H1 H2. pose proof (tbl_index_range va 12) as Hi.
  assert (forall bit m0, 0 <= bit < 4096 ->
    or_entry (slot_at (KERNEL_BASE_OFFSET + t) (tbl_index va 12)) bit (Heap m0 ar) =
      Ok tt (Heap (st64 m0 (t + 8 * tbl_index va 12) (Z.lor (entry m0 t va 12) bit)) ar) /\
    entry (st64 m0 (t + 8 * tbl_index va 12) (Z.lor (entry m0 t va 12) bit)) t va 12 =
      Z.lor (entry m0 t va 12) bit) as Hor.
  { intros bit m0 Hb. split.
    - unfold or_entry. rewrite (bind_ok _ _ _ _ _ (entry_load t va 12 m0 ar H1 H2)).
      apply entry_store; done.
    - apply ld64_st64. pose proof (ld64_range m0 (t + 8 * tbl_index va 12)) as Hr.
      change (ld64 m0 (t + 8 * tbl_index va 12)) with (entry m0 t va 12) in Hr.
      split; [apply Z.lor_nonneg; lia|].
      destruct (Z.eq_dec (Z.lor (entry m0 t va 12) bit) 0) as [->|]; [lia|].
      apply Z.log2_lt_pow2; [pose proof (Z.lor_nonneg (entry m0 t va 12) bit); lia|].
      rewrite Z.log2_lor by lia.
      assert (Z.log2 (entry m0 t va 12) < 64 /\ Z.log2 bit < 64); [|lia].
      split; [destruct (Z.eq_dec (entry m0 t va 12) 0) as [->|]; [done|]|
              destruct (Z.eq_dec bit 0) as [->|]; [done|]]; apply Z.log2_lt_pow2; lia. }
  assert (forall m0 v x, ~ rng (t + 8 * tbl_index va 12) 8 x -> st64 m0 (t + 8 * tbl_index va 12) v x = m0 x) as Hf
    by (intros m0 v x Hx; by apply st_outside).
  unfold prot_bits. destruct (has prot PROT_R), (has prot PROT_W).
  - destruct (Hor PDE64_USER m) as [R1 E1]; [done|].
    set (m1 := st64 m _ _) in *. destruct (Hor PDE64_RW m1) as [R2 E2]; [done|].
    eexists. rewrite (bind_ok _ _ _ _ _ R1). split; [exact R2|]. rewrite E2, E1.
    split; [by rewrite <- Z.lor_assoc|]. intros x Hx. unfold m1. by rewrite !Hf.
  - destruct (Hor PDE64_USER m) as [R1 E1]; [done|].
    eexists. rewrite (bind_ok _ _ _ _ _ R1). split; [done|]. rewrite E1, Z.lor_0_r. auto.
  - destruct (Hor PDE64_RW m) as [R1 E1]; [done|]. eexists. split; [exact R1|]. rewrite E1. auto.
  - exists m. rewrite Z.lor_0_r. auto.
Qed.

Lemma prot_bits_cases prot :
  0 <= Z.lor 1 (prot_bits prot) < 4096 /\
  has (Z.lor 1 (prot_bits prot)) PDE64_PRESENT = true /\
  has (Z.lor 1 (prot_bits prot)) PDE64_USER = has prot PROT_R /\
  has (Z.lor 1 (prot_bits prot)) PDE64_RW = has prot PROT_W.
Proof. unfold prot_bits. by destruct (has prot PROT_R), (has prot PROT_W). Qed.

(** Storing the entry of a present page, then its permissions. *)
Lemma leaf_write t va p prot m ar :
  0 <= t -> t + 4096 <= MEM_SIZE -> 0 <= p < 2 ^ 39 -> p mod 4096 = 0 ->
  exists m',
    (kstore (slot_at (KERNEL_BASE_OFFSET + t) (tbl_index va 12)) (p + 1) ;;
     (if has prot PROT_R then or_entry (slot_at (KERNEL_BASE_OFFSET + t) (tbl_index va 12)) PDE64_USER
      else mret tt) ;;
     (if has prot PROT_W then or_entry (slot_at (KERNEL_BASE_OFFSET + t) (tbl_index va 12)) PDE64_RW
      else mret tt)) (Heap m ar) = Ok tt (Heap m' ar) /\
    entry m' t va 12 = p + Z.lor 1 (prot_bits prot) /\
    (forall x, ~ rng (t + 8 * tbl_index va 12) 8 x -> m' x = m x).
Proof.
  intros H1 H2 Hp Hp'. rewrite (bind_ok _ _ _ _ _ (entry_store t va 12 _ m ar H1 H2)).
  set (m2 := st64 m _ _). destruct (set_flags t va prot m2 ar H1 H2) as (m3 & Hrun3 & E3 & F3).
  assert (entry m2 t va 12 = p + 1) as E2 by (apply ld64_st64; lia).
  exists m3. split; [exact Hrun3|]. split.
  - destruct (prot_bits_cases prot) as (B & _).
    destruct (entry_parts p (Z.lor 1 (prot_bits prot))) as (E4 & _ & _); [lia..|].
    destruct (entry_parts p 1) as (E1 & _ & _); [lia..|].
    by rewrite E3, E2, <- E1, <- E4, (Z.lor_comm 1 p), <- Z.lor_assoc, (Z.lor_comm p).
  - intros x Hx. rewrite F3 by done. by apply st_outside.
Qed.

(** A word of a table is inside the table's page. *)
Lemma word_in_page t va bits x : rng (t + 8 * tbl_index va bits) 8 x -> rng t 4096 x.
Proof. pose proof (tbl_index_range va bits). unfold rng. lia. Qed.

(** A chain of tables to a last entry is a walk. *)
Lemma walk_chain a m cr3 va t p f :
  0 <= va < 2 ^ 47 -> entry_addr 12 cr3 = cr3 -> chain a m va [39; 30; 21] cr3 t ->
  entry m t va 12 = p + f -> 0 <= p < 2 ^ 39 -> p mod 4096 = 0 -> 0 <= f < 4096 ->
  has f PDE64_PRESENT = true ->
  walk m cr3 va = Some (Xlat (p + va mod 2 ^ 12) (has f PDE64_USER) (has f PDE64_RW)).
Proof.
  intros Hva Hc Hch E1 Hp Hp' Hf Pf. destruct (entry_parts p f) as (_ & M1 & A1); [lia..|].
  unfold walk. replace ((0 <=? va) && (va <? 2 ^ 47)) with true by lia. cbn [negb]. rewrite Hc.
  destruct Hch as (_ & _ & (_ & P4 & U4 & W4 & _) & _ & _ & (_ & P3 & U3 & W3 & S3) & _ & _ & T2 & _ & He).
  destruct T2 as (_ & P2 & U2 & W2 & S2).
  rewrite P4, P3, P2, U4, U3, U2, W4, W3, W2, S3, S2, He, E1, A1. cbn [negb andb].
  rewrite !(has_low (p + f)) by done. by rewrite M1, Pf.
Qed.

Lemma mask_kbase q p :
  0 <= p < 2 ^ 39 -> q = p \/ q = KERNEL_BASE_OFFSET + p ->
  Z.land q (u64 (Z.lnot KERNEL_BASE_OFFSET)) = p.
Proof.
  intros Hp Hq. rewrite <- kbase_lor in Hq by done.
  change KERNEL_BASE_OFFSET with (2 ^ 39) in *. unfold u64. rewrite <- Z.land_ones by lia.
  apply Z.bits_inj'. intros i Hi.
  rewrite !Z.land_spec, Z.testbit_ones_nonneg, Z.lnot_spec, Z.pow2_bits_eqb by lia.
  destruct (Z.ltb_spec i 39) as [Hlt|Hge].
  - rewrite (proj2 (Z.eqb_neq _ _)), (proj2 (Z.ltb_lt _ _)) by lia. rewrite !andb_true_r.
    destruct Hq as [->| ->]; [done|]. rewrite Z.lor_spec, Z.pow2_bits_eqb by lia.
    rewrite (proj2 (Z.eqb_neq _ _)) by lia. apply orb_false_r.
  - replace (Z.testbit p i) with false.
    2:{ symmetry. rewrite <- (Z.mod_small p (2 ^ 39)) by lia. by apply Z.mod_pow2_bits_high. }
    destruct (Z.eqb_spec 39 i) as [<-|Hne]; [apply andb_false_r|].
    replace (Z.testbit q i) with false; [done|]. symmetry.
    rewrite <- (Z.mod_small p (2 ^ 39)) in Hq by lia.
    destruct Hq as [->| ->]; rewrite ?Z.lor_spec, Z.mod_pow2_bits_high, ?Z.pow2_bits_eqb by lia;
      [done|]. by rewrite (proj2 (Z.eqb_neq _ _)).
Qed.

Lemma add_trans_descend cr3 va paddr prot h :
  USER_MEM_RANGE_OK va = true -> 0 <= va < 2 ^ 64 -> get_pml4_addr cr3 = KERNEL_BASE_OFFSET + cr3 ->
  add_trans_user cr3 va paddr prot h =
    (pt ← descend va [39; 30; 21] (KERNEL_BASE_OFFSET + cr3);
     kstore (slot_at pt (tbl_index va 12))
       (Z.lor PDE64_PRESENT (Z.land paddr (u64 (Z.lnot KERNEL_BASE_OFFSET)))) ;;
     (if has prot PROT_R then or_entry (slot_at pt (tbl_index va 12)) PDE64_USER else mret tt) ;;
     (if has prot PROT_W then or_entry (slot_at pt (tbl_index va 12)) PDE64_RW else mret tt)) h.
Proof.
  intros Hr Hva Hc. unfold add_trans_user, PML4OFF, PDPOFF, PDOFF, PTOFF.
  rewrite Hr, Hc, (u64_small va) by done. cbn [negb descend].
  rewrite !bind_bind. unfold mbind, cmd_bind. destruct (paging_alloc _ h) as [c s|]; [|done].
  destruct (paging_alloc _ s) as [c1 s1|]; [|done]. by destruct (paging_alloc _ s1).
Qed.

(** What the tables on the way to [va] must satisfy for [add_trans_user]. *)
Definition mappable (h : heap) (a : aheap) (cr3 va : Z) : Prop :=
  USER_MEM_RANGE_OK va = true /\ 0 <= va < 2 ^ 47 /\
  usable a cr3 /\ path_inv (h_mem h) a va [39; 30; 21] [] cr3 /\
  3 * PAGE_COST <= a_end a - a_top a.

Lemma usable_cr3 a cr3 :
  wf a -> usable a cr3 ->
  get_pml4_addr cr3 = KERNEL_BASE_OFFSET + cr3 /\ entry_addr 12 cr3 = cr3.
Proof. intros W U. apply cr3_addr; [apply U|by eapply usable_ram|apply U]. Qed.

(** The user page of [va] is mapped to frame [p] with protection [prot]: every
    table on the way is proper, and the last entry is the one the kernel writes. *)
Definition maps (m : mem) (a : aheap) (cr3 va p prot : Z) : Prop :=
  exists t, chain a m va [39; 30; 21] cr3 t /\
            entry m t va 12 = p + Z.lor 1 (prot_bits prot) /\
            0 <= p < 2 ^ 39 /\ p mod 4096 = 0.

Lemma maps_walk m a cr3 va p prot :
  wf a -> 0 <= va < 2 ^ 47 -> maps m a cr3 va p prot ->
  walk m cr3 va = Some (Xlat (p + va mod 4096) (has prot PROT_R) (has prot PROT_W)).
Proof.
  intros W Hva (t & Hch & He & Hp1 & Hp2). destruct (prot_bits_cases prot) as (B1 & B2 & B3 & B4).
  pose proof Hch as (Uc & _). rewrite <- B3, <- B4.
  apply (walk_chain a m cr3 va t); try done. by apply (usable_cr3 a).
Qed.

(** [translate]'s own precondition follows. *)
Lemma maps_path_ok m a cr3 va p prot :
  wf a -> 0 <= va < 2 ^ 47 -> maps m a cr3 va p prot -> path_ok m cr3 va.
Proof.
  intros W Hva (t & (U4 & _ & (T4 & _) & U3 & _ & (T3 & _ & _ & _ & S3) & U2 & _ & (T2 & _) & U1 & Ht) & He & Hp1 & Hp2).
  destruct (prot_bits_cases prot) as (B1 & _). simpl in Ht.
  split; [done|]. split; [apply U4|]. split; [by eapply usable_ram|]. split; [apply U4|].
  cbn zeta. intros _. split; [split; [done|by eapply usable_ram]|].
  intros _. split; [split; [done|by eapply usable_ram]|]. split; [done|].
  intros _. split; [apply T2|]. intros _. split; [split; [done|by eapply usable_ram]|].
  rewrite Ht, He. pose proof (Z.div_mod p 4096). lia.
Qed.

Lemma add_trans_user_ok cr3 va paddr p prot h a :
  hinv h a -> mappable h a cr3 va ->
  0 <= p < 2 ^ 39 -> p mod 4096 = 0 -> paddr = p \/ paddr = KERNEL_BASE_OFFSET + p ->
  exists h' a', add_trans_user cr3 va paddr prot h = Ok tt h' /\ hinv h' a' /\
    maps (h_mem h') a' cr3 va p prot.
Proof.
  intros I (Hr & Hva & Hu & Hp & Hroom) Hp1 Hp2 Hpa. destruct h as [m ar]. pose proof I as [_ W].
  destruct (usable_cr3 a cr3 W Hu) as [C1 C2].
  destruct (descend_ok va [39; 30; 21] m ar a cr3 []) as
    (t & m1 & ar1 & a1 & Hrun & I1 & U1 & _ & Hch & _ & _); try done; [apply not_elem_of_nil|].
  pose proof I1 as [_ W1]. pose proof (usable_ram a1 t W1 U1) as R1. pose proof U1 as (T1 & T2 & _).
  rewrite add_trans_descend, (bind_ok _ _ _ _ _ Hrun) by (done || lia).
  rewrite (mask_kbase paddr p) by done.
  change PDE64_PRESENT with 1. destruct (entry_parts p 1) as (-> & _ & _); [lia..|].
  destruct (leaf_write t va p prot m1 ar1 T1 R1 Hp1 Hp2) as (m3 & Hrun3 & E3 & F3).
  assert (forall x, ~ rng t 4096 x -> m3 x = m1 x) as Hf
    by (intros x Hx; apply F3; intros Hw; by apply Hx, (word_in_page t va 12)).
  exists (Heap m3 ar1), a1. split; [exact Hrun3|]. split; [by eapply usable_write|].
  exists t. split; [by apply (chain_frame a1 m1)|]. done.
Qed.

(** ** [modify_permission] *)

Lemma paging_find_ok a m ar t va bits :
  wf a -> usable a t -> table_entry (entry m t va bits) ->
  paging_find (slot_at (KERNEL_BASE_OFFSET + t) (tbl_index va bits)) (Heap m ar) =
    Ok (Some (KERNEL_BASE_OFFSET + entry_addr 12 (entry m t va bits))) (Heap m ar).
Proof.
  intros W U (T1 & T2 & _). unfold paging_find.
  rewrite (bind_ok _ _ _ _ _ (entry_load t va bits m ar ltac:(apply U) (usable_ram a t W U))).
  by rewrite T2, table_of_addr.
Qed.

(** Clearing and setting the protection bits of an entry the kernel wrote. *)
Lemma clear_prot p q :
  0 <= p < 2 ^ 39 -> p mod 4096 = 0 ->
  Z.land (p + Z.lor 1 (prot_bits q)) (u64 (Z.lnot (Z.lor PDE64_USER PDE64_RW))) = p + 1.
Proof.
  intros Hp Hp'. destruct (prot_bits_cases q) as (B & _).
  destruct (entry_parts p (Z.lor 1 (prot_bits q))) as (<- & _ & _); [lia..|].
  destruct (entry_parts p 1) as (<- & _ & _); [lia..|].
  rewrite Z.land_lor_distr_l. f_equal.
  - unfold prot_bits. by destruct (has q PROT_R), (has q PROT_W).
  - change (u64 (Z.lnot (Z.lor PDE64_USER PDE64_RW))) with (Z.lor (2 ^ 64 - 2 ^ 12) 0xff9).
    rewrite Z.land_lor_distr_r, (land_high 64 12) by lia. change (2 ^ 12) with 4096.
    rewrite Hp', Z.sub_0_r. replace (Z.land p 0xff9) with 0; [apply Z.lor_0_r|].
    change 0xff9 with (Z.land 0xfff 0xff9). by rewrite Z.land_assoc, low12_mod, Hp'.
Qed.

Lemma then_then {S A B C D} (f : cmd S A) (g : cmd S B) (h : cmd S C) (i : cmd S D) s :
  (f ;; g ;; h ;; i) s = ((f ;; g ;; h) ;; i) s.
Proof. unfold mbind, cmd_bind. destruct (f s) as [? s1|]; [|done]. by destruct (g s1) as [? s2|]. Qed.

Lemma modify_permission_entry cr3 va p q prot m ar a t :
  hinv (Heap m ar) a -> 0 <= va < 2 ^ 47 -> chain a m va [39; 30; 21] cr3 t ->
  entry m t va 12 = p + Z.lor 1 (prot_bits q) -> 0 <= p < 2 ^ 39 -> p mod 4096 = 0 ->
  exists m', modify_permission cr3 va prot (Heap m ar) = Ok 0 (Heap m' ar) /\
    hinv (Heap m' ar) a /\ entry m' t va 12 = p + Z.lor 1 (prot_bits prot) /\
    (forall x, ~ rng (t + 8 * tbl_index va 12) 8 x -> m' x = m x).
Proof.
  intros I Hva Hch He Hp1 Hp2. pose proof I as [_ W].
  pose proof Hch as (U4 & _ & T4 & U3 & _ & T3 & U2 & _ & T2 & U1 & Ht). simpl in Ht.
  destruct (usable_cr3 a cr3 W U4) as [C1 _].
  unfold modify_permission, PML4OFF, PDPOFF, PDOFF, PTOFF. rewrite C1, (u64_small va) by lia.
  rewrite (bind_ok _ _ _ _ _ (paging_find_ok a m ar cr3 va 39 W U4 T4)).
  rewrite (bind_ok _ _ _ _ _ (paging_find_ok a m ar _ va 30 W U3 T3)).
  rewrite (bind_ok _ _ _ _ _ (paging_find_ok a m ar _ va 21 W U2 T2)).
  rewrite Ht in U1 |- *. pose proof U1 as (V1 & _). pose proof (usable_ram a t W U1) as R1.
  rewrite (bind_ok _ _ _ _ _ (entry_load t va 12 m ar V1 R1)). rewrite He.
  destruct (prot_bits_cases q) as (B1 & B2 & _).
  destruct (entry_parts p (Z.lor 1 (prot_bits q))) as (_ & M1 & _); [lia..|].
  rewrite has_low, M1, B2 by done. cbn [negb]. rewrite clear_prot by done.
  destruct (leaf_write t va p prot m ar V1 R1 Hp1 Hp2) as (m3 & Hrun3 & E3 & F3).
  exists m3. rewrite (then_then _ _ _ _ (Heap m ar)), (bind_ok _ _ _ _ _ Hrun3). split; [done|].
  split; [|done]. eapply usable_write; [done|exact U1|].
  intros x Hx. apply F3. intros Hw. by apply Hx, (word_in_page t va 12).
Qed.

Lemma modify_permission_ok cr3 va p q prot m ar a :
  hinv (Heap m ar) a -> 0 <= va < 2 ^ 47 -> maps m a cr3 va p q ->
  exists m', modify_permission cr3 va prot (Heap m ar) = Ok 0 (Heap m' ar) /\
    hinv (Heap m' ar) a /\ maps m' a cr3 va p prot.
Proof.
  intros I Hva (t & Hch & He & Hp1 & Hp2).
  destruct (modify_permission_entry cr3 va p q prot m ar a t) as (m' & Hrun & I' & E' & F'); try done.
  exists m'. split; [done|]. split; [done|]. exists t. split; [|done].
  apply (chain_frame a m); [done|]. intros x Hx. apply F'. intros Hw. by apply Hx, (word_in_page t va 12).
Qed.

(** ** The properties *)

(** C6: [add_trans_user] maps the page: afterwards the processor translates [vaddr] to
    the given frame, for user mode iff PROT_R was asked for, writable iff PROT_W. *)
Theorem add_trans_user_maps cr3 va paddr p prot h a :
  hinv h a -> mappable h a cr3 va ->
  0 <= p < 2 ^ 39 -> p mod 4096 = 0 -> paddr = p \/ paddr = KERNEL_BASE_OFFSET + p ->
  exists h' a', add_trans_user cr3 va paddr prot h = Ok tt h' /\ hinv h' a' /\
    walk (h_mem h') cr3 va =
      Some (Xlat (p + va mod 4096) (has prot PROT_R) (has prot PROT_W)).
Proof.
  intros I Hm H1 H2 H3. pose proof Hm as (_ & Hva & _).
  destruct (add_trans_user_ok cr3 va paddr p prot h a I Hm H1 H2 H3) as (h' & a' & Hrun & I' & M').
  exists h', a'. split; [done|]. split; [done|]. apply (maps_walk _ a'); [apply I'|done..].
Qed.

(** C5: [translate] computes the processor's walk with the permission check. *)
Theorem translate_is_walk cr3 va um wr m ar :
  path_ok m cr3 va ->
  translate cr3 va um wr (Heap m ar) =
    Ok match walk m cr3 va with
       | Some x => if (negb (nonzero um) || x_user x) && (negb (nonzero wr) || x_rw x)
                   then x_pa x else NO_TRANS
       | None => NO_TRANS
       end (Heap m ar).
Proof. intros H. rewrite translate_run by done. reflexivity. Qed.

(** What was mapped is what [translate] returns; the wrong kind of access gets -1. *)
Theorem add_trans_user_translate cr3 va paddr p prot um wr h a :
  hinv h a -> mappable h a cr3 va ->
  0 <= p < 2 ^ 39 -> p mod 4096 = 0 -> paddr = p \/ paddr = KERNEL_BASE_OFFSET + p ->
  exists h', add_trans_user cr3 va paddr prot h = Ok tt h' /\
    translate cr3 va um wr h' =
      Ok (if permits (nonzero um) (nonzero wr) (has prot PROT_R) (has prot PROT_W)
          then p + va mod 4096 else NO_TRANS) h'.
Proof.
  intros I Hm H1 H2 H3. pose proof Hm as (_ & Hva & _).
  destruct (add_trans_user_ok cr3 va paddr p prot h a I Hm H1 H2 H3) as (h' & a' & Hrun & I' & M').
  exists h'. split; [done|]. destruct h' as [m' ar'].
  rewrite translate_run by (eapply maps_path_ok; [apply I'|done..]).
  by rewrite (maps_walk m' a' cr3 va p prot (proj2 I') Hva M').
Qed.

(** [modify_permission] changes the protection of a mapped page and nothing else
    of its translation. *)
Theorem modify_permission_sets cr3 va p q prot h a :
  hinv h a -> 0 <= va < 2 ^ 47 -> maps (h_mem h) a cr3 va p q ->
  exists h', modify_permission cr3 va prot h = Ok 0 h' /\ hinv h' a /\
    walk (h_mem h) cr3 va = Some (Xlat (p + va mod 4096) (has q PROT_R) (has q PROT_W)) /\
    walk (h_mem h') cr3 va = Some (Xlat (p + va mod 4096) (has prot PROT_R) (has prot PROT_W)).
Proof.
  intros I Hva Hm. destruct h as [m ar].
  destruct (modify_permission_ok cr3 va p q prot m ar a I Hva Hm) as (m' & Hrun & I' & Hm').
  exists (Heap m' ar). split; [done|]. split; [done|].
  split; apply (maps_walk _ a); try done; apply I.
Qed.

(** After [init_pagetable] the kernel's direct map covers the first GB of physical
    memory, and a kernel access as [krange] describes it is what the processor does. *)
Theorem init_pagetable_direct_map cr3 h :
  boot_cr3 cr3 ->
  exists h', init_pagetable cr3 h = Ok tt h' /\
    (forall va, KERNEL_BASE_OFFSET <= va < KERNEL_BASE_OFFSET + 2 ^ 30 ->
       walk (h_mem h') cr3 va = Some (Xlat (va - KERNEL_BASE_OFFSET) false true)) /\
    (forall x, ~ rng (cr3 + 8) 8 x -> ~ rng (cr3 + 0x3000) 0x2000 x -> h_mem h' x = h_mem h x).
Proof.
  intros Hc. destruct h as [m ar].
  destruct (init_pagetable_run cr3 m ar Hc) as (m' & Hrun & E4 & E3 & E2 & Hf).
  exists (Heap m' ar). split; [done|]. split.
  - intros va Hva. by apply direct_map.
  - intros x H1 H2. apply Hf; [done|..]; unfold rng in *; lia.
Qed.

(** ** Concrete instances *)

Lemma boot_mappable :
  mappable (boot_heap 0x200000) (fresh_aheap BOOT_HEAP 0x200000) MAX_KERNEL_SIZE 0x400123.
Proof.
  split; [done|]. split; [lia|]. split.
  - split; [done|]. split; [done|]. by left.
  - split; [|done]. apply path_inv_zero. done.
Qed.

Lemma add_trans_user_maps_witness :
  exists h' a', add_trans_user MAX_KERNEL_SIZE 0x400123 0x300000 PROT_R (boot_heap 0x200000) = Ok tt h' /\
    hinv h' a' /\ walk (h_mem h') MAX_KERNEL_SIZE 0x400123 = Some (Xlat 0x300123 true false).
Proof.
  apply (add_trans_user_maps MAX_KERNEL_SIZE 0x400123 0x300000 0x300000 PROT_R (boot_heap 0x200000)
           (fresh_aheap BOOT_HEAP 0x200000)).
  - by apply boot_heap_inv.
  - exact boot_mappable.
  - lia.
  - reflexivity.
  - by left.
Defined.

Lemma add_trans_user_translate_witness :
  exists h', add_trans_user MAX_KERNEL_SIZE 0x400123 0x300000 PROT_R (boot_heap 0x200000) = Ok tt h' /\
    translate MAX_KERNEL_SIZE 0x400123 1 0 h' = Ok 0x300123 h'.
Proof.
  apply (add_trans_user_translate MAX_KERNEL_SIZE 0x400123 0x300000 0x300000 PROT_R 1 0
           (boot_heap 0x200000) (fresh_aheap BOOT_HEAP 0x200000)).
  - by apply boot_heap_inv.
  - exact boot_mappable.
  - lia.
  - reflexivity.
  - by left.
Defined.

Lemma translate_is_walk_witness :
  translate MAX_KERNEL_SIZE 0x400123 1 0 (boot_heap 0x200000) = Ok NO_TRANS (boot_heap 0x200000).
Proof.
  apply (translate_is_walk MAX_KERNEL_SIZE 0x400123 1 0 (fun _ => 0)).
  split; [lia|]. do 3 (split; [done|]). cbn zeta. intros H. discriminate H.
Defined.

Lemma init_pagetable_direct_map_witness :
  exists h', init_pagetable MAX_KERNEL_SIZE (boot_heap 0x200000) = Ok tt h' /\
    walk (h_mem h') MAX_KERNEL_SIZE (KERNEL_BASE_OFFSET + 0x1234) = Some (Xlat 0x1234 false true).
Proof.
  destruct (init_pagetable_direct_map MAX_KERNEL_SIZE (boot_heap 0x200000)) as (h' & Hrun & Hw & _).
  - by split; [|split].
  - exists h'. split; [exact Hrun|]. apply Hw. split; [discriminate|reflexivity].
Defined.

(** A machine with one mapped user page. *)
Definition map_mem : mem :=
  st64 (st64 (st64 (st64 (fun _ => 0) 0x1f7000 (0x1f8000 + 7)) 0x1f8000 (0x1f9000 + 7))
        (0x1f9000 + 8 * 2) (0x1fa000 + 7)) 0x1fa000 (0x300000 + 7).
Definition map_heap : heap := Heap map_mem (Arena BOOT_HEAP 0x200000 BOOT_HEAP 0 0 0).

Lemma modify_permission_sets_witness :
  exists h', modify_permission 0x1f7000 0x400000 PROT_R map_heap = Ok 0 h' /\
    walk (h_mem h') 0x1f7000 0x400000 = Some (Xlat 0x300000 true false).
Proof.
  destruct (modify_permission_sets 0x1f7000 0x400000 0x300000 PROT_RW PROT_R map_heap
              (fresh_aheap BOOT_HEAP 0x200000)) as (h' & H1 & _ & _ & H2).
  - destruct (boot_heap_inv 0x200000) as [[R1 R2 R3 R4 R5] W]; [done..|].
    split; [|exact W]. split; [exact R1|exact R2|exact R3|exact R4|constructor].
  - lia.
  - exists 0x1fa000. split; [|split; [reflexivity|by split]].
    assert (forall t, 0 <= t -> t mod 4096 = 0 -> t + 4096 <= KERNEL_PAGING_SIZE ->
              usable (fresh_aheap BOOT_HEAP 0x200000) t) as Hu
      by (intros t Ht1 Ht2 Ht3; split; [done|split; [done|by left]]).
    change (h_mem map_heap) with map_mem. cbn [chain].
    replace (entry map_mem 0x1f7000 0x400000 39) with 0x1f8007 by (vm_compute; reflexivity).
    change (entry_addr 12 0x1f8007) with 0x1f8000.
    replace (entry map_mem 0x1f8000 0x400000 30) with 0x1f9007 by (vm_compute; reflexivity).
    change (entry_addr 12 0x1f9007) with 0x1f9000.
    replace (entry map_mem 0x1f9000 0x400000 21) with 0x1fa007 by (vm_compute; reflexivity).
    change (entry_addr 12 0x1fa007) with 0x1fa000.
    assert (forall e, In e [0x1f8007; 0x1f9007; 0x1fa007] -> table_entry e) as Hte.
    { intros e [<-|[<-|[<-|[]]]]; vm_compute; repeat split; discriminate. }
    do 3 (split; [apply Hu; vm_compute; done|]; split; [lia|]; split; [apply Hte; simpl; tauto|]).
    split; [apply Hu; vm_compute; done|reflexivity].
  - exists h'. split; [exact H1|exact H2].
Defined.
