(* ===== verification/AddressSpace.v ===== *)
(** * The user's address space

    The page tables as a tree: an invariant says that the tables on the paths of user
    addresses are pages the kernel may use and that no table is on two different
    paths.  [add_trans_user] and [modify_permission] keep it and change the
    translation of one page only, so a whole range can be mapped page by page. *)

From S2P Require Import Prelude Memory Arch KString Kmalloc KmallocSpec KmallocProof KmallocRefine.
From S2P Require Import KmallocSafety Translate TranslateProof PageTables.

(** ** Tables on a path *)

Definition user_va (va : Z) : Prop := USER_MEM_RANGE_OK va = true /\ 0 <= va < 2 ^ 47.

(** The index of [va] at level [l] starts at this bit; its prefix down to level [l]. *)
Definition lbits (l : nat) : Z := 39 - 9 * Z.of_nat l.
Definition key (l : nat) (va : Z) : Z := va / 2 ^ (48 - 9 * Z.of_nat l).

(** The table of level [l] on the path of [va], if it is there. *)
Fixpoint tab (m : mem) (cr3 va : Z) (l : nat) : option Z :=
  match l with
  | O => Some cr3
  | S l' => match tab m cr3 va l' with
            | Some t => let e := entry m t va (lbits l') in
                        if has e PDE64_PRESENT then Some (entry_addr 12 e) else None
            | None => None
            end
  end.
(** The last entry on the path; 0 if there is none. *)
Definition leaf (m : mem) (cr3 va : Z) : Z :=
  match tab m cr3 va 3 with Some t => entry m t va 12 | None => 0 end.

Record aspace (m : mem) (a : aheap) (cr3 : Z) : Prop := ASpace {
  as_usable : forall va l t, user_va va -> (l <= 3)%nat -> tab m cr3 va l = Some t -> usable a t;
  as_entry : forall va l t, user_va va -> (l < 3)%nat -> tab m cr3 va l = Some t ->
    has (entry m t va (lbits l)) PDE64_PRESENT = true -> table_entry (entry m t va (lbits l));
  as_inj : forall va vb l l' t, user_va va -> user_va vb -> (l <= 3)%nat -> (l' <= 3)%nat ->
    tab m cr3 va l = Some t -> tab m cr3 vb l' = Some t -> l = l' /\ key l va = key l vb
}.

Lemma key_index l va : (l <= 3)%nat -> tbl_index va (lbits l) = key (S l) va mod 512.
Proof.
  intros Hl. unfold lbits, key. rewrite tbl_index_div by lia.
  by replace (48 - 9 * Z.of_nat (S l)) with (39 - 9 * Z.of_nat l) by lia.
Qed.
Lemma key_up l va : (l <= 3)%nat -> key l va = key (S l) va / 512.
Proof.
  intros Hl. unfold key. rewrite Z.div_div by lia. f_equal. change 512 with (2 ^ 9).
  rewrite <- Z.pow_add_r by lia. f_equal. lia.
Qed.
(** A prefix is the shorter prefix and an index. *)
Lemma key_eq l va vb :
  (l <= 3)%nat ->
  key (S l) va = key (S l) vb <->
  key l va = key l vb /\ tbl_index va (lbits l) = tbl_index vb (lbits l).
Proof.
  intros Hl. rewrite !key_index, (key_up l va), (key_up l vb) by done.
  split; [intros ->; done|]. intros [H1 H2].
  rewrite (Z.div_mod (key (S l) va) 512), (Z.div_mod (key (S l) vb) 512) by lia. by rewrite H1, H2.
Qed.
Lemma key_page va : key 4 va = va / 4096.
Proof. reflexivity. Qed.

Lemma tab_key m cr3 va vb l :
  (l <= 4)%nat -> key l va = key l vb -> tab m cr3 va l = tab m cr3 vb l.
Proof.
  induction l as [|l IH]; intros Hl Hk; [done|]. apply key_eq in Hk as [Hk Hi]; [|lia].
  simpl. rewrite (IH ltac:(lia) Hk). destruct (tab m cr3 vb l); [|done].
  unfold entry. by rewrite Hi.
Qed.
Lemma leaf_key m cr3 va vb : va / 4096 = vb / 4096 -> leaf m cr3 va = leaf m cr3 vb.
Proof.
  intros Hk. assert (key 4 va = key 4 vb) as Hk' by done. apply key_eq in Hk' as [Hk' Hi]; [|lia].
  unfold leaf. rewrite (tab_key m cr3 va vb 3) by (lia || done). destruct (tab _ _ _ _); [|done].
  unfold entry. change (lbits 3) with 12 in Hi. by rewrite Hi.
Qed.

Lemma tab_step m cr3 va l t :
  tab m cr3 va l = Some t ->
  tab m cr3 va (S l) = if has (entry m t va (lbits l)) PDE64_PRESENT
                       then Some (entry_addr 12 (entry m t va (lbits l))) else None.
Proof. intros H. simpl. by rewrite H. Qed.
Lemma tab_stop m cr3 va l l' : tab m cr3 va l = None -> (l <= l')%nat -> tab m cr3 va l' = None.
Proof. intros H. induction 1 as [|l' Hl IH]; [done|]. simpl. by rewrite IH. Qed.

(** The processor's translation is the last entry. *)
Lemma walk_leaf m a cr3 va :
  wf a -> aspace m a cr3 -> user_va va ->
  walk m cr3 va =
    let e := leaf m cr3 va in
    if has e PDE64_PRESENT
    then Some (Xlat (entry_addr 12 e + va mod 4096) (has e PDE64_USER) (has e PDE64_RW)) else None.
Proof.
  intros Wf [Hu He _] Hva. pose proof Hva as [_ Hr].
  destruct (usable_cr3 a cr3 Wf (Hu va 0%nat cr3 Hva ltac:(lia) eq_refl)) as [_ Hc].
  unfold walk. replace ((0 <=? va) && (va <? 2 ^ 47)) with true by lia. cbn [negb]. rewrite Hc.
  assert (forall l t, (l < 3)%nat -> tab m cr3 va l = Some t ->
    has (entry m t va (lbits l)) PDE64_PRESENT = false -> leaf m cr3 va = 0) as Hn.
  { intros l t Hl Ht E. unfold leaf. rewrite (tab_stop m cr3 va (S l) 3); [done| |lia].
    by rewrite (tab_step _ _ _ _ t Ht), E. }
  pose proof (eq_refl : tab m cr3 va 0 = Some cr3) as Q.
  assert (forall l t, (l < 3)%nat -> tab m cr3 va l = Some t ->
    (has (entry m t va (lbits l)) PDE64_PRESENT = false /\ leaf m cr3 va = 0) \/
    (table_entry (entry m t va (lbits l)) /\ tab m cr3 va (S l) = Some (entry_addr 12 (entry m t va (lbits l)))))
    as Hstep.
  { intros l t Hl Ht. pose proof (He va l t Hva Hl Ht) as He'. rewrite (tab_step _ _ _ _ t Ht).
    destruct (has (entry m t va (lbits l)) PDE64_PRESENT) eqn:E; [right; by split; [apply He'|]|left; eauto]. }
  destruct (Hstep 0%nat cr3 ltac:(lia) Q) as [[N ->]|[(_ & P4 & U4 & W4 & _) Q3]];
    change (lbits 0) with 39 in *; [by rewrite N|]. set (t3 := entry_addr 12 (entry m cr3 va 39)) in *.
  destruct (Hstep 1%nat t3 ltac:(lia) Q3) as [[N ->]|[(_ & P3 & U3 & W3 & S3) Q2]];
    change (lbits 1) with 30 in *; [by rewrite P4, N|]. set (t2 := entry_addr 12 (entry m t3 va 30)) in *.
  destruct (Hstep 2%nat t2 ltac:(lia) Q2) as [[N ->]|[(_ & P2 & U2 & W2 & S2) Q1]];
    change (lbits 2) with 21 in *; [by rewrite P4, P3, S3, N|].
  unfold leaf. rewrite Q1, P4, P3, P2, S3, S2, U4, U3, U2, W4, W3, W2. cbn [negb andb]. cbn zeta.
  by destruct (has (entry m (entry_addr 12 (entry m t2 va 21)) va 12) PDE64_PRESENT).
Qed.

(** ** Changing one entry *)

(** Bytes of the entries of user addresses. *)
Definition user_entry (m : mem) (cr3 x : Z) : Prop :=
  exists va l t, user_va va /\ (l <= 3)%nat /\ tab m cr3 va l = Some t /\
    rng (t + 8 * tbl_index va (lbits l)) 8 x.

(** What every step towards a new mapping keeps: tables stay where they are, the
    allocator only gives, and bytes that are neither the allocator's nor entries of
    user addresses are left alone. *)
Record grows (m : mem) (a : aheap) (m' : mem) (a' : aheap) (cr3 : Z) : Prop := Grows {
  g_allocs : allocs a a';
  g_usable : forall u, usable a u -> usable a' u;
  g_end : a_end a' = a_end a;
  g_tab : forall va l t, user_va va -> (l <= 3)%nat -> tab m cr3 va l = Some t -> tab m' cr3 va l = Some t;
  g_frame : forall x, ~ own a x -> ~ user_entry m cr3 x -> m' x = m x;
  g_entries : forall x, user_entry m' cr3 x -> user_entry m cr3 x \/ own a x
}.

Lemma g_own m a m' a' cr3 x : grows m a m' a' cr3 -> own a' x -> own a x.
Proof. intros G. apply (g_allocs _ _ _ _ _ G). Qed.
Lemma grows_refl m a cr3 : grows m a m a cr3.
Proof. split; auto using allocs_refl. Qed.
Lemma grows_trans m1 a1 m2 a2 m3 a3 cr3 :
  grows m1 a1 m2 a2 cr3 -> grows m2 a2 m3 a3 cr3 -> grows m1 a1 m3 a3 cr3.
Proof.
  intros [O1 U1 E1 T1 F1 N1] [O2 U2 E2 T2 F2 N2]. split; auto; [by eapply allocs_trans|by rewrite E2|..].
  - intros x Ho He. rewrite F2, F1; auto.
    + intros Hx. by apply Ho, (ta_own _ _ O1).
    + intros Hx. destruct (N1 x Hx); auto.
  - intros x Hx. destruct (N2 x Hx) as [Hx'|]; auto. right. by apply (ta_own _ _ O1).
Qed.

Section Change.
Context (m m' : mem) (a : aheap) (cr3 va : Z) (l : nat) (t : Z).
Hypothesis heap_wf : wf a.
Hypothesis space : aspace m a cr3.
Hypothesis va_user : user_va va.
Hypothesis l_level : (l <= 3)%nat.
Hypothesis t_table : tab m cr3 va l = Some t.
(** Only the allocator's bytes and the entry of [va] at level [l] change. *)
Hypothesis changed : forall x, ~ own a x -> ~ rng (t + 8 * tbl_index va (lbits l)) 8 x -> m' x = m x.

Lemma entry_other vb l' u :
  user_va vb -> (l' <= 3)%nat -> tab m cr3 vb l' = Some u -> ~ (l' = l /\ key (S l) va = key (S l) vb) ->
  entry m' u vb (lbits l') = entry m u vb (lbits l').
Proof.
  intros Hb Hl' Hu Hne. pose proof (as_usable _ _ _ space vb l' u Hb Hl' Hu) as Uu.
  pose proof (as_usable _ _ _ space va l t va_user l_level t_table) as Ut.
  apply ld_ext. intros x Hx. apply changed.
  - apply (usable_not_own a u x heap_wf Uu). by apply (word_in_page u vb (lbits l')).
  - intros Hw. destruct (Z.eq_dec u t) as [->|Hd].
    + destruct (as_inj _ _ _ space va vb l l' t) as [<- Hk]; try done.
      apply Hne. split; [done|]. apply key_eq; [done|]. split; [done|]. unfold rng in *. lia.
    + apply (pages_apart u t x); [apply Uu|apply Ut|done|..]; by eapply word_in_page.
Qed.

(** A change of a last entry moves no table. *)
Lemma tab_leaf vb l' : l = 3%nat -> user_va vb -> (l' <= 3)%nat -> tab m' cr3 vb l' = tab m cr3 vb l'.
Proof.
  intros H3 Hb. induction l' as [|l' IH]; intros Hl'; [done|]. simpl. rewrite IH by lia.
  destruct (tab m cr3 vb l') as [u|] eqn:E; [|done].
  by rewrite (entry_other vb l' u) by (lia || done).
Qed.

Lemma aspace_leaf : l = 3%nat -> aspace m' a cr3.
Proof.
  intros H3. pose proof space as [Hu He Hi].
  assert (forall vb l', user_va vb -> (l' <= 3)%nat -> tab m' cr3 vb l' = tab m cr3 vb l') as Ht
    by (intros; by apply tab_leaf). split.
  - intros vb l' u Hb Hl. rewrite Ht by done. by apply Hu.
  - intros vb l' u Hb Hl. rewrite Ht by (done || lia). intros Htu.
    rewrite (entry_other vb l' u) by (lia || done). by apply He.
  - intros va1 vb l1 l2 u H1 H2 L1 L2. rewrite !Ht by done. by apply Hi.
Qed.

Lemma grows_leaf : l = 3%nat -> grows m a m' a cr3.
Proof.
  intros Hl. split; auto using allocs_refl.
  - intros vb l' u Hb Hl'. by rewrite tab_leaf.
  - intros x Ho He. apply changed; [done|]. intros Hw. apply He. by exists va, l, t.
  - intros x (vb & l' & u & Hb & Hl' & Ht & Hw). left. rewrite tab_leaf in Ht by done. by exists vb, l', u.
Qed.

Lemma leaf_other vb : l = 3%nat -> user_va vb -> va / 4096 <> vb / 4096 -> leaf m' cr3 vb = leaf m cr3 vb.
Proof.
  intros Hl Hb Hne. unfold leaf. rewrite tab_leaf by (done || lia).
  destruct (tab m cr3 vb 3) as [u|] eqn:E; [|done].
  apply (entry_other vb 3 u); [done|lia|done|]. rewrite Hl. by intros [_ Hk].
Qed.

(** *** Linking a new table *)

Context (a' : aheap) (t' : Z).
Hypothesis inner : (l < 3)%nat.
Hypothesis absent : has (entry m t va (lbits l)) PDE64_PRESENT = false.
Hypothesis linked : table_entry (entry m' t va (lbits l)) /\ entry_addr 12 (entry m' t va (lbits l)) = t'.
Hypothesis zeroed : forall x, rng t' 4096 x -> m' x = 0 /\ own a x.
Hypothesis fresh : ~ usable a t' /\ usable a' t' /\ a_end a' = a_end a.
Hypothesis mono : (forall u, usable a u -> usable a' u) /\ allocs a a'.

Lemma zero_entry vb bits : entry m' t' vb bits = 0.
Proof. rewrite (entry_unchanged (fun _ => 0) m'); [done|]. intros x Hx. by apply zeroed. Qed.

Lemma tab_link vb l' :
  user_va vb -> (l' <= 3)%nat ->
  tab m' cr3 vb l' = if decide ((l < l')%nat /\ key (S l) va = key (S l) vb)
                     then (if decide (l' = S l) then Some t' else None) else tab m cr3 vb l'.
Proof.
  intros Hb. induction l' as [|l' IH]; intros Hl'; [by rewrite decide_False by lia|].
  simpl. rewrite IH by lia. destruct (decide (key (S l) va = key (S l) vb)) as [Hk|Hk].
  2:{ rewrite !decide_False by tauto. destruct (tab m cr3 vb l') as [u|] eqn:E; [|done].
      by rewrite (entry_other vb l' u) by (lia || done || tauto). }
  destruct (Nat.lt_trichotomy l l') as [Hlt|[<-|Hgt]].
  - rewrite !(decide_True (P := (_ /\ _))) by (split; [lia|done]).
    rewrite (decide_False (P := S l' = S l)) by lia. destruct (decide (l' = S l)); [|done].
    by rewrite zero_entry.
  - rewrite (decide_False (P := (_ /\ _))), (decide_True (P := (_ /\ _))), decide_True by (done || lia).
    apply key_eq in Hk as [Hk Hi]; [|done]. rewrite <- (tab_key m cr3 va vb l) by (lia || done).
    rewrite t_table. unfold entry in linked |- *. rewrite <- Hi. destruct linked as [(_ & -> & _) ->]. done.
  - rewrite !decide_False by lia. destruct (tab m cr3 vb l') as [u|] eqn:E; [|done].
    by rewrite (entry_other vb l' u) by (lia || done).
Qed.

(** A table of the new tree is the new one or was there before. *)
Lemma tab_link_inv vb l' u :
  user_va vb -> (l' <= 3)%nat -> tab m' cr3 vb l' = Some u ->
  (u = t' /\ l' = S l /\ key (S l) va = key (S l) vb) \/
  (tab m cr3 vb l' = Some u /\ usable a u /\ ~ ((l < l')%nat /\ key (S l) va = key (S l) vb)).
Proof.
  intros Hb Hl'. rewrite tab_link by done. destruct (decide _) as [[H1 H2]|Hn].
  - destruct (decide (l' = S l)); [|done]. intros [= <-]. by left.
  - intros Hu. right. split; [done|]. split; [|done]. by apply (as_usable _ _ _ space vb l').
Qed.

Lemma aspace_link : aspace m' a' cr3.
Proof.
  pose proof space as [Hu He Hi]. destruct fresh as (F1 & F2 & _), mono as [M1 _]. split.
  - intros vb l' u Hb Hl Ht. apply tab_link_inv in Ht as [(-> & _)|(_ & H & _)]; auto.
  - intros vb l' u Hb Hl Ht Hp. apply tab_link_inv in Ht; [|done|lia]. destruct Ht as [(-> & _)|(Ht & Hus & Hn)].
    + by rewrite zero_entry in Hp.
    + destruct (decide (l' = l /\ key (S l) va = key (S l) vb)) as [[-> Hk]|Hd].
      * apply key_eq in Hk as [Hk Hix]; [|done]. rewrite (tab_key m cr3 vb va l) in Ht by (lia || done).
        rewrite t_table in Ht. injection Ht as <-. unfold entry in linked |- *. rewrite <- Hix. apply linked.
      * rewrite (entry_other vb l' u) in Hp |- * by (done || lia). by apply He.
  - intros va1 vb l1 l2 u H1 H2 L1 L2 T1 T2.
    apply tab_link_inv in T1; [|done..]. apply tab_link_inv in T2; [|done..].
    destruct T1 as [(-> & -> & K1)|(T1 & U1 & _)], T2 as [(E2 & E3 & K2)|(T2 & U2 & _)]; try done.
    + subst l2. split; [done|]. by rewrite <- K1, <- K2.
    + by subst u.
    + by apply (Hi va1 vb l1 l2 u).
Qed.

Lemma grows_link : grows m a m' a' cr3.
Proof.
  destruct fresh as (F1 & F2 & F3), mono as [M1 M2]. split; auto.
  - intros vb l' u Hb Hl' Ht. rewrite tab_link by done. rewrite decide_False; [done|]. intros [Hlt Hk].
    assert (tab m cr3 vb (S l) = None) as Hn.
    { rewrite <- (tab_key m cr3 va vb (S l)) by (lia || done). by rewrite (tab_step _ _ _ _ t t_table), absent. }
    by rewrite (tab_stop m cr3 vb (S l) l' Hn) in Ht by lia.
  - intros x Ho He. apply changed; [done|]. intros Hw. apply He. by exists va, l, t.
  - intros x (vb & l' & u & Hb & Hl' & Ht & Hw).
    apply tab_link_inv in Ht; [|done..]. destruct Ht as [(-> & _)|(Ht & _)].
    + right. apply zeroed. by eapply word_in_page.
    + left. by exists vb, l', u.
Qed.

Lemma leaf_link vb : user_va vb -> leaf m' cr3 vb = leaf m cr3 vb.
Proof.
  intros Hb. unfold leaf. rewrite tab_link by (done || lia). destruct (decide _) as [[Hlt Hk]|Hd].
  - assert (tab m cr3 vb (S l) = None) as Hn.
    { rewrite <- (tab_key m cr3 va vb (S l)) by (lia || done). by rewrite (tab_step _ _ _ _ t t_table), absent. }
    rewrite (tab_stop m cr3 vb (S l) 3 Hn) by lia. destruct (decide (3%nat = S l)); [|done]. apply zero_entry.
  - destruct (tab m cr3 vb 3) as [u|] eqn:E; [|done]. apply (entry_other vb 3 u); [done|lia|done|]. lia.
Qed.
End Change.

(** ** The operations *)

(** The cost of the table of level [l] if it has to be made. *)
Definition lacks (m : mem) (cr3 va : Z) (l : nat) : Z :=
  match tab m cr3 va l with Some _ => 0 | None => PAGE_COST end.
Definition space_cost (m : mem) (cr3 va : Z) : Z :=
  lacks m cr3 va 1 + lacks m cr3 va 2 + lacks m cr3 va 3.

Lemma lacks_grows m a m' a' cr3 va l :
  grows m a m' a' cr3 -> user_va va -> (l <= 3)%nat -> 0 <= lacks m' cr3 va l <= lacks m cr3 va l.
Proof.
  intros G Hva Hl. unfold lacks, PAGE_COST. destruct (tab m cr3 va l) eqn:E.
  - by rewrite (g_tab _ _ _ _ _ G va l _ Hva Hl E).
  - destruct (tab m' cr3 va l); lia.
Qed.

(** One level of [add_trans_user]. *)
Lemma paging_space m ar a cr3 va l t :
  hinv (Heap m ar) a -> aspace m a cr3 -> user_va va -> (l < 3)%nat -> tab m cr3 va l = Some t ->
  lacks m cr3 va (S l) <= a_end a - a_top a ->
  exists t' m' ar' a',
    paging_alloc (slot_at (KERNEL_BASE_OFFSET + t) (tbl_index va (lbits l))) (Heap m ar) =
      Ok (KERNEL_BASE_OFFSET + t') (Heap m' ar') /\
    hinv (Heap m' ar') a' /\ aspace m' a' cr3 /\ grows m a m' a' cr3 /\
    tab m' cr3 va (S l) = Some t' /\ (forall vb, user_va vb -> leaf m' cr3 vb = leaf m cr3 vb) /\
    a_top a' <= a_top a + lacks m cr3 va (S l).
Proof.
  intros I S Hva Hl Ht Hroom. pose proof I as [_ Wf].
  pose proof (as_usable _ _ _ S va l t Hva ltac:(lia) Ht) as Ut.
  unfold lacks in *. rewrite (tab_step _ _ _ _ t Ht) in *.
  destruct (paging_alloc_ok m ar a t va (lbits l) I Ut) as
    (t' & m' & ar' & a' & Hrun & I' & U' & Te & Ta & Hmono & Hf & He & Htop & Hcase).
  { intros E. rewrite E in Hroom. done. }
  { intros E. split; [by apply (as_entry _ _ _ S va l)|].
    apply (as_usable _ _ _ S va (Datatypes.S l)); [done|lia|]. by rewrite (tab_step _ _ _ _ t Ht), E. }
  exists t', m', ar', a'. split; [done|]. split; [done|].
  destruct Hcase as [(-> & -> & Et & Hp)|(Hn & Hp & Hz & Ho & Hc)]; rewrite Hp in Hroom |- *.
  - split; [done|]. split; [apply grows_refl|]. rewrite (tab_step _ _ _ _ t Ht), Hp, Et.
    split; [done|]. split; [done|]. lia.
  - split; [eapply (aspace_link m m' a cr3 va l t); (done || lia)|].
    split; [eapply (grows_link m m' a cr3 va l t); (done || lia)|].
    split; [|split; [|done]].
    + erewrite (tab_link m m' a cr3 va l t) with (t' := t') (a' := a'); [|(done || lia)..].
      by rewrite !decide_True by (done || lia).
    + intros vb Hb. apply (leaf_link m m' a cr3 va l t) with (t' := t') (a' := a'); (done || lia).
Qed.

Lemma descend_space m ar a cr3 va :
  hinv (Heap m ar) a -> aspace m a cr3 -> user_va va -> space_cost m cr3 va <= a_end a - a_top a ->
  exists t m' ar' a',
    descend va [39; 30; 21] (KERNEL_BASE_OFFSET + cr3) (Heap m ar) =
      Ok (KERNEL_BASE_OFFSET + t) (Heap m' ar') /\
    hinv (Heap m' ar') a' /\ aspace m' a' cr3 /\ grows m a m' a' cr3 /\
    tab m' cr3 va 3 = Some t /\ (forall vb, user_va vb -> leaf m' cr3 vb = leaf m cr3 vb) /\
    a_top a' <= a_top a + space_cost m cr3 va.
Proof.
  intros I S Hva Hroom. unfold space_cost in *.
  pose proof (lacks_grows m a m a cr3 va 1 (grows_refl m a cr3) Hva ltac:(lia)).
  pose proof (lacks_grows m a m a cr3 va 2 (grows_refl m a cr3) Hva ltac:(lia)).
  pose proof (lacks_grows m a m a cr3 va 3 (grows_refl m a cr3) Hva ltac:(lia)).
  destruct (paging_space m ar a cr3 va 0 cr3) as (t1 & m1 & ar1 & a1 & R1 & I1 & S1 & G1 & T1 & L1 & C1);
    [done|done|done|lia|done|lia|].
  pose proof (lacks_grows _ _ _ _ cr3 va 2 G1 Hva ltac:(lia)). pose proof (g_end _ _ _ _ _ G1).
  pose proof (lacks_grows _ _ _ _ cr3 va 3 G1 Hva ltac:(lia)).
  destruct (paging_space m1 ar1 a1 cr3 va 1 t1) as (t2 & m2 & ar2 & a2 & R2 & I2 & S2 & G2 & T2 & L2 & C2);
    [done|done|done|lia|done|lia|].
  pose proof (lacks_grows _ _ _ _ cr3 va 3 G2 Hva ltac:(lia)). pose proof (g_end _ _ _ _ _ G2).
  destruct (paging_space m2 ar2 a2 cr3 va 2 t2) as (t3 & m3 & ar3 & a3 & R3 & I3 & S3 & G3 & T3 & L3 & C3);
    [done|done|done|lia|done|lia|].
  exists t3, m3, ar3, a3. cbn [descend]. change 39 with (lbits 0). change 30 with (lbits 1). change 21 with (lbits 2).
  rewrite (bind_ok _ _ _ _ _ R1), (bind_ok _ _ _ _ _ R2), (bind_ok _ _ _ _ _ R3).
  split; [done|]. do 2 (split; [done|]).
  split; [by eapply grows_trans; [|eapply grows_trans]|]. split; [done|].
  split; [|lia]. intros vb Hb. by rewrite L3, L2, L1.
Qed.

Lemma leaf_of m cr3 va t : tab m cr3 va 3 = Some t -> leaf m cr3 va = entry m t va 12.
Proof. unfold leaf. by intros ->. Qed.

(** [add_trans_user] gives its page a new last entry and leaves the others alone. *)
Lemma add_trans_space cr3 va paddr p prot m ar a :
  hinv (Heap m ar) a -> aspace m a cr3 -> user_va va -> space_cost m cr3 va <= a_end a - a_top a ->
  0 <= p < 2 ^ 39 -> p mod 4096 = 0 -> paddr = p \/ paddr = KERNEL_BASE_OFFSET + p ->
  exists m' ar' a', add_trans_user cr3 va paddr prot (Heap m ar) = Ok tt (Heap m' ar') /\
    hinv (Heap m' ar') a' /\ aspace m' a' cr3 /\ grows m a m' a' cr3 /\
    tab m' cr3 va 3 <> None /\ leaf m' cr3 va = p + Z.lor 1 (prot_bits prot) /\
    (forall vb, user_va vb -> va / 4096 <> vb / 4096 -> leaf m' cr3 vb = leaf m cr3 vb) /\
    a_top a' <= a_top a + space_cost m cr3 va.
Proof.
  intros I S Hva Hroom Hp1 Hp2 Hpa. pose proof I as [_ Wf]. pose proof Hva as [Hr Hv].
  destruct (usable_cr3 a cr3 Wf) as [C1 _]; [by apply (as_usable _ _ _ S va 0%nat); [|lia|]|].
  destruct (descend_space m ar a cr3 va I S Hva Hroom) as (t & m1 & ar1 & a1 & Hrun & I1 & S1 & G1 & T1 & L1 & Htop).
  pose proof I1 as [_ W1]. pose proof (as_usable _ _ _ S1 va 3%nat t Hva ltac:(lia) T1) as U1.
  pose proof (usable_ram a1 t W1 U1) as R1.
  rewrite add_trans_descend, (bind_ok _ _ _ _ _ Hrun), (mask_kbase paddr p) by (done || lia).
  change PDE64_PRESENT with 1. destruct (entry_parts p 1) as (-> & _ & _); [lia..|].
  destruct (leaf_write t va p prot m1 ar1) as (m3 & Hrun3 & E3 & F3); [apply U1|done..|].
  assert (forall x, ~ own a1 x -> ~ rng (t + 8 * tbl_index va (lbits 3)) 8 x -> m3 x = m1 x) as Hc
    by (intros x _; apply F3).
  assert (forall vb l, user_va vb -> (l <= 3)%nat -> tab m3 cr3 vb l = tab m1 cr3 vb l) as Ht
    by (intros; eapply (tab_leaf m1 m3 a1 cr3 va 3 t); (done || lia)).
  exists m3, ar1, a1. split; [exact Hrun3|]. split.
  { eapply usable_write; [exact I1|exact U1|]. intros x Hx. apply F3. intros Hw. by apply Hx, (word_in_page t va 12). }
  split; [eapply (aspace_leaf m1 m3 a1 cr3 va 3 t); (done || lia)|].
  split; [eapply grows_trans; [exact G1|]; eapply (grows_leaf m1 m3 a1 cr3 va 3 t); (done || lia)|].
  rewrite Ht by (done || lia). split; [by rewrite T1|].
  split; [rewrite (leaf_of m3 cr3 va t); [done|]; by rewrite Ht by (done || lia)|]. split; [|done].
  intros vb Hb Hne. rewrite <- L1 by done. eapply (leaf_other m1 m3 a1 cr3 va 3 t); (done || lia).
Qed.

(** The tables of a mapped page are a chain. *)
Lemma aspace_chain m a cr3 va t :
  aspace m a cr3 -> user_va va -> tab m cr3 va 3 = Some t -> chain a m va [39; 30; 21] cr3 t.
Proof.
  intros S Hva T3. pose proof S as [Hu He Hi].
  assert (forall l u, tab m cr3 va l = Some u -> (l < 3)%nat -> u <> t) as Hne
    by (intros l u Hl Hlt ->; destruct (Hi va va l 3%nat t); (done || lia)).
  assert (forall l, (l < 3)%nat -> exists u, tab m cr3 va l = Some u /\ usable a u /\ u <> t /\
    table_entry (entry m u va (lbits l)) /\ tab m cr3 va (Datatypes.S l) = Some (entry_addr 12 (entry m u va (lbits l)))) as Hs.
  { intros l Hl. destruct (tab m cr3 va l) as [u|] eqn:E; [|by rewrite (tab_stop m cr3 va l 3) in T3 by (done || lia)].
    exists u. rewrite (tab_step _ _ _ _ u E).
    destruct (has (entry m u va (lbits l)) PDE64_PRESENT) eqn:Ep.
    - split; [done|]. split; [by apply (Hu va l); [|lia|]|]. split; [by apply (Hne l)|]. split; [by apply (He va l)|done].
    - rewrite (tab_stop m cr3 va (Datatypes.S l) 3) in T3; [done| |lia]. by rewrite (tab_step _ _ _ _ u E), Ep. }
  destruct (Hs 0%nat ltac:(lia)) as (u0 & [= <-] & U0 & N0 & E0 & Q1).
  destruct (Hs 1%nat ltac:(lia)) as (u1 & Q1' & U1 & N1 & E1 & Q2). rewrite Q1 in Q1'. injection Q1' as <-.
  destruct (Hs 2%nat ltac:(lia)) as (u2 & Q2' & U2 & N2 & E2 & Q3). rewrite Q2 in Q2'. injection Q2' as <-.
  rewrite T3 in Q3. injection Q3 as ->. simpl. do 9 (split; [done|]). split; [|done].
  by apply (Hu va 3%nat); [|lia|].
Qed.

(** [modify_permission] gives a mapped page new permissions and leaves the others alone. *)
Lemma modify_permission_space cr3 va p q prot m ar a :
  hinv (Heap m ar) a -> aspace m a cr3 -> user_va va ->
  leaf m cr3 va = p + Z.lor 1 (prot_bits q) -> 0 <= p < 2 ^ 39 -> p mod 4096 = 0 ->
  exists m', modify_permission cr3 va prot (Heap m ar) = Ok 0 (Heap m' ar) /\
    hinv (Heap m' ar) a /\ aspace m' a cr3 /\ grows m a m' a cr3 /\
    leaf m' cr3 va = p + Z.lor 1 (prot_bits prot) /\
    (forall vb, user_va vb -> va / 4096 <> vb / 4096 -> leaf m' cr3 vb = leaf m cr3 vb).
Proof.
  intros I S Hva Hl Hp1 Hp2. pose proof I as [_ Wf]. pose proof Hva as [_ Hv].
  destruct (prot_bits_cases q) as (B & B2 & _). unfold leaf in Hl. destruct (tab m cr3 va 3) as [t|] eqn:T.
  2:{ by replace (Z.lor 1 (prot_bits q)) with 0 in B2 by lia. }
  destruct (modify_permission_entry cr3 va p q prot m ar a t) as (m' & Hrun & I' & E' & F'); try done.
  { by apply aspace_chain. }
  assert (forall x, ~ own a x -> ~ rng (t + 8 * tbl_index va (lbits 3)) 8 x -> m' x = m x) as Hc
    by (intros x _; apply F').
  exists m'. split; [done|]. split; [done|].
  split; [eapply (aspace_leaf m m' a cr3 va 3 t); (done || lia)|].
  split; [eapply (grows_leaf m m' a cr3 va 3 t); (done || lia)|]. split.
  - rewrite (leaf_of m' cr3 va t); [done|]. rewrite <- T. eapply (tab_leaf m m' a cr3 va 3 t); (done || lia).
  - intros vb Hb Hne. eapply (leaf_other m m' a cr3 va 3 t); (done || lia).
Qed.

(** ** Allocation *)

(** Memory in which the entries of user addresses are the same. *)
Lemma aspace_same m a m' a' cr3 :
  aspace m a cr3 -> (forall x, user_entry m cr3 x -> m' x = m x) -> (forall u, usable a u -> usable a' u) ->
  aspace m' a' cr3 /\
  (forall va l, user_va va -> (l <= 3)%nat -> tab m' cr3 va l = tab m cr3 va l) /\
  (forall va, user_va va -> leaf m' cr3 va = leaf m cr3 va).
Proof.
  intros [Su Se Si] Hm Hu.
  assert (forall va l t, user_va va -> (l <= 3)%nat -> tab m cr3 va l = Some t ->
    entry m' t va (lbits l) = entry m t va (lbits l)) as Hent.
  { intros va l t Hva Hl Ht. apply ld_ext. intros x Hx. apply Hm. by exists va, l, t. }
  assert (forall va l, user_va va -> (l <= 3)%nat -> tab m' cr3 va l = tab m cr3 va l) as Ht.
  { intros va l Hva. induction l as [|l IH]; intros Hl; [done|]. simpl. rewrite IH by lia.
    destruct (tab m cr3 va l) as [t|] eqn:E; [|done]. by rewrite (Hent va l t) by (done || lia). }
  split; [split|split; [done|]].
  - intros va l t Hva Hl. rewrite Ht by done. eauto.
  - intros va l t Hva Hl. rewrite Ht by (done || lia). intros Htab.
    rewrite (Hent va l t) by (done || lia). by apply Se.
  - intros va vb l l' t H1 H2 L1 L2. rewrite !Ht by done. by apply Si.
  - intros va Hva. unfold leaf. rewrite Ht by (done || lia).
    destruct (tab m cr3 va 3) as [t|] eqn:E; [|done]. apply (Hent va 3%nat); (done || lia).
Qed.

Lemma user_entry_page m a cr3 x :
  aspace m a cr3 -> user_entry m cr3 x -> exists t, usable a t /\ rng t 4096 x.
Proof.
  intros [Su _ _] (va & l & t & Hva & Hl & Ht & Hx). exists t. split; [by apply (Su va l)|].
  by apply (word_in_page t va (lbits l)).
Qed.

(** An allocation writes to no table. *)
Lemma aspace_alloc m a m' a' cr3 :
  wf a -> aspace m a cr3 -> (forall x, ~ own a x -> m' x = m x) ->
  (forall u, usable a u -> usable a' u) -> a_end a' = a_end a -> allocs a a' ->
  aspace m' a' cr3 /\ grows m a m' a' cr3 /\
  (forall va, user_va va -> leaf m' cr3 va = leaf m cr3 va) /\
  (forall x, user_entry m' cr3 x -> ~ own a x).
Proof.
  intros Wf S Hf Hu He Ho.
  assert (forall x, user_entry m cr3 x -> ~ own a x) as Hn.
  { intros x (t & Ut & Hx)%(user_entry_page m a cr3 x S). by apply (usable_not_own a t x). }
  destruct (aspace_same m a m' a' cr3 S) as (S' & Ht & Hl); [auto|done|].
  assert (forall x, user_entry m' cr3 x -> user_entry m cr3 x) as Hue.
  { intros x (va & l & t & Hva & Hlv & Htab & Hx). rewrite Ht in Htab by done. by exists va, l, t. }
  split; [done|]. split; [|split; [done|auto]]. split; auto.
  intros va l t Hva Hlv. by rewrite Ht.
Qed.
