(* ===== verification/Hypercall.v ===== *)
(** * The hypervisor's hypercall handlers (hypervisor/hypercall.c)

    A hypercall is an [out] to a port followed by an [in] from it; each is an exit
    to the hypervisor with [io.direction] set.  The handler does the work on the
    [out] and keeps the result in a static variable until the [in] fetches it.
    The operating system the handlers call is a parameter. *)

From S2P Require Import Prelude Memory Arch KString.

Inductive direction := IO_OUT | IO_IN.

Record fd_handle := FdHandle { real_fd : Z; opening : Z }.

(** The system calls the handlers make.  Each returns the new state of the system
    and its result: an error number, or the value returned. *)
Record host_os (W : Type) := HostOs {
  os_open : W -> list Z -> W * (Z + Z);             (* file name *)
  os_read : W -> Z -> Z -> W * (Z + list Z);        (* fd, count; the bytes read *)
  os_write : W -> Z -> list Z -> W * (Z + Z);       (* fd, bytes *)
  os_close : W -> Z -> W * (Z + Z);
  os_lseek : W -> Z -> Z -> Z -> W * (Z + Z)        (* fd, offset, whence *)
}.
Arguments os_open {W}. Arguments os_read {W}. Arguments os_write {W}.
Arguments os_close {W}. Arguments os_lseek {W}.

(** The registers of the virtual CPU that the hypervisor touches. *)
Record kvm_regs := Regs { rip : Z; rsp : Z; rdi : Z; rsi : Z; rflags : Z }.
Record kvm_segment := Segment {
  seg_base : Z; seg_limit : Z; seg_selector : Z; seg_present : Z; seg_type : Z; seg_dpl : Z;
  seg_db : Z; seg_s : Z; seg_l : Z; seg_g : Z
}.
Record kvm_sregs := Sregs {
  sr_cs : kvm_segment; sr_ds : kvm_segment; sr_es : kvm_segment; sr_fs : kvm_segment;
  sr_gs : kvm_segment; sr_ss : kvm_segment; sr_cr0 : Z; sr_cr3 : Z; sr_cr4 : Z; sr_efer : Z
}.
Record vcpu := Vcpu { v_regs : kvm_regs; v_sregs : kvm_sregs }.

(** The hypervisor's process: the guest's memory, the file table, the static
    variables, the word exchanged with the guest, the virtual CPU, [errno], and the system behind the parameter. *)
Record vm (W : Type) := Vm {
  guest : mem;
  fd_map : list fd_handle;
  fd_map_init : Z;
  ret_open : Z;
  ret_rw : Z;
  ret_close : Z;
  ret_lseek : Z;
  io_data : Z;
  cpu : vcpu;
  errno : Z;
  host : W
}.
Arguments Vm {W}. Arguments guest {W}. Arguments fd_map {W}. Arguments fd_map_init {W}.
Arguments ret_open {W}. Arguments ret_rw {W}. Arguments ret_close {W}. Arguments ret_lseek {W}.
Arguments io_data {W}. Arguments cpu {W}. Arguments errno {W}.
Arguments host {W}.

Definition MAX_FD : Z := 255.
Definition UNUSED_VAR : Z := 0xdeadffff.
Definition mem_size : Z := MEM_SIZE. (* vm->mem_size, set once by kvm_init *)

Definition HP_NR_MARK : Z := 0x8000.
Definition NR_HP_open : Z := Z.lor HP_NR_MARK 0.
Definition NR_HP_read : Z := Z.lor HP_NR_MARK 1.
Definition NR_HP_write : Z := Z.lor HP_NR_MARK 2.
Definition NR_HP_close : Z := Z.lor HP_NR_MARK 3.
Definition NR_HP_lseek : Z := Z.lor HP_NR_MARK 4.
Definition NR_HP_exit : Z := Z.lor HP_NR_MARK 5.
Definition NR_HP_panic : Z := Z.lor HP_NR_MARK 0x7fff.

Section Handlers.
Context {W : Type} (os : host_os W).
Implicit Types v : vm W.

(** ** Setters *)

Definition set_guest (m : mem) (v : vm W) : vm W :=
  Vm m (fd_map v) (fd_map_init v) (ret_open v) (ret_rw v) (ret_close v) (ret_lseek v)
     (io_data v) (cpu v) (errno v) (host v).
Definition set_fds (l : list fd_handle) (i : Z) (v : vm W) : vm W :=
  Vm (guest v) l i (ret_open v) (ret_rw v) (ret_close v) (ret_lseek v)
     (io_data v) (cpu v) (errno v) (host v).
Definition set_data (d : Z) (v : vm W) : vm W :=
  Vm (guest v) (fd_map v) (fd_map_init v) (ret_open v) (ret_rw v) (ret_close v) (ret_lseek v)
     d (cpu v) (errno v) (host v).
Definition set_cpu (c : vcpu) (v : vm W) : vm W :=
  Vm (guest v) (fd_map v) (fd_map_init v) (ret_open v) (ret_rw v) (ret_close v) (ret_lseek v)
     (io_data v) c (errno v) (host v).
Definition set_host (e : Z) (w : W) (v : vm W) : vm W :=
  Vm (guest v) (fd_map v) (fd_map_init v) (ret_open v) (ret_rw v) (ret_close v) (ret_lseek v)
     (io_data v) (cpu v) e w.

(** The four static variables [ret]. *)
Inductive static := SOpen | SRw | SClose | SLseek.
Definition get_ret (s : static) (v : vm W) : Z :=
  match s with SOpen => ret_open v | SRw => ret_rw v | SClose => ret_close v | SLseek => ret_lseek v end.
Definition set_ret (s : static) (r : Z) (v : vm W) : vm W :=
  match s with
  | SOpen => Vm (guest v) (fd_map v) (fd_map_init v) r (ret_rw v) (ret_close v) (ret_lseek v)
                (io_data v) (cpu v) (errno v) (host v)
  | SRw => Vm (guest v) (fd_map v) (fd_map_init v) (ret_open v) r (ret_close v) (ret_lseek v)
                (io_data v) (cpu v) (errno v) (host v)
  | SClose => Vm (guest v) (fd_map v) (fd_map_init v) (ret_open v) (ret_rw v) r (ret_lseek v)
                (io_data v) (cpu v) (errno v) (host v)
  | SLseek => Vm (guest v) (fd_map v) (fd_map_init v) (ret_open v) (ret_rw v) (ret_close v) r
                (io_data v) (cpu v) (errno v) (host v)
  end.

(** ** The file table *)

Definition fd_at (l : list fd_handle) (i : Z) : fd_handle := default (FdHandle 0 0) (l !! Z.to_nat i).
Definition fd_put (l : list fd_handle) (i : Z) (h : fd_handle) : list fd_handle :=
  <[Z.to_nat i := h]> l.

(** [MAY_INIT_FD_MAP]: three standard descriptors, the others closed. *)
Definition init_fds (l : list fd_handle) : list fd_handle :=
  FdHandle 0 1 :: FdHandle 1 1 :: FdHandle 2 1 :: map (fun h => FdHandle (real_fd h) 0) (drop 3 l).
Definition MAY_INIT_FD_MAP : cmd (vm W) unit :=
  modify (fun v => if fd_map_init v =? 0 then set_fds (init_fds (fd_map v)) 1 v else v).

(** The loop that looks for the first closed descriptor; [MAX_FD + 1] if none. *)
Fixpoint first_free (l : list fd_handle) (i : Z) : Z :=
  match l with
  | [] => i
  | h :: l' => if opening h =? 0 then i else first_free l' (i + 1)
  end.

Definition BADFD (l : list fd_handle) (fd : Z) : bool :=
  (fd <? 0) || (MAX_FD <? fd) || (opening (fd_at l fd) =? 0).

(** ** Guest memory *)

(** [MEM_AT(offset)]: the assertion, then the address; loads past the end of the
    mapping are faults of the hypervisor. *)
Definition MEM_AT (off : Z) : cmd (vm W) Z :=
  if (0 <=? off) && (off <? mem_size) then mret off else halt AssertFail.
Definition host_byte (off : Z) : cmd (vm W) Z := fun v =>
  if (0 <=? off) && (off <? mem_size) then Ok (u8 (guest v off)) v else Halt (Fault off).
Definition host_ld (n : nat) (off : Z) : cmd (vm W) Z := fun v =>
  if (0 <=? off) && (off + Z.of_nat n <=? mem_size) then Ok (ld n (guest v) off) v
  else Halt (Fault off).
(** The bytes of a range, and overwriting a range. *)
Definition mem_bytes (m : mem) (a n : Z) : list Z := map (fun i => u8 (m i)) (seqZ a n).
Definition put_bytes (m : mem) (a : Z) (l : list Z) : mem := fun x =>
  if (a <=? x) && (x <? a + Z.of_nat (length l)) then u8 (default 0 (l !! Z.to_nat (x - a))) else m x.

(** ** [PROCESS] and [THEN_RETURN] *)

Definition THEN_RETURN (s : static) : cmd (vm W) Z := fun v =>
  if u32 (get_ret s v) =? UNUSED_VAR then Ok (-1) v
  else Ok 0 (set_ret s (s32 UNUSED_VAR) (set_data (u32 (get_ret s v)) v)).

Definition process (s : static) (d : direction) (work : cmd (vm W) Z) : cmd (vm W) Z :=
  match d with
  | IO_OUT => r ← work; modify (set_ret s (s32 r)) ;; mret 0
  | IO_IN => THEN_RETURN s
  end.

(** The return of a system call: on failure -1 and [errno] set; a success leaves
    [errno] alone. *)
Definition sys_return {A} (w : W) (r : Z + A) (value : A -> cmd (vm W) Z) : cmd (vm W) Z :=
  match r with
  | inl e => modify (set_host e w) ;; mret (-1)
  | inr a => modify (fun v => set_host (errno v) w v) ;; value a
  end.

(** [PROCESS_ON_FD(work)]: [ret] is an [int]. *)
Definition PROCESS_ON_FD (fd : Z) (work : fd_handle -> cmd (vm W) Z) : cmd (vm W) Z :=
  MAY_INIT_FD_MAP ;;
  v ← get;
  if BADFD (fd_map v) fd then mret (- EBADF)
  else
    r ← work (fd_at (fd_map v) fd);
    v ← get;
    mret (if s32 r <? 0 then - errno v else s32 r).

(** ** The handlers *)

Definition hp_handle_open (d : direction) : cmd (vm W) Z :=
  process SOpen d (
    v ← get;
    let offset := u32 (io_data v) in
    filename ← MEM_AT offset;
    len ← strlen host_byte filename;
    MEM_AT (u32 (offset + len)) ;;
    MAY_INIT_FD_MAP ;;
    v ← get;
    let min_fd := first_free (fd_map v) 0 in
    if MAX_FD <? min_fd then mret (- ENFILE)
    else
      let '(w, r) := os_open os (host v) (mem_bytes (guest v) filename len) in
      fd ← sys_return w r mret;
      if fd <? 0 then (v ← get; mret (- errno v))
      else
        modify (fun v => set_fds (fd_put (fd_map v) min_fd (FdHandle fd 1)) (fd_map_init v) v) ;;
        mret min_fd).

(** The system call [handle_rw] is given. *)
Inductive rw := RwRead | RwWrite.
Definition do_rw (k : rw) (paddr nbytes : Z) (h : fd_handle) : cmd (vm W) Z :=
  p ← MEM_AT paddr;
  v ← get;
  match k with
  | RwRead =>
      let '(w, r) := os_read os (host v) (real_fd h) nbytes in
      sys_return w r (fun bytes =>
        modify (fun v => set_guest (put_bytes (guest v) p bytes) v) ;;
        mret (Z.of_nat (length bytes)))
  | RwWrite =>
      let '(w, r) := os_write os (host v) (real_fd h) (mem_bytes (guest v) p nbytes) in
      sys_return w r mret
  end.

Definition handle_rw (k : rw) (d : direction) : cmd (vm W) Z :=
  process SRw d (
    v ← get;
    let offset := u32 (io_data v) in
    kbuf ← MEM_AT offset;
    k0 ← host_ld 8 kbuf;
    paddr ← host_ld 8 (kbuf + 8);
    nbytes ← host_ld 8 (kbuf + 16);
    let fd := s32 k0 in
    if negb ((paddr <=? u64 (paddr + nbytes)) && (u64 (paddr + nbytes) <=? mem_size))
    then mret (- EACCES)
    else PROCESS_ON_FD fd (do_rw k paddr nbytes)).

Definition hp_handle_read := handle_rw RwRead.
Definition hp_handle_write := handle_rw RwWrite.

Definition do_close (fd : Z) (h : fd_handle) : cmd (vm W) Z :=
  modify (fun v => set_fds (fd_put (fd_map v) fd (FdHandle (real_fd h) 0)) (fd_map_init v) v) ;;
  v ← get;
  let '(w, r) := os_close os (host v) (real_fd h) in
  sys_return w r mret.

Definition hp_handle_close (d : direction) : cmd (vm W) Z :=
  process SClose d (
    v ← get;
    let fd := s32 (io_data v) in
    PROCESS_ON_FD fd (do_close fd)).

Definition hp_handle_lseek (d : direction) : cmd (vm W) Z :=
  process SLseek d (
    v ← get;
    let offset := u32 (io_data v) in
    kbuf ← MEM_AT offset;
    k0 ← host_ld 4 kbuf;
    off ← host_ld 4 (kbuf + 4);
    whence ← host_ld 4 (kbuf + 8);
    PROCESS_ON_FD (s32 k0) (fun h =>
      v ← get;
      let '(w, r) := os_lseek os (host v) (real_fd h) off (s32 whence) in
      sys_return w r mret)).

(** [hp_handle_exit] prints the status and exits with 0 whatever the direction. *)
Definition hp_handle_exit : cmd (vm W) Z := halt (ExitProc 0).
Definition hp_handle_panic : cmd (vm W) Z :=
  v ← get; MEM_AT (u32 (io_data v)) ;; halt (ExitProc 1).

Definition hp_handler (nr : Z) (d : direction) : cmd (vm W) Z :=
  if nr =? NR_HP_open then hp_handle_open d
  else if nr =? NR_HP_read then hp_handle_read d
  else if nr =? NR_HP_write then hp_handle_write d
  else if nr =? NR_HP_close then hp_handle_close d
  else if nr =? NR_HP_lseek then hp_handle_lseek d
  else if nr =? NR_HP_exit then hp_handle_exit
  else if nr =? NR_HP_panic then hp_handle_panic
  else mret (- ENOSYS).

End Handlers.
