(* ===== verification/Hypervisor.v ===== *)
(** * The hypervisor (hypervisor/hypervisor.c)

    Setting up the virtual machine, copying the arguments onto the guest's stack
    and serving its exits.  Calls to KVM that read or write registers act on the
    virtual CPU of the state; [fails] says which of them the system refuses. *)

From S2P Require Import Prelude Memory Arch KString Hypercall.

Inductive ioctl :=
| KVM_OPEN (* open("/dev/kvm") *)
| KVM_GET_API_VERSION | KVM_CREATE_VM | KVM_SET_USER_MEMORY_REGION | KVM_CREATE_VCPU
| KVM_GET_REGS | KVM_SET_REGS | KVM_GET_SREGS | KVM_SET_SREGS.
Definition KVM_API_VERSION : Z := 12.

(** Control register bits of definition.h. *)
Definition CR0_PE : Z := 1.
Definition CR0_MP : Z := Z.shiftl 1 1.
Definition CR0_ET : Z := Z.shiftl 1 4.
Definition CR0_NE : Z := Z.shiftl 1 5.
Definition CR0_WP : Z := Z.shiftl 1 16.
Definition CR0_AM : Z := Z.shiftl 1 18.
Definition CR0_PG : Z := Z.shiftl 1 31.
Definition CR4_PAE : Z := Z.shiftl 1 5.
Definition CR4_OSFXSR : Z := Z.shiftl 1 9.
Definition CR4_OSXMMEXCPT : Z := Z.shiftl 1 10.
Definition EFER_SCE : Z := 1.
Definition EFER_LME : Z := Z.shiftl 1 8.
Definition EFER_LMA : Z := Z.shiftl 1 10.

Section Hypervisor.
Context {W : Type} (os : host_os W) (fails : ioctl -> bool).

(** [pexit] and [error]. *)
Definition pexit {A} : cmd (vm W) A := halt (ExitProc 1).

Definition get_regs : cmd (vm W) kvm_regs :=
  if fails KVM_GET_REGS then pexit else v ← get; mret (v_regs (cpu v)).
Definition set_regs (r : kvm_regs) : cmd (vm W) unit :=
  if fails KVM_SET_REGS then pexit
  else modify (fun v => set_cpu (Vcpu r (v_sregs (cpu v))) v).
Definition get_sregs : cmd (vm W) kvm_sregs :=
  if fails KVM_GET_SREGS then pexit else v ← get; mret (v_sregs (cpu v)).
Definition set_sregs (s : kvm_sregs) : cmd (vm W) unit :=
  if fails KVM_SET_SREGS then pexit
  else modify (fun v => set_cpu (Vcpu (v_regs (cpu v)) s) v).

Definition setup_regs (entry : Z) : cmd (vm W) unit :=
  get_regs ;;
  let rdi := PS_LIMIT in
  set_regs (Regs entry PS_LIMIT rdi (MEM_SIZE - rdi) 0x2).

(** A 64-bit store into guest memory through the hypervisor's mapping. *)
Definition guest_st64 (off x : Z) : cmd (vm W) unit :=
  modify (fun v => set_guest (st64 (guest v) off x) v).

Definition setup_paging : cmd (vm W) unit :=
  sregs ← get_sregs;
  let pml4_addr := MAX_KERNEL_SIZE in
  let pdp_addr := pml4_addr + 0x1000 in
  let pd_addr := pdp_addr + 0x1000 in
  guest_st64 pml4_addr (Z.lor (Z.lor (Z.lor PDE64_PRESENT PDE64_RW) PDE64_USER) pdp_addr) ;;
  guest_st64 pdp_addr (Z.lor (Z.lor (Z.lor PDE64_PRESENT PDE64_RW) PDE64_USER) pd_addr) ;;
  guest_st64 pd_addr (Z.lor (Z.lor PDE64_PRESENT PDE64_RW) PDE64_PS) ;;
  let cr4 := Z.lor CR4_PAE (Z.lor CR4_OSFXSR CR4_OSXMMEXCPT) in
  let cr0 := Z.lor (Z.lor (Z.lor (Z.lor (Z.lor (Z.lor CR0_PE CR0_MP) CR0_ET) CR0_NE) CR0_WP) CR0_AM) CR0_PG in
  let efer := Z.lor (Z.lor EFER_LME EFER_LMA) EFER_SCE in
  set_sregs (Sregs (sr_cs sregs) (sr_ds sregs) (sr_es sregs) (sr_fs sregs) (sr_gs sregs)
                   (sr_ss sregs) cr0 pml4_addr cr4 efer).

Definition setup_seg_regs : cmd (vm W) unit :=
  sregs ← get_sregs;
  let seg ty sel := Segment 0 0xffffffff sel 1 ty 0 0 1 1 1 in
  let code := seg 0xb (Z.shiftl 1 3) in
  let data := seg 0x3 (Z.shiftl 2 3) in
  set_sregs (Sregs code data data data data data (sr_cr0 sregs) (sr_cr3 sregs) (sr_cr4 sregs)
                   (sr_efer sregs)).

Definition setup_long_mode : cmd (vm W) unit := setup_paging ;; setup_seg_regs.

(** A call to KVM whose result the guest does not see. *)
Definition kvm_call (i : ioctl) : cmd (vm W) unit := if fails i then pexit else mret tt.

(** [kvm_init]: [api_ver] is the version KVM reports.  The memory comes from an
    anonymous [mmap], hence zeroed; the two [mmap]s are taken to succeed. *)
Definition kvm_init (api_ver : Z) (code : list Z) : cmd (vm W) unit :=
  kvm_call KVM_OPEN ;;
  kvm_call KVM_GET_API_VERSION ;;
  if negb (api_ver =? KVM_API_VERSION) then pexit
  else
    kvm_call KVM_CREATE_VM ;;
    let entry := 0 in
    modify (fun v => set_guest (put_bytes (fun _ => 0) entry code) v) ;;
    kvm_call KVM_SET_USER_MEMORY_REGION ;;
    kvm_call KVM_CREATE_VCPU ;;
    setup_regs entry ;;
    setup_long_mode.

(** Port I/O is allowed when the privilege level is at most the IOPL. *)
Definition check_iopl : cmd (vm W) bool :=
  regs ← get_regs;
  sregs ← get_sregs;
  mret (seg_dpl (sr_cs sregs) <=? Z.land (Z.shiftr (rflags regs) 12) 3).

(** Why [KVM_RUN] returned. *)
Inductive exit_reason :=
| KVM_EXIT_HLT
| KVM_EXIT_IO (port : Z) (d : direction)
| KVM_EXIT_FAIL_ENTRY
| KVM_EXIT_INTERNAL_ERROR
| KVM_EXIT_SHUTDOWN
| KVM_EXIT_OTHER (r : Z).

(** One turn of the loop of [execute] after [KVM_RUN]; [true] leaves the loop. *)
Definition serve (r : exit_reason) : cmd (vm W) bool :=
  match r with
  | KVM_EXIT_HLT => mret true
  | KVM_EXIT_IO port d =>
      ok ← check_iopl;
      if negb ok then pexit
      else if has port HP_NR_MARK then
        r ← hp_handler os port d;
        if r <? 0 then pexit else mret false
      else pexit
  | _ => pexit
  end.

(** [execute]: [kvm_run] is the processor running the guest until the next exit. *)
Definition execute (kvm_run : vm W -> vm W * exit_reason) : cmd (vm W) unit :=
  mloop (fun _ : unit =>
    v ← (get : cmd (vm W) (vm W));
    let '(v', r) := kvm_run v in
    put v' ;;
    leave ← serve r;
    mret (if leave : bool then inr tt else inl tt)) tt.

(** ** [copy_argv]

    [mem_base] is the host address of the guest's memory; the stack pointer is
    kept relative to it. *)
Context (mem_base : Z).

(** The strings, last one first; [copy] receives their guest addresses. *)
Fixpoint push_strings (argv : list (list Z)) (sp : Z) (m : mem) : list Z * Z * mem :=
  match argv with
  | [] => ([], sp, m)
  | s :: rest =>
      let '(copy, sp1, m1) := push_strings rest sp m in
      let len := Z.of_nat (length s) + 1 in
      let sp2 := sp1 - len in
      (sp2 :: copy, sp2, put_bytes m1 sp2 (s ++ [0]))
  end.

(** The words of a vector, last one first. *)
Fixpoint push_words (ws : list Z) (sp : Z) (m : mem) : Z * mem :=
  match ws with
  | [] => (sp, m)
  | w :: rest =>
      let '(sp1, m1) := push_words rest sp m in
      (sp1 - 8, st64 m1 (sp1 - 8) (u64 w))
  end.

Definition copy_argv (argv : list (list Z)) : cmd (vm W) unit :=
  regs ← get_regs;
  v ← get;
  let '(copy, sp1, m1) := push_strings argv (rsp regs) (guest v) in
  let sp2 := Z.land (mem_base + sp1) (u64 (-0x10)) - mem_base in
  let '(sp3, m3) := push_words (copy ++ [0]) sp2 m1 in
  let sp4 := sp3 - 8 in
  put (set_guest (st64 m3 sp4 (Z.of_nat (length argv))) v) ;;
  set_regs (Regs (rip regs) sp4 (rdi regs) (rsi regs) (rflags regs)).

(** [read_file]: [files] gives the content of the files that can be opened; seeking
    in, allocating for and reading an opened file are taken to succeed. *)
Definition read_file (files : list Z -> option (list Z)) (filename : list Z) : cmd (vm W) (list Z) :=
  match files filename with
  | None => pexit
  | Some content => if Z.of_nat (length content) =? 0 then pexit else mret content
  end.

(** [main]: [argv] are the program's arguments, without its name. *)
Definition main (api_ver : Z) (files : list Z -> option (list Z)) (kvm_run : vm W -> vm W * exit_reason)
    (argv : list (list Z)) : cmd (vm W) unit :=
  match argv with
  | kernel :: user_args =>
      match user_args with
      | [] => pexit
      | _ =>
          code ← read_file files kernel;
          if MAX_KERNEL_SIZE <? Z.of_nat (length code) then pexit
          else
            kvm_init api_ver code ;;
            copy_argv user_args ;;
            execute kvm_run
      end
  | [] => pexit
  end.

End Hypervisor.
