(* ===== verification/HypercallProof.v ===== *)
(** * The hypercall handlers are correct

    The two-step protocol returns the result of the [out] to the [in]; reads and
    writes stay inside guest memory; the file table hands out the least closed
    descriptor and refuses closed ones. *)

From S2P Require Import Prelude Memory Arch KString Hypercall Hypervisor.

(** ** The file table *)

(** The abstract table: which guest descriptors are open, and the system
    descriptor behind each. *)
Definition fd_abs (l : list fd_handle) (fd : Z) : option Z :=
  if BADFD l fd then None else Some (real_fd (fd_at l fd)).

Definition table_ok (l : list fd_handle) : Prop := Z.of_nat (length l) = MAX_FD + 1.

Lemma fd_at_put l i j h :
  0 <= i < Z.of_nat (length l) -> 0 <= j ->
  fd_at (fd_put l i h) j = if j =? i then h else fd_at l j.
Proof.
  intros Hi Hj. unfold fd_at, fd_put. destruct (Z.eqb_spec j i) as [->|Hne].
  - by rewrite list_lookup_insert_eq by lia.
  - by rewrite list_lookup_insert_ne by lia.
Qed.

Lemma fd_abs_put l i h fd :
  table_ok l -> 0 <= i <= MAX_FD ->
  fd_abs (fd_put l i h) fd =
    if fd =? i then (if opening h =? 0 then None else Some (real_fd h)) else fd_abs l fd.
Proof.
  intros Hl Hi. unfold fd_abs, BADFD, table_ok in *.
  destruct (Z.ltb_spec fd 0); [by rewrite (proj2 (Z.eqb_neq fd i)) by lia|].
  destruct (Z.ltb_spec MAX_FD fd); [by rewrite (proj2 (Z.eqb_neq fd i)) by lia|].
  rewrite fd_at_put by lia. simpl. by destruct (fd =? i).
Qed.

Lemma table_ok_put l i h : table_ok l -> table_ok (fd_put l i h).
Proof. unfold table_ok, fd_put. by rewrite length_insert. Qed.

Lemma table_ok_init l : table_ok l -> table_ok (init_fds l).
Proof.
  unfold table_ok, init_fds, MAX_FD. intros H. simpl. rewrite length_map, length_drop. lia.
Qed.

Lemma init_fds_abs l fd :
  table_ok l -> fd_abs (init_fds l) fd = if (0 <=? fd) && (fd <=? 2) then Some fd else None.
Proof.
  intros Hl. unfold fd_abs, BADFD, MAX_FD.
  destruct (Z.ltb_spec fd 0); [by rewrite (proj2 (Z.leb_gt 0 fd)) by lia|].
  destruct (Z.ltb_spec 255 fd); [by rewrite (proj2 (Z.leb_gt fd 2)), andb_false_r by lia|].
  rewrite (proj2 (Z.leb_le 0 fd)) by lia. simpl.
  destruct (Z.leb_spec fd 2).
  - assert (fd = 0 \/ fd = 1 \/ fd = 2) as [-> |[-> | ->]] by lia; done.
  - unfold fd_at, init_fds.
    replace (Z.to_nat fd) with (S (S (S (Z.to_nat (fd - 3))))) by lia. simpl.
    rewrite list_lookup_fmap. by destruct (drop 3 l !! Z.to_nat (fd - 3)).
Qed.

(** [first_free] finds the least closed descriptor. *)
Lemma first_free_spec l : forall i,
  i <= first_free l i <= i + Z.of_nat (length l) /\
  (forall j, i <= j < first_free l i -> opening (fd_at l (j - i)) <> 0) /\
  (first_free l i < i + Z.of_nat (length l) -> opening (fd_at l (first_free l i - i)) = 0).
Proof.
  induction l as [|h l IH]; intros i; simpl.
  - split; [lia|]. split; [lia|]. intros. lia.
  - destruct (Z.eqb_spec (opening h) 0) as [E|E].
    + split; [lia|]. split; [lia|]. intros _. by rewrite Z.sub_diag.
    + destruct (IH (i + 1)) as (H1 & H2 & H3). split; [lia|]. split.
      * intros j Hj. destruct (Z.eq_dec j i) as [->|Hne]; [by rewrite Z.sub_diag|].
        specialize (H2 j ltac:(lia)). unfold fd_at in *.
        by replace (Z.to_nat (j - i)) with (S (Z.to_nat (j - (i + 1)))) by lia.
      * intros Hlt. specialize (H3 ltac:(lia)). unfold fd_at in *.
        by replace (Z.to_nat (first_free l (i + 1) - i))
          with (S (Z.to_nat (first_free l (i + 1) - (i + 1)))) by lia.
Qed.

Section Proofs.
Context {W : Type} (os : host_os W).
Implicit Types v : vm W.

(** The table as the next handler sees it. *)
Definition cur_fds (v : vm W) : list fd_handle :=
  if fd_map_init v =? 0 then init_fds (fd_map v) else fd_map v.

Lemma may_init_run v :
  exists v1, MAY_INIT_FD_MAP v = Ok tt v1 /\ fd_map v1 = cur_fds v /\ fd_map_init v1 <> 0 /\
    guest v1 = guest v /\ host v1 = host v /\ io_data v1 = io_data v /\ errno v1 = errno v /\
    cpu v1 = cpu v.
Proof.
  unfold MAY_INIT_FD_MAP, modify, cur_fds. destruct (Z.eqb_spec (fd_map_init v) 0) as [E|E];
    eexists; (split; [reflexivity|]); simpl; auto 10.
Qed.

(** ** The protocol *)

Lemma get_set_ret s r v : get_ret s (set_ret s r v) = r.
Proof. by destruct s. Qed.

(** A result other than the marker [UNUSED_VAR] is delivered by the [in], and the
    static variable is armed again. *)
Lemma then_return_delivers s r v work :
  s32 r <> s32 UNUSED_VAR ->
  exists v', process s IO_IN work (set_ret s (s32 r) v) = Ok 0 v' /\
    s32 (io_data v') = s32 r /\ u32 (get_ret s v') = UNUSED_VAR /\
    guest v' = guest v /\ fd_map v' = fd_map v /\ host v' = host v /\
    fd_map_init v' = fd_map_init v /\ cpu v' = cpu v.
Proof.
  intros Hne. unfold process, THEN_RETURN. rewrite get_set_ret.
  destruct (Z.eqb_spec (u32 (s32 r)) UNUSED_VAR) as [E|E].
  - exfalso. apply Hne. by rewrite <- E, s32_u32, s32_s32.
  - eexists. split; [reflexivity|]. rewrite get_set_ret. split; [|by destruct s].
    replace (io_data (set_ret s (s32 UNUSED_VAR) (set_data (u32 (s32 r)) (set_ret s (s32 r) v))))
      with (u32 (s32 r)) by (by destruct s).
    by rewrite s32_u32, s32_s32.
Qed.

(** An [in] that no [out] preceded is refused. *)
Lemma then_return_unarmed s v work :
  u32 (get_ret s v) = UNUSED_VAR -> process s IO_IN work v = Ok (-1) v.
Proof. intros H. unfold process, THEN_RETURN. by rewrite H. Qed.

Lemma process_out_inv s (work : cmd (vm W) Z) v x v' :
  process s IO_OUT work v = Ok x v' ->
  exists r v1, work v = Ok r v1 /\ v' = set_ret s (s32 r) v1.
Proof.
  unfold process. intros H. apply bind_inv in H as (r & v1 & H & Hv). injection Hv as _ <-. eauto.
Qed.

(** ** Reads and writes *)

Lemma host_ld_inv n off v x v' : host_ld n off v = Ok x v' -> x = ld n (guest v) off /\ v' = v.
Proof. unfold host_ld. destruct (_ && _); [|done]. by intros [= <- <-]. Qed.

(** Documented behaviour of read(2): at most [count] bytes. *)
Definition read_bounded : Prop := forall w fd n w' bs,
  0 <= n -> os_read os w fd n = (w', inr bs) -> Z.of_nat (length bs) <= n.

Lemma put_bytes_outside m a l x : ~ rng a (Z.of_nat (length l)) x -> put_bytes m a l x = m x.
Proof.
  unfold put_bytes, rng. intros H.
  destruct (Z.leb_spec a x), (Z.ltb_spec x (a + Z.of_nat (length l))); simpl; try done; lia.
Qed.

(** The system call changes guest bytes of the requested range only. *)
Lemma do_rw_contained k paddr nbytes h v r v' :
  read_bounded -> 0 <= nbytes -> do_rw os k paddr nbytes h v = Ok r v' ->
  (forall x, ~ rng paddr nbytes x -> guest v' x = guest v x) /\
  fd_map v' = fd_map v /\ (k = RwWrite -> guest v' = guest v).
Proof.
  intros Hb Hn. unfold do_rw, MEM_AT, mbind, cmd_bind.
  destruct ((0 <=? paddr) && (paddr <? mem_size)) eqn:E; [|done]. simpl. destruct k.
  - destruct (os_read os (host v) (real_fd h) nbytes) as [w [e|bs]] eqn:Er;
      intros [= <- <-]; simpl; [done|].
    split; [|done]. intros x Hx. apply put_bytes_outside. intros Hr. apply Hx.
    apply Hb in Er; [|done]. unfold rng in *. lia.
  - destruct (os_write os (host v) (real_fd h) _) as [w [e|n]]; intros [= <- <-]; done.
Qed.

Lemma process_on_fd_run fd work v r v' :
  PROCESS_ON_FD fd work v = Ok r v' ->
  exists v1, fd_map v1 = cur_fds v /\ guest v1 = guest v /\ host v1 = host v /\
    ((fd_abs (cur_fds v) fd = None /\ r = - EBADF /\ v' = v1) \/
     (exists n, fd_abs (cur_fds v) fd <> None /\
        work (fd_at (cur_fds v) fd) v1 = Ok n v' /\
        r = if s32 n <? 0 then - errno v' else s32 n)).
Proof.
  intros H. unfold PROCESS_ON_FD in H.
  destruct (may_init_run v) as (v1 & Hi & Hm & _ & Hg & Hh & _).
  rewrite (bind_ok _ _ _ _ _ Hi), bind_get, Hm in H. exists v1.
  do 3 (split; [done|]). unfold fd_abs. destruct (BADFD (cur_fds v) fd).
  - left. injection H as <- <-. done.
  - right. unfold mbind, cmd_bind in H. destruct (work _ v1) as [n v2|]; [|done].
    injection H as <- <-. exists n. done.
Qed.

(** ** [open] *)

(** A terminated string of [len] bytes at [off] in guest memory. *)
Definition cstr (m : mem) (off len : Z) : Prop :=
  0 <= off /\ 0 <= len /\ off + len < mem_size /\
  (forall j, 0 <= j < len -> u8 (m (off + j)) <> 0) /\ u8 (m (off + len)) = 0.

Lemma host_strlen v off len :
  cstr (guest v) off len -> strlen host_byte off v = Ok len v.
Proof.
  intros (H1 & H2 & H3 & H4 & H5). unfold mem_size, MEM_SIZE, PS_LIMIT in H3.
  apply (strnlen_found host_byte v off (len + 1) (fun j => u8 (guest v (off + j)))); try done; try lia.
  split; [done|]. split; [lia|]. intros i Hi. unfold host_byte.
  by rewrite (proj2 (andb_true_iff _ _)) by (unfold mem_size, MEM_SIZE, PS_LIMIT; lia).
Qed.

(** What the [out] of an open does, by the state of the table and the system. *)
Definition open_result (v : vm W) (name : list Z) : Z * list fd_handle * W :=
  let l := cur_fds v in
  let fd := first_free l 0 in
  if MAX_FD <? fd then (- ENFILE, l, host v)
  else match os_open os (host v) name with
       | (w, inl e) => (- e, l, w)
       | (w, inr n) => if n <? 0 then (- errno v, l, w) else (fd, fd_put l fd (FdHandle n 1), w)
       end.

Definition open_work : cmd (vm W) Z :=
  v ← get;
  let offset := u32 (io_data v) in
  filename ← MEM_AT offset;
  len ← strlen host_byte filename;
  MEM_AT (u32 (offset + len)) ;;
  MAY_INIT_FD_MAP ;;
  v ← get;
  let min_fd := first_free (fd_map v) 0 in
  if MAX_FD <? min_fd then mret (- ENFILE)
  else
    let '(w, r) := os_open os (host v) (mem_bytes (guest v) filename len) in
    fd ← sys_return w r mret;
    if fd <? 0 then (v ← get; mret (- errno v))
    else
      modify (fun v => set_fds (fd_put (fd_map v) min_fd (FdHandle fd 1)) (fd_map_init v) v) ;;
      mret min_fd.

Lemma open_work_run v len :
  cstr (guest v) (u32 (io_data v)) len ->
  let res := open_result v (mem_bytes (guest v) (u32 (io_data v)) len) in
  exists v', open_work v = Ok res.1.1 v' /\ fd_map v' = res.1.2 /\ host v' = res.2 /\
    guest v' = guest v /\ fd_map_init v' <> 0 /\ cpu v' = cpu v.
Proof.
  intros Hs. pose proof Hs as (H1 & H2 & H3 & _). unfold open_work, MEM_AT.
  rewrite bind_get, (proj2 (andb_true_iff _ _)) by lia. rewrite bind_ret, (bind_ok _ _ _ _ _ (host_strlen v _ len Hs)).
  pose proof (u32_range (io_data v)). unfold mem_size, MEM_SIZE, PS_LIMIT in H3.
  rewrite (u32_small (_ + len)) by lia.
  rewrite (proj2 (andb_true_iff _ _)), bind_ret by (unfold mem_size, MEM_SIZE, PS_LIMIT; lia).
  destruct (may_init_run v) as (v1 & Hi & Hm & Hn & Hg & Hh & _ & He & Hc).
  rewrite (bind_ok _ _ _ _ _ Hi), bind_get, Hm, Hg, Hh.
  set (name := mem_bytes _ _ _). unfold open_result.
  destruct (MAX_FD <? first_free (cur_fds v) 0).
  - eexists. split; [reflexivity|]. simpl. by rewrite Hm, Hg, Hh.
  - destruct (os_open os (host v) name) as [w [e|n]]; unfold mbind, cmd_bind; simpl.
    + eexists. split; [reflexivity|]. simpl. by rewrite Hm, Hg.
    + destruct (n <? 0); eexists; (split; [simpl; rewrite ?He; reflexivity|]); simpl; by rewrite ?Hm, ?Hg.
Qed.

Lemma open_run v len :
  cstr (guest v) (u32 (io_data v)) len ->
  exists v', hp_handle_open os IO_OUT v = Ok 0 v' /\
    (s32 (open_result v (mem_bytes (guest v) (u32 (io_data v)) len)).1.1, fd_map v', host v') =
      (get_ret SOpen v', (open_result v (mem_bytes (guest v) (u32 (io_data v)) len)).1.2,
       (open_result v (mem_bytes (guest v) (u32 (io_data v)) len)).2) /\
    guest v' = guest v /\ fd_map_init v' <> 0.
Proof.
  intros Hs. destruct (open_work_run v len Hs) as (v1 & Hrun & Hm & Hh & Hg & Hi & _).
  change (hp_handle_open os IO_OUT) with (process SOpen IO_OUT open_work). unfold process.
  rewrite (bind_ok _ _ _ _ _ Hrun). eexists. split; [reflexivity|]. simpl. by rewrite Hm, Hh.
Qed.
End Proofs.

(** ** The properties *)

(** C11: The result computed on the [out] is what the following [in] hands to the guest,
    once: a further [in] is refused. *)
Theorem hypercall_protocol {W} (s : static) (work : cmd (vm W) Z) v r v1 :
  work v = Ok r v1 -> s32 r <> s32 UNUSED_VAR ->
  exists v2 v3, process s IO_OUT work v = Ok 0 v2 /\ process s IO_IN work v2 = Ok 0 v3 /\
    s32 (io_data v3) = s32 r /\ guest v3 = guest v1 /\ fd_map v3 = fd_map v1 /\
    host v3 = host v1 /\ process s IO_IN work v3 = Ok (-1) v3.
Proof.
  intros Hw Hr. exists (set_ret s (s32 r) v1).
  destruct (then_return_delivers s r v1 work Hr) as (v3 & H1 & H2 & H3 & H4 & H5 & H6 & _).
  exists v3. split; [unfold process; by rewrite (bind_ok _ _ _ _ _ Hw)|].
  do 5 (split; [done|]). by apply then_return_unarmed.
Qed.

(** The words of a read or write request at [off]. *)
Definition req_paddr {W} (v : vm W) : Z := ld64 (guest v) (u32 (io_data v) + 8).
Definition req_nbytes {W} (v : vm W) : Z := ld64 (guest v) (u32 (io_data v) + 16).

(** C7: Whatever the guest asks for, a read changes guest memory only inside the
    requested range, which lies in guest memory; a request outside it is answered
    with EACCES and touches neither memory, nor the file table, nor the system. *)
Theorem handle_rw_contained {W} (os : host_os W) k v v' :
  read_bounded os -> handle_rw os k IO_OUT v = Ok 0 v' ->
  (forall x, guest v' x <> guest v x ->
     k = RwRead /\ rng (req_paddr v) (req_nbytes v) x /\ 0 <= x < mem_size) /\
  (mem_size < req_paddr v + req_nbytes v ->
     get_ret SRw v' = - EACCES /\ guest v' = guest v /\ fd_map v' = fd_map v /\ host v' = host v).
Proof.
  intros Hb H. unfold handle_rw in H. apply process_out_inv in H as (r & v1 & H & ->).
  rewrite bind_get in H. unfold MEM_AT in H.
  destruct (_ && _) in H; [|done]. rewrite bind_ret in H.
  apply bind_inv in H as (k0 & s0 & H0 & H). apply host_ld_inv in H0 as [-> ->].
  apply bind_inv in H as (k1 & s1 & H1 & H). apply host_ld_inv in H1 as [-> ->].
  apply bind_inv in H as (k2 & s2 & H2 & H). apply host_ld_inv in H2 as [-> ->].
  change (ld 8 (guest v) (u32 (io_data v) + 8)) with (req_paddr v) in H.
  change (ld 8 (guest v) (u32 (io_data v) + 16)) with (req_nbytes v) in H.
  pose proof (ld64_range (guest v) (u32 (io_data v) + 8) : 0 <= req_paddr v < 2 ^ 64) as Hp.
  pose proof (ld64_range (guest v) (u32 (io_data v) + 16) : 0 <= req_nbytes v < 2 ^ 64) as Hn.
  assert (forall x, guest (set_ret SRw (s32 r) v1) x = guest v1 x) as Hg1 by done.
  destruct ((req_paddr v <=? _) && _) eqn:E; cbn [negb] in H.
  - apply andb_prop in E as [E1 E2]. unfold u64 in E1, E2.
    assert (req_paddr v + req_nbytes v <= mem_size) as Hrange.
    { unfold mem_size, MEM_SIZE, PS_LIMIT in *.
      destruct (Z.ltb_spec (req_paddr v + req_nbytes v) (2 ^ 64)) as [Hlt|Hge].
      - rewrite Z.mod_small in E2 by lia. lia.
      - assert ((req_paddr v + req_nbytes v) mod 2 ^ 64 = req_paddr v + req_nbytes v - 2 ^ 64) as Hm
          by (symmetry; apply (Z.mod_unique _ _ 1); lia). lia. }
    split; [|lia]. apply process_on_fd_run in H as (v2 & _ & G2 & _ & [(_ & _ & ->)|(n & _ & Hw & _)]).
    + intros x Hx. exfalso. apply Hx. by rewrite Hg1, G2.
    + apply do_rw_contained in Hw as (Hf & _ & Hk); [|done|lia]. intros x Hx. rewrite Hg1 in Hx.
      destruct k; [|exfalso; apply Hx; rewrite Hk by done; by rewrite G2]. split; [done|].
      destruct (decide (rng (req_paddr v) (req_nbytes v) x)) as [Hr|Hr].
      * split; [done|]. unfold rng in Hr. lia.
      * exfalso. apply Hx. rewrite Hf by done. by rewrite G2.
  - injection H as <- <-. split; [intros x Hx; by exfalso|]. intros _. done.
Qed.

(** An [open] that the system grants gives out the least closed descriptor, binds it to
    the descriptor of the system and leaves the other descriptors alone. *)
Theorem open_least_free {W} (os : host_os W) v len w n :
  table_ok (fd_map v) -> cstr (guest v) (u32 (io_data v)) len ->
  os_open os (host v) (mem_bytes (guest v) (u32 (io_data v)) len) = (w, inr n) -> 0 <= n ->
  (exists fd, 0 <= fd <= MAX_FD /\ fd_abs (cur_fds v) fd = None) ->
  exists v' fd, hp_handle_open os IO_OUT v = Ok 0 v' /\ get_ret SOpen v' = fd /\
    0 <= fd <= MAX_FD /\ fd_abs (cur_fds v) fd = None /\
    (forall j, 0 <= j < fd -> fd_abs (cur_fds v) j <> None) /\
    fd_abs (cur_fds v') fd = Some n /\
    (forall j, j <> fd -> fd_abs (cur_fds v') j = fd_abs (cur_fds v) j) /\
    guest v' = guest v.
Proof.
  intros Ht Hs Ho Hn (f0 & Hf0 & Hfree).
  destruct (open_run os v len Hs) as (v' & Hrun & Hres & Hg & Hinit).
  assert (table_ok (cur_fds v)) as Ht'.
  { unfold cur_fds. destruct (_ =? _); [by apply table_ok_init|done]. }
  destruct (first_free_spec (cur_fds v) 0) as (F1 & F2 & F3).
  set (fd := first_free (cur_fds v) 0) in *. unfold table_ok in Ht'. rewrite Ht' in F1, F3.
  assert (forall j, 0 <= j <= MAX_FD -> fd_abs (cur_fds v) j = None <-> opening (fd_at (cur_fds v) j) = 0)
    as Habs.
  { intros j Hj. unfold fd_abs, BADFD. rewrite (proj2 (Z.ltb_ge j 0)), (proj2 (Z.ltb_ge MAX_FD j)) by lia.
    simpl. destruct (Z.eqb_spec (opening (fd_at (cur_fds v) j)) 0); done. }
  assert (fd <= f0) as Hle.
  { destruct (Z.le_gt_cases fd f0) as [|Hgt]; [done|]. exfalso. apply (F2 f0); [lia|].
    rewrite Z.sub_0_r. by apply Habs. }
  unfold open_result in Hres. fold fd in Hres.
  rewrite (proj2 (Z.ltb_ge _ _)), Ho, (proj2 (Z.ltb_ge n 0)) in Hres by lia.
  simpl in Hres. injection Hres as Hret Hmap Hw.
  assert (cur_fds v' = fd_put (cur_fds v) fd (FdHandle n 1)) as Hcur.
  { unfold cur_fds at 1. by rewrite (proj2 (Z.eqb_neq _ _)). }
  exists v', fd. split; [done|]. split.
  { unfold get_ret. rewrite <- Hret. apply s32_small. unfold MAX_FD in *. lia. }
  split; [lia|]. split; [apply Habs; [lia|]; rewrite <- (Z.sub_0_r fd); apply F3; lia|].
  split; [|split; [|split; [|done]]].
  - intros j Hj Hc. apply (F2 j); [lia|]. rewrite Z.sub_0_r. apply Habs; [lia|done].
  - rewrite Hcur, fd_abs_put by (done || lia). by rewrite Z.eqb_refl.
  - intros j Hj. rewrite Hcur, fd_abs_put by (done || lia). by rewrite (proj2 (Z.eqb_neq _ _)).
Qed.

(** A descriptor that was closed is refused from then on: later requests on it
    get EBADF and reach neither guest memory nor the system. *)
Theorem close_revokes {W} (os : host_os W) v v' fd k :
  table_ok (fd_map v) -> fd = s32 (io_data v) -> hp_handle_close os IO_OUT v = Ok 0 v' ->
  fd_abs (cur_fds v') fd = None /\
  (forall j, j <> fd -> fd_abs (cur_fds v') j = fd_abs (cur_fds v) j) /\
  (forall paddr nbytes,
     exists v'', PROCESS_ON_FD fd (do_rw os k paddr nbytes) v' = Ok (- EBADF) v'' /\
       guest v'' = guest v' /\ host v'' = host v').
Proof.
  intros Ht Hfd H. unfold hp_handle_close in H. apply process_out_inv in H as (r & v1 & H & ->).
  rewrite bind_get, <- Hfd in H.
  assert (table_ok (cur_fds v)) as Ht'.
  { unfold cur_fds. destruct (_ =? _); [by apply table_ok_init|done]. }
  assert (fd_map_init v1 <> 0 /\ fd_abs (fd_map v1) fd = None /\
          (forall j, j <> fd -> fd_abs (fd_map v1) j = fd_abs (cur_fds v) j)) as (Hi & Hn & Ho).
  { unfold PROCESS_ON_FD in H. destruct (may_init_run v) as (v0 & H0 & Hm & Hi & _).
    rewrite (bind_ok _ _ _ _ _ H0), bind_get, Hm in H.
    destruct (BADFD (cur_fds v) fd) eqn:Eb.
    - injection H as <- <-. rewrite Hm. split; [done|]. split; [|done].
      unfold fd_abs. by rewrite Eb.
    - apply bind_inv in H as (n & v2 & H & Hv). injection Hv as _ <-.
      unfold do_close in H. rewrite bind_modify, bind_get in H. simpl in H.
      assert (0 <= fd <= MAX_FD) as Hr.
      { unfold BADFD in Eb. apply orb_false_iff in Eb as [Eb _]. lia. }
      assert (fd_map v2 = fd_put (cur_fds v) fd (FdHandle (real_fd (fd_at (cur_fds v) fd)) 0) /\
              fd_map_init v2 = fd_map_init v0) as [Hm2 Hi2].
      { destruct (os_close os (host v0) _) as [w [e|x]]; injection H as <- <-; simpl; by rewrite Hm. }
      rewrite Hm2, Hi2. split; [done|].
      split; [|intros j Hj]; rewrite fd_abs_put by done; [by rewrite Z.eqb_refl|].
      by rewrite (proj2 (Z.eqb_neq _ _)). }
  assert (cur_fds (set_ret SClose (s32 r) v1) = fd_map v1) as Hc.
  { unfold cur_fds. simpl. by rewrite (proj2 (Z.eqb_neq _ _)). }
  rewrite Hc. split; [done|]. split; [done|]. intros paddr nbytes.
  unfold PROCESS_ON_FD. destruct (may_init_run (set_ret SClose (s32 r) v1)) as (v0 & H0 & Hm & _ & Hg & Hh & _).
  rewrite (bind_ok _ _ _ _ _ H0), bind_get, Hm, Hc. exists v0.
  unfold fd_abs in Hn. destruct (BADFD (fd_map v1) fd); [|done]. done.
Qed.

(** ** Concrete instances *)

(** A system with one readable file: descriptor 7, of which every read returns the
    bytes 72, 105 as far as asked for. *)
Definition demo_os : host_os unit := HostOs unit
  (fun w _ => (w, inr 7))
  (fun w _ n => (w, inr (take (Z.to_nat n) [72; 105])))
  (fun w _ l => (w, inr (Z.of_nat (length l))))
  (fun w _ => (w, inr 0))
  (fun w _ off _ => (w, inr off)).
Lemma demo_read_bounded : read_bounded demo_os.
Proof. intros w fd n w' bs Hn [= _ <-]. rewrite length_take. lia. Qed.

(** A guest that asks to read 2 bytes from descriptor 0 to address 0x3000; the
    request is at 0x2000.  A file name is at 0x5000. *)
Definition demo_mem : mem :=
  put_bytes (st64 (st64 (st64 (fun _ => 0) 0x2000 0) 0x2008 0x3000) 0x2010 2) 0x5000 [97; 98].
Definition demo_cpu : vcpu :=
  let s := Segment 0 0 0 0 0 0 0 0 0 0 in Vcpu (Regs 0 0 0 0 2) (Sregs s s s s s s 0 0 0 0).
Definition demo_vm (data : Z) : vm unit :=
  Vm demo_mem (replicate 256 (FdHandle 0 0)) 0 UNUSED_VAR UNUSED_VAR UNUSED_VAR UNUSED_VAR
     data demo_cpu 0 tt.

Lemma hypercall_protocol_witness :
  exists v2 v3 : vm unit,
    process SLseek IO_OUT (mret 5) (demo_vm 0) = Ok 0 v2 /\
    process SLseek IO_IN (mret 5) v2 = Ok 0 v3 /\ s32 (io_data v3) = 5.
Proof.
  destruct (hypercall_protocol SLseek (mret 5) (demo_vm 0) 5 (demo_vm 0))
    as (v2 & v3 & H1 & H2 & H3 & _).
  - reflexivity.
  - discriminate.
  - exists v2, v3. split; [exact H1|]. split; [exact H2|exact H3].
Defined.

(** A run that returns 0, as evaluation shows. *)
Definition returns0 {S} (o : outcome S Z) : bool := match o with Ok r _ => r =? 0 | Halt _ => false end.
Lemma returns0_run {S} (o : outcome S Z) : returns0 o = true -> exists v', o = Ok 0 v'.
Proof. destruct o as [r v'|]; [|done]. intros H. apply Z.eqb_eq in H as ->. by exists v'. Qed.

Lemma handle_rw_contained_witness :
  exists v', handle_rw demo_os RwRead IO_OUT (demo_vm 0x2000) = Ok 0 v' /\
             guest v' 0x3002 = guest (demo_vm 0x2000) 0x3002.
Proof.
  destruct (returns0_run (handle_rw demo_os RwRead IO_OUT (demo_vm 0x2000))) as (v' & H);
    [vm_compute; reflexivity|].
  exists v'. split; [exact H|].
  destruct (Z.eq_dec (guest v' 0x3002) (guest (demo_vm 0x2000) 0x3002)) as [E|E].
  - exact E.
  - exfalso. destruct (proj1 (handle_rw_contained demo_os RwRead (demo_vm 0x2000) v' demo_read_bounded H) 0x3002 E) as (_ & Hr & _).
    vm_compute in Hr. destruct Hr as [_ Hr]. discriminate Hr.
Defined.

Lemma open_least_free_witness :
  exists v', hp_handle_open demo_os IO_OUT (demo_vm 0x5000) = Ok 0 v' /\ fd_abs (cur_fds v') 3 = Some 7.
Proof.
  destruct (open_least_free demo_os (demo_vm 0x5000) 2 tt 7) as (v' & fd & H1 & H2 & H3 & H4 & H5 & H6 & _).
  - reflexivity.
  - split; [done|]. split; [done|]. split; [done|]. split; [|reflexivity].
    intros j Hj. assert (j = 0 \/ j = 1) as [-> | ->] by lia; vm_compute; discriminate.
  - reflexivity.
  - lia.
  - exists 3. split; [by unfold MAX_FD|reflexivity].
  - exists v'. split; [exact H1|]. assert (fd = 3) as <-; [|exact H6].
    destruct (Z.lt_trichotomy fd 3) as [Hlt|[->|Hgt]]; [exfalso|reflexivity|exfalso].
    + assert (fd = 0 \/ fd = 1 \/ fd = 2) as [->|[->| ->]] by lia; discriminate H4.
    + apply (H5 3); [lia|reflexivity].
Defined.

Lemma close_revokes_witness :
  exists v', hp_handle_close demo_os IO_OUT (demo_vm 1) = Ok 0 v' /\ fd_abs (cur_fds v') 1 = None.
Proof.
  destruct (returns0_run (hp_handle_close demo_os IO_OUT (demo_vm 1))) as (v' & H);
    [vm_compute; reflexivity|].
  exists v'. split; [exact H|].
  refine (proj1 (close_revokes demo_os (demo_vm 1) v' 1 RwRead _ _ H)); reflexivity.
Defined.
