(* ===== verification/HypervisorProof.v ===== *)
(** * The hypervisor boots the guest as documented *)

From S2P Require Import Prelude Memory Arch KString Kmalloc KmallocSpec KmallocProof Translate.
From S2P Require Import TranslateProof Hypercall Hypervisor HypercallProof.

(** ** Boot page tables *)

(** Memory with the three entries [setup_paging] writes. *)
Definition boot_tables (m : mem) : Prop :=
  ld64 m MAX_KERNEL_SIZE = MAX_KERNEL_SIZE + 0x1000 + 7 /\
  ld64 m (MAX_KERNEL_SIZE + 0x1000) = MAX_KERNEL_SIZE + 0x2000 + 7 /\
  ld64 m (MAX_KERNEL_SIZE + 0x2000) = 131.

Lemma identity_map m va :
  boot_tables m -> 0 <= va < PS_LIMIT -> walk m MAX_KERNEL_SIZE va = Some (Xlat va false true).
Proof.
  intros (E4 & E3 & E2) Hva. unfold PS_LIMIT in Hva.
  assert (forall k, 21 <= k -> tbl_index va k = 0) as Hi.
  { intros k Hk. rewrite tbl_index_div by lia. rewrite Z.div_small; [done|].
    pose proof (Z.pow_le_mono_r 2 21 k). lia. }
  rewrite (walk_big m MAX_KERNEL_SIZE va (MAX_KERNEL_SIZE + 0x1000) (MAX_KERNEL_SIZE + 0x2000) 7 7 0 131);
    try reflexivity; try lia; unfold entry; rewrite ?Hi by lia; rewrite ?Z.mul_0_r, ?Z.add_0_r; try done.
  rewrite Z.mod_small by lia. done.
Qed.

Section Boot.
Context {W : Type} (os : host_os W) (fails : ioctl -> bool).
Hypothesis fails_not : forall i, fails i = false. (* the calls to KVM succeed *)

Lemma get_regs_ok (v : vm W) : get_regs fails v = Ok (v_regs (cpu v)) v.
Proof. unfold get_regs. by rewrite fails_not. Qed.
Lemma set_regs_ok r (v : vm W) : set_regs fails r v = Ok tt (set_cpu (Vcpu r (v_sregs (cpu v))) v).
Proof. unfold set_regs. by rewrite fails_not. Qed.
Lemma get_sregs_ok (v : vm W) : get_sregs fails v = Ok (v_sregs (cpu v)) v.
Proof. unfold get_sregs. by rewrite fails_not. Qed.
Lemma set_sregs_ok r (v : vm W) : set_sregs fails r v = Ok tt (set_cpu (Vcpu (v_regs (cpu v)) r) v).
Proof. unfold set_sregs. by rewrite fails_not. Qed.

Lemma setup_paging_run (v : vm W) :
  exists v', setup_paging fails v = Ok tt v' /\ boot_tables (guest v') /\
    sr_cr3 (v_sregs (cpu v')) = MAX_KERNEL_SIZE /\ v_regs (cpu v') = v_regs (cpu v) /\
    (forall x, ~ rng MAX_KERNEL_SIZE 8 x -> ~ rng (MAX_KERNEL_SIZE + 0x1000) 8 x -> ~ rng (MAX_KERNEL_SIZE + 0x2000) 8 x ->
       guest v' x = guest v x).
Proof.
  unfold setup_paging, guest_st64. rewrite (bind_ok _ _ _ _ _ (get_sregs_ok v)), bind_modify, bind_modify, bind_modify.
  rewrite set_sregs_ok. eexists. split; [reflexivity|].
  cbn [guest set_cpu set_guest cpu v_sregs sr_cr3 v_regs].
  unfold MAX_KERNEL_SIZE, PS_LIMIT, PAGE_TABLE_SIZE, KERNEL_STACK_SIZE.
  split; [|split; [done|split; [done|]]].
  - unfold boot_tables, ld64, st64, MAX_KERNEL_SIZE, PS_LIMIT, PAGE_TABLE_SIZE, KERNEL_STACK_SIZE.
    split; [|split; [|by rewrite ld_st]].
    + by rewrite ld_st_other, ld_st_other, ld_st by (simpl; lia).
    + by rewrite ld_st_other, ld_st by (simpl; lia).
  - intros x X1 X2 X3. unfold st64. by rewrite !st_outside.
Qed.

(** The whole of [kvm_init]: the image is in place, the page tables map the first
    2MB onto itself, and the registers hold what the kernel expects. *)
Lemma kvm_init_run code (v : vm W) :
  Z.of_nat (length code) <= MAX_KERNEL_SIZE ->
  exists v', kvm_init fails KVM_API_VERSION code v = Ok tt v' /\ boot_tables (guest v') /\
    v_regs (cpu v') = Regs 0 PS_LIMIT PS_LIMIT (MEM_SIZE - PS_LIMIT) 2 /\
    sr_cr3 (v_sregs (cpu v')) = MAX_KERNEL_SIZE /\
    seg_dpl (sr_cs (v_sregs (cpu v'))) = 0 /\
    (forall i, 0 <= i < Z.of_nat (length code) -> guest v' i = u8 (default 0 (code !! Z.to_nat i))) /\
    (forall x, MAX_KERNEL_SIZE <= x -> ~ rng MAX_KERNEL_SIZE 8 x -> ~ rng (MAX_KERNEL_SIZE + 0x1000) 8 x ->
       ~ rng (MAX_KERNEL_SIZE + 0x2000) 8 x -> guest v' x = 0).
Proof.
  intros Hlen. unfold kvm_init, setup_long_mode, setup_regs, kvm_call.
  rewrite !fails_not, !bind_ret. cbn [negb Z.eqb]. rewrite Z.eqb_refl. cbn [negb].
  rewrite bind_ret, bind_modify, !bind_ret.
  set (v1 := set_guest _ v). rewrite bind_bind, (bind_ok _ _ _ _ _ (get_regs_ok v1)).
  rewrite (bind_ok _ _ _ _ _ (set_regs_ok _ v1)). set (v2 := set_cpu _ v1).
  destruct (setup_paging_run v2) as (v3 & H3 & T3 & C3 & R3 & F3).
  rewrite (bind_ok _ _ _ _ _ H3). unfold setup_seg_regs.
  rewrite (bind_ok _ _ _ _ _ (get_sregs_ok v3)), set_sregs_ok. eexists. split; [reflexivity|].
  cbn [guest set_cpu cpu v_sregs sr_cr3 v_regs sr_cs seg_dpl]. rewrite R3.
  split; [done|]. split; [done|]. split; [done|]. split; [done|].
  unfold PAGE_TABLE_SIZE. split.
  - intros i Hi. rewrite F3 by (unfold rng; lia). subst v2 v1. cbn [guest set_cpu set_guest].
    unfold put_bytes. rewrite (proj2 (andb_true_iff _ _)) by lia. by rewrite Z.sub_0_r.
  - intros x Hx X1 X2 X3. rewrite F3 by done. subst v2 v1. cbn [guest set_cpu set_guest].
    rewrite put_bytes_outside; [done|]. unfold rng in *. lia.
Qed.
End Boot.

(** ** The argument vector *)

(** The bytes of [s], terminated, are at [c]. *)
Definition string_at (m : mem) (c : Z) (s : list Z) : Prop :=
  forall j, 0 <= j <= Z.of_nat (length s) -> m (c + j) = u8 (default 0 (s !! Z.to_nat j)).

Definition strings_size (argv : list (list Z)) : Z :=
  foldr (fun s n => Z.of_nat (length s) + 1 + n) 0 argv.

Lemma strings_size_nonneg argv : 0 <= strings_size argv.
Proof. induction argv as [|s argv IH]; simpl in *; lia. Qed.

Lemma put_string m c s : string_at (put_bytes m c (s ++ [0])) c s.
Proof.
  intros j Hj. unfold put_bytes. rewrite length_app. simpl length.
  rewrite (proj2 (andb_true_iff _ _)) by lia. replace (c + j - c) with j by lia.
  destruct (Z.eq_dec j (Z.of_nat (length s))) as [->|Hne].
  - rewrite lookup_app_r, Nat2Z.id by lia. rewrite Nat.sub_diag.
    by rewrite (lookup_ge_None_2 s) by lia.
  - by rewrite lookup_app_l by lia.
Qed.

Lemma string_at_frame m m' c s :
  string_at m c s -> (forall x, rng c (Z.of_nat (length s) + 1) x -> m' x = m x) ->
  string_at m' c s.
Proof. intros H Hf j Hj. rewrite Hf; [by apply H|]. unfold rng. lia. Qed.

Lemma push_strings_spec argv sp m :
  let '(copy, sp', m') := push_strings argv sp m in
  sp' = sp - strings_size argv /\
  Forall2 (fun s c => string_at m' c s /\ sp' <= c /\ c + Z.of_nat (length s) + 1 <= sp) argv copy /\
  (forall x, ~ rng sp' (strings_size argv) x -> m' x = m x).
Proof.
  induction argv as [|s argv IH]; simpl; [split; [lia|]; split; [constructor|done]|].
  destruct (push_strings argv sp m) as [[copy sp1] m1]. destruct IH as (-> & Hc & Hf).
  pose proof (strings_size_nonneg argv) as Hn. fold (strings_size argv).
  assert (forall x, ~ rng (sp - strings_size argv - (Z.of_nat (length s) + 1)) (Z.of_nat (length s) + 1) x ->
    put_bytes m1 (sp - strings_size argv - (Z.of_nat (length s) + 1)) (s ++ [0]) x = m1 x) as Hp.
  { intros x Hx. apply put_bytes_outside. rewrite length_app. simpl length.
    intros Hr. apply Hx. unfold rng in *. lia. }
  split; [lia|]. split.
  - constructor; [split; [apply put_string|lia]|].
    eapply Forall2_impl; [exact Hc|]. intros s' c (H1 & H2 & H3). split; [|lia].
    apply (string_at_frame m1); [done|]. intros x Hx. apply Hp. unfold rng in *. lia.
  - intros x Hx. rewrite Hp, Hf; [done|..]; unfold rng in *; lia.
Qed.

Lemma push_words_spec ws sp m :
  let '(sp', m') := push_words ws sp m in
  sp' = sp - 8 * Z.of_nat (length ws) /\
  (forall i w, ws !! i = Some w -> ld64 m' (sp' + 8 * Z.of_nat i) = u64 w) /\
  (forall x, ~ rng sp' (8 * Z.of_nat (length ws)) x -> m' x = m x).
Proof.
  induction ws as [|w ws IH]; simpl push_words; [split; [simpl; lia|]; split; [done|done]|].
  destruct (push_words ws sp m) as [sp1 m1]. destruct IH as (-> & Hw & Hf).
  change (length (w :: ws)) with (S (length ws)). rewrite Nat2Z.inj_succ.
  split; [lia|]. split.
  - intros [|i] w' Hi; simpl in Hi.
    + injection Hi as <-. simpl. rewrite Z.add_0_r. apply ld64_st64, u64_range.
    + replace (sp - 8 * Z.of_nat (length ws) - 8 + 8 * Z.of_nat (S i))
        with (sp - 8 * Z.of_nat (length ws) + 8 * Z.of_nat i) by lia.
      rewrite <- (Hw i w' Hi). apply ld_st_other. simpl (Z.of_nat 8). lia.
  - intros x Hx. rewrite <- Hf by (unfold rng in *; lia). apply st_outside.
    unfold rng in *. simpl (Z.of_nat 8). lia.
Qed.

Lemma align16 b sp :
  b mod 16 = 0 -> 0 <= b -> 0 <= sp -> b + sp < 2 ^ 64 ->
  Z.land (b + sp) (u64 (-0x10)) - b = sp - sp mod 16.
Proof.
  intros Hb H1 H2 H3. change (u64 (-0x10)) with (2 ^ 64 - 2 ^ 4).
  rewrite (land_high 64 4) by lia. change (2 ^ 4) with 16.
  rewrite <- Zplus_mod_idemp_l, Hb. rewrite Z.add_0_l. lia.
Qed.

(** The whole of [copy_argv]: it uses as much of the stack as the strings, the vector and
    its alignment take. *)
Lemma copy_argv_run {W} (fails : ioctl -> bool) mem_base argv (v : vm W) :
  (forall i, fails i = false) -> 0 <= mem_base -> mem_base mod 16 = 0 -> mem_base + MEM_SIZE < 2 ^ 64 ->
  rsp (v_regs (cpu v)) <= MEM_SIZE ->
  strings_size argv + 16 + 8 * (Z.of_nat (length argv) + 2) <= rsp (v_regs (cpu v)) ->
  let sp := rsp (v_regs (cpu v)) in
  exists v' sp', copy_argv fails mem_base argv v = Ok tt v' /\ rsp (v_regs (cpu v')) = sp' /\
    (sp - (strings_size argv + 16 + 8 * (Z.of_nat (length argv) + 2)) <= sp' /\ v_sregs (cpu v') = v_sregs (cpu v) /\
     rdi (v_regs (cpu v')) = rdi (v_regs (cpu v)) /\ rsi (v_regs (cpu v')) = rsi (v_regs (cpu v))) /\ ld64 (guest v') sp' = Z.of_nat (length argv) /\
    (forall i s, argv !! i = Some s ->
       exists c, ld64 (guest v') (sp' + 8 + 8 * Z.of_nat i) = c /\ string_at (guest v') c s /\
                 sp' < c /\ c + Z.of_nat (length s) + 1 <= sp) /\
    ld64 (guest v') (sp' + 8 + 8 * Z.of_nat (length argv)) = 0 /\
    (forall x, ~ rng sp' (sp - sp') x -> guest v' x = guest v x).
Proof.
  intros Hok Hb0 Hb Hb1 Hsp Hroom. cbn zeta. unfold copy_argv.
  rewrite (bind_ok _ _ _ _ _ (get_regs_ok fails Hok v)), bind_get.
  pose proof (push_strings_spec argv (rsp (v_regs (cpu v))) (guest v)) as Hs.
  destruct (push_strings _ _ _) as [[copy sp1] m1]. destruct Hs as (-> & Hc & Hf1).
  pose proof (strings_size_nonneg argv) as Hn. pose proof (Forall2_length _ _ _ Hc) as Hlen.
  rewrite align16 by (unfold MEM_SIZE, PS_LIMIT in *; lia).
  set (sp := rsp (v_regs (cpu v))) in *. set (t := sp - strings_size argv) in *.
  pose proof (Z.mod_pos_bound t 16 ltac:(lia)) as Hm.
  pose proof (push_words_spec (copy ++ [0]) (t - t mod 16) m1) as Hw.
  destruct (push_words _ _ _) as [sp3 m3]. destruct Hw as (Esp3 & Hw & Hf3).
  rewrite length_app in Esp3, Hf3. simpl length in Esp3, Hf3. unfold mbind at 1, cmd_bind at 1, put.
  rewrite set_regs_ok by done. eexists _, (sp3 - 8). split; [reflexivity|].
  cbn [guest set_cpu set_guest cpu v_regs rsp].
  set (m4 := st64 m3 (sp3 - 8) _).
  assert (forall x, ~ rng (sp3 - 8) 8 x -> m4 x = m3 x) as Hf4
    by (intros x Hx; apply st_outside; exact Hx).
  assert (forall a, sp3 <= a -> ld64 m4 a = ld64 m3 a) as Hl4.
  { intros a Ha. apply ld_st_other. simpl (Z.of_nat 8). lia. }
  split; [done|]. split; [split; [unfold sp, t in *; lia|done]|]. split.
  { apply ld64_st64. unfold MEM_SIZE, PS_LIMIT in *. lia. }
  split; [|split].
  - intros i s Hi. destruct (Forall2_lookup_l _ _ _ _ _ Hc Hi) as (c & Hci & H1 & H2 & H3).
    exists c. replace (sp3 - 8 + 8 + 8 * Z.of_nat i) with (sp3 + 8 * Z.of_nat i) by lia.
    rewrite Hl4 by lia. rewrite (Hw i c) by (by apply lookup_app_l_Some).
    split; [apply u64_small; unfold MEM_SIZE, PS_LIMIT in *; lia|]. split; [|lia].
    apply (string_at_frame m1); [done|]. intros x Hx. rewrite Hf4, Hf3; [done|..]; unfold rng in *; lia.
  - replace (sp3 - 8 + 8 + 8 * Z.of_nat (length argv)) with (sp3 + 8 * Z.of_nat (length argv)) by lia.
    rewrite Hl4 by lia. rewrite Hlen. apply (Hw (length copy) 0).
    rewrite lookup_app_r, Nat.sub_diag by lia. done.
  - intros x Hx. rewrite Hf4, Hf3, Hf1; [done|..]; unfold rng in *; lia.
Qed.

(** ** The properties *)

(** After [kvm_init] the first 2MB are mapped onto themselves for the kernel only,
    the image is unchanged at address 0, and the kernel is told the free memory. *)
Theorem kvm_init_boots {W} (fails : ioctl -> bool) code (v : vm W) :
  (forall i, fails i = false) -> Z.of_nat (length code) <= MAX_KERNEL_SIZE ->
  exists v', kvm_init fails KVM_API_VERSION code v = Ok tt v' /\
    (forall va, 0 <= va < PS_LIMIT ->
       walk (guest v') (sr_cr3 (v_sregs (cpu v'))) va = Some (Xlat va false true)) /\
    (forall i, 0 <= i < Z.of_nat (length code) -> guest v' i = u8 (default 0 (code !! Z.to_nat i))) /\
    rip (v_regs (cpu v')) = 0 /\ rdi (v_regs (cpu v')) = PS_LIMIT /\
    rdi (v_regs (cpu v')) + rsi (v_regs (cpu v')) = MEM_SIZE.
Proof.
  intros Hf Hlen. destruct (kvm_init_run fails Hf code v Hlen) as (v' & H1 & H2 & H3 & H4 & _ & H5 & _).
  exists v'. split; [done|]. rewrite H3, H4. split; [intros va Hva; by apply identity_map|].
  split; [done|]. done.
Qed.

(** [copy_argv] leaves [argc], the vector and its terminator at the new stack
    pointer, each entry pointing at a terminated copy of its argument, and changes
    nothing outside the stack. *)
Theorem copy_argv_layout {W} (fails : ioctl -> bool) mem_base argv (v : vm W) :
  (forall i, fails i = false) -> 0 <= mem_base -> mem_base mod 16 = 0 -> mem_base + MEM_SIZE < 2 ^ 64 ->
  rsp (v_regs (cpu v)) <= MEM_SIZE ->
  strings_size argv + 16 + 8 * (Z.of_nat (length argv) + 2) <= rsp (v_regs (cpu v)) ->
  let sp := rsp (v_regs (cpu v)) in
  exists v' sp', copy_argv fails mem_base argv v = Ok tt v' /\ rsp (v_regs (cpu v')) = sp' /\
    0 <= sp' /\ ld64 (guest v') sp' = Z.of_nat (length argv) /\
    (forall i s, argv !! i = Some s ->
       exists c, ld64 (guest v') (sp' + 8 + 8 * Z.of_nat i) = c /\ string_at (guest v') c s /\
                 sp' < c /\ c + Z.of_nat (length s) + 1 <= sp) /\
    ld64 (guest v') (sp' + 8 + 8 * Z.of_nat (length argv)) = 0 /\
    (forall x, ~ rng sp' (sp - sp') x -> guest v' x = guest v x).
Proof.
  intros Hok Hb0 Hb Hb1 Hsp Hroom sp.
  destruct (copy_argv_run fails mem_base argv v Hok Hb0 Hb Hb1 Hsp Hroom) as (v' & sp' & H1 & H2 & [H3 _] & H4).
  exists v', sp'. split; [done|]. split; [done|]. split; [lia|done].
Qed.

(** Port I/O attempted in user mode ends the virtual machine before any handler
    runs, as long as the guest's IOPL is below the code's privilege level. *)
Theorem user_io_refused {W} (os : host_os W) fails port d (v : vm W) :
  (forall i, fails i = false) ->
  Z.land (Z.shiftr (rflags (v_regs (cpu v))) 12) 3 < seg_dpl (sr_cs (v_sregs (cpu v))) ->
  serve os fails (KVM_EXIT_IO port d) v = Halt (ExitProc 1).
Proof.
  intros Hok Hlt. unfold serve, check_iopl.
  rewrite bind_bind, (bind_ok _ _ _ _ _ (get_regs_ok fails Hok v)), bind_bind.
  rewrite (bind_ok _ _ _ _ _ (get_sregs_ok fails Hok v)), bind_ret.
  by rewrite (proj2 (Z.leb_gt _ _)).
Qed.

Lemma krange_inv va len pa :
  krange va len = Some pa ->
  (KERNEL_BASE_OFFSET <= va /\ va + len <= KERNEL_BASE_OFFSET + MEM_SIZE /\ pa = va - KERNEL_BASE_OFFSET) \/
  (0 <= va /\ va + len <= KERNEL_PAGING_SIZE /\ pa = va).
Proof.
  unfold krange. destruct (_ && _) eqn:E.
  - intros [= <-]. left. apply andb_prop in E as [E1 E2]. lia.
  - destruct ((0 <=? va) && _) eqn:E'; [|done]. intros [= <-]. right.
    apply andb_prop in E' as [E1 E2]. lia.
Qed.

(** C9: From boot to the end of [init_pagetable]: every byte the kernel model reaches
    through [krange] is the byte the processor reaches, with kernel-only rights. *)
Theorem kernel_space_correct {W} (fails : ioctl -> bool) code (v : vm W) ar :
  (forall i, fails i = false) -> Z.of_nat (length code) <= MAX_KERNEL_SIZE ->
  exists v' h', kvm_init fails KVM_API_VERSION code v = Ok tt v' /\
    init_pagetable (sr_cr3 (v_sregs (cpu v'))) (Heap (guest v') ar) = Ok tt h' /\
    (forall va pa, krange va 1 = Some pa ->
       walk (h_mem h') (sr_cr3 (v_sregs (cpu v'))) va = Some (Xlat pa false true)) /\
    (forall i, 0 <= i < Z.of_nat (length code) -> h_mem h' i = u8 (default 0 (code !! Z.to_nat i))).
Proof.
  intros Hf Hlen. destruct (kvm_init_run fails Hf code v Hlen) as (v' & H1 & (T4 & T3 & T2) & _ & Hcr3 & _ & H5 & _).
  destruct (init_pagetable_run MAX_KERNEL_SIZE (guest v') ar) as (m' & Hrun & E4 & E3 & E2 & Fr).
  { by split; [|split]. }
  exists v', (Heap m' ar). rewrite Hcr3. split; [done|]. split; [done|]. cbn [h_mem].
  unfold MAX_KERNEL_SIZE, PS_LIMIT, PAGE_TABLE_SIZE, KERNEL_STACK_SIZE in *. split.
  - intros va pa [(G1 & G2 & ->)|(G1 & G2 & ->)]%krange_inv.
    + apply direct_map; [by split; [|split]|done..|]. unfold MEM_SIZE, PS_LIMIT in G2. lia.
    + apply identity_map; [|unfold KERNEL_PAGING_SIZE, PS_LIMIT in *; lia].
      unfold boot_tables, MAX_KERNEL_SIZE, PS_LIMIT, PAGE_TABLE_SIZE, KERNEL_STACK_SIZE.
      split; [rewrite <- T4|split; [rewrite <- T3|rewrite <- T2]]; apply ld_ext; intros x Hx;
        apply Fr; unfold rng in *; simpl (Z.of_nat 8) in Hx; lia.
  - intros i Hi. rewrite Fr by (unfold rng; lia). by apply H5.
Qed.

(** ** Concrete instances *)

Lemma kvm_init_boots_witness :
  exists v', kvm_init (fun _ => false) KVM_API_VERSION [0xf4] (demo_vm 0) = Ok tt v' /\ guest v' 0 = 0xf4.
Proof.
  destruct (kvm_init_boots (fun _ => false) [0xf4] (demo_vm 0)) as (v' & H1 & _ & H2 & _).
  - reflexivity.
  - done.
  - exists v'. split; [exact H1|]. apply (H2 0). simpl. lia.
Defined.

Lemma kernel_space_correct_witness :
  exists v' h', kvm_init (fun _ => false) KVM_API_VERSION [0xf4] (demo_vm 0) = Ok tt v' /\
    walk (h_mem h') (sr_cr3 (v_sregs (cpu v'))) (KERNEL_BASE_OFFSET + 5) = Some (Xlat 5 false true).
Proof.
  destruct (kernel_space_correct (fun _ => false) [0xf4] (demo_vm 0) (Arena 0 0 0 0 0 0))
    as (v' & h' & H1 & _ & H2 & _).
  - reflexivity.
  - done.
  - exists v', h'. split; [exact H1|]. apply H2. reflexivity.
Defined.

Definition demo_stack_vm : vm unit :=
  set_cpu (Vcpu (Regs 0 PS_LIMIT 0 0 2) (v_sregs demo_cpu)) (demo_vm 0).

Lemma copy_argv_layout_witness :
  exists v' sp', copy_argv (fun _ => false) 0x7f0000000000 [[97]; [98; 99]] demo_stack_vm = Ok tt v' /\
    ld64 (guest v') sp' = 2.
Proof.
  destruct (copy_argv_layout (fun _ => false) 0x7f0000000000 [[97]; [98; 99]] demo_stack_vm)
    as (v' & sp' & H1 & _ & _ & H2 & _).
  - reflexivity.
  - done.
  - reflexivity.
  - done.
  - done.
  - done.
  - exists v', sp'. split; [exact H1|exact H2].
Defined.

(** A guest in user mode (privilege level 3, IOPL 0). *)
Definition demo_user_vm : vm unit :=
  let s := Segment 0 0 0 0 0 3 0 0 0 0 in
  set_cpu (Vcpu (Regs 0 0 0 0 2) (Sregs s s s s s s 0 0 0 0)) (demo_vm 0).

Lemma user_io_refused_witness :
  serve demo_os (fun _ => false) (KVM_EXIT_IO NR_HP_open IO_OUT) demo_user_vm = Halt (ExitProc 1).
Proof. apply user_io_refused; [reflexivity|done]. Defined.
