(* ===== verification/VmTypes.v ===== *)
(** * The state of the hypervisor is well typed

    The C declarations of hypervisor/hypercall.c and hypervisor.c as an invariant of the
    model's state: widths of the variables, the size of the table of descriptors, bytes in
    memory; and every open entry of the table holds a descriptor that came from the system.
    Everything the hypervisor does keeps it, whatever the guest does. *)

From S2P Require Import Prelude Memory Arch KString Hypercall Hypervisor HypercallProof.

Definition int_typed (n : Z) : Prop := - 2 ^ 31 <= n < 2 ^ 31.
Definition byte_typed (n : Z) : Prop := 0 <= n < 256.

Section Types.
Context {W : Type} (os : host_os W) (fails : ioctl -> bool).
(** The descriptors of the system that the process may use. *)
Context (F : Z -> Prop).

(** An entry of [fd_map]; [opening] is 0 or 1. *)
Definition handle_typed (hd : fd_handle) : Prop :=
  int_typed (real_fd hd) /\ (opening hd = 0 \/ opening hd = 1 /\ F (real_fd hd)).

Record vm_typed (v : vm W) : Prop := VmTyped {
  vt_mem : forall x, byte_typed (guest v x);
  vt_table : table_ok (fd_map v);
  vt_handles : Forall handle_typed (fd_map v);
  vt_init : fd_map_init v = 0 \/ fd_map_init v = 1;
  vt_rets : forall s, int_typed (get_ret s v);
  vt_data : 0 <= io_data v < 2 ^ 32;
  vt_errno : int_typed (errno v)
}.

(** The types of the system calls: error numbers and results are ints, bytes are bytes, and
    open gives descriptors that may be used, as are the standard ones. *)
Record os_typed : Prop := OsTyped {
  ot_std : F 0 /\ F 1 /\ F 2;
  ot_open : forall w l w' r, os_open os w l = (w', r) ->
    match r with inl e => int_typed e | inr n => int_typed n /\ F n end;
  ot_read : forall w fd n w' r, os_read os w fd n = (w', r) -> match r with inl e => int_typed e | inr l => Forall byte_typed l end;
  ot_write : forall w fd l w' r, os_write os w fd l = (w', r) -> match r with inl e => int_typed e | inr _ => True end;
  ot_close : forall w fd w' r, os_close os w fd = (w', r) -> match r with inl e => int_typed e | inr n => int_typed n end;
  ot_lseek : forall w fd off wh w' r, os_lseek os w fd off wh = (w', r) -> match r with inl e => int_typed e | inr _ => True end
}.

(** A command that keeps the types; its results satisfy [Q]. *)
Definition typed {A} (m : cmd (vm W) A) (Q : A -> Prop) : Prop := forall v, vm_typed v ->
  match m v with Ok a v' => vm_typed v' /\ Q a | Halt _ => True end.

Lemma typed_ret {A} (a : A) (Q : A -> Prop) : Q a -> typed (mret a) Q.
Proof. intros H v Hv. done. Qed.
Lemma typed_halt {A} e (Q : A -> Prop) : typed (halt e) Q.
Proof. intros v Hv. done. Qed.
Lemma typed_bind {A B} (m : cmd (vm W) A) (f : A -> cmd (vm W) B) P Q :
  typed m P -> (forall a, P a -> typed (f a) Q) -> typed (m ≫= f) Q.
Proof.
  intros Hm Hf v Hv. unfold mbind, cmd_bind. specialize (Hm v Hv). destruct (m v) as [a v1|]; [|done].
  destruct Hm as [H1 H2]. exact (Hf a H2 v1 H1).
Qed.
Lemma typed_seq {A B} (m : cmd (vm W) A) (n : cmd (vm W) B) Q :
  typed m (fun _ => True) -> typed n Q -> typed (m ;; n) Q.
Proof. intros Hm Hn. apply (typed_bind m _ (fun _ => True)); auto. Qed.
Lemma typed_get (Q : vm W -> Prop) : (forall v, vm_typed v -> Q v) -> typed get Q.
Proof. intros H v Hv. split; auto. Qed.
Lemma typed_get_bind {B} (f : vm W -> cmd (vm W) B) Q : (forall v, vm_typed v -> typed (f v) Q) -> typed (get ≫= f) Q.
Proof. intros H. apply (typed_bind get _ vm_typed); [by apply typed_get|done]. Qed.
Lemma typed_modify (f : vm W -> vm W) : (forall v, vm_typed v -> vm_typed (f v)) -> typed (modify f) (fun _ => True).
Proof. intros H v Hv. split; auto. Qed.
Lemma typed_put v : vm_typed v -> typed (put v) (fun _ => True).
Proof. intros H w Hw. done. Qed.
Lemma typed_mono {A} (m : cmd (vm W) A) (P Q : A -> Prop) : typed m P -> (forall a, P a -> Q a) -> typed m Q.
Proof. intros H Hpq v Hv. specialize (H v Hv). destruct (m v); [|done]. destruct H; auto. Qed.
Lemma typed_true {A} (m : cmd (vm W) A) P : typed m P -> typed m (fun _ => True).
Proof. intros H. by apply (typed_mono m P). Qed.
Lemma typed_mloop {X R} (body : X -> cmd (vm W) (X + R)) (Q : R -> Prop) x :
  (forall y, typed (body y) (fun r => match r with inl _ => True | inr b => Q b end)) -> typed (mloop body x) Q.
Proof.
  intros H v Hv. unfold mloop. rewrite loopn_run.
  pose proof (run_invariant (mbody body) (fun p => vm_typed p.2)
    (fun o => match o with Ok b v' => vm_typed v' /\ Q b | Halt _ => True end) (2 ^ LOOP_BITS) (x, v)) as Hr.
  destruct (run (mbody body) (2 ^ LOOP_BITS) (x, v)) as [p|o]; [done|]. apply Hr; [|done].
  intros [y w] Hw. unfold mbody. cbn [fst snd] in *. specialize (H y w Hw). destruct (body y w) as [[y'|b] w'|]; [apply H|apply H|done].
Qed.

(** *** Setters *)

(** A setter keeps the fields it does not set; what is left is the field it sets. *)
Ltac set_typed Hv :=
  let R := fresh "R" in
  pose proof (vt_rets _ Hv) as R; destruct Hv; split; cbn; try assumption;
  try (intros []; [apply (R SOpen)|apply (R SRw)|apply (R SClose)|apply (R SLseek)]).

Lemma set_data_typed d v : 0 <= d < 2 ^ 32 -> vm_typed v -> vm_typed (set_data d v).
Proof. intros Hd Hv. set_typed Hv. Qed.
Lemma set_cpu_typed c v : vm_typed v -> vm_typed (set_cpu c v).
Proof. intros Hv. set_typed Hv. Qed.
Lemma set_host_typed e w v : int_typed e -> vm_typed v -> vm_typed (set_host e w v).
Proof. intros He Hv. set_typed Hv. Qed.
Lemma set_guest_typed m v : (forall x, byte_typed (m x)) -> vm_typed v -> vm_typed (set_guest m v).
Proof. intros Hm Hv. set_typed Hv. Qed.
Lemma set_fds_typed l i v :
  table_ok l -> Forall handle_typed l -> i = 0 \/ i = 1 -> vm_typed v -> vm_typed (set_fds l i v).
Proof. intros Hl HF Hi Hv. set_typed Hv. Qed.
Lemma set_ret_typed s r v : int_typed r -> vm_typed v -> vm_typed (set_ret s r v).
Proof.
  intros Hr Hv. pose proof (vt_rets v Hv) as R. destruct Hv, s; split; cbn; try assumption;
    intros []; cbn; try exact Hr; [apply (R SRw)|apply (R SClose)|apply (R SLseek)|apply (R SOpen)|apply (R SClose)|apply (R SLseek)
      |apply (R SOpen)|apply (R SRw)|apply (R SLseek)|apply (R SOpen)|apply (R SRw)|apply (R SClose)].
Qed.

Lemma u8_typed n : byte_typed (u8 n).
Proof. apply u8_range. Qed.
Lemma s32_typed n : int_typed (s32 n).
Proof. apply s32_range. Qed.
Lemma put_bytes_typed m p l : (forall x, byte_typed (m x)) -> forall x, byte_typed (put_bytes m p l x).
Proof. intros H x. unfold put_bytes. destruct (_ && _); [apply u8_typed|done]. Qed.
Lemma st_typed n m p w : (forall x, byte_typed (m x)) -> forall x, byte_typed (st n m p w x).
Proof. intros H x. unfold st. destruct (_ && _); [apply u8_typed|done]. Qed.
Lemma fd_put_typed l i hd : handle_typed hd -> Forall handle_typed l -> Forall handle_typed (fd_put l i hd).
Proof. intros Hh Hl. by apply Forall_insert. Qed.
Lemma fd_at_typed l i : Forall handle_typed l -> handle_typed (fd_at l i).
Proof.
  intros Hl. unfold fd_at. destruct (l !! Z.to_nat i) eqn:E; cbn; [by apply (Forall_lookup_1 _ _ _ _ Hl E)|].
  split; [unfold int_typed; cbn; lia|by left].
Qed.

(** *** The handlers *)

Hypothesis os_types : os_typed.

Lemma init_fds_typed l : Forall handle_typed l -> Forall handle_typed (init_fds l).
Proof.
  intros Hl. destruct (ot_std os_types) as (F0 & F1 & F2). unfold init_fds.
  repeat (apply Forall_cons; split; [split; [unfold int_typed; cbn; lia|by right]|]).
  apply Forall_fmap. apply (Forall_impl handle_typed); [by apply Forall_drop|].
  intros hd [H _]. split; [done|by left].
Qed.
Lemma may_init_typed : typed MAY_INIT_FD_MAP (fun _ => True).
Proof.
  apply typed_modify. intros v Hv. destruct (_ =? 0); [|done]. pose proof Hv as [_ H2 H3 _ _ _ _].
  apply set_fds_typed; [by apply table_ok_init|by apply init_fds_typed|by right|done].
Qed.
Lemma mem_at_typed off : typed (MEM_AT off) (fun _ => True).
Proof. unfold MEM_AT. destruct (_ && _); [by apply typed_ret|apply typed_halt]. Qed.
Lemma host_byte_typed off : typed (host_byte off) byte_typed.
Proof. intros v Hv. unfold host_byte. destruct (_ && _); [|done]. split; [done|apply u8_typed]. Qed.
Lemma host_ld_typed n off : typed (host_ld n off) (fun _ => True).
Proof. intros v Hv. unfold host_ld. by destruct (_ && _). Qed.
Lemma strlen_typed s : typed (strlen host_byte s) (fun _ => True).
Proof.
  unfold strlen, strnlen. apply typed_mloop. intros [i p]. destruct (_ <? _); [|by apply typed_ret].
  apply (typed_bind _ _ byte_typed); [apply host_byte_typed|]. intros c _. by destruct (c =? 0); apply typed_ret.
Qed.
Lemma sys_return_typed {A} w (r : Z + A) f (Q : Z -> Prop) :
  match r with inl e => int_typed e | inr a => typed (f a) Q end -> Q (-1) -> typed (sys_return w r f) Q.
Proof.
  intros H Hq. destruct r as [e|a]; (apply typed_seq; [apply typed_modify; intros v Hv|]).
  - by apply set_host_typed.
  - by apply typed_ret.
  - apply set_host_typed; [apply Hv|done].
  - done.
Qed.
Lemma process_typed s d work : typed work (fun _ => True) -> typed (process s d work) (fun _ => True).
Proof.
  intros H. destruct d; cbn.
  - apply (typed_bind _ _ (fun _ => True)); [done|]. intros r _. apply typed_seq; [|by apply typed_ret].
    apply typed_modify. intros v Hv. apply set_ret_typed; [apply s32_typed|done].
  - intros v Hv. unfold THEN_RETURN. destruct (_ =? _); [done|]. split; [|done].
    apply set_ret_typed; [apply s32_typed|]. apply set_data_typed; [apply u32_range|done].
Qed.
Lemma process_on_fd_typed fd work :
  (forall hd, handle_typed hd -> typed (work hd) (fun _ => True)) -> typed (PROCESS_ON_FD fd work) (fun _ => True).
Proof.
  intros H. unfold PROCESS_ON_FD. apply typed_seq; [apply may_init_typed|]. apply typed_get_bind. intros v Hv.
  destruct (BADFD _ _); [by apply typed_ret|]. apply (typed_bind _ _ (fun _ => True)).
  - apply H, fd_at_typed, Hv.
  - intros r _. apply typed_get_bind. intros v' Hv'. by apply typed_ret.
Qed.

Create HintDb typed.
#[local] Hint Resolve typed_ret typed_halt mem_at_typed host_ld_typed strlen_typed may_init_typed set_host_typed
  set_cpu_typed : typed.
(** A bind whose first part has any result. *)
Ltac typed_step := apply (typed_bind _ _ (fun _ => True)); [auto with typed|intros ? _].

Lemma open_typed d : typed (hp_handle_open os d) (fun _ => True).
Proof.
  apply process_typed, typed_get_bind. intros v Hv. typed_step. typed_step. typed_step. typed_step.
  apply typed_get_bind. intros v1 Hv1. cbv zeta. destruct (MAX_FD <? _); [by apply typed_ret|].
  destruct (os_open os (host v1) _) as [w r] eqn:E. pose proof (ot_open os_types _ _ _ _ E) as Ho.
  apply (typed_bind _ _ (fun n => n < 0 \/ int_typed n /\ F n)).
  - apply sys_return_typed; [|left; lia]. destruct r; [done|]. apply typed_ret. by right.
  - intros fd Hfd. destruct (Z.ltb_spec fd 0).
    + apply typed_get_bind. intros v2 Hv2. by apply typed_ret.
    + destruct Hfd as [|[Hi Hf]]; [lia|]. apply typed_seq; [|by apply typed_ret]. apply typed_modify. intros v2 Hv2.
      pose proof Hv2 as [_ T2 T3 T4 _ _ _]. apply set_fds_typed; [by apply table_ok_put| |done|done].
      apply fd_put_typed; [|done]. split; [done|by right].
Qed.

Lemma do_rw_typed c p n hd : typed (do_rw os c p n hd) (fun _ => True).
Proof.
  unfold do_rw. typed_step. apply typed_get_bind. intros v Hv. destruct c.
  - destruct (os_read _ _ _ _) as [w r] eqn:E. pose proof (ot_read os_types _ _ _ _ _ E) as Ho.
    apply sys_return_typed; [|done]. destruct r; [done|]. apply typed_seq; [|by apply typed_ret].
    apply typed_modify. intros v1 Hv1. apply set_guest_typed; [|done]. apply put_bytes_typed, Hv1.
  - destruct (os_write _ _ _ _) as [w r] eqn:E. pose proof (ot_write os_types _ _ _ _ _ E) as Ho.
    apply sys_return_typed; [|done]. destruct r; [done|]. by apply typed_ret.
Qed.
Lemma rw_typed c d : typed (handle_rw os c d) (fun _ => True).
Proof.
  apply process_typed, typed_get_bind. intros v Hv. typed_step. typed_step. typed_step. typed_step.
  destruct (negb _); [by apply typed_ret|]. apply process_on_fd_typed. intros hd _. apply do_rw_typed.
Qed.
Lemma close_typed d : typed (hp_handle_close os d) (fun _ => True).
Proof.
  apply process_typed, typed_get_bind. intros v Hv. apply process_on_fd_typed. intros hd Hh. unfold do_close.
  apply typed_seq.
  - apply typed_modify. intros v1 Hv1. pose proof Hv1 as [_ T2 T3 T4 _ _ _].
    apply set_fds_typed; [by apply table_ok_put| |done|done]. apply fd_put_typed; [|done]. split; [apply Hh|by left].
  - apply typed_get_bind. intros v1 Hv1. destruct (os_close _ _ _) as [w r] eqn:E.
    pose proof (ot_close os_types _ _ _ _ E) as Ho. apply sys_return_typed; [|done]. destruct r; [done|]. by apply typed_ret.
Qed.
Lemma lseek_typed d : typed (hp_handle_lseek os d) (fun _ => True).
Proof.
  apply process_typed, typed_get_bind. intros v Hv. typed_step. typed_step. typed_step. typed_step.
  apply process_on_fd_typed. intros hd Hh. apply typed_get_bind. intros v1 Hv1.
  destruct (os_lseek _ _ _ _ _) as [w r] eqn:E. pose proof (ot_lseek os_types _ _ _ _ _ _ E) as Ho.
  apply sys_return_typed; [|done]. destruct r; [done|]. by apply typed_ret.
Qed.
Lemma hp_handler_typed nr d : typed (hp_handler os nr d) (fun _ => True).
Proof.
  unfold hp_handler, hp_handle_read, hp_handle_write.
  do 5 (destruct (_ =? _); [auto using open_typed, rw_typed, close_typed, lseek_typed|]).
  destruct (_ =? _); [apply typed_halt|]. destruct (_ =? _); [|by apply typed_ret].
  unfold hp_handle_panic. apply typed_get_bind. intros v Hv. typed_step. apply typed_halt.
Qed.

(** *** The hypervisor *)

Lemma get_regs_typed : typed (get_regs fails) (fun _ => True).
Proof. unfold get_regs. destruct (fails _); [apply typed_halt|]. apply typed_get_bind. intros v Hv. by apply typed_ret. Qed.
Lemma get_sregs_typed : typed (get_sregs fails) (fun _ => True).
Proof. unfold get_sregs. destruct (fails _); [apply typed_halt|]. apply typed_get_bind. intros v Hv. by apply typed_ret. Qed.
Lemma set_regs_typed r : typed (set_regs fails r) (fun _ => True).
Proof. unfold set_regs. destruct (fails _); [apply typed_halt|]. apply typed_modify. auto with typed. Qed.
Lemma set_sregs_typed r : typed (set_sregs fails r) (fun _ => True).
Proof. unfold set_sregs. destruct (fails _); [apply typed_halt|]. apply typed_modify. auto with typed. Qed.
Lemma kvm_call_typed i : typed (kvm_call fails i) (fun _ => True).
Proof. unfold kvm_call. destruct (fails _); [apply typed_halt|by apply typed_ret]. Qed.
Lemma guest_st64_typed off x : typed (guest_st64 off x) (fun _ => True).
Proof. apply typed_modify. intros v Hv. apply set_guest_typed; [apply st_typed, Hv|done]. Qed.
#[local] Hint Resolve get_regs_typed get_sregs_typed set_regs_typed set_sregs_typed kvm_call_typed guest_st64_typed : typed.

Lemma serve_typed r : typed (serve os fails r) (fun _ => True).
Proof.
  destruct r; try apply typed_halt; [by apply typed_ret|]. cbn. apply (typed_bind _ _ (fun _ => True)).
  - unfold check_iopl. typed_step. typed_step. by apply typed_ret.
  - intros ok _. destruct (negb ok); [apply typed_halt|]. destruct (has _ _); [|apply typed_halt].
    apply (typed_bind _ _ (fun _ => True)); [apply hp_handler_typed|]. intros n _. destruct (n <? 0); [apply typed_halt|by apply typed_ret].
Qed.
Lemma execute_typed kvm_run :
  (forall v, vm_typed v -> vm_typed (kvm_run v).1) -> typed (execute os fails kvm_run) (fun _ => True).
Proof.
  intros Hr. apply typed_mloop. intros _. apply typed_get_bind. intros v Hv. specialize (Hr v Hv).
  destruct (kvm_run v) as [v' r]. apply typed_seq; [by apply typed_put|].
  apply (typed_bind _ _ (fun _ => True)); [apply serve_typed|]. intros b _. apply typed_ret. by destruct b.
Qed.
Lemma kvm_init_typed ver code : typed (kvm_init fails ver code) (fun _ => True).
Proof.
  unfold kvm_init. typed_step. typed_step. destruct (negb _); [apply typed_halt|]. typed_step.
  apply typed_seq.
  { apply typed_modify. intros v Hv. apply set_guest_typed; [|done]. apply put_bytes_typed. intros x. unfold byte_typed. lia. }
  typed_step. typed_step. apply typed_seq.
  { unfold setup_regs. typed_step. auto with typed. }
  unfold setup_long_mode, setup_paging, setup_seg_regs. apply typed_seq; repeat typed_step; auto with typed.
Qed.
Lemma push_strings_typed argv : forall sp m copy sp' m',
  (forall x, byte_typed (m x)) -> push_strings argv sp m = (copy, sp', m') -> forall x, byte_typed (m' x).
Proof.
  induction argv as [|a argv IH]; intros sp m copy sp' m' Hm; cbn; [by intros [= _ _ <-]|].
  destruct (push_strings argv sp m) as [[c1 s1] m1] eqn:E. intros [= _ _ <-]. apply put_bytes_typed. by eapply IH.
Qed.
Lemma push_words_typed ws : forall sp m sp' m',
  (forall x, byte_typed (m x)) -> push_words ws sp m = (sp', m') -> forall x, byte_typed (m' x).
Proof.
  induction ws as [|w ws IH]; intros sp m sp' m' Hm; cbn; [by intros [= _ <-]|].
  destruct (push_words ws sp m) as [s1 m1] eqn:E. intros [= _ <-]. apply st_typed. by eapply IH.
Qed.
Lemma copy_argv_typed mem_base argv : typed (copy_argv fails mem_base argv) (fun _ => True).
Proof.
  unfold copy_argv. typed_step. apply typed_get_bind. intros v Hv.
  destruct (push_strings _ _ _) as [[c1 s1] m1] eqn:E1. destruct (push_words _ _ _) as [s3 m3] eqn:E3.
  apply typed_seq; [|auto with typed]. apply typed_put, set_guest_typed; [|done]. apply st_typed.
  eapply push_words_typed; [|exact E3]. eapply push_strings_typed; [|exact E1]. apply Hv.
Qed.
End Types.

(** ** The property *)


(** A machine whose guest does nothing but halt. *)
Lemma demo_os_typed : os_typed demo_os (fun n => 0 <= n < 256).
Proof.
  split; [lia|..]; intros.
  - injection H as _ <-. unfold int_typed. lia.
  - injection H as _ <-. apply Forall_take. repeat (apply Forall_cons; split; [unfold byte_typed; lia|]). apply Forall_nil_2.
  - by injection H as _ <-.
  - injection H as _ <-. unfold int_typed. lia.
  - by injection H as _ <-.
Qed.
Definition start_vm : vm unit :=
  Vm (fun _ => 0) (replicate 256 (FdHandle 0 0)) 0 (s32 UNUSED_VAR) (s32 UNUSED_VAR) (s32 UNUSED_VAR) (s32 UNUSED_VAR) 0 demo_cpu 0 tt.
Lemma start_typed F : vm_typed F start_vm.
Proof.
  split.
  - intros x. unfold byte_typed. cbn. lia.
  - reflexivity.
  - apply Forall_replicate. split; [unfold int_typed; cbn; lia|by left].
  - by left.
  - intros []; unfold int_typed; vm_compute; split; discriminate || reflexivity.
  - cbn. lia.
  - unfold int_typed. cbn. lia.
Qed.
