(* ===== verification/Kernel.v ===== *)
(** * The guest kernel: hypercalls, user memory, system calls, exec

    kernel/hypercalls, kernel/mm/uaccess.c, kernel/mm/mmap.c, kernel/syscalls and
    kernel/kernel_main.c.  The state is the whole machine: the hypervisor's process
    with the guest's memory in it, the allocator's arena, the static variable of
    [mmap] and the model-specific registers. *)

From S2P Require Import Prelude Memory Arch KString Kmalloc Translate Hypercall Hypervisor.

Record kstate (W : Type) := KState {
  k_vm : vm W;
  k_arena : arena;
  last_mmapped : Z;
  msrs : gmap Z Z (* the model-specific registers the kernel has written *)
}.
Arguments KState {W}. Arguments k_vm {W}. Arguments k_arena {W}. Arguments last_mmapped {W}.
Arguments msrs {W}.

Section Kernel.
Context {W : Type} (os : host_os W) (fails : ioctl -> bool).
Abbreviation K := (cmd (kstate W)).

(** ** Running the parts on the whole *)

Definition heap_of (k : kstate W) : heap := Heap (guest (k_vm k)) (k_arena k).
Definition put_heap (h : heap) (k : kstate W) : kstate W :=
  KState (set_guest (h_mem h) (k_vm k)) (h_arena h) (last_mmapped k) (msrs k).
Definition on_heap {A} (m : cmd heap A) : K A := zoom heap_of put_heap m.
Definition on_vm {A} (m : cmd (vm W) A) : K A :=
  zoom k_vm (fun v k => KState v (k_arena k) (last_mmapped k) (msrs k)) m.
Definition cr3_of (k : kstate W) : Z := sr_cr3 (v_sregs (cpu (k_vm k))).
Definition with_cr3 {A} (f : Z -> cmd heap A) : K A := k ← get; on_heap (f (cr3_of k)).

(** ** Memory as kernel code sees it *)

(** The translation of an address used in kernel mode; the kernel's own addresses
    are those of [krange]. *)
Definition vtrans (m : mem) (cr3 va : Z) : option xlat :=
  match krange va 1 with
  | Some pa => Some (Xlat pa false true)
  | None => walk m cr3 va
  end.
Definition vload (va : Z) : K Z := fun k =>
  match vtrans (guest (k_vm k)) (cr3_of k) va with
  | Some x => if x_pa x <? MEM_SIZE then Ok (u8 (guest (k_vm k) (x_pa x))) k else Halt (Fault va)
  | None => Halt (Fault va)
  end.
Definition vstore (va b : Z) : K unit := fun k =>
  match vtrans (guest (k_vm k)) (cr3_of k) va with
  | Some x =>
      if (x_pa x <? MEM_SIZE) && x_rw x then
        Ok tt (put_heap (Heap (fun y => if y =? x_pa x then u8 b else guest (k_vm k) y) (k_arena k)) k)
      else Halt (Fault va)
  | None => Halt (Fault va)
  end.

(** [memcpy]: [rep movsb]. *)
Definition memcpy (dst src n : Z) : K unit :=
  mloop (fun i =>
    if i <? n then
      b ← vload (u64 (src + i)); vstore (u64 (dst + i)) b ;; mret (inl (i + 1))
    else mret (inr tt)) 0.

(** Little-endian words, byte by byte. *)
Fixpoint vload_n (n : nat) (va : Z) : K Z :=
  match n with
  | O => mret 0
  | S n' => b ← vload va; r ← vload_n n' (u64 (va + 1)); mret (b + 256 * r)
  end.
Fixpoint vstore_n (n : nat) (va v : Z) : K unit :=
  match n with
  | O => mret tt
  | S n' => vstore va v ;; vstore_n n' (u64 (va + 1)) (Z.shiftr v 8)
  end.

(** ** Hypercalls *)

(** [out dx, eax; in eax, dx]: two exits to the hypervisor. *)
Definition hypercall (port data : Z) : K Z :=
  on_vm (
    modify (set_data (u32 data)) ;;
    serve os fails (KVM_EXIT_IO port IO_OUT) ;;
    serve os fails (KVM_EXIT_IO port IO_IN) ;;
    v ← get; mret (s32 (io_data v))).

Definition hp_open (paddr : Z) : K Z := hypercall NR_HP_open (u32 paddr).
Definition hp_close (fildes : Z) : K Z := hypercall NR_HP_close (u32 fildes).

(** [hp_read] and [hp_write]: three words in a kernel buffer. *)
Definition hp_rw (nr fildes phy_addr nbyte : Z) : K Z :=
  kbuf ← on_heap (kmalloc 24 MALLOC_NO_ALIGN);
  on_heap (kstore kbuf (u64 fildes)) ;;
  on_heap (kstore (kbuf + 8) phy_addr) ;;
  on_heap (kstore (kbuf + 16) nbyte) ;;
  p ← on_heap (physical kbuf);
  ret ← hypercall nr p;
  on_heap (kfree kbuf) ;;
  mret ret.
Definition hp_read := hp_rw NR_HP_read.
Definition hp_write := hp_rw NR_HP_write.

Definition kstore32 (va v : Z) : cmd heap unit := fun h =>
  match krange va 4 with
  | Some pa => Ok tt (set_mem (st32 (h_mem h) pa v) h)
  | None => Halt (Fault va)
  end.
Definition SEEK_SET : Z := 0.
Definition hp_lseek (fildes offset whence : Z) : K Z :=
  kbuf ← on_heap (kmalloc 12 MALLOC_NO_ALIGN);
  on_heap (kstore32 kbuf (u32 fildes)) ;;
  on_heap (kstore32 (kbuf + 4) (u32 offset)) ;;
  on_heap (kstore32 (kbuf + 8) (u32 whence)) ;;
  p ← on_heap (physical kbuf);
  ret ← hypercall NR_HP_lseek p;
  on_heap (kfree kbuf) ;;
  mret ret.

(** ** User memory: kernel/mm/uaccess.c *)

Definition VERIFY_READ : Z := 0.
Definition VERIFY_WRITE : Z := 1.

Definition access_ok (type addr size : Z) : K bool :=
  if negb (USER_MEM_RANGE_OK addr) then mret false
  else if negb (USER_MEM_RANGE_OK (u64 (addr + size - 1))) then mret false
  else
    mloop (fun v =>
      if v <? alignup (addr + size) then
        r ← with_cr3 (fun cr3 => translate cr3 v 1 type);
        if r =? NO_TRANS then mret (inr false) else mret (inl (u64 (v + 0x1000)))
      else mret (inr true)) (aligndown addr).

(** The tail call of [access_string_ok] as a loop over the pages of the string. *)
Definition access_string_ok (addr : Z) : K bool :=
  mloop (fun addr =>
    ok ← access_ok VERIFY_READ addr 1;
    if negb ok then mret (inr false)
    else
      let remain_size := 0x1000 - Z.land addr 0xfff in
      l ← strnlen vload addr remain_size;
      if l =? remain_size then mret (inl (u64 (addr + l))) else mret (inr true)) addr.

Definition copy_str_from_user (s : Z) : K Z :=
  n ← strlen vload s;
  let len := s32 n in
  dst ← on_heap (kmalloc (u64 (len + 1)) MALLOC_NO_ALIGN);
  if dst =? 0 then mret 0
  else memcpy dst s (u64 (len + 1)) ;; mret dst.

(** ** Mappings: kernel/mm/mmap.c *)

Definition mmap (addr len prot : Z) : K Z :=
  if (len =? 0) || nonzero (Z.land len 0xfff) then panic "mmap.c: invalid length"
  else
    ret ← on_heap (kmalloc len MALLOC_PAGE_ALIGN);
    if ret =? 0 then mret 0
    else
      modify (fun k => if last_mmapped k =? u64 (-1)
                       then KState (k_vm k) (k_arena k) 0x00007ffff7fff000 (msrs k) else k) ;;
      k ← get;
      let addr' := if addr =? 0 then u64 (last_mmapped k - len) else addr in
      modify (fun k => if addr =? 0 then KState (k_vm k) (k_arena k) addr' (msrs k) else k) ;;
      mloop (fun i =>
        if i <? len then
          with_cr3 (fun cr3 => add_trans_user cr3 (u64 (addr' + i)) (u64 (ret + i)) prot) ;;
          mret (inl (i + 0x1000))
        else mret (inr tt)) 0 ;;
      mret addr'.

Definition mprotect (addr len prot : Z) : K Z :=
  if negb (alignok addr) then mret (- EINVAL)
  else
    mloop (fun i =>
      if i <? len then
        if negb (USER_MEM_RANGE_OK (u64 (addr + i))) then mret (inr (- EACCES))
        else
          r ← with_cr3 (fun cr3 => modify_permission cr3 (u64 (addr + i)) prot);
          if negb (r =? 0) then mret (inr (- EACCES)) else mret (inl (i + 0x1000))
      else mret (inr 0)) 0.

(** ** System calls *)

Definition sys_open (path : Z) : K Z :=
  ok ← access_string_ok path;
  if negb ok then mret (- EFAULT)
  else
    dst ← copy_str_from_user path;
    if dst =? 0 then mret (- ENOMEM)
    else
      p ← on_heap (physical dst);
      fd ← hp_open p;
      on_heap (kfree dst) ;;
      mret fd.

Definition sys_close := hp_close.

Definition sys_read (fildes buf nbyte : Z) : K Z :=
  if fildes <? 0 then mret (- EBADF)
  else
    ok ← access_ok VERIFY_WRITE buf nbyte;
    if negb ok then mret (- EFAULT)
    else
      dst ← on_heap (kmalloc nbyte MALLOC_NO_ALIGN);
      p ← on_heap (physical dst);
      ret ← hp_read fildes p nbyte;
      (if 0 <=? ret then memcpy buf dst ret else mret tt) ;;
      on_heap (kfree dst) ;;
      mret ret.

Definition sys_write (fildes buf nbyte : Z) : K Z :=
  if fildes <? 0 then mret (- EBADF)
  else
    ok ← access_ok VERIFY_READ buf nbyte;
    if negb ok then mret (- EFAULT)
    else
      dst ← on_heap (kmalloc nbyte MALLOC_NO_ALIGN);
      memcpy dst buf nbyte ;;
      p ← on_heap (physical dst);
      ret ← hp_write fildes p nbyte;
      on_heap (kfree dst) ;;
      mret ret.

Definition sys_exit (status : Z) : K Z := hypercall NR_HP_exit (u32 status).

Definition MAP_FIXED : Z := 0x10.
Definition sys_mmap (addr len prot flags fd offset : Z) : K Z :=
  if negb (alignok addr) then mret (- EINVAL)
  else if len =? 0 then mret (- EINVAL)
  else
    let addr := if has flags MAP_FIXED then addr else 0 in
    if has flags MAP_FIXED && negb (addr =? 0) && negb (USER_MEM_RANGE_OK addr)
    then mret (- EINVAL)
    else
      let aligned_len := alignup len in
      addr ← mmap addr aligned_len (Z.lor prot PROT_RW);
      if addr =? 0 then mret (- ENOMEM)
      else
        r ← (if 0 <=? fd then
               ret ← hp_lseek fd (u32 offset) SEEK_SET;
               if ret <? 0 then mret (Some ret)
               else
                 p ← with_cr3 (fun cr3 => translate cr3 addr 1 1);
                 hp_read fd p len ;;
                 mret None
             else mret None);
        match r with
        | Some e => mret e
        | None => mprotect addr aligned_len prot ;; mret addr
        end.

Definition SYS_read : Z := 0.
Definition SYS_write : Z := 1.
Definition SYS_open : Z := 2.
Definition SYS_close : Z := 3.
Definition SYS_exit : Z := 60.
Definition MAX_SYS_NR : Z := 60.

Inductive syscall := ScRead | ScWrite | ScOpen | ScClose | ScExit.
Definition syscall_table (nr : Z) : option syscall :=
  if nr =? SYS_read then Some ScRead
  else if nr =? SYS_write then Some ScWrite
  else if nr =? SYS_open then Some ScOpen
  else if nr =? SYS_close then Some ScClose
  else if nr =? SYS_exit then Some ScExit
  else None.

(** [syscall_handler]; the number is EAX, the arguments are the user's registers,
    converted to the parameter types of the function called. *)
Definition syscall_handler (nr arg0 arg1 arg2 : Z) : K Z :=
  if MAX_SYS_NR <? u32 nr then mret (u64 (- ENOSYS))
  else match syscall_table (u32 nr) with
       | None => mret (u64 (- ENOSYS))
       | Some ScRead => r ← sys_read (s32 arg0) arg1 arg2; mret (u64 r)
       | Some ScWrite => r ← sys_write (s32 arg0) arg1 arg2; mret (u64 r)
       | Some ScOpen => r ← sys_open arg0; mret (u64 r)
       | Some ScClose => r ← sys_close (s32 arg0); mret (u64 r)
       | Some ScExit => r ← sys_exit (s32 arg0); mret (u64 r)
       end.

End Kernel.
