(* ===== verification/Exec.v ===== *)
(** * Starting a program: kernel/syscalls/sys_execve.c and kernel/kernel_main.c *)

From S2P Require Import Prelude Memory Arch KString Kmalloc Translate Hypercall Hypervisor.
From S2P Require Import Kernel.

Record process := Process {
  load_addr : Z; p_entry : Z; stack_base : Z; stack_size : Z; p_rsp : Z
}.

(** The ELF header: magic, 64-bit, little-endian, version 1, padding. *)
Definition ELF_IDENT : list Z := [0x7f; 69; 76; 70; 2; 1; 1; 0; 0; 0; 0; 0; 0; 0; 0; 0].
Definition ET_EXEC : Z := 2.
Definition ET_DYN : Z := 3.
Definition PT_LOAD : Z := 1.
Definition SIZEOF_EHDR : Z := 64.
Definition SIZEOF_PHDR : Z := 56.

(** How control leaves [sys_execve]: an error, or [sysret] to user mode. *)
Inductive exec_result := ExecError (e : Z) | EnterUser (rip rsp : Z).

Section Exec.
Context {W : Type} (os : host_os W) (fails : ioctl -> bool).
Abbreviation K := (cmd (kstate W)).

(** [memcmp(p, l, length l) == 0]. *)
Fixpoint same_bytes (p : Z) (l : list Z) : K bool :=
  match l with
  | [] => mret true
  | c :: l' => b ← vload p; if b =? c then same_bytes (u64 (p + 1)) l' else mret false
  end.

(** One program header: [None] to go on, [Some e] to return [e]. *)
Definition load_segment (fd base phdr : Z) : K (option Z) :=
  p_type ← vload_n 4 phdr;
  if negb (p_type =? PT_LOAD) then mret None
  else
    p_flags ← vload_n 4 (phdr + 4);
    p_offset ← vload_n 8 (phdr + 8);
    p_vaddr ← vload_n 8 (phdr + 16);
    sz ← vload_n 8 (phdr + 32);
    p_memsz ← vload_n 8 (phdr + 40);
    let st := u64 (base + aligndown p_vaddr) in
    let ed := u64 (base + alignup (u64 (p_vaddr + sz))) in
    let prot := pf_to_prot p_flags in
    r ← sys_mmap os fails st (u64 (sz + Z.land p_offset 0xfff)) prot MAP_FIXED fd
          (Z.land p_offset (u64 (-0x1000)));
    if negb (u64 r =? st) then mret (Some (s32 r))
    else if sz <? p_memsz then
      let bss_ed := u64 (base + alignup (u64 (p_vaddr + p_memsz))) in
      if negb (bss_ed =? ed) then
        r ← mmap ed (u64 (bss_ed - ed)) prot;
        mret (if negb (r =? ed) then Some (- ENOMEM) else None)
      else mret None
    else mret None.

Definition load_binary (fd : Z) : K (Z + process) :=
  buf ← on_heap (kmalloc 0x1000 MALLOC_NO_ALIGN);
  pa ← on_heap (physical buf);
  hp_read os fails fd pa 0x1000 ;;
  ok ← same_bytes buf ELF_IDENT;
  if negb ok then mret (inl (- ENOEXEC))
  else
    e_entry ← vload_n 8 (buf + 24);
    e_type ← vload_n 2 (buf + 16);
    if negb (e_type =? ET_EXEC) && negb (e_type =? ET_DYN) then mret (inl (- ENOEXEC))
    else
      let base := if e_type =? ET_DYN then 0x0000555555554000 else 0 in
      e_phoff ← vload_n 8 (buf + 32);
      if negb (e_phoff =? SIZEOF_EHDR) then mret (inl (- EINVAL))
      else
        e_phentsize ← vload_n 2 (buf + 54);
        if negb (e_phentsize =? SIZEOF_PHDR) then mret (inl (- EINVAL))
        else
          e_phnum ← vload_n 2 (buf + 56);
          if 0x1000 <? u64 (e_phoff + e_phentsize * e_phnum) then mret (inl (- EINVAL))
          else
            e ← mloop (fun '(i, phdr) =>
                  if i <? e_phnum then
                    r ← load_segment fd base phdr;
                    match r with
                    | Some e => mret (inr (Some e))
                    | None => mret (inl (i + 1, phdr + SIZEOF_PHDR))
                    end
                  else mret (inr None)) (0, buf + e_phoff);
            match e with
            | Some e => mret (inl e)
            | None =>
                let base_st := 0x00007ffffffff000 in
                let size := 0x40000 in
                let st := base_st - size in
                r ← mmap st size PROT_RW;
                if negb (r =? st) then mret (inl (- ENOMEM))
                else mret (inr (Process base e_entry base_st size (base_st - 0x1000)))
            end.

Definition check_and_get_count (ary : Z) : K Z :=
  ok ← access_ok VERIFY_READ ary 8;
  if negb ok then mret (- EFAULT)
  else
    mloop (fun '(ary, i) =>
      s ← vload_n 8 ary;
      if s =? 0 then mret (inr i)
      else
        ok ← access_string_ok s;
        if negb ok then mret (inr (- EFAULT))
        else
          ok ← access_ok VERIFY_READ (u64 (ary + 8)) 8;
          if negb ok then mret (inr (- EFAULT)) else mret (inl (u64 (ary + 8), i + 1))) (ary, 0).

(** One of the two loops that push strings: entries [n-1 .. 0] of [ary], their
    addresses stored from [copy] on; the result is the new stack pointer. *)
Definition push_args (ary copy n sp : Z) : K Z :=
  mloop (fun '(i, sp) =>
    if 0 <=? i then
      s ← vload_n 8 (u64 (ary + 8 * i));
      l ← strlen vload s;
      let len := u64 (l + 1) in
      let sp := u64 (sp - len) in
      vstore_n 8 (copy + 8 * i) sp ;;
      s ← vload_n 8 (u64 (ary + 8 * i));
      memcpy sp s len ;;
      mret (inl (i - 1, sp))
    else mret (inr sp)) (n - 1, sp).

Definition create_elf_info (p : process) (argv envp : Z) : K (Z + process) :=
  argc ← check_and_get_count argv;
  if argc <? 0 then mret (inl argc)
  else
    envc ← check_and_get_count envp;
    if envc <? 0 then mret (inl envc)
    else
      copy ← on_heap (kmalloc ((argc + envc + 2) * 8) MALLOC_NO_ALIGN);
      sp ← push_args envp (copy + 8 * (argc + 1)) envc (p_rsp p);
      sp ← push_args argv copy argc sp;
      let sp := Z.land sp (u64 (-0x10)) in
      let sp := if nonzero (Z.land (argc + 1 + envc + 1 + 1) 1) then u64 (sp - 8) else sp in
      sp ← mloop (fun '(i, sp) =>
             if 0 <=? i then
               c ← vload_n 8 (copy + 8 * i);
               vstore_n 8 (u64 (sp - 8)) c ;;
               mret (inl (i - 1, u64 (sp - 8)))
             else mret (inr sp)) (argc + envc + 1, sp);
      on_heap (kfree copy) ;;
      vstore_n 8 (u64 (sp - 8)) argc ;;
      mret (inr (Process (load_addr p) (p_entry p) (stack_base p) (stack_size p) (u64 (sp - 8)))).

Definition sys_execve (path argv envp : Z) : K exec_result :=
  fd ← sys_open os fails path;
  if fd <? 0 then mret (ExecError fd)
  else
    r ← load_binary fd;
    match r with
    | inl e => mret (ExecError e)
    | inr p =>
        sys_close os fails fd ;;
        r ← create_elf_info p argv envp;
        match r with
        | inl _ => mret (ExecError (- EFAULT))
        | inr p => mret (EnterUser (u64 (p_entry p + load_addr p)) (p_rsp p))
        end
    end.

(** ** kernel_main.c *)

Definition switch_user (argc argv : Z) : K exec_result :=
  last ← vload_n 8 (u64 (argv + 8 * (argc - 1)));
  l ← strlen vload last;
  let total_len := s32 (last + l + 1 - argv) in
  s ← on_heap (kmalloc (u64 total_len) MALLOC_PAGE_ALIGN);
  sp ← on_heap (physical s);
  with_cr3 (fun cr3 => add_trans_user cr3 sp sp PROT_RW) ;;
  mloop (fun i =>
    if i <? argc then
      a ← vload_n 8 (u64 (argv + 8 * i));
      vstore_n 8 (u64 (argv + 8 * i)) (u64 (a - argv + sp)) ;;
      mret (inl (i + 1))
    else mret (inr tt)) 0 ;;
  memcpy s argv (u64 total_len) ;;
  path ← vload_n 8 argv;
  sys_execve path sp (u64 (sp + argc * 8)).

Definition MSR_STAR : Z := 0xc0000081.
Definition MSR_LSTAR : Z := 0xc0000082.
Definition MSR_SYSCALL_MASK : Z := 0xc0000084.
(** [wrmsr]: edx:eax into the register ecx. *)
Definition wrmsr (ecx edx eax : Z) : K unit :=
  modify (fun k => KState (k_vm k) (k_arena k) (last_mmapped k)
                     (<[ecx := Z.lor (Z.shiftl (u32 edx) 32) (u32 eax)]> (msrs k))).

(** [syscall_entry] is the address of the entry code of syscall_entry.s as [rip + syscall_entry]
    gives it while the kernel runs at its low addresses. *)
Definition register_syscall (syscall_entry : Z) : K Z :=
  wrmsr MSR_STAR 0x00200008 0 ;;
  wrmsr MSR_SYSCALL_MASK 0 0x3f7fd5 ;;
  wrmsr MSR_LSTAR (Z.shiftr KERNEL_BASE_OFFSET 32) syscall_entry ;;
  mret 0.

Definition kernel_main (syscall_entry addr len argc argv : Z) : K exec_result :=
  with_cr3 init_pagetable ;;
  on_heap (init_allocator (Z.lor addr KERNEL_BASE_OFFSET) len) ;;
  r ← register_syscall syscall_entry;
  if negb (r =? 0) then mret (ExecError 1)
  else switch_user argc argv.

End Exec.
