(* ===== verification/KernelProof.v ===== *)
(** * User memory checks and system call entry

    [access_ok] accepts exactly the ranges whose pages the processor lets user mode
    access, so kernel copies to and from an accepted range do not fault; system
    calls with bad numbers, descriptors or buffers return their error and change
    nothing. *)

From S2P Require Import Prelude Memory Arch KString Kmalloc KmallocSpec KmallocProof KmallocRefine.
From S2P Require Import KmallocSafety Translate TranslateProof PageTables Hypercall Hypervisor HypercallProof HypervisorProof.
From S2P Require Import Kernel.

(** ** Walks and pages *)

Lemma same_page_div va va' bits :
  12 <= bits -> va / 4096 = va' / 4096 -> va / 2 ^ bits = va' / 2 ^ bits.
Proof.
  intros Hb H. replace (2 ^ bits) with (4096 * 2 ^ (bits - 12))
    by (change 4096 with (2 ^ 12); rewrite <- Z.pow_add_r by lia; f_equal; lia).
  rewrite <- !Z.div_div by lia. by rewrite H.
Qed.
Lemma same_page_index va va' bits :
  12 <= bits -> va / 4096 = va' / 4096 -> tbl_index va bits = tbl_index va' bits.
Proof. intros Hb H. rewrite !tbl_index_div by lia. by rewrite (same_page_div va va'). Qed.
Lemma same_page_mod va va' bits :
  12 <= bits -> va / 4096 = va' / 4096 -> va' mod 2 ^ bits = va mod 2 ^ bits + (va' - va).
Proof.
  intros Hb H. pose proof (same_page_div va va' bits Hb H) as Hd.
  pose proof (Z.div_mod va (2 ^ bits)). pose proof (Z.div_mod va' (2 ^ bits)). nia.
Qed.

(** Addresses of one page have one translation, up to the offset. *)
Lemma walk_same_page m cr3 va va' :
  0 <= va < 2 ^ 47 -> 0 <= va' < 2 ^ 47 -> va / 4096 = va' / 4096 ->
  walk m cr3 va' =
    match walk m cr3 va with
    | Some x => Some (Xlat (x_pa x + (va' - va)) (x_user x) (x_rw x))
    | None => None
    end.
Proof.
  intros H H' Hp. unfold walk.
  replace ((0 <=? va') && (va' <? 2 ^ 47)) with true by lia.
  replace ((0 <=? va) && (va <? 2 ^ 47)) with true by lia. cbn [negb]. unfold entry.
  rewrite !(same_page_index va' va) by (lia || done).
  repeat (case_match; cbn [x_pa x_user x_rw negb]; try done);
    rewrite (same_page_mod va va') by (lia || done); f_equal; f_equal; lia.
Qed.

Section Access.
Context {W : Type}.
Implicit Types k : kstate W.

Lemma put_heap_id k : put_heap (heap_of k) k = k.
Proof. by destruct k as [[] ? ?]. Qed.
Lemma on_heap_ok {A} (m : cmd heap A) k a h :
  m (heap_of k) = Ok a h -> on_heap m k = Ok a (put_heap h k).
Proof. unfold on_heap, zoom. by intros ->. Qed.

(** The processor's view of an address of the current address space. *)
Definition kwalk (k : kstate W) (va : Z) : option xlat := walk (guest (k_vm k)) (cr3_of k) va.
Definition user_can (k : kstate W) (write : bool) (va : Z) : bool :=
  match kwalk k va with Some x => permits true write (x_user x) (x_rw x) | None => false end.

(** The page tables of a range are in RAM. *)
Definition tables_ok (k : kstate W) (lo hi : Z) : Prop :=
  forall va, lo <= va < hi -> path_ok (guest (k_vm k)) (cr3_of k) va /\
             match kwalk k va with Some x => x_pa x < MEM_SIZE | None => True end.

(** What [access_ok] relies on for an address: [translate] answers whether user mode may. *)
Definition checks (k : kstate W) (type va : Z) : Prop :=
  exists r, with_cr3 (fun cr3 => translate cr3 va 1 type) k = Ok r k /\
            (r =? NO_TRANS) = negb (user_can k (nonzero type) va).

Lemma translate_user k va type :
  path_ok (guest (k_vm k)) (cr3_of k) va ->
  (forall x, kwalk k va = Some x -> x_pa x < MEM_SIZE) ->
  checks k type va.
Proof.
  intros Hp Hm. exists (walk_result true (nonzero type) (kwalk k va)). split.
  - unfold with_cr3. rewrite bind_get. erewrite on_heap_ok; [|exact (translate_run _ _ _ _ _ _ Hp)].
    by rewrite (put_heap_id k : put_heap (Heap (guest (k_vm k)) (k_arena k)) k = k).
  - unfold walk_result, user_can. destruct (kwalk k va) as [x|]; [|done].
    destruct (permits _ _ _ _); [|done]. specialize (Hm x eq_refl).
    apply Z.eqb_neq. unfold NO_TRANS, MEM_SIZE, PS_LIMIT in *. change (u64 (-1)) with (2 ^ 64 - 1). lia.
Qed.

Lemma tables_check k type lo hi va : tables_ok k lo hi -> lo <= va < hi -> checks k type va.
Proof.
  intros Ht Hva. destruct (Ht va Hva) as [Hp Hm]. apply translate_user; [done|]. intros x Hx. by rewrite Hx in Hm.
Qed.

(** Every page of [n] pages from [v] is accessible. *)
Fixpoint pages_ok (k : kstate W) (write : bool) (v : Z) (n : nat) : bool :=
  match n with
  | O => true
  | S n' => user_can k write v && pages_ok k write (v + 4096) n'
  end.

Lemma pages_ok_spec k write n : forall v,
  pages_ok k write v n = true <->
  forall i, 0 <= i < Z.of_nat n -> user_can k write (v + 4096 * i) = true.
Proof.
  induction n as [|n IH]; intros v; cbn [pages_ok]; [split; [lia|done]|].
  rewrite andb_true_iff, IH. split.
  - intros [H0 Hn] i Hi. destruct (Z.eq_dec i 0) as [->|Hne]; [by rewrite Z.add_0_r|].
    replace (v + 4096 * i) with (v + 4096 + 4096 * (i - 1)) by lia. apply Hn. lia.
  - intros H. split; [rewrite <- (Z.add_0_r v); apply (H 0); lia|].
    intros i Hi. replace (v + 4096 + 4096 * i) with (v + 4096 * (i + 1)) by lia. apply H. lia.
Qed.

(** The loop of [access_ok] over [n] pages from [v]. *)
Definition access_body (type hi v : Z) : cmd (kstate W) (Z + bool) :=
  if v <? hi then
    r ← with_cr3 (fun cr3 => translate cr3 v 1 type);
    if r =? NO_TRANS then mret (inr false) else mret (inl (u64 (v + 0x1000)))
  else mret (inr true).

Lemma access_loop k type n : forall v,
  0 <= v -> v + 4096 * Z.of_nat n <= 2 ^ 48 -> (forall va, v <= va < v + 4096 * Z.of_nat n -> checks k type va) ->
  run (mbody (access_body type (v + 4096 * Z.of_nat n))) (S n) (v, k) =
    inr (Ok (pages_ok k (nonzero type) v n) k).
Proof.
  induction n as [|n IH]; intros v Hv Hhi Ht.
  - apply mbody_done. unfold access_body. by rewrite (proj2 (Z.ltb_ge _ _)) by lia.
  - destruct (Ht v) as (r & Hr & Er); [lia|].
    cbn [pages_ok].
    destruct (user_can k (nonzero type) v) eqn:Eu; cbn [andb].
    + erewrite mbody_next.
      2:{ unfold access_body. rewrite (proj2 (Z.ltb_lt _ _)) by lia.
          rewrite (bind_ok _ _ _ _ _ Hr), Er. reflexivity. }
      rewrite u64_small by lia.
      replace (v + 4096 * Z.of_nat (S n)) with (v + 4096 + 4096 * Z.of_nat n) by lia.
      apply IH; [lia..|]. intros va Hva. apply Ht. lia.
    + apply mbody_done. unfold access_body. rewrite (proj2 (Z.ltb_lt _ _)) by lia.
      by rewrite (bind_ok _ _ _ _ _ Hr), Er.
Qed.

Lemma user_can_page k write va va' :
  0 <= va -> 0 <= va' -> va / 4096 = va' / 4096 -> user_can k write va = user_can k write va'.
Proof.
  intros H H' Hp. unfold user_can, kwalk. destruct (Z.ltb_spec va (2 ^ 47)) as [Hl|Hl].
  - rewrite (walk_same_page _ _ va va'); [by destruct (walk _ _ va)|lia| |done].
    pose proof (Z.div_mod va 4096). pose proof (Z.mod_pos_bound va 4096).
    pose proof (Z.div_mod va' 4096). pose proof (Z.mod_pos_bound va' 4096). lia.
  - assert (2 ^ 47 <= va') as Hl'.
    { pose proof (Z.div_mod va 4096). pose proof (Z.mod_pos_bound va 4096).
      pose proof (Z.div_mod va' 4096). pose proof (Z.mod_pos_bound va' 4096). lia. }
    unfold walk. rewrite !(proj2 (Z.ltb_ge _ _)), !andb_false_r by lia. done.
Qed.

Lemma alignup_val v : 0 <= v <= 2 ^ 48 -> alignup v = 4096 * ((v + 4095) / 4096) /\ 0 <= alignup v <= 2 ^ 48.
Proof.
  intros Hv. destruct (alignup_spec v) as [H1 H2]; [lia|].
  pose proof (Z.div_mod (alignup v) 4096 ltac:(lia)) as Hd. rewrite H1 in Hd.
  assert ((v + 4095) / 4096 = alignup v / 4096) as ->.
  { symmetry. apply (Z.div_unique _ _ _ (v + 4095 - alignup v)); lia. }
  pose proof (Z.div_mod (v + 4095) 4096). lia.
Qed.

Lemma access_ok_run k type addr size :
  0 <= addr -> 0 < size -> addr + size <= 2 ^ 48 ->
  USER_MEM_RANGE_OK addr = true -> USER_MEM_RANGE_OK (u64 (addr + size - 1)) = true ->
  (forall va, aligndown addr <= va < alignup (addr + size) -> checks k type va) ->
  access_ok type addr size k =
    Ok (pages_ok k (nonzero type) (aligndown addr)
          (Z.to_nat ((addr + size + 4095) / 4096 - addr / 4096))) k.
Proof.
  intros H1 H2 H3 R1 R2 Ht. unfold access_ok. rewrite R1, R2. cbn [negb].
  destruct (alignup_val (addr + size)) as [Hup Hup2]; [lia|].
  rewrite aligndown_mod in * by lia. pose proof (Z.div_mod addr 4096 ltac:(lia)) as Hd.
  pose proof (Z.mod_pos_bound addr 4096 ltac:(lia)) as Hm.
  set (n := (addr + size + 4095) / 4096 - addr / 4096) in *.
  assert (0 <= n) as Hn.
  { enough (addr / 4096 <= (addr + size + 4095) / 4096) by lia. apply Z.div_le_mono; lia. }
  assert (alignup (addr + size) = addr - addr mod 4096 + 4096 * Z.of_nat (Z.to_nat n)) as Ehi by lia.
  eapply (mloop_result _ (S (Z.to_nat n))); [|lia].
  rewrite Ehi in Ht |- *. apply access_loop; [lia..|done].
Qed.

Lemma user_vload k va x :
  kwalk k va = Some x -> x_pa x < MEM_SIZE -> krange va 1 = None -> vload va k = Ok (u8 (guest (k_vm k) (x_pa x))) k.
Proof.
  intros Hw Hm Hk. unfold vload, vtrans. rewrite Hk. unfold kwalk in Hw. rewrite Hw.
  by rewrite (proj2 (Z.ltb_lt _ _)).
Qed.
End Access.

(** ** The properties *)

Lemma user_range_not_kernel va :
  0 <= va < 2 ^ 47 -> KERNEL_PAGING_SIZE <= va -> va / 2 ^ 39 <> 1 -> krange va 1 = None.
Proof.
  intros H1 H2 H3. destruct (krange va 1) eqn:E; [|done]. exfalso.
  apply krange_inv in E as [(E1 & E2 & _)|(E1 & E2 & _)]; [|lia].
  apply H3. symmetry. apply (Z.div_unique _ _ _ (va - 2 ^ 39));
    unfold KERNEL_BASE_OFFSET, MEM_SIZE, PS_LIMIT in *; lia.
Qed.

Lemma user_range_ok va :
  0 <= va < 2 ^ 47 ->
  USER_MEM_RANGE_OK va = true <-> KERNEL_PAGING_SIZE <= va /\ va / 2 ^ 39 <> 1.
Proof.
  intros H. unfold USER_MEM_RANGE_OK. rewrite u64_small by lia.
  rewrite !Z.shiftr_div_pow2 by lia. rewrite (Z.div_small va (2 ^ 48)) by lia.
  change MIN_USER_MEM with KERNEL_PAGING_SIZE. rewrite Z.eqb_refl.
  rewrite !andb_true_iff, negb_true_iff, Z.leb_le, Z.eqb_neq. tauto.
Qed.

Lemma access_ok_checks {W} (k : kstate W) type addr size :
  0 <= addr -> 0 < size -> addr + size <= 2 ^ 48 ->
  (USER_MEM_RANGE_OK addr = true -> USER_MEM_RANGE_OK (addr + size - 1) = true ->
   forall va, aligndown addr <= va < alignup (addr + size) -> checks k type va) ->
  exists b, access_ok type addr size k = Ok b k /\
    (b = true <->
     USER_MEM_RANGE_OK addr = true /\ USER_MEM_RANGE_OK (addr + size - 1) = true /\
     forall va, addr <= va < addr + size -> user_can k (nonzero type) va = true).
Proof.
  intros H1 H2 H3 Ht. destruct (USER_MEM_RANGE_OK addr) eqn:R1.
  2:{ exists false. split; [|split; [done|intros (? & _); done]]. unfold access_ok. by rewrite R1. }
  destruct (USER_MEM_RANGE_OK (addr + size - 1)) eqn:R2.
  2:{ exists false. split; [|split; [done|intros (_ & ? & _); done]].
      unfold access_ok. rewrite R1, (u64_small (_ - 1)) by lia. by rewrite R2. }
  eexists. split; [apply access_ok_run; try done; [by rewrite u64_small by lia|by apply Ht]|].
  destruct (alignup_val (addr + size)) as [Hup Hup2]; [lia|].
  rewrite aligndown_mod in * by lia. pose proof (Z.div_mod addr 4096 ltac:(lia)) as Hd.
  pose proof (Z.mod_pos_bound addr 4096 ltac:(lia)) as Hm.
  pose proof (Z.div_mod (addr + size + 4095) 4096 ltac:(lia)) as Hd2.
  pose proof (Z.mod_pos_bound (addr + size + 4095) 4096 ltac:(lia)) as Hm2.
  rewrite pages_ok_spec. split.
  - intros Hall. split; [done|]. split; [done|]. intros va Hva.
    pose proof (Z.div_mod va 4096 ltac:(lia)) as Hd3.
    pose proof (Z.mod_pos_bound va 4096 ltac:(lia)) as Hm3.
    rewrite (user_can_page k _ va (va / 4096 * 4096)) by (rewrite ?Z.div_mul; lia).
    replace (va / 4096 * 4096) with (addr - addr mod 4096 + 4096 * (va / 4096 - addr / 4096)) by lia.
    apply Hall. lia.
  - intros (_ & _ & Hall) i Hi.
    set (va := Z.max addr (addr - addr mod 4096 + 4096 * i)).
    assert (va / 4096 = addr / 4096 + i) as Hq
      by (symmetry; apply (Z.div_unique _ _ _ (va - 4096 * (addr / 4096 + i))); lia).
    replace (addr - addr mod 4096 + 4096 * i) with ((addr / 4096 + i) * 4096) by lia.
    rewrite (user_can_page k _ _ va) by (rewrite ?Z.div_mul; lia). apply Hall. lia.
Qed.

Lemma access_ok_spec {W} (k : kstate W) type addr size :
  0 <= addr -> 0 < size -> addr + size <= 2 ^ 47 ->
  tables_ok k (aligndown addr) (alignup (addr + size)) ->
  exists b, access_ok type addr size k = Ok b k /\
    (b = true <->
     USER_MEM_RANGE_OK addr = true /\ USER_MEM_RANGE_OK (addr + size - 1) = true /\
     forall va, addr <= va < addr + size -> user_can k (nonzero type) va = true).
Proof.
  intros H1 H2 H3 Ht. apply access_ok_checks; [lia..|]. intros _ _ va Hva. by eapply tables_check.
Qed.


(** Kernel accesses to a range [access_ok] accepted do not fault: every byte can be
    loaded, and stored to if the check was for writing. *)
Theorem access_ok_no_fault {W} (k : kstate W) type addr size va :
  0 <= addr -> 0 < size -> addr + size <= 2 ^ 47 ->
  tables_ok k (aligndown addr) (alignup (addr + size)) ->
  access_ok type addr size k = Ok true k -> addr <= va < addr + size ->
  (exists b, vload va k = Ok b k) /\
  (nonzero type = true -> forall b, exists k', vstore va b k = Ok tt k').
Proof.
  intros H1 H2 H3 Ht Hok Hva.
  destruct (access_ok_spec k type addr size H1 H2 H3 Ht) as (b & Hb & Hspec).
  rewrite Hok in Hb. injection Hb as <-. destruct (proj1 Hspec eq_refl) as (_ & _ & Hu).
  specialize (Hu va Hva). unfold user_can in Hu.
  destruct (alignup_spec (addr + size)) as [_ Hup]; [lia|].
  rewrite aligndown_mod in Ht by lia. pose proof (Z.mod_pos_bound addr 4096 ltac:(lia)).
  destruct (Ht va) as [_ Hm]; [lia|]. unfold vload, vstore, vtrans, kwalk in *.
  destruct (krange va 1) as [pa|] eqn:E.
  - cbn [x_pa x_rw]. assert (pa < MEM_SIZE) as Hp.
    { apply krange_inv in E. unfold KERNEL_PAGING_SIZE, MEM_SIZE, PS_LIMIT in *. lia. }
    rewrite (proj2 (Z.ltb_lt _ _)) by done. cbn [andb]. eauto.
  - destruct (walk _ _ va) as [x|]; [|done]. rewrite (proj2 (Z.ltb_lt _ _)) by done.
    split; [by eauto|]. intros Hn b. rewrite Hn in Hu. unfold permits in Hu. cbn in Hu.
    destruct (x_rw x); [|by rewrite andb_false_r in Hu]. cbn [andb]. eauto.
Qed.

(** The end of a range is computed modulo [2^64]: a range that wraps around to a user
    address below its start is accepted, whatever is mapped, because no page of it is
    looked at. *)
Theorem access_ok_wraps {W} (k : kstate W) type addr e :
  KERNEL_PAGING_SIZE < e -> e + 0x1000 <= addr < 2 ^ 39 ->
  access_ok type addr (2 ^ 64 + e - addr) k = Ok true k.
Proof.
  intros He Ha. unfold KERNEL_PAGING_SIZE in *. unfold access_ok.
  replace (addr + (2 ^ 64 + e - addr)) with (e + 1 * 2 ^ 64) by lia.
  assert (u64 (e + 1 * 2 ^ 64 - 1) = e - 1) as ->.
  { unfold u64. symmetry. apply Z.mod_unique with 1; lia. }
  assert (alignup (e + 1 * 2 ^ 64) = alignup e) as ->.
  { unfold alignup, aligndown, u64. by rewrite Z.mod_add by lia. }
  assert (Hu : forall va, 0x200000 <= va < 2 ^ 39 -> USER_MEM_RANGE_OK va = true).
  { intros va Hva. apply user_range_ok; [lia|]. rewrite Z.div_small by lia. unfold KERNEL_PAGING_SIZE. split; [lia|done]. }
  rewrite !Hu by lia. cbn [negb].
  destruct (alignup_spec e) as [_ Hup]; [lia|].
  apply (mloop_result _ 1%nat); [|lia].
  apply mbody_done. rewrite aligndown_mod by lia.
  pose proof (Z.mod_pos_bound addr 4096 ltac:(lia)).
  destruct (Z.ltb_spec (addr - addr mod 4096) (alignup e)); [|done].
  exfalso. destruct (alignup_spec e) as [Hz _]; [lia|].
  pose proof (Z.div_mod addr 4096 ltac:(lia)). pose proof (Z.div_mod (alignup e) 4096 ltac:(lia)). lia.
Qed.

(** Unknown system calls are answered with ENOSYS and change nothing. *)
Theorem syscall_unknown {W} (os : host_os W) fails nr a0 a1 a2 k :
  0 <= nr < 2 ^ 32 -> ~ In nr [SYS_read; SYS_write; SYS_open; SYS_close; SYS_exit] ->
  syscall_handler os fails nr a0 a1 a2 k = Ok (u64 (- ENOSYS)) k.
Proof.
  intros Hnr Hn. unfold syscall_handler. rewrite u32_small by done. cbn [In] in Hn.
  destruct (MAX_SYS_NR <? nr); [done|]. unfold syscall_table.
  rewrite !(proj2 (Z.eqb_neq nr _)) by (intros ->; tauto). done.
Qed.

(** [read] and [write] refuse a negative descriptor with EBADF and a buffer the
    caller may not access with EFAULT, and then have changed nothing. *)
Theorem sys_rw_rejects {W} (os : host_os W) fails fd buf n k :
  0 <= buf -> 0 < n -> buf + n <= 2 ^ 47 -> tables_ok k (aligndown buf) (alignup (buf + n)) ->
  (fd < 0 -> sys_read os fails fd buf n k = Ok (- EBADF) k /\
             sys_write os fails fd buf n k = Ok (- EBADF) k) /\
  (forall va, 0 <= fd -> buf <= va < buf + n ->
     (user_can k true va = false -> sys_read os fails fd buf n k = Ok (- EFAULT) k) /\
     (user_can k false va = false -> sys_write os fails fd buf n k = Ok (- EFAULT) k)).
Proof.
  intros H1 H2 H3 Ht. unfold sys_read, sys_write. split.
  - intros Hfd. by rewrite (proj2 (Z.ltb_lt _ _)) by done.
  - intros va Hfd Hva. rewrite (proj2 (Z.ltb_ge _ _)) by done.
    assert (forall type, user_can k (nonzero type) va = false -> access_ok type buf n k = Ok false k) as Ha.
    { intros type Hu. destruct (access_ok_spec k type buf n H1 H2 H3 Ht) as ([] & Hb & Hs); [|done].
      destruct (proj1 Hs eq_refl) as (_ & _ & Hall). by rewrite (Hall va Hva) in Hu. }
    split; intros Hu; [pose proof (Ha VERIFY_WRITE Hu) as E|pose proof (Ha VERIFY_READ Hu) as E];
      by rewrite (bind_ok _ _ _ _ _ E).
Qed.

(** ** Hypercalls end to end *)

(** The kernel runs with privilege level 0. *)
Definition kernel_mode {W} (k : kstate W) : Prop := seg_dpl (sr_cs (v_sregs (cpu (k_vm k)))) = 0.

(** Documented behaviour of close(2): 0, or -1 with an error number. *)
Definition close_documented {W} (os : host_os W) : Prop := forall w fd,
  match os_close os w fd with
  | (_, inl e) => 1 <= e <= 4095
  | (_, inr n) => n = 0
  end.

Lemma serve_io {W} (os : host_os W) fails port d (v : vm W) v' :
  (forall i, fails i = false) -> seg_dpl (sr_cs (v_sregs (cpu v))) = 0 ->
  has port HP_NR_MARK = true -> hp_handler os port d v = Ok 0 v' ->
  serve os fails (KVM_EXIT_IO port d) v = Ok false v'.
Proof.
  intros Hok Hd Hp Hh. unfold serve, check_iopl.
  rewrite bind_bind, (bind_ok _ _ _ _ _ (get_regs_ok fails Hok v)), bind_bind.
  rewrite (bind_ok _ _ _ _ _ (get_sregs_ok fails Hok v)), bind_ret.
  rewrite (proj2 (Z.leb_le _ _)), Hp by (rewrite Hd; apply Z.land_nonneg; lia). cbn [negb].
  by rewrite (bind_ok _ _ _ _ _ Hh).
Qed.

(** An [out] that does its work and the [in] that fetches the result. *)
Lemma hypercall_run {W} (os : host_os W) fails (k : kstate W) port data s work r v2 :
  (forall i, fails i = false) -> kernel_mode k -> has port HP_NR_MARK = true ->
  (forall d, hp_handler os port d = process s d work) ->
  work (set_data (u32 data) (k_vm k)) = Ok r v2 -> cpu v2 = cpu (k_vm k) ->
  s32 r = r -> r <> s32 UNUSED_VAR ->
  exists v3, hypercall os fails port data k = Ok r (KState v3 (k_arena k) (last_mmapped k) (msrs k)) /\
    guest v3 = guest v2 /\ fd_map v3 = fd_map v2 /\ host v3 = host v2 /\
    fd_map_init v3 = fd_map_init v2 /\ cpu v3 = cpu v2.
Proof.
  intros Hok Hk Hp Hh Hw Hc Hs Hu.
  destruct (then_return_delivers s r v2 work) as (v3 & Hin & Hd3 & _ & G3 & M3 & H3 & I3 & C3);
    [by rewrite Hs|].
  exists v3. split; [|done]. unfold hypercall, on_vm, zoom. rewrite bind_modify.
  erewrite bind_ok; [|apply (serve_io os fails port IO_OUT _ (set_ret s (s32 r) v2)); try done].
  - erewrite bind_ok; [|apply (serve_io os fails port IO_IN _ v3); try done].
    + rewrite bind_get. unfold mret, cmd_ret. by rewrite Hd3, Hs.
    + assert (cpu (set_ret s (s32 r) v2) = cpu v2) as -> by (by destruct s). by rewrite Hc.
    + by rewrite Hh.
  - rewrite Hh. unfold process. by rewrite (bind_ok _ _ _ _ _ Hw).
Qed.

(** What the caller of close observes: the result and the state of the system. *)
Definition close_outcome {W} (os : host_os W) (v : vm W) (fd r : Z) (w' : W) : Prop :=
  match fd_abs (cur_fds v) fd with
  | None => r = - EBADF /\ w' = host v
  | Some n => match os_close os (host v) n with
              | (w, inl e) => r = - e /\ w' = w
              | (w, inr _) => r = 0 /\ w' = w
              end
  end.

Lemma close_work {W} (os : host_os W) (v0 : vm W) fd :
  close_documented os -> table_ok (cur_fds v0) ->
  exists r v2, PROCESS_ON_FD fd (do_close os fd) v0 = Ok r v2 /\
    s32 r = r /\ r <> s32 UNUSED_VAR /\ (cpu v2 = cpu v0 /\ table_ok (fd_map v2)) /\
    fd_abs (fd_map v2) fd = None /\ fd_map_init v2 <> 0 /\ guest v2 = guest v0 /\
    close_outcome os v0 fd r (host v2).
Proof.
  intros Hdoc Ht. destruct (may_init_run v0) as (v1 & Hi & Hm & Hn & Hg & Hh & _ & _ & Hcpu).
  unfold PROCESS_ON_FD, close_outcome. rewrite (bind_ok _ _ _ _ _ Hi), bind_get, Hm.
  unfold fd_abs at 2. destruct (BADFD (cur_fds v0) fd) eqn:Eb.
  - exists (- EBADF), v1. do 3 (split; [done|]). rewrite Hm. split; [done|].
    split; [unfold fd_abs; by rewrite Eb|]. by rewrite Hg, Hh.
  - unfold do_close. rewrite bind_bind, bind_modify, bind_bind, bind_get. cbn [host set_fds].
    rewrite Hh. set (n := real_fd _). specialize (Hdoc (host v0) n).
    assert (0 <= fd <= MAX_FD) as Hr.
    { unfold BADFD in Eb. apply orb_false_iff in Eb as [Eb _]. lia. }
    destruct (os_close os (host v0) n) as [w [e|x]] eqn:Eo; unfold mbind, cmd_bind; cbn.
    + exists (- e). eexists. split; [reflexivity|]. cbn. rewrite Hm, Hg, Hcpu, fd_abs_put by done.
      rewrite Z.eqb_refl. cbn. rewrite s32_neg by lia.
      split; [done|]. split; [change (s32 UNUSED_VAR) with (-559022081); lia|].
      unfold table_ok, fd_put in *. by rewrite length_insert.
    + subst x. exists 0. eexists. split; [reflexivity|]. cbn. rewrite Hm, Hg, Hcpu, fd_abs_put by done.
      rewrite Z.eqb_refl. cbn. unfold table_ok, fd_put in *. by rewrite length_insert.
Qed.

Lemma hp_close_run {W} (os : host_os W) fails (k : kstate W) fd :
  (forall i, fails i = false) -> kernel_mode k -> close_documented os ->
  table_ok (cur_fds (k_vm k)) -> - 2 ^ 31 <= fd < 2 ^ 31 ->
  exists r v, hp_close os fails fd k = Ok r (KState v (k_arena k) (last_mmapped k) (msrs k)) /\
    guest v = guest (k_vm k) /\ (cpu v = cpu (k_vm k) /\ table_ok (cur_fds v)) /\ fd_abs (cur_fds v) fd = None /\
    close_outcome os (k_vm k) fd r (host v).
Proof.
  intros Hok Hk Hdoc Ht Hfd. set (v0 := set_data (u32 (u32 fd)) (k_vm k)).
  assert (s32 (io_data v0) = fd) as Hio.
  { cbn. rewrite !s32_u32. destruct (Z.ltb_spec fd 0); [apply s32_neg|apply s32_small]; lia. }
  destruct (close_work os v0 fd) as (r & v2 & Hw & Hs & Hu & [Hc2 Ht2] & Habs & Hi2 & Hg2 & Hout);
    [done|done|].
  destruct (hypercall_run os fails k NR_HP_close (u32 fd) SClose
              (v ← get; let fd := s32 (io_data v) in PROCESS_ON_FD fd (do_close os fd)) r v2)
    as (v3 & Hrun & G3 & M3 & H3 & I3 & C3); try done.
  { fold v0. by rewrite bind_get, Hio. }
  exists r, v3. split; [exact Hrun|]. rewrite G3, H3, Hg2, C3, Hc2.
  assert (cur_fds v3 = fd_map v2) as -> by (unfold cur_fds; by rewrite I3, M3, (proj2 (Z.eqb_neq _ _))). done.
Qed.

(** [close] as the guest kernel sees it: EBADF for a descriptor that is not open,
    otherwise the result of the system's close; the descriptor is not open after. *)
Theorem hp_close_end_to_end {W} (os : host_os W) fails (k : kstate W) fd :
  (forall i, fails i = false) -> kernel_mode k -> close_documented os ->
  table_ok (fd_map (k_vm k)) -> 0 <= fd < 2 ^ 31 ->
  exists r k', hp_close os fails fd k = Ok r k' /\
    fd_abs (cur_fds (k_vm k')) fd = None /\ guest (k_vm k') = guest (k_vm k) /\
    close_outcome os (k_vm k) fd r (host (k_vm k')).
Proof.
  intros Hok Hk Hdoc Ht Hfd. destruct (hp_close_run os fails k fd Hok Hk Hdoc) as (r & v3 & Hrun & Hg & _ & Hf & Ho); [|lia|].
  - unfold cur_fds. destruct (_ =? _); [by apply table_ok_init|done].
  - eexists r, _. split; [exact Hrun|]. done.
Qed.

(** ** Concrete instances *)

Lemma path_ok_same_page m cr3 va va' :
  path_ok m cr3 va -> 0 <= va' < 2 ^ 47 -> va / 4096 = va' / 4096 -> path_ok m cr3 va'.
Proof.
  intros (_ & C1 & C2 & C3 & P) H' Hp. cbn zeta in P.
  assert (forall t bits, 12 <= bits -> entry m t va' bits = entry m t va bits) as He
    by (intros t bits Hb; unfold entry; by rewrite (same_page_index va' va)).
  do 4 (split; [done|]). cbn zeta. rewrite (He _ 39) by lia. intros E4.
  destruct (P E4) as [G4 P3]. split; [done|]. clear P. rewrite (He _ 30) by lia. intros E3.
  destruct (P3 E3) as (G3 & S3 & P2). split; [done|]. split; [done|]. clear P3.
  rewrite (He _ 21) by lia. intros E2. destruct (P2 E2) as [L2 P1]. split; [done|]. clear P2.
  intros S2. destruct (P1 S2) as [G2 L1]. split; [done|]. by rewrite (He _ 12) by lia.
Qed.

(** A machine whose only user page is 0x400000, writable. *)
Definition demo_kstate : kstate unit :=
  let s := Segment 0 0 0 0 0 0 0 0 0 0 in
  KState (set_cpu (Vcpu (Regs 0 0 0 0 2) (Sregs s s s s s s 0 0x1f7000 0 0))
            (set_guest map_mem (demo_vm 0)))
         (h_arena map_heap) (u64 (-1)) ∅.

Lemma demo_tables : tables_ok demo_kstate 0x400000 0x401000.
Proof.
  assert (path_ok map_mem 0x1f7000 0x400000) as Hp.
  { split; [lia|]. do 3 (split; [done|]). cbn zeta.
    replace (entry map_mem 0x1f7000 0x400000 39) with 0x1f8007 by (vm_compute; reflexivity).
    change (entry_addr 12 0x1f8007) with 0x1f8000.
    replace (entry map_mem 0x1f8000 0x400000 30) with 0x1f9007 by (vm_compute; reflexivity).
    change (entry_addr 12 0x1f9007) with 0x1f9000.
    replace (entry map_mem 0x1f9000 0x400000 21) with 0x1fa007 by (vm_compute; reflexivity).
    change (entry_addr 12 0x1fa007) with 0x1fa000.
    replace (entry map_mem 0x1fa000 0x400000 12) with 0x300007 by (vm_compute; reflexivity).
    intros _. split; [vm_compute; by split|]. intros _. split; [vm_compute; by split|].
    split; [reflexivity|]. intros _. split; [done|]. intros _. split; [vm_compute; by split|done]. }
  intros va Hva.
  assert (0x400000 / 4096 = va / 4096) as Hd.
  { change (0x400000 / 4096) with 1024. apply (Z.div_unique _ _ _ (va - 0x400000)); lia. }
  split; [apply (path_ok_same_page _ _ 0x400000); [exact Hp|lia|exact Hd]|].
  unfold kwalk. change (guest (k_vm demo_kstate)) with map_mem.
  change (cr3_of demo_kstate) with 0x1f7000.
  rewrite (walk_same_page map_mem 0x1f7000 0x400000 va) by (lia || exact Hd).
  replace (walk map_mem 0x1f7000 0x400000) with (Some (Xlat 0x300000 true true)) by (vm_compute; reflexivity).
  cbn [x_pa]. unfold MEM_SIZE, PS_LIMIT. lia.
Qed.

Lemma demo_user : forall va, 0x400000 <= va < 0x401000 -> user_can demo_kstate true va = true.
Proof.
  intros va Hva. rewrite <- (user_can_page demo_kstate true 0x400000 va).
  - vm_compute. reflexivity.
  - lia.
  - lia.
  - change (0x400000 / 4096) with 1024. apply (Z.div_unique _ _ _ (va - 0x400000)); lia.
Qed.

Lemma demo_access : access_ok VERIFY_WRITE 0x400010 0x20 demo_kstate = Ok true demo_kstate.
Proof.
  destruct (access_ok_spec demo_kstate VERIFY_WRITE 0x400010 0x20) as (b & H1 & H2);
    [lia..|exact demo_tables|].
  assert (b = true) as <-; [|exact H1]. apply H2. split; [reflexivity|]. split; [reflexivity|].
  intros va Hva. apply demo_user. lia.
Qed.


(** No page is mapped at 0x500000. *)
Lemma access_ok_wraps_witness :
  user_can demo_kstate false 0x500000 = false /\
  access_ok VERIFY_WRITE 0x500000 (2 ^ 64 + 0x300000 - 0x500000) demo_kstate = Ok true demo_kstate.
Proof.
  split; [vm_compute; reflexivity|].
  apply (access_ok_wraps demo_kstate VERIFY_WRITE 0x500000 0x300000).
  - vm_compute. reflexivity.
  - lia.
Defined.

Lemma access_ok_no_fault_witness : exists b, vload 0x400011 demo_kstate = Ok b demo_kstate.
Proof.
  refine (proj1 (access_ok_no_fault demo_kstate VERIFY_WRITE 0x400010 0x20 0x400011 _ _ _ _ _ _)).
  - lia.
  - lia.
  - lia.
  - exact demo_tables.
  - exact demo_access.
  - lia.
Defined.

Lemma syscall_unknown_witness :
  syscall_handler demo_os (fun _ => false) 39 0 0 0 demo_kstate = Ok (u64 (- ENOSYS)) demo_kstate.
Proof.
  apply syscall_unknown; [lia|]. vm_compute. intuition discriminate.
Defined.

Lemma sys_rw_rejects_witness :
  sys_read demo_os (fun _ => false) (-1) 0x400010 0x20 demo_kstate = Ok (- EBADF) demo_kstate.
Proof.
  refine (proj1 (proj1 (sys_rw_rejects demo_os (fun _ => false) (-1) 0x400010 0x20 demo_kstate _ _ _ _) _)).
  - lia.
  - lia.
  - lia.
  - exact demo_tables.
  - lia.
Defined.

Lemma hp_close_end_to_end_witness :
  exists r k', hp_close demo_os (fun _ => false) 2 demo_kstate = Ok r k' /\
               fd_abs (cur_fds (k_vm k')) 2 = None.
Proof.
  destruct (hp_close_end_to_end demo_os (fun _ => false) demo_kstate 2) as (r & k' & H1 & H2 & _).
  - reflexivity.
  - reflexivity.
  - intros w fd. reflexivity.
  - reflexivity.
  - lia.
  - exists r, k'. split; [exact H1|exact H2].
Defined.
