(* ===== verification/Boundary.v ===== *)
(** * The boundary between user and kernel

    Entries of the page tables keep user mode out of the kernel's addresses: the entry of the
    direct map in the first table, the entry of the first 2MB, and the upper half of the
    first table.  None is on the path of a user address, so mapping user pages leaves them
    alone; the tables the hypervisor and [init_pagetable] build at boot have them, and map
    nothing for the user. *)

From S2P Require Import Prelude Memory Arch KString Kmalloc KmallocSpec KmallocProof KmallocRefine.
From S2P Require Import KmallocSafety Translate TranslateProof PageTables AddressSpace Hypercall Hypervisor.
From S2P Require Import HypercallProof HypervisorProof Kernel KernelProof.

(** The bytes of the tables on the paths of user addresses. *)
Definition table_page (m : mem) (cr3 x : Z) : Prop :=
  exists va l t, user_va va /\ (l <= 3)%nat /\ tab m cr3 va l = Some t /\ rng t 4096 x.

Lemma entry_table_page m cr3 x : user_entry m cr3 x -> table_page m cr3 x.
Proof.
  intros (va & l & t & Hva & Hl & Ht & Hx). exists va, l, t. do 3 (split; [done|]). by apply (word_in_page t va (lbits l)).
Qed.

(** User mode is kept out of [KERNEL_BASE_OFFSET] by the first table, and out of the first
    2MB by the page directory they share with the user's lowest addresses.  Nothing is mapped
    from [2^47] on. *)
Record hidden (m : mem) (cr3 : Z) : Prop := Hidden {
  hd_high : has (entry m cr3 KERNEL_BASE_OFFSET 39) PDE64_USER = false;
  hd_low : exists t, tab m cr3 KERNEL_PAGING_SIZE 2 = Some t /\ has (entry m t 0 21) PDE64_USER = false;
  hd_upper : forall i, 256 <= i < 512 -> has (ld64 m (cr3 + 8 * i)) PDE64_PRESENT = false
}.
(** The bytes of these entries. *)
Definition guard_byte (m : mem) (cr3 x : Z) : Prop :=
  (rng (cr3 + 8) 8 x \/ rng (cr3 + 8 * 256) (8 * 256) x) \/
  exists t, tab m cr3 KERNEL_PAGING_SIZE 2 = Some t /\ rng t 8 x.

Lemma low_user_va : user_va KERNEL_PAGING_SIZE.
Proof. split; [reflexivity|]. unfold KERNEL_PAGING_SIZE. lia. Qed.
Lemma user_va_range va : user_va va -> KERNEL_PAGING_SIZE <= va < 2 ^ 47 /\ va / 2 ^ 39 <> 1.
Proof. intros [Hu Hr]. apply user_range_ok in Hu; [|done]. lia. Qed.

Lemma guard_table_page m cr3 x : guard_byte m cr3 x -> table_page m cr3 x.
Proof.
  intros [Hx|(t & Ht & Hx)].
  - exists KERNEL_PAGING_SIZE, 0%nat, cr3. split; [exact low_user_va|]. split; [lia|]. split; [done|]. unfold rng in *. lia.
  - exists KERNEL_PAGING_SIZE, 2%nat, t. split; [exact low_user_va|]. split; [lia|]. split; [done|]. unfold rng in *. lia.
Qed.

(** They are not on the path of a user address. *)
Lemma guard_not_entry m a cr3 x : aspace m a cr3 -> guard_byte m cr3 x -> ~ user_entry m cr3 x.
Proof.
  intros [Su _ Si] Hg (va & l & t & Hva & Hl & Ht & Hx). destruct (user_va_range va Hva) as [Hr Hn].
  assert (forall l' t', (l' <= 3)%nat -> tab m cr3 KERNEL_PAGING_SIZE l' = Some t' -> rng t' 4096 x ->
    t = t' /\ l = l' /\ key l' va = key l' KERNEL_PAGING_SIZE) as Hs.
  { intros l' t' Hl' Ht' Hx'. assert (t = t') as <-.
    - destruct (Z.eq_dec t t') as [|Hd]; [done|]. exfalso.
      apply (pages_apart t t' x); [by apply (Su va l)|by apply (Su _ l' t' low_user_va)|done|by eapply word_in_page|done].
    - destruct (Si va KERNEL_PAGING_SIZE l l' t) as [<- Hk]; try done. }
  pose proof (eq_refl : KERNEL_PAGING_SIZE = 0x200000) as Hps. destruct Hg as [Hg|(t2 & Ht2 & Hg)].
  - destruct (Hs 0%nat cr3) as (-> & -> & _); [lia|done|unfold rng in *; lia|].
    unfold lbits in Hx. change (39 - 9 * Z.of_nat 0) with 39 in Hx. rewrite tbl_index_div in Hx by lia.
    assert (0 <= va / 2 ^ 39 < 256) by (split; [apply Z.div_pos; lia|apply Z.div_lt_upper_bound; lia]).
    rewrite Z.mod_small in Hx by lia. unfold rng in *. lia.
  - destruct (Hs 2%nat t2) as (-> & -> & Hk); [lia|done|unfold rng in *; lia|].
    unfold key in Hk. change (48 - 9 * Z.of_nat 2) with 30 in Hk. rewrite (Z.div_small KERNEL_PAGING_SIZE) in Hk by lia.
    unfold lbits in Hx. change (39 - 9 * Z.of_nat 2) with 21 in Hx. rewrite tbl_index_div in Hx by lia.
    pose proof (Z.div_mod va (2 ^ 30)). pose proof (Z.mod_pos_bound va (2 ^ 30)).
    assert (1 <= va / 2 ^ 21) by (apply Z.div_le_lower_bound; lia).
    assert (va / 2 ^ 21 < 512) by (apply Z.div_lt_upper_bound; lia).
    rewrite Z.mod_small in Hx by lia. unfold rng in *. lia.
Qed.

(** Whatever moves no table and leaves these entries alone keeps them. *)
Lemma hidden_same m m' cr3 :
  (forall x, guard_byte m cr3 x -> m' x = m x) ->
  (forall t, tab m cr3 KERNEL_PAGING_SIZE 2 = Some t -> tab m' cr3 KERNEL_PAGING_SIZE 2 = Some t) ->
  hidden m cr3 -> hidden m' cr3.
Proof.
  intros Hm Ht [H1 (t & T & H2) H3]. split; [|exists t; split; [by apply Ht|]|].
  - replace (entry m' cr3 KERNEL_BASE_OFFSET 39) with (entry m cr3 KERNEL_BASE_OFFSET 39); [done|].
    symmetry. apply ld_ext. intros x Hx. apply Hm. left. left. exact Hx.
  - replace (entry m' t 0 21) with (entry m t 0 21); [done|].
    symmetry. apply ld_ext. intros x Hx. apply Hm. right. exists t. split; [done|]. change (rng (t + 0) 8 x) in Hx. by rewrite Z.add_0_r in Hx.
  - intros i Hi. replace (ld64 m' (cr3 + 8 * i)) with (ld64 m (cr3 + 8 * i)); [by apply H3|].
    symmetry. apply ld_ext. intros x Hx. apply Hm. left. right. unfold rng in *. simpl (Z.of_nat 8) in Hx. lia.
Qed.

Lemma low_index va bits : 0 <= va < KERNEL_PAGING_SIZE -> 21 <= bits -> tbl_index va bits = 0.
Proof.
  intros Hva Hb. rewrite tbl_index_div by lia. rewrite Z.div_small; [done|].
  pose proof (Z.pow_le_mono_r 2 21 bits). unfold KERNEL_PAGING_SIZE in *. lia.
Qed.

#[local] Opaque ld64 entry_addr has.
(** What user mode can reach is a user address. *)
Lemma hidden_walk m a cr3 va x :
  wf a -> aspace m a cr3 -> hidden m cr3 -> walk m cr3 va = Some x -> x_user x = true -> user_va va.
Proof.
  intros Wf S [Hh (t & Ht & Hl) _] Hw Hx.
  destruct (usable_cr3 a cr3 Wf (as_usable _ _ _ S _ 0%nat cr3 low_user_va ltac:(lia) eq_refl)) as [_ Hc].
  unfold walk in Hw. rewrite Hc in Hw. destruct ((0 <=? va) && (va <? 2 ^ 47)) eqn:Hr; [|done]. cbn [negb] in Hw.
  assert (0 <= va < 2 ^ 47) as Hva by lia. split; [|done]. apply user_range_ok; [done|].
  destruct (Z.ltb_spec va KERNEL_PAGING_SIZE) as [Hlow|Hlow]; [exfalso|split; [done|intros E]].
  - pose proof (eq_refl : tbl_index KERNEL_PAGING_SIZE 39 = 0) as I39. pose proof (eq_refl : tbl_index KERNEL_PAGING_SIZE 30 = 0) as I30.
    pose proof (eq_refl : tbl_index 0 21 = 0) as I21. unfold entry in Hw. rewrite !(low_index va) in Hw by lia. cbn [tab] in Ht. change (lbits 0) with 39 in Ht. change (lbits 1) with 30 in Ht.
    assert (entry m cr3 KERNEL_PAGING_SIZE 39 = ld64 m (cr3 + 8 * 0)) as E4 by (unfold entry; by rewrite I39). rewrite E4 in Ht.
    destruct (has (ld64 m (cr3 + 8 * 0)) PDE64_PRESENT) eqn:P4; [|done]. cbn [negb] in Hw.
    set (t3 := entry_addr 12 (ld64 m (cr3 + 8 * 0))) in *.
    assert (tab m cr3 KERNEL_PAGING_SIZE 1 = Some t3) as T3.
    { cbn [tab]. change (lbits 0) with 39. by rewrite E4, P4. }
    pose proof (as_entry _ _ _ S _ 1%nat t3 low_user_va ltac:(lia) T3) as He. change (lbits 1) with 30 in He.
    assert (entry m t3 KERNEL_PAGING_SIZE 30 = ld64 m (t3 + 8 * 0)) as E3 by (unfold entry; by rewrite I30). rewrite E3 in *.
    destruct (has (ld64 m (t3 + 8 * 0)) PDE64_PRESENT) eqn:P3; [|done]. injection Ht as Ht. cbn [negb] in Hw.
    destruct (He eq_refl) as (_ & _ & _ & _ & S3). rewrite S3, Ht in Hw.
    unfold entry in Hl. rewrite I21 in Hl.
    destruct (has (ld64 m (t + 8 * 0)) PDE64_PRESENT); [|done]. cbn [negb] in Hw. rewrite Hl in Hw. rewrite !andb_false_r in Hw.
    destruct (has (ld64 m (t + 8 * 0)) PDE64_PS); [injection Hw as <-; done|].
    destruct (has _ PDE64_PRESENT) in Hw; [|done]. injection Hw as <-. done.
  - assert (entry m cr3 va 39 = entry m cr3 KERNEL_BASE_OFFSET 39) as E4.
    { assert (tbl_index va 39 = 1) as I by (by rewrite tbl_index_div, E by lia). pose proof (eq_refl : tbl_index KERNEL_BASE_OFFSET 39 = 1) as J.
      unfold entry. by rewrite I, J. }
    rewrite E4, Hh in Hw. cbn [andb] in Hw.
    repeat (case_match; cbn [negb] in *; try done); injection Hw as <-; done.
Qed.
#[local] Transparent ld64 entry_addr has.

(** [translate] finds nothing from [2^47] on. *)
Lemma hidden_upper {W} (k : kstate W) a type va :
  wf a -> aspace (guest (k_vm k)) a (cr3_of k) -> hidden (guest (k_vm k)) (cr3_of k) -> 2 ^ 47 <= va < 2 ^ 48 -> checks k type va.
Proof.
  intros Wf S [_ _ Hu] Hva. pose proof (as_usable _ _ _ S _ 0%nat (cr3_of k) low_user_va ltac:(lia) eq_refl) as U.
  destruct (usable_cr3 a (cr3_of k) Wf U) as [Hc _]. pose proof (usable_ram a _ Wf U) as Hr.
  exists NO_TRANS. rewrite Z.eqb_refl. split.
  - unfold with_cr3. rewrite bind_get. erewrite on_heap_ok; [by rewrite (put_heap_id k)|]. unfold heap_of.
    unfold translate. rewrite Hc. unfold PML4OFF. rewrite (u64_small va) by lia.
    rewrite (bind_ok _ _ _ _ _ (paging_check_ok 1 type (cr3_of k) va 39 _ _ ltac:(apply U) Hr)). cbn zeta.
    unfold entry. rewrite Hu; [done|]. rewrite tbl_index_div by lia.
    assert (256 <= va / 2 ^ 39 < 512) by (split; [apply Z.div_le_lower_bound|apply Z.div_lt_upper_bound]; lia).
    rewrite Z.mod_small by lia. done.
  - unfold user_can, kwalk, walk. by rewrite (proj2 (Z.ltb_ge va _)), andb_false_r by lia.
Qed.

(** The tables of every user address are in RAM, whether it is mapped or not. *)
Lemma aspace_path m a cr3 va :
  wf a -> aspace m a cr3 -> user_va va -> leaf m cr3 va < 2 ^ 39 -> path_ok m cr3 va.
Proof.
  intros Wf [Su Se _] Hva Hl. pose proof Hva as [_ Hr].
  assert (forall l t, (l < 3)%nat -> tab m cr3 va l = Some t -> has (entry m t va (lbits l)) PDE64_PRESENT = true ->
    tab m cr3 va (S l) = Some (entry_addr 12 (entry m t va (lbits l))) /\ good_table (entry m t va (lbits l)) /\
    has (entry m t va (lbits l)) PDE64_PS = false) as Hs.
  { intros l t Hl3 Ht Hp. destruct (Se va l t Hva Hl3 Ht Hp) as (E1 & _ & _ & _ & E5).
    assert (tab m cr3 va (S l) = Some (entry_addr 12 (entry m t va (lbits l)))) as T by (by rewrite (tab_step _ _ _ _ t Ht), Hp).
    split; [done|]. split; [|done]. split; [done|]. apply (usable_ram a); [done|]. by apply (Su va (S l)). }
  pose proof (Su va 0%nat cr3 Hva ltac:(lia) eq_refl) as Uc.
  split; [done|]. split; [apply Uc|]. split; [by apply (usable_ram a)|]. split; [apply Uc|]. cbn zeta. intros P4.
  destruct (Hs 0%nat cr3 ltac:(lia) eq_refl P4) as (T3 & G4 & _). change (lbits 0) with 39 in *. split; [done|]. intros P3.
  destruct (Hs 1%nat _ ltac:(lia) T3 P3) as (T2 & G3 & S3). change (lbits 1) with 30 in *. split; [done|]. split; [done|]. intros P2.
  destruct (Hs 2%nat _ ltac:(lia) T2 P2) as (T1 & G2 & S2). change (lbits 2) with 21 in *. split; [apply G2|]. intros _. split; [done|].
  unfold leaf in Hl. rewrite T1 in Hl. exact Hl.
Qed.

(** ** The tables at boot *)

(** What [setup_paging] and [init_pagetable] write into the first three tables. *)
Record boot_map (m : mem) (cr3 : Z) : Prop := BootMap {
  bm_cr3 : boot_cr3 cr3;
  bm_pml4 : ld64 m cr3 = cr3 + 0x1000 + 7;
  bm_high : ld64 m (cr3 + 8) = cr3 + 0x3000 + 3;
  bm_pdp : ld64 m (cr3 + 0x1000) = cr3 + 0x2000 + 7;
  bm_pd : ld64 m (cr3 + 0x2000) = 131;
  bm_zero : forall x, rng cr3 0x3000 x -> ~ rng cr3 16 x -> ~ rng (cr3 + 0x1000) 8 x -> ~ rng (cr3 + 0x2000) 8 x -> m x = 0
}.

Lemma ld64_zero m x : (forall y, rng x 8 y -> m y = 0) -> ld64 m x = 0.
Proof. intros H. transitivity (ld64 (fun _ => 0) x); [|reflexivity]. by apply ld_ext. Qed.

(** The first entry of a table that is a page, with its flags. *)
Lemma table_slot m t p f : 0 <= p < 2 ^ 39 -> p mod 4096 = 0 -> 0 <= f < 4096 -> ld64 m t = p + f ->
  entry_addr 12 (ld64 m t) = p /\ has (ld64 m t) PDE64_PRESENT = has f PDE64_PRESENT /\
  has (ld64 m t) PDE64_USER = has f PDE64_USER /\ has (ld64 m t) PDE64_RW = has f PDE64_RW /\
  has (ld64 m t) PDE64_PS = has f PDE64_PS.
Proof.
  intros Hp Ha Hf ->. destruct (entry_parts p f) as (_ & E & A); try lia. split; [done|].
  by rewrite !(has_low (p + f)), E by (vm_compute; split; congruence).
Qed.

Lemma boot_tab m cr3 va : boot_map m cr3 -> user_va va ->
  tab m cr3 va 1 = (if va <? 2 ^ 39 then Some (cr3 + 0x1000) else None) /\
  tab m cr3 va 2 = (if va <? 2 ^ 30 then Some (cr3 + 0x2000) else None) /\ tab m cr3 va 3 = None.
Proof.
  intros [(C1 & C2 & C3) B1 B2 B3 B4 B5] Hva. destruct (user_va_range va Hva) as [Hr Hn].
  unfold PAGE_TABLE_SIZE, KERNEL_PAGING_SIZE in *.
  assert (forall p, p mod 4096 = 0 -> (cr3 + p) mod 4096 = 0) as Hal
    by (intros p Hp; by rewrite <- Zplus_mod_idemp_l, C2, <- Zplus_mod_idemp_r, Hp).
  assert (forall bits, 0 <= bits -> va < 2 ^ (bits + 9) -> tbl_index va bits = va / 2 ^ bits /\ 0 <= va / 2 ^ bits < 512 /\
    (2 ^ bits <= va -> 1 <= va / 2 ^ bits) /\ (va < 2 ^ bits -> va / 2 ^ bits = 0)) as Hi.
  { intros bits Hb Hv. rewrite tbl_index_div by lia. rewrite Z.pow_add_r in Hv by lia. pose proof (Z.pow_pos_nonneg 2 bits).
    assert (0 <= va / 2 ^ bits < 512) by (split; [apply Z.div_pos|apply Z.div_lt_upper_bound]; lia).
    split; [by apply Z.mod_small|]. split; [done|]. split; [intros H'; apply Z.div_le_lower_bound; lia|intros H'; apply Z.div_small; lia]. }
  destruct (table_slot m cr3 (cr3 + 0x1000) 7) as (A1 & F1 & _); [lia|by apply Hal|lia|done|].
  destruct (table_slot m (cr3 + 0x1000) (cr3 + 0x2000) 7) as (A2 & F2 & _); [lia|by apply Hal|lia|done|].
  assert (tab m cr3 va 1 = (if va <? 2 ^ 39 then Some (cr3 + 0x1000) else None)) as T1.
  { cbn [tab]. change (lbits 0) with 39. unfold entry. destruct (Hi 39) as (-> & I1 & I2 & I3); [lia|lia|].
    destruct (Z.ltb_spec va (2 ^ 39)).
    - rewrite I3, Z.mul_0_r, Z.add_0_r, F1, A1 by lia. done.
    - rewrite ld64_zero; [done|]. intros y Hy. specialize (I2 ltac:(lia)). apply B5; unfold rng in *; lia. }
  assert (tab m cr3 va 2 = (if va <? 2 ^ 30 then Some (cr3 + 0x2000) else None)) as T2.
  { destruct (Z.ltb_spec va (2 ^ 39)) as [H39|H39].
    2:{ rewrite (proj2 (Z.ltb_ge va (2 ^ 30))) by lia. by apply (tab_stop m cr3 va 1); [|lia]. }
    rewrite (tab_step _ _ _ _ _ T1). change (lbits 1) with 30. unfold entry. destruct (Hi 30) as (-> & I1 & I2 & I3); [lia|lia|].
    cbn zeta. destruct (Z.ltb_spec va (2 ^ 30)).
    - rewrite I3, Z.mul_0_r, Z.add_0_r, F2, A2 by lia. done.
    - rewrite ld64_zero; [done|]. intros y Hy. specialize (I2 ltac:(lia)). apply B5; unfold rng in *; lia. }
  split; [done|]. split; [done|]. destruct (Z.ltb_spec va (2 ^ 30)) as [H30|H30]; [|by apply (tab_stop m cr3 va 2); [|lia]].
  rewrite (tab_step _ _ _ _ _ T2). change (lbits 2) with 21. unfold entry. destruct (Hi 21) as (-> & I1 & I2 & I3); [lia|lia|].
  rewrite ld64_zero; [done|]. intros y Hy. specialize (I2 ltac:(lia)). apply B5; unfold rng in *; lia.
Qed.

(** At boot the user's address space is empty and the kernel is hidden. *)
Lemma boot_aspace m a cr3 :
  boot_map m cr3 -> aspace m a cr3 /\ hidden m cr3 /\ (forall va, user_va va -> leaf m cr3 va = 0).
Proof.
  intros B. pose proof B as [(C1 & C2 & C3) B1 B2 B3 B4 B5]. pose proof (fun va => boot_tab m cr3 va B) as Ht.
  unfold PAGE_TABLE_SIZE, KERNEL_PAGING_SIZE in C3.
  assert (forall p, p mod 4096 = 0 -> (cr3 + p) mod 4096 = 0) as Hal
    by (intros p Hp; by rewrite <- Zplus_mod_idemp_l, C2, <- Zplus_mod_idemp_r, Hp).
  assert (forall va l t, user_va va -> (l <= 3)%nat -> tab m cr3 va l = Some t ->
    l = 0%nat /\ t = cr3 \/ l = 1%nat /\ t = cr3 + 0x1000 /\ va < 2 ^ 39 \/ l = 2%nat /\ t = cr3 + 0x2000 /\ va < 2 ^ 30) as Hc.
  { intros va l t Hva Hl. destruct (Ht va Hva) as (T1 & T2 & T3). destruct l as [|[|[|[|l]]]]; [| | | |lia].
    - intros [= <-]. by left.
    - rewrite T1. destruct (Z.ltb_spec va (2 ^ 39)); [intros [= <-]; auto|done].
    - rewrite T2. destruct (Z.ltb_spec va (2 ^ 30)); [intros [= <-]; auto|done].
    - by rewrite T3. }
  assert (forall va bits, 0 <= va < 2 ^ bits -> 0 <= bits -> tbl_index va bits = 0) as Hz
    by (intros va bits Hv Hb; by rewrite tbl_index_div, Z.div_small by lia).
  split; [split|split; [split|]].
  - intros va l t Hva Hl T. assert (t = cr3 \/ t = cr3 + 0x1000 \/ t = cr3 + 0x2000) as Hd
      by (destruct (Hc va l t Hva Hl T) as [[_ ->]|[(_ & -> & _)|(_ & -> & _)]]; auto).
    unfold usable, KERNEL_PAGING_SIZE. destruct Hd as [->|[->| ->]]; (split; [lia|split; [by try apply Hal|left; lia]]).
  - intros va l t Hva Hl T P. pose proof (user_va_range va Hva) as [Hr _]. pose proof (tab_step m cr3 va l t T) as T'.
    cbn zeta in T'. rewrite P in T'. destruct (Hc va (Datatypes.S l) _ Hva ltac:(lia) T') as [[E _]|[(E & _ & Hv)|(E & _ & Hv)]];
      [lia|assert (l = 0%nat) as -> by lia|assert (l = 1%nat) as -> by lia].
    + injection T as <-. unfold entry. change (lbits 0) with 39. rewrite Hz, Z.mul_0_r, Z.add_0_r by (unfold KERNEL_PAGING_SIZE in Hr; lia).
      unfold table_entry. destruct (table_slot m cr3 (cr3 + 0x1000) 7) as (_ & -> & -> & -> & ->); [lia|by apply Hal|lia|done|]. rewrite B1. split; [lia|done].
    + destruct (Hc va 1%nat t Hva ltac:(lia) T) as [[? _]|[(_ & -> & _)|(? & _)]]; [lia| |lia].
      unfold entry. change (lbits 1) with 30. rewrite Hz, Z.mul_0_r, Z.add_0_r by (unfold KERNEL_PAGING_SIZE in Hr; lia).
      unfold table_entry. destruct (table_slot m (cr3 + 0x1000) (cr3 + 0x2000) 7) as (_ & -> & -> & -> & ->); [lia|by apply Hal|lia|done|]. rewrite B3. split; [lia|done].
  - intros va vb l l' t Ha Hb Hl Hl' T T'. pose proof (user_va_range va Ha) as [Ra _]. pose proof (user_va_range vb Hb) as [Rb _].
    unfold KERNEL_PAGING_SIZE in Ra, Rb.
    destruct (Hc va l t Ha Hl T) as [[-> E1]|[(-> & E1 & V1)|(-> & E1 & V1)]],
             (Hc vb l' t Hb Hl' T') as [[-> E2]|[(-> & E2 & V2)|(-> & E2 & V2)]]; try lia;
      (split; [done|]); unfold key; by rewrite !Z.div_small by lia.
  - change (entry m cr3 KERNEL_BASE_OFFSET 39) with (ld64 m (cr3 + 8)).
    destruct (table_slot m (cr3 + 8) (cr3 + 0x3000) 3) as (_ & _ & -> & _); [lia|by apply Hal|lia|done|done].
  - exists (cr3 + 0x2000). destruct (Ht _ low_user_va) as (_ & -> & _). split; [done|].
    change (entry m (cr3 + 0x2000) 0 21) with (ld64 m (cr3 + 0x2000 + 0)). by rewrite Z.add_0_r, B4.
  - intros i Hi. rewrite ld64_zero; [done|]. intros y Hy. apply B5; unfold rng in *; lia.
  - intros va Hva. destruct (Ht va Hva) as (_ & _ & T3). unfold leaf. by rewrite T3.
Qed.

(** The hypervisor and [init_pagetable] build them, and the arguments on the stack leave them
    alone. *)
Lemma booted {W} (fails : ioctl -> bool) code (v : vm W) mem_base argv ar :
  (forall i, fails i = false) -> Z.of_nat (length code) <= MAX_KERNEL_SIZE ->
  0 <= mem_base -> mem_base mod 16 = 0 -> mem_base + MEM_SIZE < 2 ^ 64 ->
  strings_size argv + 16 + 8 * (Z.of_nat (length argv) + 2) <= KERNEL_STACK_SIZE ->
  exists v1 v2 m, kvm_init fails KVM_API_VERSION code v = Ok tt v1 /\ copy_argv fails mem_base argv v1 = Ok tt v2 /\
    sr_cr3 (v_sregs (cpu v2)) = MAX_KERNEL_SIZE /\ seg_dpl (sr_cs (v_sregs (cpu v2))) = 0 /\
    rdi (v_regs (cpu v2)) = PS_LIMIT /\ rsi (v_regs (cpu v2)) = MEM_SIZE - PS_LIMIT /\
    init_pagetable MAX_KERNEL_SIZE (Heap (guest v2) ar) = Ok tt (Heap m ar) /\ boot_map m MAX_KERNEL_SIZE.
Proof.
  intros Hok Hlen Hb0 Hb Hb1 Hargs.
  destruct (kvm_init_run fails Hok code v Hlen) as (v1 & Hrun1 & (T4 & T3 & T2) & Hr & Hc & Hd & _ & Hz).
  pose proof (eq_refl : MAX_KERNEL_SIZE = 0x1f7000) as Hmk. pose proof (eq_refl : KERNEL_STACK_SIZE = 0x4000) as Hks.
  pose proof (eq_refl : MEM_SIZE = 0x400000) as Hms. pose proof (eq_refl : PS_LIMIT = 0x200000) as Hps.
  assert (rsp (v_regs (cpu v1)) = PS_LIMIT) as Hsp by (by rewrite Hr).
  destruct (copy_argv_run fails mem_base argv v1 Hok Hb0 Hb Hb1) as (v2 & sp' & Hrun2 & _ & (Hlow & Hs & Hdi & Hsi) & _ & _ & _ & Hf); [rewrite Hsp; lia..|].
  rewrite Hsp in Hlow, Hf.
  assert (forall x, x < 0x1fc000 -> guest v2 x = guest v1 x) as Hf' by (intros x Hx; apply Hf; unfold rng; lia).
  assert (boot_cr3 MAX_KERNEL_SIZE) as Hbc by (by split; [|split]).
  destruct (init_pagetable_run MAX_KERNEL_SIZE (guest v2) ar Hbc) as (m & Hrun3 & E4 & _ & _ & Fr).
  assert (forall x, rng 0x1f7000 0x3000 x -> ~ rng (0x1f7000 + 8) 8 x -> m x = guest v1 x) as Hm.
  { intros x Hx Hn. rewrite Fr, Hf'; [done| | | |]; unfold rng in *; rewrite ?Hmk; lia. }
  exists v1, v2, m. rewrite Hs, Hdi, Hsi, Hr. do 7 (split; [done|]). rewrite Hmk in *. split; [done| |done| | |].
  - rewrite <- T4. apply ld_ext. intros x Hx. apply Hm; unfold rng in *; lia.
  - rewrite <- T3. apply ld_ext. intros x Hx. apply Hm; unfold rng in *; lia.
  - rewrite <- T2. apply ld_ext. intros x Hx. apply Hm; unfold rng in *; lia.
  - intros x Hx X1 X2 X3. rewrite Hm by (unfold rng in *; lia). apply Hz; unfold rng in *; lia.
Qed.

(** The tables alone, on an otherwise empty memory. *)
Definition boot_mem : mem :=
  let cr3 := MAX_KERNEL_SIZE in
  st64 (st64 (st64 (st64 (fun _ => 0) cr3 (cr3 + 0x1000 + 7)) (cr3 + 8) (cr3 + 0x3000 + 3))
    (cr3 + 0x1000) (cr3 + 0x2000 + 7)) (cr3 + 0x2000) 131.
Lemma boot_mem_map : boot_map boot_mem MAX_KERNEL_SIZE.
Proof.
  split; [by split; [|split]|vm_compute; reflexivity..|].
  intros x _ H1 H2 H3. unfold boot_mem, st64, rng in *. by rewrite !st_outside by (unfold rng; simpl; lia).
Qed.
