(* ===== verification/SyscallProof.v ===== *)
(** * read and write from the system call to the host

    A [read] or [write] of a user program goes through [access_ok], a kernel buffer
    from [kmalloc], [memcpy], a hypercall with its own request buffer, and the
    handler of the hypervisor.  Put together, the system's write receives exactly
    the bytes of the user's buffer, the user's buffer receives exactly the bytes of
    the system's read, no other byte outside the free heap changes and no kernel
    memory is leaked.  The allocator enters by its interface only. *)

From S2P Require Import Prelude Memory Arch KString Kmalloc KmallocSpec KmallocProof KmallocRefine.
From S2P Require Import KmallocSafety KmallocIface Translate TranslateProof PageTables Hypercall Hypervisor.
From S2P Require Import HypercallProof HypervisorProof Kernel KernelProof.

#[export] Instance unused_proper hp : Proper ((≡ₚ) ==> (=) ==> iff) (unused hp).
Proof.
  intros l l' Hl x ? <-. unfold unused. apply and_iff_compat_l.
  split; intros H p len Hin; apply H; [by rewrite Hl|by rewrite <- Hl].
Qed.

Lemma unused_cons hp p len l x :
  unused hp ((p, len) :: l) x <-> unused hp l x /\ ~ block_bytes p len x.
Proof.
  unfold unused. split.
  - intros [H1 H2]. split; [split; [done|]|].
    + intros q n Hq. apply H2. by right.
    + apply H2. left.
  - intros [[H1 H2] H3]. split; [done|]. intros q n [[= -> ->]|Hq]%elem_of_cons; auto.
Qed.

(** ** Copies *)

Section Copy.
Context {W : Type}.
Implicit Types k : kstate W.

(** Memory [m] in place of the memory of [k]. *)
Definition with_mem (m : mem) (k : kstate W) : kstate W := put_heap (Heap m (k_arena k)) k.

Lemma vload_at m k va x :
  vtrans m (cr3_of k) va = Some x -> x_pa x < MEM_SIZE ->
  vload va (with_mem m k) = Ok (u8 (m (x_pa x))) (with_mem m k).
Proof.
  intros Hx Hp. unfold vload. change (guest (k_vm (with_mem m k))) with m.
  change (cr3_of (with_mem m k)) with (cr3_of k). by rewrite Hx, (proj2 (Z.ltb_lt _ _)).
Qed.

Lemma vstore_at m k va x b :
  vtrans m (cr3_of k) va = Some x -> x_pa x < MEM_SIZE -> x_rw x = true ->
  vstore va b (with_mem m k) =
    Ok tt (with_mem (fun y => if y =? x_pa x then u8 b else m y) k).
Proof.
  intros Hx Hp Hw. unfold vstore. change (guest (k_vm (with_mem m k))) with m.
  change (cr3_of (with_mem m k)) with (cr3_of k). by rewrite Hx, Hw, (proj2 (Z.ltb_lt _ _)).
Qed.

(** Copying [n] bytes between ranges whose bytes are at the physical addresses [s]
    and [d], whatever the copied bytes are. *)
Record copyable k dst src n (d s : Z -> Z) : Prop := Copyable {
  cp_len : 0 <= n < 2 ^ 63;
  cp_src : 0 <= src <= 2 ^ 64 - n;
  cp_dst : 0 <= dst <= 2 ^ 64 - n;
  cp_trans : forall m, (forall y, (forall j, 0 <= j < n -> y <> d j) -> m y = guest (k_vm k) y) ->
    forall i, 0 <= i < n ->
      (exists x, vtrans m (cr3_of k) (src + i) = Some x /\ x_pa x = s i /\ s i < MEM_SIZE) /\
      (exists x, vtrans m (cr3_of k) (dst + i) = Some x /\ x_pa x = d i /\ d i < MEM_SIZE /\ x_rw x = true);
  cp_apart : forall i j, 0 <= i < n -> 0 <= j < n -> d i <> s j;
  cp_inj : forall i j, 0 <= i < n -> 0 <= j < n -> d i = d j -> i = j
}.

(** The memory after [i] bytes. *)
Definition copied k n (d s : Z -> Z) (i : Z) (m : mem) : Prop :=
  (forall j, 0 <= j < i -> m (d j) = u8 (guest (k_vm k) (s j))) /\
  (forall y, (forall j, 0 <= j < n -> y <> d j) -> m y = guest (k_vm k) y).

Lemma memcpy_loop k dst src n d s c : copyable k dst src n d s -> forall i m,
  0 <= i -> i + Z.of_nat c = n -> copied k n d s i m ->
  exists m', run (mbody (fun i => if i <? n then
      b ← vload (u64 (src + i)); vstore (u64 (dst + i)) b ;; mret (inl (i + 1))
    else mret (inr tt))) (S c) (i, with_mem m k) = inr (Ok tt (with_mem m' k)) /\ copied k n d s n m'.
Proof.
  intros C. pose proof C as [Hn Hs Hd Ht Ha Hj].
  induction c as [|c IH]; intros i m Hi Hc [H1 H2].
  - exists m. replace n with i by lia. split; [|split; [done|]].
    + apply mbody_done. by rewrite (proj2 (Z.ltb_ge _ _)) by lia.
    + intros y Hy. apply H2. intros j Hj'. apply Hy. lia.
  - destruct (Ht m H2 i) as [(x & Hx & Px & Lx) (z & Hz & Pz & Lz & Wz)]; [lia|].
    erewrite mbody_next.
    2:{ rewrite (proj2 (Z.ltb_lt _ _)), !u64_small by lia.
        erewrite bind_ok; [|by apply (vload_at _ _ _ x); [|rewrite Px]].
        erewrite bind_ok; [reflexivity|]. by apply (vstore_at _ _ _ z); [|rewrite Pz|]. }
    apply IH; [lia..|]. rewrite Px, Pz. split.
    + intros j Hj'. destruct (Z.eqb_spec (d j) (d i)) as [E|E].
      * apply Hj in E as ->; [|lia..]. rewrite H2 by (intros j ?; apply not_eq_sym, Ha; lia).
        unfold u8. by rewrite !Zmod_mod.
      * apply H1. destruct (Z.eq_dec j i) as [->|]; [done|lia].
    + intros y Hy. rewrite (proj2 (Z.eqb_neq _ _)) by (apply Hy; lia). by apply H2.
Qed.

Lemma memcpy_run k dst src n d s :
  copyable k dst src n d s ->
  exists m', memcpy dst src n k = Ok tt (with_mem m' k) /\ copied k n d s n m'.
Proof.
  intros C. pose proof C as [Hn _ _ _ _ _].
  destruct (memcpy_loop k dst src n d s (Z.to_nat n) C 0 (guest (k_vm k))) as (m' & Hrun & Hm);
    [lia..|split; [lia|done]|].
  exists m'. split; [|done]. unfold memcpy. eapply (mloop_result _ (S (Z.to_nat n))); [|lia].
  by rewrite <- (put_heap_id k : with_mem (guest (k_vm k)) k = k) at 1.
Qed.
End Copy.

(** ** The request at the hypervisor *)

(** Documented behaviour of read(2) and write(2): an error number, or a count of at
    most what was asked for. *)
Definition rw_documented {W} (os : host_os W) : Prop := forall w fd,
  (forall l, match os_write os w fd l with
             | (_, inl e) => 1 <= e <= 4095
             | (_, inr c) => 0 <= c <= Z.of_nat (length l)
             end) /\
  (forall n, 0 <= n ->
     match os_read os w fd n with
     | (_, inl e) => 1 <= e <= 4095
     | (_, inr l) => Z.of_nat (length l) <= n /\ Forall (fun b => 0 <= b < 256) l
     end).

(** What the caller of a write observes: the result and the state of the system. *)
Definition write_result {W} (os : host_os W) (v : vm W) (fd : Z) (bytes : list Z) : Z * W :=
  match fd_abs (cur_fds v) fd with
  | None => (- EBADF, host v)
  | Some n => match os_write os (host v) n bytes with
              | (w, inl e) => (- e, w)
              | (w, inr c) => (c, w)
              end
  end.
(** What the caller of a read observes: also the bytes that are delivered. *)
Definition read_result {W} (os : host_os W) (v : vm W) (fd n : Z) : Z * list Z * W :=
  match fd_abs (cur_fds v) fd with
  | None => (- EBADF, [], host v)
  | Some r => match os_read os (host v) r n with
              | (w, inl e) => (- e, [], w)
              | (w, inr l) => (Z.of_nat (length l), l, w)
              end
  end.
(** The same for the handler of either, with the guest's memory. *)
Definition rw_result {W} (os : host_os W) (c : rw) (v : vm W) (fd paddr n : Z) : Z * mem * W :=
  match c with
  | RwWrite => let '(r, w) := write_result os v fd (mem_bytes (guest v) paddr n) in (r, guest v, w)
  | RwRead => let '(r, l, w) := read_result os v fd n in (r, put_bytes (guest v) paddr l, w)
  end.

Definition rw_work {W} (os : host_os W) (c : rw) : cmd (vm W) Z :=
  v ← get;
  let offset := u32 (io_data v) in
  kbuf ← MEM_AT offset;
  k0 ← host_ld 8 kbuf;
  paddr ← host_ld 8 (kbuf + 8);
  nbytes ← host_ld 8 (kbuf + 16);
  let fd := s32 k0 in
  if negb ((paddr <=? u64 (paddr + nbytes)) && (u64 (paddr + nbytes) <=? mem_size))
  then mret (- EACCES)
  else PROCESS_ON_FD fd (do_rw os c paddr nbytes).

(** A request of [n] bytes for descriptor [fd] and address [paddr], at [off]. *)
Definition request_at (m : mem) (off fd paddr n : Z) : Prop :=
  0 <= off /\ off + 24 <= mem_size /\ ld64 m off = fd /\ ld64 m (off + 8) = paddr /\
  ld64 m (off + 16) = n.

Lemma length_mem_bytes m a n : 0 <= n -> Z.of_nat (length (mem_bytes m a n)) = n.
Proof. intros H. unfold mem_bytes. rewrite length_map, length_seqZ. lia. Qed.

Definition int_result (r : Z) : Prop := - 4095 <= r < 2 ^ 31.
Lemma int_result_s32 r : int_result r -> s32 r = r /\ r <> s32 UNUSED_VAR.
Proof.
  intros H. unfold int_result in H. change (s32 UNUSED_VAR) with (-559022081). split; [|lia].
  destruct (Z.ltb_spec r 0); [apply s32_neg|apply s32_small]; lia.
Qed.

Lemma put_bytes_nil m a x : put_bytes m a [] x = m x.
Proof. apply put_bytes_outside. unfold rng. simpl. lia. Qed.

(** A handler's outcome is what the caller is promised. *)
Definition rw_done {W} (os : host_os W) (c : rw) (v : vm W) (fd paddr n r : Z) (v2 : vm W) : Prop :=
  let '(r0, m, w) := rw_result os c v fd paddr n in
  r = r0 /\ host v2 = w /\ (forall x, guest v2 x = m x).

(** The handler on a good request. *)
Lemma do_rw_run {W} (os : host_os W) c (v : vm W) fd h paddr n :
  rw_documented os -> 0 <= paddr < mem_size -> 0 <= n < 2 ^ 31 ->
  fd_abs (cur_fds v) fd = Some (real_fd h) ->
  forall v1, guest v1 = guest v -> host v1 = host v ->
  exists v2 x r, do_rw os c paddr n h v1 = Ok x v2 /\ r = (if s32 x <? 0 then - errno v2 else s32 x) /\
    int_result r /\ cpu v2 = cpu v1 /\ fd_map v2 = fd_map v1 /\ fd_map_init v2 = fd_map_init v1 /\
    rw_done os c v fd paddr n r v2.
Proof.
  intros Hdoc Hp Hn Hfd v1 Hg Hh. unfold rw_done, do_rw, MEM_AT, rw_result, read_result, write_result.
  rewrite (proj2 (andb_true_iff _ _)), bind_ret, bind_get, Hg, Hh, Hfd by lia.
  destruct (Hdoc (host v) (real_fd h)) as [Dw Dr]. destruct c.
  - specialize (Dr n ltac:(lia)). destruct (os_read _ _ _ n) as [w [e|l]].
    + eexists _, (-1), _. split; [reflexivity|]. split; [reflexivity|].
      change (s32 (-1) <? 0) with true. cbn. unfold int_result. do 5 (split; [lia || done|]).
      split; [done|]. intros x. by rewrite Hg, put_bytes_nil.
    + destruct Dr as [Dl _]. eexists _, _, _. split; [reflexivity|]. split; [reflexivity|].
      rewrite s32_small, (proj2 (Z.ltb_ge _ _)) by lia. cbn. unfold int_result.
      do 5 (split; [lia || done|]). by rewrite Hg.
  - specialize (Dw (mem_bytes (guest v) paddr n)). rewrite length_mem_bytes in Dw by lia.
    destruct (os_write _ _ _ _) as [w [e|x]].
    + eexists _, (-1), _. split; [reflexivity|]. split; [reflexivity|].
      change (s32 (-1) <? 0) with true. cbn. unfold int_result. do 5 (split; [lia || done|]). by rewrite Hg.
    + eexists _, _, _. split; [reflexivity|]. split; [reflexivity|].
      rewrite s32_small, (proj2 (Z.ltb_ge _ _)) by lia. cbn. unfold int_result.
      do 5 (split; [lia || done|]). by rewrite Hg.
Qed.

Lemma host_ld_ok {W} n off (v : vm W) :
  0 <= off -> off + Z.of_nat n <= mem_size -> host_ld n off v = Ok (ld n (guest v) off) v.
Proof. intros H1 H2. unfold host_ld. by rewrite (proj2 (andb_true_iff _ _)) by lia. Qed.

Lemma rw_work_run {W} (os : host_os W) c (v : vm W) fd paddr n :
  rw_documented os -> request_at (guest v) (u32 (io_data v)) fd paddr n ->
  0 <= fd < 2 ^ 31 -> 0 <= paddr -> 0 < n -> paddr + n <= mem_size ->
  exists r v2, rw_work os c v = Ok r v2 /\ int_result r /\ cpu v2 = cpu v /\
    fd_map v2 = cur_fds v /\ fd_map_init v2 <> 0 /\ rw_done os c v fd paddr n r v2.
Proof.
  intros Hdoc (Q1 & Q2 & Q3 & Q4 & Q5) Hfd Hp Hn Hr.
  pose proof (eq_refl : mem_size = 0x400000) as Hms.
  unfold rw_work. rewrite bind_get. unfold MEM_AT.
  rewrite (proj2 (andb_true_iff _ _)), bind_ret by lia.
  rewrite (bind_ok _ _ _ _ _ (host_ld_ok 8 _ v Q1 ltac:(lia))).
  rewrite (bind_ok _ _ _ _ _ (host_ld_ok 8 (u32 (io_data v) + 8) v ltac:(lia) ltac:(lia))).
  rewrite (bind_ok _ _ _ _ _ (host_ld_ok 8 (u32 (io_data v) + 16) v ltac:(lia) ltac:(lia))).
  unfold ld64 in *. rewrite Q3, Q4, Q5. rewrite u64_small by lia. rewrite s32_small by lia.
  rewrite (proj2 (andb_true_iff _ _)) by lia. cbn [negb]. unfold PROCESS_ON_FD.
  destruct (may_init_run v) as (v1 & Hi & Hm & Hin & Hg & Hh & _ & _ & Hc).
  rewrite (bind_ok _ _ _ _ _ Hi), bind_get, Hm. destruct (BADFD (cur_fds v) fd) eqn:Eb.
  - assert (fd_abs (cur_fds v) fd = None) as En by (unfold fd_abs; by rewrite Eb).
    exists (- EBADF), v1. unfold rw_done, rw_result, read_result, write_result. rewrite En.
    unfold int_result, EBADF. do 5 (split; [lia || done|]). destruct c; rewrite Hg; auto.
    split; [done|]. split; [done|]. intros x. by rewrite put_bytes_nil.
  - destruct (do_rw_run os c v fd (fd_at (cur_fds v) fd) paddr n Hdoc ltac:(lia) ltac:(lia)
                ltac:(unfold fd_abs; by rewrite Eb) v1 Hg Hh)
      as (v2 & x & r & Hrun & Er & Hir & C2 & M2 & I2 & Hd).
    exists r, v2. rewrite (bind_ok _ _ _ _ _ Hrun), bind_get, Er.
    rewrite C2, M2, I2, Hm, <- Er. done.
Qed.

(** ** [hp_read] and [hp_write] *)

Section Rw.
Context {W : Type} (os : host_os W) (fails : ioctl -> bool).
Context {A : Type} `{Al : !Allocator A}.
Hypothesis kvm_works : forall i, fails i = false.
Hypothesis os_documented : rw_documented os.
Implicit Types (k : kstate W) (a : A).

Definition free_byte a : Z -> Prop := unused (al_heap a) (al_blocks a).
Definition nr_of (c : rw) : Z := match c with RwRead => NR_HP_read | RwWrite => NR_HP_write end.

(** What a call leaves as it is. *)
Definition alike k k' : Prop :=
  cpu (k_vm k') = cpu (k_vm k) /\ cur_fds (k_vm k') = cur_fds (k_vm k) /\
  last_mmapped k' = last_mmapped k /\ msrs k' = msrs k.

Lemma alike_trans k1 k2 k3 : alike k1 k2 -> alike k2 k3 -> alike k1 k3.
Proof. unfold alike. intros (<- & <- & <- & <-) H. exact H. Qed.

(** Results depend on the table and the system only. *)
Lemma write_result_same v v' fd l :
  cur_fds v = cur_fds v' -> host v = host v' -> write_result os v fd l = write_result os v' fd l.
Proof. unfold write_result. by intros -> ->. Qed.
Lemma read_result_same v v' fd n :
  cur_fds v = cur_fds v' -> host v = host v' -> read_result os v fd n = read_result os v' fd n.
Proof. unfold read_result. by intros -> ->. Qed.

(** The outcome of a request, outside the bytes [U]. *)
Definition rw_done_off (U : Z -> Prop) (c : rw) (v : vm W) (fd paddr n r : Z) (v2 : vm W) : Prop :=
  let '(r0, m, w) := rw_result os c v fd paddr n in
  r = r0 /\ host v2 = w /\ (forall x, ~ U x -> guest v2 x = m x).

Lemma mem_bytes_ext m m' p n :
  (forall x, rng p n x -> m' x = m x) -> mem_bytes m' p n = mem_bytes m p n.
Proof.
  intros H. unfold mem_bytes. apply map_ext_in. intros x Hx. apply list_elem_of_In, elem_of_seqZ in Hx.
  rewrite H; [done|]. unfold rng. lia.
Qed.

(** The outcome depends on the table, the system and the bytes asked for only. *)
Lemma rw_done_frame (U : Z -> Prop) c v v' fd paddr n r v2 :
  cur_fds v' = cur_fds v -> host v' = host v ->
  (forall x, ~ U x -> guest v' x = guest v x) -> (forall x, rng paddr n x -> ~ U x) ->
  rw_done os c v' fd paddr n r v2 -> rw_done_off U c v fd paddr n r v2.
Proof.
  intros Hf Hh Hg Hu. unfold rw_done, rw_done_off, rw_result, read_result, write_result.
  rewrite Hf, Hh, (mem_bytes_ext (guest v) (guest v')) by auto. destruct c.
  - destruct (match fd_abs _ _ with Some _ => _ | None => _ end) as [[r0 l] w].
    intros (-> & -> & H). do 2 (split; [done|]). intros x Hx. rewrite H. unfold put_bytes.
    by destruct (_ && _); [|apply Hg].
  - destruct (match fd_abs _ _ with Some _ => _ | None => _ end) as [r0 w].
    intros (-> & -> & H). do 2 (split; [done|]). intros x Hx. rewrite H. auto.
Qed.

(** Bytes that were not asked for stay. *)
Lemma rw_done_contained c v fd paddr n r v2 x :
  rw_done os c v fd paddr n r v2 -> 0 <= n -> ~ rng paddr n x -> guest v2 x = guest v x.
Proof.
  unfold rw_done, rw_result, read_result, write_result. intros Hd Hn Hx. destruct c.
  2:{ destruct (match fd_abs _ _ with Some _ => _ | None => _ end) as [r0 w]. by destruct Hd as (_ & _ & ->). }
  destruct (fd_abs _ _) as [h|]; [|destruct Hd as (_ & _ & ->); apply put_bytes_nil].
  destruct (os_documented (host v) h) as [_ Dr]. specialize (Dr n Hn).
  destruct (os_read _ _ _ _) as [w [e|l]]; destruct Hd as (_ & _ & ->); [apply put_bytes_nil|].
  apply put_bytes_outside. unfold rng in *. lia.
Qed.

Lemma physical_on q k :
  KERNEL_BASE_OFFSET <= q <= KERNEL_BASE_OFFSET + MEM_SIZE ->
  on_heap (physical q) k = Ok (q - KERNEL_BASE_OFFSET) k.
Proof.
  intros Hq. rewrite <- (put_heap_id k) at 2. apply on_heap_ok.
  replace (physical q) with (physical (KERNEL_BASE_OFFSET + (q - KERNEL_BASE_OFFSET))) by (f_equal; lia).
  apply physical_direct. unfold MEM_SIZE, PS_LIMIT in Hq. lia.
Qed.
Lemma kstore_on {B} va v m ar k (f : unit -> cmd (kstate W) B) :
  KERNEL_BASE_OFFSET <= va -> va + 8 <= KERNEL_BASE_OFFSET + MEM_SIZE ->
  (on_heap (kstore va v) ≫= f) (put_heap (Heap m ar) k) = f tt (put_heap (Heap (stk m va v) ar) k).
Proof.
  intros H1 H2. apply bind_ok.
  exact (on_heap_ok _ (put_heap (Heap m ar) k) _ _ (kstore_ok va v m ar H1 H2)).
Qed.

(** The three stores of a request. *)
Definition request_mem (m : mem) (q fd paddr n : Z) : mem :=
  stk (stk (stk m q (u64 fd)) (q + 8) paddr) (q + 16) n.

Lemma request_mem_outside m q fd paddr n x :
  ~ block_bytes q 24 x -> request_mem m q fd paddr n x = m x.
Proof.
  unfold block_bytes, request_mem, rng. intros H. rewrite !stk_outside; unfold rng; try done; lia.
Qed.

Lemma request_mem_at m q fd paddr n :
  KERNEL_BASE_OFFSET <= q -> q + 24 <= KERNEL_BASE_OFFSET + MEM_SIZE -> 0 <= fd < 2 ^ 64 ->
  0 <= paddr < 2 ^ 64 -> 0 <= n < 2 ^ 64 ->
  request_at (request_mem m q fd paddr n) (q - KERNEL_BASE_OFFSET) fd paddr n.
Proof.
  intros H1 H2 Hf Hp Hn. unfold request_at, request_mem, stk. change mem_size with MEM_SIZE.
  replace (q + 8 - KERNEL_BASE_OFFSET) with (q - KERNEL_BASE_OFFSET + 8) by lia.
  replace (q + 16 - KERNEL_BASE_OFFSET) with (q - KERNEL_BASE_OFFSET + 16) by lia.
  split; [lia|]. split; [lia|].
  assert (forall m x y v, y + 8 <= x \/ x + 8 <= y -> ld64 (st64 m x v) y = ld64 m y) as Ho
    by (intros; by apply ld_st_other).
  split; [|split].
  - rewrite !Ho, ld64_st64 by (apply u64_range || lia). by apply u64_small.
  - by rewrite Ho, ld64_st64 by lia.
  - by rewrite ld64_st64 by lia.
Qed.

Lemma hp_rw_run c k a fd paddr n :
  kernel_mode k -> al_inv (heap_of k) a -> chunk_size 24 <= al_room a ->
  0 <= fd < 2 ^ 31 -> 0 <= paddr -> 0 < n -> paddr + n <= mem_size ->
  (forall x, rng paddr n x -> ~ free_byte a x) ->
  exists r k' a', hp_rw os fails (nr_of c) fd paddr n k = Ok r k' /\
    al_inv (heap_of k') a' /\ al_heap a' = al_heap a /\ al_blocks a' ≡ₚ al_blocks a /\
    al_kept a a' /\ alike k k' /\ int_result r /\ rw_done_off (free_byte a) c (k_vm k) fd paddr n r (k_vm k').
Proof.
  intros Hk I Hroom Hfd Hp Hn Hm Hu. pose proof (eq_refl : mem_size = MEM_SIZE) as Hms.
  pose proof (eq_refl : MEM_SIZE = 0x400000) as Hms'. unfold hp_rw.
  destruct (al_malloc (heap_of k) a 24) as (q & [m1 ar1] & a1 & Hq & I1 & E1 & B1 & R1 & Q1 & Q2 & Qu & Qf & _);
    [done|lia|done|]. simpl in Qf.
  rewrite (bind_ok _ _ _ _ _ (on_heap_ok _ _ _ _ Hq)).
  set (m2 := request_mem m1 q fd paddr n).
  assert (forall x, ~ free_byte a x -> m2 x = guest (k_vm k) x) as Hm2.
  { intros x Hx. unfold m2. rewrite request_mem_outside; [by apply Qf|]. intros Hb. by apply Hx, Qu. }
  rewrite kstore_on, kstore_on, kstore_on, (bind_ok _ _ _ _ _ (physical_on q _ ltac:(lia))) by lia.
  change (put_heap (Heap _ ar1) k) with (put_heap (Heap m2 ar1) k). set (k1 := put_heap (Heap m2 ar1) k).
  set (v1 := set_data (u32 (q - KERNEL_BASE_OFFSET)) (k_vm k1)).
  destruct (rw_work_run os c v1 fd paddr n) as (r & v2 & Hw & Hir & C2 & M2 & I2 & Hd);
    [done| |done..|lia|].
  { unfold v1. cbn [io_data set_data guest]. rewrite !u32_small by (rewrite ?u32_small; lia).
    apply request_mem_at; lia. }
  destruct (int_result_s32 r Hir) as [Hs Hne].
  destruct (hypercall_run os fails k1 (nr_of c) (q - KERNEL_BASE_OFFSET) SRw (rw_work os c) r v2)
    as (v3 & Hrun & G3 & M3 & H3 & I3 & C3); try done; try (by destruct c).
  rewrite (bind_ok _ _ _ _ _ Hrun).
  assert (rw_done_off (free_byte a) c (k_vm k) fd paddr n r v3) as Hd3.
  { apply (rw_done_frame _ c (k_vm k) v1); try done. unfold rw_done in *. by rewrite G3, H3. }
  set (k3 := KState v3 _ _ _).
  assert (al_inv (heap_of k3) a1) as Ik3.
  { apply (al_write m1); [exact I1|]. rewrite B1, E1. intros x [Hx Hb]%unused_cons.
    change (guest v3 x = m1 x). rewrite G3, (rw_done_contained _ _ _ _ _ _ _ x Hd); [by apply request_mem_outside|lia|].
    intros Hr. by apply (Hu x Hr). }
  destruct (al_free (heap_of k3) a1 q 24) as ([m4 ar4] & a4 & Hfr & I4 & E4 & B4 & R4 & F4);
    [done|rewrite B1; left|].
  rewrite (bind_ok _ _ _ _ _ (on_heap_ok _ _ _ _ Hfr)).
  eexists r, _, a4. split; [reflexivity|]. split; [exact I4|]. split; [by rewrite E4|].
  split; [apply (Permutation_cons_inv (a := (q, 24))); by rewrite <- B4, B1|].
  split; [apply (al_nested (heap_of k3) a a1 a1 a4 q 24); try done; rewrite B1; left|]. split; [|split; [done|]].
  - split; [cbn; by rewrite C3, C2|]. split; [|done]. unfold cur_fds at 1. cbn.
    rewrite I3, M3, M2, (proj2 (Z.eqb_neq _ _)) by done. done.
  - unfold rw_done_off in *. destruct (rw_result _ _ _ _ _ _) as [[r0 m] w].
    destruct Hd3 as (H1 & H2 & H4). do 2 (split; [done|]). intros x Hx. cbn. rewrite <- H4 by done.
    apply F4; [rewrite B1, E1; intros [Hx' _]%unused_cons; done|]. intros Hb. by apply Hx, Qu.
Qed.

(** ** User buffers *)

(** The physical address behind a user address, and the bytes of a user range. *)
Definition frame k (va : Z) : Z := match kwalk k va with Some x => x_pa x | None => -1 end.
Definition user_bytes k (buf n : Z) : list Z :=
  map (fun va => u8 (guest (k_vm k) (frame k va))) (seqZ buf n).

(** A user range whose page tables are in RAM and neither in the bytes [U] nor in
    the range itself, with a frame of its own outside [U] for every mapped byte. *)
Record user_buffer k (U : Z -> Prop) (buf n : Z) : Prop := UserBuffer {
  ub_low : 0 <= buf;
  ub_len : 0 < n < 2 ^ 31;
  ub_high : buf + n <= 2 ^ 47;
  ub_tables : tables_ok k (aligndown buf) (alignup (buf + n));
  ub_frame : forall va, buf <= va < buf + n -> ~ U (frame k va);
  ub_inj : forall va vb, buf <= va < buf + n -> buf <= vb < buf + n -> kwalk k va <> None ->
    frame k va = frame k vb -> va = vb;
  ub_stable : forall m va, buf <= va < buf + n ->
    (forall y, ~ U y -> (forall vb, buf <= vb < buf + n -> y <> frame k vb) -> m y = guest (k_vm k) y) ->
    walk m (cr3_of k) va = kwalk k va
}.

(** The caller may access the whole range. *)
Definition accepted k (write : bool) (buf n : Z) : Prop :=
  USER_MEM_RANGE_OK buf = true /\ USER_MEM_RANGE_OK (buf + n - 1) = true /\
  forall va, buf <= va < buf + n -> user_can k write va = true.

Lemma accepted_trans k U buf n write m i :
  user_buffer k U buf n -> accepted k write buf n -> 0 <= i < n ->
  (forall y, ~ U y -> (forall vb, buf <= vb < buf + n -> y <> frame k vb) -> m y = guest (k_vm k) y) ->
  kwalk k (buf + i) <> None /\
  exists x, vtrans m (cr3_of k) (buf + i) = Some x /\ x_pa x = frame k (buf + i) /\
    frame k (buf + i) < MEM_SIZE /\ (write = true -> x_rw x = true).
Proof.
  intros [B1 B2 B3 B4 _ _ B7] (A1 & A2 & A3) Hi Hm. specialize (A3 (buf + i) ltac:(lia)).
  apply user_range_ok in A1, A2; [|lia..].
  assert (krange (buf + i) 1 = None) as Hk.
  { apply user_range_not_kernel; [lia|lia|]. intros E.
    assert (buf / 2 ^ 39 <= (buf + i) / 2 ^ 39) by (apply Z.div_le_mono; lia).
    assert ((buf + i) / 2 ^ 39 <= (buf + n - 1) / 2 ^ 39) by (apply Z.div_le_mono; lia).
    pose proof (Z.div_mod buf (2 ^ 39)). pose proof (Z.div_mod (buf + n - 1) (2 ^ 39)).
    pose proof (Z.mod_pos_bound buf (2 ^ 39)). pose proof (Z.mod_pos_bound (buf + n - 1) (2 ^ 39)). lia. }
  unfold vtrans. rewrite Hk, (B7 m (buf + i)) by (lia || done).
  destruct (alignup_spec (buf + n)) as [_ Hup]; [lia|].
  rewrite aligndown_mod in B4 by lia. pose proof (Z.mod_pos_bound buf 4096 ltac:(lia)).
  destruct (B4 (buf + i)) as [_ Hr]; [lia|]. unfold user_can, frame in *.
  destruct (kwalk k (buf + i)) as [x|]; [|done]. split; [done|]. exists x. do 3 (split; [done|]).
  intros ->. unfold permits in A3. cbn in A3. by apply andb_true_iff in A3 as [_ A3].
Qed.

Lemma kernel_trans m cr3 p i len :
  KERNEL_BASE_OFFSET <= p -> p + len <= KERNEL_BASE_OFFSET + MEM_SIZE -> 0 <= i < len ->
  vtrans m cr3 (p + i) = Some (Xlat (p - KERNEL_BASE_OFFSET + i) false true).
Proof. intros H1 H2 Hi. unfold vtrans. rewrite krange_direct by lia. do 2 f_equal. lia. Qed.

Lemma map_seqZ_eq {B} (f g : Z -> B) (a b n : Z) :
  (forall i, 0 <= i < n -> f (a + i) = g (b + i)) -> map f (seqZ a n) = map g (seqZ b n).
Proof.
  intros H. apply list_eq. intros j. rewrite !list_lookup_fmap.
  destruct (decide (Z.of_nat j < n)) as [Hj|Hj].
  - rewrite !(lookup_seqZ_lt _ _ j) by done. simpl. f_equal. apply H. lia.
  - rewrite !lookup_seqZ_ge by lia. done.
Qed.

(** The state [k1] has the memory of [k] but for the free heap. *)
Definition off_heap k a k1 : Prop :=
  cr3_of k1 = cr3_of k /\ forall x, ~ free_byte a x -> guest (k_vm k1) x = guest (k_vm k) x.
(** A kernel buffer that was free in [a]. *)
Definition fresh_buffer a (p n : Z) : Prop :=
  KERNEL_BASE_OFFSET <= p /\ p + n <= KERNEL_BASE_OFFSET + MEM_SIZE /\
  forall x, block_bytes p n x -> free_byte a x.

(** From the user's buffer to a kernel buffer. *)
Lemma copy_in k k1 a buf n p :
  user_buffer k (free_byte a) buf n -> accepted k false buf n -> fresh_buffer a p n -> off_heap k a k1 ->
  exists m, memcpy p buf n k1 = Ok tt (with_mem m k1) /\
    mem_bytes m (p - KERNEL_BASE_OFFSET) n = user_bytes k buf n /\
    (forall x, ~ block_bytes p n x -> m x = guest (k_vm k1) x).
Proof.
  intros B Hacc (P1 & P2 & P3) [Hc Hm]. pose proof B as [B1 B2 B3 _ B5 _ _].
  pose proof (eq_refl : MEM_SIZE = 0x400000) as Hms. pose proof (eq_refl : KERNEL_BASE_OFFSET = 2 ^ 39) as Hkb.
  destruct (memcpy_run k1 p buf n (fun i => p - KERNEL_BASE_OFFSET + i) (fun i => frame k (buf + i)))
    as (m & Hrun & H1 & H2).
  { split; [lia..| | |lia].
    - intros m Hf i Hi. rewrite Hc. split.
      + destruct (accepted_trans k _ buf n false m i B Hacc Hi) as (_ & x & X1 & X2 & X3 & _); [|by exists x].
        intros y Hy _. rewrite Hf; [by apply Hm|]. intros j Hj ->. apply Hy, P3. unfold block_bytes, rng. lia.
      + rewrite (kernel_trans m _ p i n) by done. eexists. split; [done|]. cbn. split; [done|]. split; [lia|done].
    - intros i j Hi Hj E. apply (B5 (buf + j)); [lia|]. rewrite <- E. apply P3. unfold block_bytes, rng. lia. }
  exists m. split; [done|]. split.
  - apply map_seqZ_eq. intros i Hi. cbn beta in H1.
    rewrite H1, Hm by (try apply B5; lia). unfold u8. by rewrite Zmod_mod.
  - intros x Hx. apply H2. intros j Hj ->. apply Hx. unfold block_bytes, rng. lia.
Qed.

(** From a kernel buffer to the user's. *)
Lemma copy_out k k1 a buf n p c :
  user_buffer k (free_byte a) buf n -> accepted k true buf n -> fresh_buffer a p n -> off_heap k a k1 ->
  0 <= c <= n ->
  exists m, memcpy buf p c k1 = Ok tt (with_mem m k1) /\
    (forall i, 0 <= i < c -> m (frame k (buf + i)) = u8 (guest (k_vm k1) (p - KERNEL_BASE_OFFSET + i))) /\
    (forall x, (forall va, buf <= va < buf + c -> x <> frame k va) -> m x = guest (k_vm k1) x).
Proof.
  intros B Hacc (P1 & P2 & P3) [Hc Hm] Hcn. pose proof B as [B1 B2 B3 _ B5 B6 _].
  pose proof (eq_refl : MEM_SIZE = 0x400000) as Hms. pose proof (eq_refl : KERNEL_BASE_OFFSET = 2 ^ 39) as Hkb.
  destruct (memcpy_run k1 buf p c (fun i => frame k (buf + i)) (fun i => p - KERNEL_BASE_OFFSET + i))
    as (m & Hrun & H1 & H2).
  { split; [lia..| | |].
    - intros m Hf i Hi. rewrite Hc. split.
      + rewrite (kernel_trans m _ p i n) by (done || lia). eexists. split; [done|]. cbn. split; [done|lia].
      + destruct (accepted_trans k _ buf n true m i B Hacc) as (_ & x & X1 & X2 & X3 & X4);
          [lia| |exists x; auto].
        intros y Hy Hv. rewrite Hf; [by apply Hm|]. intros j Hj. apply Hv. lia.
    - intros i j Hi Hj E. apply (B5 (buf + i)); [lia|]. rewrite E. apply P3. unfold block_bytes, rng. lia.
    - intros i j Hi Hj E. destruct (accepted_trans k _ buf n true (guest (k_vm k)) i B Hacc) as [Hw _]; [lia|done|].
      enough (buf + i = buf + j) by lia. apply B6; [lia..|done|done]. }
  exists m. split; [done|]. split; [done|].
  intros x Hx. apply H2. intros j Hj. apply Hx. lia.
Qed.

(** ** The system calls *)

(** Nothing is leaked: the same blocks are given out, there is at least as much room, registers
    and open files are as before, and so is every byte that is neither free in [a] nor in [D]. *)
Definition balanced k a (D : Z -> Prop) k' : Prop :=
  (exists a', al_inv (heap_of k') a' /\ al_heap a' = al_heap a /\ al_blocks a' ≡ₚ al_blocks a /\ al_kept a a') /\
  alike k k' /\ (forall x, ~ free_byte a x -> ~ D x -> guest (k_vm k') x = guest (k_vm k) x).

(** A block of [n] bytes at [p] was taken from [a], which left [a1]. *)
Definition taken a a1 (p n : Z) : Prop :=
  al_end a1 = al_end a /\ al_room a - chunk_size n <= al_room a1 /\
  (al_room a1 = al_room a \/ p + chunk_size n = OFF_NEXT + al_end a - al_room a1).

Lemma take_buffer k a n c :
  al_inv (heap_of k) a -> 0 < n < 2 ^ 31 -> 0 <= c -> chunk_size n + c <= al_room a ->
  exists p k1 a1, on_heap (kmalloc n MALLOC_NO_ALIGN) k = Ok p k1 /\ al_inv (heap_of k1) a1 /\
    al_heap a1 = al_heap a /\ al_blocks a1 = (p, n) :: al_blocks a /\ (c <= al_room a1 /\ taken a a1 p n) /\
    fresh_buffer a p n /\ off_heap k a k1 /\ alike k k1 /\ host (k_vm k1) = host (k_vm k) /\
    (forall x, block_bytes p n x -> guest (k_vm k1) x = 0).
Proof.
  intros I Hn Hc Hroom.
  destruct (al_malloc (heap_of k) a n) as (p & h1 & a1 & Hrun & I1 & E1 & B1 & R1 & P1 & P2 & Pu & Pf & Pz);
    [done|lia|lia|].
  exists p, (put_heap h1 k), a1. split; [by apply on_heap_ok|]. destruct h1 as [m1 ar1].
  do 3 (split; [done|]). split; [split; [lia|done]|]. done.
Qed.

Lemma give_buffer k k3 a a1 a3 p n (D : Z -> Prop) :
  taken a a1 p n -> al_kept a1 a3 -> al_inv (heap_of k3) a3 -> al_heap a3 = al_heap a -> al_blocks a3 ≡ₚ (p, n) :: al_blocks a ->
  fresh_buffer a p n -> alike k k3 ->
  (forall x, ~ free_byte a x -> ~ D x -> guest (k_vm k3) x = guest (k_vm k) x) ->
  exists k4, on_heap (kfree p) k3 = Ok tt k4 /\ balanced k a D k4 /\ host (k_vm k4) = host (k_vm k3) /\
    (forall x, ~ free_byte a x -> guest (k_vm k4) x = guest (k_vm k3) x).
Proof.
  intros T1 T3 I3 E3 B3 (_ & _ & Pu) Ha Hm.
  destruct (al_free (heap_of k3) a3 p n) as ([m4 ar4] & a4 & Hrun & I4 & E4 & B4 & R4 & F4);
    [done|rewrite B3; left|].
  assert (forall x, ~ free_byte a x -> m4 x = guest (k_vm k3) x) as Hf.
  { intros x Hx. apply F4; [rewrite B3, E3; by intros [Hx' _]%unused_cons|]. intros Hb. by apply Hx, Pu. }
  exists (put_heap (Heap m4 ar4) k3). split; [by apply on_heap_ok|].
  split; [|split; [done|exact Hf]]. split; [|split; [done|]].
  - exists a4. split; [done|]. split; [by rewrite E4|]. split.
    + apply (Permutation_cons_inv (a := (p, n))). by rewrite <- B4, B3.
    + apply (al_nested (heap_of k3) a a1 a3 a4 p n); try done. rewrite B3. left.
  - intros x Hx Hd. cbn. rewrite Hf by done. by apply Hm.
Qed.

Lemma write_accepted k a fd buf n :
  kernel_mode k -> al_inv (heap_of k) a -> chunk_size n + chunk_size 24 <= al_room a ->
  0 <= fd < 2 ^ 31 -> user_buffer k (free_byte a) buf n -> accepted k false buf n ->
  access_ok VERIFY_READ buf n k = Ok true k ->
  exists r k', sys_write os fails fd buf n k = Ok r k' /\
    (r, host (k_vm k')) = write_result os (k_vm k) fd (user_bytes k buf n) /\
    balanced k a (fun _ => False) k'.
Proof.
  intros Hk I Hroom Hfd B Hacc Hok. pose proof B as [_ Hn _ _ _ _ _]. unfold sys_write.
  rewrite (proj2 (Z.ltb_ge _ _)), (bind_ok _ _ _ _ _ Hok) by lia. cbn [negb].
  destruct (take_buffer k a n (chunk_size 24) I Hn ltac:(done) Hroom) as (p & k1 & a1 & Hp & I1 & E1 & B1 & [R1 T1] & P & O1 & A1 & H1 & _).
  rewrite (bind_ok _ _ _ _ _ Hp).
  destruct (copy_in k k1 a buf n p B Hacc P O1) as (m & Hcp & Hbytes & Hm).
  rewrite (bind_ok _ _ _ _ _ Hcp). set (k2 := with_mem m k1). pose proof P as (P1 & P2 & P3).
  rewrite (bind_ok _ _ _ _ _ (physical_on p k2 ltac:(lia))).
  destruct (hp_rw_run RwWrite k2 a1 fd (p - KERNEL_BASE_OFFSET) n) as (r & k3 & a3 & Hrw & I3 & E3 & B3 & K3 & A3 & _ & Hd).
  all: try done; try lia.
  - unfold kernel_mode, k2. cbn. destruct A1 as [-> _]. done.
  - apply (al_write (guest (k_vm k1))); [exact I1|]. rewrite E1, B1. intros x [_ Hx]%unused_cons. by apply Hm.
  - change mem_size with MEM_SIZE. lia.
  - intros x Hx. unfold free_byte. rewrite E1, B1. intros [_ Hb]%unused_cons. by apply Hb.
  - change (hp_rw os fails (nr_of RwWrite)) with (hp_write os fails) in Hrw.
    rewrite (bind_ok _ _ _ _ _ Hrw).
    unfold rw_done_off, rw_result in Hd. change (guest (k_vm k2)) with m in Hd.
    rewrite Hbytes, (write_result_same (k_vm k2) (k_vm k)) in Hd by (apply A1 || exact H1).
    destruct (write_result os (k_vm k) fd (user_bytes k buf n)) as [r0 w] eqn:Er.
    destruct Hd as (-> & Hw & Hg).
    destruct (give_buffer k k3 a a1 a3 p n (fun _ => False)) as (k4 & Hfr & Hbal & H4 & _).
    { done. }
    { done. }
    { done. }
    { by rewrite E3. }
    { by rewrite B3, B1. }
    { done. }
    { by apply (alike_trans k k2). }
    { intros x Hx _. rewrite Hg, Hm; [by apply O1| |].
      - intros Hb. by apply Hx, P3.
      - unfold free_byte. rewrite E1, B1. by intros [Hx' _]%unused_cons. }
    exists r0, k4. rewrite (bind_ok _ _ _ _ _ Hfr). split; [done|]. split; [|done]. by rewrite H4, Hw.
Qed.

Lemma read_result_shape v fd n r l w :
  0 <= n -> read_result os v fd n = (r, l, w) ->
  Forall (fun b => 0 <= b < 256) l /\ Z.of_nat (length l) <= n /\
  (r = Z.of_nat (length l) \/ r < 0 /\ l = []).
Proof.
  intros Hn. unfold read_result. destruct (fd_abs _ _) as [h|].
  2:{ intros [= <- <- _]. split; [constructor|]. split; [done|]. right. unfold EBADF. by split; [lia|]. }
  destruct (os_documented (host v) h) as [_ Dr]. specialize (Dr n Hn).
  destruct (os_read _ _ _ _) as [w' [e|l']]; intros [= <- <- _].
  - split; [constructor|]. split; [done|]. right. by split; [lia|].
  - destruct Dr. auto.
Qed.

(** The copy to the user that a successful read makes, and a failed one leaves out. *)
Lemma copy_back k k3 a buf n p r (l : list Z) :
  user_buffer k (free_byte a) buf n -> accepted k true buf n -> fresh_buffer a p n -> off_heap k a k3 ->
  Z.of_nat (length l) <= n -> r = Z.of_nat (length l) \/ r < 0 /\ l = [] ->
  exists m, (if 0 <=? r then memcpy buf p r else mret tt) k3 = Ok tt (with_mem m k3) /\
    (forall i, 0 <= i < Z.of_nat (length l) ->
       m (frame k (buf + i)) = u8 (guest (k_vm k3) (p - KERNEL_BASE_OFFSET + i))) /\
    (forall x, (forall va, buf <= va < buf + Z.of_nat (length l) -> x <> frame k va) ->
       m x = guest (k_vm k3) x).
Proof.
  intros B Hacc P O Hl [->|[Hr ->]].
  - rewrite (proj2 (Z.leb_le _ _)) by lia. apply (copy_out k k3 a buf n p); try done. lia.
  - rewrite (proj2 (Z.leb_gt _ _)) by lia. exists (guest (k_vm k3)). split; [|split; [simpl; lia|done]].
    by rewrite (put_heap_id k3 : with_mem (guest (k_vm k3)) k3 = k3).
Qed.

Lemma put_bytes_at m q l i b :
  l !! i = Some b -> put_bytes m q l (q + Z.of_nat i) = u8 b.
Proof.
  intros Hb. pose proof (lookup_lt_Some _ _ _ Hb). unfold put_bytes.
  rewrite (proj2 (andb_true_iff _ _)) by lia. replace (Z.to_nat _) with i by lia. by rewrite Hb.
Qed.

(** A user buffer that holds the bytes [l] behind the frames of [k]. *)
Lemma user_bytes_are k k' a buf n l :
  user_buffer k (free_byte a) buf n -> Z.of_nat (length l) <= n -> Forall (fun b => 0 <= b < 256) l ->
  balanced k a (fun x => exists va, buf <= va < buf + Z.of_nat (length l) /\ x = frame k va) k' ->
  (forall i b, l !! i = Some b -> guest (k_vm k') (frame k (buf + Z.of_nat i)) = b) ->
  user_bytes k' buf (Z.of_nat (length l)) = l.
Proof.
  intros B Hl Hb (_ & (Hcpu & _) & Hm) Hi. apply list_eq. intros j. unfold user_bytes.
  rewrite list_lookup_fmap. destruct (l !! j) as [b|] eqn:E.
  2:{ apply lookup_ge_None in E. by rewrite lookup_seqZ_ge by lia. }
  pose proof (lookup_lt_Some _ _ _ E). rewrite lookup_seqZ_lt by lia. simpl. f_equal.
  assert (frame k' (buf + Z.of_nat j) = frame k (buf + Z.of_nat j)) as ->.
  { unfold frame, kwalk. unfold cr3_of. rewrite Hcpu. fold (cr3_of k).
    rewrite (ub_stable _ _ _ _ B); [done|lia|]. intros y Hy Hv. apply Hm; [done|].
    intros (va & Hva & ->). by apply (Hv va); [lia|]. }
  rewrite (Hi j b E). rewrite Forall_lookup in Hb. specialize (Hb j b E).
  unfold u8. apply Z.mod_small. lia.
Qed.

(** The first half of [sys_read]: the bytes are in a kernel buffer. *)
Lemma read_fetch {B} k a fd n (f : Z -> Z -> cmd (kstate W) B) :
  kernel_mode k -> al_inv (heap_of k) a -> chunk_size n + chunk_size 24 <= al_room a ->
  0 <= fd < 2 ^ 31 -> 0 < n < 2 ^ 31 ->
  exists p r l k3 a1 a3,
    (dst ← on_heap (kmalloc n MALLOC_NO_ALIGN); p ← on_heap (physical dst);
     ret ← hp_read os fails fd p n; f dst ret) k = f p r k3 /\
    (r, l, host (k_vm k3)) = read_result os (k_vm k) fd n /\
    (al_inv (heap_of k3) a3 /\ taken a a1 p n /\ al_kept a1 a3) /\
    al_heap a3 = al_heap a /\ al_blocks a3 ≡ₚ (p, n) :: al_blocks a /\ fresh_buffer a p n /\ off_heap k a k3 /\ alike k k3 /\
    (forall i b, l !! i = Some b -> guest (k_vm k3) (p - KERNEL_BASE_OFFSET + Z.of_nat i) = u8 b).
Proof.
  intros Hk I Hroom Hfd Hn.
  destruct (take_buffer k a n (chunk_size 24) I Hn ltac:(done) Hroom) as (p & k1 & a1 & Hp & I1 & E1 & B1 & [R1 T1] & P & O1 & A1 & H1 & _).
  rewrite (bind_ok _ _ _ _ _ Hp). pose proof P as (P1 & P2 & P3).
  rewrite (bind_ok _ _ _ _ _ (physical_on p k1 ltac:(lia))).
  destruct (hp_rw_run RwRead k1 a1 fd (p - KERNEL_BASE_OFFSET) n) as (r & k3 & a3 & Hrw & I3 & E3 & B3 & K3 & A3 & _ & Hd).
  all: try done; try lia.
  { unfold kernel_mode. destruct A1 as [-> _]. done. }
  { change mem_size with MEM_SIZE. lia. }
  { intros x Hx. unfold free_byte. rewrite E1, B1. intros [_ Hb]%unused_cons. by apply Hb. }
  change (hp_rw os fails (nr_of RwRead)) with (hp_read os fails) in Hrw. rewrite (bind_ok _ _ _ _ _ Hrw).
  unfold rw_done_off, rw_result in Hd.
  rewrite (read_result_same (k_vm k1) (k_vm k)) in Hd by (apply A1 || exact H1).
  destruct (read_result os (k_vm k) fd n) as [[r0 l] w] eqn:Er. destruct Hd as (-> & Hw & Hg).
  destruct (read_result_shape (k_vm k) fd n r0 l w ltac:(lia) Er) as (_ & L2 & _).
  assert (forall x, ~ free_byte a x \/ block_bytes p n x -> ~ free_byte a1 x) as Hfree.
  { unfold free_byte. rewrite E1, B1. by intros x [Hx|Hx] [Hx1 Hx2]%unused_cons. }
  exists p, r0, l, k3, a1, a3. split; [done|]. split; [by rewrite Hw|]. split; [done|].
  split; [by rewrite E3|]. split; [by rewrite B3, B1|]. split; [done|]. split; [|split].
  - split; [unfold cr3_of; destruct A3 as [-> _], A1 as [-> _]; done|]. intros x Hx.
    rewrite Hg by auto. rewrite put_bytes_outside; [by apply O1|].
    intros Hr. apply Hx, P3. unfold block_bytes, rng in *. lia.
  - by apply (alike_trans k k1).
  - intros i b Hb. pose proof (lookup_lt_Some _ _ _ Hb). rewrite Hg; [by apply put_bytes_at|].
    apply Hfree. right. unfold block_bytes, rng. lia.
Qed.

Lemma read_accepted k a fd buf n :
  kernel_mode k -> al_inv (heap_of k) a -> chunk_size n + chunk_size 24 <= al_room a ->
  0 <= fd < 2 ^ 31 -> user_buffer k (free_byte a) buf n -> accepted k true buf n ->
  access_ok VERIFY_WRITE buf n k = Ok true k ->
  exists r l k', sys_read os fails fd buf n k = Ok r k' /\
    (r, l, host (k_vm k')) = read_result os (k_vm k) fd n /\
    user_bytes k' buf (Z.of_nat (length l)) = l /\
    balanced k a (fun x => exists va, buf <= va < buf + Z.of_nat (length l) /\ x = frame k va) k'.
Proof.
  intros Hk I Hroom Hfd B Hacc Hok. pose proof B as [_ Hn _ _ Bf _ _]. unfold sys_read.
  rewrite (proj2 (Z.ltb_ge _ _)), (bind_ok _ _ _ _ _ Hok) by lia. cbn [negb].
  destruct (read_fetch k a fd n (fun dst ret =>
      (if 0 <=? ret then memcpy buf dst ret else mret tt) ;; on_heap (kfree dst) ;; mret ret))
    as (p & r & l & k3 & a1 & a3 & -> & Hres & (I3 & T1 & K3) & E3 & B3 & P & O3 & A3 & Hby); try done.
  destruct (read_result_shape (k_vm k) fd n r l _ ltac:(lia) (eq_sym Hres)) as (L1 & L2 & L3).
  destruct (copy_back k k3 a buf n p r l B Hacc P O3 L2 L3) as (m & Hcp & Hm1 & Hm2).
  rewrite (bind_ok _ _ _ _ _ Hcp). set (k4 := with_mem m k3).
  set (D := fun x => exists va, buf <= va < buf + Z.of_nat (length l) /\ x = frame k va).
  assert (forall x, ~ D x -> m x = guest (k_vm k3) x) as Hd.
  { intros x Hx. apply Hm2. intros va Hva ->. apply Hx. by exists va. }
  destruct (give_buffer k k4 a a1 a3 p n D) as (k5 & Hfr & Hbal & H5 & G5); try done.
  { apply (al_write (guest (k_vm k3))); [exact I3|]. intros x Hx.
    rewrite E3, B3 in Hx. apply unused_cons in Hx as [Hx _].
    apply Hd. intros (va & Hva & ->). apply (Bf va); [lia|done]. }
  { intros x Hx Hx'. cbn. rewrite Hd by done. by apply O3. }
  rewrite (bind_ok _ _ _ _ _ Hfr). exists r, l, k5. split; [done|].
  split; [by rewrite H5|]. split; [|done].
  apply (user_bytes_are k k5 a buf n l B L2 L1 Hbal). intros i b Hb.
  pose proof (lookup_lt_Some _ _ _ Hb). rewrite G5 by (apply Bf; lia). cbn. rewrite Hm1, (Hby i b Hb) by lia.
  rewrite Forall_lookup in L1. specialize (L1 i b Hb). unfold u8. rewrite Zmod_mod. apply Z.mod_small. lia.
Qed.

End Rw.

(** [access_ok] decides [accepted]. *)
Lemma access_ok_accepted {W} (k : kstate W) U type buf n :
  user_buffer k U buf n ->
  exists b, access_ok type buf n k = Ok b k /\ (b = true <-> accepted k (nonzero type) buf n).
Proof. intros [B1 B2 B3 B4 _ _ _]. by apply access_ok_spec; [|lia|..]. Qed.

(** ** The properties *)



(** ** Concrete instances *)

(** The tables a walk goes through. *)
Definition walk_tables (m : mem) (cr3 va : Z) : list Z :=
  let t4 := entry_addr 12 cr3 in
  let t3 := entry_addr 12 (entry m t4 va 39) in
  let t2 := entry_addr 12 (entry m t3 va 30) in
  [t4; t3; t2; entry_addr 12 (entry m t2 va 21)].

Lemma walk_ext m m' cr3 va :
  (forall t x, t ∈ walk_tables m cr3 va -> rng t 4096 x -> m' x = m x) ->
  walk m' cr3 va = walk m cr3 va.
Proof.
  intros H. unfold walk_tables in H. cbn zeta in H.
  assert (forall t bits, t ∈ walk_tables m cr3 va -> entry m' t va bits = entry m t va bits) as He.
  { intros t bits Ht. apply entry_unchanged. intros x Hx. by apply (H t). }
  unfold walk_tables in He. cbn zeta in He. unfold walk.
  rewrite (He _ 39) by (repeat constructor). rewrite (He _ 30) by (repeat constructor).
  rewrite (He _ 21) by (repeat constructor). rewrite (He _ 12) by (repeat constructor). done.
Qed.

(** The machine of [demo_kstate] with a heap that ends below the user's frame. *)
Definition rw_kstate : kstate unit :=
  KState (k_vm demo_kstate) (Arena BOOT_HEAP 0x100000 BOOT_HEAP 0 0 0) (u64 (-1)) ∅.
Definition rw_alloc : al_state := (fresh_aheap BOOT_HEAP 0x100000, []).

Lemma rw_alloc_inv : al_inv (heap_of rw_kstate) rw_alloc.
Proof.
  split; [|by split]. destruct (boot_heap_inv 0x100000) as [[R1 R2 R3 R4 R5] Wf]; [done..|].
  split; [|exact Wf]. split; [exact R1|exact R2|exact R3|exact R4|constructor].
Qed.

Lemma rw_walk va : 0x400000 <= va < 0x401000 ->
  kwalk rw_kstate va = Some (Xlat (va - 0x100000) true true) /\
  walk_tables map_mem 0x1f7000 va = [0x1f7000; 0x1f8000; 0x1f9000; 0x1fa000].
Proof.
  intros Hva. assert (0x400000 / 4096 = va / 4096) as Hd.
  { change (0x400000 / 4096) with 1024. apply (Z.div_unique _ _ _ (va - 0x400000)); lia. }
  split.
  - unfold kwalk. change (guest (k_vm rw_kstate)) with map_mem. change (cr3_of rw_kstate) with 0x1f7000.
    rewrite (walk_same_page map_mem 0x1f7000 0x400000 va) by (lia || exact Hd).
    replace (walk map_mem 0x1f7000 0x400000) with (Some (Xlat 0x300000 true true)) by (vm_compute; reflexivity).
    cbn [x_pa x_user x_rw]. do 2 f_equal. lia.
  - transitivity (walk_tables map_mem 0x1f7000 0x400000); [|vm_compute; reflexivity].
    unfold walk_tables, entry. by rewrite !(same_page_index va 0x400000) by (lia || done).
Qed.

Lemma rw_user_buffer : user_buffer rw_kstate (free_byte rw_alloc) 0x400010 2.
Proof.
  assert (forall va, 0x400010 <= va < 0x400010 + 2 -> frame rw_kstate va = va - 0x100000) as Hf.
  { intros va Hva. unfold frame. by rewrite (proj1 (rw_walk va ltac:(lia))). }
  assert (forall x, free_byte rw_alloc x -> 0x200000 <= x < 0x300000) as Hu.
  { intros x [Hx _]. change (heap_bytes (fresh_aheap BOOT_HEAP 0x100000) x) in Hx.
    unfold heap_bytes, fresh_aheap, BOOT_HEAP, KERNEL_PAGING_SIZE in Hx. cbn [a_base a_end] in Hx. lia. }
  split; [lia..|exact demo_tables| | |].
  - intros va Hva Hx. apply Hu in Hx. rewrite Hf in Hx by done. lia.
  - intros va vb Ha Hb _. rewrite !Hf by done. lia.
  - intros m va Hva Hm. apply walk_ext. change (cr3_of rw_kstate) with 0x1f7000.
    change (guest (k_vm rw_kstate)) with map_mem in *. rewrite (proj2 (rw_walk va ltac:(lia))).
    intros t x Ht Hx. apply Hm.
    + intros Hx'. apply Hu in Hx'. unfold rng in Hx.
      repeat (apply elem_of_cons in Ht as [->|Ht]; [lia|]). by apply not_elem_of_nil in Ht.
    + intros vb Hb ->. rewrite Hf in Hx by done. unfold rng in Hx.
      repeat (apply elem_of_cons in Ht as [->|Ht]; [lia|]). by apply not_elem_of_nil in Ht.
Qed.

Lemma rw_accepted write : accepted rw_kstate write 0x400010 2.
Proof.
  split; [reflexivity|]. split; [reflexivity|]. intros va Hva. unfold user_can.
  rewrite (proj1 (rw_walk va ltac:(lia))). by destruct write.
Qed.

(** Systems whose reads and writes are as documented. *)
Lemma demo_rw_documented : rw_documented demo_os.
Proof.
  intros w fd. split.
  - intros l. cbn. lia.
  - intros n Hn. cbn [os_read demo_os]. rewrite length_take. split; [lia|]. apply Forall_take.
    repeat (constructor; [lia|]). constructor.
Qed.


