(* ===== verification/MmapProof.v ===== *)
(** * Mapping memory for the user

    [mmap] takes a block from the allocator and enters its pages one by one;
    [mprotect] changes their permissions one by one.  On an address space that is a
    tree the range is mapped, with new zeroed memory behind it, and every other user
    page stays as it is. *)

From S2P Require Import Prelude Memory Arch KString Kmalloc KmallocSpec KmallocProof KmallocRefine.
From S2P Require Import KmallocSafety Translate TranslateProof PageTables AddressSpace Hypercall Hypervisor.
From S2P Require Import HypercallProof HypervisorProof Kernel KernelProof Boundary.

Lemma page_add x y : x mod 4096 = 0 -> y mod 4096 = 0 -> (x + y) mod 4096 = 0.
Proof. intros Hx Hy. by rewrite Zplus_mod, Hx, Hy. Qed.

Section Pages.
Context {W : Type}.
Implicit Types k : kstate W.

Definition kspace k (a : aheap) : Prop :=
  hinv (heap_of k) a /\ aspace (guest (k_vm k)) a (cr3_of k).
Definition kleaf k (va : Z) : Z := leaf (guest (k_vm k)) (cr3_of k) va.
Definition kgrows k (a : aheap) k' (a' : aheap) : Prop :=
  grows (guest (k_vm k)) a (guest (k_vm k')) a' (cr3_of k).

(** All pages of a range are the user's. *)
Definition user_range (addr len : Z) : Prop :=
  addr mod 4096 = 0 /\ len mod 4096 = 0 /\ 0 <= addr /\ 0 < len /\ addr + len <= 2 ^ 47 /\
  forall va, addr <= va < addr + len -> user_va va.

(** The kernel state with another heap. *)
Lemma cr3_put h k : cr3_of (put_heap h k) = cr3_of k.
Proof. reflexivity. Qed.

(** The room for the tables of the pages from [va] to the end of a range. *)
Definition table_room (va hi : Z) : Z := 3 * PAGE_COST * ((hi - 4096) / 2 ^ 21 - va / 2 ^ 21).

Lemma space_cost_max m cr3 va : 0 <= space_cost m cr3 va <= 3 * PAGE_COST.
Proof. unfold space_cost, lacks, PAGE_COST. repeat case_match; lia. Qed.

(** The next page needs new tables only at a boundary of 2MB. *)
Lemma next_page_cost m cr3 va :
  va mod 4096 = 0 -> tab m cr3 va 3 <> None ->
  space_cost m cr3 (va + 4096) <= 3 * PAGE_COST * ((va + 4096) / 2 ^ 21 - va / 2 ^ 21).
Proof.
  intros Hp Ht. pose proof (space_cost_max m cr3 (va + 4096)) as Hm.
  pose proof (Z.div_mod va (2 ^ 21)). pose proof (Z.mod_pos_bound va (2 ^ 21)).
  pose proof (Z.div_mod (va + 4096) (2 ^ 21)). pose proof (Z.mod_pos_bound (va + 4096) (2 ^ 21)).
  destruct (Z.eq_dec ((va + 4096) / 2 ^ 21) (va / 2 ^ 21)) as [E|E]; [|unfold PAGE_COST in *; lia].
  enough (space_cost m cr3 (va + 4096) = 0) as -> by (rewrite E; lia).
  assert (key 3 (va + 4096) = key 3 va) as K3 by exact E.
  pose proof (proj1 (key_eq 2 _ _ ltac:(lia)) K3) as [K2 _].
  pose proof (proj1 (key_eq 1 _ _ ltac:(lia)) K2) as [K1 _].
  unfold space_cost, lacks. rewrite !(tab_key m cr3 (va + 4096) va) by (lia || done).
  destruct (tab m cr3 va 1) eqn:E1; [|by rewrite (tab_stop m cr3 va 1 3) in Ht by (done || lia)].
  destruct (tab m cr3 va 2) eqn:E2; [|by rewrite (tab_stop m cr3 va 2 3) in Ht by (done || lia)].
  by destruct (tab m cr3 va 3).
Qed.

(** The loop of [mmap] from offset [i] on. *)
Definition mmap_body (addr ret len prot i : Z) : cmd (kstate W) (Z + unit) :=
  if i <? len then
    with_cr3 (fun cr3 => add_trans_user cr3 (u64 (addr + i)) (u64 (ret + i)) prot) ;;
    mret (inl (i + 0x1000))
  else mret (inr tt).

(** The page of [va] is mapped at its place in the block of physical address [f]. *)
Definition mapped_at k (addr f prot va : Z) : Prop :=
  kleaf k va = f + (va / 4096 * 4096 - addr) + Z.lor 1 (prot_bits prot).

Lemma map_pages addr f len prot c : user_range addr len ->
  0 <= f -> f mod 4096 = 0 -> f + len <= MEM_SIZE -> forall i k a,
  kspace k a -> 0 <= i -> i mod 4096 = 0 -> i + 4096 * Z.of_nat c = len ->
  space_cost (guest (k_vm k)) (cr3_of k) (addr + i) + table_room (addr + i) (addr + len) <= a_end a - a_top a ->
  exists k' a', run (mbody (mmap_body addr (KERNEL_BASE_OFFSET + f) len prot)) (S c) (i, k) = inr (Ok tt k') /\
    k' = put_heap (heap_of k') k /\ kspace k' a' /\ kgrows k a k' a' /\
    (forall va, addr + i <= va < addr + len -> mapped_at k' addr f prot va) /\
    (forall vb, user_va vb -> vb < addr + i \/ addr + len <= vb -> kleaf k' vb = kleaf k vb) /\
    a_top a' <= a_top a + Z.max 0 (space_cost (guest (k_vm k)) (cr3_of k) (addr + i) + table_room (addr + i) (addr + len)).
Proof.
  intros R Hf Hfp Hfm. pose proof R as (Ra & Rl & R0 & R1 & R2 & R3).
  pose proof (eq_refl : MEM_SIZE = 0x400000) as Hms. pose proof (eq_refl : KERNEL_BASE_OFFSET = 2 ^ 39) as Hkb.
  induction c as [|c IH]; intros i k a [I S] Hi Hip Hc Hroom.
  { exists k, a. split; [apply mbody_done; unfold mmap_body; by rewrite (proj2 (Z.ltb_ge _ _)) by lia|].
    split; [by rewrite put_heap_id|]. split; [done|]. split; [apply grows_refl|]. split; [lia|]. split; [done|lia]. }
  assert (user_va (addr + i)) as Hva by (apply R3; lia).
  assert ((addr + i) mod 4096 = 0 /\ (f + i) mod 4096 = 0 /\ (i + 4096) mod 4096 = 0) as (Pa & Pf & Pi).
  { by repeat split; apply page_add. }
  assert (0 <= table_room (addr + i) (addr + len)) as Ht.
  { unfold table_room, PAGE_COST. enough ((addr + i) / 2 ^ 21 <= (addr + len - 4096) / 2 ^ 21) by lia.
    apply Z.div_le_mono; lia. }
  destruct (add_trans_space (cr3_of k) (addr + i) (u64 (KERNEL_BASE_OFFSET + f + i)) (f + i) prot
              (guest (k_vm k)) (k_arena k) a) as (m1 & ar1 & a1 & Hrun & I1 & S1 & G1 & T1 & L1 & O1 & C1);
    [done|done|done|lia|lia|done|right; rewrite u64_small; lia|].
  set (k1 := put_heap (Heap m1 ar1) k).
  pose proof (next_page_cost m1 (cr3_of k) (addr + i) Pa T1) as Hn.
  destruct (IH (i + 4096) k1 a1) as (k' & a' & Hr & Hk & Sp & G & Hin & Hout & Htop); [done|lia|done|lia| |].
  { rewrite (g_end _ _ _ _ _ G1). change (guest (k_vm k1)) with m1. change (cr3_of k1) with (cr3_of k).
    rewrite Z.add_assoc. unfold table_room in *. lia. }
  exists k', a'. split; [|split; [|split; [done|split; [|split; [|split]]]]].
  - erewrite mbody_next; [exact Hr|]. unfold mmap_body. rewrite (proj2 (Z.ltb_lt _ _)) by lia.
    rewrite (u64_small (addr + i)) by lia. unfold with_cr3. rewrite bind_bind, bind_get.
    erewrite bind_ok; [reflexivity|]. by apply on_heap_ok.
  - by rewrite Hk.
  - by apply (grows_trans _ _ m1 a1).
  - intros va Hv. destruct (Z.ltb_spec va (addr + i + 4096)) as [Hlt|Hge]; [|apply Hin; lia].
    assert (va / 4096 = (addr + i) / 4096) as Hq.
    { pose proof (Z.div_mod (addr + i) 4096). symmetry.
      apply (Z.div_unique _ _ _ (va - (addr + i))); lia. }
    unfold mapped_at. rewrite Hout by (try (apply R3; lia); lia). unfold kleaf.
    change (guest (k_vm k1)) with m1. change (cr3_of k1) with (cr3_of k).
    rewrite (leaf_key m1 _ va (addr + i) Hq), L1, Hq. pose proof (Z.div_mod (addr + i) 4096). lia.
  - intros vb Hb Hv. rewrite Hout by (done || lia). apply O1; [done|]. intros E.
    pose proof (Z.div_mod (addr + i) 4096). pose proof (Z.div_mod vb 4096).
    pose proof (Z.mod_pos_bound vb 4096). destruct Hv as [Hv|Hv]; [lia|].
    pose proof (Z.div_mod (addr + len) 4096). lia.
  - change (guest (k_vm k1)) with m1 in Htop. change (cr3_of k1) with (cr3_of k) in Htop.
    pose proof (space_cost_max (guest (k_vm k)) (cr3_of k) (addr + i)).
    rewrite !(Z.add_assoc addr) in Htop. unfold table_room in *. lia.
Qed.
(** A mapped page as the processor sees it. *)
Lemma mapped_walk k a addr f len prot va :
  kspace k a -> user_range addr len -> 0 <= f -> f mod 4096 = 0 -> f + len <= MEM_SIZE ->
  addr <= va < addr + len -> mapped_at k addr f prot va ->
  kwalk k va = Some (Xlat (f + (va - addr)) (has prot PROT_R) (has prot PROT_W)).
Proof.
  intros [I S] (Ra & Rl & R0 & R1 & R2 & R3) Hf Hfp Hfm Hva Hm.
  pose proof (eq_refl : MEM_SIZE = 0x400000) as Hms.
  unfold kwalk. rewrite (walk_leaf _ a) by (apply I || done || by apply R3). cbn zeta.
  change (leaf (guest (k_vm k)) (cr3_of k) va) with (kleaf k va). rewrite Hm.
  destruct (prot_bits_cases prot) as (B1 & B2 & <- & <-).
  pose proof (Z.div_mod va 4096). pose proof (Z.mod_pos_bound va 4096). pose proof (Z.div_mod addr 4096).
  assert (addr <= va / 4096 * 4096) by lia.
  destruct (entry_parts (f + (va / 4096 * 4096 - addr)) (Z.lor 1 (prot_bits prot))) as (_ & M & A);
    [lia|apply page_add; [done|]|lia|lia|].
  { rewrite Zminus_mod, Z.mod_mul, Ra by lia. done. }
  rewrite !(has_low (_ + Z.lor _ _)), M, B2, A by done. do 2 f_equal. lia.
Qed.

Definition mmap_addr k (addr len : Z) : Z :=
  if addr =? 0
  then u64 ((if last_mmapped k =? u64 (-1) then 0x00007ffff7fff000 else last_mmapped k) - len)
  else addr.

(** [mmap] up to its loop. *)
Lemma mmap_start k a addr len prot :
  hinv (heap_of k) a -> 0 < len < 2 ^ 32 -> len mod 4096 = 0 ->
  4096 + chunk_size len <= a_end a - a_top a ->
  exists f m' ar' a' lm,
    mmap addr len prot k =
      (mloop (mmap_body (mmap_addr k addr len) (KERNEL_BASE_OFFSET + f) len prot) 0 ;;
       mret (mmap_addr k addr len)) (KState (set_guest m' (k_vm k)) ar' lm (msrs k)) /\
    hinv (Heap m' ar') a' /\ f + len <= MEM_SIZE /\
    (forall j, 0 <= j < len -> j mod 4096 = 0 -> usable a' (f + j)) /\
    (forall x, rng f len x -> m' x = 0 /\ own a x) /\
    (forall x, ~ own a x -> m' x = guest (k_vm k) x) /\
    (forall u, usable a u -> usable a' u) /\ a_end a' = a_end a /\
    a_top a' <= a_top a + 4096 + chunk_size len /\ allocs a a' /\
    (addr = 0 -> lm = mmap_addr k addr len).
Proof.
  intros I Hl Hlp Hroom.
  destruct (take_range (guest (k_vm k)) (k_arena k) a len I Hl Hlp Hroom)
    as (f & m' & ar' & a' & Hrun & I' & Hm & U & Z' & F & Um & E & T & O).
  unfold mmap. rewrite low12_mod, Hlp, (proj2 (Z.eqb_neq len 0)) by lia. cbn [nonzero negb Z.eqb orb].
  rewrite (bind_ok _ _ _ _ _ (on_heap_ok _ k _ _ Hrun)).
  assert (0 <= f) as Hf by (destruct (U 0) as [? _]; [lia|done|lia]).
  rewrite (proj2 (Z.eqb_neq (KERNEL_BASE_OFFSET + f) 0)) by (unfold KERNEL_BASE_OFFSET; lia).
  rewrite bind_modify, bind_get, bind_modify.
  set (last := if last_mmapped k =? u64 (-1) then 0x00007ffff7fff000 else last_mmapped k).
  set (k1 := if last_mmapped (put_heap _ k) =? _ then _ else _).
  assert (k1 = KState (set_guest m' (k_vm k)) ar' last (msrs k)) as ->.
  { unfold k1, last, put_heap. cbn [last_mmapped k_vm k_arena msrs h_mem h_arena]. by destruct (_ =? _). }
  exists f, m', ar', a', (if addr =? 0 then mmap_addr k addr len else last).
  cbn [last_mmapped k_vm k_arena msrs]. change (if addr =? 0 then u64 (last - len) else addr) with (mmap_addr k addr len).
  split; [by destruct (addr =? 0)|]. do 9 (split; [done|]). intros ->. done.
Qed.

Lemma kwalk_same k a k' a' vb :
  kspace k a -> kspace k' a' -> user_va vb -> kleaf k' vb = kleaf k vb -> kwalk k' vb = kwalk k vb.
Proof.
  intros [I S] [I' S'] Hb E. unfold kwalk, kleaf in *.
  rewrite (walk_leaf _ a'), (walk_leaf (guest (k_vm k)) a) by (apply I || apply I' || done). by rewrite E.
Qed.

Lemma table_room_nonneg addr len : user_range addr len -> 0 <= table_room addr (addr + len).
Proof.
  intros (Ra & Rl & R0 & R1 & R2 & R3). unfold table_room, PAGE_COST.
  enough (addr / 2 ^ 21 <= (addr + len - 4096) / 2 ^ 21) by lia.
  apply Z.div_le_mono; [lia|]. pose proof (Z.div_mod len 4096). lia.
Qed.

(** The room [mmap] may need: the block, its alignment and the tables. *)
Definition mmap_room (addr len : Z) : Z :=
  4096 + chunk_size len + 3 * PAGE_COST + table_room addr (addr + len).

(** The pages of a new block, from [f] on: no longer the allocator's, zero, and no
    part of the tables. *)
Definition new_block (a a' : aheap) k' (f len : Z) : Prop :=
  0 <= f /\ f mod 4096 = 0 /\ f + len <= MEM_SIZE /\
  (forall j, 0 <= j < len -> j mod 4096 = 0 -> usable a' (f + j)) /\
  forall x, rng f len x -> guest (k_vm k') x = 0 /\ own a x /\ ~ own a' x /\
                           ~ user_entry (guest (k_vm k')) (cr3_of k') x.

Lemma mmap_run k a addr len prot :
  let addr' := mmap_addr k addr len in
  kspace k a -> user_range addr' len -> len < 2 ^ 32 -> mmap_room addr' len <= a_end a - a_top a ->
  exists f k' a', mmap addr len prot k = Ok addr' k' /\ kspace k' a' /\ kgrows k a k' a' /\
    new_block a a' k' f len /\
    (forall va, addr' <= va < addr' + len -> mapped_at k' addr' f prot va) /\
    (forall vb, user_va vb -> vb < addr' \/ addr' + len <= vb -> kleaf k' vb = kleaf k vb) /\
    (addr = 0 -> last_mmapped k' = addr') /\ cr3_of k' = cr3_of k /\
    a_top a' <= a_top a + mmap_room addr' len /\
    (exists h lm, k' = KState (set_guest (h_mem h) (k_vm k)) (h_arena h) lm (msrs k)).
Proof.
  intros addr' [I S] R Hlen Hroom. pose proof R as (Ra & Rl & R0 & R1 & R2 & R3). pose proof I as [_ Wf].
  pose proof (table_room_nonneg _ _ R) as Ht. unfold mmap_room, PAGE_COST in Hroom.
  pose proof (Z.div_mod len 4096) as Hd.
  destruct (mmap_start k a addr len prot I ltac:(lia) Rl ltac:(lia))
    as (f & m1 & ar1 & a1 & lm & -> & I1 & Hfm & U1 & Z1 & F1 & Um & E1 & T1 & O1 & Hlm). fold addr'.
  set (k1 := KState _ _ _ _).
  destruct (aspace_alloc _ a m1 a1 (cr3_of k) Wf S F1 Um E1 O1) as (S1 & G1 & L1 & N1).
  destruct (U1 0) as (Hf & Hfp & _); [lia|done|]. rewrite Z.add_0_r in Hf, Hfp.
  destruct (map_pages addr' f len prot (Z.to_nat (len / 4096)) R Hf Hfp Hfm 0 k1 a1)
    as (k' & a' & Hrun & Hk & Sp & G & Hin & Hout & Htop); [done|lia|done|lia| |].
  { rewrite Z.add_0_r, E1. pose proof (space_cost_max (guest (k_vm k1)) (cr3_of k1) addr').
    unfold PAGE_COST in *. lia. }
  rewrite Z.add_0_r in Hin, Hout, Htop. exists f, k', a'. split.
  { erewrite bind_ok; [reflexivity|]. eapply mloop_result; [exact Hrun|]. lia. }
  split; [done|]. split; [by apply (grows_trans _ _ m1 a1)|]. split; [|split; [done|split; [|split; [|split; [|split]]]]].
  - do 3 (split; [done|]). split; [intros j Hj Hjp; by apply (g_usable _ _ _ _ _ G), U1|]. intros x Hx. destruct (Z1 _ Hx) as [Zx Ox].
    assert (~ own a1 x) as Nx.
    { pose proof (Z.div_mod (x - f) 4096). pose proof (Z.mod_pos_bound (x - f) 4096). unfold rng in Hx.
      apply (usable_not_own a1 (f + (x - f) / 4096 * 4096)); [apply I1|apply U1|unfold rng; lia];
        [lia|by apply Z.mod_mul]. }
    assert (~ user_entry m1 (cr3_of k) x) as Ne by (intros Hue; by apply (N1 _ Hue)).
    split; [rewrite (g_frame _ _ _ _ _ G); [exact Zx|done|exact Ne]|]. split; [done|].
    split; [intros Hx'; by apply Nx, (g_own _ _ _ _ _ _ G)|]. rewrite Hk at 2.
    intros Hue. by destruct (g_entries _ _ _ _ _ G x Hue).
  - intros vb Hb Hv. rewrite Hout by done. by apply L1.
  - intros Ha. rewrite Hk. by apply Hlm.
  - by rewrite Hk.
  - pose proof (space_cost_max (guest (k_vm k1)) (cr3_of k1) addr'). unfold mmap_room, PAGE_COST in *. lia.
  - exists (heap_of k'), (last_mmapped k'). rewrite Hk at 1. unfold put_heap. cbn. by rewrite Hk.
Qed.
(** *** Permissions *)

Definition mprotect_body (addr len prot i : Z) : cmd (kstate W) (Z + Z) :=
  if i <? len then
    if negb (USER_MEM_RANGE_OK (u64 (addr + i))) then mret (inr (- EACCES))
    else
      r ← with_cr3 (fun cr3 => modify_permission cr3 (u64 (addr + i)) prot);
      if negb (r =? 0) then mret (inr (- EACCES)) else mret (inl (i + 0x1000))
  else mret (inr 0).

(** One page of a mapped range. *)
Lemma protect_page k a addr f len q prot i :
  user_range addr len -> 0 <= f -> f mod 4096 = 0 -> f + len <= MEM_SIZE ->
  kspace k a -> 0 <= i < len -> i mod 4096 = 0 -> mapped_at k addr f q (addr + i) ->
  exists k', mprotect_body addr len prot i k = Ok (inl (i + 4096)) k' /\
    k' = put_heap (heap_of k') k /\ kspace k' a /\ kgrows k a k' a /\
    (forall va, addr + i <= va < addr + i + 4096 -> mapped_at k' addr f prot va) /\
    (forall vb, user_va vb -> vb < addr + i \/ addr + i + 4096 <= vb -> kleaf k' vb = kleaf k vb).
Proof.
  intros (Ra & Rl & R0 & R1 & R2 & R3) Hf Hfp Hfm [I S] Hi Hip Hm. pose proof (R3 (addr + i) ltac:(lia)) as Hva.
  pose proof (eq_refl : MEM_SIZE = 0x400000) as Hms.
  pose proof (page_add addr i Ra Hip) as Pa. pose proof (Z.div_mod (addr + i) 4096) as Hd.
  destruct (modify_permission_space (cr3_of k) (addr + i) (f + i) q prot (guest (k_vm k)) (k_arena k) a)
    as (m1 & Hrun & I1 & S1 & G1 & L1 & O1); [done|done|done| |lia|by apply page_add|].
  { unfold mapped_at, kleaf in Hm. rewrite Hm. lia. }
  exists (put_heap (Heap m1 (k_arena k)) k). split; [|split; [done|split; [done|split; [done|split]]]].
  - unfold mprotect_body. rewrite (proj2 (Z.ltb_lt _ _)), (u64_small (addr + i)) by lia.
    destruct Hva as [-> _]. cbn [negb]. unfold with_cr3. rewrite bind_bind, bind_get.
    by rewrite (bind_ok _ _ _ _ _ (on_heap_ok _ k _ _ Hrun)).
  - intros va Hv. assert ((addr + i) / 4096 = va / 4096) as Hq
      by (apply (Z.div_unique _ _ _ (va - (addr + i))); lia).
    unfold mapped_at. change (kleaf _ va) with (leaf m1 (cr3_of k) va).
    rewrite (leaf_key m1 _ va (addr + i)), L1, <- Hq by done. lia.
  - intros vb Hb Hv. apply O1; [done|]. intros E.
    pose proof (Z.div_mod vb 4096). pose proof (Z.mod_pos_bound vb 4096). lia.
Qed.

Lemma protect_pages addr f len q prot c : user_range addr len ->
  0 <= f -> f mod 4096 = 0 -> f + len <= MEM_SIZE -> forall i k a,
  kspace k a -> 0 <= i -> i mod 4096 = 0 -> i + 4096 * Z.of_nat c = len ->
  (forall va, addr + i <= va < addr + len -> mapped_at k addr f q va) ->
  exists k', run (mbody (mprotect_body addr len prot)) (S c) (i, k) = inr (Ok 0 k') /\
    k' = put_heap (heap_of k') k /\ kspace k' a /\ kgrows k a k' a /\
    (forall va, addr + i <= va < addr + len -> mapped_at k' addr f prot va) /\
    (forall vb, user_va vb -> vb < addr + i \/ addr + len <= vb -> kleaf k' vb = kleaf k vb).
Proof.
  intros R Hf Hfp Hfm. pose proof R as (_ & _ & _ & _ & _ & R3).
  induction c as [|c IH]; intros i k a S Hi Hip Hc Hm.
  { exists k. split; [apply mbody_done; unfold mprotect_body; by rewrite (proj2 (Z.ltb_ge _ _)) by lia|].
    split; [by rewrite put_heap_id|]. split; [done|]. split; [apply grows_refl|]. split; [lia|done]. }
  destruct (protect_page k a addr f len q prot i) as (k1 & Hrun & Hk1 & S1 & G1 & In1 & Out1);
    [done|done|done|done|done|lia|done|apply Hm; lia|].
  destruct (IH (i + 4096) k1 a) as (k' & Hrun' & Hk & S' & G & Hin & Hout);
    [done|lia|by apply page_add|lia| |].
  { intros va Hva. unfold mapped_at. rewrite Out1; [apply Hm|apply R3|]; lia. }
  exists k'. split; [erewrite mbody_next; [exact Hrun'|exact Hrun]|].
  split; [rewrite Hk at 1; by rewrite Hk1|]. split; [done|].
  split; [apply (grows_trans _ _ (guest (k_vm k1)) a); [done|]; by rewrite Hk1 in G|]. split.
  - intros va Hva. destruct (Z.ltb_spec va (addr + i + 4096)); [|apply Hin; lia].
    unfold mapped_at. rewrite Hout; [apply In1|apply R3|]; lia.
  - intros vb Hb Hv. rewrite Hout, Out1; [done|done|lia|done|lia].
Qed.
Lemma mprotect_run k a addr f len q prot :
  user_range addr len -> 0 <= f -> f mod 4096 = 0 -> f + len <= MEM_SIZE -> kspace k a ->
  (forall va, addr <= va < addr + len -> mapped_at k addr f q va) ->
  exists k', mprotect addr len prot k = Ok 0 k' /\ k' = put_heap (heap_of k') k /\ kspace k' a /\
    kgrows k a k' a /\ (forall va, addr <= va < addr + len -> mapped_at k' addr f prot va) /\
    (forall vb, user_va vb -> vb < addr \/ addr + len <= vb -> kleaf k' vb = kleaf k vb).
Proof.
  intros R Hf Hfp Hfm S Hm. pose proof R as (Ra & Rl & R0 & R1 & R2 & R3). pose proof (Z.div_mod len 4096).
  destruct (protect_pages addr f len q prot (Z.to_nat (len / 4096)) R Hf Hfp Hfm 0 k a)
    as (k' & Hrun & H'); [done|lia|done|lia|by rewrite Z.add_0_r|].
  rewrite Z.add_0_r in H'. exists k'. split; [|done]. unfold mprotect.
  rewrite alignok_mod, Ra by lia. eapply mloop_result; [exact Hrun|]. lia.
Qed.
End Pages.

(** ** The properties *)

(** [mmap] maps the whole range, each byte to a byte of its own of new, zeroed memory,
    with the permissions asked for; every other user page stays as it was, and bytes
    that are neither free heap nor page table entries are untouched. *)
Theorem mmap_maps {W} (k : kstate W) a addr len prot :
  let addr' := mmap_addr k addr len in
  kspace k a -> user_range addr' len -> len < 2 ^ 32 -> mmap_room addr' len <= a_end a - a_top a ->
  exists f k' a', mmap addr len prot k = Ok addr' k' /\ kspace k' a' /\ new_block a a' k' f len /\
    (forall va, addr' <= va < addr' + len ->
       kwalk k' va = Some (Xlat (f + (va - addr')) (has prot PROT_R) (has prot PROT_W))) /\
    (forall vb, user_va vb -> vb < addr' \/ addr' + len <= vb -> kwalk k' vb = kwalk k vb) /\
    (forall x, ~ own a x -> ~ user_entry (guest (k_vm k)) (cr3_of k) x ->
       guest (k_vm k') x = guest (k_vm k) x) /\
    (addr = 0 -> last_mmapped k' = addr').
Proof.
  intros addr' S R Hlen Hroom.
  destruct (mmap_run k a addr len prot S R Hlen Hroom) as (f & k' & a' & Hrun & S' & G & B & Hin & Hout & Hlm & _ & _).
  exists f, k', a'. do 3 (split; [done|]). destruct B as (B1 & B2 & B3 & _). split; [|split; [|split]].
  - intros va Hva. apply (mapped_walk k' a' addr' f len); auto.
  - intros vb Hb Hv. apply (kwalk_same k a k' a'); auto.
  - apply (g_frame _ _ _ _ _ G).
  - done.
Qed.

(** [mmap] of a user program without a file: the result is the start of a range of whole
    pages, at the address given with MAP_FIXED and below the previous range otherwise,
    mapped with exactly the permissions asked for to zeroed memory that was free before;
    every other user page is as it was. *)
Theorem sys_mmap_anonymous {W} (os : host_os W) fails (k : kstate W) a addr len prot flags fd off :
  let hint := if has flags MAP_FIXED then addr else 0 in
  let base := mmap_addr k hint (alignup len) in
  kspace k a -> 0 <= addr < 2 ^ 64 -> addr mod 4096 = 0 -> 0 < len -> alignup len < 2 ^ 32 -> fd < 0 ->
  user_range base (alignup len) -> mmap_room base (alignup len) <= a_end a - a_top a ->
  exists f k' a', sys_mmap os fails addr len prot flags fd off k = Ok base k' /\ kspace k' a' /\
    (forall va, base <= va < base + alignup len ->
       kwalk k' va = Some (Xlat (f + (va - base)) (has prot PROT_R) (has prot PROT_W)) /\
       guest (k_vm k') (f + (va - base)) = 0 /\
       own a (f + (va - base)) /\ ~ own a' (f + (va - base))) /\
    (forall vb, user_va vb -> vb < base \/ base + alignup len <= vb -> kwalk k' vb = kwalk k vb).
Proof.
  intros hint base S Ha Hap Hl Hal Hfd R Hroom. pose proof R as (Ra & Rl & R0 & R1 & R2 & R3).
  assert (has flags MAP_FIXED && negb (hint =? 0) && negb (USER_MEM_RANGE_OK hint) = false) as Hg.
  { unfold hint, base, mmap_addr in *. destruct (has flags MAP_FIXED); [|done]. cbn [andb].
    destruct (Z.eqb_spec addr 0); [done|]. destruct (R3 addr) as [-> _]; [|done].
    unfold hint in *. rewrite (proj2 (Z.eqb_neq addr 0)) by done. lia. }
  destruct (mmap_run k a hint (alignup len) (Z.lor prot PROT_RW) S R Hal Hroom)
    as (f & k1 & a1 & Hrun & S1 & G1 & (B1 & B2 & B3 & _ & B4) & In1 & Out1 & _). fold base in Hrun, In1, Out1.
  destruct (mprotect_run k1 a1 base f (alignup len) (Z.lor prot PROT_RW) prot R B1 B2 B3 S1 In1)
    as (k2 & Hrun2 & Hk2 & S2 & G2 & In2 & Out2).
  exists f, k2, a1. split; [|split; [done|split]].
  - unfold sys_mmap. rewrite alignok_mod, Hap, (proj2 (Z.eqb_neq len 0)) by lia. cbn [negb Z.eqb].
    fold hint. rewrite Hg, (bind_ok _ _ _ _ _ Hrun), (proj2 (Z.eqb_neq base 0)).
    + rewrite (proj2 (Z.leb_gt _ _)), bind_ret by lia. by rewrite (bind_ok _ _ _ _ _ Hrun2).
    + intros E. destruct (R3 base) as [Hu _]; [lia|]. by rewrite E in Hu.
  - intros va Hva. split; [apply (mapped_walk k2 a1 base f (alignup len)); auto|].
    destruct (B4 (f + (va - base))) as (Z4 & O4 & N4 & E4); [unfold rng; lia|].
    split; [|done]. by rewrite (g_frame _ _ _ _ _ G2).
  - intros vb Hb Hv. apply (kwalk_same k a k2 a1); [done..|]. rewrite Out2, Out1 by done. done.
Qed.

(** ** Concrete instances *)

(** A kernel that has mapped nothing yet. *)
Definition empty_kstate : kstate unit :=
  let s := Segment 0 0 0 0 0 0 0 0 0 0 in
  KState (set_cpu (Vcpu (Regs 0 0 0 0 2) (Sregs s s s s s s 0 MAX_KERNEL_SIZE 0 0))
            (set_guest boot_mem (demo_vm 0)))
         (Arena BOOT_HEAP 0x200000 BOOT_HEAP 0 0 0) (u64 (-1)) ∅.
Definition empty_aheap : aheap := fresh_aheap BOOT_HEAP 0x200000.

Lemma empty_kspace : kspace empty_kstate empty_aheap.
Proof.
  split; [|by apply boot_aspace, boot_mem_map]. destruct (boot_heap_inv 0x200000) as [[R1 R2 R3 R4 R5] Wf]; [done..|].
  split; [|exact Wf]. split; [exact R1|exact R2|exact R3|exact R4|constructor].
Qed.

Lemma top_user_range : user_range 0x7ffff7ffd000 0x2000.
Proof.
  do 2 (split; [done|]). do 3 (split; [lia|]). intros va Hva. split; [|lia].
  apply user_range_ok; [lia|]. split; [unfold KERNEL_PAGING_SIZE; lia|].
  assert (255 = va / 2 ^ 39) as <- by (apply (Z.div_unique _ _ _ (va - 255 * 2 ^ 39)); lia). done.
Qed.

Lemma mmap_maps_witness :
  exists f k', mmap 0 0x2000 PROT_R empty_kstate = Ok 0x7ffff7ffd000 k' /\
    kwalk k' 0x7ffff7ffe123 = Some (Xlat (f + 0x1123) true false).
Proof.
  destruct (mmap_maps empty_kstate empty_aheap 0 0x2000 PROT_R) as (f & k' & a' & H1 & _ & _ & H2 & _).
  - exact empty_kspace.
  - exact top_user_range.
  - lia.
  - vm_compute. discriminate.
  - exists f, k'. split; [exact H1|]. apply (H2 0x7ffff7ffe123). vm_compute. split; [discriminate|reflexivity].
Defined.

Lemma sys_mmap_anonymous_witness :
  exists f k', sys_mmap demo_os (fun _ => false) 0x400000 0x1800 PROT_R 0 (-1) 0 empty_kstate = Ok 0x7ffff7ffd000 k' /\
    kwalk k' 0x7ffff7ffd123 = Some (Xlat (f + 0x123) true false).
Proof.
  destruct (sys_mmap_anonymous demo_os (fun _ => false) empty_kstate empty_aheap 0x400000 0x1800 PROT_R 0 (-1) 0)
    as (f & k' & a' & H1 & _ & H2 & _).
  - exact empty_kspace.
  - lia.
  - reflexivity.
  - lia.
  - vm_compute. reflexivity.
  - lia.
  - exact top_user_range.
  - vm_compute. discriminate.
  - exists f, k'. split; [exact H1|]. apply (H2 0x7ffff7ffd123). vm_compute. split; [discriminate|reflexivity].
Defined.
