(* ===== verification/FileMap.v ===== *)
(** * Mapping a file

    [sys_mmap] of a file takes a block, enters it into the page tables, has the hypervisor
    read the file into it and corrects the permissions.  The hypercalls take kernel memory
    of their own; what they leave alone is enough for the tables and for everything that
    was mapped before. *)

From S2P Require Import Prelude Memory Arch KString Kmalloc KmallocSpec KmallocProof KmallocRefine.
From S2P Require Import KmallocSafety KmallocIface Translate TranslateProof PageTables AddressSpace Hypercall Hypervisor.
From S2P Require Import HypercallProof HypervisorProof Kernel KernelProof Boundary SyscallProof MmapProof.

(** ** Bytes in use *)

(** The live chunks as blocks of the largest size that fits. *)
Definition full_blocks (a : aheap) : list (Z * Z) := map (fun d => (d.1 + OFF_NEXT, d.2 - OFF_NEXT)) (a_live a).

Lemma chunk_full d : 0x70 <= d.2 < 2 ^ 32 -> d.2 mod 0x80 = 0 -> chunk_of (d.1 + OFF_NEXT, d.2 - OFF_NEXT) = d.
Proof.
  intros Hd Hm. destruct d as [c s]. unfold chunk_of, chunk_size, OFF_NEXT in *. cbn [fst snd] in *.
  f_equal; [lia|]. rewrite u64_small by lia. destruct (alignup_to_80 (s - 16 + 16)) as [H1 H2]; [lia|].
  pose proof (Z.div_mod s 0x80). pose proof (Z.div_mod (alignup_to (s - 16 + 16) 0x80) 0x80). lia.
Qed.

(** A heap whose chunks are sized is the allocator's with these blocks. *)
Lemma full_inv h a : hinv h a -> sized a -> kmalloc_inv h (a, full_blocks a).
Proof.
  intros I Hs. pose proof I as [_ W].
  assert (forall d, d ∈ a_live a -> 0x70 <= d.2 < 2 ^ 32 /\ d.2 mod 0x80 = 0) as Hd.
  { intros d Hd. unfold sized in Hs. rewrite Forall_forall in Hs. split; [|by apply Hs].
    pose proof (wf_chunks _ W) as Hc. rewrite Forall_forall in Hc.
    destruct (Hc d) as [H0 _]; [apply elem_of_app; by right|].
    destruct (wf_within a d W) as [H1 H2]; [apply elem_of_app; by right|].
    pose proof (wf_base _ W). pose proof (wf_top _ W). pose proof (wf_end _ W).
    unfold KERNEL_PAGING_SIZE, MEM_SIZE, PS_LIMIT in *. lia. }
  split; [done|]. cbn [fst snd]. unfold full_blocks. split.
  - rewrite map_map. rewrite <- (map_id (a_live a)) at 1. apply map_ext_in.
    intros d Hin%list_elem_of_In. symmetry. by apply chunk_full; apply Hd.
  - apply Forall_fmap, Forall_forall. intros d Hin. destruct (Hd d Hin). cbn. unfold OFF_NEXT. lia.
Qed.

(** Bytes that hold the kernel or are in a block that was given out. *)
Definition used (a : aheap) (x : Z) : Prop :=
  0 <= x < KERNEL_PAGING_SIZE \/
  exists d, d ∈ a_live a /\ rng (d.1 + OFF_NEXT - KERNEL_BASE_OFFSET) (d.2 - OFF_NEXT) x.

Lemma used_not_own a x : wf a -> used a x -> ~ own a x.
Proof.
  intros W [Hx|(d & Hd & Hx)].
  - apply outside_not_own; [done|]. pose proof (wf_base _ W). lia.
  - apply live_not_own; [done|]. exists d. split; [done|]. unfold rng, OFF_NEXT in *. lia.
Qed.
Lemma used_not_unused a x : wf a -> used a x -> ~ unused (heap_bytes a) (full_blocks a) x.
Proof.
  intros W [Hx|(d & Hd & Hx)] [Hh Hb].
  - pose proof (wf_base _ W). unfold heap_bytes in Hh. lia.
  - apply (Hb (d.1 + OFF_NEXT) (d.2 - OFF_NEXT)); [|done].
    by apply (list_elem_of_fmap_2 (fun d => (d.1 + OFF_NEXT, d.2 - OFF_NEXT))).
Qed.
Lemma usable_used a u x : usable a u -> rng u 4096 x -> used a x.
Proof.
  intros (U1 & _ & [U2|(d & Hd & U2 & U3)]) Hx; unfold rng in Hx; [left; lia|].
  right. exists d. split; [done|]. unfold rng. lia.
Qed.
Lemma usable_allocs a a' u : allocs a a' -> usable a u -> usable a' u.
Proof. intros [_ L _] (U1 & U2 & [U3|(d & Hd & U3)]); (split; [done|split; [done|]]); [by left|]. right. eauto. Qed.
Lemma used_allocs a a' x : allocs a a' -> used a x -> used a' x.
Proof. intros [_ L _] [Hx|(d & Hd & Hx)]; [by left|]. right. exists d. auto. Qed.

(** The same chunks are live. *)
Lemma same_live_allocs a a' :
  wf a -> wf a' -> a_base a' = a_base a -> a_end a' = a_end a -> a_live a' ≡ₚ a_live a -> allocs a a'.
Proof.
  intros W W' Hb He Hl. assert (a_live a ⊆ a_live a') as Hs by (intros d; by rewrite Hl).
  split; [intros x; by apply own_mono|done|]. unfold sized. by rewrite Hl.
Qed.

(** ** What a call of the kernel keeps *)

(** Like [grows], for calls that also write the bytes [D] and change free memory. *)
Record keeps (m : mem) (a : aheap) (m' : mem) (a' : aheap) (cr3 : Z) (D : Z -> Prop) : Prop := Keeps {
  kp_allocs : allocs a a';
  kp_end : a_end a' = a_end a;
  kp_tab : forall va l t, user_va va -> (l <= 3)%nat -> tab m cr3 va l = Some t -> tab m' cr3 va l = Some t;
  kp_frame : forall x, used a x -> ~ user_entry m cr3 x -> ~ D x -> m' x = m x;
  kp_entries : forall x, user_entry m' cr3 x -> user_entry m cr3 x \/ own a x
}.

Lemma grows_keeps m a m' a' cr3 : wf a -> grows m a m' a' cr3 -> keeps m a m' a' cr3 (fun _ => False).
Proof. intros W [A U E T F N]. split; auto. intros x Hx He _. apply F; [by apply used_not_own|done]. Qed.
Lemma keeps_trans m1 a1 m2 a2 m3 a3 cr3 D1 D2 :
  wf a1 -> keeps m1 a1 m2 a2 cr3 D1 -> keeps m2 a2 m3 a3 cr3 D2 -> keeps m1 a1 m3 a3 cr3 (fun x => D1 x \/ D2 x).
Proof.
  intros W [A1 E1 T1 F1 N1] [A2 E2 T2 F2 N2]. split.
  - by eapply allocs_trans.
  - by rewrite E2.
  - auto.
  - intros x Hx He Hd. rewrite F2, F1; auto.
    + by apply (used_allocs a1).
    + intros Hx'. destruct (N1 x Hx') as [|Ho]; [done|]. by apply (used_not_own a1 x W).
  - intros x Hx. destruct (N2 x Hx) as [Hx'|Ho]; [auto|]. right. by apply (ta_own _ _ A1).
Qed.
(** Writing to memory that was free before is not noticed. *)
Lemma keeps_fresh m a m' a' cr3 (D D' : Z -> Prop) :
  wf a -> (forall x, D x -> D' x \/ own a x) -> keeps m a m' a' cr3 D -> keeps m a m' a' cr3 D'.
Proof.
  intros W H [A E T F N]. split; auto. intros x Hx He Hd. apply F; auto. intros Hd'.
  destruct (H x Hd') as [|Ho]; [done|]. by apply (used_not_own a x).
Qed.

Section Space.
Context {W : Type}.
Implicit Types k : kstate W.

Definition uspace k (a : aheap) : Prop := kspace k a /\ sized a.
Definition kkeeps k (a : aheap) k' (a' : aheap) (D : Z -> Prop) : Prop :=
  keeps (guest (k_vm k)) a (guest (k_vm k')) a' (cr3_of k) D.
Definition kentry k (x : Z) : Prop := user_entry (guest (k_vm k)) (cr3_of k) x.
Definition room (a : aheap) : Z := a_end a - a_top a.

Lemma heap_bounds a a' :
  a_base a < a_end a -> heap_bytes a' = heap_bytes a -> a_base a' = a_base a /\ a_end a' = a_end a.
Proof.
  intros Hne H. assert (forall x, heap_bytes a' x <-> heap_bytes a x) as Hx by (intros x; by rewrite H).
  unfold heap_bytes in Hx. pose proof (Hx (a_base a - KERNEL_BASE_OFFSET)). pose proof (Hx (a_end a - 1 - KERNEL_BASE_OFFSET)).
  pose proof (Hx (a_base a' - KERNEL_BASE_OFFSET)). pose proof (Hx (a_end a' - 1 - KERNEL_BASE_OFFSET)). 
  pose proof (Hx (a_base a - 1 - KERNEL_BASE_OFFSET)). pose proof (Hx (a_end a - KERNEL_BASE_OFFSET)). lia.
Qed.

(** A call that returns all kernel memory it took, and writes [D], outside the tables. *)
Lemma quiet_space k a k' (al : al_state) (D : Z -> Prop) :
  uspace k a -> 0 < room a ->
  kmalloc_inv (heap_of k') al -> heap_bytes al.1 = heap_bytes a -> al.2 ≡ₚ full_blocks a -> cr3_of k' = cr3_of k ->
  (forall x, ~ unused (heap_bytes a) (full_blocks a) x -> ~ D x -> guest (k_vm k') x = guest (k_vm k) x) ->
  (forall x, D x -> ~ kentry k x) ->
  uspace k' al.1 /\ kkeeps k a k' al.1 D /\ (forall va, user_va va -> kleaf k' va = kleaf k va).
Proof.
  intros [[I S] Hs] Hr (I' & Hl' & _) Hh Hb Hc Hm Hd. pose proof I as [_ W0]. pose proof I' as [_ W'].
  destruct (full_inv _ _ I Hs) as (_ & Hl & _). cbn [fst snd] in Hl.
  assert (a_live al.1 ≡ₚ a_live a) as Hp by (rewrite Hl', Hb, <- Hl; done).
  destruct (heap_bounds a al.1) as [B1 B2]; [pose proof (wf_top _ W0); unfold room in Hr; lia|done|].
  pose proof (same_live_allocs a al.1 W0 W' B1 B2 Hp) as Ha.
  assert (forall u, usable a u -> usable al.1 u) as Hu.
  { intros u (U1 & U2 & [U3|(d & Hin & U3)]); (split; [done|split; [done|]]); [by left|].
    right. exists d. split; [by rewrite Hp|done]. }
  assert (forall x, used a x -> ~ D x -> guest (k_vm k') x = guest (k_vm k) x) as Hf.
  { intros x Hx. apply Hm. by apply used_not_unused. }
  destruct (aspace_same (guest (k_vm k)) a (guest (k_vm k')) al.1 (cr3_of k) S) as (S' & Ht & Hlf); [|done|].
  { intros x Hx. apply Hf; [|intros Hdx; by apply (Hd x)].
    destruct (user_entry_page _ _ _ _ S Hx) as (t & Ut & Hxt). by apply (usable_used a t). }
  split; [split; [split; [done|by rewrite Hc]|by apply Ha]|]. split.
  - split; [done|done| |auto|].
    + intros va l t Hva Hl3. by rewrite Ht.
    + intros x (va & l & t & Hva & Hl3 & Htab & Hx). rewrite Ht in Htab by done. left. by exists va, l, t.
  - intros va Hva. unfold kleaf. rewrite Hc. by apply Hlf.
Qed.
End Space.

(** ** [hp_lseek] *)

(** Documented behaviour of lseek(2) to an absolute position: an error number, or the
    position. *)
Definition lseek_documented {W} (os : host_os W) : Prop := forall w fd off, 0 <= off < 2 ^ 31 ->
  match os_lseek os w fd off SEEK_SET with
  | (_, inl e) => 1 <= e <= 4095
  | (_, inr n) => n = off
  end.
(** What the caller observes: the result and the state of the system. *)
Definition lseek_result {W} (os : host_os W) (v : vm W) (fd off : Z) : Z * W :=
  match fd_abs (cur_fds v) fd with
  | None => (- EBADF, host v)
  | Some n => match os_lseek os (host v) n off SEEK_SET with
              | (w, inl e) => (- e, w)
              | (w, inr r) => (r, w)
              end
  end.
Definition lseek_work {W} (os : host_os W) : cmd (vm W) Z :=
  v ← get;
  let offset := u32 (io_data v) in
  kbuf ← MEM_AT offset;
  k0 ← host_ld 4 kbuf;
  off ← host_ld 4 (kbuf + 4);
  whence ← host_ld 4 (kbuf + 8);
  PROCESS_ON_FD (s32 k0) (fun h =>
    v ← get;
    let '(w, r) := os_lseek os (host v) (real_fd h) off (s32 whence) in
    sys_return w r mret).

Lemma lseek_work_run {W} (os : host_os W) (v : vm W) fd off :
  lseek_documented os -> 0 <= u32 (io_data v) -> u32 (io_data v) + 12 <= mem_size ->
  ld32 (guest v) (u32 (io_data v)) = fd -> ld32 (guest v) (u32 (io_data v) + 4) = off ->
  ld32 (guest v) (u32 (io_data v) + 8) = SEEK_SET -> 0 <= fd < 2 ^ 31 -> 0 <= off < 2 ^ 31 ->
  exists r v2, lseek_work os v = Ok r v2 /\ int_result r /\ cpu v2 = cpu v /\
    fd_map v2 = cur_fds v /\ fd_map_init v2 <> 0 /\ guest v2 = guest v /\
    (r, host v2) = lseek_result os v fd off.
Proof.
  intros Hdoc Q1 Q2 Q3 Q4 Q5 Hfd Hoff. unfold lseek_work, lseek_result. rewrite bind_get. unfold MEM_AT.
  rewrite (proj2 (andb_true_iff _ _)), bind_ret by lia.
  rewrite (bind_ok _ _ _ _ _ (host_ld_ok 4 _ v Q1 ltac:(lia))).
  rewrite (bind_ok _ _ _ _ _ (host_ld_ok 4 (u32 (io_data v) + 4) v ltac:(lia) ltac:(lia))).
  rewrite (bind_ok _ _ _ _ _ (host_ld_ok 4 (u32 (io_data v) + 8) v ltac:(lia) ltac:(lia))).
  unfold ld32 in *. rewrite Q3, Q4, Q5. change (s32 SEEK_SET) with SEEK_SET. rewrite s32_small by lia.
  unfold PROCESS_ON_FD, fd_abs.
  destruct (may_init_run v) as (v1 & Hi & Hm & Hin & Hg & Hh & _ & _ & Hc).
  rewrite (bind_ok _ _ _ _ _ Hi), bind_get, Hm. destruct (BADFD (cur_fds v) fd).
  - exists (- EBADF), v1. unfold int_result, EBADF. do 6 (split; [lia || done|]). by rewrite Hh.
  - rewrite bind_bind, bind_get, Hh. specialize (Hdoc (host v) (real_fd (fd_at (cur_fds v) fd)) off Hoff).
    destruct (os_lseek os (host v) _ off SEEK_SET) as [w [e|n]]; unfold mbind, cmd_bind; cbn.
    + exists (- e). eexists. split; [reflexivity|]. cbn. unfold int_result. do 5 (split; [lia || done|]). done.
    + subst n. eexists. eexists. split; [reflexivity|]. cbn. rewrite s32_small, (proj2 (Z.ltb_ge _ _)) by lia.
      unfold int_result. do 5 (split; [lia || done|]). done.
Qed.

Section Lseek.
Context {W : Type} (os : host_os W) (fails : ioctl -> bool).
Context {A : Type} `{Al : !Allocator A}.
Hypothesis kvm_works : forall i, fails i = false.
Hypothesis os_lseek_documented : lseek_documented os.
Implicit Types (k : kstate W) (a : A).

Definition stk32 (m : mem) (va v : Z) : mem := st32 m (va - KERNEL_BASE_OFFSET) v.
Lemma kstore32_on {B} va v m ar k (f : unit -> cmd (kstate W) B) :
  KERNEL_BASE_OFFSET <= va -> va + 4 <= KERNEL_BASE_OFFSET + MEM_SIZE ->
  (on_heap (kstore32 va v) ≫= f) (put_heap (Heap m ar) k) = f tt (put_heap (Heap (stk32 m va v) ar) k).
Proof.
  intros H1 H2. apply bind_ok. apply (on_heap_ok _ (put_heap (Heap m ar) k)).
  unfold kstore32. by rewrite krange_direct by done.
Qed.

(** The three stores of the request. *)
Definition seek_mem (m : mem) (q fd off : Z) : mem :=
  stk32 (stk32 (stk32 m q (u32 fd)) (q + 4) (u32 off)) (q + 8) (u32 SEEK_SET).
Lemma seek_mem_outside m q fd off x : ~ block_bytes q 12 x -> seek_mem m q fd off x = m x.
Proof.
  unfold block_bytes, seek_mem, stk32, st32, rng. intros H.
  rewrite !st_outside; unfold rng; try done; change (Z.of_nat 4) with 4; lia.
Qed.
Lemma seek_mem_at m q fd off :
  0 <= fd < 2 ^ 31 -> 0 <= off < 2 ^ 31 ->
  let b := q - KERNEL_BASE_OFFSET in
  ld32 (seek_mem m q fd off) b = fd /\ ld32 (seek_mem m q fd off) (b + 4) = off /\
  ld32 (seek_mem m q fd off) (b + 8) = SEEK_SET.
Proof.
  intros Hf Ho. cbn zeta. unfold seek_mem, stk32.
  replace (q + 4 - KERNEL_BASE_OFFSET) with (q - KERNEL_BASE_OFFSET + 4) by lia.
  replace (q + 8 - KERNEL_BASE_OFFSET) with (q - KERNEL_BASE_OFFSET + 8) by lia.
  assert (forall m x y v, y + 4 <= x \/ x + 4 <= y -> ld32 (st32 m x v) y = ld32 m y) as Hx
    by (intros; by apply ld_st_other).
  rewrite !u32_small by (unfold SEEK_SET; lia). split; [|split].
  - by rewrite !Hx, ld32_st32 by lia.
  - by rewrite Hx, ld32_st32 by lia.
  - by rewrite ld32_st32 by (unfold SEEK_SET; lia).
Qed.

Lemma hp_lseek_run k a fd off :
  kernel_mode k -> al_inv (heap_of k) a -> chunk_size 12 <= al_room a -> 0 <= fd < 2 ^ 31 -> 0 <= off < 2 ^ 31 ->
  exists r k' a', hp_lseek os fails fd off SEEK_SET k = Ok r k' /\
    al_inv (heap_of k') a' /\ al_heap a' = al_heap a /\ al_blocks a' ≡ₚ al_blocks a /\
    al_kept a a' /\ alike k k' /\ int_result r /\
    (r, host (k_vm k')) = lseek_result os (k_vm k) fd off /\
    (forall x, ~ free_byte a x -> guest (k_vm k') x = guest (k_vm k) x).
Proof.
  intros Hk I Hroom Hfd Hoff. pose proof (eq_refl : mem_size = MEM_SIZE) as Hms.
  pose proof (eq_refl : MEM_SIZE = 0x400000) as Hms'. unfold hp_lseek.
  destruct (al_malloc (heap_of k) a 12) as (q & [m1 ar1] & a1 & Hq & I1 & E1 & B1 & R1 & Q1 & Q2 & Qu & Qf & _);
    [done|lia|done|]. simpl in Qf.
  rewrite (bind_ok _ _ _ _ _ (on_heap_ok _ _ _ _ Hq)). set (m2 := seek_mem m1 q fd off).
  assert (forall x, ~ free_byte a x -> m2 x = guest (k_vm k) x) as Hm2.
  { intros x Hx. unfold m2. rewrite seek_mem_outside; [by apply Qf|]. intros Hb. by apply Hx, Qu. }
  rewrite kstore32_on, kstore32_on, kstore32_on, (bind_ok _ _ _ _ _ (physical_on q _ ltac:(lia))) by lia.
  change (put_heap (Heap _ ar1) k) with (put_heap (Heap m2 ar1) k). set (k1 := put_heap (Heap m2 ar1) k).
  set (v1 := set_data (u32 (q - KERNEL_BASE_OFFSET)) (k_vm k1)).
  assert (u32 (io_data v1) = q - KERNEL_BASE_OFFSET) as Hio by (unfold v1; cbn; rewrite !u32_small by (rewrite ?u32_small; lia); done).
  destruct (seek_mem_at m1 q fd off Hfd Hoff) as (L1 & L2 & L3).
  destruct (lseek_work_run os v1 fd off) as (r & v2 & Hw & Hir & C2 & M2 & I2 & G2 & Hd); rewrite ?Hio; try done; try lia.
  destruct (int_result_s32 r Hir) as [Hs Hne].
  destruct (hypercall_run os fails k1 NR_HP_lseek (q - KERNEL_BASE_OFFSET) SLseek (lseek_work os) r v2)
    as (v3 & Hrun & G3 & M3 & H3 & I3 & C3); try done.
  rewrite (bind_ok _ _ _ _ _ Hrun). set (k3 := KState v3 _ _ _).
  assert (al_inv (heap_of k3) a1) as Ik3.
  { apply (al_write m1); [exact I1|]. rewrite B1, E1. intros x [Hx Hb]%unused_cons.
    change (guest v3 x = m1 x). rewrite G3, G2. by apply seek_mem_outside. }
  destruct (al_free (heap_of k3) a1 q 12) as ([m4 ar4] & a4 & Hfr & I4 & E4 & B4 & R4 & F4);
    [done|rewrite B1; left|].
  rewrite (bind_ok _ _ _ _ _ (on_heap_ok _ _ _ _ Hfr)).
  eexists r, _, a4. split; [reflexivity|]. split; [exact I4|]. split; [by rewrite E4|].
  split; [apply (Permutation_cons_inv (a := (q, 12))); by rewrite <- B4, B1|].
  split; [apply (al_nested (heap_of k3) a a1 a1 a4 q 12); try done; rewrite B1; left|]. split; [|split; [done|split]].
  - split; [cbn; by rewrite C3, C2|]. split; [|done]. unfold cur_fds at 1. cbn.
    rewrite I3, M3, M2, (proj2 (Z.eqb_neq _ _)) by done. done.
  - cbn. rewrite H3, Hd. done.
  - intros x Hx. cbn. rewrite F4; [cbn; rewrite G3, G2; by apply Hm2| |].
    + rewrite B1, E1. by intros [Hx' _]%unused_cons.
    + intros Hb. by apply Hx, Qu.
Qed.
End Lseek.

(** ** Regions of the user's memory *)

Record region := Region { rg_addr : Z; rg_frame : Z; rg_len : Z; rg_prot : Z; rg_byte : Z -> Z }.
Definition in_region (r : region) (va : Z) : Prop := rg_addr r <= va < rg_addr r + rg_len r.

Section Regions.
Context {W : Type}.
Implicit Types k : kstate W.

(** Whole pages mapped to memory of their own with the given permissions and bytes. *)
Record region_ok k (a : aheap) (r : region) : Prop := RegionOk {
  ro_range : user_range (rg_addr r) (rg_len r);
  ro_frame : 0 <= rg_frame r /\ rg_frame r mod 4096 = 0 /\ rg_frame r + rg_len r <= MEM_SIZE;
  ro_pages : forall j, 0 <= j < rg_len r -> j mod 4096 = 0 -> usable a (rg_frame r + j);
  ro_mapped : forall va, in_region r va -> mapped_at k (rg_addr r) (rg_frame r) (rg_prot r) va;
  ro_bytes : forall x, rng (rg_frame r) (rg_len r) x -> guest (k_vm k) x = rg_byte r (x - rg_frame r) /\ ~ kentry k x
}.

Lemma pages_used a f len x :
  (forall j, 0 <= j < len -> j mod 4096 = 0 -> usable a (f + j)) -> rng f len x -> used a x.
Proof.
  intros H Hx. unfold rng in Hx. pose proof (Z.div_mod (x - f) 4096). pose proof (Z.mod_pos_bound (x - f) 4096).
  apply (usable_used a (f + (x - f) / 4096 * 4096)); [|unfold rng; lia]. apply H; [lia|by apply Z.mod_mul].
Qed.

(** A region outlives calls that keep its translation and do not write to it. *)
Lemma region_keeps k a k' a' D r :
  wf a -> cr3_of k' = cr3_of k -> kkeeps k a k' a' D -> (forall x, rng (rg_frame r) (rg_len r) x -> ~ D x) ->
  (forall va, in_region r va -> kleaf k' va = kleaf k va) ->
  (forall u, usable a u -> usable a' u) -> region_ok k a r -> region_ok k' a' r.
Proof.
  intros W0 Hc K Hd Hl Hu [Rr Rf Rp Rm Rb]. pose proof K as [KA KE KT KF KN].
  split; auto.
  - intros va Hva. unfold mapped_at. rewrite Hl by done. by apply Rm.
  - intros x Hx. pose proof (pages_used a _ _ x Rp Hx) as Hus. destruct (Rb x Hx) as [Hb Hn].
    split; [rewrite KF; auto|]. unfold kentry. rewrite Hc. intros Hx'.
    destruct (KN x Hx') as [|Ho]; [done|]. by apply (used_not_own a x).
Qed.

(** The processor's view of a region. *)
Lemma region_walk k a r va :
  kspace k a -> region_ok k a r -> in_region r va ->
  kwalk k va = Some (Xlat (rg_frame r + (va - rg_addr r)) (has (rg_prot r) PROT_R) (has (rg_prot r) PROT_W)) /\
  guest (k_vm k) (rg_frame r + (va - rg_addr r)) = rg_byte r (va - rg_addr r).
Proof.
  intros S [Rr (F1 & F2 & F3) Rp Rm Rb] Hva. split; [apply (mapped_walk k a _ _ (rg_len r)); auto|].
  destruct (Rb (rg_frame r + (va - rg_addr r))) as [-> _]; [unfold rng, in_region in *; lia|]. f_equal. lia.
Qed.

(** The tables of a region are in RAM. *)
Lemma region_path k a r va :
  kspace k a -> region_ok k a r -> in_region r va -> path_ok (guest (k_vm k)) (cr3_of k) va.
Proof.
  intros [I Sp] [Rr (F1 & F2 & F3) Rp Rm Rb] Hin. pose proof Rr as (Ra & Rl & R0 & R1 & R2 & R3).
  pose proof I as [_ W0]. pose proof (eq_refl : MEM_SIZE = 0x400000) as Hms.
  assert (user_va va) as Hu by (apply R3; unfold in_region in Hin; lia).
  specialize (Rm _ Hin). unfold mapped_at, kleaf, leaf in Rm. unfold in_region in Hin.
  pose proof (Z.div_mod va 4096). pose proof (Z.mod_pos_bound va 4096). pose proof (Z.div_mod (rg_addr r) 4096).
  destruct (prot_bits_cases (rg_prot r)) as (B1 & B2 & _).
  destruct (tab (guest (k_vm k)) (cr3_of k) va 3) as [t|] eqn:Et.
  2:{ replace (Z.lor 1 (prot_bits (rg_prot r))) with 0 in B2 by lia. done. }
  eapply (maps_path_ok _ a _ _ (rg_frame r + (va / 4096 * 4096 - rg_addr r))); [exact W0|apply Hu|]. exists t.
  split; [by apply aspace_chain|]. rewrite Rm. split; [reflexivity|]. split; [lia|].
  apply page_add; [done|]. by rewrite Zminus_mod, Z.mod_mul, Ra by lia.
Qed.

(** [translate] with user and write rights at the start of a region. *)
Lemma region_translate k a r :
  kspace k a -> region_ok k a r -> has (rg_prot r) PROT_R = true -> has (rg_prot r) PROT_W = true ->
  with_cr3 (fun cr3 => translate cr3 (rg_addr r) 1 1) k = Ok (rg_frame r) k.
Proof.
  intros S R Hr Hw. pose proof (ro_range _ _ _ R) as (_ & _ & _ & R1 & _).
  assert (in_region r (rg_addr r)) as Hin by (unfold in_region; lia).
  destruct (region_walk k a r (rg_addr r) S R Hin) as [Hwk _].
  pose proof (region_path k a r (rg_addr r) S R Hin) as Hp.
  unfold with_cr3. rewrite bind_get. erewrite on_heap_ok; [|exact (translate_run _ _ _ _ _ _ Hp)].
  rewrite (put_heap_id k : put_heap (Heap (guest (k_vm k)) (k_arena k)) k = k).
  change (walk (guest (k_vm k)) (cr3_of k) (rg_addr r)) with (kwalk k (rg_addr r)). rewrite Hwk, Hr, Hw.
  unfold walk_result. cbn. f_equal. lia.
Qed.

(** What [mmap] returns is a region of zeros. *)
Lemma mmap_region k a addr len prot :
  let addr' := mmap_addr k addr len in
  uspace k a -> user_range addr' len -> len < 2 ^ 32 -> mmap_room addr' len <= room a ->
  exists f k' a', mmap addr len prot k = Ok addr' k' /\ uspace k' a' /\ kgrows k a k' a' /\
    region_ok k' a' (Region addr' f len prot (fun _ => 0)) /\ (forall x, rng f len x -> own a x) /\
    (forall vb, user_va vb -> vb < addr' \/ addr' + len <= vb -> kleaf k' vb = kleaf k vb) /\
    room a - mmap_room addr' len <= room a' /\ cr3_of k' = cr3_of k /\
    (exists h lm, k' = KState (set_guest (h_mem h) (k_vm k)) (h_arena h) lm (msrs k)).
Proof.
  intros addr' [S Hs] R Hlen Hroom.
  destruct (mmap_run k a addr len prot S R Hlen Hroom)
    as (f & k' & a' & Hrun & S' & G & (B1 & B2 & B3 & B4 & B5) & Hin & Hout & _ & Hc & Ht & Hk).
  exists f, k', a'. split; [done|]. split; [split; [done|by apply (ta_sized _ _ (g_allocs _ _ _ _ _ G))]|].
  split; [done|]. split; [|split; [intros x Hx; by apply B5|split; [done|split; [|split; [done|done]]]]].
  - split; cbn; auto. intros x Hx. destruct (B5 x Hx) as (Z5 & _ & _ & E5). done.
  - pose proof (g_end _ _ _ _ _ G). fold addr' in Ht. unfold room in *. lia.
Qed.
End Regions.

(** ** Between two states *)

Section Machine.
Context {W : Type}.
Implicit Types k : kstate W.

(** What changes between two states of the kernel is memory and the system. *)
Definition same_machine k k' : Prop :=
  cpu (k_vm k') = cpu (k_vm k) /\ cur_fds (k_vm k') = cur_fds (k_vm k) /\ msrs k' = msrs k.
Lemma same_machine_trans k1 k2 k3 : same_machine k1 k2 -> same_machine k2 k3 -> same_machine k1 k3.
Proof. unfold same_machine. intros (<- & <- & <-) H. exact H. Qed.
Lemma alike_same k k' : alike k k' -> same_machine k k'.
Proof. intros (H1 & H2 & _ & H3). done. Qed.
Lemma same_cr3 k k' : same_machine k k' -> cr3_of k' = cr3_of k.
Proof. intros (H & _). unfold cr3_of. by rewrite H. Qed.

(** A call that has kept all blocks and has written to [D] only, followed by writes to [D]. *)
Lemma balanced_quiet k a (D : Z -> Prop) k4 m :
  uspace k a -> 0 < room a -> balanced k ((a, full_blocks a) : al_state) D k4 ->
  (forall x, D x -> used a x /\ ~ kentry k x) -> (forall x, ~ D x -> m x = guest (k_vm k4) x) ->
  let k' := with_mem m k4 in
  exists a', uspace k' a' /\ kkeeps k a k' a' D /\ same_machine k k' /\
    (forall va, user_va va -> kleaf k' va = kleaf k va) /\ room a <= room a'.
Proof.
  intros U Hr ((a4 & I4 & E4 & B4 & _ & R4) & A4 & G4) HD Hm k'. pose proof U as [[[_ W0] _] _].
  assert (forall x, D x -> ~ free_byte ((a, full_blocks a) : al_state) x) as Huf.
  { intros x Hx. apply used_not_unused; [done|]. by apply HD. }
  assert (same_machine k k') as M by (destruct A4 as (A1 & A2 & _ & A3); done).
  destruct (quiet_space k a k' a4 D U Hr) as (U' & K' & L'); try done.
  - refine (al_write _ _ _ _ I4 _). intros x. rewrite E4, B4. intros Hx. apply Hm. intros Hd. by apply (Huf x).
  - by apply same_cr3.
  - intros x Hx Hn. change (m x = guest (k_vm k) x). rewrite Hm by done. by apply G4.
  - intros x Hx. by apply HD.
  - by exists a4.1.
Qed.
End Machine.

(** ** Pages of the user's own *)

Section Isolated.
Context {W : Type}.
Implicit Types k : kstate W.

Definition page_of (va : Z) : Z := va / 4096 * 4096.
(** The page of [va] is mapped to a page of memory that holds no table. *)
Definition user_page k (a : aheap) (va : Z) : Prop :=
  exists f prot byte, region_ok k a (Region (page_of va) f 4096 prot byte).

Lemma page_of_in va : page_of va <= va < page_of va + 4096 /\ page_of va mod 4096 = 0.
Proof.
  unfold page_of. pose proof (Z.div_mod va 4096). pose proof (Z.mod_pos_bound va 4096). split; [lia|by apply Z.mod_mul].
Qed.
Lemma page_of_same va vb : page_of va <= vb < page_of va + 4096 -> vb / 4096 = va / 4096.
Proof. unfold page_of. intros H. symmetry. apply (Z.div_unique _ _ _ (vb - va / 4096 * 4096)); lia. Qed.
Lemma user_va_page va vb : user_va va -> vb / 4096 = va / 4096 -> user_va vb.
Proof.
  intros [Hu Hr] E. assert (0 <= vb < 2 ^ 47) as Hb.
  { pose proof (Z.div_mod va 4096). pose proof (Z.mod_pos_bound va 4096). pose proof (Z.div_mod vb 4096). pose proof (Z.mod_pos_bound vb 4096). lia. }
  split; [|done]. apply user_range_ok in Hu; [|done]. apply user_range_ok; [done|]. destruct Hu as [H1 H2]. split.
  - unfold KERNEL_PAGING_SIZE in *. pose proof (Z.div_mod va 4096). pose proof (Z.mod_pos_bound va 4096).
    pose proof (Z.div_mod vb 4096). pose proof (Z.mod_pos_bound vb 4096). lia.
  - by rewrite (same_page_div vb va) by (lia || done).
Qed.
Lemma user_page_range va : user_va va -> user_range (page_of va) 4096.
Proof.
  intros Hu. pose proof Hu as [_ Hr]. destruct (page_of_in va) as [H1 H2]. split; [done|]. split; [done|].
  unfold page_of in *. pose proof (Z.div_mod va 4096). pose proof (Z.mod_pos_bound va 4096).
  split; [lia|]. split; [lia|]. split; [lia|]. intros vb Hb. apply (user_va_page va); [done|]. by apply page_of_same.
Qed.

(** Regions are whole pages. *)
Lemma region_page k a r va vb : region_ok k a r -> in_region r va -> vb / 4096 = va / 4096 -> in_region r vb.
Proof.
  intros [(Ra & Rl & R0 & R1 & R2 & _) _ _ _ _] Hin Hp. unfold in_region in *.
  pose proof (Z.div_mod (rg_addr r) 4096). pose proof (Z.div_mod (rg_len r) 4096).
  pose proof (Z.div_mod va 4096). pose proof (Z.mod_pos_bound va 4096).
  pose proof (Z.div_mod vb 4096). pose proof (Z.mod_pos_bound vb 4096). lia.
Qed.
(** A page of a region. *)
Lemma region_user_page k a r va : region_ok k a r -> in_region r va -> user_page k a va.
Proof.
  intros [Rr (F1 & F2 & F3) Rp Rm Rb] Hin. pose proof Rr as (Ra & Rl & R0 & R1 & R2 & R3).
  destruct (page_of_in va) as [H1 H2]. unfold in_region in Hin.
  assert (rg_addr r <= page_of va /\ page_of va + 4096 <= rg_addr r + rg_len r) as [P1 P2].
  { pose proof (Z.div_mod (page_of va) 4096). pose proof (Z.div_mod (rg_addr r) 4096). pose proof (Z.div_mod (rg_len r) 4096). lia. }
  assert ((page_of va - rg_addr r) mod 4096 = 0) as Hd by (by rewrite Zminus_mod, H2, Ra).
  exists (rg_frame r + (page_of va - rg_addr r)), (rg_prot r), (fun i => rg_byte r (page_of va - rg_addr r + i)). split; cbn.
  - apply user_page_range, R3. lia.
  - split; [lia|]. split; [by apply page_add|lia].
  - intros j Hj Hjp. rewrite <- Z.add_assoc. apply Rp; [lia|by apply page_add].
  - intros vb Hb. unfold in_region in Hb. cbn in Hb. pose proof (Rm vb ltac:(unfold in_region; lia)) as Hm. unfold mapped_at in *. lia.
  - intros x Hx. destruct (Rb x) as [-> Hn]; [unfold rng in *; lia|]. split; [f_equal; lia|done].
Qed.
Lemma user_page_same k a va vb : vb / 4096 = va / 4096 -> user_page k a va -> user_page k a vb.
Proof. intros E. unfold user_page, page_of. by rewrite E. Qed.

(** A page stays the user's as long as its entry stays, whatever is written to it. *)
Lemma user_page_keeps k a k' a' D va :
  wf a -> cr3_of k' = cr3_of k -> kkeeps k a k' a' D -> (forall vb, vb / 4096 = va / 4096 -> kleaf k' vb = kleaf k vb) ->
  user_page k a va -> user_page k' a' va.
Proof.
  intros W0 Hc K Hl (f & prot & byte & [Rr Rf Rp Rm Rb]). pose proof K as [KA _ _ _ KN].
  exists f, prot, (fun i => guest (k_vm k') (f + i)). split; cbn in *; auto.
  - intros j Hj Hjp. apply (usable_allocs a); auto.
  - intros vb Hb. unfold mapped_at. rewrite Hl; [by apply Rm|]. by apply page_of_same.
  - intros x Hx. split; [f_equal; lia|]. unfold kentry. rewrite Hc. intros Hx'.
    destruct (KN x Hx') as [|Ho]; [by apply (Rb x)|]. apply (used_not_own a x); [done| |done]. by apply (pages_used a f 4096).
Qed.

Lemma user_page_leaf k a va : user_page k a va -> kleaf k va <> 0.
Proof.
  intros (f & prot & byte & R) E. pose proof (ro_mapped _ _ _ R va (proj1 (page_of_in va))) as Hm. cbn in Hm.
  unfold mapped_at in Hm. rewrite E in Hm. destruct (prot_bits_cases prot) as (B1 & B2 & _).
  destruct (ro_frame _ _ _ R) as (F1 & _). cbn in F1. replace (Z.lor 1 (prot_bits prot)) with 0 in B2; [done|].
  unfold page_of in Hm. lia.
Qed.
(** What the processor sees of a page. *)
Lemma user_page_at k a va :
  kspace k a -> user_page k a va ->
  exists prot, kwalk k va = Some (Xlat (frame k va) (has prot PROT_R) (has prot PROT_W)) /\
    0 <= frame k va < MEM_SIZE /\ used a (frame k va) /\ ~ kentry k (frame k va) /\
    path_ok (guest (k_vm k)) (cr3_of k) va.
Proof.
  intros S (f & prot & byte & R). pose proof (page_of_in va) as [Hin _].
  destruct (region_walk k a _ va S R Hin) as [Hw _]. pose proof R as [_ (F1 & F2 & F3) Rp _ Rb]. cbn in *.
  assert (frame k va = f + (va - page_of va)) as Hf by (unfold frame; by rewrite Hw).
  exists prot. rewrite Hf. split; [done|]. split; [lia|].
  split; [apply (pages_used a f 4096); [done|unfold rng; lia]|]. split; [apply Rb; unfold rng; lia|].
  exact (region_path k a _ va S R Hin).
Qed.

(** No byte of a region is in a table. *)
Definition ktable k (x : Z) : Prop := table_page (guest (k_vm k)) (cr3_of k) x.
Lemma region_not_table k a r x : kspace k a -> region_ok k a r -> rng (rg_frame r) (rg_len r) x -> ~ ktable k x.
Proof.
  intros [_ [Su _ _]] [Rr (F1 & F2 & F3) _ _ Rb] Hx (va & l & t & Hva & Hl & Ht & Hxt).
  destruct (Su va l t Hva Hl Ht) as (U1 & U2 & _). pose proof Rr as (_ & Rl & _).
  pose proof (tbl_index_range va (lbits l)) as Hi.
  destruct (Rb (t + 8 * tbl_index va (lbits l))) as [_ Hn].
  - unfold rng in *. pose proof (Z.div_mod t 4096). pose proof (Z.div_mod (rg_frame r) 4096). pose proof (Z.div_mod (rg_len r) 4096). lia.
  - apply Hn. exists va, l, t. do 3 (split; [done|]). unfold rng. lia.
Qed.
(** The entries that hide the kernel stay. *)
Lemma hidden_keeps k a k' a' D :
  kspace k a -> cr3_of k' = cr3_of k -> kkeeps k a k' a' D -> (forall x, D x -> ~ ktable k x) ->
  hidden (guest (k_vm k)) (cr3_of k) -> hidden (guest (k_vm k')) (cr3_of k').
Proof.
  intros [_ S] Hc [_ _ KT KF _] HD. rewrite Hc. apply hidden_same.
  - intros x Hx. apply KF.
    + destruct (guard_table_page _ _ _ Hx) as (va & l & t & Hva & Hl & Ht & Hxt).
      by apply (usable_used a t); [apply (as_usable _ _ _ S va l)|].
    + by eapply guard_not_entry.
    + intros Hd. by apply (HD x), guard_table_page.
  - intros t. apply KT; [exact low_user_va|lia].
Qed.

(** The boundary of a user program: every page of the user is one of its own, no byte of
    memory is behind two addresses, and the kernel's addresses are hidden. *)
Record isolated k (a : aheap) : Prop := Isolated {
  is_space : uspace k a;
  is_pages : forall va, user_va va -> kleaf k va = 0 \/ user_page k a va;
  is_apart : forall va vb, user_va va -> user_va vb -> user_page k a va -> user_page k a vb ->
    frame k va = frame k vb -> va = vb;
  is_hidden : hidden (guest (k_vm k)) (cr3_of k)
}.

(** A page whose entry has not changed was one before, at the same place. *)
Lemma user_page_back k a k' a' va :
  isolated k a -> kspace k' a' -> user_va va -> kleaf k' va = kleaf k va -> user_page k' a' va ->
  user_page k a va /\ frame k' va = frame k va.
Proof.
  intros [[S _] P _ _] S' Hu L Hp. split.
  - apply user_page_leaf in Hp. rewrite L in Hp. by destruct (P va Hu).
  - unfold frame. by rewrite (kwalk_same k a k' a' va S S' Hu L).
Qed.

(** Mapping a region of fresh memory keeps it, over pages that were mapped before or not. *)
Lemma isolated_region k a k' a' D r :
  uspace k' a' -> cr3_of k' = cr3_of k -> kkeeps k a k' a' D -> (forall x, D x -> ~ ktable k x) ->
  (forall va, user_va va -> ~ in_region r va -> kleaf k' va = kleaf k va) ->
  (forall va, in_region r va -> user_page k' a' va /\ frame k' va = rg_frame r + (va - rg_addr r)) ->
  (forall va vb, vb / 4096 = va / 4096 -> in_region r va -> in_region r vb) ->
  (forall x, rng (rg_frame r) (rg_len r) x -> own a x) -> isolated k a -> isolated k' a'.
Proof.
  intros U' Hc K HD L Hin Hpg Hown I. pose proof I as [U P A Hh]. pose proof U as [S _]. pose proof U' as [S' _]. pose proof S as [[_ W0] _].
  assert (forall va, in_region r va \/ ~ in_region r va) as Hdec by (intros va; unfold in_region; lia).
  assert (forall va, user_va va -> ~ in_region r va -> user_page k' a' va -> user_page k a va /\ frame k' va = frame k va) as Hq
    by (intros va Hu Hn; apply user_page_back; auto).
  assert (forall va vb, in_region r va -> user_va vb -> ~ in_region r vb -> user_page k' a' vb -> frame k' va <> frame k' vb) as Hx.
  { intros va vb Hi Hv Hn Hp E. destruct (Hq vb Hv Hn Hp) as [Q Ef]. destruct (user_page_at k a vb S Q) as (_ & _ & _ & Hus & _).
    apply (used_not_own a _ W0 Hus), Hown. rewrite <- Ef, <- E. destruct (Hin va Hi) as [_ ->]. unfold in_region, rng in *. lia. }
  split; [done| | |by apply (hidden_keeps k a k' a' D)].
  - intros va Hu. destruct (Hdec va) as [Hi|Hn]; [right; by apply Hin|]. rewrite L by done.
    destruct (P va Hu) as [|Hp]; [by left|]. right. apply (user_page_keeps k a k' a' D); try done.
    intros vb E. apply L; [by apply (user_va_page va)|]. intros Hi. apply Hn, (Hpg vb va); done.
  - intros va vb Hu Hv H1 H2 E. destruct (Hdec va) as [Hi|Hn], (Hdec vb) as [Hj|Hm].
    + destruct (Hin va Hi) as [_ E1], (Hin vb Hj) as [_ E2]. lia.
    + by destruct (Hx va vb Hi Hv Hm H2).
    + by destruct (Hx vb va Hj Hu Hn H1).
    + destruct (Hq va Hu Hn H1) as [Q1 E1], (Hq vb Hv Hm H2) as [Q2 E2]. apply A; congruence.
Qed.
Lemma isolated_mapped k a k' a' r :
  uspace k' a' -> region_ok k' a' r -> cr3_of k' = cr3_of k -> kkeeps k a k' a' (fun _ => False) ->
  (forall va, user_va va -> ~ in_region r va -> kleaf k' va = kleaf k va) -> (forall x, rng (rg_frame r) (rg_len r) x -> own a x) -> isolated k a -> isolated k' a'.
Proof.
  intros U' R Hc K L. apply (isolated_region k a k' a' (fun _ => False) r); try done.
  - intros va Hi. split; [by eapply region_user_page|]. unfold frame. by destruct (region_walk k' a' r va (proj1 U') R Hi) as [-> _].
  - intros va vb E Hi. by apply (region_page k' a' r va).
Qed.
(** What does not map anything keeps it. *)
Lemma isolated_keeps k a k' a' D :
  uspace k' a' -> cr3_of k' = cr3_of k -> kkeeps k a k' a' D -> (forall x, D x -> ~ ktable k x) ->
  (forall va, user_va va -> kleaf k' va = kleaf k va) ->
  isolated k a -> isolated k' a'.
Proof.
  intros U' Hc K HD L. apply (isolated_region k a k' a' D (Region 0 0 0 0 (fun _ => 0))); try done; auto.
  - unfold in_region. cbn. lia.
  - unfold in_region. cbn. lia.
  - unfold rng. cbn. lia.
Qed.
End Isolated.

(** ** Reading a file *)

(** A regular file with the given content behind the descriptor [h] of the system:
    [at_ w p] says that its position is [p].  Reads give what is there, up to the end. *)
Record regular_file {W} (os : host_os W) (h : Z) (content : list Z) (at_ : W -> Z -> Prop) : Prop := RegularFile {
  rf_bytes : Forall (fun b => 0 <= b < 256) content;
  rf_lseek : forall w p off, at_ w p -> 0 <= off ->
    exists w', os_lseek os w h off SEEK_SET = (w', inr off) /\ at_ w' off;
  rf_read : forall w p n, at_ w p -> 0 <= p -> 0 <= n ->
    let l := take (Z.to_nat n) (drop (Z.to_nat p) content) in
    exists w', os_read os w h n = (w', inr l) /\ at_ w' (p + Z.of_nat (length l))
}.
(** Byte [i] of what [n] bytes from [off] on are; 0 behind the end. *)
Definition file_byte (content : list Z) (off n i : Z) : Z :=
  if i <? n then default 0 (content !! Z.to_nat (off + i)) else 0.

Lemma file_put m p content off n x :
  Forall (fun b => 0 <= b < 256) content -> 0 <= off -> 0 <= n -> rng p n x -> m x = 0 ->
  put_bytes m p (take (Z.to_nat n) (drop (Z.to_nat off) content)) x = file_byte content off n (x - p).
Proof.
  intros Hb Ho Hn Hx Hz. unfold rng in Hx. unfold put_bytes, file_byte. rewrite (proj2 (Z.ltb_lt (x - p) n)) by lia.
  replace (Z.to_nat (off + (x - p))) with (Z.to_nat off + Z.to_nat (x - p))%nat by lia. rewrite <- lookup_drop.
  set (l := drop (Z.to_nat off) content).
  destruct (l !! Z.to_nat (x - p)) as [b|] eqn:E.
  - pose proof (lookup_lt_Some _ _ _ E). rewrite length_take.
    rewrite (proj2 (andb_true_iff _ _)) by lia. rewrite lookup_take_lt, E by lia. cbn.
    unfold u8. apply Z.mod_small. rewrite Forall_lookup in Hb. unfold l in E. rewrite lookup_drop in E. by apply (Hb _ _ E).
  - apply lookup_ge_None in E. rewrite length_take.
    replace ((p <=? x) && (x <? p + Z.of_nat (Z.to_nat n `min` length l))) with false by lia. by rewrite Hz.
Qed.

Section FileMmap.
Context {W : Type} (os : host_os W) (fails : ioctl -> bool).
Hypothesis kvm_works : forall i, fails i = false.
Hypothesis os_documented : rw_documented os.
Hypothesis os_lseek_documented : lseek_documented os.
Context (h : Z) (content : list Z) (at_ : W -> Z -> Prop).
Hypothesis file : regular_file os h content at_.
Implicit Types k : kstate W.

(** The machine runs the kernel, and [fd] is the file. *)
Definition reads k (fd p : Z) : Prop :=
  kernel_mode k /\ 0 <= fd < 2 ^ 31 /\ 0 <= p /\ fd_abs (cur_fds (k_vm k)) fd = Some h /\ at_ (host (k_vm k)) p.

Lemma seek_space k a fd p off :
  uspace k a -> reads k fd p -> chunk_size 12 <= room a -> 0 <= off < 2 ^ 31 ->
  exists k' a', hp_lseek os fails fd off SEEK_SET k = Ok off k' /\ uspace k' a' /\
    kkeeps k a k' a' (fun _ => False) /\ (forall va, user_va va -> kleaf k' va = kleaf k va) /\
    room a <= room a' /\ alike k k' /\ reads k' fd off.
Proof.
  intros U (Hk & Hfd & _ & Hf & Hp) Hroom Hoff. pose proof U as [[I _] Hs].
  destruct (hp_lseek_run os fails kvm_works os_lseek_documented k (a, full_blocks a) fd off)
    as (r & k' & a' & Hrun & I' & E' & B' & R' & A' & _ & Hr & Hm); [done|by apply full_inv|done|done|done|].
  destruct (chunk_size_request 12 ltac:(lia)) as [H12 _]. unfold request in H12.
  pose proof A' as (Ac & Af & _).
  destruct (quiet_space k a k' a' (fun _ => False)) as (U' & K' & L'); try done.
  { lia. }
  { unfold cr3_of. by rewrite Ac. }
  { intros x Hx _. by apply Hm. }
  unfold lseek_result in Hr. rewrite Hf in Hr. destruct (rf_lseek _ _ _ _ file _ _ off Hp ltac:(lia)) as (w' & Hl & Hp').
  rewrite Hl in Hr. injection Hr as -> Hw. exists k', a'.1. do 4 (split; [done|]). split; [apply R'|]. split; [done|].
  unfold reads, kernel_mode. rewrite Ac, Af, Hw. repeat split; (done || lia).
Qed.

Lemma read_space k a fd p paddr n :
  uspace k a -> reads k fd p -> chunk_size 24 <= room a -> 0 <= paddr -> 0 < n -> paddr + n <= MEM_SIZE ->
  (forall x, rng paddr n x -> used a x /\ ~ kentry k x) ->
  let l := take (Z.to_nat n) (drop (Z.to_nat p) content) in
  exists k' a', hp_read os fails fd paddr n k = Ok (Z.of_nat (length l)) k' /\ uspace k' a' /\
    kkeeps k a k' a' (rng paddr n) /\ (forall va, user_va va -> kleaf k' va = kleaf k va) /\
    room a <= room a' /\ alike k k' /\ reads k' fd (p + Z.of_nat (length l)) /\
    (forall x, used a x -> guest (k_vm k') x = put_bytes (guest (k_vm k)) paddr l x).
Proof.
  intros U (Hk & Hfd & Hp0 & Hf & Hp) Hroom Hpa Hn Hm Hx l. pose proof U as [[I _] Hs]. pose proof I as [_ W0].
  destruct (hp_rw_run os fails kvm_works os_documented RwRead k (a, full_blocks a) fd paddr n)
    as (r & k' & a' & Hrun & I' & E' & B' & R' & A' & _ & Hr); try done.
  { by apply full_inv. }
  { intros x Hxr. apply used_not_unused; [done|]. by apply Hx. }
  unfold rw_done_off, rw_result, read_result in Hr. rewrite Hf in Hr.
  destruct (rf_read _ _ _ _ file _ _ n Hp Hp0 ltac:(lia)) as (w' & Hl & Hp'). fold l in Hl, Hp'.
  rewrite Hl in Hr. destruct Hr as (-> & Hw & Hg).
  destruct (chunk_size_request 24 ltac:(lia)) as [H24 _]. unfold request in H24.
  pose proof A' as (Ac & Af & _).
  destruct (quiet_space k a k' a' (rng paddr n)) as (U' & K' & L'); try done.
  { lia. }
  { unfold cr3_of. by rewrite Ac. }
  { intros x Hu Hd. rewrite Hg by done. apply put_bytes_outside. unfold l, rng in *. rewrite length_take. lia. }
  { intros x Hd. by apply Hx. }
  exists k', a'.1. do 4 (split; [done|]). split; [apply R'|]. split; [done|]. split.
  - unfold reads, kernel_mode. rewrite Ac, Af, Hw. repeat split; (done || lia).
  - intros x Hu. apply Hg. by apply used_not_unused.
Qed.

(** *** [sys_mmap] *)

Lemma prot_rw prot : has (Z.lor prot PROT_RW) PROT_R = true /\ has (Z.lor prot PROT_RW) PROT_W = true.
Proof.
  unfold has, nonzero. rewrite !Z.land_lor_distr_l. change (Z.land PROT_RW PROT_R) with PROT_R. change (Z.land PROT_RW PROT_W) with PROT_W.
  split; apply negb_true_iff, Z.eqb_neq; rewrite Z.lor_eq_0_iff; intros [_ H]; discriminate H.
Qed.

(** The file is in the block of a writable region of zeros. *)
Lemma fill_region k a fd p base f alen len prot :
  uspace k a -> reads k fd p -> chunk_size 24 <= room a -> 0 < len <= alen ->
  region_ok k a (Region base f alen prot (fun _ => 0)) ->
  exists k' a', hp_read os fails fd f len k = Ok (Z.of_nat (length (take (Z.to_nat len) (drop (Z.to_nat p) content)))) k' /\
    uspace k' a' /\ kkeeps k a k' a' (rng f len) /\ (forall va, user_va va -> kleaf k' va = kleaf k va) /\
    room a <= room a' /\ alike k k' /\ (exists p', reads k' fd p') /\
    region_ok k' a' (Region base f alen prot (file_byte content p len)).
Proof.
  intros U Hr Hroom Hlen [Rr (F1 & F2 & F3) Rp Rm Rb]. cbn in *. pose proof U as [[[_ W0] _] _].
  assert (forall x, rng f alen x -> used a x) as Hus by (intros x; by apply pages_used).
  destruct (read_space k a fd p f len U Hr Hroom) as (k' & a' & Hrun & U' & K & L & R & A & Hr' & Hg); try lia.
  { intros x Hx. assert (rng f alen x) as Hx' by (unfold rng in *; lia). split; [auto|]. by apply Rb. }
  exists k', a'. do 6 (split; [done|]). split; [eauto|]. pose proof K as [KA _ _ _ KN]. split; cbn; auto.
  - intros j Hj Hjp. by apply (usable_allocs a), Rp.
  - intros va Hva. unfold mapped_at. rewrite L; [by apply Rm|]. by apply Rr.
  - intros x Hx. destruct (Rb x Hx) as [Hz Hn]. split.
    + rewrite Hg by auto. destruct (decide (rng f len x)) as [Hin|Hout].
      * apply file_put; (done || lia || apply file || apply Hr).
      * rewrite put_bytes_outside by (unfold rng in *; rewrite length_take; lia). rewrite Hz. unfold file_byte.
        rewrite (proj2 (Z.ltb_ge _ _)); [done|]. unfold rng in *. lia.
    + unfold kentry. assert (cr3_of k' = cr3_of k) as -> by (unfold cr3_of; destruct A as [-> _]; done).
      intros Hx'. destruct (KN x Hx') as [|Ho]; [done|]. by apply (used_not_own a x W0); [apply Hus|].
Qed.

(** Correcting the permissions of a region. *)
Lemma protect_region k a r prot :
  uspace k a -> region_ok k a r ->
  exists k', mprotect (rg_addr r) (rg_len r) prot k = Ok 0 k' /\ k' = put_heap (heap_of k') k /\ uspace k' a /\
    kgrows k a k' a /\ region_ok k' a (Region (rg_addr r) (rg_frame r) (rg_len r) prot (rg_byte r)) /\
    (forall vb, user_va vb -> vb < rg_addr r \/ rg_addr r + rg_len r <= vb -> kleaf k' vb = kleaf k vb).
Proof.
  intros [S Hs] [Rr (F1 & F2 & F3) Rp Rm Rb]. pose proof S as [[_ W0] _].
  destruct (mprotect_run k a (rg_addr r) (rg_frame r) (rg_len r) (rg_prot r) prot Rr F1 F2 F3 S Rm)
    as (k' & Hrun & Hk & S' & G & Hin & Hout).
  exists k'. do 4 (split; [done|]). split; [|done]. split; cbn; auto.
  intros x Hx. destruct (Rb x Hx) as [Hb Hn]. pose proof (pages_used a _ _ x Rp Hx) as Hus.
  pose proof (used_not_own a x W0 Hus) as Hno. split.
  - rewrite (g_frame _ _ _ _ _ G); done.
  - unfold kentry. rewrite Hk at 2. intros Hx'. by destruct (g_entries _ _ _ _ _ G x Hx').
Qed.

(** A step of the kernel that maps user addresses in [T] only: the space stays one,
    memory in use stays, and pages of the user's own stay so. *)
Definition step_on k a k' a' (cost : Z) (T : Z -> Prop) : Prop :=
  uspace k' a' /\ kkeeps k a k' a' (fun _ => False) /\ same_machine k k' /\
  (room a - cost <= room a' /\ (isolated k a -> isolated k' a')) /\
  (forall vb, user_va vb -> ~ T vb -> kleaf k' vb = kleaf k vb).
Definition step_ok k a k' a' (cost lo hi : Z) : Prop := step_on k a k' a' cost (fun va => lo <= va < hi).

Lemma step_on_refl k a c T : uspace k a -> 0 <= c -> step_on k a k a c T.
Proof.
  intros U Hc. pose proof U as [[[_ W0] _] _]. split; [done|]. split; [by apply grows_keeps, grows_refl|].
  split; [done|]. split; [split; [lia|done]|done].
Qed.
Lemma step_on_trans k1 a1 k2 a2 k3 a3 c1 c2 (T1 T2 T : Z -> Prop) :
  wf a1 -> step_on k1 a1 k2 a2 c1 T1 -> step_on k2 a2 k3 a3 c2 T2 ->
  (forall va, T1 va -> T va) -> (forall va, T2 va -> T va) -> step_on k1 a1 k3 a3 (c1 + c2) T.
Proof.
  intros W0 (U2 & K2 & M2 & [R2 I2] & L2) (U3 & K3 & M3 & [R3 I3] & L3) H1 H2. split; [done|]. split.
  - unfold kkeeps in *. rewrite (same_cr3 _ _ M2) in K3.
    apply (keeps_fresh _ _ _ _ _ (fun x => False \/ False)); [done|tauto|]. by eapply keeps_trans.
  - split; [by eapply same_machine_trans|]. split; [split; [lia|auto]|].
    intros vb Hb Hv. rewrite L3, L2; auto.
Qed.
Lemma step_trans k1 a1 k2 a2 k3 a3 c1 c2 lo1 hi1 lo2 hi2 lo hi :
  wf a1 -> step_ok k1 a1 k2 a2 c1 lo1 hi1 -> step_ok k2 a2 k3 a3 c2 lo2 hi2 ->
  lo <= lo1 -> lo <= lo2 -> hi1 <= hi -> hi2 <= hi -> step_ok k1 a1 k3 a3 (c1 + c2) lo hi.
Proof. intros W0 S1 S2 Hl1 Hl2 Hh1 Hh2. eapply step_on_trans; [done|exact S1|exact S2|intros va; cbn; lia..]. Qed.

(** A region outside the range a step works on stays. *)
Lemma region_step k a k' a' c T r :
  wf a -> step_on k a k' a' c T -> (forall va, in_region r va -> ~ T va) ->
  region_ok k a r -> region_ok k' a' r.
Proof.
  intros W0 (U & K & M & _ & L) Ho R. eapply (region_keeps k a k' a'); try done.
  - by apply same_cr3.
  - intros x Hx [].
  - intros va Hva. apply L; [|auto]. by apply (ro_range _ _ _ R).
  - intros u. apply usable_allocs, (kp_allocs _ _ _ _ _ _ K).
Qed.

Lemma mmap_step k a addr len prot :
  let addr' := mmap_addr k addr len in
  uspace k a -> user_range addr' len -> len < 2 ^ 32 -> mmap_room addr' len <= room a ->
  exists f k' a', mmap addr len prot k = Ok addr' k' /\
    step_ok k a k' a' (mmap_room addr' len) addr' (addr' + len) /\
    region_ok k' a' (Region addr' f len prot (fun _ => 0)) /\ (forall x, rng f len x -> own a x) /\
    host (k_vm k') = host (k_vm k).
Proof.
  intros addr' U R Hlen Hroom. pose proof U as [[[_ W0] _] _].
  destruct (mmap_region k a addr len prot U R Hlen Hroom)
    as (f & k' & a' & Hrun & U' & G & Rg & Ho & L & Hr & _ & (h0 & lm & ->)).
  eexists f, _, a'. split; [exact Hrun|]. split; [|done].
  assert (forall vb, user_va vb -> ~ (addr' <= vb < addr' + len) -> kleaf _ vb = kleaf k vb) as L'
    by (intros vb Hb Hv; apply L; [done|lia]).
  split; [done|]. split; [by apply grows_keeps|]. split; [done|]. split; [split; [done|]|exact L'].
  exact (isolated_mapped k a _ a' _ U' Rg eq_refl (grows_keeps _ _ _ _ _ W0 G) L' Ho).
Qed.

Lemma file_mmap_run k a addr len prot flags fd off p :
  let hint := if has flags MAP_FIXED then addr else 0 in
  let base := mmap_addr k hint (alignup len) in
  uspace k a -> reads k fd p -> 0 <= addr < 2 ^ 64 -> addr mod 4096 = 0 -> 0 < len < 2 ^ 32 -> alignup len < 2 ^ 32 ->
  0 <= off < 2 ^ 31 -> user_range base (alignup len) ->
  mmap_room base (alignup len) + 0x100 <= room a ->
  exists f k' a', sys_mmap os fails addr len prot flags fd off k = Ok base k' /\
    step_ok k a k' a' (mmap_room base (alignup len) + 0x100) base (base + alignup len) /\
    region_ok k' a' (Region base f (alignup len) prot (file_byte content off len)) /\
    (forall x, rng f (alignup len) x -> own a x) /\ (exists p', reads k' fd p').
Proof.
  intros hint base U Hr Ha Hap Hl Hal Hoff R Hroom. pose proof R as (Ra & Rl & R0 & R1 & R2 & R3).
  pose proof (eq_refl : chunk_size 12 = 0x80) as C12. pose proof (eq_refl : chunk_size 24 = 0x80) as C24.
  destruct (alignup_spec len) as [_ Hup]; [lia|]. pose proof U as [[[_ W0] _] _].
  assert (has flags MAP_FIXED && negb (hint =? 0) && negb (USER_MEM_RANGE_OK hint) = false) as Hg.
  { unfold hint, base, mmap_addr in *. destruct (has flags MAP_FIXED); [|done]. cbn [andb].
    destruct (Z.eqb_spec addr 0); [done|]. destruct (R3 addr) as [-> _]; [|done].
    unfold hint in *. rewrite (proj2 (Z.eqb_neq addr 0)) by done. lia. }
  destruct (mmap_step k a hint (alignup len) (Z.lor prot PROT_RW) U R Hal ltac:(fold base; lia))
    as (f & k1 & a1 & Hrun1 & S1 & G1 & O1 & H1). fold base in Hrun1, S1, G1. pose proof S1 as (U1 & K1 & M1 & Q1 & L1).
  pose proof U1 as [[[_ W1] _] _].
  assert (reads k1 fd p) as Hr1 by (destruct Hr, M1 as (E1 & E2 & _); unfold reads, kernel_mode in *; by rewrite E1, E2, H1).
  destruct (seek_space k1 a1 fd p off U1 Hr1 ltac:(lia) Hoff) as (k2 & a2 & Hrun2 & U2 & K2 & L2 & Q2 & A2 & Hr2).
  pose proof U2 as [[[_ W2] _] _].
  assert (step_ok k1 a1 k2 a2 0x80 base base) as S2.
  { split; [done|]. split; [done|]. split; [by apply alike_same|]. split; [|auto]. split; [lia|].
    eapply isolated_keeps; [done|by apply same_cr3, alike_same|exact K2|tauto|auto]. }
  assert (region_ok k2 a2 (Region base f (alignup len) (Z.lor prot PROT_RW) (fun _ => 0))) as G2.
  { eapply (region_step k1 a1); [done|exact S2| |done]. lia. }
  destruct (prot_rw prot) as [Pr Pw].
  pose proof (region_translate k2 a2 _ (proj1 U2) G2 Pr Pw) as Ht. cbn [rg_addr rg_frame] in Ht.
  destruct (fill_region k2 a2 fd off base f (alignup len) len _ U2 Hr2 ltac:(lia) ltac:(lia) G2)
    as (k3 & a3 & Hrun3 & U3 & K3 & L3 & Q3 & A3 & Hr3 & G3).
  destruct (protect_region k3 a3 _ prot U3 G3) as (k4 & Hrun4 & Hk4 & U4 & K4 & G4 & L4). cbn in Hrun4, G4, L4.
  exists f, k4, a3. split; [|split; [|split; [exact G4|split; [done|]]]].
  - unfold sys_mmap. rewrite alignok_mod, Hap, (proj2 (Z.eqb_neq len 0)) by lia. cbn [negb Z.eqb].
    fold hint. rewrite Hg, (bind_ok _ _ _ _ _ Hrun1), (proj2 (Z.eqb_neq base 0)).
    2:{ intros E. destruct (R3 base) as [Hu _]; [lia|]. by rewrite E in Hu. }
    rewrite (proj2 (Z.leb_le 0 fd)) by apply Hr. rewrite (u32_small off), bind_bind, (bind_ok _ _ _ _ _ Hrun2) by lia.
    rewrite (proj2 (Z.ltb_ge _ _)), bind_bind, (bind_ok _ _ _ _ _ Ht), bind_bind, (bind_ok _ _ _ _ _ Hrun3), bind_ret by lia.
    by rewrite (bind_ok _ _ _ _ _ Hrun4).
  - assert (same_machine k2 k4) as M24.
    { eapply same_machine_trans; [by apply alike_same|]. by rewrite Hk4. }
    pose proof (step_trans _ _ _ _ _ _ _ _ _ _ _ _ base (base + alignup len) W0 S1 S2) as S12.
    destruct S12 as (_ & K12 & M12 & Q12 & L12); try lia.
    assert (same_machine k k4) as M4 by (by eapply same_machine_trans).
    assert (forall vb, user_va vb -> ~ (base <= vb < base + alignup len) -> kleaf k4 vb = kleaf k vb) as L'
      by (intros vb Hb Hv; rewrite L4, L3, L12 by (done || lia); done).
    assert (kkeeps k a k4 a3 (fun _ => False)) as K'.
    { unfold kkeeps. eapply keeps_fresh; [exact W0| |eapply keeps_trans; [exact W0|exact K12|]].
      2:{ rewrite <- (same_cr3 _ _ M12). eapply keeps_trans; [exact W2|exact K3|].
          rewrite <- (same_cr3 _ _ (alike_same _ _ A3)). apply grows_keeps; [apply U3|exact K4]. }
      intros x [[]|[Hx|[]]]. right. apply O1. unfold rng in *. lia. }
    split; [done|]. split; [done|]. split; [done|]. split; [split; [lia|]|exact L'].
    exact (isolated_mapped _ _ _ _ _ U4 G4 (same_cr3 _ _ M4) K' L' O1).
  - destruct Hr3 as (p' & Hr3). exists p'. by rewrite Hk4.
Qed.
End FileMmap.

(** ** The property *)

(** C21: [mmap] of a file by a user program: the pages hold the bytes of the file from the offset
    on, as many as were asked for, and zeros after them and behind the end of the file; they
    are mapped with exactly the permissions asked for; every other user page is mapped as
    before, and every byte in use that is not a table entry is as before. *)
Theorem sys_mmap_file {W} (os : host_os W) fails h content at_ (k : kstate W) a addr len prot flags fd off p :
  let hint := if has flags MAP_FIXED then addr else 0 in
  let base := mmap_addr k hint (alignup len) in
  (forall i, fails i = false) -> rw_documented os -> lseek_documented os -> regular_file os h content at_ ->
  uspace k a -> reads h at_ k fd p -> 0 <= addr < 2 ^ 64 -> addr mod 4096 = 0 -> 0 < len < 2 ^ 32 -> alignup len < 2 ^ 32 ->
  0 <= off < 2 ^ 31 -> user_range base (alignup len) -> mmap_room base (alignup len) + 0x100 <= room a ->
  exists f k' a', sys_mmap os fails addr len prot flags fd off k = Ok base k' /\ uspace k' a' /\
    (forall va, base <= va < base + alignup len ->
       kwalk k' va = Some (Xlat (f + (va - base)) (has prot PROT_R) (has prot PROT_W)) /\
       guest (k_vm k') (f + (va - base)) = file_byte content off len (va - base)) /\
    (forall vb, user_va vb -> vb < base \/ base + alignup len <= vb -> kwalk k' vb = kwalk k vb) /\
    (forall x, used a x -> ~ kentry k x -> guest (k_vm k') x = guest (k_vm k) x).
Proof.
  intros hint base Hok Hdoc Hsk Hf U Hr Ha Hap Hl Hal Hoff R Hroom.
  destruct (file_mmap_run os fails Hok Hdoc Hsk h content at_ Hf k a addr len prot flags fd off p)
    as (f & k' & a' & Hrun & (U' & K & M & _ & L) & G & _ & _); try done.
  exists f, k', a'. split; [exact Hrun|]. split; [done|]. split; [|split].
  - intros va Hva. exact (region_walk k' a' _ va (proj1 U') G Hva).
  - intros vb Hb Hv. apply (kwalk_same k a k' a'); [apply U|apply U'|done|]. apply L; [done|]. fold hint base. cbn. lia.
  - intros x Hx He. apply (kp_frame _ _ _ _ _ _ K); [done|done|tauto].
Qed.

(** ** A concrete instance *)

(** A system with one file, whose state is the position; opening it starts from 0. *)
Definition file_os (content : list Z) : host_os Z := HostOs Z
  (fun w _ => (0, inr 3))
  (fun w _ n => let l := take (Z.to_nat n) (drop (Z.to_nat w) content) in (w + Z.of_nat (length l), inr l))
  (fun w _ l => (w, inr (Z.of_nat (length l))))
  (fun w _ => (w, inr 0))
  (fun w _ off _ => (off, inr off)).
Lemma file_os_documented content : Forall (fun b => 0 <= b < 256) content -> rw_documented (file_os content).
Proof.
  intros Hb w fd. split; [intros l; cbn; lia|]. intros n Hn. cbn. rewrite length_take.
  split; [lia|]. by apply Forall_take, Forall_drop.
Qed.
Lemma file_os_lseek content : lseek_documented (file_os content).
Proof. intros w fd off Hoff. done. Qed.
Lemma file_os_file content h : Forall (fun b => 0 <= b < 256) content -> regular_file (file_os content) h content eq.
Proof.
  intros Hb. split; [done| |].
  - intros w p off -> Hoff. by exists off.
  - intros w p n -> Hp Hn l. eexists. split; reflexivity.
Qed.

(** The kernel that has mapped nothing yet, on this system; descriptor 0 is the file. *)
Definition file_kstate : kstate Z :=
  KState (Vm boot_mem (replicate 256 (FdHandle 0 0)) 0 UNUSED_VAR UNUSED_VAR UNUSED_VAR UNUSED_VAR 0
            (cpu (k_vm empty_kstate)) 0 0)
         (k_arena empty_kstate) (u64 (-1)) ∅.
Lemma file_uspace : uspace file_kstate empty_aheap.
Proof. split; [exact empty_kspace|constructor]. Qed.
Lemma file_reads : reads 0 eq file_kstate 0 0.
Proof. split; [reflexivity|]. split; [lia|]. split; [lia|]. by split. Qed.

Lemma file_isolated : isolated file_kstate empty_aheap.
Proof.
  destruct (boot_aspace boot_mem empty_aheap MAX_KERNEL_SIZE boot_mem_map) as (_ & Hh & H0).
  split; [exact file_uspace|intros va Hva; left; exact (H0 va Hva)| |exact Hh].
  intros va vb Hva _ Hp. destruct (user_page_leaf _ _ _ Hp). exact (H0 va Hva).
Qed.

Definition ex_file : list Z := [10; 20; 30; 40; 50].
Lemma ex_file_bytes : Forall (fun b => 0 <= b < 256) ex_file.
Proof. repeat (apply Forall_cons; split; [lia|]). apply Forall_nil_2. Qed.

Lemma sys_mmap_file_witness :
  exists f k', sys_mmap (file_os ex_file) (fun _ => false) 0 0x1800 PROT_R 0 0 1 file_kstate = Ok 0x7ffff7ffd000 k' /\
    kwalk k' 0x7ffff7ffd002 = Some (Xlat (f + 2) true false) /\ guest (k_vm k') (f + 2) = 40 /\
    guest (k_vm k') (f + 0x1000) = 0.
Proof.
  destruct (sys_mmap_file (file_os ex_file) (fun _ => false) 0 ex_file eq file_kstate empty_aheap 0 0x1800 PROT_R 0 0 1 0)
    as (f & k' & a' & H1 & _ & H2 & _).
  - done.
  - exact (file_os_documented ex_file ex_file_bytes).
  - exact (file_os_lseek ex_file).
  - exact (file_os_file ex_file 0 ex_file_bytes).
  - exact file_uspace.
  - exact file_reads.
  - lia.
  - reflexivity.
  - lia.
  - vm_compute. reflexivity.
  - lia.
  - exact top_user_range.
  - vm_compute. discriminate.
  - exists f, k'. split; [exact H1|]. destruct (H2 0x7ffff7ffd002) as [A1 A2]; [vm_compute; split; [discriminate|reflexivity]|].
    destruct (H2 0x7ffff7ffe000) as [_ A3]; [vm_compute; split; [discriminate|reflexivity]|].
    split; [exact A1|]. split; [exact A2|exact A3].
Defined.
