(* ===== verification/ElfProof.v ===== *)
(** * Loading a program

    [load_binary] reads the ELF header into kernel memory and maps each PT_LOAD segment:
    its file bytes with [sys_mmap], the rest of its memory with [mmap]; then the stack.
    After it the user finds every segment of the file at its address. *)

From S2P Require Import Prelude Memory Arch KString Kmalloc KmallocSpec KmallocProof KmallocRefine.
From S2P Require Import KmallocSafety KmallocIface Translate TranslateProof PageTables AddressSpace Hypercall Hypervisor.
From S2P Require Import HypercallProof HypervisorProof Kernel Exec KernelProof SyscallProof MmapProof FileMap.

(** ** The header in kernel memory *)

Lemma ld_shift n m m' : forall a b,
  (forall i, 0 <= i < Z.of_nat n -> m (a + i) = m' (b + i)) -> ld n m a = ld n m' b.
Proof.
  induction n as [|n IH]; intros a b H; [done|].
  change (u8 (m a) + 256 * ld n m (a + 1) = u8 (m' b) + 256 * ld n m' (b + 1)).
  pose proof (H 0 ltac:(lia)) as H0. rewrite !Z.add_0_r in H0. rewrite H0. do 2 f_equal. apply IH.
  intros i Hi. replace (a + 1 + i) with (a + (i + 1)) by lia. replace (b + 1 + i) with (b + (i + 1)) by lia. apply H. lia.
Qed.

Section Header.
Context {W : Type}.
Implicit Types k : kstate W.

Lemma vload_kernel k va :
  KERNEL_BASE_OFFSET <= va -> va + 1 <= KERNEL_BASE_OFFSET + MEM_SIZE ->
  vload va k = Ok (u8 (guest (k_vm k) (va - KERNEL_BASE_OFFSET))) k.
Proof.
  intros H1 H2. unfold vload, vtrans. rewrite krange_direct by lia. cbn [x_pa].
  by rewrite (proj2 (Z.ltb_lt _ _)) by lia.
Qed.
Lemma vload_n_kernel n k : forall va,
  KERNEL_BASE_OFFSET <= va -> va + Z.of_nat n <= KERNEL_BASE_OFFSET + MEM_SIZE ->
  vload_n n va k = Ok (ld n (guest (k_vm k)) (va - KERNEL_BASE_OFFSET)) k.
Proof.
  pose proof (eq_refl : MEM_SIZE = 0x400000) as Hms. pose proof (eq_refl : KERNEL_BASE_OFFSET = 2 ^ 39) as Hkb.
  induction n as [|n IH]; intros va H1 H2; [done|]. cbn [vload_n].
  rewrite (bind_ok _ _ _ _ _ (vload_kernel k va H1 ltac:(lia))), (u64_small (va + 1)) by lia.
  destruct n as [|n]; [reflexivity|].
  rewrite (bind_ok _ _ _ _ _ (IH (va + 1) ltac:(lia) ltac:(lia))).
  unfold mret, cmd_ret. f_equal. cbn [ld]. replace (va + 1 - KERNEL_BASE_OFFSET) with (va - KERNEL_BASE_OFFSET + 1) by lia.
  reflexivity.
Qed.

(** The bytes [c] are in a page of kernel memory at [buf], which is in use and no table. *)
Definition holds k (a : aheap) (buf : Z) (c : mem) : Prop :=
  KERNEL_BASE_OFFSET <= buf /\ buf + 4096 <= KERNEL_BASE_OFFSET + MEM_SIZE /\
  forall i, 0 <= i < 4096 ->
    let x := buf - KERNEL_BASE_OFFSET + i in guest (k_vm k) x = c i /\ used a x /\ ~ kentry k x.

Lemma holds_step k a k' a' cost T buf c :
  wf a -> step_on k a k' a' cost T -> holds k a buf c -> holds k' a' buf c.
Proof.
  intros W0 (_ & K & M & _) (H1 & H2 & H3). pose proof K as [KA _ _ KF KN]. do 2 (split; [done|]).
  intros i Hi x. destruct (H3 i Hi) as (B & U & N). fold x in B, U, N. split; [rewrite KF; [done|done|done|tauto]|].
  split; [by apply (used_allocs a)|]. unfold kentry. rewrite (same_cr3 _ _ M). intros Hx.
  destruct (KN x Hx) as [|Ho]; [done|]. by apply (used_not_own a x).
Qed.
Lemma holds_ld k a buf c n off :
  holds k a buf c -> 0 <= off -> off + Z.of_nat n <= 4096 -> vload_n n (buf + off) k = Ok (ld n c off) k.
Proof.
  intros (H1 & H2 & H3) Ho Hn. rewrite vload_n_kernel by lia. f_equal. apply ld_shift. intros i Hi.
  destruct (H3 (off + i)) as [B _]; [lia|]. cbn zeta in B. rewrite <- B. f_equal. lia.
Qed.
End Header.

(** ** Program headers *)

Record phdr := Phdr { p_type : Z; p_flags : Z; p_offset : Z; p_vaddr : Z; p_filesz : Z; p_memsz : Z }.
(** The [i]-th of the table that follows the ELF header [c]. *)
Definition phdr_off (i : Z) : Z := SIZEOF_EHDR + SIZEOF_PHDR * i.
Definition phdr_at (c : mem) (i : Z) : phdr :=
  let o := phdr_off i in
  Phdr (ld 4 c o) (ld 4 c (o + 4)) (ld 8 c (o + 8)) (ld 8 c (o + 16)) (ld 8 c (o + 32)) (ld 8 c (o + 40)).
Definition is_load (p : phdr) : bool := p_type p =? PT_LOAD.

(** The pages of a segment: from the first to the end of the file's part, and to the end. *)
Definition seg_start (base : Z) (p : phdr) : Z := base + aligndown (p_vaddr p).
Definition seg_file_end (base : Z) (p : phdr) : Z := base + alignup (p_vaddr p + p_filesz p).
Definition seg_end (base : Z) (p : phdr) : Z := base + alignup (p_vaddr p + p_memsz p).
Definition seg_prot (p : phdr) : Z := pf_to_prot (p_flags p).
(** The bytes that are read, from the start of the page of the offset on. *)
Definition seg_read (p : phdr) : Z := p_filesz p + p_offset p mod 4096.

(** A segment as the ELF format asks for: offset and address agree in the page, the file's
    part is no larger than the memory's, and it is for the user. *)
Record seg_ok (base : Z) (p : phdr) : Prop := SegOk {
  so_offset : 0 <= p_offset p < 2 ^ 31;
  so_page : p_offset p mod 4096 = p_vaddr p mod 4096;
  so_read : 0 < seg_read p;
  so_sizes : 0 <= p_filesz p <= p_memsz p;
  so_vaddr : 0 <= p_vaddr p /\ p_vaddr p + p_memsz p < 2 ^ 47;
  so_len : seg_end base p - seg_start base p < 2 ^ 31;
  so_user : user_range (seg_start base p) (seg_end base p - seg_start base p)
}.
Definition seg_cost (base : Z) (p : phdr) : Z :=
  mmap_room (seg_start base p) (seg_file_end base p - seg_start base p) + 0x100 +
  (if seg_end base p =? seg_file_end base p then 0
   else mmap_room (seg_file_end base p) (seg_end base p - seg_file_end base p)).

Lemma alignup_mono v w : 0 <= v <= w -> w <= 2 ^ 64 - 4096 -> alignup v <= alignup w.
Proof.
  intros H1 H2. destruct (alignup_spec v) as [A1 A2]; [lia|]. destruct (alignup_spec w) as [B1 B2]; [lia|].
  pose proof (Z.div_mod (alignup v) 4096). pose proof (Z.div_mod (alignup w) 4096). lia.
Qed.

(** Where the parts of a segment lie. *)
Lemma seg_parts base p : seg_ok base p -> 0 <= base < 2 ^ 47 -> base mod 4096 = 0 ->
  seg_file_end base p - seg_start base p = alignup (seg_read p) /\
  seg_start base p + seg_read p = base + p_vaddr p + p_filesz p /\
  seg_start base p < seg_file_end base p <= seg_end base p /\
  seg_start base p mod 4096 = 0 /\ seg_file_end base p mod 4096 = 0 /\ seg_end base p mod 4096 = 0 /\
  base + p_vaddr p + p_memsz p <= seg_end base p /\ 0 < seg_read p < 2 ^ 32.
Proof.
  intros [So Sp Sr Ss Sv Sl Su] Hb Hbp. unfold seg_start, seg_file_end, seg_end, seg_read in *.
  rewrite aligndown_mod in * by lia. pose proof (Z.div_mod (p_vaddr p) 4096). pose proof (Z.mod_pos_bound (p_vaddr p) 4096).
  pose proof (Z.mod_pos_bound (p_offset p) 4096).
  destruct (alignup_spec (p_vaddr p + p_filesz p)) as [A1 A2]; [lia|].
  destruct (alignup_spec (p_vaddr p + p_memsz p)) as [B1 B2]; [lia|].
  destruct (alignup_spec (p_filesz p + p_offset p mod 4096)) as [C1 C2]; [lia|].
  pose proof (alignup_mono (p_vaddr p + p_filesz p) (p_vaddr p + p_memsz p)).
  pose proof (Z.div_mod (alignup (p_vaddr p + p_filesz p)) 4096). pose proof (Z.div_mod (alignup (p_filesz p + p_offset p mod 4096)) 4096).
  assert (forall x, x mod 4096 = 0 -> (base + x) mod 4096 = 0) as Hm by (intros x Hx; by apply page_add).
  repeat split; try lia.
  - apply Hm. rewrite Zminus_mod_idemp_r, Z.sub_diag. done.
  - by apply Hm.
  - by apply Hm.
Qed.

Lemma user_subrange lo hi c d :
  user_range lo (hi - lo) -> lo <= c -> c < d <= hi -> c mod 4096 = 0 -> d mod 4096 = 0 -> user_range c (d - c).
Proof.
  intros (R1 & R2 & R3 & R4 & R5 & R6) H1 H2 Hc Hd. split; [done|]. split; [by rewrite Zminus_mod, Hc, Hd|].
  do 3 (split; [lia|]). intros va Hva. apply R6. lia.
Qed.
Lemma mmap_addr_fixed {W} (k : kstate W) addr len : user_range addr len -> mmap_addr k addr len = addr.
Proof.
  intros (_ & _ & R3 & R4 & _ & R6). unfold mmap_addr. destruct (Z.eqb_spec addr 0) as [->|]; [|done].
  destruct (R6 0) as [Hu _]; [lia|]. done.
Qed.

(** The regions a loaded segment consists of. *)
Definition seg_regions (content : list Z) (base : Z) (p : phdr) (rs : list region) : Prop :=
  exists f g,
    let st := seg_start base p in
    let ed := seg_file_end base p in
    let file := Region st f (ed - st) (seg_prot p) (file_byte content (p_offset p - p_offset p mod 4096) (seg_read p)) in
    let bss := Region ed g (seg_end base p - ed) (seg_prot p) (fun _ => 0) in
    rs = if seg_end base p =? ed then [file] else [file; bss].

(** A segment in the user's memory: each byte is mapped with the segment's permissions, and
    is the file's or zero. *)
Definition seg_loaded {W} (k : kstate W) (content : list Z) (base : Z) (p : phdr) : Prop :=
  forall i, 0 <= i < p_memsz p -> exists pa,
    kwalk k (base + p_vaddr p + i) = Some (Xlat pa (has (seg_prot p) PROT_R) (has (seg_prot p) PROT_W)) /\
    guest (k_vm k) pa = if i <? p_filesz p then default 0 (content !! Z.to_nat (p_offset p + i)) else 0.

Lemma regions_loaded {W} (k : kstate W) a content base p rs :
  kspace k a -> seg_ok base p -> 0 <= base < 2 ^ 47 -> base mod 4096 = 0 ->
  seg_regions content base p rs -> Forall (region_ok k a) rs -> seg_loaded k content base p.
Proof.
  intros S Hs Hb Hbp (f & g & Hrs) HF i Hi. cbn zeta in Hrs.
  destruct (seg_parts base p Hs Hb Hbp) as (P1 & P2 & P3 & _ & _ & _ & P7 & P8).
  pose proof Hs as [So Sp Sr Ss Sv _ _]. unfold seg_read in P2.
  pose proof (Z.mod_pos_bound (p_offset p) 4096).
  destruct (Z.ltb_spec (base + p_vaddr p + i) (seg_file_end base p)) as [Hlt|Hge].
  - assert (region_ok k a (Region (seg_start base p) f (seg_file_end base p - seg_start base p) (seg_prot p)
              (file_byte content (p_offset p - p_offset p mod 4096) (seg_read p)))) as R.
    { subst rs. destruct (_ =? _); by apply Forall_cons in HF as [HF _]. }
    destruct (region_walk k a _ (base + p_vaddr p + i) S R) as [H1 H2].
    { unfold in_region. cbn. lia. }
    cbn in H1, H2. eexists. split; [exact H1|]. rewrite H2. unfold file_byte, seg_read.
    replace (base + p_vaddr p + i - seg_start base p <? p_filesz p + p_offset p mod 4096) with (i <? p_filesz p) by lia.
    replace (p_offset p - p_offset p mod 4096 + (base + p_vaddr p + i - seg_start base p)) with (p_offset p + i) by lia. done.
  - assert (region_ok k a (Region (seg_file_end base p) g (seg_end base p - seg_file_end base p) (seg_prot p) (fun _ => 0))) as R.
    { subst rs. destruct (Z.eqb_spec (seg_end base p) (seg_file_end base p)); [lia|].
      apply Forall_cons in HF as [_ HF]. by apply Forall_cons in HF as [HF _]. }
    destruct (region_walk k a _ (base + p_vaddr p + i) S R) as [H1 H2].
    { unfold in_region. cbn. lia. }
    cbn in H1, H2. eexists. split; [exact H1|]. rewrite H2.
    destruct (alignup_spec (p_vaddr p + p_filesz p)) as [_ A2]; [lia|]. unfold seg_file_end in Hge.
    by rewrite (proj2 (Z.ltb_ge _ _)) by lia.
Qed.

Lemma land_page v : 0 <= v < 2 ^ 64 -> Z.land v (u64 (-0x1000)) = v - v mod 4096.
Proof. intros H. rewrite <- aligndown_mod by done. unfold aligndown. by rewrite (u64_small v). Qed.

Section Load.
Context {W : Type} (os : host_os W) (fails : ioctl -> bool).
Hypothesis kvm_works : forall i, fails i = false.
Hypothesis os_documented : rw_documented os.
Hypothesis os_lseek_documented : lseek_documented os.
Context (h : Z) (content : list Z) (at_ : W -> Z -> Prop).
Hypothesis file : regular_file os h content at_.
Implicit Types k : kstate W.

Lemma mmap_room_pos addr len : user_range addr len -> len < 2 ^ 32 -> 0 < mmap_room addr len.
Proof using.
  intros R Hl. pose proof (table_room_nonneg addr len R). destruct R as (_ & _ & _ & R4 & _).
  destruct (chunk_size_request len ltac:(lia)) as [Hc _]. unfold request, mmap_room, PAGE_COST in *. lia.
Qed.

(** The file's part of a segment. *)
Lemma seg_file_run k a fd q base p :
  uspace k a -> reads h at_ k fd q -> 0 <= base < 2 ^ 47 -> base mod 4096 = 0 -> seg_ok base p ->
  let len := seg_file_end base p - seg_start base p in
  let cost := mmap_room (seg_start base p) len + 0x100 in
  cost <= room a ->
  exists f k' a',
    sys_mmap os fails (seg_start base p) (seg_read p) (seg_prot p) MAP_FIXED fd (p_offset p - p_offset p mod 4096) k =
      Ok (seg_start base p) k' /\
    step_ok k a k' a' cost (seg_start base p) (seg_file_end base p) /\
    region_ok k' a' (Region (seg_start base p) f len (seg_prot p)
      (file_byte content (p_offset p - p_offset p mod 4096) (seg_read p))) /\
    (exists q', reads h at_ k' fd q').
Proof using kvm_works os_documented os_lseek_documented file.
  intros U Hr Hb Hbp Hs len cost Hroom.
  destruct (seg_parts base p Hs Hb Hbp) as (P1 & P2 & P3 & P4 & P5 & P6 & P7 & P8).
  pose proof Hs as [So Sp Sr Ss Sv Sl Su]. pose proof (Z.mod_pos_bound (p_offset p) 4096) as Hpm.
  pose proof (Z.mod_le (p_offset p) 4096) as Hml.
  assert (user_range (seg_start base p) len) as Ru by (apply (user_subrange _ (seg_end base p) _ _ Su); (done || lia)).
  assert (len = alignup (seg_read p)) as Hlen by exact P1.
  pose proof Ru as (_ & _ & Ru0 & Ru1 & Ru2 & _). pose proof (mmap_addr_fixed k _ _ Ru) as Hfix.
  pose proof (file_mmap_run os fails kvm_works os_documented os_lseek_documented h content at_ file k a (seg_start base p)
    (seg_read p) (seg_prot p) MAP_FIXED fd (p_offset p - p_offset p mod 4096) q) as H. cbn zeta in H.
  change (has MAP_FIXED MAP_FIXED) with true in H. cbv iota in H. rewrite <- Hlen, Hfix in H.
  destruct H as (f & k' & a' & Hrun & S1 & G1 & _ & Hr1); try done; try lia.
  exists f, k', a'. split; [done|]. split; [|done].
  replace (seg_file_end base p) with (seg_start base p + len) by (unfold len; lia). done.
Qed.

(** The rest of its memory. *)
Lemma seg_bss_run k a base p :
  uspace k a -> 0 <= base < 2 ^ 47 -> base mod 4096 = 0 -> seg_ok base p ->
  let ed := seg_file_end base p in
  let len := seg_end base p - ed in
  0 < len -> mmap_room ed len <= room a ->
  exists g k' a', mmap ed len (seg_prot p) k = Ok ed k' /\ step_ok k a k' a' (mmap_room ed len) ed (seg_end base p) /\
    region_ok k' a' (Region ed g len (seg_prot p) (fun _ => 0)) /\ host (k_vm k') = host (k_vm k).
Proof using.
  intros U Hb Hbp Hs ed len Hl Hroom.
  destruct (seg_parts base p Hs Hb Hbp) as (P1 & P2 & P3 & P4 & P5 & P6 & P7 & P8).
  pose proof Hs as [So Sp Sr Ss Sv Sl Su].
  assert (user_range ed len) as Ru by (apply (user_subrange _ _ _ _ Su); unfold ed, len in *; (done || lia)).
  pose proof (mmap_step k a ed len (seg_prot p) U) as H. cbn zeta in H. rewrite (mmap_addr_fixed k _ _ Ru) in H.
  destruct H as (g & k' & a' & Hrun & S1 & G1 & _ & Hh); [done|unfold ed, len; lia|done|].
  exists g, k', a'. split; [done|]. split; [|done].
  replace (seg_end base p) with (ed + len) by (unfold ed, len; lia). done.
Qed.

Lemma reads_step k a k' a' fd q c T :
  reads h at_ k fd q -> step_on k a k' a' c T -> host (k_vm k') = host (k_vm k) -> reads h at_ k' fd q.
Proof using.
  intros Hr (_ & _ & (E1 & E2 & _) & _) E3. unfold reads, kernel_mode in *. by rewrite E1, E2, E3.
Qed.

Lemma load_segment_run k a fd q base buf c i :
  let p := phdr_at c i in
  uspace k a -> reads h at_ k fd q -> holds k a buf c -> 0 <= i -> phdr_off (i + 1) <= 4096 ->
  0 <= base < 2 ^ 47 -> base mod 4096 = 0 ->
  is_load p = true -> seg_ok base p -> seg_cost base p <= room a ->
  exists rs k' a', load_segment os fails fd base (buf + phdr_off i) k = Ok None k' /\
    step_ok k a k' a' (seg_cost base p) (seg_start base p) (seg_end base p) /\
    Forall (region_ok k' a') rs /\ seg_regions content base p rs /\ (exists q', reads h at_ k' fd q').
Proof using kvm_works os_documented os_lseek_documented file.
  intros p U Hr Hh Hi Hoff Hb Hbp Hld Hs Hroom. pose proof U as [[[_ W0] _] _].
  destruct (seg_parts base p Hs Hb Hbp) as (P1 & P2 & P3 & P4 & P5 & P6 & P7 & P8).
  pose proof Hs as [So Sp Sr Ss Sv Sl Su]. pose proof Su as (_ & _ & Su0 & _ & Su1 & _).
  assert (forall n o, 0 <= o -> o + Z.of_nat n <= 56 ->
    vload_n n (buf + phdr_off i + o) k = Ok (ld n c (phdr_off i + o)) k) as Hv.
  { intros n o Ho Hn. rewrite <- Z.add_assoc. unfold phdr_off, SIZEOF_EHDR, SIZEOF_PHDR in *. apply (holds_ld k a); (done || lia). }
  pose proof (Hv 4%nat 0 ltac:(lia) ltac:(lia)) as Hv0. rewrite !Z.add_0_r in Hv0.
  assert (0 <= (if seg_end base p =? seg_file_end base p then 0
           else mmap_room (seg_file_end base p) (seg_end base p - seg_file_end base p))) as Hc.
  { destruct (Z.eqb_spec (seg_end base p) (seg_file_end base p)); [done|]. apply Z.lt_le_incl, mmap_room_pos; [|lia].
    apply (user_subrange _ _ _ _ Su); (done || lia). }
  unfold seg_cost in *.
  destruct (seg_file_run k a fd q base p U Hr Hb Hbp Hs ltac:(lia)) as (f & k1 & a1 & Hrun1 & S1 & G1 & (q1 & Hr1)).
  pose proof S1 as (U1 & _ & _ & Q1 & _). pose proof U1 as [[[_ W1] _] _].
  unfold load_segment. rewrite (bind_ok _ _ _ _ _ Hv0). change (ld 4 c (phdr_off i)) with (p_type p).
  unfold is_load in Hld. rewrite Hld. cbn [negb].
  rewrite (bind_ok _ _ _ _ _ (Hv 4%nat 4 ltac:(lia) ltac:(lia))), (bind_ok _ _ _ _ _ (Hv 8%nat 8 ltac:(lia) ltac:(lia))),
    (bind_ok _ _ _ _ _ (Hv 8%nat 16 ltac:(lia) ltac:(lia))), (bind_ok _ _ _ _ _ (Hv 8%nat 32 ltac:(lia) ltac:(lia))),
    (bind_ok _ _ _ _ _ (Hv 8%nat 40 ltac:(lia) ltac:(lia))).
  change (ld 4 c (phdr_off i + 4)) with (p_flags p). change (ld 8 c (phdr_off i + 8)) with (p_offset p).
  change (ld 8 c (phdr_off i + 16)) with (p_vaddr p). change (ld 8 c (phdr_off i + 32)) with (p_filesz p).
  change (ld 8 c (phdr_off i + 40)) with (p_memsz p). cbn zeta.
  rewrite (u64_small (p_vaddr p + p_filesz p)), (u64_small (p_vaddr p + p_memsz p)) by lia.
  change (base + aligndown (p_vaddr p)) with (seg_start base p).
  change (base + alignup (p_vaddr p + p_filesz p)) with (seg_file_end base p).
  change (base + alignup (p_vaddr p + p_memsz p)) with (seg_end base p).
  rewrite low12_mod, land_page by lia. change (p_filesz p + p_offset p mod 4096) with (seg_read p).
  rewrite (u64_small (seg_start base p)), (u64_small (seg_file_end base p)), (u64_small (seg_end base p)), (u64_small (seg_read p)) by lia.
  fold (seg_prot p). rewrite (bind_ok _ _ _ _ _ Hrun1), (u64_small (seg_start base p)), Z.eqb_refl by lia. cbn [negb].
  unfold seg_regions. destruct (Z.eqb_spec (seg_end base p) (seg_file_end base p)) as [E|E].
  - eexists [_], k1, a1. split; [by destruct (_ <? _)|]. rewrite Z.add_0_r, E. split; [exact S1|].
    split; [apply Forall_singleton; exact G1|]. split; [|eauto]. by exists f, 0.
  - destruct (seg_bss_run k1 a1 base p U1 Hb Hbp Hs ltac:(lia) ltac:(lia)) as (g & k2 & a2 & Hrun2 & S2 & G2 & H2).
    rewrite (proj2 (Z.ltb_lt (p_filesz p) (p_memsz p))); cycle 1.
    { destruct (Z.eq_dec (p_filesz p) (p_memsz p)) as [E2|]; [|lia]. unfold seg_end, seg_file_end in E. by rewrite E2 in E. }
    rewrite (u64_small (seg_end base p - seg_file_end base p)) by lia.
    eexists [_; _], k2, a2. split; [cbn [negb]; rewrite (bind_ok _ _ _ _ _ Hrun2); by rewrite Z.eqb_refl|].
    split; [eapply step_trans; [exact W0|exact S1|exact S2|lia..]|]. split; [|split; [by exists f, g|]].
    + apply Forall_cons_2; [|apply Forall_singleton; exact G2]. eapply region_step; [exact W1|exact S2| |exact G1].
      unfold in_region. cbn. lia.
    + exists q1. by eapply reads_step.
Qed.

(** *** All program headers *)

Definition seg_in (base : Z) (p : phdr) (va : Z) : Prop :=
  is_load p = true /\ seg_start base p <= va < seg_end base p.
Definition touched (base : Z) (c : mem) (n va : Z) : Prop := exists j, 0 <= j < n /\ seg_in base (phdr_at c j) va.
(** The loadable segments are proper and do not share pages. *)
Definition segs_ok (base : Z) (c : mem) (n : Z) : Prop :=
  (forall j, 0 <= j < n -> is_load (phdr_at c j) = true -> seg_ok base (phdr_at c j)) /\
  (forall i j va, 0 <= i < n -> 0 <= j < n -> seg_in base (phdr_at c i) va -> seg_in base (phdr_at c j) va -> i = j).
Lemma segs_ok_le base c n m : segs_ok base c n -> m <= n -> segs_ok base c m.
Proof using.
  intros [H1 H2] Hle. split; [intros j Hj; apply H1; lia|]. intros i j va Hi Hj. apply H2; lia.
Qed.
Definition phdr_cost (base : Z) (p : phdr) : Z := if is_load p then seg_cost base p else 0.
Fixpoint load_cost (base : Z) (c : mem) (i : Z) (n : nat) : Z :=
  match n with O => 0 | S n' => phdr_cost base (phdr_at c i) + load_cost base c (i + 1) n' end.

Definition all_loaded k a (base : Z) (c : mem) (n : Z) : Prop :=
  forall j, 0 <= j < n -> is_load (phdr_at c j) = true ->
    exists rs, Forall (region_ok k a) rs /\ seg_regions content base (phdr_at c j) rs.

Lemma seg_regions_in base p rs r va :
  0 <= base < 2 ^ 47 -> base mod 4096 = 0 -> is_load p = true -> seg_ok base p ->
  seg_regions content base p rs -> r ∈ rs -> in_region r va -> seg_in base p va.
Proof using.
  intros Hb Hbp Hl Hs (f & g & ->) Hr Hva. cbn zeta in Hr.
  destruct (seg_parts base p Hs Hb Hbp) as (_ & _ & P3 & _). split; [done|].
  destruct (_ =? _); repeat (apply elem_of_cons in Hr as [->|Hr]; [unfold in_region in Hva; cbn in Hva; lia|]);
    by apply not_elem_of_nil in Hr.
Qed.

Lemma all_loaded_step k a k' a' base c n cost (T : Z -> Prop) :
  wf a -> 0 <= base < 2 ^ 47 -> base mod 4096 = 0 -> segs_ok base c n -> step_on k a k' a' cost T ->
  (forall va, touched base c n va -> ~ T va) -> all_loaded k a base c n -> all_loaded k' a' base c n.
Proof using.
  intros W0 Hb Hbp [Hs _] S Ht H j Hj Hl. destruct (H j Hj Hl) as (rs & HF & Hr). exists rs. split; [|done].
  rewrite Forall_forall in HF |- *. intros r Hin. eapply region_step; [exact W0|exact S| |by apply HF].
  intros va Hva. apply Ht. exists j. split; [done|]. eapply seg_regions_in; eauto.
Qed.

Definition seg_body (fd base e_phnum : Z) (st : Z * Z) : cmd (kstate W) ((Z * Z) + option Z) :=
  let '(i, phdr) := st in
  if i <? e_phnum then
    r ← load_segment os fails fd base phdr;
    match r with
    | Some e => mret (inr (Some e))
    | None => mret (inl (i + 1, phdr + SIZEOF_PHDR))
    end
  else mret (inr None).

(** One header, loadable or not. *)
Lemma seg_body_run k a fd q base buf c i N :
  uspace k a -> reads h at_ k fd q -> holds k a buf c -> 0 <= i < N -> phdr_off N <= 4096 ->
  0 <= base < 2 ^ 47 -> base mod 4096 = 0 -> segs_ok base c N -> all_loaded k a base c i ->
  phdr_cost base (phdr_at c i) <= room a ->
  exists k' a', seg_body fd base N (i, buf + phdr_off i) k = Ok (inl (i + 1, buf + phdr_off (i + 1))) k' /\
    step_on k a k' a' (phdr_cost base (phdr_at c i)) (seg_in base (phdr_at c i)) /\
    all_loaded k' a' base c (i + 1) /\ (exists q', reads h at_ k' fd q').
Proof using kvm_works os_documented os_lseek_documented file.
  intros U Hr Hh Hi HN Hb Hbp Hs Hal Hroom. pose proof U as [[[_ W0] _] _]. unfold seg_body, phdr_cost in *.
  rewrite (proj2 (Z.ltb_lt _ _)) by lia.
  assert (buf + phdr_off i + SIZEOF_PHDR = buf + phdr_off (i + 1)) as Hnext by (unfold phdr_off, SIZEOF_PHDR; lia).
  assert (phdr_off (i + 1) <= 4096) as Ho by (unfold phdr_off, SIZEOF_PHDR, SIZEOF_EHDR in *; lia).
  destruct (is_load (phdr_at c i)) eqn:El.
  - destruct (load_segment_run k a fd q base buf c i) as (rs & k' & a' & Hrun & S1 & HF & Hrs & Hr1); try done; try lia.
    { apply Hs; (done || lia). }
    exists k', a'. rewrite (bind_ok _ _ _ _ _ Hrun), Hnext. split; [done|].
    assert (step_on k a k' a' (seg_cost base (phdr_at c i)) (seg_in base (phdr_at c i))) as S2.
    { destruct S1 as (A1 & A2 & A3 & A4 & A5). do 4 (split; [done|]). intros vb Hvb Hn. apply A5; [done|].
      intros Hv. apply Hn. by split. }
    split; [done|]. split; [|done]. intros j Hj Hl. destruct (Z.eq_dec j i) as [->|Hne]; [eauto|].
    assert (segs_ok base c i) as Hsi by (apply (segs_ok_le _ _ N); (done || lia)).
    apply (all_loaded_step k a k' a' base c i _ _ W0 Hb Hbp Hsi S2); [|done|lia|done].
    intros va (j' & Hj' & Hin) Hin'. assert (j' = i) by (apply (proj2 Hs j' i va); (done || lia)). lia.
  - exists k, a. assert (load_segment os fails fd base (buf + phdr_off i) k = Ok None k) as Hrun.
    { unfold load_segment. erewrite bind_ok; [|apply (holds_ld k a buf c); [done|unfold phdr_off, SIZEOF_EHDR, SIZEOF_PHDR in *; lia..]].
      change (ld 4 c (phdr_off i)) with (p_type (phdr_at c i)). unfold is_load in El. by rewrite El. }
    rewrite (bind_ok _ _ _ _ _ Hrun), Hnext. split; [done|]. split; [|split; [|eauto]].
    + by apply step_on_refl.
    + intros j Hj Hl. destruct (Z.eq_dec j i) as [->|]; [by rewrite El in Hl|]. apply Hal; (done || lia).
Qed.

Lemma load_cost_pos base c n : forall i,
  segs_ok base c (i + Z.of_nat n) -> 0 <= i -> 0 <= base < 2 ^ 47 -> base mod 4096 = 0 -> 0 <= load_cost base c i n.
Proof using.
  induction n as [|n IH]; intros i Hs Hi Hb Hbp; [done|]. cbn [load_cost].
  assert (0 <= load_cost base c (i + 1) n) as Hrest.
  { apply IH; try done; [|lia]. replace (i + 1 + Z.of_nat n) with (i + Z.of_nat (S n)) by lia. done. }
  enough (0 <= phdr_cost base (phdr_at c i)) by lia. unfold phdr_cost. destruct (is_load _) eqn:El; [|done].
  pose proof (proj1 Hs i ltac:(lia) El) as So. destruct (seg_parts base _ So Hb Hbp) as (P1 & P2 & P3 & P4 & P5 & P6 & P7 & P8).
  pose proof So as [_ _ _ _ _ Sl Su]. unfold seg_cost.
  pose proof (mmap_room_pos (seg_start base (phdr_at c i)) (seg_file_end base (phdr_at c i) - seg_start base (phdr_at c i))
    ltac:(apply (user_subrange _ _ _ _ Su); (done || lia)) ltac:(lia)) as H1.
  destruct (Z.eqb_spec (seg_end base (phdr_at c i)) (seg_file_end base (phdr_at c i))) as [E|E]; [lia|].
  pose proof (mmap_room_pos (seg_file_end base (phdr_at c i)) (seg_end base (phdr_at c i) - seg_file_end base (phdr_at c i))
    ltac:(apply (user_subrange _ _ _ _ Su); (done || lia)) ltac:(lia)) as H2. lia.
Qed.

Lemma load_loop fd base buf c N n : forall i k a q,
  uspace k a -> reads h at_ k fd q -> holds k a buf c -> 0 <= i -> i + Z.of_nat n = N -> phdr_off N <= 4096 ->
  0 <= base < 2 ^ 47 -> base mod 4096 = 0 -> segs_ok base c N -> all_loaded k a base c i ->
  load_cost base c i n <= room a ->
  exists k' a', run (mbody (seg_body fd base N)) (S n) ((i, buf + phdr_off i), k) = inr (Ok None k') /\
    step_on k a k' a' (load_cost base c i n) (touched base c N) /\ all_loaded k' a' base c N /\
    (exists q', reads h at_ k' fd q').
Proof using kvm_works os_documented os_lseek_documented file.
  induction n as [|n IH]; intros i k a q U Hr Hh Hi Hn HN Hb Hbp Hs Hal Hroom; pose proof U as [[[_ W0] _] _].
  - exists k, a. replace i with N in * by lia. split; [apply mbody_done; unfold seg_body; by rewrite (proj2 (Z.ltb_ge _ _)) by lia|].
    split; [by apply step_on_refl|by eauto].
  - cbn [load_cost] in *. 
    assert (0 <= load_cost base c (i + 1) n) as Hp.
    { apply load_cost_pos; try done; [|lia]. by replace (i + 1 + Z.of_nat n) with N by lia. }
    destruct (seg_body_run k a fd q base buf c i N) as (k1 & a1 & Hrun1 & S1 & Hal1 & (q1 & Hr1)); try done; try lia.
    pose proof S1 as (U1 & _ & _ & Q1 & _).
    destruct (IH (i + 1) k1 a1 q1) as (k2 & a2 & Hrun2 & S2 & Hal2 & Hr2); try done; try lia.
    { by eapply holds_step. }
    exists k2, a2. split; [erewrite mbody_next; [exact Hrun2|exact Hrun1]|]. split; [|done].
    eapply step_on_trans; [exact W0|exact S1|exact S2| |done]. intros va Hva. exists i. split; [lia|done].
Qed.

(** *** Reading the header *)

(** A block of kernel memory, which is zero and no table. *)
Lemma take_block k a len :
  uspace k a -> 0 < len < 2 ^ 32 -> chunk_size len <= room a ->
  exists p k' a', on_heap (kmalloc len MALLOC_NO_ALIGN) k = Ok p k' /\
    step_on k a k' a' (chunk_size len) (fun _ => False) /\ host (k_vm k') = host (k_vm k) /\
    KERNEL_BASE_OFFSET <= p /\ p + len <= KERNEL_BASE_OFFSET + MEM_SIZE /\
    (forall x, rng (p - KERNEL_BASE_OFFSET) len x -> own a x /\ guest (k_vm k') x = 0 /\ used a' x /\ ~ kentry k' x).
Proof using.
  intros [[I S] Hs] Hlen Hroom. pose proof I as [_ W0].
  destruct (chunk_size_request len ltac:(lia)) as [Hreq Hcs]. pose proof Hreq as [Hc0 Hc1].
  destruct (malloc_room (chunk_size len) a) as (p & a' & Hm & _ & Hr & _); [unfold room in Hroom; lia|].
  destruct (kmalloc_some len MALLOC_NO_ALIGN (heap_of k) a p a' I ltac:(lia) ltac:(by left) Hm) as ([m' ar'] & Hrun & I' & Hz & Hf).
  destruct (a_malloc_some _ _ _ _ _ W0 Hreq Hm) as (Hl & Hb & He & _). pose proof I' as [_ W'].
  assert (a_live a ⊆ a_live a') as Hsub by (intros d; rewrite Hl; by right).
  assert (allocs a a') as Ha.
  { split; [intros x; by apply own_mono|done|]. unfold sized. rewrite Hl. by apply Forall_cons_2. }
  destruct (aspace_alloc (guest (k_vm k)) a m' a' (cr3_of k) W0 S Hf (fun u => usable_allocs a a' u Ha) He Ha) as (S' & G & L & N).
  assert ((p - OFF_NEXT, chunk_size len) ∈ a_live a') as Hin by (rewrite Hl; left).
  destruct (wf_within a' _ W' ltac:(apply elem_of_app; right; exact Hin)) as [B1 B2].
  pose proof (wf_base _ W'). pose proof (wf_top _ W'). pose proof (wf_end _ W'). cbn [fst snd] in B1, B2.
  unfold OFF_NEXT, KERNEL_PAGING_SIZE in *.
  exists p, (put_heap (Heap m' ar') k), a'. split; [by apply on_heap_ok|]. split; [|split; [done|split; [lia|split; [lia|]]]].
  - assert (uspace (put_heap (Heap m' ar') k) a') as U' by (split; [by split|by apply Ha]).
    split; [done|]. split; [by apply grows_keeps|]. split; [done|]. split; [split; [unfold room in *; lia|]|intros vb Hvb _; by apply L].
    exact (isolated_keeps k a _ a' _ U' eq_refl (grows_keeps _ _ _ _ _ W0 G) (fun _ H => match H with end) L).
  - intros x Hx.
    assert (own a x) as Ho by (apply (fresh_own a a' _ x W0 W' Hl Hb He); unfold rng in *; cbn; lia).
    split; [done|]. split; [by apply Hz|]. split; [|intros Hen; by apply (N x Hen)].
    right. exists (p - 16, chunk_size len). split; [done|]. unfold rng, OFF_NEXT in *. cbn. lia.
Qed.

Definition header : mem := file_byte content 0 0x1000.

Lemma header_run k a fd :
  uspace k a -> reads h at_ k fd 0 -> chunk_size 0x1000 + 0x80 <= room a ->
  exists buf k' a',
    (forall B (f : Z -> cmd (kstate W) B),
       (buf ← on_heap (kmalloc 0x1000 MALLOC_NO_ALIGN); pa ← on_heap (physical buf);
        hp_read os fails fd pa 0x1000 ;; f buf) k = f buf k') /\
    step_on k a k' a' (chunk_size 0x1000 + 0x80) (fun _ => False) /\ holds k' a' buf header /\
    (exists q, reads h at_ k' fd q).
Proof using kvm_works os_documented file.
  intros U Hr Hroom. pose proof U as [[[_ W0] _] _]. pose proof (eq_refl : chunk_size 24 = 0x80) as C24.
  destruct (take_block k a 0x1000 U ltac:(lia) ltac:(lia)) as (buf & k1 & a1 & Hrun1 & S1 & H1 & B1 & B2 & Hby).
  pose proof S1 as (U1 & _ & _ & Q1 & _). pose proof U1 as [[[_ W1] _] _].
  assert (reads h at_ k1 fd 0) as Hr1 by (by eapply reads_step).
  destruct (read_space os fails kvm_works os_documented h content at_ file k1 a1 fd 0 (buf - KERNEL_BASE_OFFSET) 0x1000)
    as (k2 & a2 & Hrun2 & U2 & K2 & L2 & Q2 & A2 & Hr2 & Hg2); try done; try lia.
  { intros x Hx. by apply Hby. }
  exists buf, k2, a2. split.
  { intros B f. rewrite (bind_ok _ _ _ _ _ Hrun1), (bind_ok _ _ _ _ _ (physical_on buf k1 ltac:(lia))).
    by rewrite (bind_ok _ _ _ _ _ Hrun2). }
  split; [|split; [|eauto]].
  - destruct S1 as (_ & K1 & M1 & _ & L1).
    assert (kkeeps k a k2 a2 (fun _ => False)) as K.
    { unfold kkeeps. eapply keeps_fresh; [exact W0| |eapply keeps_trans; [exact W0|exact K1|]].
      2:{ rewrite <- (same_cr3 _ _ M1). exact K2. }
      intros x [[]|Hx]. right. by apply Hby. }
    assert (same_machine k k2) as M by (eapply same_machine_trans; [exact M1|by apply alike_same]).
    assert (forall vb, user_va vb -> kleaf k2 vb = kleaf k vb) as L by (intros vb Hb; by rewrite L2, L1 by tauto).
    split; [done|]. split; [done|]. split; [done|]. split; [split; [lia|]|auto].
    exact (isolated_keeps k a k2 a2 _ U2 (same_cr3 _ _ M) K (fun _ H => match H with end) L).
  - do 2 (split; [done|]). intros i Hi x. destruct (Hby x) as (_ & Hz & Hu & Hn); [unfold x, rng; lia|].
    pose proof K2 as [KA _ _ _ KN]. split; [|split; [by apply (used_allocs a1)|]].
    + rewrite Hg2 by done. rewrite file_put; (done || lia || apply file || (unfold x, rng; lia) || idtac).
      unfold header. f_equal. unfold x. lia.
    + unfold kentry. rewrite (same_cr3 _ _ (alike_same _ _ A2)). intros Hx. destruct (KN x Hx) as [|Ho]; [done|].
      by apply (used_not_own a1 x).
Qed.

(** The bytes [l] are at [o]. *)
Fixpoint matches (c : mem) (o : Z) (l : list Z) : bool :=
  match l with [] => true | b :: l' => (u8 (c o) =? b) && matches c (o + 1) l' end.

Lemma same_bytes_run k a buf c l : holds k a buf c -> forall o,
  0 <= o -> o + Z.of_nat (length l) <= 4096 -> same_bytes (buf + o) l k = Ok (matches c o l) k.
Proof using.
  pose proof (eq_refl : MEM_SIZE = 0x400000) as Hms. pose proof (eq_refl : KERNEL_BASE_OFFSET = 2 ^ 39) as Hkb.
  intros (H1 & H2 & H3). induction l as [|b l IH]; intros o Ho Hn; [done|].
  cbn [length] in Hn. cbn [same_bytes matches]. destruct (H3 o ltac:(lia)) as [Hb _]. cbn zeta in Hb.
  rewrite (bind_ok _ _ _ _ _ (vload_kernel k (buf + o) ltac:(lia) ltac:(lia))).
  replace (buf + o - KERNEL_BASE_OFFSET) with (buf - KERNEL_BASE_OFFSET + o) by lia. rewrite Hb.
  destruct (u8 (c o) =? b); [|done]. rewrite (u64_small (buf + o + 1)) by lia. rewrite <- Z.add_assoc. apply IH; lia.
Qed.

(** *** [load_binary] *)

Definition elf_type (c : mem) : Z := ld 2 c 16.
Definition elf_entry (c : mem) : Z := ld 8 c 24.
Definition elf_phnum (c : mem) : Z := ld 2 c 56.
Definition elf_base (c : mem) : Z := if elf_type c =? ET_DYN then 0x0000555555554000 else 0.
(** What the loader asks of the header. *)
Record elf_ok (c : mem) : Prop := ElfOk {
  eo_ident : matches c 0 ELF_IDENT = true;
  eo_type : elf_type c = ET_EXEC \/ elf_type c = ET_DYN;
  eo_phoff : ld 8 c 32 = SIZEOF_EHDR;
  eo_phentsize : ld 2 c 54 = SIZEOF_PHDR;
  eo_phnum : phdr_off (elf_phnum c) <= 4096
}.

Definition STACK_BASE : Z := 0x00007ffffffff000.
Definition STACK_SIZE : Z := 0x40000.
Definition on_stack (va : Z) : Prop := STACK_BASE - STACK_SIZE <= va < STACK_BASE.
Lemma stack_range : user_range (STACK_BASE - STACK_SIZE) STACK_SIZE.
Proof using.
  do 2 (split; [done|]). unfold STACK_BASE, STACK_SIZE. do 3 (split; [lia|]). intros va Hva. split; [|lia].
  apply user_range_ok; [lia|]. split; [unfold KERNEL_PAGING_SIZE; lia|].
  assert (255 = va / 2 ^ 39) as <- by (apply (Z.div_unique _ _ _ (va - 255 * 2 ^ 39)); lia). done.
Qed.

Lemma stack_run k a :
  uspace k a -> mmap_room (STACK_BASE - STACK_SIZE) STACK_SIZE <= room a ->
  exists f k' a', mmap (STACK_BASE - STACK_SIZE) STACK_SIZE PROT_RW k = Ok (STACK_BASE - STACK_SIZE) k' /\
    step_on k a k' a' (mmap_room (STACK_BASE - STACK_SIZE) STACK_SIZE) on_stack /\
    region_ok k' a' (Region (STACK_BASE - STACK_SIZE) f STACK_SIZE PROT_RW (fun _ => 0)) /\
    (forall x, rng f STACK_SIZE x -> own a x) /\ host (k_vm k') = host (k_vm k).
Proof using.
  intros U Hroom. pose proof (mmap_step k a (STACK_BASE - STACK_SIZE) STACK_SIZE PROT_RW U) as H. cbn zeta in H.
  rewrite (mmap_addr_fixed k _ _ stack_range) in H.
  destruct H as (f & k' & a' & Hrun & (S1 & S2 & S3 & S4 & S5) & G & Ho); [exact stack_range|done|done|].
  exists f, k', a'. split; [done|]. split; [|done]. do 4 (split; [done|]). intros vb Hb Hn. apply S5; [done|].
  unfold on_stack in Hn. lia.
Qed.

(** Every segment is in memory, outside the bytes [Q]. *)
Definition loaded_off k a (Q : Z -> Prop) (base : Z) (c : mem) (n : Z) : Prop :=
  forall j, 0 <= j < n -> is_load (phdr_at c j) = true ->
    exists rs, Forall (region_ok k a) rs /\ seg_regions content base (phdr_at c j) rs /\
      (forall r x, r ∈ rs -> rng (rg_frame r) (rg_len r) x -> ~ Q x).

(** Memory that was free before is in no segment. *)
Lemma all_loaded_off k a k' a' (Q : Z -> Prop) base c n cost (T : Z -> Prop) :
  wf a -> 0 <= base < 2 ^ 47 -> base mod 4096 = 0 -> segs_ok base c n -> step_on k a k' a' cost T ->
  (forall va, touched base c n va -> ~ T va) -> (forall x, Q x -> own a x) ->
  all_loaded k a base c n -> loaded_off k' a' Q base c n.
Proof using.
  intros W0 Hb Hbp Hs S Ht HQ H j Hj Hl. destruct (H j Hj Hl) as (rs & HF & Hr). exists rs.
  rewrite !Forall_forall in *. split; [|split; [done|]].
  - intros r Hin. eapply region_step; [exact W0|exact S| |by apply HF].
    intros va Hva. apply Ht. exists j. split; [done|]. eapply seg_regions_in; eauto. by apply Hs.
  - intros r x Hin Hx Hq. apply (used_not_own a x W0); [|by apply HQ]. by apply (pages_used a _ _ _ (ro_pages _ _ _ (HF r Hin))).
Qed.

(** The free heap the loader needs at most. *)
Definition elf_cost : Z :=
  chunk_size 0x1000 + 0x80 + load_cost (elf_base header) header 0 (Z.to_nat (elf_phnum header)) +
  mmap_room (STACK_BASE - STACK_SIZE) STACK_SIZE.

Lemma elf_base_page c : 0 <= elf_base c < 2 ^ 47 /\ elf_base c mod 4096 = 0.
Proof using. unfold elf_base. destruct (_ =? _); split; (lia || reflexivity). Qed.
Lemma elf_costs_pos :
  segs_ok (elf_base header) header (elf_phnum header) ->
  0 <= load_cost (elf_base header) header 0 (Z.to_nat (elf_phnum header)) /\ 0 <= elf_cost.
Proof using.
  intros Hs. destruct (elf_base_page header) as [Hb Hbp]. pose proof (mmap_room_pos _ _ stack_range ltac:(done)) as Hsp.
  pose proof (ld_range 2 header 56) as Hn. change (ld 2 header 56) with (elf_phnum header) in Hn.
  assert (0 <= load_cost (elf_base header) header 0 (Z.to_nat (elf_phnum header))) as Hlc.
  { apply load_cost_pos; [|lia|exact Hb|exact Hbp]. by rewrite Z2Nat.id by lia. }
  split; [done|]. unfold elf_cost. pose proof (eq_refl : chunk_size 0x1000 = 0x1080). lia.
Qed.

(** The checks of the header pass. *)
Lemma load_binary_checks k a fd :
  uspace k a -> reads h at_ k fd 0 -> chunk_size 0x1000 + 0x80 <= room a -> elf_ok header ->
  exists buf k' a',
    load_binary os fails fd k =
      (e ← mloop (seg_body fd (elf_base header) (elf_phnum header)) (0, buf + SIZEOF_EHDR);
       match e with
       | Some e => mret (inl e)
       | None =>
           r ← mmap (STACK_BASE - STACK_SIZE) STACK_SIZE PROT_RW;
           if negb (r =? STACK_BASE - STACK_SIZE) then mret (inl (- ENOMEM))
           else mret (inr (Process (elf_base header) (elf_entry header) STACK_BASE STACK_SIZE (STACK_BASE - 0x1000)))
       end) k' /\
    step_on k a k' a' (chunk_size 0x1000 + 0x80) (fun _ => False) /\ holds k' a' buf header /\
    (exists q, reads h at_ k' fd q).
Proof using kvm_works os_documented file.
  intros U Hr Hroom [E1 E2 E3 E4 E5].
  destruct (header_run k a fd U Hr Hroom) as (buf & k1 & a1 & Hrun1 & S1 & Hh & Hr1).
  exists buf, k1, a1. split; [|done]. unfold load_binary. rewrite Hrun1.
  pose proof (same_bytes_run k1 a1 buf header ELF_IDENT Hh 0 ltac:(lia) ltac:(cbn; lia)) as Hid.
  rewrite Z.add_0_r, E1 in Hid. rewrite (bind_ok _ _ _ _ _ Hid). cbn [negb].
  assert (forall n o, 0 <= o -> o + Z.of_nat n <= 4096 -> vload_n n (buf + o) k1 = Ok (ld n header o) k1) as Hv
    by (intros n o Ho Hn; by apply (holds_ld k1 a1)).
  rewrite (bind_ok _ _ _ _ _ (Hv 8%nat 24 ltac:(lia) ltac:(lia))), (bind_ok _ _ _ _ _ (Hv 2%nat 16 ltac:(lia) ltac:(lia))).
  fold (elf_type header). fold (elf_entry header).
  replace (negb (elf_type header =? ET_EXEC) && negb (elf_type header =? ET_DYN)) with false by (unfold ET_EXEC, ET_DYN in *; lia).
  rewrite (bind_ok _ _ _ _ _ (Hv 8%nat 32 ltac:(lia) ltac:(lia))), E3, Z.eqb_refl. cbn [negb].
  rewrite (bind_ok _ _ _ _ _ (Hv 2%nat 54 ltac:(lia) ltac:(lia))), E4, Z.eqb_refl. cbn [negb].
  rewrite (bind_ok _ _ _ _ _ (Hv 2%nat 56 ltac:(lia) ltac:(lia))). fold (elf_phnum header).
  pose proof (ld_range 2 header 56) as Hn. fold (elf_phnum header) in Hn.
  change (SIZEOF_EHDR + SIZEOF_PHDR * elf_phnum header) with (phdr_off (elf_phnum header)).
  rewrite u64_small by (unfold phdr_off, SIZEOF_EHDR, SIZEOF_PHDR in *; lia).
  rewrite (proj2 (Z.ltb_ge _ _)) by lia. reflexivity.
Qed.

Lemma load_binary_run k a fd :
  let base := elf_base header in
  let n := elf_phnum header in
  uspace k a -> reads h at_ k fd 0 -> elf_ok header -> segs_ok base header n ->
  (forall va, touched base header n va -> ~ on_stack va) -> elf_cost <= room a ->
  exists f k' a', load_binary os fails fd k =
      Ok (inr (Process base (elf_entry header) STACK_BASE STACK_SIZE (STACK_BASE - 0x1000))) k' /\
    step_on k a k' a' elf_cost (fun va => touched base header n va \/ on_stack va) /\
    loaded_off k' a' (rng f STACK_SIZE) base header n /\
    region_ok k' a' (Region (STACK_BASE - STACK_SIZE) f STACK_SIZE PROT_RW (fun _ => 0)) /\
    (forall x, rng f STACK_SIZE x -> own a x).
Proof using kvm_works os_documented os_lseek_documented file.
  intros base n U Hr He Hs Hst Hroom. pose proof U as [[[_ W0] _] _].
  destruct (elf_costs_pos Hs) as [Hlc _]. destruct (elf_base_page header) as [Hb Hbp]. unfold elf_cost in *.
  pose proof (mmap_room_pos _ _ stack_range ltac:(done)) as Hsp.
  pose proof (ld_range 2 header 56) as Hn. change (ld 2 header 56) with n in Hn.
  fold base n in Hroom, Hlc, Hb, Hbp |- *.
  destruct (load_binary_checks k a fd U Hr ltac:(lia) He) as (buf & k1 & a1 & -> & S1 & Hh & (q & Hr1)).
  pose proof S1 as (U1 & _ & _ & Q1 & _). pose proof U1 as [[[_ W1] _] _].
  destruct (load_loop fd base buf header n (Z.to_nat n) 0 k1 a1 q) as (k2 & a2 & Hrun2 & S2 & Hal & _); try done; try lia.
  { apply He. }
  { intros j Hj. lia. }
  pose proof S2 as (U2 & _ & _ & Q2 & _). pose proof U2 as [[[_ W2] _] _].
  destruct (stack_run k2 a2 U2 ltac:(lia)) as (f & k3 & a3 & Hrun3 & S3 & G3 & O3 & _).
  exists f, k3, a3. split; [|split; [|split; [|split; [done|]]]].
  - erewrite bind_ok; [|eapply mloop_result; [exact Hrun2|lia]].
    cbv beta iota. rewrite (bind_ok _ _ _ _ _ Hrun3), Z.eqb_refl. reflexivity.
  - eapply step_on_trans; [exact W0| |exact S3| |tauto].
    + eapply (step_on_trans _ _ _ _ _ _ _ _ _ _ (fun va => touched base header n va)); [exact W0|exact S1|exact S2|tauto|tauto].
    + tauto.
  - eapply all_loaded_off; [exact W2|exact Hb|exact Hbp|exact Hs|exact S3|exact Hst|exact O3|exact Hal].
  - intros x Hx. destruct S1 as (_ & K1 & _), S2 as (_ & K2 & _).
    apply (ta_own _ _ (kp_allocs _ _ _ _ _ _ K1)), (ta_own _ _ (kp_allocs _ _ _ _ _ _ K2)). by apply O3.
Qed.
End Load.

(** ** The properties *)


(** A file that does not start as a 64-bit ELF file is refused with ENOEXEC; the pages of the
    user stay as they are. *)
Theorem load_binary_rejects {W} (os : host_os W) fails h content at_ (k : kstate W) a fd :
  (forall i, fails i = false) -> rw_documented os -> regular_file os h content at_ ->
  uspace k a -> reads h at_ k fd 0 -> chunk_size 0x1000 + 0x80 <= room a ->
  matches (header content) 0 ELF_IDENT = false ->
  exists k' a', load_binary os fails fd k = Ok (inl (- ENOEXEC)) k' /\ uspace k' a' /\ (isolated k a -> isolated k' a') /\
    (forall vb, user_va vb -> kwalk k' vb = kwalk k vb).
Proof.
  intros Hok Hdoc Hf U Hr Hroom Hm.
  destruct (header_run os fails Hok Hdoc h content at_ Hf k a fd U Hr Hroom) as (buf & k1 & a1 & Hrun1 & (U1 & _ & _ & [_ I1] & L1) & Hh & _).
  exists k1, a1. split; [|split; [done|split; [done|]]].
  - unfold load_binary. rewrite Hrun1.
    pose proof (same_bytes_run k1 a1 buf (header content) ELF_IDENT Hh 0 ltac:(lia) ltac:(cbn; lia)) as Hid.
    rewrite Z.add_0_r, Hm in Hid. by rewrite (bind_ok _ _ _ _ _ Hid).
  - intros vb Hv. apply (kwalk_same k a k1 a1); [apply U|apply U1|done|]. apply L1; [done|tauto].
Qed.

(** ** A concrete program *)

Fixpoint le (n : nat) (v : Z) : list Z := match n with O => [] | S n' => v mod 256 :: le n' (v / 256) end.
Definition ex_phdr (flags off vaddr filesz memsz : Z) : list Z :=
  le 4 PT_LOAD ++ le 4 flags ++ le 8 off ++ le 8 vaddr ++ le 8 vaddr ++ le 8 filesz ++ le 8 memsz ++ le 8 4096.
(** Two vectors of strings for an address [p]: "p" and "xy", and "E". *)
Definition ex_vectors (p : Z) : list Z :=
  le 8 (p + 40) ++ le 8 (p + 42) ++ le 8 0 ++ le 8 (p + 45) ++ le 8 0 ++ [112; 0; 120; 121; 0; 69; 0].
Definition ARGS_AT : Z := 0x10000000.
(** Four bytes of code at 0x4000b0 and two bytes of data at 0x4010b4 with 4094 zeros; the
    file also holds vectors of strings, at offset 182. *)
Definition ex_elf : list Z :=
  ELF_IDENT ++ le 2 ET_EXEC ++ le 2 62 ++ le 4 1 ++ le 8 0x4000b0 ++ le 8 64 ++ le 8 0 ++ le 4 0 ++ le 2 64 ++ le 2 56 ++ le 2 2 ++ le 6 0
  ++ ex_phdr 5 0xb0 0x4000b0 4 4 ++ ex_phdr 6 0xb4 0x4010b4 2 0x1000
  ++ [0x90; 0x90; 0x90; 0xf4] ++ [1; 2] ++ ex_vectors ARGS_AT.
Definition ex_header : mem := header ex_elf.

Lemma ex_elf_bytes : Forall (fun b => 0 <= b < 256) ex_elf.
Proof.
  apply (Forall_impl (fun b => (0 <=? b) && (b <? 256) = true)); [|intros b Hb; lia].
  apply Forall_forall. intros b Hb%list_elem_of_In. revert b Hb. rewrite <- forallb_forall. vm_compute. reflexivity.
Qed.
Lemma low_user_range addr len :
  addr mod 4096 = 0 -> len mod 4096 = 0 -> KERNEL_PAGING_SIZE <= addr -> 0 < len -> addr + len <= 2 ^ 38 -> user_range addr len.
Proof.
  intros Ha Hl H0 H1 H2. unfold KERNEL_PAGING_SIZE in *. do 2 (split; [done|]). do 3 (split; [lia|]). intros va Hva. split; [|lia].
  apply user_range_ok; [lia|]. split; [unfold KERNEL_PAGING_SIZE; lia|]. rewrite Z.div_small by lia. done.
Qed.
Lemma ex_segs : segs_ok 0 ex_header 2.
Proof.
  assert (forall j, 0 <= j < 2 -> j = 0 \/ j = 1) as Hj by lia.
  split.
  - intros j [->| ->]%Hj _.
    all: split; [vm_compute; split; [discriminate|reflexivity]|vm_compute; reflexivity|vm_compute; reflexivity
                |vm_compute; split; discriminate|vm_compute; split; [discriminate|reflexivity]|vm_compute; reflexivity|].
    all: apply low_user_range; vm_compute; (reflexivity || discriminate).
  - intros i j va [->| ->]%Hj [->| ->]%Hj [_ H1] [_ H2]; try done; exfalso.
    all: change (0x400000 <= va < 0x401000) in H1 || change (0x401000 <= va < 0x403000) in H1.
    all: change (0x400000 <= va < 0x401000) in H2 || change (0x401000 <= va < 0x403000) in H2.
    all: lia.
Qed.


Lemma load_binary_rejects_witness :
  exists k', load_binary (file_os ex_file) (fun _ => false) 0 file_kstate = Ok (inl (- ENOEXEC)) k'.
Proof.
  destruct (load_binary_rejects (file_os ex_file) (fun _ => false) 0 ex_file eq file_kstate empty_aheap 0) as (k' & a' & H1 & _).
  - done.
  - exact (file_os_documented ex_file ex_file_bytes).
  - exact (file_os_file ex_file 0 ex_file_bytes).
  - exact file_uspace.
  - exact file_reads.
  - vm_compute. discriminate.
  - vm_compute. reflexivity.
  - exists k'. exact H1.
Defined.
