(* ===== verification/UserStrings.v ===== *)
(** * Strings of the user

    The kernel reads argument vectors in user memory: [access_ok] on each pointer,
    [access_string_ok] on each string, then [strlen] and [memcpy].  Regions of user memory
    say where such strings are; they read the same after the kernel has written elsewhere. *)

From S2P Require Import Prelude Memory Arch KString Kmalloc KmallocSpec KmallocProof KmallocRefine.
From S2P Require Import KmallocSafety KmallocIface Translate TranslateProof PageTables AddressSpace Hypercall Hypervisor.
From S2P Require Import HypercallProof HypervisorProof Kernel Exec KernelProof SyscallProof MmapProof FileMap.

(** ** What the user sees *)

(** User memory as an array of bytes, and its words. *)
Definition umem {W} (k : kstate W) : mem := fun va => guest (k_vm k) (frame k va).
Definition uword {W} (k : kstate W) (va : Z) : Z := ld 8 (umem k) va.

(** The user may read [n] bytes at [p], in regions of [rs]. *)
Definition covered (rs : list region) (p n : Z) : Prop :=
  forall va, p <= va < p + n -> exists r, r ∈ rs /\ in_region r va /\ has (rg_prot r) PROT_R = true.

(** The string [s], terminated, at [p]. *)
Record cstring {W} (k : kstate W) (rs : list region) (p : Z) (s : list Z) : Prop := CString {
  cs_chars : Forall (fun b => b <> 0) s;
  cs_covered : covered rs p (Z.of_nat (length s) + 1);
  cs_bytes : forall i b, (s ++ [0]) !! i = Some b -> u8 (umem k (p + Z.of_nat i)) = b
}.
(** A vector of pointers to the strings [ss], terminated. *)
Record cstrings {W} (k : kstate W) (rs : list region) (ary : Z) (ss : list (list Z)) : Prop := CStrings {
  cv_covered : covered rs ary (8 * (Z.of_nat (length ss) + 1));
  cv_strings : forall i s, ss !! i = Some s -> cstring k rs (uword k (ary + 8 * Z.of_nat i)) s;
  cv_end : uword k (ary + 8 * Z.of_nat (length ss)) = 0
}.

Lemma covered_sub rs p n q l : covered rs p n -> p <= q -> q + l <= p + n -> covered rs q l.
Proof. intros H H1 H2 va Hva. apply H. lia. Qed.

(** What is left of a string from one of its characters on. *)
Lemma cstring_drop {W} (k : kstate W) rs p s n :
  cstring k rs p s -> (n <= length s)%nat -> cstring k rs (p + Z.of_nat n) (drop n s).
Proof.
  intros [C1 C2 C3] Hn. split; [by apply Forall_drop| |].
  - rewrite length_drop. eapply covered_sub; [exact C2|lia..].
  - intros i b Hb. rewrite <- (C3 (n + i)%nat b); [do 2 f_equal; lia|].
    rewrite <- Hb, <- (lookup_drop (s ++ [0])), drop_app_le by done. done.
Qed.

Section Near.
Context {W : Type}.
Implicit Types k : kstate W.

(** The state [k'] has the memory in use of [k], except for [D], which holds no tables. *)
Record near k (a : aheap) (D : Z -> Prop) k' : Prop := Near {
  nr_cr3 : cr3_of k' = cr3_of k;
  nr_mem : forall x, used a x -> ~ D x -> guest (k_vm k') x = guest (k_vm k) x;
  nr_tables : forall x, D x -> ~ kentry k x
}.
Lemma near_refl k a : near k a (fun _ => False) k.
Proof. split; auto. Qed.

Context (k : kstate W) (a : aheap) (D : Z -> Prop) (rs : list region).
Hypothesis space : uspace k a.
Hypothesis regions : Forall (region_ok k a) rs.
Hypothesis apart : forall r x, r ∈ rs -> rng (rg_frame r) (rg_len r) x -> ~ D x.

Lemma near_walk k' va : near k a D k' -> user_va va -> kwalk k' va = kwalk k va.
Proof using space.
  intros [N1 N2 N3] Hva. destruct space as [[I S] _]. pose proof I as [_ W0].
  destruct (aspace_same (guest (k_vm k)) a (guest (k_vm k')) a (cr3_of k) S) as (S' & _ & Hl); [|done|].
  - intros x Hx. apply N2; [|intros Hd; by apply (N3 x)].
    destruct (user_entry_page _ _ _ _ S Hx) as (t & Ut & Hxt). by apply (usable_used a t).
  - unfold kwalk. rewrite N1, (walk_leaf _ a), (walk_leaf (guest (k_vm k)) a) by done. by rewrite Hl.
Qed.

(** A covered byte: where it is, and that it is read in both states alike. *)
Lemma covered_at va :
  covered rs va 1 -> exists r, r ∈ rs /\ region_ok k a r /\ in_region r va /\ user_va va /\ has (rg_prot r) PROT_R = true /\
    kwalk k va = Some (Xlat (rg_frame r + (va - rg_addr r)) true (has (rg_prot r) PROT_W)) /\
    frame k va = rg_frame r + (va - rg_addr r) /\ rng (rg_frame r) (rg_len r) (frame k va) /\
    0 <= frame k va < MEM_SIZE.
Proof using space regions.
  intros Hc. destruct (Hc va ltac:(lia)) as (r & Hr & Hin & Hp). pose proof regions as HF. rewrite Forall_forall in HF.
  pose proof (HF r Hr) as R. destruct (region_walk k a r va (proj1 space) R Hin) as [Hw _]. rewrite Hp in Hw.
  pose proof R as [Rr (F1 & F2 & F3) _ _ _]. unfold in_region in Hin.
  exists r. unfold frame. rewrite Hw. cbn. split; [done|]. split; [done|]. split; [done|].
  split; [by apply Rr|]. do 3 (split; [done|]). unfold rng. lia.
Qed.
Lemma covered_low va n : covered rs va n -> 0 < n -> 0 <= va /\ va + n <= 2 ^ 47.
Proof using space regions.
  intros Hc Hn. destruct (covered_at va) as (r & _ & _ & _ & [_ H1] & _); [eapply covered_sub; [done|lia..]|].
  destruct (covered_at (va + n - 1)) as (r' & _ & _ & _ & [_ H2] & _); [eapply covered_sub; [done|lia..]|]. lia.
Qed.
Lemma near_byte k' va : near k a D k' -> covered rs va 1 -> umem k' va = umem k va.
Proof using space regions apart.
  intros N Hc. destruct (covered_at va Hc) as (r & Hr & R & Hin & Hu & _ & Hw & Hf & Hx & _).
  unfold umem. replace (frame k' va) with (frame k va) by (unfold frame; by rewrite (near_walk k' va N Hu)).
  apply N; [|by apply (apart r)]. by apply (pages_used a (rg_frame r) (rg_len r)); [apply R|].
Qed.
Lemma near_ld k' n va : near k a D k' -> covered rs va (Z.of_nat n) -> ld n (umem k') va = ld n (umem k) va.
Proof using space regions apart.
  intros N Hc. apply ld_ext. intros x Hx. apply near_byte; [done|]. unfold rng in Hx. eapply covered_sub; [done|lia..].
Qed.
Lemma near_vload k' va : near k a D k' -> covered rs va 1 -> vload va k' = Ok (u8 (umem k va)) k'.
Proof using space regions apart.
  intros N Hc. rewrite <- (near_byte k' va N Hc). destruct (covered_at va Hc) as (r & _ & _ & _ & Hu & _ & Hw & Hf & _ & Hm).
  pose proof (near_walk k' va N Hu) as Hw'. rewrite Hw in Hw'.
  rewrite (user_vload k' va _ Hw'); [unfold umem, frame; by rewrite Hw'|cbn; lia|].
  destruct Hu as [Hu Hb]. apply user_range_ok in Hu; [|done]. destruct Hu. by apply user_range_not_kernel.
Qed.
Lemma near_vload_n k' n : near k a D k' -> forall va, covered rs va (Z.of_nat n) -> vload_n n va k' = Ok (ld n (umem k) va) k'.
Proof using space regions apart.
  intros N. induction n as [|n IH]; intros va Hc; [done|]. cbn [vload_n].
  destruct (covered_low va _ Hc ltac:(lia)) as [H1 H2].
  rewrite (bind_ok _ _ _ _ _ (near_vload k' va N ltac:(eapply covered_sub; [done|lia..]))), u64_small by lia.
  rewrite (bind_ok _ _ _ _ _ (IH (va + 1) ltac:(eapply covered_sub; [done|lia..]))). done.
Qed.

(** *** Strings *)

Lemma cstring_readable k' p s :
  near k a D k' -> cstring k rs p s ->
  readable vload k' p (Z.of_nat (length s) + 1) (fun i => u8 (umem k (p + i))) /\
  (forall j, 0 <= j < Z.of_nat (length s) -> u8 (umem k (p + j)) <> 0) /\ u8 (umem k (p + Z.of_nat (length s))) = 0.
Proof using space regions apart.
  intros N [C1 C2 C3]. destruct (covered_low p _ C2 ltac:(lia)) as [H1 H2]. split; [|split].
  - split; [done|]. split; [lia|]. intros i Hi. apply near_vload; [done|]. eapply covered_sub; [done|lia..].
  - intros j Hj. destruct (lookup_lt_is_Some_2 s (Z.to_nat j)) as [b Hb]; [lia|].
    rewrite Forall_lookup in C1. pose proof (C1 _ _ Hb) as Hnz.
    rewrite <- (C3 (Z.to_nat j) b) in Hnz by (by apply lookup_app_l_Some). by rewrite Z2Nat.id in Hnz by lia.
  - apply C3. by rewrite lookup_app_r, Nat.sub_diag by done.
Qed.
Lemma cstring_strlen k' p s : near k a D k' -> cstring k rs p s -> strlen vload p k' = Ok (Z.of_nat (length s)) k'.
Proof using space regions apart.
  intros N C. destruct (cstring_readable k' p s N C) as (H1 & H2 & H3). destruct (covered_low p _ (cs_covered _ _ _ _ C) ltac:(lia)).
  unfold strlen. eapply strnlen_found; [exact H1|lia|lia|exact H2|exact H3].
Qed.
End Near.

(** ** The checks *)

Section Check.
Context {W : Type} (k : kstate W) (a : aheap) (rs : list region).
Hypothesis space : uspace k a.
Hypothesis regions : Forall (region_ok k a) rs.

Lemma covered_tables p n : covered rs p n -> 0 < n -> tables_ok k (aligndown p) (alignup (p + n)).
Proof using space regions.
  intros Hc Hn va Hva. destruct (covered_low k a rs space regions p n Hc Hn) as [H1 H2].
  destruct (alignup_spec (p + n)) as [A1 A2]; [lia|]. rewrite aligndown_mod in Hva by lia.
  pose proof (Z.mod_pos_bound p 4096 ltac:(lia)). pose proof (Z.div_mod p 4096 ltac:(lia)).
  set (vb := Z.max p (Z.min va (p + n - 1))).
  assert (vb / 4096 = va / 4096) as Hq.
  { pose proof (Z.div_mod va 4096). pose proof (Z.mod_pos_bound va 4096). pose proof (Z.div_mod (alignup (p + n)) 4096).
    symmetry. apply (Z.div_unique _ _ _ (vb - va / 4096 * 4096)); lia. }
  destruct (Hc vb ltac:(lia)) as (r & Hr & Hin & _). pose proof regions as HF. rewrite Forall_forall in HF.
  pose proof (region_page k a r vb va (HF r Hr) Hin (eq_sym Hq)) as Hin'. split.
  - by apply (region_path k a r); [apply space|apply HF|].
  - destruct (region_walk k a r va (proj1 space) (HF r Hr) Hin') as [-> _]. cbn.
    destruct (ro_frame _ _ _ (HF r Hr)) as (F1 & F2 & F3). unfold in_region in Hin'. lia.
Qed.

Lemma covered_access p n : covered rs p n -> 0 < n -> access_ok VERIFY_READ p n k = Ok true k.
Proof using space regions.
  intros Hc Hn. destruct (covered_low k a rs space regions p n Hc Hn) as [H1 H2].
  destruct (access_ok_spec k VERIFY_READ p n H1 Hn H2 (covered_tables p n Hc Hn)) as (b & -> & Hb). f_equal. apply Hb.
  assert (forall va, p <= va < p + n -> user_va va /\ user_can k false va = true) as Hu.
  { intros va Hva. destruct (covered_at k a rs space regions va) as (r & _ & _ & _ & Hu & _ & Hw & _).
    - eapply covered_sub; [exact Hc|lia..].
    - split; [done|]. unfold user_can. by rewrite Hw. }
  split; [apply Hu; lia|]. split; [apply Hu; lia|]. intros va Hva. by apply Hu.
Qed.

(** [access_string_ok] accepts a string, page by page. *)
Definition string_body (addr : Z) : cmd (kstate W) (Z + bool) :=
  ok ← access_ok VERIFY_READ addr 1;
  if negb ok then mret (inr false)
  else
    let remain_size := 0x1000 - Z.land addr 0xfff in
    l ← strnlen vload addr remain_size;
    if l =? remain_size then mret (inl (u64 (addr + l))) else mret (inr true).

Lemma access_string_loop n : forall p s,
  (length s <= n)%nat -> cstring k rs p s ->
  exists c, (c <= S n)%nat /\ run (mbody string_body) c (p, k) = inr (Ok true k).
Proof using space regions.
  induction n as [n IH] using lt_wf_ind. intros p s Hn C.
  destruct (covered_low k a rs space regions p _ (cs_covered _ _ _ _ C) ltac:(lia)) as [H1 H2].
  destruct (cstring_readable k a (fun _ => False) rs space regions (fun _ _ _ _ H => H) k p s (near_refl k a) C) as (Hr & Hnz & Hz).
  pose proof (Z.mod_pos_bound p 4096 ltac:(lia)) as Hm.
  assert (access_ok VERIFY_READ p 1 k = Ok true k) as Hok.
  { apply covered_access; [|lia]. eapply covered_sub; [apply (cs_covered _ _ _ _ C)|lia..]. }
  destruct (Z.ltb_spec (Z.of_nat (length s)) (4096 - p mod 4096)) as [Hlt|Hge].
  - exists 1%nat. split; [lia|]. apply mbody_done. unfold string_body. rewrite (bind_ok _ _ _ _ _ Hok), low12_mod. cbn [negb]. cbv zeta.
    erewrite bind_ok by (eapply (strnlen_found vload k p _ _ _ (Z.of_nat (length s))); [exact Hr|lia|lia|exact Hnz|exact Hz]).
    by rewrite (proj2 (Z.eqb_neq _ _)) by lia.
  - set (l := 4096 - p mod 4096) in *.
    destruct (IH (n - 1)%nat ltac:(lia) (p + l) (drop (Z.to_nat l) s)) as (c & Hc & Hrun).
    { rewrite length_drop. lia. }
    { replace (p + l) with (p + Z.of_nat (Z.to_nat l)) by lia. apply cstring_drop; [done|lia]. }
    exists (S c). split; [lia|]. erewrite mbody_next; [exact Hrun|].
    unfold string_body. rewrite (bind_ok _ _ _ _ _ Hok), low12_mod. cbn [negb]. cbv zeta. fold l.
    assert (strnlen vload p l k = Ok l k) as Hl.
    { destruct Hr as (Q1 & Q2 & Q3). apply (strnlen_limit vload k p (fun i => u8 (umem k (p + i)))); [lia| |intros j Hj; apply Hnz; lia].
      split; [done|]. split; [lia|]. intros i Hi. apply Q3. lia. }
    rewrite (bind_ok _ _ _ _ _ Hl).
    rewrite Z.eqb_refl, u64_small by lia. done.
Qed.
Lemma access_string_run p s : cstring k rs p s -> access_string_ok p k = Ok true k.
Proof using space regions.
  intros C. destruct (access_string_loop (length s) p s (le_n _) C) as (c & Hc & Hrun).
  destruct (covered_low k a rs space regions p _ (cs_covered _ _ _ _ C) ltac:(lia)).
  unfold access_string_ok. eapply mloop_result; [exact Hrun|lia].
Qed.

(** [check_and_get_count] counts the strings. *)
Definition count_body (st : Z * Z) : cmd (kstate W) ((Z * Z) + Z) :=
  let '(ary, i) := st in
  s ← vload_n 8 ary;
  if s =? 0 then mret (inr i)
  else
    ok ← access_string_ok s;
    if negb ok then mret (inr (- EFAULT))
    else
      ok ← access_ok VERIFY_READ (u64 (ary + 8)) 8;
      if negb ok then mret (inr (- EFAULT)) else mret (inl (u64 (ary + 8), i + 1)).

Lemma cstrings_word ary ss i : cstrings k rs ary ss -> (i <= length ss)%nat ->
  vload_n 8 (ary + 8 * Z.of_nat i) k = Ok (uword k (ary + 8 * Z.of_nat i)) k.
Proof using space regions.
  intros [V1 _ _] Hi. apply (near_vload_n k a (fun _ => False) rs space regions (fun _ _ _ _ H => H) k 8 (near_refl k a)).
  eapply covered_sub; [exact V1|lia..].
Qed.
Lemma cstring_pointer p s : cstring k rs p s -> p <> 0.
Proof using space regions.
  intros C ->. destruct (covered_at k a rs space regions 0) as (r & _ & _ & _ & [Hu _] & _); [|discriminate Hu].
  eapply covered_sub; [apply (cs_covered _ _ _ _ C)|lia..].
Qed.

Lemma count_loop ary ss n : cstrings k rs ary ss -> forall i, (i + n = length ss)%nat ->
  run (mbody count_body) (S n) ((ary + 8 * Z.of_nat i, Z.of_nat i), k) = inr (Ok (Z.of_nat (length ss)) k).
Proof using space regions.
  intros V. pose proof V as [V1 V2 V3]. destruct (covered_low k a rs space regions ary _ V1 ltac:(lia)) as [H1 H2].
  induction n as [|n IH]; intros i Hi.
  - apply mbody_done. unfold count_body. rewrite (bind_ok _ _ _ _ _ (cstrings_word ary ss i V ltac:(lia))).
    replace i with (length ss) by lia. by rewrite V3.
  - destruct (lookup_lt_is_Some_2 ss i) as [s Hs]; [lia|]. pose proof (V2 i s Hs) as C.
    erewrite mbody_next.
    2:{ unfold count_body. rewrite (bind_ok _ _ _ _ _ (cstrings_word ary ss i V ltac:(lia))).
        rewrite (proj2 (Z.eqb_neq _ _)) by (by eapply cstring_pointer).
        rewrite (bind_ok _ _ _ _ _ (access_string_run _ s C)), u64_small by lia. cbn [negb].
        erewrite bind_ok by (apply covered_access; [eapply covered_sub; [exact V1|lia..]|lia]). reflexivity. }
    replace (ary + 8 * Z.of_nat i + 8) with (ary + 8 * Z.of_nat (S i)) by lia.
    replace (Z.of_nat i + 1) with (Z.of_nat (S i)) by lia. apply IH. lia.
Qed.
Lemma count_run ary ss : cstrings k rs ary ss -> check_and_get_count ary k = Ok (Z.of_nat (length ss)) k.
Proof using space regions.
  intros V. pose proof V as [V1 V2 V3]. destruct (covered_low k a rs space regions ary _ V1 ltac:(lia)) as [H1 H2].
  unfold check_and_get_count.
  erewrite bind_ok by (apply covered_access; [eapply covered_sub; [exact V1|lia..]|lia]). cbn [negb].
  pose proof (count_loop ary ss (length ss) V 0 ltac:(lia)) as H. rewrite Z.mul_0_r, Z.add_0_r in H.
  eapply mloop_result; [exact H|lia].
Qed.
End Check.
