(* ===== verification/StackProof.v ===== *)
(** * The stack of a new program

    [create_elf_info] copies the strings of the argument and environment vectors to the
    new stack, builds the two vectors in a kernel buffer, pushes them with the number of
    arguments, and returns the buffer.  The program finds on its stack what the caller
    passed: the same strings, in the same order, behind an aligned stack pointer. *)

From S2P Require Import Prelude Memory Arch KString Kmalloc KmallocSpec KmallocProof KmallocRefine.
From S2P Require Import KmallocSafety KmallocIface Translate TranslateProof PageTables AddressSpace Hypercall Hypervisor.
From S2P Require Import HypercallProof HypervisorProof Kernel Exec KernelProof SyscallProof MmapProof FileMap ElfProof.
From S2P Require Import UserStrings.

(** The strings as they lie in memory, one after the other. *)
Definition packed (ss : list (list Z)) : list Z := concat (map (fun s => s ++ [0]) ss).
Definition psize (ss : list (list Z)) : Z := Z.of_nat (length (packed ss)).

Lemma packed_snoc ss i s : ss !! i = Some s -> packed (take (S i) ss) = packed (take i ss) ++ s ++ [0].
Proof. intros H. unfold packed. erewrite take_S_r by done. by rewrite map_app, concat_app; cbn; rewrite app_nil_r. Qed.
Lemma psize_snoc ss i s : ss !! i = Some s -> psize (take (S i) ss) = psize (take i ss) + Z.of_nat (length s) + 1.
Proof. intros H. unfold psize. rewrite (packed_snoc ss i s H), !length_app. cbn. lia. Qed.

(** The lowest address of the stack. *)
Definition STACK_LOW : Z := STACK_BASE - STACK_SIZE.

Section Push.
Context {W : Type} (k : kstate W) (a : aheap) (rs : list region).
Hypothesis space : uspace k a.
Hypothesis regions : Forall (region_ok k a) rs.
(** Bytes in use that may be written, outside the regions. *)
Context (D : Z -> Prop).
Hypothesis D_used : forall x, D x -> used a x.
Hypothesis apart : forall r x, r ∈ rs -> rng (rg_frame r) (rg_len r) x -> ~ D x.

(** A kernel buffer, and a state in which it has been taken. *)
Context (k1 : kstate W) (copy n : Z).
Abbreviation al := ((a, full_blocks a) : al_state).
Hypothesis buffer : fresh_buffer al copy n.
Hypothesis taken : near k a D k1.

(** Memory in which they have been written. *)
Definition work (m : mem) : Prop :=
  forall x, ~ D x -> ~ block_bytes copy n x -> m x = guest (k_vm k1) x.

Lemma used_not_free x : used a x -> ~ free_byte al x.
Proof using space. intros Hu. apply used_not_unused; [apply space|done]. Qed.
Lemma not_buffer x : D x -> ~ block_bytes copy n x.
Proof using D_used space buffer. intros Hx Hb. by apply (used_not_free x (D_used x Hx)), buffer. Qed.
Lemma work_near m : work m -> near k a D (with_mem m k1).
Proof using space buffer taken.
  intros Hm. split; [apply taken| |apply taken].
  intros x Hu Hn. change (m x = guest (k_vm k) x). pose proof (used_not_free x Hu) as Hf.
  rewrite Hm; [by apply taken|done|]. intros Hb. by apply Hf, buffer.
Qed.

(** ** Writable places *)

Record window (va pa c : Z) : Prop := Window {
  wi_low : 0 <= va;
  wi_high : va + c <= 2 ^ 63;
  wi_bytes : forall x, rng pa c x -> D x \/ block_bytes copy n x;
  wi_trans : forall m i, work m -> 0 <= i < c -> exists x,
    vtrans m (cr3_of k1) (va + i) = Some x /\ x_pa x = pa + i /\ pa + i < MEM_SIZE /\ x_rw x = true
}.
Lemma copy_window off c : 0 <= off -> off + c <= n -> window (copy + off) (copy - KERNEL_BASE_OFFSET + off) c.
Proof using buffer.
  intros H1 H2. destruct buffer as (B1 & B2 & B3). pose proof (eq_refl : MEM_SIZE = 0x400000) as Hms.
  pose proof (eq_refl : KERNEL_BASE_OFFSET = 2 ^ 39) as Hkb. split; [lia|lia| |].
  - intros x Hx. right. unfold block_bytes, rng in *. lia.
  - intros m i _ Hi. rewrite <- Z.add_assoc, (kernel_trans m _ copy (off + i) n) by (done || lia).
    eexists. split; [done|]. cbn. split; [lia|]. split; [lia|done].
Qed.
Lemma window_tail va pa c : 0 < c -> window va pa c -> window (va + 1) (pa + 1) (c - 1).
Proof using.
  intros Hc [W1 W2 W3 W4]. split; [lia|lia|intros x Hx; apply W3; unfold rng in *; lia|].
  intros m i Hm Hi. destruct (W4 m (i + 1) Hm ltac:(lia)) as (x & X1 & X2 & X3 & X4). exists x.
  replace (va + 1 + i) with (va + (i + 1)) by lia. replace (pa + 1 + i) with (pa + (i + 1)) by lia. done.
Qed.

Lemma work_write m m' va pa c : work m -> window va pa c -> (forall x, ~ rng pa c x -> m' x = m x) -> work m'.
Proof using.
  intros Hm Hw H x Hx Hb. rewrite H; [by apply Hm|]. intros Hr. by destruct (wi_bytes _ _ _ Hw x Hr).
Qed.

Lemma window_store va pa v m c : work m -> window va pa c -> 0 < c ->
  vstore va v (with_mem m k1) = Ok tt (with_mem (fun y => if y =? pa then u8 v else m y) k1).
Proof using.
  intros Hm Hw Hc. destruct (wi_trans _ _ _ Hw m 0 Hm ltac:(lia)) as (x & X1 & X2 & X3 & X4).
  rewrite !Z.add_0_r in *. rewrite (vstore_at m k1 va x) by (done || lia). by rewrite X2.
Qed.
Lemma window_store_n c : forall va pa v m, work m -> window va pa (Z.of_nat c) ->
  exists m', vstore_n c va v (with_mem m k1) = Ok tt (with_mem m' k1) /\ work m' /\ forall x, m' x = st c m pa v x.
Proof using.
  induction c as [|c IH]; intros va pa v m Hm Hw.
  - exists m. split; [done|]. split; [done|]. intros x. by rewrite st_outside by (unfold rng; lia).
  - cbn [vstore_n]. erewrite bind_ok by (eapply window_store; [done|done|lia]).
    pose proof (wi_low _ _ _ Hw). pose proof (wi_high _ _ _ Hw). rewrite u64_small by lia.
    assert (window (va + 1) (pa + 1) (Z.of_nat c)) as Hw'.
    { replace (Z.of_nat c) with (Z.of_nat (S c) - 1) by lia. apply window_tail; [lia|done]. }
    destruct (IH (va + 1) (pa + 1) (Z.shiftr v 8) (fun y => if y =? pa then u8 v else m y)) as (m' & Hrun & Hm' & H').
    { eapply work_write; [exact Hm|exact Hw|]. intros x Hx. rewrite (proj2 (Z.eqb_neq _ _)); [done|]. unfold rng in Hx. lia. }
    { done. }
    exists m'. split; [exact Hrun|]. split; [done|]. intros x. rewrite H'. unfold st.
    destruct (Z.eqb_spec x pa) as [->|Hne].
    + rewrite (proj2 (andb_false_iff _ _)) by lia. rewrite (proj2 (andb_true_iff _ _)) by lia.
      by rewrite Z.sub_diag, Z.mul_0_r, Z.shiftr_0_r.
    + replace ((pa + 1 <=? x) && (x <? pa + 1 + Z.of_nat c)) with ((pa <=? x) && (x <? pa + Z.of_nat (S c))) by lia.
      destruct (_ && _) eqn:E; [|done]. rewrite Z.shiftr_shiftr by lia. do 2 f_equal. lia.
Qed.
Lemma window_load_n c : forall va pa m, work m -> window va pa (Z.of_nat c) ->
  vload_n c va (with_mem m k1) = Ok (ld c m pa) (with_mem m k1).
Proof using.
  induction c as [|c IH]; intros va pa m Hm Hw; [done|]. cbn [vload_n ld].
  pose proof (wi_low _ _ _ Hw). pose proof (wi_high _ _ _ Hw).
  destruct (wi_trans _ _ _ Hw m 0 Hm ltac:(lia)) as (x & X1 & X2 & X3 & X4). rewrite !Z.add_0_r in *.
  rewrite (bind_ok _ _ _ _ _ (vload_at m k1 va x X1 ltac:(lia))), X2, u64_small by lia.
  assert (window (va + 1) (pa + 1) (Z.of_nat c)) as Hw'.
  { replace (Z.of_nat c) with (Z.of_nat (S c) - 1) by lia. apply window_tail; [lia|done]. }
  by rewrite (bind_ok _ _ _ _ _ (IH (va + 1) (pa + 1) m Hm Hw')).
Qed.

(** ** Pushing strings *)

(** A string of the caller to a writable place. *)
Lemma push_copy m dst pa p s :
  work m -> cstring k rs p s -> window dst pa (Z.of_nat (length s) + 1) ->
  exists m', memcpy dst p (Z.of_nat (length s) + 1) (with_mem m k1) = Ok tt (with_mem m' k1) /\ work m' /\
    (forall i b, (s ++ [0]) !! i = Some b -> m' (pa + Z.of_nat i) = b) /\
    (forall x, ~ rng pa (Z.of_nat (length s) + 1) x -> m' x = m x).
Proof using space regions apart buffer taken.
  intros Hm C Hw. set (l := Z.of_nat (length s) + 1) in *. pose proof (cs_covered _ _ _ _ C) as Hc. fold l in Hc.
  destruct (covered_low k a rs space regions p l Hc ltac:(lia)) as [L1 L2]. pose proof (wi_low _ _ _ Hw). pose proof (wi_high _ _ _ Hw).
  assert (forall i, 0 <= i < l -> ~ rng pa l (frame k (p + i)) /\ frame k (p + i) < MEM_SIZE /\ user_va (p + i) /\
    forall m2, work m2 -> exists x, vtrans m2 (cr3_of k1) (p + i) = Some x /\ x_pa x = frame k (p + i)) as Hs.
  { intros i Hi. destruct (covered_at k a rs space regions (p + i)) as (r & Hr & R & Hin & Hu & _ & Hk & Hf & Hx & Hb).
    { eapply covered_sub; [exact Hc|lia..]. }
    split; [|split; [lia|split; [done|]]].
    - intros Hin'. destruct (wi_bytes _ _ _ Hw _ Hin') as [H'|H']; [by apply (apart r _ Hr Hx)|].
      apply (used_not_free (frame k (p + i))); [|by apply buffer]. by apply (pages_used a _ _ _ (ro_pages _ _ _ R)).
    - intros m2 Hm2. pose proof (near_walk k a D space (with_mem m2 k1) (p + i) (work_near m2 Hm2) Hu) as Hn.
      destruct Hu as [Hu Hb']. unfold vtrans. rewrite user_range_not_kernel by (apply user_range_ok in Hu as []; done).
      change (walk m2 (cr3_of k1) (p + i)) with (kwalk (with_mem m2 k1) (p + i)). rewrite Hn. unfold frame.
      rewrite Hk. eexists. done. }
  destruct (memcpy_run (with_mem m k1) dst p l (fun i => pa + i) (fun i => frame k (p + i))) as (m' & Hrun & H1 & H2).
  { split; [lia|lia|lia| | |lia].
    - intros m2 Hm2 i Hi.
      assert (work m2) as Hw2.
      { eapply work_write; [exact Hm|exact Hw|]. intros x Hx. apply Hm2. intros j Hj ->. apply Hx. unfold rng. lia. }
      destruct (Hs i Hi) as (_ & Q2 & _ & Q3). destruct (Q3 m2 Hw2) as (x & X1 & X2).
      split; [by exists x|]. destruct (wi_trans _ _ _ Hw m2 i Hw2 Hi) as (y & Y1 & Y2 & Y3 & Y4). by exists y.
    - intros i j Hi Hj E. destruct (Hs j Hj) as (Q1 & _). apply Q1. rewrite <- E. unfold rng. lia. }
  assert (forall x, ~ rng pa l x -> m' x = m x) as Ho.
  { intros x Hx. apply H2. intros j Hj ->. apply Hx. unfold rng. lia. }
  exists m'. split; [exact Hrun|]. split; [by eapply work_write|]. split; [|done].
  intros i b Hb. pose proof (lookup_lt_Some _ _ _ Hb) as Hi. rewrite length_app in Hi. cbn in Hi.
  rewrite H1 by lia. rewrite <- (cs_bytes _ _ _ _ C i b Hb). f_equal.
  destruct (near_byte k a D rs space regions apart (with_mem m k1) (p + Z.of_nat i) (work_near m Hm)) as [].
  { eapply covered_sub; [exact Hc|lia..]. }
  unfold umem. change (guest (k_vm (with_mem m k1))) with m. f_equal. unfold frame.
  rewrite <- (near_walk k a D space (with_mem m k1) (p + Z.of_nat i) (work_near m Hm)); [done|]. apply Hs. lia.
Qed.

(** ** The stack *)

Context (f : Z) (stk : Z -> Z).
Hypothesis stack : region_ok k a (Region STACK_LOW f STACK_SIZE PROT_RW stk).
Hypothesis frames : forall x, rng f STACK_SIZE x -> D x.

(** The physical address of a byte of the stack. *)
Definition fr (va : Z) : Z := f + (va - STACK_LOW).

Lemma stack_window va c : STACK_LOW <= va -> va + c <= STACK_BASE -> window va (fr va) c.
Proof using stack frames space buffer taken.
  intros H1 H2. unfold STACK_LOW, STACK_BASE, STACK_SIZE in *. split; [lia|lia| |].
  - intros x Hx. left. apply frames. unfold fr, STACK_LOW, STACK_BASE, STACK_SIZE, rng in *. lia.
  - intros m i Hm Hi. assert (in_region (Region STACK_LOW f STACK_SIZE PROT_RW stk) (va + i)) as Hin
      by (unfold in_region, STACK_LOW, STACK_BASE, STACK_SIZE; cbn; lia).
    destruct (region_walk k a _ (va + i) (proj1 space) stack Hin) as [Hw _]. cbn in Hw.
    pose proof (ro_range _ _ _ stack) as (_ & _ & _ & _ & _ & R6). destruct (R6 (va + i) Hin) as [Hu Hb].
    pose proof (near_walk k a D space (with_mem m k1) (va + i) (work_near m Hm) (R6 _ Hin)) as Hn.
    unfold vtrans. rewrite user_range_not_kernel by (apply user_range_ok in Hu as []; done).
    change (walk m (cr3_of k1) (va + i)) with (kwalk (with_mem m k1) (va + i)). rewrite Hn, Hw.
    eexists. split; [done|]. cbn. destruct (ro_frame _ _ _ stack) as (F1 & F2 & F3). cbn in F1, F2, F3.
    unfold fr, STACK_LOW, STACK_BASE, STACK_SIZE in *. split; [lia|]. split; [lia|done].
Qed.
Definition push_body (ary cp : Z) (st : Z * Z) : cmd (kstate W) ((Z * Z) + Z) :=
  let '(i, sp) := st in
  if 0 <=? i then
    s ← vload_n 8 (u64 (ary + 8 * i));
    l ← strlen vload s;
    let len := u64 (l + 1) in
    let sp := u64 (sp - len) in
    vstore_n 8 (cp + 8 * i) sp ;;
    s ← vload_n 8 (u64 (ary + 8 * i));
    memcpy sp s len ;;
    mret (inl (i - 1, sp))
  else mret (inr sp).

(** One string, and its address in the buffer. *)
Lemma push_one ary ss off i s sp m :
  cstrings k rs ary ss -> ss !! i = Some s -> 0 <= off -> 8 * off + 8 * Z.of_nat (length ss) <= n -> work m ->
  let sp' := sp - (Z.of_nat (length s) + 1) in
  let cp := copy + 8 * off in
  STACK_LOW <= sp' -> sp <= STACK_BASE ->
  exists m', push_body ary cp (Z.of_nat i, sp) (with_mem m k1) = Ok (inl (Z.of_nat i - 1, sp')) (with_mem m' k1) /\ work m' /\
    ld 8 m' (cp - KERNEL_BASE_OFFSET + 8 * Z.of_nat i) = sp' /\
    (forall j b, (s ++ [0]) !! j = Some b -> m' (fr (sp' + Z.of_nat j)) = b) /\
    (forall x, ~ rng (cp - KERNEL_BASE_OFFSET + 8 * Z.of_nat i) 8 x -> ~ rng (fr sp') (sp - sp') x -> m' x = m x).
Proof using space regions D_used stack frames apart buffer taken.
  intros V Hs Hoff Hn Hm sp' cp H1 H2. pose proof V as [V1 V2 V3]. pose proof (V2 i s Hs) as C.
  pose proof (lookup_lt_Some _ _ _ Hs) as Hi. destruct (covered_low k a rs space regions ary _ V1 ltac:(lia)) as [A1 A2].
  set (pc := cp - KERNEL_BASE_OFFSET + 8 * Z.of_nat i).
  assert (STACK_LOW <= sp') as H1' by done. unfold STACK_LOW, STACK_BASE, STACK_SIZE in H1, H2.
  assert (forall m2, work m2 -> vload_n 8 (u64 (ary + 8 * Z.of_nat i)) (with_mem m2 k1) =
    Ok (uword k (ary + 8 * Z.of_nat i)) (with_mem m2 k1)) as Hv.
  { intros m2 Hm2. rewrite u64_small by lia.
    apply (near_vload_n k a D rs space regions apart (with_mem m2 k1) 8 (work_near m2 Hm2)).
    eapply covered_sub; [exact V1|lia..]. }
  destruct (window_store_n 8 (cp + 8 * Z.of_nat i) pc sp' m Hm) as (m1 & Hst & Hm1 & S1).
  { replace (cp + 8 * Z.of_nat i) with (copy + (8 * off + 8 * Z.of_nat i)) by (unfold cp; lia).
    replace pc with (copy - KERNEL_BASE_OFFSET + (8 * off + 8 * Z.of_nat i)) by (unfold pc, cp; lia). apply copy_window; lia. }
  destruct (push_copy m1 sp' (fr sp') (uword k (ary + 8 * Z.of_nat i)) s Hm1 C) as (m2 & Hcp & Hm2 & S2 & S3).
  { apply stack_window; [done|]. unfold sp', STACK_BASE. lia. }
  assert (forall x, rng pc 8 x -> ~ rng (fr sp') (Z.of_nat (length s) + 1) x) as Hd.
  { intros x Hx Hf. apply (not_buffer x).
    - apply frames. unfold fr, rng, sp', STACK_LOW, STACK_BASE, STACK_SIZE in *. lia.
    - unfold block_bytes, rng, pc, cp in *. lia. }
  exists m2. split; [|split; [done|split; [|split]]].
  - unfold push_body. rewrite (proj2 (Z.leb_le _ _)) by lia. rewrite (bind_ok _ _ _ _ _ (Hv m Hm)).
    rewrite (bind_ok _ _ _ _ _ (cstring_strlen k a D rs space regions apart (with_mem m k1) _ s (work_near m Hm) C)).
    cbv zeta. rewrite (u64_small (Z.of_nat (length s) + 1)), (u64_small (sp - _)) by (unfold sp' in *; lia). fold sp'.
    rewrite (bind_ok _ _ _ _ _ Hst), (bind_ok _ _ _ _ _ (Hv m1 Hm1)), (bind_ok _ _ _ _ _ Hcp). done.
  - rewrite (ld_ext 8 m2 (st 8 m pc sp')); [rewrite ld_st; apply Z.mod_small; change (256 ^ Z.of_nat 8) with (2 ^ 64); lia|].
    intros x Hx. rewrite <- S1. apply S3. by apply Hd.
  - intros j b Hb. rewrite <- (S2 j b Hb). f_equal. unfold fr. lia.
  - intros x Hx Hf. rewrite S3 by (unfold sp', rng in *; lia). rewrite S1. by apply st_outside.
Qed.

(** The first [c] strings. *)
Lemma push_loop ary ss off c : cstrings k rs ary ss -> 0 <= off -> 8 * off + 8 * Z.of_nat (length ss) <= n ->
  forall m sp, (c <= length ss)%nat -> work m ->
  let cp := copy + 8 * off in
  let low := sp - psize (take c ss) in
  STACK_LOW <= low -> sp <= STACK_BASE ->
  exists m', run (mbody (push_body ary cp)) (S c) ((Z.of_nat c - 1, sp), with_mem m k1) = inr (Ok low (with_mem m' k1)) /\ work m' /\
    (forall i, (i < c)%nat -> ld 8 m' (cp - KERNEL_BASE_OFFSET + 8 * Z.of_nat i) = low + psize (take i ss)) /\
    (forall j b, packed (take c ss) !! j = Some b -> m' (fr (low + Z.of_nat j)) = b) /\
    (forall x, ~ rng (cp - KERNEL_BASE_OFFSET) (8 * Z.of_nat c) x -> ~ rng (fr low) (sp - low) x -> m' x = m x).
Proof using space regions D_used stack frames apart buffer taken.
  intros V Hoff Hn. induction c as [|c IH]; intros m sp Hc Hm cp low Hlow Hsp.
  - assert (psize (take 0 ss) = 0) as E0 by done. exists m. replace low with sp by (unfold low; rewrite E0; lia). split; [by apply mbody_done|].
    split; [done|]. split; [lia|]. done.
  - destruct (lookup_lt_is_Some_2 ss c) as [s Hs]; [lia|]. pose proof (psize_snoc ss c s Hs) as Hps.
    pose proof (Nat2Z.is_nonneg (length (packed (take c ss)))) as Hp0. fold (psize (take c ss)) in Hp0.
    destruct (push_one ary ss off c s sp m V Hs Hoff Hn Hm) as (m1 & Hrun1 & Hm1 & P1 & B1 & F1); [unfold low in *; lia|done|].
    set (sp' := sp - (Z.of_nat (length s) + 1)) in *.
    assert (low = sp' - psize (take c ss)) as El by (unfold low, sp'; lia).
    destruct (IH m1 sp') as (m2 & Hrun2 & Hm2 & P2 & B2 & F2); [lia|done|lia|unfold sp'; lia|]. rewrite <- El in *. fold cp in Hrun2, P1, P2, F1, F2.
    assert (forall x, rng (cp - KERNEL_BASE_OFFSET) (8 * Z.of_nat (S c)) x -> ~ rng (fr low) (sp - low) x) as Hd.
    { intros x Hx Hf. apply (not_buffer x).
      - apply frames. unfold fr, rng, sp', STACK_LOW, STACK_BASE, STACK_SIZE in *. lia.
      - unfold block_bytes, rng, cp in *. lia. }
    exists m2. split; [|split; [done|split; [|split]]].
    + erewrite mbody_next; [exact Hrun2|]. replace (Z.of_nat (S c) - 1) with (Z.of_nat c) by lia. exact Hrun1.
    + intros i Hi. destruct (Nat.eq_dec i c) as [->|]; [|rewrite P2 by lia; lia].
      transitivity (ld 8 m1 (cp - KERNEL_BASE_OFFSET + 8 * Z.of_nat c)); [|rewrite P1; unfold low, sp'; lia].
      apply ld_ext. intros x Hx. apply F2; [unfold rng in *; lia|]. intros Hf. apply (Hd x); unfold rng, sp' in *; lia.
    + intros j b Hb. rewrite (packed_snoc ss c s Hs), lookup_app in Hb.
      destruct (packed (take c ss) !! j) as [b'|] eqn:Ej; [injection Hb as <-; by apply B2|].
      apply lookup_ge_None in Ej. pose proof (lookup_lt_Some _ _ _ Hb) as Hj. rewrite length_app in Hj. cbn in Hj.
      replace (low + Z.of_nat j) with (sp' + Z.of_nat (j - length (packed (take c ss)))) by (unfold psize in El; lia).
      rewrite <- (B1 _ _ Hb). apply F2.
      * intros Hx. apply (Hd (fr (sp' + Z.of_nat (j - length (packed (take c ss)))))); unfold rng, fr in *; lia.
      * unfold rng, fr. lia.
    + intros x Hx Hf. rewrite F2, F1; [done|unfold rng in *; lia|unfold rng, fr, sp' in *; lia|unfold rng in *; lia|unfold rng, fr, sp' in *; lia].
Qed.
Lemma push_args_run ary ss off m sp : cstrings k rs ary ss -> 0 <= off -> 8 * off + 8 * Z.of_nat (length ss) <= n ->
  work m ->
  let cp := copy + 8 * off in
  let low := sp - psize ss in
  STACK_LOW <= low -> sp <= STACK_BASE ->
  exists m', push_args ary cp (Z.of_nat (length ss)) sp (with_mem m k1) = Ok low (with_mem m' k1) /\ work m' /\
    (forall i, (i < length ss)%nat -> ld 8 m' (cp - KERNEL_BASE_OFFSET + 8 * Z.of_nat i) = low + psize (take i ss)) /\
    (forall j b, packed ss !! j = Some b -> m' (fr (low + Z.of_nat j)) = b) /\
    (forall x, ~ rng (cp - KERNEL_BASE_OFFSET) (8 * Z.of_nat (length ss)) x -> ~ rng (fr low) (sp - low) x -> m' x = m x).
Proof using space regions D_used stack frames apart buffer taken.
  intros V Hoff Hn Hm cp low Hlow Hsp.
  pose proof (push_loop ary ss off (length ss) V Hoff Hn m sp (le_n _) Hm) as H. cbn zeta in H. rewrite firstn_all in H.
  destruct (H Hlow Hsp) as (m' & Hrun & Hrest). exists m'. split; [|exact Hrest].
  destruct (covered_low k a rs space regions ary _ (cv_covered _ _ _ _ V) ltac:(lia)).
  unfold push_args. eapply mloop_result; [exact Hrun|lia].
Qed.

(** ** Pushing the vectors *)

Definition vec_body (st : Z * Z) : cmd (kstate W) ((Z * Z) + Z) :=
  let '(i, sp) := st in
  if 0 <=? i then
    c ← vload_n 8 (copy + 8 * i);
    vstore_n 8 (u64 (sp - 8)) c ;;
    mret (inl (i - 1, u64 (sp - 8)))
  else mret (inr sp).

Lemma vec_loop c : 8 * Z.of_nat c <= n -> forall m sp, work m ->
  STACK_LOW <= sp - 8 * Z.of_nat c -> sp <= STACK_BASE ->
  let low := sp - 8 * Z.of_nat c in
  exists m', run (mbody vec_body) (S c) ((Z.of_nat c - 1, sp), with_mem m k1) = inr (Ok low (with_mem m' k1)) /\ work m' /\
    (forall i, (i < c)%nat -> ld 8 m' (fr (low + 8 * Z.of_nat i)) = ld 8 m (copy - KERNEL_BASE_OFFSET + 8 * Z.of_nat i)) /\
    (forall x, ~ rng (fr low) (8 * Z.of_nat c) x -> m' x = m x).
Proof using space D_used stack frames buffer taken.
  induction c as [|c IH]; intros Hn m sp Hm H1 H2 low.
  - exists m. replace low with sp by (unfold low; lia). split; [by apply mbody_done|]. split; [done|]. split; [lia|done].
  - pose proof (copy_window (8 * Z.of_nat c) 8 ltac:(lia) ltac:(lia)) as Hw.
    assert (STACK_LOW <= sp - 8 * Z.of_nat (S c)) as H1' by done.
    unfold STACK_LOW, STACK_BASE, STACK_SIZE in H1, H2.
    destruct (window_store_n 8 (sp - 8) (fr (sp - 8)) (ld 8 m (copy - KERNEL_BASE_OFFSET + 8 * Z.of_nat c)) m Hm) as (m1 & Hst & Hm1 & S1).
    { apply stack_window; unfold STACK_LOW, STACK_BASE, STACK_SIZE; lia. }
    destruct (IH ltac:(lia) m1 (sp - 8)) as (m2 & Hrun & Hm2 & P2 & F2); [done|lia|unfold STACK_BASE; lia|].
    replace (sp - 8 - 8 * Z.of_nat c) with low in * by (unfold low; lia).
    exists m2. split; [|split; [done|split]].
    + erewrite mbody_next; [exact Hrun|]. unfold vec_body. replace (Z.of_nat (S c) - 1) with (Z.of_nat c) by lia.
      rewrite (proj2 (Z.leb_le _ _)) by lia. rewrite (bind_ok _ _ _ _ _ (window_load_n 8 _ _ m Hm Hw)), (u64_small (sp - 8)) by lia.
      by rewrite (bind_ok _ _ _ _ _ Hst).
    + intros i Hi. destruct (Nat.eq_dec i c) as [->|].
      * replace (low + 8 * Z.of_nat c) with (sp - 8) by (unfold low; lia).
        rewrite (ld_ext 8 m2 (st 8 m (fr (sp - 8)) (ld 8 m (copy - KERNEL_BASE_OFFSET + 8 * Z.of_nat c)))).
        -- rewrite ld_st. apply Z.mod_small. apply (ld_range 8).
        -- intros x Hx. rewrite <- S1. apply F2. unfold rng, fr, low in *. lia.
      * rewrite P2 by lia. apply ld_ext. intros x Hx. rewrite S1. apply st_outside. intros Hf. apply (not_buffer x).
        -- apply frames. unfold rng, fr, STACK_LOW, STACK_BASE, STACK_SIZE in *. lia.
        -- unfold block_bytes, rng in *. lia.
    + intros x Hx. rewrite F2, S1 by (unfold rng, fr, low in *; lia). apply st_outside. unfold rng, fr, low in *. lia.
Qed.

(** ** Both vectors *)

(** The stack pointer from which the vectors of [N] words are pushed. *)
Definition align_sp (sp N : Z) : Z :=
  let sp := Z.land sp (u64 (-0x10)) in if nonzero (Z.land (N + 1) 1) then u64 (sp - 8) else sp.

Lemma align_sp_spec sp N : 24 <= sp < 2 ^ 64 -> 0 <= N ->
  sp - 24 < align_sp sp N <= sp /\ (align_sp sp N - 8 * (N + 1)) mod 16 = 0.
Proof using.
  intros Hsp HN. unfold align_sp. change (u64 (-0x10)) with (2 ^ 64 - 2 ^ 4). rewrite (land_high 64 4) by lia.
  change (Z.land (N + 1) 1) with (Z.land (N + 1) (2 ^ 1 - 1)). rewrite land_low by lia. change (2 ^ 1) with 2. change (2 ^ 4) with 16.
  pose proof (Z.mod_pos_bound sp 16). pose proof (Z.div_mod sp 16). pose proof (Z.mod_pos_bound (N + 1) 2). pose proof (Z.div_mod (N + 1) 2).
  unfold nonzero. destruct (Z.eqb_spec ((N + 1) mod 2) 0) as [E|E]; cbn [negb].
  - split; [lia|]. symmetry. apply (Z.mod_unique _ _ (sp / 16 - (N + 1) / 2)); lia.
  - rewrite u64_small by lia. split; [lia|]. symmetry. apply (Z.mod_unique _ _ (sp / 16 - (N + 1) / 2 - 1)); lia.
Qed.

(** In memory [M], a terminated vector at [v] of the strings [ss], packed at [base]. *)
Record vector_at (M : mem) (v base : Z) (ss : list (list Z)) : Prop := VectorAt {
  va_pointers : forall i, (i < length ss)%nat -> ld 8 M (v + 8 * Z.of_nat i) = base + psize (take i ss);
  va_end : ld 8 M (v + 8 * Z.of_nat (length ss)) = 0;
  va_bytes : forall j b, packed ss !! j = Some b -> M (base + Z.of_nat j) = b
}.

(** The stack as memory of its own. *)
Definition smem (m : mem) : mem := fun va => m (fr va).
Lemma ld_smem c m va : ld c (smem m) va = ld c m (fr va).
Proof using. apply ld_shift. intros i Hi. unfold smem, fr. f_equal. lia. Qed.

Lemma build_run argv envp args envs m sp :
  let argc := Z.of_nat (length args) in
  let envc := Z.of_nat (length envs) in
  let N := argc + envc + 2 in
  let low := align_sp (sp - psize envs - psize args) N - 8 * N in
  cstrings k rs argv args -> cstrings k rs envp envs -> n = 8 * N -> work m ->
  (forall x, block_bytes copy n x -> m x = 0) ->
  STACK_LOW + psize args + psize envs + 24 + 8 * N <= sp -> sp <= STACK_BASE ->
  exists m', (forall B (g : Z -> cmd (kstate W) B),
      (sp ← push_args envp (copy + 8 * (argc + 1)) envc sp;
       sp ← push_args argv copy argc sp;
       let sp := Z.land sp (u64 (-0x10)) in
       let sp := if nonzero (Z.land (argc + 1 + envc + 1 + 1) 1) then u64 (sp - 8) else sp in
       sp ← mloop vec_body (argc + envc + 1, sp); g sp) (with_mem m k1) = g low (with_mem m' k1)) /\
    work m' /\ STACK_LOW <= low /\
    vector_at (smem m') low (sp - psize envs - psize args) args /\
    vector_at (smem m') (low + 8 * (argc + 1)) (sp - psize envs) envs.
Proof using space regions D_used stack frames apart buffer taken.
  intros argc envc N low Va Ve En Hm Hz H1 H2. pose proof (Nat2Z.is_nonneg (length (packed args))) as Pa.
  pose proof (Nat2Z.is_nonneg (length (packed envs))) as Pe. fold (psize args) in Pa. fold (psize envs) in Pe.
  destruct (push_args_run envp envs (argc + 1) m sp Ve ltac:(lia) ltac:(lia) Hm ltac:(lia) H2) as (m1 & Hrun1 & Hm1 & P1 & B1 & F1).
  set (sp1 := sp - psize envs) in *.
  destruct (push_args_run argv args 0 m1 sp1 Va ltac:(lia) ltac:(lia) Hm1 ltac:(lia) ltac:(lia)) as (m2 & Hrun2 & Hm2 & P2 & B2 & F2).
  set (sp2 := sp1 - psize args) in *. rewrite Z.mul_0_r, Z.add_0_r in *.
  destruct (align_sp_spec sp2 N) as [A1 A2]; [unfold sp2, sp1, STACK_LOW, STACK_BASE, STACK_SIZE in *; lia|lia|]. set (sp3 := align_sp sp2 N) in *.
  destruct (vec_loop (Z.to_nat N) ltac:(lia) m2 sp3 Hm2 ltac:(lia) ltac:(lia)) as (m3 & Hrun3 & Hm3 & P3 & F3).
  rewrite Z2Nat.id in * by lia. change (sp3 - 8 * N) with low in Hrun3, P3, F3.
  assert (forall x, block_bytes copy n x -> ~ rng (fr sp1) (sp - sp1) x /\ ~ rng (fr sp2) (sp1 - sp2) x) as Hd.
  { intros x Hx. split; intros Hf; apply (not_buffer x); try done; apply frames; unfold rng, fr, sp1, sp2, STACK_LOW, STACK_BASE, STACK_SIZE in *; lia. }
  (* a word of the buffer that only the first push may have written *)
  assert (forall i, argc <= i < N -> ld 8 m2 (copy - KERNEL_BASE_OFFSET + 8 * i) = ld 8 m1 (copy - KERNEL_BASE_OFFSET + 8 * i)) as W2.
  { intros i Hi. apply ld_ext. intros x Hx. apply F2; [unfold rng in *; lia|]. apply Hd. unfold block_bytes, rng in *. lia. }
  assert (forall i, i = argc \/ i = N - 1 -> ld 8 m2 (copy - KERNEL_BASE_OFFSET + 8 * i) = 0) as W0.
  { intros i Hi. rewrite W2 by lia. rewrite (ld_ext 8 m1 (fun _ => 0)); [done|]. intros x Hx.
    assert (block_bytes copy n x) as Hb by (unfold block_bytes, rng in *; lia).
    rewrite F1; [by apply Hz|unfold rng in *; lia|by apply Hd]. }
  assert (forall i, 0 <= i < N -> ld 8 (smem m3) (low + 8 * i) = ld 8 m2 (copy - KERNEL_BASE_OFFSET + 8 * i)) as W3.
  { intros i Hi. rewrite ld_smem. specialize (P3 (Z.to_nat i) ltac:(lia)). by rewrite Z2Nat.id in P3 by lia. }
  exists m3. split; [|split; [done|split; [unfold low; lia|split]]].
  - intros B g. rewrite (bind_ok _ _ _ _ _ Hrun1), (bind_ok _ _ _ _ _ Hrun2). cbv zeta.
    replace (argc + 1 + envc + 1 + 1) with (N + 1) by lia. replace (argc + envc + 1) with (N - 1) by lia.
    fold (align_sp sp2 N). fold sp3. erewrite bind_ok; [reflexivity|]. eapply mloop_result; [exact Hrun3|].
    unfold STACK_LOW, STACK_BASE, STACK_SIZE in *. lia.
  - split.
    + intros i Hi. rewrite W3 by lia. by apply P2.
    + rewrite W3 by lia. apply W0. by left.
    + intros j b Hb. unfold smem. pose proof (lookup_lt_Some _ _ _ Hb). rewrite F3; [by apply B2|]. unfold rng, fr, low. lia.
  - split.
    + intros i Hi. replace (low + 8 * (argc + 1) + 8 * Z.of_nat i) with (low + 8 * (argc + 1 + Z.of_nat i)) by lia.
      rewrite W3, W2 by lia. rewrite <- P1 by done. f_equal. lia.
    + replace (low + 8 * (argc + 1) + 8 * Z.of_nat (length envs)) with (low + 8 * (N - 1)) by lia.
      rewrite W3 by lia. apply W0. by right.
    + intros j b Hb. unfold smem. pose proof (lookup_lt_Some _ _ _ Hb). unfold psize in sp1.
      rewrite F3 by (unfold rng, fr, low; lia). rewrite F2; [by apply B1| |unfold rng, fr; lia].
      intros Hx. apply (not_buffer (fr (sp1 + Z.of_nat j))); [|unfold block_bytes, rng in *; lia].
      apply frames. unfold psize, rng, fr, sp1, STACK_LOW, STACK_BASE, STACK_SIZE in *. lia.
Qed.
End Push.

(** ** What the program finds *)

Lemma packed_split ss i : packed ss = packed (take i ss) ++ packed (drop i ss).
Proof. unfold packed. by rewrite <- concat_app, <- map_app, take_drop. Qed.
Lemma packed_at ss i s j b :
  ss !! i = Some s -> (s ++ [0]) !! j = Some b -> packed ss !! (length (packed (take i ss)) + j)%nat = Some b.
Proof.
  intros Hs Hb. rewrite (packed_split ss (S i)), (packed_snoc ss i s Hs), <- app_assoc, lookup_app_r by lia.
  rewrite Nat.add_comm, Nat.add_sub. by apply lookup_app_l_Some.
Qed.
Lemma psize_take ss i s : ss !! i = Some s -> 0 <= psize (take i ss) /\ psize (take i ss) + Z.of_nat (length s) + 1 <= psize ss.
Proof.
  intros Hs. split; [unfold psize; lia|]. rewrite <- (psize_snoc ss i s Hs). unfold psize.
  rewrite (packed_split ss (S i)), length_app. lia.
Qed.

(** Vectors and strings on the stack depend on the stack only. *)
Lemma vector_at_ext M M' v base ss :
  (forall x, rng v (8 * (Z.of_nat (length ss) + 1)) x \/ rng base (psize ss) x -> M' x = M x) ->
  vector_at M v base ss -> vector_at M' v base ss.
Proof.
  intros H [P1 P2 P3].
  assert (forall i, (i <= length ss)%nat -> ld 8 M' (v + 8 * Z.of_nat i) = ld 8 M (v + 8 * Z.of_nat i)) as Hl.
  { intros i Hi. apply ld_ext. intros x Hx. apply H. left. unfold rng in *. lia. }
  split; [intros i Hi; rewrite Hl by lia; auto|by rewrite Hl|].
  intros j b Hb. pose proof (lookup_lt_Some _ _ _ Hb). rewrite H; [auto|]. right. unfold rng, psize. lia.
Qed.

Definition stack_region (f : Z) (stk : Z -> Z) : region := Region STACK_LOW f STACK_SIZE PROT_RW stk.

Section Found.
Context {W : Type}.
Implicit Types k : kstate W.

Lemma stack_covered f stk p n : STACK_LOW <= p -> p + n <= STACK_BASE -> covered [stack_region f stk] p n.
Proof.
  intros H1 H2 va Hva. exists (stack_region f stk). split; [left|]. split; [|done].
  unfold in_region, STACK_LOW, STACK_BASE, STACK_SIZE in *. cbn. unfold STACK_LOW, STACK_BASE, STACK_SIZE. lia.
Qed.
Lemma stack_umem k a f stk va :
  uspace k a -> region_ok k a (stack_region f stk) -> STACK_LOW <= va < STACK_BASE ->
  umem k va = smem f (guest (k_vm k)) va.
Proof.
  intros U R Hva. unfold umem, frame. destruct (region_walk k a _ va (proj1 U) R) as [-> _]; [|done].
  unfold in_region, STACK_LOW, STACK_BASE, STACK_SIZE in *. cbn. unfold STACK_LOW, STACK_BASE, STACK_SIZE. lia.
Qed.

(** The vector of the caller is a vector of strings of the program. *)
Lemma vector_cstrings k a f stk v base ss k0 rs0 ary :
  uspace k a -> region_ok k a (stack_region f stk) -> cstrings k0 rs0 ary ss ->
  STACK_LOW <= v -> v + 8 * (Z.of_nat (length ss) + 1) <= STACK_BASE -> STACK_LOW <= base -> base + psize ss <= STACK_BASE ->
  vector_at (smem f (guest (k_vm k))) v base ss -> cstrings k [stack_region f stk] v ss.
Proof.
  intros U R [_ V2 _] H1 H2 H3 H4 [P1 P2 P3].
  assert (forall i, (i <= length ss)%nat -> uword k (v + 8 * Z.of_nat i) = ld 8 (smem f (guest (k_vm k))) (v + 8 * Z.of_nat i)) as Hu.
  { intros i Hi. apply ld_ext. intros x Hx. eapply stack_umem; [exact U|exact R|]. unfold rng in Hx. lia. }
  split; [by apply stack_covered| |by rewrite Hu].
  intros i s Hs. pose proof (lookup_lt_Some _ _ _ Hs) as Hi. destruct (psize_take ss i s Hs) as [Q1 Q2].
  rewrite Hu, P1 by lia. destruct (V2 i s Hs) as [C1 _ C3]. split; [done|apply stack_covered; lia|].
  intros j b Hb. pose proof (lookup_lt_Some _ _ _ Hb) as Hj. rewrite length_app in Hj. cbn in Hj.
  rewrite (stack_umem k a f stk) by (done || lia).
  replace (base + psize (take i ss) + Z.of_nat j) with (base + Z.of_nat (length (packed (take i ss)) + j)) by (unfold psize; lia).
  rewrite (P3 _ _ (packed_at ss i s j b Hs Hb)). rewrite <- (C3 j b Hb). unfold u8. by rewrite Zmod_mod.
Qed.

(** The stack the call needs at most. *)
Definition vec_words (args envs : list (list Z)) : Z := Z.of_nat (length args) + Z.of_nat (length envs) + 2.
Definition stack_need (args envs : list (list Z)) : Z := psize args + psize envs + 24 + 8 * (vec_words args envs + 1).

(** Everything up to the return of the kernel buffer. *)
Lemma create_built k a rs f stk p argv envp args envs :
  uspace k a -> Forall (region_ok k a) rs -> region_ok k a (stack_region f stk) ->
  (forall r x, r ∈ rs -> rng (rg_frame r) (rg_len r) x -> ~ rng f STACK_SIZE x) ->
  cstrings k rs argv args -> cstrings k rs envp envs ->
  STACK_LOW + stack_need args envs <= p_rsp p <= STACK_BASE -> chunk_size (8 * vec_words args envs) <= room a ->
  let al : al_state := (a, full_blocks a) in
  let argc := Z.of_nat (length args) in
  exists low k4, create_elf_info p argv envp k =
      (vstore_n 8 (u64 (low - 8)) argc ;;
       mret (inr (Process (load_addr p) (p_entry p) (stack_base p) (stack_size p) (u64 (low - 8))))) k4 /\
    balanced k al (rng f STACK_SIZE) k4 /\ host (k_vm k4) = host (k_vm k) /\ (low - 8) mod 16 = 0 /\
    STACK_LOW + 8 <= low /\ low + 8 * vec_words args envs <= p_rsp p - psize envs - psize args /\
    vector_at (smem f (guest (k_vm k4))) low (p_rsp p - psize envs - psize args) args /\
    vector_at (smem f (guest (k_vm k4))) (low + 8 * (argc + 1)) (p_rsp p - psize envs) envs.
Proof.
  intros U HF R Hap Va Ve Hsp Hroom al argc. set (N := vec_words args envs) in *. unfold stack_need in Hsp. fold N in Hsp.
  assert (0 <= psize args /\ 0 <= psize envs) as [Pa Pe] by (unfold psize; lia).
  pose proof (eq_refl : N = Z.of_nat (length args) + Z.of_nat (length envs) + 2) as EN.
  assert (2 <= N /\ 8 * N < 2 ^ 31) as [HN HN'] by (unfold N, vec_words, STACK_LOW, STACK_BASE, STACK_SIZE in *; lia).
  pose proof U as [[I S] Hs]. pose proof I as [_ W0].
  destruct (take_buffer k al (8 * N) 0) as (copy & k1 & a1 & Hrun1 & I1 & E1 & B1 & [_ T1] & P & O1 & A1 & H1 & Z1);
    [by apply full_inv|lia|lia|unfold room in Hroom; cbn; lia|].
  assert (forall x, used a x -> ~ free_byte al x) as Huf by (intros x; by apply used_not_unused).
  assert (forall x, rng f STACK_SIZE x -> used a x /\ ~ kentry k x) as Hfu.
  { intros x Hx. split; [by apply (pages_used a f STACK_SIZE); [apply R|]|by apply (ro_bytes _ _ _ R)]. }
  assert (near k a (rng f STACK_SIZE) k1) as N1.
  { split; [apply O1| |intros x Hx; by apply Hfu]. intros x Hu _. apply O1. auto. }
  destruct (build_run k a rs U HF (rng f STACK_SIZE) (fun x Hx => proj1 (Hfu x Hx)) Hap k1 copy (8 * N) P N1 f stk R (fun x Hx => Hx) argv envp args envs (guest (k_vm k1)) (p_rsp p) Va Ve)
    as (m & Hrun2 & Hm & Hlow & Vb1 & Vb2); [done|intros x _ _; done|exact Z1|lia|lia|].
  change (Z.of_nat (length args) + Z.of_nat (length envs) + 2) with N in Hrun2, Hlow, Vb1, Vb2. fold argc in Hrun2, Vb2.
  set (low := align_sp (p_rsp p - psize envs - psize args) N - 8 * N) in *.
  destruct (align_sp_spec (p_rsp p - psize envs - psize args) N) as [L1 L2]; [unfold STACK_LOW, STACK_BASE, STACK_SIZE in *; lia|lia|].
  set (k3 := with_mem m k1).
  assert (forall x, unused (al_heap a1) (al_blocks a1) x -> m x = guest (k_vm k1) x) as Hun.
  { intros x. rewrite E1, B1. intros [Hx Hb]%unused_cons. apply Hm; [|done]. intros Hf. by apply (Huf x); [apply Hfu|]. }
  destruct (give_buffer k k3 al a1 a1 copy (8 * N) (rng f STACK_SIZE)) as (k4 & Hrun4 & Bal & H4 & G4); try done.
  { exact (al_write _ _ _ _ I1 Hun). }
  { by rewrite B1. }
  { intros x Hx Hf. change (guest (k_vm k3) x) with (m x). rewrite Hm; [by apply O1|done|]. intros Hb. by apply Hx, P. }
  exists low, k4. split; [|split; [done|split; [by rewrite H4|split; [|split; [unfold low; lia|split; [unfold low; lia|]]]]]].
  - unfold create_elf_info. rewrite (bind_ok _ _ _ _ _ (count_run k a rs U HF argv args Va)).
    rewrite (proj2 (Z.ltb_ge _ _)) by lia. rewrite (bind_ok _ _ _ _ _ (count_run k a rs U HF envp envs Ve)).
    rewrite (proj2 (Z.ltb_ge _ _)) by lia.
    replace ((Z.of_nat (length args) + Z.of_nat (length envs) + 2) * 8) with (8 * N) by (unfold N, vec_words; lia).
    rewrite (bind_ok _ _ _ _ _ Hrun1). rewrite <- (put_heap_id k1 : with_mem (guest (k_vm k1)) k1 = k1) at 1.
    unfold vec_body in Hrun2. rewrite Hrun2. by rewrite (bind_ok _ _ _ _ _ Hrun4).
  - replace (low - 8) with (align_sp (p_rsp p - psize envs - psize args) N - 8 * (N + 1)) by (unfold low; lia). exact L2.
  - assert (forall va, STACK_LOW <= va < STACK_BASE -> smem f (guest (k_vm k4)) va = smem f m va) as Hst.
    { intros va Hva. apply (G4 (fr f va)). apply Huf, Hfu. unfold rng, fr, STACK_LOW, STACK_BASE, STACK_SIZE in *. lia. }
    split; (eapply vector_at_ext; [|eassumption]); intros x [Hx|Hx]; apply Hst; unfold rng, low, argc in *; lia.
Qed.

(** What a program has after the call. *)
Record started k (a : aheap) (f rsp : Z) (stk : Z -> Z) (args envs : list (list Z)) : Prop := Started {
  sd_space : uspace k a;
  sd_stack : region_ok k a (stack_region f stk);
  sd_aligned : rsp mod 16 = 0;
  sd_low : STACK_LOW <= rsp;
  sd_argc : uword k rsp = Z.of_nat (length args);
  sd_argv : cstrings k [stack_region f stk] (rsp + 8) args;
  sd_envp : cstrings k [stack_region f stk] (rsp + 8 * (Z.of_nat (length args) + 2)) envs
}.

(** A state that has kept all blocks and has written only to the frames of the stack. *)
Lemma balanced_space k a f stk k4 m :
  let al : al_state := (a, full_blocks a) in
  uspace k a -> 0 < room a -> region_ok k a (stack_region f stk) -> balanced k al (rng f STACK_SIZE) k4 ->
  (forall x, ~ rng f STACK_SIZE x -> m x = guest (k_vm k4) x) ->
  let k' := with_mem m k4 in
  exists a', uspace k' a' /\ kkeeps k a k' a' (rng f STACK_SIZE) /\ same_machine k k' /\
    (forall va, user_va va -> kleaf k' va = kleaf k va) /\ near k a (rng f STACK_SIZE) k' /\
    region_ok k' a' (stack_region f (fun i => m (f + i))) /\ room a <= room a'.
Proof.
  intros al U Hr R Bal Hm k'. pose proof U as [[[_ W0] _] _].
  assert (forall x, rng f STACK_SIZE x -> used a x /\ ~ kentry k x) as Hfu.
  { intros x Hx. split; [by apply (pages_used a f STACK_SIZE); [apply R|]|by apply (ro_bytes _ _ _ R)]. }
  destruct (balanced_quiet k a (rng f STACK_SIZE) k4 m U Hr Bal Hfu Hm) as (a' & U' & K' & M' & L' & R'). fold k' in U', K', M', L'.
  pose proof (same_cr3 _ _ M') as Hc. destruct Bal as (_ & _ & G4).
  exists a'. do 4 (split; [done|]). split; [|split; [|done]].
  - split; [done| |intros x Hx; by apply Hfu]. intros x Hx Hn. change (m x = guest (k_vm k) x). rewrite Hm by done.
    apply G4; [|done]. by apply used_not_unused.
  - pose proof R as [Rr Rf Rp Rm Rb]. pose proof K' as [KA _ _ _ KN]. split; cbn in *; auto.
    + intros j Hj Hp. apply (usable_allocs a); auto.
    + intros va Hva. unfold mapped_at. rewrite L'; [by apply Rm|]. by apply Rr.
    + intros x Hx. change (guest (k_vm k') x) with (m x). split; [f_equal; lia|]. unfold kentry. rewrite Hc. intros Hx'.
      destruct (KN x Hx') as [H|Ho]; [by apply (Hfu x)|]. by apply (used_not_own a x W0); [apply Hfu|].
Qed.

Lemma create_elf_run k a rs f stk p argv envp args envs :
  uspace k a -> Forall (region_ok k a) rs -> region_ok k a (stack_region f stk) ->
  (forall r x, r ∈ rs -> rng (rg_frame r) (rg_len r) x -> ~ rng f STACK_SIZE x) ->
  cstrings k rs argv args -> cstrings k rs envp envs ->
  STACK_LOW + stack_need args envs <= p_rsp p <= STACK_BASE -> chunk_size (8 * vec_words args envs) <= room a ->
  exists rsp k' a' stk', create_elf_info p argv envp k =
      Ok (inr (Process (load_addr p) (p_entry p) (stack_base p) (stack_size p) rsp)) k' /\
    started k' a' f rsp stk' args envs /\ kkeeps k a k' a' (rng f STACK_SIZE) /\ same_machine k k' /\
    (forall va, user_va va -> kleaf k' va = kleaf k va) /\ room a <= room a'.
Proof.
  intros U HF R Hap Va Ve Hsp Hroom. set (argc := Z.of_nat (length args)).
  assert (0 <= psize args /\ 0 <= psize envs) as [Pa Pe] by (unfold psize; lia).
  destruct (create_built k a rs f stk p argv envp args envs U HF R Hap Va Ve Hsp Hroom)
    as (low & k4 & -> & Bal & _ & Hal & L1 & L2 & V1 & V2). fold argc in V2 |- *.
  pose proof (eq_refl : vec_words args envs = argc + Z.of_nat (length envs) + 2) as EN. unfold stack_need in Hsp.
  assert (0 < room a) as Hr.
  { destruct (chunk_size_request (8 * vec_words args envs)) as [[Hc _] _]; [|lia]. unfold STACK_LOW, STACK_BASE, STACK_SIZE in *. lia. }
  assert (fresh_buffer ((a, full_blocks a) : al_state) KERNEL_BASE_OFFSET 0) as B0.
  { split; [done|]. split; [done|]. intros x Hx. unfold block_bytes, rng in Hx. lia. }
  destruct (balanced_space k a f stk k4 (guest (k_vm k4)) U Hr R Bal ltac:(done)) as (_ & _ & _ & _ & _ & N4 & _).
  rewrite (put_heap_id k4 : with_mem (guest (k_vm k4)) k4 = k4) in N4.
  destruct (window_store_n (rng f STACK_SIZE) k4 KERNEL_BASE_OFFSET 0 8 (low - 8) (fr f (low - 8)) argc (guest (k_vm k4))) as (m & Hst & Hm & S1).
  { intros x _ _. done. }
  { apply (stack_window k a U (rng f STACK_SIZE) k4 KERNEL_BASE_OFFSET 0 B0 N4 f stk R (fun x Hx => Hx)); lia. }
  rewrite (put_heap_id k4 : with_mem (guest (k_vm k4)) k4 = k4) in Hst.
  destruct (balanced_space k a f stk k4 m U Hr R Bal) as (a' & U' & K' & M' & L' & N' & R' & Hr').
  { intros x Hx. apply Hm; [done|]. unfold block_bytes, rng. lia. }
  rewrite (u64_small (low - 8)) by (unfold STACK_LOW, STACK_BASE, STACK_SIZE in *; lia). rewrite (bind_ok _ _ _ _ _ Hst).
  exists (low - 8), (with_mem m k4), a', (fun i => m (f + i)). split; [reflexivity|]. split; [|done].
  assert (forall va, low <= va -> smem f (guest (k_vm (with_mem m k4))) va = smem f (guest (k_vm k4)) va) as Hs.
  { intros va Hva. unfold smem. change (m (fr f va) = guest (k_vm k4) (fr f va)). rewrite S1. apply st_outside. unfold rng, fr. lia. }
  split; [done|done|done|lia| | |].
  - unfold uword. rewrite (ld_ext 8 _ (smem f m)).
    + rewrite ld_smem, (ld_ext 8 m (st 8 (guest (k_vm k4)) (fr f (low - 8)) argc)) by (intros x _; apply S1).
      rewrite ld_st. apply Z.mod_small. change (256 ^ Z.of_nat 8) with (2 ^ 64). unfold STACK_LOW, STACK_BASE, STACK_SIZE in *. lia.
    + intros x Hx. apply (stack_umem (with_mem m k4) a' f (fun i => m (f + i))); [done|done|]. unfold rng, STACK_BASE in *. lia.
  - apply (vector_cstrings _ a' f _ _ (p_rsp p - psize envs - psize args) args k rs argv); try done; try lia.
    eapply vector_at_ext; [|replace (low - 8 + 8) with low by lia; exact V1]. intros x Hx. apply Hs. unfold rng in Hx. lia.
  - apply (vector_cstrings _ a' f _ _ (p_rsp p - psize envs) envs k rs envp); try done; try lia.
    fold argc. replace (low - 8 + 8 * (argc + 2)) with (low + 8 * (argc + 1)) by lia.
    eapply vector_at_ext; [|exact V2]. intros x Hx. apply Hs. unfold rng in Hx. lia.
Qed.
End Found.
