(* ===== verification/ExecProof.v ===== *)
(** * execve from the system call to user mode

    [sys_open] hands the system exactly the name in the user's memory; [sys_execve] opens
    the program, loads it, closes it, builds its stack and leaves for its entry point.  The
    parts compose: what one of them keeps is what the next one needs. *)

From S2P Require Import Prelude Memory Arch KString Kmalloc KmallocSpec KmallocProof KmallocRefine.
From S2P Require Import KmallocSafety KmallocIface Translate TranslateProof PageTables AddressSpace Hypercall Hypervisor.
From S2P Require Import HypercallProof HypervisorProof Kernel Exec KernelProof SyscallProof MmapProof FileMap ElfProof.
From S2P Require Import UserStrings StackProof.

(** Documented behaviour of open(2): an error number, or a descriptor. *)
Definition open_documented {W} (os : host_os W) : Prop := forall w name,
  match os_open os w name with
  | (_, inl e) => 1 <= e <= 4095
  | (_, inr n) => 0 <= n < 2 ^ 31
  end.

(** A copy of a string of the user, as the hypervisor sees it. *)
Lemma string_copied {W} (k : kstate W) rs path s m p :
  let len := Z.of_nat (length s) in
  cstring k rs path s -> (forall i b, (s ++ [0]) !! i = Some b -> m (p + Z.of_nat i) = b) ->
  0 <= p -> p + len < mem_size -> mem_bytes m p len = s /\ cstr m p len.
Proof.
  intros len [C1 _ C3] Hb Hp Hm. rewrite Forall_lookup in C1.
  assert (forall i b, (s ++ [0]) !! i = Some b -> u8 (m (p + Z.of_nat i)) = b) as Hu.
  { intros i b Es. rewrite (Hb i b Es), <- (C3 i b Es). unfold u8. by rewrite Zmod_mod. }
  split; [|split; [lia|split; [lia|split; [lia|split]]]].
  - apply list_eq. intros i. unfold mem_bytes. rewrite list_lookup_fmap. destruct (s !! i) as [b|] eqn:Es.
    + pose proof (lookup_lt_Some _ _ _ Es). rewrite lookup_seqZ_lt by lia. cbn. f_equal.
      apply Hu. by apply lookup_app_l_Some.
    + apply lookup_ge_None in Es. by rewrite lookup_seqZ_ge by lia.
  - intros j Hj. destruct (lookup_lt_is_Some_2 s (Z.to_nat j)) as [b Es]; [lia|].
    rewrite <- (Z2Nat.id j), (Hu _ b) by (lia || by apply lookup_app_l_Some). by apply (C1 _ _ Es).
  - unfold len. apply Hu. by rewrite lookup_app_r, Nat.sub_diag by done.
Qed.

Section Open.
Context {W : Type} (os : host_os W) (fails : ioctl -> bool).
Hypothesis kvm_works : forall i, fails i = false.
Hypothesis os_opens : open_documented os.
Implicit Types k : kstate W.

Lemma open_result_int v name : int_result (open_result os v name).1.1.
Proof using os_opens.
  unfold open_result, int_result. destruct (Z.ltb_spec MAX_FD (first_free (cur_fds v) 0)); [cbn; unfold ENFILE; lia|].
  pose proof (os_opens (host v) name) as Ho. destruct (os_open os (host v) name) as [w [e|n]]; cbn; [lia|].
  rewrite (proj2 (Z.ltb_ge _ _)) by lia. destruct (first_free_spec (cur_fds v) 0) as (F1 & _). cbn. unfold MAX_FD in *. lia.
Qed.

Lemma hp_open_run k p len :
  kernel_mode k -> 0 <= p -> cstr (guest (k_vm k)) p len ->
  let res := open_result os (k_vm k) (mem_bytes (guest (k_vm k)) p len) in
  exists v, hp_open os fails p k = Ok res.1.1 (KState v (k_arena k) (last_mmapped k) (msrs k)) /\
    guest v = guest (k_vm k) /\ cpu v = cpu (k_vm k) /\ cur_fds v = res.1.2 /\ host v = res.2.
Proof using kvm_works os_opens.
  intros Hk Hp Hc res. pose proof Hc as (_ & Hl & Hm & _). pose proof (eq_refl : mem_size = 0x400000) as Hms.
  set (v0 := set_data (u32 (u32 p)) (k_vm k)).
  assert (u32 (io_data v0) = p) as Hio by (cbn; by rewrite !(u32_small p) by lia).
  destruct (open_work_run os v0 len) as (v2 & Hw & M2 & H2 & G2 & I2 & C2); [by rewrite Hio|]. rewrite Hio in *.
  change (open_result os v0 (mem_bytes (guest v0) p len)) with res in *.
  destruct (int_result_s32 res.1.1 (open_result_int _ _)) as [Hs Hne].
  destruct (hypercall_run os fails k NR_HP_open (u32 p) SOpen (open_work os) res.1.1 v2)
    as (v3 & Hrun & G3 & M3 & H3 & I3 & C3); try done.
  exists v3. split; [exact Hrun|]. rewrite G3, G2, C3, C2, H3, H2. do 2 (split; [done|]). split; [|done].
  unfold cur_fds. by rewrite I3, M3, (proj2 (Z.eqb_neq _ _)).
Qed.

(** The kernel state but for its memory, the table of files and the system. *)
Definition same_cpu k k' : Prop :=
  cpu (k_vm k') = cpu (k_vm k) /\ last_mmapped k' = last_mmapped k /\ msrs k' = msrs k.

Lemma sys_open_run k a rs path s :
  uspace k a -> Forall (region_ok k a) rs -> kernel_mode k -> cstring k rs path s -> Z.of_nat (length s) < 2 ^ 31 - 1 ->
  chunk_size (Z.of_nat (length s) + 1) <= room a ->
  let res := open_result os (k_vm k) s in
  exists k' a', sys_open os fails path k = Ok res.1.1 k' /\ uspace k' a' /\
    (kkeeps k a k' a' (fun _ => False) /\ forall x, used a x -> guest (k_vm k') x = guest (k_vm k) x) /\
    (forall va, user_va va -> kleaf k' va = kleaf k va) /\ room a <= room a' /\
    same_cpu k k' /\ cur_fds (k_vm k') = res.1.2 /\ host (k_vm k') = res.2.
Proof using kvm_works os_opens.
  intros U HF Hk C Hlen Hroom res. set (len := Z.of_nat (length s)) in *. pose proof U as [[I S] Hs].
  pose proof (eq_refl : mem_size = MEM_SIZE) as Hms. pose proof (eq_refl : MEM_SIZE = 0x400000) as Hms'.
  pose proof (eq_refl : KERNEL_BASE_OFFSET = 2 ^ 39) as Hkb.
  set (al := ((a, full_blocks a) : al_state)).
  destruct (al_malloc (heap_of k) al (len + 1)) as (q & [m1 ar1] & a1 & Hq & I1 & E1 & B1 & R1 & Q1 & Q2 & Qu & Qf & _);
    [by apply full_inv|lia|exact Hroom|]. cbn in Qf.
  set (k1 := put_heap (Heap m1 ar1) k).
  assert (near k a (fun _ => False) k1) as N1.
  { split; [done| |tauto]. intros x Hx _. apply Qf. apply used_not_unused; [apply I|done]. }
  assert (fresh_buffer al q (len + 1)) as Bq by done.
  destruct (push_copy k a rs U HF (fun _ => False) (fun _ _ _ _ H => H) k1 q (len + 1) Bq N1 m1 q (q - KERNEL_BASE_OFFSET) path s)
    as (m2 & Hcp & Hm2 & Hb & Ho); [intros x _ _; done|done| |].
  { pose proof (copy_window a (fun _ => False) k1 q (len + 1) Bq 0 (len + 1)) as Hw. rewrite !Z.add_0_r in Hw. apply Hw; lia. }
  set (k2 := with_mem m2 k1). set (p := q - KERNEL_BASE_OFFSET) in *.
  destruct (string_copied k rs path s m2 p C Hb) as [Hname Hcs]; [lia..|]. fold len in Hname, Hcs.
  destruct (hp_open_run k2 p len Hk ltac:(lia) Hcs) as (v3 & Hrun3 & G3 & C3 & F3 & H3).
  change (guest (k_vm k2)) with m2 in *. rewrite Hname in *.
  change (open_result os (k_vm k2) s) with res in *. set (k3 := KState v3 _ _ _) in *.
  assert (al_inv (heap_of k3) a1) as I3.
  { apply (al_write m1); [exact I1|]. rewrite B1, E1. intros x [Hx Hn]%unused_cons. change (guest v3 x = m1 x). rewrite G3. by apply Ho. }
  destruct (al_free (heap_of k3) a1 q (len + 1)) as ([m4 ar4] & a4 & Hfr & I4 & E4 & B4 & R4 & F4); [done|rewrite B1; left|].
  set (k4 := put_heap (Heap m4 ar4) k3).
  assert (forall x, ~ free_byte al x -> guest (k_vm k4) x = guest (k_vm k) x) as Hg.
  { intros x Hx. change (m4 x = guest (k_vm k) x). rewrite F4.
    - change (guest v3 x = guest (k_vm k) x). rewrite G3, Ho by (intros Hn; by apply Hx, Qu). by apply Qf.
    - rewrite B1, E1. by intros [Hx' _]%unused_cons.
    - intros Hn. by apply Hx, Qu. }
  destruct (quiet_space k a k4 a4 (fun _ => False) U) as (U' & K' & L').
  { destruct (chunk_size_request (len + 1)) as [[Hc _] _]; lia. }
  { exact I4. }
  { cbn in E4, E1. by rewrite E4, E1. }
  { apply (Permutation_cons_inv (a := (q, len + 1))). cbn in B4, B1. by rewrite <- B4, B1. }
  { unfold cr3_of. cbn. by rewrite C3. }
  { intros x Hx _. by apply Hg. }
  { tauto. }
  exists k4, a4.1. split; [|split; [done|split; [split; [done|]|split; [done|split]]]].
  - unfold sys_open. rewrite (bind_ok _ _ _ _ _ (access_string_run k a rs U HF path s C)). cbn [negb].
    unfold copy_str_from_user. rewrite bind_bind.
    rewrite (bind_ok _ _ _ _ _ (cstring_strlen k a _ rs U HF (fun _ _ _ _ H => H) k path s (near_refl k a) C)). fold len. cbv zeta.
    rewrite (s32_small len), (u64_small (len + 1)), bind_bind, (bind_ok _ _ _ _ _ (on_heap_ok _ _ _ _ Hq)) by lia.
    fold k1. rewrite (proj2 (Z.eqb_neq q 0)), bind_bind, (bind_ok _ _ _ _ _ Hcp), bind_ret by lia. fold k2.
    rewrite (proj2 (Z.eqb_neq q 0)), (bind_ok _ _ _ _ _ (physical_on q k2 ltac:(lia))) by lia. fold p.
    rewrite (bind_ok _ _ _ _ _ Hrun3), (bind_ok _ _ _ _ _ (on_heap_ok _ _ _ _ Hfr)). done.
  - intros x Hx. apply Hg, used_not_unused; [apply I|done].
  - assert (al_kept al a4) as [_ HR]; [|exact HR]. apply (al_nested (heap_of k3) al a1 a1 a4 q (len + 1)); try done. rewrite B1. left.
  - split; [split; [exact C3|done]|]. done.
Qed.
End Open.

(** ** Strings across the steps *)

Section Same.
Context {W : Type}.
Implicit Types k : kstate W.

(** The bytes of regions are those of the regions. *)
Lemma covered_same k a k' a' rs va :
  uspace k a -> uspace k' a' -> Forall (region_ok k a) rs -> Forall (region_ok k' a') rs -> covered rs va 1 ->
  umem k' va = umem k va.
Proof.
  intros U U' HF HF' Hc. destruct (Hc va ltac:(lia)) as (r & Hr & Hin & _). rewrite Forall_forall in HF, HF'.
  destruct (region_walk k a r va (proj1 U) (HF r Hr) Hin) as [H1 H2].
  destruct (region_walk k' a' r va (proj1 U') (HF' r Hr) Hin) as [H3 H4].
  unfold umem, frame. rewrite H1, H3. cbn. by rewrite H2, H4.
Qed.
Lemma cstring_same k a k' a' rs p s :
  uspace k a -> uspace k' a' -> Forall (region_ok k a) rs -> Forall (region_ok k' a') rs ->
  cstring k rs p s -> cstring k' rs p s.
Proof.
  intros U U' HF HF' [C1 C2 C3]. split; [done|done|]. intros i b Hb. rewrite <- (C3 i b Hb). f_equal.
  pose proof (lookup_lt_Some _ _ _ Hb) as Hi. rewrite length_app in Hi. cbn in Hi.
  apply (covered_same k a k' a' rs); try done. eapply covered_sub; [exact C2|lia..].
Qed.
Lemma cstrings_same k a k' a' rs ary ss :
  uspace k a -> uspace k' a' -> Forall (region_ok k a) rs -> Forall (region_ok k' a') rs ->
  cstrings k rs ary ss -> cstrings k' rs ary ss.
Proof.
  intros U U' HF HF' [V1 V2 V3].
  assert (forall i, (i <= length ss)%nat -> uword k' (ary + 8 * Z.of_nat i) = uword k (ary + 8 * Z.of_nat i)) as Hw.
  { intros i Hi. apply ld_ext. intros x Hx. apply (covered_same k a k' a' rs); try done.
    eapply covered_sub; [exact V1|unfold rng in Hx; lia..]. }
  split; [done| |by rewrite Hw].
  intros i s Hs. rewrite Hw by (apply Nat.lt_le_incl, (lookup_lt_Some _ _ _ Hs)).
  apply (cstring_same k a k' a' rs); auto.
Qed.

(** A change of the table of files only. *)
Lemma uspace_vm k a (v : vm W) :
  guest v = guest (k_vm k) -> cpu v = cpu (k_vm k) ->
  let k' := KState v (k_arena k) (last_mmapped k) (msrs k) in
  uspace k a -> uspace k' a.
Proof. intros Hg Hc k'. unfold uspace, kspace, heap_of, cr3_of. cbn. by rewrite Hg, Hc. Qed.
Lemma region_vm k a (v : vm W) r :
  guest v = guest (k_vm k) -> cpu v = cpu (k_vm k) ->
  let k' := KState v (k_arena k) (last_mmapped k) (msrs k) in
  region_ok k a r -> region_ok k' a r.
Proof.
  intros Hg Hc k' [R1 R2 R3 R4 R5]. split; auto.
  - intros va Hva. unfold mapped_at, kleaf, cr3_of. cbn. rewrite Hg, Hc. by apply R4.
  - intros x Hx. unfold kentry, cr3_of. cbn. rewrite Hg, Hc. by apply R5.
Qed.
Lemma isolated_vm k a (v : vm W) :
  guest v = guest (k_vm k) -> cpu v = cpu (k_vm k) ->
  let k' := KState v (k_arena k) (last_mmapped k) (msrs k) in
  isolated k a -> isolated k' a.
Proof.
  intros Hg Hc k' I. pose proof I as [U _ _]. pose proof U as [[[_ W0] _] _].
  assert (cr3_of k' = cr3_of k) as Hr by (unfold cr3_of; cbn; by rewrite Hc).
  apply (isolated_keeps k a k' a (fun _ => False)); [by apply uspace_vm|done| |tauto| |done].
  - unfold kkeeps. cbn. rewrite Hg. by apply grows_keeps, grows_refl.
  - intros va _. unfold kleaf. rewrite Hr. cbn. by rewrite Hg.
Qed.
End Same.

(** ** [sys_execve] *)

(** The program and its arguments as the caller passes them. *)
Record exec_args {W} (k : kstate W) (a : aheap) (rs : list region) (path argv envp : Z)
    (name : list Z) (args envs : list (list Z)) : Prop := ExecArgs {
  ea_space : uspace k a;
  ea_regions : Forall (region_ok k a) rs;
  ea_mode : kernel_mode k;
  ea_table : table_ok (cur_fds (k_vm k));
  ea_free : first_free (cur_fds (k_vm k)) 0 <= MAX_FD;
  ea_path : cstring k rs path name;
  ea_name : Z.of_nat (length name) < 2 ^ 31 - 1;
  ea_argv : cstrings k rs argv args;
  ea_envp : cstrings k rs envp envs;
  ea_stack : stack_need args envs <= STACK_SIZE - 0x1000
}.

(** What of the system's documented behaviour the call relies on. *)
Record os_documented {W} (os : host_os W) : Prop := OsDocumented {
  od_open : open_documented os;
  od_rw : rw_documented os;
  od_lseek : lseek_documented os;
  od_close : close_documented os
}.

(** The program: a file the system opens under the name, as the loader asks for it, away from
    the arguments and the stack. *)
Record exec_file {W} (os : host_os W) (w w' : W) (name : list Z) (h : Z) (content : list Z) (at_ : W -> Z -> Prop)
    (rs : list region) : Prop := ExecFile {
  ef_open : os_open os w name = (w', inr h);
  ef_file : regular_file os h content at_;
  ef_start : at_ w' 0;
  ef_elf : elf_ok (header content);
  ef_segs : segs_ok (elf_base (header content)) (header content) (elf_phnum (header content));
  ef_apart : forall va, touched (elf_base (header content)) (header content) (elf_phnum (header content)) va -> ~ on_stack va;
  ef_args : forall r va, r ∈ rs -> in_region r va ->
    ~ touched (elf_base (header content)) (header content) (elf_phnum (header content)) va /\ ~ on_stack va
}.
Definition exec_cost (content name : list Z) (args envs : list (list Z)) : Z :=
  chunk_size (Z.of_nat (length name) + 1) + elf_cost content + chunk_size (8 * vec_words args envs).

Section Exec.
Context {W : Type} (os : host_os W) (fails : ioctl -> bool).
Hypothesis kvm_works : forall i, fails i = false.
Hypothesis os_ok : os_documented os.
Implicit Types k : kstate W.

(** Opening the program. *)
Lemma exec_open k a rs path name w' h (at_ : W -> Z -> Prop) :
  uspace k a -> Forall (region_ok k a) rs -> kernel_mode k -> table_ok (cur_fds (k_vm k)) ->
  first_free (cur_fds (k_vm k)) 0 <= MAX_FD -> cstring k rs path name -> Z.of_nat (length name) < 2 ^ 31 - 1 ->
  os_open os (host (k_vm k)) name = (w', inr h) -> at_ w' 0 -> chunk_size (Z.of_nat (length name) + 1) <= room a ->
  exists fd k' a', sys_open os fails path k = Ok fd k' /\ reads h at_ k' fd 0 /\ uspace k' a' /\
    Forall (region_ok k' a') rs /\ table_ok (cur_fds (k_vm k')) /\ room a <= room a' /\
    (isolated k a -> isolated k' a') /\ (forall va, user_va va -> kleaf k' va = kleaf k va).
Proof using kvm_works os_ok.
  intros U HF Hk Ht Hfr C Hn Ho Hat Hroom. pose proof U as [[[_ W0] _] _].
  destruct (sys_open_run os fails kvm_works (od_open _ os_ok) k a rs path name U HF Hk C Hn Hroom)
    as (k1 & a1 & Hrun & U1 & [K1 _] & L1 & R1 & (M1 & _) & F1 & H1).
  destruct (first_free_spec (cur_fds (k_vm k)) 0) as (F0 & _).
  assert (0 <= h < 2 ^ 31) as Hh by (pose proof (od_open _ os_ok (host (k_vm k)) name) as H; by rewrite Ho in H).
  unfold open_result in *. rewrite (proj2 (Z.ltb_ge _ _)), Ho, (proj2 (Z.ltb_ge h 0)) in * by lia. cbn in Hrun, F1, H1.
  set (fd := first_free (cur_fds (k_vm k)) 0) in *. exists fd, k1, a1. split; [done|].
  assert (Z.of_nat (length (fd_put (cur_fds (k_vm k)) fd (FdHandle h 1))) = MAX_FD + 1) as Ht1.
  { unfold fd_put. by rewrite length_insert. }
  assert (cr3_of k1 = cr3_of k) as Hc by (unfold cr3_of; by rewrite M1).
  split; [|split; [done|split; [|split; [by rewrite F1|split; [done|split; [by apply (isolated_keeps k a k1 a1 (fun _ => False)); [..|tauto|]|done]]]]]].
  - unfold reads, kernel_mode. rewrite M1, F1, H1. split; [done|]. split; [unfold MAX_FD in *; lia|]. split; [done|].
    split; [|done]. rewrite fd_abs_put by (done || lia). by rewrite Z.eqb_refl.
  - rewrite Forall_forall in HF |- *. intros r Hr. eapply (region_keeps k a k1 a1); [done|done|exact K1|tauto| | |by apply HF].
    + intros va Hva. apply L1. by apply (ro_range _ _ _ (HF r Hr)).
    + intros u. apply usable_allocs, (kp_allocs _ _ _ _ _ _ K1).
Qed.

(** Loading it. *)
Lemma exec_load k a rs w w' name h content at_ fd :
  let c := header content in
  uspace k a -> Forall (region_ok k a) rs -> reads h at_ k fd 0 -> exec_file os w w' name h content at_ rs ->
  elf_cost content <= room a ->
  exists f k' a', load_binary os fails fd k =
      Ok (inr (Process (elf_base c) (elf_entry c) STACK_BASE STACK_SIZE (STACK_BASE - 0x1000))) k' /\
    uspace k' a' /\ same_machine k k' /\ (room a - elf_cost content <= room a' /\ (isolated k a -> isolated k' a')) /\ Forall (region_ok k' a') rs /\
    loaded_off content k' a' (rng f STACK_SIZE) (elf_base c) c (elf_phnum c) /\
    region_ok k' a' (stack_region f (fun _ => 0)) /\
    (forall r x, r ∈ rs -> rng (rg_frame r) (rg_len r) x -> ~ rng f STACK_SIZE x).
Proof using kvm_works os_ok.
  intros c U HF Hr [_ Hf _ He Hs Hst Hargs] Hroom. pose proof U as [[[_ W0] _] _].
  destruct (load_binary_run os fails kvm_works (od_rw _ os_ok) (od_lseek _ os_ok) h content at_ Hf k a fd U Hr He Hs Hst Hroom)
    as (f & k' & a' & Hrun & S1 & Hal & G & O). pose proof S1 as (U' & _ & M & R & _).
  exists f, k', a'. rewrite Forall_forall in HF. do 4 (split; [done|]). split; [|split; [done|split; [exact G|]]].
  - rewrite Forall_forall. intros r Hin. eapply (region_step k a k' a'); [done|exact S1| |by apply HF].
    intros va Hva [Ht|Ht]; by destruct (Hargs r va Hin Hva).
  - intros r x Hin Hx Hq. apply (used_not_own a x W0); [|by apply O]. by apply (pages_used a _ _ _ (ro_pages _ _ _ (HF r Hin))).
Qed.

Lemma execve_run k a rs path argv envp name args envs w' h content at_ :
  let c := header content in
  exec_args k a rs path argv envp name args envs -> exec_file os (host (k_vm k)) w' name h content at_ rs ->
  exec_cost content name args envs <= room a ->
  exists rsp f stk k' a',
    sys_execve os fails path argv envp k = Ok (EnterUser (u64 (elf_entry c + elf_base c)) rsp) k' /\
    started k' a' f rsp stk args envs /\
    (forall j, 0 <= j < elf_phnum c -> is_load (phdr_at c j) = true -> seg_loaded k' content (elf_base c) (phdr_at c j)) /\
    kernel_mode k' /\ table_ok (cur_fds (k_vm k')) /\ room a - exec_cost content name args envs <= room a' /\
    (isolated k a -> isolated k' a').
Proof using kvm_works os_ok.
  intros c Ha Hf Hroom. pose proof Ha as [U HF Hk Ht Hfr C Hn Va Ve Hst]. unfold exec_cost in Hroom.
  assert (0 < chunk_size (8 * vec_words args envs)) as Hc1.
  { destruct (chunk_size_request (8 * vec_words args envs)) as [[Hc _] _]; [|lia].
    unfold stack_need, STACK_SIZE, psize, vec_words in *. lia. }
  destruct (elf_costs_pos content (ef_segs _ _ _ _ _ _ _ _ Hf)) as [_ Hc0].
  destruct (chunk_size_request (Z.of_nat (length name) + 1) ltac:(lia)) as [[Hc2 _] _].
  destruct (exec_open k a rs path name w' h at_ U HF Hk Ht Hfr C Hn (ef_open _ _ _ _ _ _ _ _ Hf) (ef_start _ _ _ _ _ _ _ _ Hf) ltac:(lia))
    as (fd & k1 & a1 & Hrun1 & Hr1 & U1 & HF1 & T1 & R1 & I1 & _).
  destruct (exec_load k1 a1 rs (host (k_vm k)) w' name h content at_ fd U1 HF1 Hr1 Hf ltac:(lia))
    as (f & k2 & a2 & Hrun2 & U2 & M2 & [R2 I2] & HF2 & Hal & G2 & Hap). fold c in Hrun2, Hal.
  pose proof Hr1 as (Hk1 & Hfd & _). pose proof M2 as (Mc & Mf & _).
  destruct (hp_close_run os fails k2 fd) as (r & v3 & Hrun3 & G3 & [C3 T3] & _ & _); try done.
  { unfold kernel_mode. by rewrite Mc. }
  { apply os_ok. }
  { by rewrite Mf. }
  { lia. }
  set (k3 := KState v3 (k_arena k2) (last_mmapped k2) (msrs k2)) in *.
  assert (uspace k3 a2) as U3 by (by apply uspace_vm).
  assert (forall r, region_ok k2 a2 r -> region_ok k3 a2 r) as Hv by (intros r0; by apply region_vm).
  assert (Forall (region_ok k3 a2) rs) as HF3 by (eapply Forall_impl; [exact HF2|done]).
  set (p := Process (elf_base c) (elf_entry c) STACK_BASE STACK_SIZE (STACK_BASE - 0x1000)) in *.
  destruct (create_elf_run k3 a2 rs f (fun _ => 0) p argv envp args envs) as (rsp & k4 & a4 & stk & Hrun4 & Hs & K4 & M4 & L4 & R4); try done.
  { by apply Hv. }
  { by apply (cstrings_same k a k3 a2). }
  { by apply (cstrings_same k a k3 a2). }
  { unfold p, STACK_LOW. cbn. lia. }
  { lia. }
  assert (kernel_mode k4) as Hk4 by (unfold kernel_mode; by rewrite (proj1 M4), (C3 : cpu (k_vm k3) = _), Mc).
  exists rsp, f, stk, k4, a4. split; [|split; [done|split; [|split; [done|]]]].
  - unfold sys_execve. rewrite (bind_ok _ _ _ _ _ Hrun1), (proj2 (Z.ltb_ge _ _)) by lia.
    rewrite (bind_ok _ _ _ _ _ Hrun2). unfold sys_close. rewrite (bind_ok _ _ _ _ _ Hrun3), (bind_ok _ _ _ _ _ Hrun4). done.
  - intros j Hj Hl. destruct (Hal j Hj Hl) as (rs' & HFj & Hrs & Hoff). pose proof U3 as [[[_ W3] _] _].
    apply (regions_loaded k4 a4 content (elf_base c) (phdr_at c j) rs').
    + apply (sd_space _ _ _ _ _ _ _ Hs).
    + by apply (ef_segs _ _ _ _ _ _ _ _ Hf).
    + apply elf_base_page.
    + apply elf_base_page.
    + done.
    + rewrite Forall_forall in HFj |- *. intros r0 Hr0.
      eapply (region_keeps k3 a2 k4 a4); [done|by apply same_cr3|exact K4|intros x Hx; by apply (Hoff r0 x)| | |by apply Hv, HFj].
      * intros va Hva. apply L4. by apply (ro_range _ _ _ (HFj r0 Hr0)).
      * intros u. apply usable_allocs, (kp_allocs _ _ _ _ _ _ K4).
  - split; [by rewrite (proj1 (proj2 M4))|]. split; [unfold exec_cost in *; lia|]. intros I0.
    apply (isolated_keeps k3 a2 k4 a4 (rng f STACK_SIZE)); try done; [apply (sd_space _ _ _ _ _ _ _ Hs)|by apply same_cr3| |].
    { intros x Hx. apply (region_not_table k3 a2 (stack_region f (fun _ => 0))); [apply U3|by apply Hv|done]. }
    apply isolated_vm; auto.
Qed.
End Exec.

(** ** The properties *)

(** C22: [open] from the system call to the system: the system is given exactly the string in the
    memory of the user; the result, the table of descriptors and the state of the system are
    those of the hypervisor's open; the user's pages and their bytes stay as they are. *)
Theorem sys_open_end_to_end {W} (os : host_os W) fails (k : kstate W) a rs path s :
  (forall i, fails i = false) -> open_documented os -> uspace k a -> Forall (region_ok k a) rs -> kernel_mode k ->
  cstring k rs path s -> Z.of_nat (length s) < 2 ^ 31 - 1 -> chunk_size (Z.of_nat (length s) + 1) <= room a ->
  exists r k' a', sys_open os fails path k = Ok r k' /\
    (r, cur_fds (k_vm k'), host (k_vm k')) = open_result os (k_vm k) s /\ uspace k' a' /\
    (forall va, user_va va -> kwalk k' va = kwalk k va) /\
    (forall x, used a x -> ~ kentry k x -> guest (k_vm k') x = guest (k_vm k) x).
Proof.
  intros Hok Hdoc U HF Hk C Hn Hroom.
  destruct (sys_open_run os fails Hok Hdoc k a rs path s U HF Hk C Hn Hroom) as (k' & a' & Hrun & U' & [K _] & L & _ & _ & F & H).
  eexists _, k', a'. split; [exact Hrun|]. split; [rewrite F, H; by destruct (open_result os (k_vm k) s) as [[]]|].
  split; [done|]. split.
  - intros va Hva. apply (kwalk_same k a k' a'); [apply U|apply U'|done|auto].
  - intros x Hx He. apply (kp_frame _ _ _ _ _ _ K); [done|done|tauto].
Qed.

(** C20: [create_elf_info] on vectors of strings of the caller: the new stack pointer is aligned to 16
    bytes; from it on the program finds the number of arguments, the vector of its arguments
    and the vector of its environment, each terminated and pointing to the strings of the
    caller, in order, on its own stack; no byte in use outside the stack has changed. *)
Theorem create_elf_info_builds {W} (k : kstate W) a rs f stk p argv envp args envs :
  uspace k a -> Forall (region_ok k a) rs -> region_ok k a (stack_region f stk) ->
  (forall r x, r ∈ rs -> rng (rg_frame r) (rg_len r) x -> ~ rng f STACK_SIZE x) ->
  cstrings k rs argv args -> cstrings k rs envp envs ->
  STACK_LOW + stack_need args envs <= p_rsp p <= STACK_BASE -> chunk_size (8 * vec_words args envs) <= room a ->
  exists rsp k' a' stk', create_elf_info p argv envp k =
      Ok (inr (Process (load_addr p) (p_entry p) (stack_base p) (stack_size p) rsp)) k' /\
    started k' a' f rsp stk' args envs /\
    (forall va, user_va va -> kwalk k' va = kwalk k va) /\
    (forall x, used a x -> ~ kentry k x -> ~ rng f STACK_SIZE x -> guest (k_vm k') x = guest (k_vm k) x).
Proof.
  intros U HF R Hap Va Ve Hsp Hroom.
  destruct (create_elf_run k a rs f stk p argv envp args envs U HF R Hap Va Ve Hsp Hroom) as (rsp & k' & a' & stk' & Hrun & Hs & K & _ & L & _).
  exists rsp, k', a', stk'. do 2 (split; [done|]). split.
  - intros va Hva. apply (kwalk_same k a k' a'); [apply U|apply Hs|done|auto].
  - intros x. apply (kp_frame _ _ _ _ _ _ K).
Qed.


(** The page [switch_user] maps for the arguments is not all theirs: a block the kernel takes
    later can be in it, and the user may then write to that block. *)
Example switch_user_page_shared :
  match (s ← on_heap (kmalloc 32 MALLOC_PAGE_ALIGN); sp ← on_heap (physical s);
         with_cr3 (fun cr3 => add_trans_user cr3 sp sp PROT_RW) ;;
         on_heap (kmalloc 0x800 MALLOC_NO_ALIGN)) empty_kstate with
  | Ok p k => kwalk k (p - KERNEL_BASE_OFFSET) = Some (Xlat (p - KERNEL_BASE_OFFSET) true true)
  | Halt _ => False
  end.
Proof. vm_compute. reflexivity. Qed.

(** ** A concrete call *)

(** The kernel after it has mapped the vectors of the example file for the user. *)
Definition args_kstate : kstate Z :=
  match sys_mmap (file_os ex_elf) (fun _ => false) ARGS_AT 47 PROT_R MAP_FIXED 0 182 file_kstate with
  | Ok _ k => k
  | Halt _ => file_kstate
  end.
Definition args_region (f : Z) : region := Region ARGS_AT f 4096 PROT_R (file_byte ex_elf 182 47).
Definition args_cost : Z := mmap_room ARGS_AT 4096 + 0x100.
Lemma args_kstate_ok : exists f a, uspace args_kstate a /\ Forall (region_ok args_kstate a) [args_region f] /\
  same_machine file_kstate args_kstate /\ room empty_aheap - args_cost <= room a /\ fd_abs (cur_fds (k_vm args_kstate)) 0 = Some 0 /\ isolated args_kstate a.
Proof.
  pose proof (file_mmap_run (file_os ex_elf) (fun _ => false) (fun _ => eq_refl) (file_os_documented ex_elf ex_elf_bytes) (file_os_lseek ex_elf)
    0 ex_elf eq (file_os_file ex_elf 0 ex_elf_bytes) file_kstate empty_aheap ARGS_AT 47 PROT_R MAP_FIXED 0 182 0) as H.
  cbn zeta in H. change (if has MAP_FIXED MAP_FIXED then ARGS_AT else 0) with ARGS_AT in H.
  change (alignup 47) with 4096 in H. change (mmap_addr file_kstate ARGS_AT 4096) with ARGS_AT in H.
  destruct H as (f & k' & a' & Hrun & (U & _ & M & [R I] & _) & G & _ & (p & _ & _ & _ & Hf & _)).
  - exact file_uspace.
  - exact file_reads.
  - unfold ARGS_AT. lia.
  - reflexivity.
  - lia.
  - lia.
  - lia.
  - apply low_user_range; unfold ARGS_AT, KERNEL_PAGING_SIZE; (reflexivity || lia).
  - vm_compute. discriminate.
  - exists f, a'. unfold args_kstate. rewrite Hrun. split; [exact U|]. split; [apply Forall_singleton; exact G|].
    split; [exact M|]. split; [exact R|]. split; [exact Hf|]. apply I, file_isolated.
Qed.

(** What is there, as a computable memory. *)
Definition args_mem : mem := fun va => file_byte ex_elf 182 47 (va - ARGS_AT).
Lemma matches_lookup M l : forall o, matches M o l = true -> forall i b, l !! i = Some b -> u8 (M (o + Z.of_nat i)) = b.
Proof.
  induction l as [|c l IH]; intros o H i b Hi; [done|]. cbn in H. apply andb_true_iff in H as [H1 H2].
  destruct i as [|i]; [injection Hi as <-; rewrite Z.add_0_r; lia|].
  replace (o + Z.of_nat (S i)) with (o + 1 + Z.of_nat i) by lia. by apply IH.
Qed.
Lemma args_umem a f va : uspace args_kstate a -> region_ok args_kstate a (args_region f) -> ARGS_AT <= va < ARGS_AT + 4096 ->
  umem args_kstate va = args_mem va.
Proof.
  intros U R Hva. destruct (region_walk args_kstate a _ va (proj1 U) R Hva) as [H1 H2].
  unfold umem, frame. rewrite H1. cbn [x_pa]. by rewrite H2.
Qed.
Lemma args_covered f p n : ARGS_AT <= p -> p + n <= ARGS_AT + 4096 -> covered [args_region f] p n.
Proof. intros H1 H2 va Hva. exists (args_region f). split; [left|]. split; [unfold in_region; cbn; lia|done]. Qed.
Lemma args_string a f p s :
  uspace args_kstate a -> region_ok args_kstate a (args_region f) ->
  ARGS_AT <= p -> p + Z.of_nat (length s) + 1 <= ARGS_AT + 4096 -> forallb (fun b => negb (b =? 0)) s = true ->
  matches args_mem p (s ++ [0]) = true -> cstring args_kstate [args_region f] p s.
Proof.
  intros U R H1 H2 Hs Hm. split; [|apply args_covered; lia|].
  - apply Forall_forall. intros b Hb%list_elem_of_In. rewrite forallb_forall in Hs. specialize (Hs b Hb). lia.
  - intros i b Hi. pose proof (lookup_lt_Some _ _ _ Hi) as Hl. rewrite length_app in Hl. cbn in Hl.
    rewrite (args_umem a f) by (done || lia). by apply (matches_lookup _ (s ++ [0])).
Qed.
Lemma args_word a f va :
  uspace args_kstate a -> region_ok args_kstate a (args_region f) -> ARGS_AT <= va -> va + 8 <= ARGS_AT + 4096 ->
  uword args_kstate va = ld 8 args_mem va.
Proof. intros U R H1 H2. apply ld_ext. intros x Hx. apply (args_umem a f); [done|done|]. unfold rng in Hx. lia. Qed.

Definition ex_argv : list (list Z) := [[112]; [120; 121]].
Definition ex_envp : list (list Z) := [[69]].
Lemma args_vectors a f :
  uspace args_kstate a -> region_ok args_kstate a (args_region f) ->
  cstrings args_kstate [args_region f] ARGS_AT ex_argv /\ cstrings args_kstate [args_region f] (ARGS_AT + 24) ex_envp /\
  cstring args_kstate [args_region f] (ARGS_AT + 40) [112].
Proof.
  intros U R.
  assert (forall p s, ARGS_AT <= p -> p + Z.of_nat (length s) + 1 <= ARGS_AT + 4096 -> forallb (fun b => negb (b =? 0)) s = true ->
    matches args_mem p (s ++ [0]) = true -> cstring args_kstate [args_region f] p s) as Hs by (intros p s; by apply args_string with a).
  split; [|split].
  - split; [apply args_covered; cbn; lia| |].
    + intros [|[|i]] s Hi; [| |by destruct i]; injection Hi as <-; rewrite (args_word a f) by (done || cbn; lia);
        apply Hs; vm_compute; (reflexivity || discriminate).
    + rewrite (args_word a f) by (done || cbn; lia). vm_compute. reflexivity.
  - split; [apply args_covered; cbn; lia| |].
    + intros [|i] s Hi; [|by destruct i]; injection Hi as <-; rewrite (args_word a f) by (done || cbn; lia);
        apply Hs; vm_compute; (reflexivity || discriminate).
    + rewrite (args_word a f) by (done || cbn; lia). vm_compute. reflexivity.
  - apply Hs; vm_compute; (reflexivity || discriminate).
Qed.

(** The same kernel with a stack. *)
Definition stack_kstate : kstate Z :=
  match mmap STACK_LOW STACK_SIZE PROT_RW args_kstate with Ok _ k => k | Halt _ => args_kstate end.
Definition stack_cost : Z := mmap_room STACK_LOW STACK_SIZE.
Lemma args_not_stack f va : in_region (args_region f) va -> ~ on_stack va.
Proof. unfold in_region, on_stack, STACK_BASE, STACK_SIZE. cbn. unfold ARGS_AT. lia. Qed.
Lemma stack_kstate_ok : exists f f' a, uspace stack_kstate a /\ Forall (region_ok stack_kstate a) [args_region f] /\
  region_ok stack_kstate a (stack_region f' (fun _ => 0)) /\
  (forall r x, r ∈ [args_region f] -> rng (rg_frame r) (rg_len r) x -> ~ rng f' STACK_SIZE x) /\
  cstrings stack_kstate [args_region f] ARGS_AT ex_argv /\ cstrings stack_kstate [args_region f] (ARGS_AT + 24) ex_envp /\
  room empty_aheap - args_cost - stack_cost <= room a.
Proof.
  destruct args_kstate_ok as (f & a & U & HF & M & R & _). pose proof U as [[[_ W0] _] _].
  assert (region_ok args_kstate a (args_region f)) as Ra by (by apply Forall_cons in HF as [? _]).
  assert (args_cost + stack_cost <= room empty_aheap) as Hc by (vm_compute; discriminate).
  destruct (stack_run args_kstate a U) as (f' & k' & a' & Hrun & S & G & O & _); [change (stack_cost <= room a); lia|].
  pose proof S as (U' & _ & _ & R' & _).
  assert (Forall (region_ok k' a') [args_region f]) as HF'.
  { apply Forall_singleton. eapply region_step; [exact W0|exact S| |exact Ra]. apply args_not_stack. }
  destruct (args_vectors a f U Ra) as (V1 & V2 & _).
  exists f, f', a'. unfold stack_kstate. change STACK_LOW with (STACK_BASE - STACK_SIZE). rewrite Hrun. split; [exact U'|]. split; [exact HF'|]. split; [exact G|].
  split; [|split; [|split; [|unfold stack_cost, STACK_LOW in *; lia]]].
  - intros r x ->%list_elem_of_singleton Hx Hq. apply (used_not_own a x W0); [|by apply O].
    by apply (pages_used a _ _ _ (ro_pages _ _ _ Ra)).
  - by apply (cstrings_same args_kstate a k' a').
  - by apply (cstrings_same args_kstate a k' a').
Qed.

Lemma create_elf_info_builds_witness :
  exists rsp k', create_elf_info (Process 0 0x4000b0 STACK_BASE STACK_SIZE (STACK_BASE - 0x1000)) ARGS_AT (ARGS_AT + 24) stack_kstate =
      Ok (inr (Process 0 0x4000b0 STACK_BASE STACK_SIZE rsp)) k' /\ rsp mod 16 = 0 /\ uword k' rsp = 2.
Proof.
  destruct stack_kstate_ok as (f & f' & a & U & HF & G & Hap & V1 & V2 & R).
  destruct (create_elf_info_builds stack_kstate a [args_region f] f' (fun _ => 0)
    (Process 0 0x4000b0 STACK_BASE STACK_SIZE (STACK_BASE - 0x1000)) ARGS_AT (ARGS_AT + 24) ex_argv ex_envp U HF G Hap V1 V2)
    as (rsp & k' & a' & stk' & H1 & H2 & _).
  - vm_compute. split; discriminate.
  - etransitivity; [|exact R]. vm_compute. discriminate.
  - exists rsp, k'. split; [exact H1|]. destruct H2 as [_ _ H3 _ H4 _ _]. split; [exact H3|exact H4].
Defined.

Lemma sys_open_end_to_end_witness :
  exists k', sys_open (file_os ex_elf) (fun _ => false) (ARGS_AT + 40) args_kstate = Ok 3 k' /\ host (k_vm k') = 0.
Proof.
  destruct args_kstate_ok as (f & a & U & HF & (M1 & M2 & _) & R & _).
  assert (region_ok args_kstate a (args_region f)) as Ra by (by apply Forall_cons in HF as [? _]).
  destruct (args_vectors a f U Ra) as (_ & _ & C).
  destruct (sys_open_end_to_end (file_os ex_elf) (fun _ => false) args_kstate a [args_region f] (ARGS_AT + 40) [112])
    as (r & k' & a' & H1 & H2 & _).
  - done.
  - intros w name. cbn. lia.
  - exact U.
  - exact HF.
  - unfold kernel_mode. by rewrite M1.
  - exact C.
  - cbn. lia.
  - etransitivity; [|exact R]. vm_compute. discriminate.
  - unfold open_result in H2. rewrite M2 in H2. cbn in H2. injection H2 as -> _ Hh. exists k'. split; [exact H1|exact Hh].
Defined.

Lemma ex_file_ok f : exec_file (file_os ex_elf) (host (k_vm args_kstate)) 0 [112] 3 ex_elf eq [args_region f].
Proof.
  assert (forall va, touched 0 ex_header 2 va -> 0x400000 <= va < 0x403000) as Ht.
  { intros va (j & Hj & _ & Hva). assert (j = 0 \/ j = 1) as [->| ->] by lia.
    - change (0x400000 <= va < 0x401000) in Hva. lia.
    - change (0x401000 <= va < 0x403000) in Hva. lia. }
  split.
  - reflexivity.
  - exact (file_os_file ex_elf 3 ex_elf_bytes).
  - reflexivity.
  - split; [vm_compute; reflexivity|left; vm_compute; reflexivity|vm_compute; reflexivity|vm_compute; reflexivity|vm_compute; discriminate].
  - exact ex_segs.
  - intros va Hva. apply Ht in Hva. unfold on_stack, STACK_BASE, STACK_SIZE. lia.
  - intros r va ->%list_elem_of_singleton Hva. split; [|by apply args_not_stack in Hva].
    intros H. apply Ht in H. unfold in_region in Hva. cbn in Hva. unfold ARGS_AT in Hva. lia.
Qed.

