(* ===== verification/Isolation.v ===== *)
(** * Running programs stay inside their memory

    A program in user mode stores to the pages the processor lets it store to and makes
    system calls.  From a state in which its pages are its own and the kernel is hidden,
    every such step leaves the page tables, the kernel's memory in use and the free room
    as they are; system calls return, whatever the arguments point to. *)

From S2P Require Import Prelude Memory Arch KString Kmalloc KmallocSpec KmallocProof KmallocRefine.
From S2P Require Import KmallocSafety KmallocIface Translate TranslateProof PageTables AddressSpace Hypercall Hypervisor.
From S2P Require Import HypercallProof HypervisorProof Kernel Exec KernelProof Boundary SyscallProof MmapProof FileMap ElfProof.
From S2P Require Import UserStrings StackProof ExecProof.

(** ** User addresses *)

Lemma range_ok_iff va :
  0 <= va < 2 ^ 48 -> USER_MEM_RANGE_OK va = true <-> KERNEL_PAGING_SIZE <= va /\ va / 2 ^ 39 <> 1.
Proof.
  intros H. unfold USER_MEM_RANGE_OK. rewrite u64_small by lia. rewrite !Z.shiftr_div_pow2 by lia.
  rewrite (Z.div_small va (2 ^ 48)) by lia. change MIN_USER_MEM with KERNEL_PAGING_SIZE. rewrite Z.eqb_refl.
  rewrite !andb_true_iff, negb_true_iff, Z.leb_le, Z.eqb_neq. tauto.
Qed.
Lemma range_ok_high va : 2 ^ 48 <= va < 2 ^ 64 -> USER_MEM_RANGE_OK va = false.
Proof.
  intros H. unfold USER_MEM_RANGE_OK. rewrite u64_small by lia. rewrite !Z.shiftr_div_pow2 by lia.
  assert (1 <= va / 2 ^ 48) by (apply Z.div_le_lower_bound; lia).
  rewrite (proj2 (Z.eqb_neq (va / 2 ^ 48) 0)) by lia. by rewrite andb_false_r.
Qed.

(** The pages of a range whose ends are user addresses. *)
Lemma range_inside addr size va :
  0 <= addr -> 0 < size < 2 ^ 31 -> addr + size <= 2 ^ 48 ->
  USER_MEM_RANGE_OK addr = true -> USER_MEM_RANGE_OK (addr + size - 1) = true ->
  aligndown addr <= va < alignup (addr + size) -> user_va va \/ 2 ^ 47 <= va < 2 ^ 48.
Proof.
  intros H1 H2 H3 R1 R2 Hva. apply range_ok_iff in R1, R2; [|lia..]. unfold KERNEL_PAGING_SIZE in *.
  destruct (alignup_val (addr + size)) as [Eu Hu]; [lia|]. rewrite aligndown_mod in Hva by lia.
  pose proof (Z.div_mod addr 4096). pose proof (Z.mod_pos_bound addr 4096).
  pose proof (Z.div_mod (addr + size + 4095) 4096). pose proof (Z.mod_pos_bound (addr + size + 4095) 4096).
  destruct (Z.ltb_spec va (2 ^ 47)); [left|right; lia]. split; [|lia]. apply range_ok_iff; [lia|].
  unfold KERNEL_PAGING_SIZE. split; [lia|]. intros E.
  assert (addr / 2 ^ 39 <> 1 -> addr < 2 ^ 39 \/ 2 ^ 40 <= addr) as Ha by (intros Hn; destruct (Z.ltb_spec addr (2 ^ 39)); [lia|];
    destruct (Z.leb_spec (2 ^ 40) addr); [lia|]; exfalso; apply Hn; symmetry; apply (Z.div_unique _ _ _ (addr - 2 ^ 39)); lia).
  assert ((addr + size - 1) / 2 ^ 39 <> 1 -> addr + size - 1 < 2 ^ 39 \/ 2 ^ 40 <= addr + size - 1) as Hb
    by (intros Hn; destruct (Z.ltb_spec (addr + size - 1) (2 ^ 39)); [lia|];
      destruct (Z.leb_spec (2 ^ 40) (addr + size - 1)); [lia|]; exfalso; apply Hn; symmetry; apply (Z.div_unique _ _ _ (addr + size - 1 - 2 ^ 39)); lia).
  destruct R1 as [_ R1], R2 as [_ R2]. specialize (Ha R1). specialize (Hb R2).
  pose proof (Z.div_mod va (2 ^ 39)). pose proof (Z.mod_pos_bound va (2 ^ 39)). lia.
Qed.

Section User.
Context {W : Type}.
Implicit Types k : kstate W.

(** ** What user mode can reach *)

Lemma leaf_small k a va : isolated k a -> user_va va -> kleaf k va < 2 ^ 39.
Proof.
  intros [_ P _ _] Hu. destruct (P va Hu) as [->|(f & prot & byte & R)]; [done|].
  rewrite (ro_mapped _ _ _ R va (proj1 (page_of_in va))). cbn. destruct (ro_frame _ _ _ R) as (F1 & F2 & F3). cbn in *.
  destruct (prot_bits_cases prot) as (B1 & _). pose proof (page_of_in va) as [Hi _]. unfold page_of, MEM_SIZE, PS_LIMIT in *. lia.
Qed.
Lemma user_can_page_at k a write va :
  isolated k a -> user_can k write va = true ->
  user_va va /\ user_page k a va /\ exists prot, kwalk k va = Some (Xlat (frame k va) true (has prot PROT_W)) /\
    (write = true -> has prot PROT_W = true).
Proof.
  intros [[S _] P _ Hh] Hc. pose proof S as [[_ W0] Sp]. unfold user_can in Hc.
  destruct (kwalk k va) as [x|] eqn:Ew; [|done].
  assert (x_user x = true) as Hx by (unfold permits in Hc; destruct (x_user x); [done|by rewrite andb_false_l in Hc]).
  assert (user_va va) as Hu by (by eapply hidden_walk). split; [done|].
  assert (user_page k a va) as Hp.
  { destruct (P va Hu) as [E|]; [|done]. exfalso. unfold kwalk, kleaf in *. rewrite (walk_leaf _ a) in Ew by done.
    cbn zeta in Ew. by rewrite E in Ew. }
  split; [done|]. destruct (user_page_at k a va S Hp) as (prot & Hw & _). exists prot.
  rewrite Hw in Ew. injection Ew as <-. cbn in *. rewrite Hx in Hw |- *. split; [done|].
  intros ->. unfold permits in Hc. cbn in Hc. by apply andb_true_iff in Hc as [_ ?].
Qed.
Lemma isolated_checks k a type va : isolated k a -> user_va va -> checks k type va.
Proof.
  intros I Hu. pose proof I as [[S _] P _ _]. pose proof S as [[_ W0] Sp]. apply translate_user.
  - apply (aspace_path _ a); try done. by eapply leaf_small.
  - intros x Hx. destruct (P va Hu) as [E|Hp].
    + unfold kwalk, kleaf in *. rewrite (walk_leaf _ a) in Hx by done. cbn zeta in Hx. by rewrite E in Hx.
    + destruct (user_page_at k a va S Hp) as (prot & Hw & Hm & _). rewrite Hw in Hx. injection Hx as <-. cbn. lia.
Qed.

(** [access_ok] always returns, and accepts only what user mode can access. *)
Lemma access_total k a type addr size :
  isolated k a -> 0 <= addr -> 0 < size < 2 ^ 31 -> addr + size <= 2 ^ 64 ->
  exists b, access_ok type addr size k = Ok b k /\ (b = true -> accepted k (nonzero type) addr size).
Proof.
  intros I H1 H2 H3. destruct (Z.leb_spec (addr + size) (2 ^ 48)) as [Hl|Hl].
  - destruct (access_ok_checks k type addr size) as (b & Hb & Hs); [lia..| |exists b; split; [done|by apply Hs]].
    intros R1 R2 va Hva. destruct (range_inside addr size va) as [Hu|Hu]; try done.
    + by eapply isolated_checks.
    + destruct I as [[S _] _ _ Hh]. destruct S as [[_ W0] Sp]. by eapply hidden_upper.
  - exists false. split; [|done]. unfold access_ok. destruct (USER_MEM_RANGE_OK addr); [|done]. cbn [negb].
    rewrite (u64_small (addr + size - 1)), range_ok_high by lia. done.
Qed.

(** A range the user can access is a buffer the kernel can copy to and from. *)
Lemma isolated_buffer k a write buf n :
  isolated k a -> 0 <= buf -> 0 < n < 2 ^ 31 -> accepted k write buf n ->
  user_buffer k (free_byte ((a, full_blocks a) : al_state)) buf n.
Proof.
  intros I H1 H2 (_ & _ & Hacc). pose proof I as [U P A _]. pose proof U as [S _]. pose proof S as [[_ W0] Sp].
  assert (forall va, buf <= va < buf + n -> user_va va /\ user_page k a va) as Hp
    by (intros va Hva; destruct (user_can_page_at k a write va I (Hacc va Hva)) as (? & ? & _); done).
  assert (buf + n <= 2 ^ 47) as Hhi by (destruct (Hp (buf + n - 1) ltac:(lia)) as [[_ ?] _]; lia).
  assert (forall va, buf <= va < buf + n -> used a (frame k va) /\ ~ kentry k (frame k va)) as Hf.
  { intros va Hva. destruct (Hp va Hva) as [_ Hq]. by destruct (user_page_at k a va S Hq) as (_ & _ & _ & ? & ? & _). }
  split; [done|done|done| | | |].
  - intros va Hva. destruct (alignup_val (buf + n)) as [Eu Hu]; [lia|]. rewrite aligndown_mod in Hva by lia.
    pose proof (Z.div_mod buf 4096). pose proof (Z.mod_pos_bound buf 4096).
    pose proof (Z.div_mod (buf + n + 4095) 4096). pose proof (Z.mod_pos_bound (buf + n + 4095) 4096).
    set (vb := Z.max buf (Z.min va (buf + n - 1))). assert (va / 4096 = vb / 4096) as Hq.
    { pose proof (Z.div_mod va 4096). pose proof (Z.mod_pos_bound va 4096).
      apply (Z.div_unique _ _ _ (vb - va / 4096 * 4096)); lia. }
    destruct (Hp vb ltac:(lia)) as [_ Hq']. apply (user_page_same k a vb va Hq) in Hq'.
    destruct (user_page_at k a va S Hq') as (prot & Hw & Hm & _ & _ & Hpath). split; [done|]. rewrite Hw. cbn. lia.
  - intros va Hva. apply used_not_unused; [done|]. by apply Hf.
  - intros va vb Hva Hvb _ E. apply A; try done; by apply Hp.
  - intros m va Hva Hm.
    refine (near_walk k a (fun x => exists vb, buf <= vb < buf + n /\ x = frame k vb) U (with_mem m k) va _ _).
    + split; [done| |].
      * intros x Hx Hd. apply Hm; [by apply used_not_unused|]. intros vb Hvb ->. apply Hd. by exists vb.
      * intros x (vb & Hvb & ->). by apply Hf.
    + by apply Hp.
Qed.

(** ** Strings *)

(** A terminated string of [n] characters that user mode can read. *)
Definition ustring k (p n : Z) : Prop :=
  0 <= n /\ (forall va, p <= va <= p + n -> user_can k false va = true) /\
  (forall j, 0 <= j < n -> u8 (umem k (p + j)) <> 0) /\ u8 (umem k (p + n)) = 0.

(** Memory is finite: no more than all of it can be read in one piece. *)
Lemma readable_bound k a p n :
  isolated k a -> 0 <= n -> (forall va, p <= va < p + n -> user_can k false va = true) -> n <= MEM_SIZE.
Proof.
  intros I Hn Hr. pose proof I as [U P A _]. pose proof U as [S _].
  assert (forall va, va ∈ seqZ p n -> user_va va /\ user_page k a va) as Hp.
  { intros va Hva%elem_of_seqZ. destruct (user_can_page_at k a false va I (Hr va Hva)) as (? & ? & _). done. }
  assert (NoDup (frame k <$> seqZ p n)) as Hd.
  { apply NoDup_fmap_2_strong; [|apply NoDup_seqZ]. intros va vb Ha Hb E. destruct (Hp va Ha), (Hp vb Hb). by apply A. }
  assert (frame k <$> seqZ p n ⊆+ seqZ 0 MEM_SIZE) as Hs.
  { apply NoDup_submseteq; [done|]. intros x (va & -> & Hva)%list_elem_of_fmap. destruct (Hp va Hva) as [_ Hq].
    destruct (user_page_at k a va S Hq) as (_ & _ & Hm & _). apply elem_of_seqZ. lia. }
  apply submseteq_length in Hs. rewrite length_fmap, !length_seqZ in Hs. unfold MEM_SIZE, PS_LIMIT in *. lia.
Qed.

Lemma user_can_load k a va : isolated k a -> user_can k false va = true -> vload va k = Ok (u8 (umem k va)) k.
Proof.
  intros I Hc. destruct (user_can_page_at k a false va I Hc) as ([Hu Hr] & Hp & prot & Hw & _).
  pose proof I as [[S _] _ _ _]. destruct (user_page_at k a va S Hp) as (_ & _ & Hm & _).
  rewrite (user_vload k va _ Hw); [done|cbn; lia|]. apply user_range_ok in Hu; [|done]. destruct Hu. by apply user_range_not_kernel.
Qed.

(** The first zero of a sequence. *)
Lemma first_zero (f : Z -> Z) n :
  (forall j, 0 <= j < Z.of_nat n -> f j <> 0) \/
  exists j, 0 <= j < Z.of_nat n /\ f j = 0 /\ forall i, 0 <= i < j -> f i <> 0.
Proof.
  induction n as [|n [IH|(j & Hj & Hz & Hf)]]; [left; lia| |right; exists j; split; [lia|done]].
  destruct (Z.eq_dec (f (Z.of_nat n)) 0) as [E|E].
  - right. exists (Z.of_nat n). split; [lia|]. split; [done|]. intros i Hi. apply IH. lia.
  - left. intros j Hj. destruct (Z.eq_dec j (Z.of_nat n)) as [->|]; [done|]. apply IH. lia.
Qed.

(** [access_string_ok] returns, and accepts only strings. *)
Lemma string_loop k a : isolated k a -> forall c p,
  0 <= p < 2 ^ 64 -> (exists q, p <= q < p + Z.of_nat c /\ user_can k false q = false) ->
  exists n b, (n <= S c)%nat /\ run (mbody string_body) n (p, k) = inr (Ok b k) /\ (b = true -> exists l, ustring k p l).
Proof.
  intros I c. induction c as [c IH] using lt_wf_ind. intros p Hp (q & Hq & Hqf).
  destruct (access_total k a VERIFY_READ p 1 I) as (b & Hb & Hs); [lia..|].
  destruct b.
  2:{ exists 1%nat, false. split; [lia|]. split; [|done]. apply mbody_done. unfold string_body. by rewrite (bind_ok _ _ _ _ _ Hb). }
  destruct (Hs eq_refl) as (_ & _ & Hc). pose proof (Hc p ltac:(lia)) as Hcp. change (nonzero VERIFY_READ) with false in Hcp.
  destruct (user_can_page_at k a false p I Hcp) as ([_ Hpr] & _).
  pose proof (Z.mod_pos_bound p 4096 ltac:(lia)) as Hm. pose proof (Z.div_mod p 4096 ltac:(lia)) as Hd.
  set (l := 4096 - p mod 4096) in *.
  assert (forall va, p <= va < p + l -> user_can k false va = true) as Hpg.
  { intros va Hva. rewrite (user_can_page k false va p); [done|lia|lia|]. symmetry.
    apply (Z.div_unique _ _ _ (va - 4096 * (p / 4096))); lia. }
  assert (p + l <= q) as Hql.
  { destruct (Z.leb_spec (p + l) q); [done|]. by rewrite (Hpg q) in Hqf by lia. }
  assert (readable vload k p l (fun i => u8 (umem k (p + i)))) as Hrd.
  { split; [lia|]. split; [lia|]. intros i Hi. apply (user_can_load k a); [done|]. apply Hpg. lia. }
  destruct (first_zero (fun i => u8 (umem k (p + i))) (Z.to_nat l)) as [Hz|(j & Hj & Hz & Hnz)].
  - destruct (IH (c - Z.to_nat l)%nat ltac:(lia) (p + l) ltac:(lia)) as (n & b & Hn & Hrun & Hst).
    { exists q. split; [lia|done]. }
    exists (S n), b. split; [lia|]. split.
    + erewrite mbody_next; [exact Hrun|]. unfold string_body. rewrite (bind_ok _ _ _ _ _ Hb), low12_mod. cbn [negb]. cbv zeta. fold l.
      rewrite (bind_ok _ _ _ _ _ (strnlen_limit vload k p _ l ltac:(lia) Hrd ltac:(intros i Hi; apply Hz; lia))).
      by rewrite Z.eqb_refl, u64_small by lia.
    + intros Et. destruct (Hst Et) as (l' & L1 & L2 & L3 & L4). exists (l + l'). split; [lia|]. split; [|split].
      * intros va Hva. destruct (Z.ltb_spec va (p + l)); [apply Hpg; lia|apply L2; lia].
      * intros i Hi. destruct (Z.ltb_spec i l); [apply Hz; lia|]. specialize (L3 (i - l)).
        replace (p + l + (i - l)) with (p + i) in L3 by lia. apply L3. lia.
      * by rewrite Z.add_assoc.
  - exists 1%nat, true. split; [lia|]. split.
    + apply mbody_done. unfold string_body. rewrite (bind_ok _ _ _ _ _ Hb), low12_mod. cbn [negb]. cbv zeta. fold l.
      rewrite (bind_ok _ _ _ _ _ (strnlen_found vload k p l _ l j Hrd ltac:(lia) ltac:(lia) Hnz Hz)).
      by rewrite (proj2 (Z.eqb_neq _ _)) by lia.
    + intros _. exists j. split; [lia|]. split; [|split; [exact Hnz|exact Hz]]. intros va Hva. apply Hpg. lia.
Qed.
Lemma access_string_total k a p :
  isolated k a -> 0 <= p < 2 ^ 64 ->
  exists b, access_string_ok p k = Ok b k /\ (b = true -> exists n, ustring k p n /\ n < MEM_SIZE).
Proof.
  intros I Hp.
  assert (exists q, p <= q < p + Z.of_nat (Z.to_nat (MEM_SIZE + 1)) /\ user_can k false q = false) as Hq.
  { destruct (decide (Forall (fun va => user_can k false va = true) (seqZ p (MEM_SIZE + 1)))) as [Hf|Hf].
    - exfalso. rewrite Forall_forall in Hf. pose proof (readable_bound k a p (MEM_SIZE + 1) I) as Hb.
      pose proof (eq_refl : MEM_SIZE = 0x400000). assert (MEM_SIZE + 1 <= MEM_SIZE); [|lia]. apply Hb; [lia|].
      intros va Hva. apply Hf, elem_of_seqZ. lia.
    - apply not_Forall_Exists in Hf; [|intros va; apply _]. apply Exists_exists in Hf as (q & Hq & Hn).
      apply elem_of_seqZ in Hq. exists q. split; [lia|]. destruct (user_can k false q) eqn:E; [by destruct Hn|done]. }
  destruct (string_loop k a I (Z.to_nat (MEM_SIZE + 1)) p Hp Hq) as (n & b & Hn & Hrun & Hst).
  exists b. split.
  - unfold access_string_ok. eapply mloop_result; [exact Hrun|]. unfold MEM_SIZE, PS_LIMIT in Hn. lia.
  - intros Et. destruct (Hst Et) as (l & Hu). exists l. split; [done|]. destruct Hu as (L1 & L2 & _).
    pose proof (readable_bound k a p (l + 1) I) as Hb. assert (l + 1 <= MEM_SIZE); [|lia]. apply Hb; [lia|].
    intros va Hva. apply L2. lia.
Qed.

(** Such a string lies in regions of the user's memory. *)
Lemma readable_covered k a n : isolated k a -> forall p,
  (forall va, p <= va < p + Z.of_nat n -> user_can k false va = true) ->
  exists rs, Forall (region_ok k a) rs /\ covered rs p (Z.of_nat n).
Proof.
  intros I. induction n as [|n IH]; intros p Hr; [exists []; split; [constructor|intros va; lia]|].
  destruct (IH (p + 1)) as (rs & HF & Hc); [intros va Hva; apply Hr; lia|].
  pose proof (Hr p ltac:(lia)) as Hcan. destruct (user_can_page_at k a false p I Hcan) as (_ & (f & prot & byte & R) & _).
  pose proof (page_of_in p) as [Hin _]. destruct (region_walk k a _ p (proj1 (is_space _ _ I)) R Hin) as [Hw _].
  exists (Region (page_of p) f 4096 prot byte :: rs). split; [by apply Forall_cons|]. intros va Hva.
  destruct (Z.eq_dec va p) as [->|Hne].
  - eexists. split; [left|]. split; [exact Hin|]. cbn. unfold user_can in Hcan. rewrite Hw in Hcan. cbn in Hcan.
    unfold permits in Hcan. cbn in Hcan. by destruct (has prot PROT_R).
  - destruct (Hc va ltac:(lia)) as (r & Hin' & H1 & H2). exists r. split; [by right|done].
Qed.
Lemma ustring_cstring k a p n :
  isolated k a -> ustring k p n -> exists rs s, Forall (region_ok k a) rs /\ cstring k rs p s /\ Z.of_nat (length s) = n.
Proof.
  intros I (L1 & L2 & L3 & L4). destruct (readable_covered k a (Z.to_nat (n + 1)) I p) as (rs & HF & Hc).
  { intros va Hva. apply L2. lia. }
  set (s := (fun i => u8 (umem k (p + i))) <$> seqZ 0 n).
  assert (Z.of_nat (length s) = n) as Hl by (unfold s; rewrite length_fmap, length_seqZ; lia).
  exists rs, s. split; [done|]. split; [|done]. split.
  - apply Forall_fmap, Forall_forall. intros j Hj%elem_of_seqZ. apply L3. lia.
  - rewrite Hl. by rewrite Z2Nat.id in Hc by lia.
  - intros i b Hb. apply lookup_app_Some in Hb as [Hb|[Hi Hb]].
    + unfold s in Hb. rewrite list_lookup_fmap in Hb. destruct (seqZ 0 n !! i) as [j|] eqn:Ej; [|done].
      apply lookup_seqZ in Ej as [-> _]. injection Hb as <-. by rewrite Z.add_0_l.
    + apply list_lookup_singleton_Some in Hb as [H0 <-]. rewrite <- L4. do 2 f_equal. lia.
Qed.
End User.

(** ** What a step keeps *)

Section Calm.
Context {W : Type}.
Implicit Types k : kstate W.

(** The bytes behind the pages of the user. *)
Definition user_byte k (a : aheap) (x : Z) : Prop := exists va, user_va va /\ user_page k a va /\ x = frame k va.

Lemma user_byte_at k a x : kspace k a -> user_byte k a x -> used a x /\ ~ kentry k x /\ ~ ktable k x.
Proof.
  intros S (va & Hu & Hp & ->). destruct (user_page_at k a va S Hp) as (_ & _ & _ & H1 & H2 & _). split; [done|]. split; [done|].
  destruct Hp as (f & prot & byte & R). pose proof (page_of_in va) as [Hin _].
  destruct (region_walk k a _ va S R Hin) as [Hw _].
  apply (region_not_table k a _ _ S R). unfold frame. rewrite Hw. unfold rng. cbn. lia.
Qed.

(** The pages of the user are mapped as before, memory in use that is not behind them is as
    before, and no room is lost. *)
Record calm k (a : aheap) k' (a' : aheap) : Prop := Calm {
  cm_isolated : isolated k' a';
  cm_allocs : allocs a a';
  cm_mem : forall x, used a x -> ~ user_byte k a x -> guest (k_vm k') x = guest (k_vm k) x;
  cm_leaf : forall va, user_va va -> kleaf k' va = kleaf k va;
  cm_cpu : same_cpu k k';
  cm_table : table_ok (cur_fds (k_vm k)) -> table_ok (cur_fds (k_vm k'));
  cm_room : room a <= room a'
}.

Lemma calm_refl k a : isolated k a -> calm k a k a.
Proof. intros I. by split. Qed.
Lemma calm_back k a k' a' x : isolated k a -> calm k a k' a' -> user_byte k' a' x -> user_byte k a x.
Proof.
  intros I [I' _ _ L _ _ _] (va & Hu & Hp & ->). exists va. destruct (user_page_back k a k' a' va) as [Hq ->]; auto.
  apply I'.
Qed.
Lemma calm_trans k1 a1 k2 a2 k3 a3 : isolated k1 a1 -> calm k1 a1 k2 a2 -> calm k2 a2 k3 a3 -> calm k1 a1 k3 a3.
Proof.
  intros I1 C1 C2. pose proof C1 as [I2 A2 M2 L2 P2 T2 R2]. pose proof C2 as [I3 A3 M3 L3 P3 T3 R3]. split; auto.
  - by eapply allocs_trans.
  - intros x Hx Hn. rewrite M3, M2; auto; [by apply (used_allocs a1)|]. intros Hu. by apply Hn, (calm_back k1 a1 k2 a2).
  - intros va Hu. by rewrite L3, L2.
  - unfold same_cpu in *. destruct P2 as (E1 & E2 & E3). by rewrite <- E1, <- E2, <- E3.
  - lia.
Qed.

(** A call that has kept all blocks, and has written to the user's bytes only. *)
Lemma balanced_calm k a (D : Z -> Prop) k4 m :
  isolated k a -> 0 < room a -> balanced k ((a, full_blocks a) : al_state) D k4 ->
  (forall x, D x -> user_byte k a x) -> (forall x, ~ D x -> m x = guest (k_vm k4) x) ->
  exists a', calm k a (with_mem m k4) a'.
Proof.
  intros I Hr Bal HD Hm. pose proof I as [U _ _ _]. pose proof U as [S _]. pose proof S as [[_ W0] _].
  destruct (balanced_quiet k a D k4 m U Hr Bal) as (a' & U' & K & M & L & R); [|done|].
  { intros x Hx. destruct (user_byte_at k a x S (HD x Hx)) as (H1 & H2 & _). done. }
  destruct Bal as (_ & (A1 & A2 & A3 & A4) & G). exists a'. split; try done.
  - apply (isolated_keeps k a _ a' D); try done; [by apply same_cr3|].
    intros x Hx. by destruct (user_byte_at k a x S (HD x Hx)) as (_ & _ & H3).
  - apply K.
  - intros x Hx Hn. change (m x = guest (k_vm k) x). assert (~ D x) as Hd by auto. rewrite Hm by done. apply G; [|done].
    by apply used_not_unused.
  - intros Ht. change (table_ok (cur_fds (k_vm k4))). by rewrite A2.
Qed.

(** A store the processor lets user mode make. *)
Lemma store_calm k a va b :
  isolated k a -> 0 < room a -> user_can k true va = true -> exists k' a', vstore va b k = Ok tt k' /\ calm k a k' a'.
Proof.
  intros I Hr Hc. destruct (user_can_page_at k a true va I Hc) as (Hu & Hp & prot & Hw & Hrw).
  pose proof I as [U _ _ _]. pose proof U as [S Hs]. destruct (user_page_at k a va S Hp) as (_ & _ & Hm & _).
  pose proof Hu as [Hu' Hb]. apply user_range_ok in Hu'; [|done]. destruct Hu' as [Hu1 Hu2].
  set (m := fun y => if y =? frame k va then u8 b else guest (k_vm k) y).
  assert (vstore va b k = Ok tt (with_mem m k)) as Hrun.
  { unfold vstore, vtrans. rewrite user_range_not_kernel by done. unfold kwalk in Hw. rewrite Hw. cbn [x_pa x_rw].
    by rewrite (Hrw eq_refl), (proj2 (Z.ltb_lt _ _)) by lia. }
  destruct (balanced_calm k a (fun x => x = frame k va) k m I Hr) as (a' & C); [| | |by exists (with_mem m k), a'].
  - split; [|by split]. exists (a, full_blocks a). split; [apply full_inv; [apply S|done]|]. done.
  - intros x ->. by exists va.
  - intros x Hx. unfold m. by rewrite (proj2 (Z.eqb_neq _ _)).
Qed.
End Calm.

(** ** System calls *)

Section Calls.
Context {W : Type} (os : host_os W) (fails : ioctl -> bool).
Hypothesis kvm_works : forall i, fails i = false.
Hypothesis os_ok : os_documented os.
Implicit Types k : kstate W.

(** What holds while a program runs: its memory is isolated, the registers are those the
    kernel runs with when it is entered, and [B] bytes of kernel memory are free. *)
Record running k (a : aheap) (B : Z) : Prop := Running {
  rn_isolated : isolated k a;
  rn_mode : kernel_mode k;
  rn_table : table_ok (cur_fds (k_vm k));
  rn_room : 0 < B <= room a
}.

Lemma running_calm k a k' a' B : running k a B -> calm k a k' a' -> running k' a' B.
Proof.
  intros [I M T R] [I' _ _ _ (C & _) T' R']. split; [done| |auto|lia]. unfold kernel_mode. by rewrite C.
Qed.

Lemma with_mem_id k : with_mem (guest (k_vm k)) k = k.
Proof. apply put_heap_id. Qed.

(** A check that passed or not, and a call that works on what passed. *)
Lemma read_calm k a B fd buf n :
  running k a B -> - 2 ^ 31 <= fd < 2 ^ 31 -> 0 <= buf -> 0 < n < 2 ^ 31 -> buf + n <= 2 ^ 64 ->
  chunk_size n + chunk_size 24 <= B ->
  exists r k' a', sys_read os fails fd buf n k = Ok r k' /\ calm k a k' a'.
Proof using kvm_works os_ok.
  intros [I M T R] Hfd H1 H2 H3 Hb. pose proof I as [[[[Hr W0] Sp] Hs] _ _ _].
  destruct (Z.ltb_spec fd 0) as [Hn|Hn].
  { exists (- EBADF), k, a. split; [|by apply calm_refl]. unfold sys_read. by rewrite (proj2 (Z.ltb_lt _ _)). }
  destruct (access_total k a VERIFY_WRITE buf n I H1 H2 H3) as ([] & Hok & Hacc).
  2:{ exists (- EFAULT), k, a. split; [|by apply calm_refl]. unfold sys_read.
      by rewrite (proj2 (Z.ltb_ge _ _)), (bind_ok _ _ _ _ _ Hok) by lia. }
  specialize (Hacc eq_refl). pose proof (isolated_buffer k a true buf n I H1 H2 Hacc) as Hub.
  destruct (read_accepted os fails kvm_works (od_rw _ os_ok) k ((a, full_blocks a) : al_state) fd buf n M)
    as (r & l & k' & Hrun & Hres & _ & Bal); [by apply full_inv|..]; try done.
  { unfold room in R. cbn. lia. }
  { lia. }
  assert (Z.of_nat (length l) <= n) as Hl.
  { destruct (read_result_shape os (od_rw _ os_ok) (k_vm k) fd n r l (host (k_vm k'))) as (_ & ? & _); [lia|by symmetry|done]. }
  destruct (balanced_calm k a _ k' (guest (k_vm k')) I ltac:(lia) Bal) as (a' & C); [|done|].
  - intros x (va & Hva & ->). destruct Hacc as (_ & _ & Hc).
    destruct (user_can_page_at k a true va I (Hc va ltac:(lia))) as (? & ? & _). by exists va.
  - rewrite with_mem_id in C. by exists r, k', a'.
Qed.

Lemma write_calm k a B fd buf n :
  running k a B -> - 2 ^ 31 <= fd < 2 ^ 31 -> 0 <= buf -> 0 < n < 2 ^ 31 -> buf + n <= 2 ^ 64 ->
  chunk_size n + chunk_size 24 <= B ->
  exists r k' a', sys_write os fails fd buf n k = Ok r k' /\ calm k a k' a'.
Proof using kvm_works os_ok.
  intros [I M T R] Hfd H1 H2 H3 Hb. pose proof I as [[[[Hr W0] Sp] Hs] _ _ _].
  destruct (Z.ltb_spec fd 0) as [Hn|Hn].
  { exists (- EBADF), k, a. split; [|by apply calm_refl]. unfold sys_write. by rewrite (proj2 (Z.ltb_lt _ _)). }
  destruct (access_total k a VERIFY_READ buf n I H1 H2 H3) as ([] & Hok & Hacc).
  2:{ exists (- EFAULT), k, a. split; [|by apply calm_refl]. unfold sys_write.
      by rewrite (proj2 (Z.ltb_ge _ _)), (bind_ok _ _ _ _ _ Hok) by lia. }
  specialize (Hacc eq_refl). pose proof (isolated_buffer k a false buf n I H1 H2 Hacc) as Hub.
  destruct (write_accepted os fails kvm_works (od_rw _ os_ok) k ((a, full_blocks a) : al_state) fd buf n M)
    as (r & k' & Hrun & _ & Bal); [by apply full_inv|..]; try done.
  { unfold room in R. cbn. lia. }
  { lia. }
  destruct (balanced_calm k a _ k' (guest (k_vm k')) I ltac:(lia) Bal) as (a' & C); [done|done|].
  rewrite with_mem_id in C. by exists r, k', a'.
Qed.

Lemma open_result_table v name : table_ok (cur_fds v) -> table_ok (open_result os v name).1.2.
Proof using.
  intros T. unfold open_result. destruct (_ <? _); [done|]. destruct (os_open os (host v) name) as [w [e|n]]; [done|].
  destruct (n <? 0); [done|]. cbn. unfold table_ok, fd_put in *. by rewrite length_insert.
Qed.

Lemma open_string_calm k a rs path s :
  isolated k a -> kernel_mode k -> table_ok (cur_fds (k_vm k)) -> Forall (region_ok k a) rs -> cstring k rs path s ->
  Z.of_nat (length s) < 2 ^ 31 - 1 -> chunk_size (Z.of_nat (length s) + 1) <= room a ->
  exists k' a', sys_open os fails path k = Ok (open_result os (k_vm k) s).1.1 k' /\ calm k a k' a'.
Proof using kvm_works os_ok.
  intros I M T HF C Hl Hroom. pose proof I as [U _ _ _].
  destruct (sys_open_run os fails kvm_works (od_open _ os_ok) k a rs path s U HF M C Hl Hroom)
    as (k' & a' & Hrun & U' & [K G] & L & R' & P & F & H').
  exists k', a'. split; [exact Hrun|]. split; try done.
  - apply (isolated_keeps k a k' a' (fun _ => False)); try done. unfold cr3_of. destruct P as [-> _]. done.
  - apply K.
  - auto.
  - intros _. rewrite F. by apply open_result_table.
Qed.
Lemma open_calm k a B path :
  running k a B -> 0 <= path < 2 ^ 64 -> (forall n, ustring k path n -> chunk_size (n + 1) <= B) ->
  exists r k' a', sys_open os fails path k = Ok r k' /\ calm k a k' a'.
Proof using kvm_works os_ok.
  intros [I M T R] Hp Hb. destruct (access_string_total k a path I Hp) as ([] & Hok & Hst).
  2:{ exists (- EFAULT), k, a. split; [|by apply calm_refl]. unfold sys_open. by rewrite (bind_ok _ _ _ _ _ Hok). }
  destruct (Hst eq_refl) as (n & Hu & Hn). destruct (ustring_cstring k a path n I Hu) as (rs & s & HF & C & Hl).
  pose proof (eq_refl : MEM_SIZE = 0x400000). specialize (Hb n Hu).
  destruct (open_string_calm k a rs path s I M T HF C ltac:(lia) ltac:(rewrite Hl; lia)) as (k' & a' & Hrun & Cm).
  eexists _, k', a'. split; [exact Hrun|done].
Qed.

Lemma close_calm k a B fd :
  running k a B -> - 2 ^ 31 <= fd < 2 ^ 31 -> exists r k' a', sys_close os fails fd k = Ok r k' /\ calm k a k' a'.
Proof using kvm_works os_ok.
  intros [I M T R] Hfd. destruct (hp_close_run os fails k fd kvm_works M (od_close _ os_ok) T Hfd) as (r & v & Hrun & Hg & [Hc Ht] & _).
  eexists r, _, a. split; [exact Hrun|]. split; cbn; try done.
  - by apply isolated_vm.
  - intros x _ _. by rewrite Hg.
  - intros va _. unfold kleaf, cr3_of. cbn. by rewrite Hg, Hc.
Qed.

Lemma exit_ends k a B status : running k a B -> sys_exit os fails status k = Halt (ExitProc 0).
Proof using kvm_works.
  intros [_ M _ _]. unfold sys_exit, hypercall, on_vm, zoom. rewrite bind_modify. unfold mbind at 1, cmd_bind at 1.
  assert (serve os fails (KVM_EXIT_IO NR_HP_exit IO_OUT) (set_data (u32 (u32 status)) (k_vm k)) = Halt (ExitProc 0)) as ->; [|done].
  unfold serve, check_iopl.
  rewrite bind_bind, (bind_ok _ _ _ _ _ (get_regs_ok fails kvm_works _)), bind_bind.
  rewrite (bind_ok _ _ _ _ _ (get_sregs_ok fails kvm_works _)), bind_ret.
  unfold kernel_mode in M. cbn [cpu set_data]. rewrite M, (proj2 (Z.leb_le _ _)) by (apply Z.land_nonneg; lia). reflexivity.
Qed.

(** Requests of a size the kernel has memory for: it does not check whether its allocation
    fails, nor whether a length of 0 or a range that wraps around is meant. *)
Definition modest (B : Z) k (nr arg0 arg1 arg2 : Z) : Prop :=
  0 <= arg0 < 2 ^ 64 /\ 0 <= arg1 < 2 ^ 64 /\
  (u32 nr = SYS_read \/ u32 nr = SYS_write ->
     0 < arg2 < 2 ^ 31 /\ arg1 + arg2 <= 2 ^ 64 /\ chunk_size arg2 + chunk_size 24 <= B) /\
  (u32 nr = SYS_open -> forall n, ustring k arg0 n -> chunk_size (n + 1) <= B).

Lemma syscall_calm k a B nr arg0 arg1 arg2 :
  running k a B -> modest B k nr arg0 arg1 arg2 ->
  (exists r k' a', syscall_handler os fails nr arg0 arg1 arg2 k = Ok r k' /\ calm k a k' a') \/
  (u32 nr = SYS_exit /\ syscall_handler os fails nr arg0 arg1 arg2 k = Halt (ExitProc 0)).
Proof using kvm_works os_ok.
  intros Hr (A0 & A1 & Hrw & Hop). pose proof (rn_isolated _ _ _ Hr) as I.
  assert (forall f : cmd (kstate W) Z, (exists r k' a', f k = Ok r k' /\ calm k a k' a') ->
    exists r k' a', (r ← f; mret (u64 r)) k = Ok r k' /\ calm k a k' a') as Hret.
  { intros f (r & k' & a' & Hf & C). exists (u64 r), k', a'. by rewrite (bind_ok _ _ _ _ _ Hf). }
  unfold syscall_handler. destruct (MAX_SYS_NR <? u32 nr).
  { left. exists (u64 (- ENOSYS)), k, a. split; [done|by apply calm_refl]. }
  unfold syscall_table.
  destruct (Z.eqb_spec (u32 nr) SYS_read) as [E|_].
  { left. destruct Hrw as (H1 & H2 & H3); [by left|]. apply Hret, (read_calm k a B); (apply s32_range || done || lia). }
  destruct (Z.eqb_spec (u32 nr) SYS_write) as [E|_].
  { left. destruct Hrw as (H1 & H2 & H3); [by right|]. apply Hret, (write_calm k a B); (apply s32_range || done || lia). }
  destruct (Z.eqb_spec (u32 nr) SYS_open) as [E|_].
  { left. apply Hret, (open_calm k a B); auto. }
  destruct (Z.eqb_spec (u32 nr) SYS_close) as [E|_].
  { left. apply Hret, (close_calm k a B); [done|apply s32_range]. }
  destruct (Z.eqb_spec (u32 nr) SYS_exit) as [E|_].
  { right. split; [done|]. unfold mbind, cmd_bind. by rewrite (exit_ends k a B). }
  left. exists (u64 (- ENOSYS)), k, a. split; [done|by apply calm_refl].
Qed.

(** ** Programs *)

(** What a program can do: store where the processor lets it, and make system calls. *)
Inductive user_step (B : Z) : kstate W -> kstate W -> Prop :=
| us_store k va b k' : user_can k true va = true -> vstore va b k = Ok tt k' -> user_step B k k'
| us_call k nr arg0 arg1 arg2 r k' :
    modest B k nr arg0 arg1 arg2 -> syscall_handler os fails nr arg0 arg1 arg2 k = Ok r k' -> user_step B k k'.

Lemma step_calm k a B k' : running k a B -> user_step B k k' -> exists a', calm k a k' a'.
Proof using kvm_works os_ok.
  intros R St. destruct St as [k va b k' Hc Hrun|k nr arg0 arg1 arg2 r k' Hm Hrun].
  - destruct (store_calm k a va b) as (k1 & a' & Hrun' & C); [apply R|destruct R; lia|done|].
    exists a'. rewrite Hrun' in Hrun. by injection Hrun as <-.
  - destruct (syscall_calm k a B nr arg0 arg1 arg2 R Hm) as [(r1 & k1 & a' & Hrun' & C)|[_ Hh]]; [|by rewrite Hrun in Hh].
    exists a'. rewrite Hrun' in Hrun. by injection Hrun as _ <-.
Qed.
Lemma program_calm k a B k' : running k a B -> rtc (user_step B) k k' -> exists a', calm k a k' a' /\ running k' a' B.
Proof using kvm_works os_ok.
  intros R St. revert a R. induction St as [k|k1 k2 k3 S1 _ IH]; intros a R.
  - exists a. split; [apply calm_refl, R|done].
  - destruct (step_calm k1 a B k2 R S1) as (a2 & C2). pose proof (running_calm _ _ _ _ _ R C2) as R2.
    destruct (IH a2 R2) as (a3 & C3 & R3). exists a3. split; [|done]. eapply calm_trans; [apply R|done|done].
Qed.
End Calls.

(** ** The properties *)



(** C18: How [sys_execve] fails before it has changed the program that calls it: a name that is
    not a readable string is refused with EFAULT and nothing has changed; an error of the
    system's open is returned; and a file that is no 64-bit ELF file is refused with ENOEXEC.
    In the last two cases the user's pages are mapped as before and still its own. *)
Theorem sys_execve_refuses {W} (os : host_os W) fails (k : kstate W) a B path argv envp :
  (forall i, fails i = false) -> os_documented os -> running k a B -> 0 <= path < 2 ^ 64 ->
  ((forall n, ~ ustring k path n) -> sys_execve os fails path argv envp k = Ok (ExecError (- EFAULT)) k) /\
  (forall rs name, Forall (region_ok k a) rs -> cstring k rs path name ->
     Z.of_nat (length name) < 2 ^ 31 - 1 -> first_free (cur_fds (k_vm k)) 0 <= MAX_FD ->
     chunk_size (Z.of_nat (length name) + 1) <= room a ->
     match os_open os (host (k_vm k)) name with
     | (_, inl e) => exists k' a', sys_execve os fails path argv envp k = Ok (ExecError (- e)) k' /\ calm k a k' a'
     | (w, inr h) => forall content at_, regular_file os h content at_ -> at_ w 0 ->
         matches (header content) 0 ELF_IDENT = false -> chunk_size 0x1000 + 0x80 <= room a ->
         exists k' a', sys_execve os fails path argv envp k = Ok (ExecError (- ENOEXEC)) k' /\ isolated k' a' /\
           (forall va, user_va va -> kwalk k' va = kwalk k va)
     end).
Proof.
  intros Hok Hos R Hp. pose proof R as [I M T Hr]. split.
  - intros Hn. destruct (access_string_total k a path I Hp) as ([] & Hs & Hst).
    + destruct (Hst eq_refl) as (n & Hu & _). by destruct (Hn n).
    + unfold sys_execve, sys_open. rewrite bind_bind, (bind_ok _ _ _ _ _ Hs). done.
  - intros rs name HF C Hl Hfr Hroom. pose proof I as [U _ _ _].
    pose proof (od_open _ Hos (host (k_vm k)) name) as Hdoc.
    destruct (os_open os (host (k_vm k)) name) as [w [e|h]] eqn:Ho.
    + destruct (open_string_calm os fails Hok Hos k a rs path name I M T HF C Hl Hroom) as (k' & a' & Hrun & Cm).
      exists k', a'. split; [|done]. unfold open_result in Hrun. rewrite (proj2 (Z.ltb_ge _ _)), Ho in Hrun by lia. cbn in Hrun.
      unfold sys_execve. by rewrite (bind_ok _ _ _ _ _ Hrun), (proj2 (Z.ltb_lt _ _)) by lia.
    + intros content at_ Hf Hat Hm Hroom2.
      destruct (exec_open os fails Hok Hos k a rs path name w h at_ U HF M T Hfr C Hl Ho Hat Hroom)
        as (fd & k1 & a1 & Hrun1 & Hr1 & U1 & _ & _ & R1 & I1 & L1).
      destruct (load_binary_rejects os fails h content at_ k1 a1 fd Hok (od_rw _ Hos) Hf U1 Hr1 ltac:(lia) Hm)
        as (k2 & a2 & Hrun2 & U2 & I2 & L2).
      exists k2, a2. split; [|split; [auto|]].
      * unfold sys_execve. pose proof Hr1 as (_ & Hfd & _). rewrite (bind_ok _ _ _ _ _ Hrun1), (proj2 (Z.ltb_ge _ _)) by lia.
        by rewrite (bind_ok _ _ _ _ _ Hrun2).
      * intros va Hu. rewrite L2 by done. apply (kwalk_same k a k1 a1); [apply U|apply U1|done|auto].
Qed.

(** C10: From the start of the hypervisor to the end of the kernel's initialisation: the address
    space is a tree of tables that maps nothing for the user, user mode can access no address
    at all, and all memory above the kernel is free. *)
Theorem boot_isolated {W} (fails : ioctl -> bool) code (v : vm W) mem_base argv ar lm ms :
  (forall i, fails i = false) -> Z.of_nat (length code) <= MAX_KERNEL_SIZE ->
  0 <= mem_base -> mem_base mod 16 = 0 -> mem_base + MEM_SIZE < 2 ^ 64 ->
  strings_size argv + 16 + 8 * (Z.of_nat (length argv) + 2) <= KERNEL_STACK_SIZE ->
  exists v1 v2 k, kvm_init fails KVM_API_VERSION code v = Ok tt v1 /\ copy_argv fails mem_base argv v1 = Ok tt v2 /\
    (with_cr3 init_pagetable ;;
     on_heap (init_allocator (Z.lor (rdi (v_regs (cpu v2))) KERNEL_BASE_OFFSET) (rsi (v_regs (cpu v2)))))
      (KState v2 ar lm ms) = Ok tt k /\
    isolated k (fresh_aheap BOOT_HEAP (MEM_SIZE - PS_LIMIT)) /\ kernel_mode k /\
    (forall write va, user_can k write va = false).
Proof.
  intros Hok Hlen Hb0 Hb Hb1 Hargs.
  destruct (booted fails code v mem_base argv ar Hok Hlen Hb0 Hb Hb1 Hargs) as (v1 & v2 & m & H1 & H2 & Hc & Hd & Hdi & Hsi & Hrun & Bm).
  destruct (init_allocator_run BOOT_HEAP (MEM_SIZE - PS_LIMIT) (Heap m ar)) as ([m' ar'] & Hrun' & I & Hm); [done..|]. cbn in Hm. subst m'.
  set (k := put_heap (Heap m ar') (KState v2 ar lm ms)).
  destruct (boot_aspace m (fresh_aheap BOOT_HEAP (MEM_SIZE - PS_LIMIT)) MAX_KERNEL_SIZE Bm) as (S & Hh & Hl).
  assert (cr3_of k = MAX_KERNEL_SIZE) as Hc3 by exact Hc.
  assert (isolated k (fresh_aheap BOOT_HEAP (MEM_SIZE - PS_LIMIT))) as Iso.
  { assert (forall va, user_va va -> kleaf k va = 0) as Hl' by (intros va Hu; unfold kleaf; rewrite Hc3; exact (Hl va Hu)).
    split.
    - split; [split; [exact I|rewrite Hc3; exact S]|constructor].
    - intros va Hu. left. auto.
    - intros va vb Hu _ Hp. destruct (user_page_leaf _ _ _ Hp). auto.
    - rewrite Hc3. exact Hh. }
  exists v1, v2, k. split; [done|]. split; [done|]. split; [|split; [done|split; [done|]]].
  - rewrite Hdi, Hsi. change (Z.lor PS_LIMIT KERNEL_BASE_OFFSET) with BOOT_HEAP.
    unfold with_cr3. rewrite bind_bind, bind_get. unfold cr3_of. cbn [k_vm]. rewrite Hc.
    rewrite (bind_ok _ _ _ _ _ (on_heap_ok _ (KState v2 ar lm ms) _ _ Hrun)).
    apply (on_heap_ok _ (put_heap (Heap m ar) (KState v2 ar lm ms))). exact Hrun'.
  - intros write va. destruct (user_can k write va) eqn:E; [|done]. exfalso.
    destruct (user_can_page_at k _ write va Iso E) as (Hu & Hp & _). destruct (user_page_leaf _ _ _ Hp).
    unfold kleaf. rewrite Hc3. exact (Hl va Hu).
Qed.

(** ** Concrete instances *)

Lemma file_os_ok : os_documented (file_os ex_elf).
Proof.
  split; [intros w name; cbn; lia|exact (file_os_documented ex_elf ex_elf_bytes)|exact (file_os_lseek ex_elf)|intros w fd; cbn; done].
Qed.

(** The example program after its start, and the kernel before it. *)
Lemma ex_started : exists rsp k a,
  sys_execve (file_os ex_elf) (fun _ => false) (ARGS_AT + 40) ARGS_AT (ARGS_AT + 24) args_kstate = Ok (EnterUser 0x4000b0 rsp) k /\
  running k a 0x1000 /\ exists pa, kwalk k 0x4010b5 = Some (Xlat pa true true).
Proof.
  destruct args_kstate_ok as (f & a & U & HF & (M1 & M2 & _) & R & _ & I).
  assert (region_ok args_kstate a (args_region f)) as Ra by (by apply Forall_cons in HF as [? _]).
  destruct (args_vectors a f U Ra) as (V1 & V2 & C).
  assert (exec_cost ex_elf [112] ex_argv ex_envp + 0x1000 <= room a) as Hc by (etransitivity; [|exact R]; vm_compute; discriminate).
  destruct (execve_run (file_os ex_elf) (fun _ => false) (fun _ => eq_refl) file_os_ok args_kstate a [args_region f] (ARGS_AT + 40) ARGS_AT (ARGS_AT + 24)
    [112] ex_argv ex_envp 0 3 ex_elf eq) as (rsp & f' & stk & k' & a' & H1 & H2 & H3 & H4 & H5 & H6 & H7).
  - split; [exact U|exact HF|unfold kernel_mode; by rewrite M1|by rewrite M2|rewrite M2; vm_compute; discriminate|exact C
           |vm_compute; reflexivity|exact V1|exact V2|vm_compute; discriminate].
  - apply ex_file_ok.
  - lia.
  - exists rsp, k', a'. split; [exact H1|]. split; [split; [by apply H7|exact H4|exact H5|lia]|].
    destruct (H3 1) with (i := 1) as (pa & A1 & _).
    + vm_compute. split; [discriminate|reflexivity].
    + vm_compute. reflexivity.
    + vm_compute. split; [discriminate|reflexivity].
    + exists pa. exact A1.
Qed.
Lemma args_running : exists a, running args_kstate a 0x1000.
Proof.
  destruct args_kstate_ok as (f & a & _ & _ & (M1 & M2 & _) & R & _ & I). exists a.
  split; [exact I|unfold kernel_mode; by rewrite M1|by rewrite M2|]. split; [lia|]. etransitivity; [|exact R]. vm_compute. discriminate.
Qed.



(** No name is at address 0. *)
Lemma sys_execve_refuses_witness :
  sys_execve (file_os ex_elf) (fun _ => false) 0 ARGS_AT (ARGS_AT + 24) args_kstate = Ok (ExecError (- EFAULT)) args_kstate.
Proof.
  destruct args_running as (a & R).
  apply (sys_execve_refuses (file_os ex_elf) (fun _ => false) args_kstate a 0x1000 0 ARGS_AT (ARGS_AT + 24)).
  - reflexivity.
  - exact file_os_ok.
  - exact R.
  - lia.
  - intros n (Hn & Hc & _). destruct (user_can_page_at args_kstate a false 0 (rn_isolated _ _ _ R) (Hc 0 ltac:(lia))) as ([Hu _] & _).
    discriminate Hu.
Defined.

Lemma boot_isolated_witness : exists v1 v2 (k : kstate unit), kvm_init (fun _ => false) KVM_API_VERSION [0xf4] (demo_vm 0) = Ok tt v1 /\
  copy_argv (fun _ => false) 0x7f0000000000 [[97]; [98; 99]] v1 = Ok tt v2 /\
  (with_cr3 init_pagetable ;;
   on_heap (init_allocator (Z.lor (rdi (v_regs (cpu v2))) KERNEL_BASE_OFFSET) (rsi (v_regs (cpu v2)))))
     (KState v2 (Arena 0 0 0 0 0 0) 0 ∅) = Ok tt k /\ user_can k true 0x400000 = false.
Proof.
  destruct (boot_isolated (fun _ => false) [0xf4] (demo_vm 0) 0x7f0000000000 [[97]; [98; 99]] (Arena 0 0 0 0 0 0) 0 ∅)
    as (v1 & v2 & k & H1 & H2 & H3 & _ & _ & H4).
  - reflexivity.
  - done.
  - done.
  - reflexivity.
  - done.
  - done.
  - exists v1, v2, k. split; [exact H1|]. split; [exact H2|]. split; [exact H3|]. apply H4.
Defined.
