(* ===== verification/BpfLoad.v ===== *)
(** * Loading BPF object files (bpf_load.c)

    The loader shared by fexit_example, crash_systemd and kprobe_file_read.  The
    copies differ in one respect: that of fexit_example also accepts sections named
    "fexit"; [with_fexit] selects it.  libelf, libbpf and the system are
    parameters: the ELF file is given by what libelf's accessors return, system
    and library calls by one function. *)

From S2P Require Import Prelude Arch.

Definition MAX_MAPS : Z := 32.
Definition MAX_PROGS : Z := 32.
Definition EFBIG : Z := 27.

(** ** Data *)

Record bpf_load_map_def := MapDef {
  md_type : Z; key_size : Z; value_size : Z; max_entries : Z; map_flags : Z;
  inner_map_idx : Z; numa_node : Z
}.
Definition zero_def : bpf_load_map_def := MapDef 0 0 0 0 0 0 0.
Definition SIZEOF_MAP_DEF : Z := 28.

Record bpf_map_data := MapData {
  fd : Z; name : string; elf_offset : Z; def : bpf_load_map_def
}.

Inductive prog_type :=
| SOCKET_FILTER | KPROBE | TRACEPOINT | RAW_TRACEPOINT | XDP | PERF_EVENT | CGROUP_SKB
| CGROUP_SOCK | SOCK_OPS | SK_SKB | SK_MSG | TRACING.
#[export] Instance prog_type_eq_dec : EqDecision prog_type.
Proof. solve_decision. Defined.

(** A section as libelf presents it; [sec_shdr], [sec_name] and [sec_data] are the
    results of gelf_getshdr, elf_strptr and elf_getdata. *)
Record shdr := Shdr {
  sh_type : Z; sh_flags : Z; sh_size : Z; sh_link : Z; sh_info : Z; sh_entsize : Z
}.
Record section := Section_ {
  sec_shdr : option shdr;
  sec_name : option string;
  sec_data : option (list Z);
  sec_more : bool (* a second Elf_Data follows *)
}.
Record sym := Sym { st_name : Z; st_value : Z; st_shndx : Z }.
Record rel := Rel { r_offset : Z; r_sym : Z }.

(** What libelf decodes. *)
Record libelf := LibElf {
  gelf_getsym : list Z -> Z -> option sym;
  gelf_getrel : list Z -> Z -> rel;
  strptr : Z -> Z -> string
}.

Definition SHT_PROGBITS : Z := 1.
Definition SHT_SYMTAB : Z := 2.
Definition SHT_REL : Z := 9.
Definition SHF_EXECINSTR : Z := 4.
Definition SIZEOF_SYM : Z := 24.
Definition SIZEOF_INSN : Z := 8.
Definition BPF_LD_IMM_DW : Z := 0x18. (* BPF_LD | BPF_IMM | BPF_DW *)
Definition BPF_PSEUDO_MAP_FD : Z := 1.
Definition BPF_F_NUMA_NODE : Z := 4.
Definition BPF_MAP_TYPE_PROG_ARRAY : Z := 3.
Definition BPF_MAP_TYPE_ARRAY_OF_MAPS : Z := 12.
Definition BPF_MAP_TYPE_HASH_OF_MAPS : Z := 13.

(** Calls that leave the program. *)
Inductive sysop :=
| OpMapUpdate (mfd key value : Z)
| OpLoadProgram (ty : prog_type) (insns : list Z) (cnt : Z) (license : list Z) (version : Z)
| OpRawTracepoint (name : string) (pfd : Z)
| OpCreateMap (ty : Z) (name : string) (key value max flags numa : Z)
| OpCreateMapInMap (ty : Z) (name : string) (key inner max flags numa : Z)
| OpOpen (path : string) (flags : Z)
| OpWrite (ofd : Z) (s : string)
| OpRead (ofd n : Z)
| OpClose (ofd : Z)
| OpPerfEventOpen (config : Z)
| OpPerfEnable (efd : Z)
| OpPerfSetBpf (efd pfd : Z).

Record loader (W : Type) := Loader {
  license : list Z;
  kern_version : Z;
  processed_sec : list bool;
  map_fd : list Z;
  prog_fd : list Z;
  event_fd : list Z;
  prog_cnt : Z;
  prog_array_fd : Z;
  map_data : list bpf_map_data;
  map_data_count : Z;
  sections : list section; (* the ELF file in memory, section 0 first *)
  world : W
}.
Arguments Loader {W}. Arguments license {W}. Arguments kern_version {W}.
Arguments processed_sec {W}. Arguments map_fd {W}. Arguments prog_fd {W}. Arguments event_fd {W}.
Arguments prog_cnt {W}. Arguments prog_array_fd {W}. Arguments map_data {W}.
Arguments map_data_count {W}. Arguments sections {W}. Arguments world {W}.

(** ** Strings *)

(** [event + n], reading past the terminator being out of bounds. *)
Fixpoint skip (n : nat) (s : string) : option string :=
  match n, s with
  | O, _ => Some s
  | S n', String _ s' => skip n' s'
  | S _, EmptyString => None
  end.
Definition char (s : string) : Z :=
  match s with EmptyString => 0 | String c _ => Z.of_nat (Ascii.nat_of_ascii c) end.
Definition isdigit (c : Z) : bool := (48 <=? c) && (c <=? 57).
Definition SLASH : Z := 47.

Fixpoint atoi_digits (acc : Z) (s : string) : Z :=
  match s with
  | EmptyString => acc
  | String c s' =>
      let d := Z.of_nat (Ascii.nat_of_ascii c) in
      if isdigit d then atoi_digits (10 * acc + (d - 48)) s' else acc
  end.
Fixpoint atoi (s : string) : Z :=
  match s with
  | EmptyString => 0
  | String c s' =>
      let d := Z.of_nat (Ascii.nat_of_ascii c) in
      if (d =? 32) || ((9 <=? d) && (d <=? 13)) then atoi s'
      else if d =? 45 then s32 (- atoi_digits 0 s')
      else if d =? 43 then s32 (atoi_digits 0 s')
      else s32 (atoi_digits 0 s)
  end.

Definition starts (p s : string) : bool := String.prefix p s.

Definition DEBUGFS : string := "/sys/kernel/debug/tracing/".
Definition O_RDONLY : Z := 0.
Definition O_WRONLY_TRUNC : Z := 0x201.
Definition O_WRONLY_APPEND : Z := 0x401.
Definition BUF_SIZE : Z := 256.

(** ** The loader *)

Section BpfLoad.
Context {W : Type} (with_fexit : bool).
(** What a call returns: its value, and the bytes a read stores. *)
Context (call : W -> sysop -> W * (Z * string)).
Context (elib : libelf).
Abbreviation L := (cmd (loader W)).

Definition sys (op : sysop) : L (Z * string) := fun s =>
  let '(w, r) := call (world s) op in
  Ok r (Loader (license s) (kern_version s) (processed_sec s) (map_fd s) (prog_fd s) (event_fd s)
          (prog_cnt s) (prog_array_fd s) (map_data s) (map_data_count s) (sections s) w).
Definition sys_ret (op : sysop) : L Z := r ← sys op; mret r.1.

(** Setters. *)
Definition set_license (l : list Z) (v : Z) (s : loader W) : loader W :=
  Loader l v (processed_sec s) (map_fd s) (prog_fd s) (event_fd s) (prog_cnt s) (prog_array_fd s)
    (map_data s) (map_data_count s) (sections s) (world s).
Definition set_processed (p : list bool) (s : loader W) : loader W :=
  Loader (license s) (kern_version s) p (map_fd s) (prog_fd s) (event_fd s) (prog_cnt s)
    (prog_array_fd s) (map_data s) (map_data_count s) (sections s) (world s).
Definition set_map_fd (l : list Z) (s : loader W) : loader W :=
  Loader (license s) (kern_version s) (processed_sec s) l (prog_fd s) (event_fd s) (prog_cnt s)
    (prog_array_fd s) (map_data s) (map_data_count s) (sections s) (world s).
Definition set_prog_fd (l : list Z) (n : Z) (s : loader W) : loader W :=
  Loader (license s) (kern_version s) (processed_sec s) (map_fd s) l (event_fd s) n
    (prog_array_fd s) (map_data s) (map_data_count s) (sections s) (world s).
Definition set_event_fd (l : list Z) (s : loader W) : loader W :=
  Loader (license s) (kern_version s) (processed_sec s) (map_fd s) (prog_fd s) l (prog_cnt s)
    (prog_array_fd s) (map_data s) (map_data_count s) (sections s) (world s).
Definition set_prog_array (p : Z) (s : loader W) : loader W :=
  Loader (license s) (kern_version s) (processed_sec s) (map_fd s) (prog_fd s) (event_fd s)
    (prog_cnt s) p (map_data s) (map_data_count s) (sections s) (world s).
Definition set_map_data (l : list bpf_map_data) (n : Z) (s : loader W) : loader W :=
  Loader (license s) (kern_version s) (processed_sec s) (map_fd s) (prog_fd s) (event_fd s)
    (prog_cnt s) (prog_array_fd s) l n (sections s) (world s).
Definition set_sections (l : list section) (s : loader W) : loader W :=
  Loader (license s) (kern_version s) (processed_sec s) (map_fd s) (prog_fd s) (event_fd s)
    (prog_cnt s) (prog_array_fd s) (map_data s) (map_data_count s) l (world s).

(** Array accesses; out of bounds is undefined behaviour, modelled as a fault. *)
Definition at_ {A} (l : list A) (i : Z) : L A :=
  if 0 <=? i then match l !! Z.to_nat i with Some a => mret a | None => halt (Fault i) end
  else halt (Fault i).
Definition upd {A} (l : list A) (i : Z) (a : A) : L (list A) :=
  if (0 <=? i) && (i <? Z.of_nat (length l)) then mret (<[Z.to_nat i := a]> l) else halt (Fault i).

Definition populate_prog_array (event : string) (pfd : Z) : L Z :=
  s ← get;
  err ← sys_ret (OpMapUpdate (prog_array_fd s) (atoi event) pfd);
  mret (if err <? 0 then -1 else 0).

Definition write_kprobe_events (val : option string) : L Z :=
  match val with
  | None => mret (-1)
  | Some v =>
      let flags := if char v =? 0 then O_WRONLY_TRUNC else O_WRONLY_APPEND in
      ofd ← sys_ret (OpOpen (DEBUGFS ++ "kprobe_events") flags);
      ret ← sys_ret (OpWrite ofd v);
      sys_ret (OpClose ofd) ;;
      mret ret
  end.

(** The chain of tests that picks the program type. *)
Definition event_type (event : string) : option prog_type :=
  if starts "socket" event then Some SOCKET_FILTER
  else if starts "kprobe/" event || starts "kretprobe/" event then Some KPROBE
  else if starts "tracepoint/" event then Some TRACEPOINT
  else if starts "raw_tracepoint/" event then Some RAW_TRACEPOINT
  else if starts "xdp" event then Some XDP
  else if starts "perf_event" event then Some PERF_EVENT
  else if starts "cgroup/skb" event then Some CGROUP_SKB
  else if starts "cgroup/sock" event then Some CGROUP_SOCK
  else if starts "sockops" event then Some SOCK_OPS
  else if starts "sk_skb" event then Some SK_SKB
  else if starts "sk_msg" event then Some SK_MSG
  else if with_fexit && starts "fexit" event then Some TRACING
  else None.

Definition skip_or_fault (n : nat) (s : string) : L string :=
  match skip n s with Some t => mret t | None => halt (Fault (Z.of_nat n)) end.

(** [snprintf(buf, 256, ...)] truncates; [strcpy]/[strcat] past the end overflow. *)
Definition snprintf (s : string) : string := String.substring 0 255 s.
Definition fits_buf (s : string) : L string :=
  if Z.of_nat (String.length s) <? BUF_SIZE then mret s else halt (Fault BUF_SIZE).

(** The kprobe branch up to the path of the event's id file; [inl] returns. *)
Definition attach_kprobe (event : string) (pfd : Z) : L (Z + string) :=
  let is_kprobe := starts "kprobe/" event in
  event ← skip_or_fault (if is_kprobe then 7 else 10)%nat event;
  if char event =? 0 then mret (inl (-1))
  else if isdigit (char event) then r ← populate_prog_array event pfd; mret (inl r)
  else
    let c := if is_kprobe then "p" else "r" in
    prefix ← (if starts "sys_" event then
                err ← write_kprobe_events
                        (Some (snprintf (c ++ ":__x64_" ++ event ++ " __x64_" ++ event)));
                mret (if 0 <=? err then Some "__x64_" else None)
              else mret None);
    match prefix with
    | Some p =>
        b ← fits_buf (DEBUGFS ++ "events/kprobes/" ++ p ++ event ++ "/id");
        mret (inr b)
    | None =>
        err ← write_kprobe_events (Some (snprintf (c ++ ":" ++ event ++ " " ++ event)));
        if err <? 0 then mret (inl (-1))
        else
          b ← fits_buf (DEBUGFS ++ "events/kprobes/" ++ event ++ "/id");
          mret (inr b)
    end.

(** From the id file to the enabled perf event. *)
Definition attach_perf (path : string) (pfd : Z) : L Z :=
  efd ← sys_ret (OpOpen path O_RDONLY);
  if efd <? 0 then mret (-1)
  else
    r ← sys (OpRead efd BUF_SIZE);
    let '(err, bytes) := r in
    if (err <? 0) || (BUF_SIZE <=? err) then mret (-1)
    else
      sys_ret (OpClose efd) ;;
      let id := atoi (String.substring 0 (Z.to_nat err) bytes) in
      efd ← sys_ret (OpPerfEventOpen id);
      if efd <? 0 then mret (-1)
      else
        s ← get;
        l ← upd (event_fd s) (prog_cnt s - 1) efd;
        modify (set_event_fd l) ;;
        err ← sys_ret (OpPerfEnable efd);
        if err <? 0 then mret (-1)
        else
          err ← sys_ret (OpPerfSetBpf efd pfd);
          mret (if err <? 0 then -1 else 0).

(** [load_and_attach]; [uninit] is what the uninitialised buffer holds, which is
    used when the section is none of those with an event file. *)
Definition load_and_attach (uninit event : string) (prog : list Z) (size : Z) : L Z :=
  match event_type event with
  | None => mret (-1)
  | Some ty =>
      s ← get;
      if prog_cnt s =? MAX_PROGS then mret (-1)
      else
        pfd ← sys_ret (OpLoadProgram ty prog (size / SIZEOF_INSN) (license s) (kern_version s));
        if pfd <? 0 then mret (-1)
        else
          s ← get;
          l ← upd (prog_fd s) (prog_cnt s) pfd;
          modify (set_prog_fd l (prog_cnt s + 1)) ;;
          if starts "xdp" event || starts "perf_event" event || starts "cgroup/skb" event
             || starts "cgroup/sock" event then mret 0
          else if starts "socket" event || starts "sockops" event || starts "sk_skb" event
                  || starts "sk_msg" event then
            event ← skip_or_fault (if starts "socket" event then 6 else 7)%nat event;
            if negb (char event =? SLASH) then mret 0
            else
              event ← skip_or_fault 1 event;
              if negb (isdigit (char event)) then mret (-1)
              else populate_prog_array event pfd
          else if starts "raw_tracepoint/" event then
            t ← skip_or_fault 15 event;
            efd ← sys_ret (OpRawTracepoint t pfd);
            if efd <? 0 then mret (-1)
            else
              s ← get;
              l ← upd (event_fd s) (prog_cnt s - 1) efd;
              modify (set_event_fd l) ;;
              mret 0
          else if starts "kprobe/" event || starts "kretprobe/" event then
            r ← attach_kprobe event pfd;
            match r with inl e => mret e | inr path => attach_perf path pfd end
          else if starts "tracepoint/" event then
            event ← skip_or_fault 11 event;
            if char event =? 0 then mret (-1)
            else
              path ← fits_buf (DEBUGFS ++ "events/" ++ event ++ "/id");
              attach_perf path pfd
          else attach_perf uninit pfd
  end.

(** One iteration of [load_maps]: [true] to go on, [false] to return 1. *)
Definition load_map (fixup : option (bpf_map_data -> Z -> bpf_map_data)) (i : Z) : L bool :=
  s ← get;
  m0 ← at_ (map_data s) i;
  let m := match fixup with Some f => f m0 i | None => m0 end in
  l ← upd (map_data s) i m;
  modify (fun s => set_map_data l (map_data_count s) s) ;;
  if (match fixup with Some _ => true | None => false end) && negb (fd m =? -1) then
    l ← upd (map_fd s) i (fd m);
    modify (set_map_fd l) ;;
    mret true
  else
    let d := def m in
    let numa := if has (map_flags d) BPF_F_NUMA_NODE then s32 (numa_node d) else -1 in
    n ← (if (md_type d =? BPF_MAP_TYPE_ARRAY_OF_MAPS) || (md_type d =? BPF_MAP_TYPE_HASH_OF_MAPS) then
           inner ← at_ (map_fd s) (inner_map_idx d);
           sys_ret (OpCreateMapInMap (md_type d) (name m) (key_size d) inner (max_entries d) (map_flags d) numa)
         else
           sys_ret (OpCreateMap (md_type d) (name m) (key_size d) (value_size d) (max_entries d)
                      (map_flags d) numa));
    lf ← upd (map_fd s) i n;
    modify (set_map_fd lf) ;;
    if n <? 0 then mret false
    else
      lm ← upd l i (MapData n (name m) (elf_offset m) (def m));
      modify (fun s => set_map_data lm (map_data_count s) s) ;;
      (if md_type d =? BPF_MAP_TYPE_PROG_ARRAY then modify (set_prog_array n) else mret tt) ;;
      mret true.

Fixpoint load_maps_from (fixup : option (bpf_map_data -> Z -> bpf_map_data)) (n : nat) (i : Z) : L Z :=
  match n with
  | O => mret 0
  | S n' => ok ← load_map fixup i; if ok : bool then load_maps_from fixup n' (i + 1) else mret 1
  end.
Definition load_maps (fixup : option (bpf_map_data -> Z -> bpf_map_data)) (nr_maps : Z) : L Z :=
  load_maps_from fixup (Z.to_nat nr_maps) 0.

(** [get_sec]: the error code, or name, header and data. *)
Definition get_sec (s : loader W) (i : Z) : Z + (string * shdr * list Z) :=
  if i <? 0 then inl 1
  else
  match sections s !! Z.to_nat i with
  | None => inl 1
  | Some sec =>
      match sec_shdr sec with
      | None => inl 2
      | Some h =>
          match sec_name sec with
          | None => inl 3
          | Some n =>
              if sh_size h =? 0 then inl 3
              else match sec_data sec with
                   | None => inl 4
                   | Some d => if sec_more sec then inl 4 else inr (n, h, d)
                   end
          end
      end
  end.

(** ** Relocations *)

(** The data of section [p], and writing one byte of it: the buffer libelf returned,
    which later calls return again. *)
Definition sec_bytes (p : Z) : L (list Z) :=
  s ← get;
  match get_sec s p with inr (_, _, d) => mret d | inl _ => halt (Fault p) end.
Definition set_bytes (p : Z) (d : list Z) : L unit :=
  modify (fun s => set_sections
    (alter (fun sec => Section_ (sec_shdr sec) (sec_name sec) (Some d) (sec_more sec))
           (Z.to_nat p) (sections s)) s).
Definition set_byte (p i b : Z) : L unit :=
  d ← sec_bytes p; d' ← upd d i (u8 b); set_bytes p d'.

(** [insn[idx].src_reg = BPF_PSEUDO_MAP_FD]: the high nibble of the second byte. *)
Definition set_src_reg (p idx : Z) : L unit :=
  d ← sec_bytes p;
  b ← at_ d (SIZEOF_INSN * idx + 1);
  set_byte p (SIZEOF_INSN * idx + 1) (Z.lor (Z.land b 0x0f) (Z.shiftl BPF_PSEUDO_MAP_FD 4)).
(** [insn[idx].imm = v]. *)
Definition set_imm (p idx v : Z) : L unit :=
  let a := SIZEOF_INSN * idx + 4 in
  set_byte p a v ;; set_byte p (a + 1) (Z.shiftr v 8) ;;
  set_byte p (a + 2) (Z.shiftr v 16) ;; set_byte p (a + 3) (Z.shiftr v 24).

(** The first of the [n] maps at the offset. *)
Fixpoint find_map (maps : list bpf_map_data) (n : nat) (off : Z) : option bpf_map_data :=
  match n, maps with
  | S n', m :: maps' => if elf_offset m =? off then Some m else find_map maps' n' off
  | _, _ => None
  end.

(** gelf_getsym leaves [sym] alone when it fails: [uninit_sym]. *)
Context (uninit_sym : sym).

Definition apply_rel (data symbols : list Z) (p i nr_maps : Z) : L bool :=
  let r := gelf_getrel elib data i in
  let insn_idx := u32 (r_offset r / SIZEOF_INSN) in
  let sy := default uninit_sym (gelf_getsym elib symbols (r_sym r)) in
  d ← sec_bytes p;
  code ← at_ d (SIZEOF_INSN * insn_idx);
  if negb (code =? BPF_LD_IMM_DW) then mret false
  else
    set_src_reg p insn_idx ;;
    s ← get;
    match find_map (map_data s) (Z.to_nat nr_maps) (st_value sy) with
    | None => mret false
    | Some m => set_imm p insn_idx (fd m) ;; mret true
    end.

Fixpoint apply_rels (data symbols : list Z) (p nr_maps : Z) (n : nat) (i : Z) : L Z :=
  match n with
  | O => mret 0
  | S n' =>
      ok ← apply_rel data symbols p i nr_maps;
      if ok : bool then apply_rels data symbols p nr_maps n' (i + 1) else mret 1
  end.

Definition parse_relo_and_apply (data symbols : list Z) (h : shdr) (p nr_maps : Z) : L Z :=
  if sh_entsize h =? 0 then halt (Panic "division by zero")
  else apply_rels data symbols p nr_maps (Z.to_nat (s32 (sh_size h / sh_entsize h))) 0.

(** ** The maps section *)

Definition cmp_symbols (l r : sym) : Z :=
  if st_value l <? st_value r then -1 else if st_value r <? st_value l then 1 else 0.

(** qsort with [cmp_symbols]. *)
Fixpoint insert_sym (x : sym) (l : list sym) : list sym :=
  match l with
  | [] => [x]
  | y :: l' => if cmp_symbols x y <=? 0 then x :: l else y :: insert_sym x l'
  end.
Definition qsort_syms (l : list sym) : list sym := foldr insert_sym [] l.

(** The symbols of section [shndx], with the assertion on their number. *)
Fixpoint collect_syms (symbols : list Z) (shndx : Z) (n : nat) (i : Z) (acc : list sym) : L (list sym) :=
  match n with
  | O => mret acc
  | S n' =>
      if negb (Z.of_nat (length acc) <? MAX_MAPS + 1) then halt AssertFail
      else match gelf_getsym elib symbols i with
           | None => collect_syms symbols shndx n' (i + 1) acc
           | Some y =>
               collect_syms symbols shndx n' (i + 1) (if st_shndx y =? shndx then acc ++ [y] else acc)
           end
  end.

(** Bytes [off .. off+n) of a buffer. *)
Fixpoint bytes_at (d : list Z) (off : Z) (n : nat) : L (list Z) :=
  match n with
  | O => mret []
  | S n' => b ← at_ d off; r ← bytes_at d (off + 1) n'; mret (b :: r)
  end.
Definition word (l : list Z) (i : nat) : Z :=
  let b j := default 0 (l !! (4 * i + j)%nat) in b 0%nat + 256 * (b 1%nat + 256 * (b 2%nat + 256 * b 3%nat)).
(** The definition of a map whose first bytes are [l], the others zero. *)
Definition decode_def (l : list Z) : bpf_load_map_def :=
  MapDef (word l 0) (word l 1) (word l 2) (word l 3) (word l 4) (word l 5) (word l 6).

(** The loop that fills [maps]; [Some e] returns [e]. *)
Fixpoint fill_maps (d : list Z) (strtabidx map_sz_elf map_sz_copy : Z) (syms : list sym) (i : Z) :
    L (option Z) :=
  match syms with
  | [] => mret None
  | y :: rest =>
      s ← get;
      m ← at_ (map_data s) i;
      bs ← bytes_at d (st_value y) (Z.to_nat map_sz_copy);
      l ← upd (map_data s) i
            (MapData (fd m) (strptr elib strtabidx (st_name y)) (st_value y) (decode_def bs));
      modify (fun s => set_map_data l (map_data_count s) s) ;;
      extra ← bytes_at d (st_value y + map_sz_copy) (Z.to_nat (map_sz_elf - map_sz_copy));
      if forallb (fun b => b =? 0) extra
      then fill_maps d strtabidx map_sz_elf map_sz_copy rest (i + 1)
      else mret (Some (- EFBIG))
  end.

Definition load_elf_maps_section (maps_shndx : Z) (symbols : option (list Z)) (strtabidx : Z) : L Z :=
  if maps_shndx <? 0 then mret (- EINVAL)
  else match symbols with
  | None => mret (- EINVAL)
  | Some symbols =>
      s ← get;
      match sections s !! Z.to_nat maps_shndx with
      | None => mret (- EINVAL)
      | Some sec =>
          match sec_data sec with
          | None => mret (- EINVAL)
          | Some d =>
              syms ← collect_syms symbols maps_shndx
                       (Z.to_nat (Z.of_nat (length symbols) / SIZEOF_SYM)) 0 [];
              let syms := qsort_syms syms in
              let nr_maps := Z.of_nat (length syms) in
              if nr_maps =? 0 then halt (Panic "division by zero")
              else
                let map_sz_elf := Z.of_nat (length d) / nr_maps in
                let map_sz_copy := Z.min map_sz_elf SIZEOF_MAP_DEF in
                r ← fill_maps d strtabidx map_sz_elf map_sz_copy syms 0;
                mret (default nr_maps r)
          end
      end
  end.

(** ** The file *)

Definition mark (i : Z) : L unit :=
  s ← get; l ← upd (processed_sec s) i true; modify (set_processed l).

(** What the first scan finds: maps section, string table, symbols. *)
Record found := Found { f_maps : Z; f_data_maps : bool; f_strtab : Z; f_symbols : option (list Z) }.

(** The body of the first loop; [None] is [return 1]. *)
Definition scan_section (i : Z) (f : found) : L (option found) :=
  s ← get;
  match get_sec s i with
  | inl _ => mret (Some f)
  | inr (shname, h, d) =>
      if bool_decide (shname = "license") then
        mark i ;;
        (if Z.of_nat (length d) <=? 128 then
           modify (fun s => set_license (d ++ drop (length d) (license s)) (kern_version s) s)
         else halt (Fault 128)) ;;
        mret (Some f)
      else if bool_decide (shname = "version") then
        mark i ;;
        if negb (Z.of_nat (length d) =? 4) then mret None
        else
          modify (fun s => set_license (license s) (s32 (word d 0)) s) ;;
          mret (Some f)
      else if bool_decide (shname = "maps") then
        modify (fun s => set_map_data
          (map (fun m => MapData (-1) (name m) (elf_offset m) (def m)) (map_data s)) (map_data_count s) s) ;;
        mret (Some (Found i true (f_strtab f) (f_symbols f)))
      else if sh_type h =? SHT_SYMTAB then
        mret (Some (Found (f_maps f) (f_data_maps f) (sh_link h) (Some d)))
      else mret (Some f)
  end.
Fixpoint scan_sections (n : nat) (i : Z) (f : found) : L (option found) :=
  match n with
  | O => mret (Some f)
  | S n' => r ← scan_section i f;
            match r with None => mret None | Some f' => scan_sections n' (i + 1) f' end
  end.

(** The body of the relocation loop. *)
Definition relocate_section (symbols : list Z) (nr_maps i : Z) : L unit :=
  s ← get;
  done ← at_ (processed_sec s) i;
  if done : bool then mret tt
  else match get_sec s i with
  | inl _ => mret tt
  | inr (_, h, data) =>
      if negb (sh_type h =? SHT_REL) then mret tt
      else match get_sec s (sh_info h) with
      | inl _ => mret tt
      | inr (_, hp, _) =>
          if negb (sh_type hp =? SHT_PROGBITS) || negb (has (sh_flags hp) SHF_EXECINSTR) then mret tt
          else mark i ;; parse_relo_and_apply data symbols h (sh_info h) nr_maps ;; mret tt
      end
  end.
Fixpoint relocate_sections (symbols : list Z) (nr_maps : Z) (n : nat) (i : Z) : L unit :=
  match n with
  | O => mret tt
  | S n' => relocate_section symbols nr_maps i ;; relocate_sections symbols nr_maps n' (i + 1)
  end.

(** Sections that hold programs. *)
Definition is_program (shname : string) : bool :=
  starts "kprobe/" shname || starts "kretprobe/" shname || starts "tracepoint/" shname
  || starts "raw_tracepoint/" shname || starts "xdp" shname || starts "perf_event" shname
  || starts "socket" shname || starts "cgroup/" shname || starts "sockops" shname
  || starts "sk_skb" shname || starts "sk_msg" shname || (with_fexit && starts "fexit" shname).

Fixpoint load_programs (uninit : string) (n : nat) (i ret : Z) : L Z :=
  match n with
  | O => mret ret
  | S n' =>
      s ← get;
      done ← at_ (processed_sec s) i;
      if done : bool then load_programs uninit n' (i + 1) ret
      else match get_sec s i with
      | inl _ => load_programs uninit n' (i + 1) ret
      | inr (shname, _, d) =>
          if is_program shname then
            r ← load_and_attach uninit shname d (Z.of_nat (length d));
            if negb (r =? 0) then mret r else load_programs uninit n' (i + 1) r
          else load_programs uninit n' (i + 1) ret
      end
  end.

(** [do_load_bpf_file]; [elf_begin] gives the sections libelf finds and the number
    of sections of the header. *)
Definition do_load_bpf_file (elf_begin : Z -> option (list section * Z)) (uninit path : string)
    (fixup : option (bpf_map_data -> Z -> bpf_map_data)) : L Z :=
  modify (set_license (replicate 128 0) 0) ;;
  modify (set_processed (replicate 128 false)) ;;
  ofd ← sys_ret (OpOpen path O_RDONLY);
  if ofd <? 0 then mret 1
  else match elf_begin ofd with
  | None => mret 1
  | Some (secs, e_shnum) =>
      modify (set_sections secs) ;;
      write_kprobe_events (Some "") ;;
      let n := Z.to_nat (e_shnum - 1) in
      f ← scan_sections n 1 (Found (-1) false (-1) None);
      match f with
      | None => mret 1
      | Some f =>
          ret ← (match f_symbols f with
                 | None => mret 1
                 | Some symbols =>
                     nr ← (if f_data_maps f then
                             nr ← load_elf_maps_section (f_maps f) (Some symbols) (f_strtab f);
                             if nr <? 0 then mret None
                             else
                               r ← load_maps fixup nr;
                               if negb (r =? 0) then mret None
                               else
                                 modify (fun s => set_map_data (map_data s) nr s) ;;
                                 mark (f_maps f) ;;
                                 mret (Some nr)
                           else mret (Some 0));
                     match nr with
                     | None => mret 1
                     | Some nr_maps =>
                         relocate_sections symbols nr_maps n 1 ;;
                         load_programs uninit n 1 1
                     end
                 end);
          sys_ret (OpClose ofd) ;;
          mret ret
      end
  end.

Definition load_bpf_file elf_begin uninit path := do_load_bpf_file elf_begin uninit path None.
Definition load_bpf_file_fixup_map elf_begin uninit path fixup :=
  do_load_bpf_file elf_begin uninit path (Some fixup).

End BpfLoad.
