(* ===== verification/BpfLoadProof.v ===== *)
(** * Properties of the BPF loader *)

From Stdlib Require Import Sorted.
From S2P Require Import Prelude Arch BpfLoad.

(** ** Reasoning about what a command may change *)

Section Preserves.
Context {S : Type} (R : S -> S -> Prop) `{!PreOrder R}.

(** Every run of [m] that returns relates the states by [R]. *)
Definition preserves {A} (m : cmd S A) : Prop := forall s a s', m s = Ok a s' -> R s s'.

Lemma preserves_ret {A} (a : A) : preserves (mret a).
Proof. intros s a' s' [= _ <-]. reflexivity. Qed.
Lemma preserves_get : preserves get.
Proof. intros s a s' [= _ <-]. reflexivity. Qed.
Lemma preserves_halt {A} e : preserves (halt e : cmd S A).
Proof. by intros s a s' H. Qed.
Lemma preserves_bind {A B} (m : cmd S A) (f : A -> cmd S B) :
  preserves m -> (forall a, preserves (f a)) -> preserves (m ≫= f).
Proof. intros Hm Hf s b s' (a & s1 & H1 & H2)%bind_inv. transitivity s1; [eapply Hm|eapply Hf]; eauto. Qed.
Lemma preserves_modify f : (forall s, R s (f s)) -> preserves (modify f).
Proof. intros H s a s' [= _ <-]. apply H. Qed.
End Preserves.

(** Decompose a command into its steps. *)
Ltac preserves :=
  repeat match goal with
  | |- preserves _ (_ ≫= _) => apply preserves_bind; [|intros ?]
  | |- preserves _ (mret _) => apply preserves_ret
  | |- preserves _ get => apply preserves_get
  | |- preserves _ (halt _) => apply preserves_halt
  | |- preserves _ (if ?b then _ else _) => destruct b
  | |- preserves _ (match ?x with _ => _ end) => destruct x
  | |- preserves _ (let '(_, _) := ?x in _) => destruct x
  | |- _ => done
  end.

(** ** Sorting the symbols *)

Lemma insert_sym_perm x l : insert_sym x l ≡ₚ x :: l.
Proof.
  induction l as [|y l IH]; simpl; [done|]. destruct (_ <=? 0); [done|]. rewrite IH. constructor.
Qed.
Definition sym_le (x y : sym) : Prop := st_value x <= st_value y.
Lemma cmp_symbols_le x y : cmp_symbols x y <= 0 <-> sym_le x y.
Proof.
  unfold cmp_symbols, sym_le.
  destruct (Z.ltb_spec (st_value x) (st_value y)), (Z.ltb_spec (st_value y) (st_value x)); lia.
Qed.
Lemma insert_sym_sorted x l : StronglySorted sym_le l -> StronglySorted sym_le (insert_sym x l).
Proof.
  induction 1 as [|y l Hs IH Hy]; simpl; [repeat constructor|].
  destruct (Z.leb_spec (cmp_symbols x y) 0) as [Hle|Hgt].
  - apply cmp_symbols_le in Hle. constructor; [by constructor|]. constructor; [done|].
    eapply Forall_impl; [exact Hy|]. unfold sym_le in *. intros z. lia.
  - constructor; [done|]. rewrite insert_sym_perm. constructor; [|done].
    pose proof (cmp_symbols_le x y). unfold sym_le in *. lia.
Qed.

(** The symbols are put in the order of their offsets in the maps section, which is
    the order of [map_fd]. *)
Theorem qsort_syms_sorts l : StronglySorted sym_le (qsort_syms l) /\ qsort_syms l ≡ₚ l.
Proof.
  induction l as [|x l [IHs IHp]]; simpl; [repeat constructor|].
  split; [by apply insert_sym_sorted|]. by rewrite insert_sym_perm, IHp.
Qed.

(** ** Arrays *)

Section Arrays.
Context {W : Type}.
Lemma upd_inv {A} (l : list A) i a (s : loader W) l' s' :
  upd l i a s = Ok l' s' ->
  s' = s /\ l' = <[Z.to_nat i := a]> l /\ 0 <= i < Z.of_nat (length l).
Proof.
  unfold upd. destruct (_ && _) eqn:E; [|done]. intros [= <- <-].
  apply andb_prop in E as [E1 E2]. repeat split; lia.
Qed.
Lemma at_inv {A} (l : list A) i (s : loader W) a s' :
  at_ l i s = Ok a s' -> s' = s /\ 0 <= i /\ l !! Z.to_nat i = Some a.
Proof.
  unfold at_. destruct (Z.leb_spec 0 i); [|done].
  destruct (l !! Z.to_nat i) eqn:E; [|done]. by intros [= <- <-].
Qed.
End Arrays.

(** ** Creating the maps *)

Section Maps.
Context {W : Type} (call : W -> sysop -> W * (Z * string)).
Implicit Types s : loader W.

(** The first [n] entries of [map_data] and [map_fd] agree, and are open. *)
Definition maps_agree (n : Z) (s : loader W) : Prop :=
  forall i, 0 <= i < n -> exists m, map_data s !! Z.to_nat i = Some m /\
    map_fd s !! Z.to_nat i = Some (fd m) /\ 0 <= fd m.

Lemma sys_inv op s r s' :
  sys_ret call op s = Ok r s' -> map_data s' = map_data s /\ map_fd s' = map_fd s /\
    prog_fd s' = prog_fd s /\ event_fd s' = event_fd s /\ prog_cnt s' = prog_cnt s /\
    map_data_count s' = map_data_count s.
Proof.
  unfold sys_ret, sys, mbind, cmd_bind. destruct (call (world s) op) as [w r0].
  by intros [= _ <-].
Qed.

Lemma load_map_agree s i s' :
  maps_agree i s -> load_map call None i s = Ok true s' -> maps_agree (i + 1) s'.
Proof.
  intros Hag H. unfold load_map in H. rewrite bind_get in H.
  apply bind_inv in H as (m & s1 & H1 & H). apply at_inv in H1 as (-> & Hi & Hm).
  apply bind_inv in H as (l & s1 & H1 & H). apply upd_inv in H1 as (-> & -> & Hl).
  rewrite bind_modify in H. cbn [andb] in H. rewrite list_insert_id in H by done.
  apply bind_inv in H as (n & s2 & H2 & H).
  assert (map_data s2 = map_data s /\ map_fd s2 = map_fd s) as [Hd2 Hf2].
  { destruct (_ || _) in H2.
    - apply bind_inv in H2 as (inner & s3 & H3 & H2). apply at_inv in H3 as (-> & _).
      apply sys_inv in H2. simpl in H2. tauto.
    - apply sys_inv in H2. simpl in H2. tauto. }
  apply bind_inv in H as (lf & s3 & H3 & H). apply upd_inv in H3 as (-> & -> & Hf).
  rewrite bind_modify in H. destruct (Z.ltb_spec n 0) as [|Hn]; [done|].
  apply bind_inv in H as (lm & s4 & H4 & H). apply upd_inv in H4 as (-> & -> & _).
  rewrite bind_modify in H.
  assert (map_data s' = <[Z.to_nat i := MapData n (name m) (elf_offset m) (def m)]> (map_data s) /\
          map_fd s' = <[Z.to_nat i := n]> (map_fd s)) as [Hd Hff].
  { destruct (md_type (def m) =? BPF_MAP_TYPE_PROG_ARRAY); injection H as <-; done. }
  intros j Hj. rewrite Hd, Hff. destruct (Z.eq_dec j i) as [->|Hne].
  - eexists. rewrite !list_lookup_insert_eq by lia. done.
  - rewrite !list_lookup_insert_ne by lia. apply Hag. lia.
Qed.

Lemma load_maps_from_agree n : forall s i s',
  maps_agree i s -> load_maps_from call None n i s = Ok 0 s' -> maps_agree (i + Z.of_nat n) s'.
Proof.
  induction n as [|n IH]; intros s i s' Hag H; simpl in H.
  - injection H as <-. by rewrite Z.add_0_r.
  - apply bind_inv in H as (ok & s1 & H1 & H). destruct ok; [|by injection H as H].
    replace (i + Z.of_nat (S n)) with (i + 1 + Z.of_nat n) by lia.
    eapply IH; [|exact H]. by eapply load_map_agree.
Qed.
End Maps.

(** C12: When [load_maps] reports success, the i-th map of the file is open and its
    descriptor is both [map_fd[i]] and [map_data[i].fd], for every map. *)
Theorem load_maps_one_to_one {W} call nr_maps (s s' : loader W) :
  load_maps call None nr_maps s = Ok 0 s' -> maps_agree nr_maps s'.
Proof.
  intros H. unfold load_maps in H.
  destruct (Z.le_gt_cases 0 nr_maps) as [Hn|Hn].
  - replace nr_maps with (0 + Z.of_nat (Z.to_nat nr_maps)) by lia.
    eapply load_maps_from_agree; [|exact H]. intros i Hi. lia.
  - intros i Hi. lia.
Qed.

(** ** Registering programs *)

Section Programs.
Context {W : Type} (call : W -> sysop -> W * (Z * string)).
Implicit Types s : loader W.

(** The registered programs are as before. *)
Definition same_progs s s' : Prop := prog_cnt s' = prog_cnt s /\ prog_fd s' = prog_fd s.
#[local] Instance same_progs_preorder : PreOrder same_progs.
Proof.
  split; [by intros s|]. intros s1 s2 s3 [H1 H2] [H3 H4]. split; congruence.
Qed.

Lemma sys_same op : preserves same_progs (sys call op).
Proof.
  intros s r s'. unfold sys. destruct (call (world s) op). by intros [= _ <-].
Qed.
Lemma sys_ret_same op : preserves same_progs (sys_ret call op).
Proof. unfold sys_ret. apply preserves_bind; [apply _|apply sys_same|]. intros a. apply preserves_ret, _. Qed.
Lemma upd_same {A} (l : list A) i a : preserves same_progs (upd l i a).
Proof. intros s l' s' (-> & _)%upd_inv. reflexivity. Qed.
Lemma skip_same n e : preserves same_progs (skip_or_fault n e : cmd (loader W) string).
Proof. unfold skip_or_fault. destruct (skip n e); [apply preserves_ret, _|apply preserves_halt]. Qed.
Lemma fits_same e : preserves same_progs (fits_buf e : cmd (loader W) string).
Proof. unfold fits_buf. destruct (_ <? _); [apply preserves_ret, _|apply preserves_halt]. Qed.
Lemma events_same l : preserves same_progs (modify (set_event_fd l)).
Proof. by apply preserves_modify. Qed.

Ltac same :=
  repeat match goal with
  | |- preserves _ (_ ≫= _) => apply preserves_bind; [apply _| |intros ?]
  | |- preserves _ (mret _) => apply preserves_ret, _
  | |- preserves _ get => apply preserves_get, _
  | |- preserves _ (sys_ret _ _) => apply sys_ret_same
  | |- preserves _ (sys _ _) => apply sys_same
  | |- preserves _ (upd _ _ _) => apply upd_same
  | |- preserves _ (skip_or_fault _ _) => apply skip_same
  | |- preserves _ (fits_buf _) => apply fits_same
  | |- preserves _ (modify (set_event_fd _)) => apply events_same
  | |- preserves _ (if ?b then _ else _) => destruct b
  | |- preserves _ (match ?x with _ => _ end) => destruct x
  end.

Lemma populate_same e pfd : preserves same_progs (populate_prog_array call e pfd).
Proof. unfold populate_prog_array. same. Qed.
Lemma write_events_same v : preserves same_progs (write_kprobe_events call v).
Proof. unfold write_kprobe_events. same. Qed.
Lemma attach_kprobe_same e pfd : preserves same_progs (attach_kprobe call e pfd).
Proof. unfold attach_kprobe. repeat (same; try apply populate_same; try apply write_events_same). Qed.
Lemma attach_perf_same p pfd : preserves same_progs (attach_perf call p pfd).
Proof. unfold attach_perf. same. Qed.

(** The part of [load_and_attach] after the program was registered. *)
Definition attach (uninit event : string) (pfd : Z) : cmd (loader W) Z :=
  if starts "xdp" event || starts "perf_event" event || starts "cgroup/skb" event
     || starts "cgroup/sock" event then mret 0
  else if starts "socket" event || starts "sockops" event || starts "sk_skb" event
          || starts "sk_msg" event then
    event ← skip_or_fault (if starts "socket" event then 6 else 7)%nat event;
    if negb (char event =? SLASH) then mret 0
    else
      event ← skip_or_fault 1 event;
      if negb (isdigit (char event)) then mret (-1)
      else populate_prog_array call event pfd
  else if starts "raw_tracepoint/" event then
    t ← skip_or_fault 15 event;
    efd ← sys_ret call (OpRawTracepoint t pfd);
    if efd <? 0 then mret (-1)
    else
      s ← get;
      l ← upd (event_fd s) (prog_cnt s - 1) efd;
      modify (set_event_fd l) ;;
      mret 0
  else if starts "kprobe/" event || starts "kretprobe/" event then
    r ← attach_kprobe call event pfd;
    match r with inl e => mret e | inr path => attach_perf call path pfd end
  else if starts "tracepoint/" event then
    event ← skip_or_fault 11 event;
    if char event =? 0 then mret (-1)
    else
      path ← fits_buf (DEBUGFS ++ "events/" ++ event ++ "/id");
      attach_perf call path pfd
  else attach_perf call uninit pfd.

Lemma attach_same u e pfd : preserves same_progs (attach u e pfd).
Proof.
  unfold attach.
  repeat (same; try apply populate_same; try apply attach_kprobe_same; try apply attach_perf_same).
Qed.

(** A program is registered at most once per call, in the next free slot, and never
    outside the array. *)
Lemma load_and_attach_run wf u e prog size s r s' :
  0 <= prog_cnt s <= MAX_PROGS ->
  load_and_attach wf call u e prog size s = Ok r s' ->
  (same_progs s s' /\ r = -1) \/
  exists ty pfd w b, event_type wf e = Some ty /\ prog_cnt s < MAX_PROGS /\ 0 <= pfd /\
    call (world s) (OpLoadProgram ty prog (size / SIZEOF_INSN) (license s) (kern_version s)) = (w, (pfd, b)) /\
    prog_cnt s' = prog_cnt s + 1 /\ prog_fd s' = <[Z.to_nat (prog_cnt s) := pfd]> (prog_fd s).
Proof.
  intros Hc H. unfold load_and_attach in H. destruct (event_type wf e) as [ty|].
  2:{ injection H as <- <-. by left. }
  rewrite bind_get in H. destruct (Z.eqb_spec (prog_cnt s) MAX_PROGS) as [E|E].
  { injection H as <- <-. by left. }
  apply bind_inv in H as (pfd & s1 & H1 & H). pose proof (sys_ret_same _ _ _ _ H1) as [Hs1 Hs2].
  destruct (Z.ltb_spec pfd 0) as [Hneg|Hpos].
  { injection H as <- <-. by left. }
  rewrite bind_get in H. apply bind_inv in H as (l & s2 & H2 & H). apply upd_inv in H2 as (-> & -> & Hl).
  rewrite bind_modify in H. fold (attach u e pfd) in H. apply attach_same in H as [Hp1 Hp2].
  unfold sys_ret, sys, mbind, cmd_bind in H1.
  destruct (call (world s) _) as [w [v b]] eqn:Ec. injection H1 as -> <-.
  right. exists ty, pfd, w, b. rewrite Hp1, Hp2. simpl.
  split; [done|]. split; [lia|]. done.
Qed.
End Programs.

(** C24: Whatever [load_and_attach] does, at most [MAX_PROGS] programs are registered;
    when it succeeds, the new program is the one it loaded from this section. *)
Theorem load_and_attach_registers {W} wf call u e prog size (s : loader W) r s' :
  0 <= prog_cnt s <= MAX_PROGS ->
  load_and_attach wf call u e prog size s = Ok r s' ->
  prog_cnt s' <= MAX_PROGS /\
  (r = 0 -> exists ty pfd w b, event_type wf e = Some ty /\
     call (world s) (OpLoadProgram ty prog (size / SIZEOF_INSN) (license s) (kern_version s)) = (w, (pfd, b)) /\
     prog_cnt s' = prog_cnt s + 1 /\ prog_fd s' = <[Z.to_nat (prog_cnt s) := pfd]> (prog_fd s)).
Proof.
  intros Hc H. destruct (load_and_attach_run _ _ _ _ _ _ _ _ _ Hc H)
    as [[[H1 _] ->]|(ty & pfd & w & b & H1 & H2 & _ & H3 & H4 & H5)].
  - rewrite H1. split; [lia|done].
  - rewrite H4. split; [lia|]. intros _. exists ty, pfd, w, b. done.
Qed.

(** Every section name the file loop accepts is understood by [load_and_attach],
    other cgroup sections than skb and sock apart. *)
Theorem accepted_sections_have_types wf shname :
  is_program wf shname = true -> event_type wf shname = None -> starts "cgroup/" shname = true.
Proof.
  unfold is_program, event_type. intros H1 H2.
  repeat match type of H2 with
  | (if ?b then _ else _) = None => destruct b eqn:?; [done|]
  end.
  repeat match goal with H : _ || _ = false |- _ => apply orb_false_iff in H as [? ?] end.
  repeat match goal with H : starts _ shname = false |- _ => rewrite H in H1; clear H end.
  rewrite ?Heqb, ?Heqb0, ?Heqb1 in H1. simpl in H1. rewrite ?orb_false_r in H1. exact H1.
Qed.

Lemma attach_sk {W} (call : W -> sysop -> W * (Z * string)) u n pfd p :
  isdigit (char n) = true -> p = "sk_skb/" \/ p = "sk_msg/" ->
  attach call u (p +:+ n) pfd = mret 0.
Proof.
  intros Hd Hp. assert (Hs : (char n =? SLASH) = false).
  { apply Z.eqb_neq. unfold isdigit in Hd. unfold SLASH. lia. }
  transitivity (if negb (char n =? SLASH) then (mret 0 : cmd (loader W) Z)
                else event ← skip_or_fault 1 n;
                     if negb (isdigit (char event)) then mret (-1)
                     else populate_prog_array call event pfd).
  - destruct Hp as [-> | ->]; reflexivity.
  - by rewrite Hs.
Qed.

(** A program for a socket map is never stored in the program array: for sections
    "sk_skb/N" and "sk_msg/N" the test for the slash looks one character too far, so
    the only call made is the one that loads the program. *)
Theorem sk_sections_skip_prog_array {W} wf call u (s : loader W) (n ev : string) ty prog size r s' :
  (ev = "sk_skb/" +:+ n /\ ty = SK_SKB) \/ (ev = "sk_msg/" +:+ n /\ ty = SK_MSG) ->
  isdigit (char n) = true -> prog_cnt s < MAX_PROGS ->
  load_and_attach wf call u ev prog size s = Ok r s' ->
  world s' = (call (world s) (OpLoadProgram ty prog (size / SIZEOF_INSN) (license s) (kern_version s))).1.
Proof.
  intros Ht Hd Hc H. unfold load_and_attach in H.
  assert (event_type wf ev = Some ty /\ forall pfd, attach call u ev pfd = mret 0) as [E1 E2]
    by (destruct Ht as [[-> ->]|[-> ->]]; split; try done; intros pfd; apply attach_sk; auto).
  rewrite E1, bind_get, (proj2 (Z.eqb_neq _ _)) in H by lia.
  apply bind_inv in H as (pfd & s1 & H1 & H). unfold sys_ret, sys, mbind, cmd_bind in H1.
  destruct (call (world s) _) as [w [v b]] eqn:Ec. injection H1 as -> <-.
  destruct (pfd <? 0); [by injection H as _ <-|].
  rewrite bind_get in H. apply bind_inv in H as (l & s2 & H2 & H). apply upd_inv in H2 as (-> & -> & _).
  rewrite bind_modify in H. fold (attach call u ev) in H. fold (attach call u ev pfd) in H.
  rewrite E2 in H. by injection H as _ <-.
Qed.

(** ** Relocations *)

Section Relocations.
Context {W : Type} (elib : libelf) (uninit_sym : sym).
Implicit Types s : loader W.

Lemma get_sec_set s p n h d d' :
  get_sec s p = inr (n, h, d) ->
  get_sec (set_sections (alter (fun sec => Section_ (sec_shdr sec) (sec_name sec) (Some d') (sec_more sec))
                           (Z.to_nat p) (sections s)) s) p = inr (n, h, d').
Proof.
  unfold get_sec. cbn [sections set_sections]. rewrite list_lookup_alter_eq.
  destruct (p <? 0); [done|]. destruct (sections s !! Z.to_nat p) as [[[h0|] [n0|] [d0|] []]|]; cbn; try done.
  - by destruct (sh_size h0 =? 0).
  - destruct (sh_size h0 =? 0); [done|]. by intros [= -> -> _].
  - by destruct (sh_size h0 =? 0).
  - by destruct (sh_size h0 =? 0).
Qed.

Lemma set_byte_ok s p i b n h d :
  get_sec s p = inr (n, h, d) -> 0 <= i < Z.of_nat (length d) ->
  exists s', set_byte p i b s = Ok tt s' /\
    get_sec s' p = inr (n, h, <[Z.to_nat i := u8 b]> d) /\ map_data s' = map_data s.
Proof.
  intros Hs Hi. unfold set_byte, sec_bytes. rewrite bind_bind, bind_get, Hs, bind_ret.
  unfold upd. rewrite (proj2 (andb_true_iff _ _)) by lia. rewrite bind_ret.
  eexists. split; [reflexivity|]. split; [by apply (get_sec_set s p n h d)|done].
Qed.

Lemma at_ok {A} (l : list A) i s :
  0 <= i < Z.of_nat (length l) -> exists a, l !! Z.to_nat i = Some a /\ at_ l i s = Ok a s.
Proof.
  intros Hi. destruct (lookup_lt_is_Some_2 l (Z.to_nat i)) as [a Ha]; [lia|].
  exists a. split; [done|]. unfold at_. rewrite (proj2 (Z.leb_le _ _)) by lia. by rewrite Ha.
Qed.

(** The bytes of instruction [idx] after a map descriptor was put in. *)
Definition patched (d : list Z) (idx b1 v : Z) : list Z :=
  let a := Z.to_nat (SIZEOF_INSN * idx + 4) in
  <[(a + 3)%nat := u8 (Z.shiftr v 24)]> (<[(a + 2)%nat := u8 (Z.shiftr v 16)]>
    (<[(a + 1)%nat := u8 (Z.shiftr v 8)]> (<[a := u8 v]>
      (<[Z.to_nat (SIZEOF_INSN * idx + 1) := u8 (Z.lor (Z.land b1 0x0f) (Z.shiftl BPF_PSEUDO_MAP_FD 4))]> d)))).

Lemma set_imm_ok s p idx v n h d :
  get_sec s p = inr (n, h, d) -> 0 <= idx -> SIZEOF_INSN * idx + 8 <= Z.of_nat (length d) ->
  let a := Z.to_nat (SIZEOF_INSN * idx + 4) in
  exists s', set_imm p idx v s = Ok tt s' /\ map_data s' = map_data s /\
    get_sec s' p = inr (n, h, <[(a + 3)%nat := u8 (Z.shiftr v 24)]> (<[(a + 2)%nat := u8 (Z.shiftr v 16)]>
      (<[(a + 1)%nat := u8 (Z.shiftr v 8)]> (<[a := u8 v]> d)))).
Proof.
  intros Hs Hi Hl. unfold SIZEOF_INSN in *. cbn zeta. unfold set_imm.
  destruct (set_byte_ok s p (8 * idx + 4) v n h d Hs) as (s1 & R1 & S1 & M1); [lia|].
  destruct (set_byte_ok s1 p (8 * idx + 4 + 1) (Z.shiftr v 8) n h _ S1) as (s2 & R2 & S2 & M2);
    [rewrite length_insert; lia|].
  destruct (set_byte_ok s2 p (8 * idx + 4 + 2) (Z.shiftr v 16) n h _ S2) as (s3 & R3 & S3 & M3);
    [rewrite !length_insert; lia|].
  destruct (set_byte_ok s3 p (8 * idx + 4 + 3) (Z.shiftr v 24) n h _ S3) as (s4 & R4 & S4 & M4);
    [rewrite !length_insert; lia|].
  exists s4. unfold SIZEOF_INSN. rewrite (bind_ok _ _ _ _ _ R1), (bind_ok _ _ _ _ _ R2), (bind_ok _ _ _ _ _ R3).
  split; [done|]. split; [congruence|]. rewrite S4.
  replace (Z.to_nat (8 * idx + 4) + 1)%nat with (Z.to_nat (8 * idx + 4 + 1)) by lia.
  replace (Z.to_nat (8 * idx + 4) + 2)%nat with (Z.to_nat (8 * idx + 4 + 2)) by lia.
  by replace (Z.to_nat (8 * idx + 4) + 3)%nat with (Z.to_nat (8 * idx + 4 + 3)) by lia.
Qed.

Lemma apply_rel_run s data symbols p i nr_maps n h d m b1 :
  let r := gelf_getrel elib data i in
  let idx := u32 (r_offset r / SIZEOF_INSN) in
  get_sec s p = inr (n, h, d) -> SIZEOF_INSN * idx + 8 <= Z.of_nat (length d) ->
  d !! Z.to_nat (SIZEOF_INSN * idx) = Some BPF_LD_IMM_DW ->
  d !! Z.to_nat (SIZEOF_INSN * idx + 1) = Some b1 ->
  find_map (map_data s) (Z.to_nat nr_maps)
    (st_value (default uninit_sym (gelf_getsym elib symbols (r_sym r)))) = Some m ->
  exists s', apply_rel elib uninit_sym data symbols p i nr_maps s = Ok true s' /\
    get_sec s' p = inr (n, h, patched d idx b1 (fd m)) /\ map_data s' = map_data s.
Proof.
  cbn zeta. set (idx := u32 _). intros Hs Hl Hc Hb Hm.
  pose proof (u32_range (r_offset (gelf_getrel elib data i) / SIZEOF_INSN)) as Hr. fold idx in Hr.
  unfold apply_rel. fold idx. unfold sec_bytes at 1. rewrite bind_bind, bind_get, Hs, bind_ret.
  destruct (at_ok d (SIZEOF_INSN * idx) s) as (c & Hc' & Rc); [unfold SIZEOF_INSN in *; lia|].
  rewrite Hc in Hc'. injection Hc' as <-. rewrite (bind_ok _ _ _ _ _ Rc), Z.eqb_refl. cbn [negb].
  destruct (at_ok d (SIZEOF_INSN * idx + 1) s) as (c & Hc' & Rb); [unfold SIZEOF_INSN in *; lia|].
  rewrite Hb in Hc'. injection Hc' as <-.
  destruct (set_byte_ok s p (SIZEOF_INSN * idx + 1) (Z.lor (Z.land b1 0x0f) (Z.shiftl BPF_PSEUDO_MAP_FD 4)) n h d Hs)
    as (s1 & R1 & S1 & M1); [unfold SIZEOF_INSN in *; lia|].
  assert (set_src_reg p idx s = Ok tt s1) as Rs.
  { unfold set_src_reg, sec_bytes. rewrite bind_bind, bind_get, Hs, bind_ret.
    by rewrite (bind_ok _ _ _ _ _ Rb). }
  rewrite (bind_ok _ _ _ _ _ Rs), bind_get, M1, Hm.
  destruct (set_imm_ok s1 p idx (fd m) n h _ S1) as (s2 & R2 & M2 & S2);
    [lia|by rewrite length_insert|].
  exists s2. rewrite (bind_ok _ _ _ _ _ R2). split; [done|]. split; [exact S2|congruence].
Qed.
End Relocations.

Lemma u8_word v :
  u8 v + 256 * (u8 (Z.shiftr v 8) + 256 * (u8 (Z.shiftr v 16) + 256 * u8 (Z.shiftr v 24))) = u32 v.
Proof.
  unfold u8, u32. rewrite !Z.shiftr_div_pow2 by lia. change (2 ^ 8) with 256.
  change (2 ^ 16) with (256 * 256). change (2 ^ 24) with (256 * (256 * 256)).
  change (2 ^ 32) with (256 * (256 * (256 * 256))).
  rewrite !(Z.rem_mul_r v) by lia. rewrite <- !Z.div_div by lia.
  rewrite !(Z.rem_mul_r (v / 256)) by lia. rewrite <- ?Z.div_div by lia. 
  rewrite (Z.rem_mul_r (v / 256 / 256)) by lia. lia.
Qed.

(** C13: A relocation turns the load-immediate instruction it names into a reference to
    the map at the symbol's offset: the source register becomes the map marker, the
    immediate the map's descriptor, and no other byte of the program changes. *)
Theorem apply_rel_patches {W} elib uninit_sym (s : loader W) data symbols p i nr_maps n h d m b1 :
  let r := gelf_getrel elib data i in
  let idx := u32 (r_offset r / SIZEOF_INSN) in
  get_sec s p = inr (n, h, d) -> SIZEOF_INSN * idx + 8 <= Z.of_nat (length d) ->
  d !! Z.to_nat (SIZEOF_INSN * idx) = Some BPF_LD_IMM_DW ->
  d !! Z.to_nat (SIZEOF_INSN * idx + 1) = Some b1 -> 0 <= b1 < 256 ->
  find_map (map_data s) (Z.to_nat nr_maps)
    (st_value (default uninit_sym (gelf_getsym elib symbols (r_sym r)))) = Some m ->
  exists s' d', apply_rel elib uninit_sym data symbols p i nr_maps s = Ok true s' /\
    get_sec s' p = inr (n, h, d') /\ length d' = length d /\
    word d' (Z.to_nat (2 * idx + 1)) = u32 (fd m) /\
    (exists b, d' !! Z.to_nat (SIZEOF_INSN * idx + 1) = Some b /\ Z.shiftr b 4 = BPF_PSEUDO_MAP_FD /\
               Z.land b 0xf = Z.land b1 0xf) /\
    (forall j, j <> Z.to_nat (SIZEOF_INSN * idx + 1) ->
       (j < Z.to_nat (SIZEOF_INSN * idx + 4) \/ Z.to_nat (SIZEOF_INSN * idx + 7) < j)%nat ->
       d' !! j = d !! j).
Proof.
  cbn zeta. intros Hs Hl Hc Hb Hb1 Hm.
  pose proof (u32_range (r_offset (gelf_getrel elib data i) / SIZEOF_INSN)) as Hr.
  destruct (apply_rel_run elib uninit_sym s data symbols p i nr_maps n h d m b1 Hs Hl Hc Hb Hm) as (s' & Hrun & Hs' & _).
  set (idx := u32 _) in *. exists s', (patched d idx b1 (fd m)). unfold SIZEOF_INSN in *.
  split; [done|]. split; [done|]. unfold patched, SIZEOF_INSN.
  set (a := Z.to_nat (8 * idx + 4)). assert (a + 3 < length d)%nat as Ha by lia.
  split; [by rewrite !length_insert|]. split; [|split].
  - unfold word. replace (4 * Z.to_nat (2 * idx + 1))%nat with a by lia. rewrite Nat.add_0_r.
    rewrite list_lookup_insert_ne, list_lookup_insert_ne, list_lookup_insert_ne, list_lookup_insert_eq
      by (rewrite ?length_insert; lia).
    rewrite (list_lookup_insert_ne _ (a + 3)), (list_lookup_insert_ne _ (a + 2) (a + 1)), list_lookup_insert_eq
      by (rewrite ?length_insert; lia).
    rewrite (list_lookup_insert_ne _ (a + 3)), list_lookup_insert_eq by (rewrite ?length_insert; lia).
    rewrite list_lookup_insert_eq by (rewrite ?length_insert; lia). apply u8_word.
  - rewrite !(list_lookup_insert_ne _ _ (Z.to_nat (8 * idx + 1))) by lia.
    rewrite list_lookup_insert_eq by lia. eexists. split; [reflexivity|].
    assert (Z.lor (Z.land b1 15) (Z.shiftl BPF_PSEUDO_MAP_FD 4) = 16 + b1 mod 16) as E.
    { change 15 with (2 ^ 4 - 1). rewrite land_low, Z.lor_comm by lia.
      apply (lor_disjoint _ _ 4); [lia| |done]. apply Z.mod_pos_bound. lia. }
    rewrite E. pose proof (Z.mod_pos_bound b1 16 ltac:(lia)). unfold u8. rewrite Z.mod_small by lia.
    change 15 with (2 ^ 4 - 1). rewrite !land_low, Z.shiftr_div_pow2 by lia. change (2 ^ 4) with 16. split.
    + symmetry. apply (Z.div_unique _ _ _ (b1 mod 16)); unfold BPF_PSEUDO_MAP_FD; lia.
    + symmetry. apply (Z.mod_unique _ _ 1); lia.
  - intros j Hj1 Hj2. by rewrite !list_lookup_insert_ne by lia.
Qed.

(** A maps section no symbol refers to stops the loader: the size of a definition is
    computed by dividing by the number of map symbols. *)
Theorem empty_maps_section_divides_by_zero {W} elib (s : loader W) shndx symbols strtab sec d :
  0 <= shndx -> sections s !! Z.to_nat shndx = Some sec -> sec_data sec = Some d ->
  (forall i y, gelf_getsym elib symbols i = Some y -> st_shndx y <> shndx) ->
  load_elf_maps_section elib shndx (Some symbols) strtab s = Halt (Panic "division by zero").
Proof.
  intros Hi Hs Hd Hno. unfold load_elf_maps_section. rewrite (proj2 (Z.ltb_ge _ _)) by done.
  rewrite bind_get, Hs, Hd.
  assert (forall n i, collect_syms elib symbols shndx n i [] s = Ok [] s) as Hcol.
  { induction n as [|n IH]; intros i; simpl; [done|].
    destruct (gelf_getsym elib symbols i) as [y|] eqn:E; [|apply IH].
    rewrite (proj2 (Z.eqb_neq _ _)) by (by eapply Hno). apply IH. }
  by rewrite (bind_ok _ _ _ _ _ (Hcol _ _)).
Qed.

(** ** Concrete instances *)

(** A system that hands out descriptors 10, 11, ... *)
Definition count_call (w : Z) (op : sysop) : Z * (Z * string) := (w + 1, (10 + w, "")).
Definition demo_map : bpf_map_data := MapData (-1) "m" 0 (MapDef 1 4 4 16 0 0 0).
Definition demo_loader : loader Z :=
  Loader (replicate 128 0) 0 (replicate 128 false) (replicate 32 0) (replicate 32 0) (replicate 32 0)
    0 (-1) (replicate 32 demo_map) 0
    [Section_ None None None false;
     Section_ (Some (Shdr SHT_PROGBITS SHF_EXECINSTR 16 0 0 0)) (Some "xdp")
              (Some [0x18; 1; 0; 0; 0; 0; 0; 0; 0; 0; 0; 0; 0; 0; 0; 0]) false] 0.
Definition demo_elib : libelf := LibElf (fun _ _ => Some (Sym 0 0 5)) (fun _ _ => Rel 0 0) (fun _ _ => "").

Definition ok_is {S} (o : outcome S Z) (r : Z) : bool := match o with Ok x _ => x =? r | Halt _ => false end.
Lemma ok_is_run {S} (o : outcome S Z) r : ok_is o r = true -> exists s', o = Ok r s'.
Proof. destruct o as [x s'|]; [|done]. intros H. apply Z.eqb_eq in H as ->. by exists s'. Qed.

Lemma load_maps_one_to_one_witness :
  exists s', load_maps count_call None 2 demo_loader = Ok 0 s' /\ maps_agree 2 s'.
Proof.
  destruct (ok_is_run (load_maps count_call None 2 demo_loader) 0) as (s' & H);
    [vm_compute; reflexivity|].
  exists s'. split; [exact H|]. exact (load_maps_one_to_one count_call 2 demo_loader s' H).
Defined.

Lemma load_and_attach_registers_witness :
  exists s', load_and_attach false count_call "" "xdp" [] 0 demo_loader = Ok 0 s' /\ prog_cnt s' <= MAX_PROGS.
Proof.
  destruct (ok_is_run (load_and_attach false count_call "" "xdp" [] 0 demo_loader) 0) as (s' & H);
    [vm_compute; reflexivity|].
  exists s'. split; [exact H|].
  refine (proj1 (load_and_attach_registers false count_call "" "xdp" [] 0 demo_loader 0 s' _ H)).
  vm_compute. split; discriminate.
Defined.

Lemma accepted_sections_have_types_witness : starts "cgroup/" "cgroup/dev" = true.
Proof. apply (accepted_sections_have_types false); reflexivity. Defined.

Lemma sk_sections_skip_prog_array_witness :
  exists s', load_and_attach false count_call "" "sk_skb/0" [] 0 demo_loader = Ok 0 s' /\ world s' = 1.
Proof.
  destruct (ok_is_run (load_and_attach false count_call "" "sk_skb/0" [] 0 demo_loader) 0) as (s' & H);
    [vm_compute; reflexivity|].
  exists s'. split; [exact H|].
  rewrite (sk_sections_skip_prog_array false count_call "" demo_loader "0" "sk_skb/0" SK_SKB [] 0 0 s').
  - reflexivity.
  - left. split; reflexivity.
  - reflexivity.
  - reflexivity.
  - exact H.
Defined.

Lemma apply_rel_patches_witness :
  exists s' d', apply_rel demo_elib (Sym 0 0 0) [] [] 1 0 1 demo_loader = Ok true s' /\
                word d' 1 = u32 (-1).
Proof.
  destruct (apply_rel_patches demo_elib (Sym 0 0 0) demo_loader [] [] 1 0 1 "xdp"
              (Shdr SHT_PROGBITS SHF_EXECINSTR 16 0 0 0)
              [0x18; 1; 0; 0; 0; 0; 0; 0; 0; 0; 0; 0; 0; 0; 0; 0] demo_map 1)
    as (s' & d' & H1 & _ & _ & H2 & _).
  - reflexivity.
  - vm_compute. discriminate.
  - reflexivity.
  - reflexivity.
  - lia.
  - reflexivity.
  - exists s', d'. split; [exact H1|exact H2].
Defined.

Lemma empty_maps_section_divides_by_zero_witness :
  load_elf_maps_section demo_elib 1 (Some [0]) 0 demo_loader = Halt (Panic "division by zero").
Proof.
  eapply empty_maps_section_divides_by_zero.
  - lia.
  - reflexivity.
  - reflexivity.
  - intros i y [= <-]. discriminate.
Defined.
