(* ===== verification/BpfLoadCopies.v ===== *)
(** * The other copies of the BPF loader

    crash_systemd/bpf_load.c and kprobe_file_read/bpf_load.c are the loader without
    the "fexit" sections: each of their functions is the function of [BpfLoad] with
    [with_fexit] false. *)

From S2P Require Import Prelude Arch BpfLoad.

Section Copies.
Context {W : Type} (call : W -> sysop -> W * (Z * string)) (elib : libelf) (uninit_sym : sym).

(** ** crash_systemd/bpf_load.c *)

Definition crash_populate_prog_array := @populate_prog_array W call.
Definition crash_write_kprobe_events := @write_kprobe_events W call.
Definition crash_event_type := event_type false.
Definition crash_attach_kprobe := @attach_kprobe W call.
Definition crash_attach_perf := @attach_perf W call.
Definition crash_load_and_attach := @load_and_attach W false call.
Definition crash_load_maps := @load_maps W call.
Definition crash_get_sec := @get_sec W.
Definition crash_parse_relo_and_apply := @parse_relo_and_apply W elib uninit_sym.
Definition crash_cmp_symbols := BpfLoad.cmp_symbols.
Definition crash_load_elf_maps_section := @load_elf_maps_section W elib.
Definition crash_scan_sections := @scan_sections W.
Definition crash_relocate_sections := @relocate_sections W elib uninit_sym.
Definition crash_is_program := is_program false.
Definition crash_load_programs := @load_programs W false call.
Definition crash_do_load_bpf_file := @do_load_bpf_file W false call elib uninit_sym.
Definition crash_load_bpf_file := @load_bpf_file W false call elib uninit_sym.
Definition crash_load_bpf_file_fixup_map := @load_bpf_file_fixup_map W false call elib uninit_sym.

(** ** kprobe_file_read/bpf_load.c *)

Definition kfr_populate_prog_array := @populate_prog_array W call.
Definition kfr_write_kprobe_events := @write_kprobe_events W call.
Definition kfr_event_type := event_type false.
Definition kfr_attach_kprobe := @attach_kprobe W call.
Definition kfr_attach_perf := @attach_perf W call.
Definition kfr_load_and_attach := @load_and_attach W false call.
Definition kfr_load_maps := @load_maps W call.
Definition kfr_get_sec := @get_sec W.
Definition kfr_parse_relo_and_apply := @parse_relo_and_apply W elib uninit_sym.
Definition kfr_cmp_symbols := BpfLoad.cmp_symbols.
Definition kfr_load_elf_maps_section := @load_elf_maps_section W elib.
Definition kfr_scan_sections := @scan_sections W.
Definition kfr_relocate_sections := @relocate_sections W elib uninit_sym.
Definition kfr_is_program := is_program false.
Definition kfr_load_programs := @load_programs W false call.
Definition kfr_do_load_bpf_file := @do_load_bpf_file W false call elib uninit_sym.
Definition kfr_load_bpf_file := @load_bpf_file W false call elib uninit_sym.
Definition kfr_load_bpf_file_fixup_map := @load_bpf_file_fixup_map W false call elib uninit_sym.

(** ** The drivers *)

(** [main] of fexit_example/load.c and of crash_systemd/load.c: the programs stay attached
    while the process sleeps. *)
Definition fexit_main (elf_begin : Z -> option (list section * Z)) (uninit : string) : cmd (loader W) Z :=
  r ← @load_bpf_file W true call elib uninit_sym elf_begin uninit "bpf_kern.o";
  if nonzero r then mret 1 else mret 0.
Definition crash_main (elf_begin : Z -> option (list section * Z)) (uninit : string) : cmd (loader W) Z :=
  r ← crash_load_bpf_file elf_begin uninit "bpf_kern.o";
  if nonzero r then mret 1 else mret 0.

End Copies.

(** The copies treat every section name alike, and like the loader of fexit_example
    except for names that start with "fexit", which they refuse. *)
Theorem copies_differ_on_fexit event :
  crash_event_type event = kfr_event_type event /\
  (starts "fexit" event = false -> crash_event_type event = event_type true event) /\
  (event_type true event <> crash_event_type event ->
   event_type true event = Some TRACING /\ crash_event_type event = None).
Proof.
  split; [done|]. unfold crash_event_type, event_type. split.
  - intros ->. done.
  - repeat case_match; simplify_eq/=; done.
Qed.
