(* ===== verification/Packet.v ===== *)
(** * Packets and protocol headers

    What the packet programs (xdp-security-group/sg.bpf.c, tcp_push/tcp_push.c,
    ebpf-http/http-parse-complete.c) share: direct access to the bytes between
    [ctx->data] and [ctx->data_end], the header layouts of vmlinux.h (struct ethhdr,
    iphdr, tcphdr), byte-order conversion, and the one's complement sum behind the
    TCP checksum.  An access at or past [data_end] is a fault, so a theorem that a
    program returns also says that it stays inside its packet. *)

From S2P Require Import Prelude.

Abbreviation packet := (list Z).
Definition is_bytes (p : packet) : Prop := Forall (fun b => 0 <= b < 256) p.

(** ** Access between data and data_end (offsets from [ctx->data]) *)

Definition data_end : cmd packet Z := fun p => Ok (Z.of_nat (length p)) p.
Definition pload (off : Z) : cmd packet Z := fun p =>
  match (if off <? 0 then None else p !! Z.to_nat off) with
  | Some b => Ok b p
  | None => Halt (Fault off)
  end.
Definition pstore (off b : Z) : cmd packet unit := fun p =>
  if (0 <=? off) && (off <? Z.of_nat (length p))
  then Ok tt (<[Z.to_nat off := u8 b]> p)
  else Halt (Fault off).
(** Little-endian loads and stores of the wider fields. *)
Definition pload16 (off : Z) : cmd packet Z :=
  b0 ← pload off; b1 ← pload (off + 1); mret (b0 + 256 * b1).
Definition pload32 (off : Z) : cmd packet Z :=
  lo ← pload16 off; hi ← pload16 (off + 2); mret (lo + 65536 * hi).
Definition pstore16 (off v : Z) : cmd packet unit :=
  pstore off v;; pstore (off + 1) (Z.shiftr v 8).

(** ** Header layouts (vmlinux.h) *)

Definition SIZEOF_ETHHDR : Z := 14.
Definition SIZEOF_IPHDR : Z := 20.
Definition SIZEOF_TCPHDR : Z := 20.

Definition ETH_P_IP : Z := 0x800.
Definition IPPROTO_TCP : Z := 6.
Definition XDP_DROP : Z := 1.
Definition XDP_PASS : Z := 2.

Definition h_proto (eth : Z) : cmd packet Z := pload16 (eth + 12).
Definition protocol (ip : Z) : cmd packet Z := pload (ip + 9).
Definition saddr (ip : Z) : cmd packet Z := pload32 (ip + 12).
Definition daddr (ip : Z) : cmd packet Z := pload32 (ip + 16).
Definition source (tcp : Z) : cmd packet Z := pload16 tcp.
Definition dest (tcp : Z) : cmd packet Z := pload16 (tcp + 2).
Definition check (tcp : Z) : cmd packet Z := pload16 (tcp + 16).
Definition set_check (tcp v : Z) : cmd packet unit := pstore16 (tcp + 16) v.

(** The bit-fields of struct tcphdr: res1 and doff share byte 12, the flags byte 13. *)
Definition bits (v lo n : Z) : Z := Z.land (Z.shiftr v lo) (Z.ones n).
Definition res1 (tcp : Z) : cmd packet Z := b ← pload (tcp + 12); mret (bits b 0 4).
Definition doff (tcp : Z) : cmd packet Z := b ← pload (tcp + 12); mret (bits b 4 4).
Definition tcp_flag (i tcp : Z) : cmd packet Z := b ← pload (tcp + 13); mret (bits b i 1).
Definition fin := tcp_flag 0.
Definition syn := tcp_flag 1.
Definition rst := tcp_flag 2.
Definition psh := tcp_flag 3.
Definition ack := tcp_flag 4.
Definition urg := tcp_flag 5.
(** [tcp->psh = 1]. *)
Definition set_psh (tcp : Z) : cmd packet unit :=
  b ← pload (tcp + 13); pstore (tcp + 13) (Z.lor b 8).

Definition bpf_ntohs (v : Z) : Z := u16 (Z.lor (Z.shiftl v 8) (Z.shiftr v 8)).
Definition bpf_htons := bpf_ntohs.
Definition bpf_ntohl (v : Z) : Z :=
  Z.lor (Z.shiftl (bpf_ntohs (Z.land v 0xFFFF)) 16) (bpf_ntohs (Z.shiftr v 16)).

(** ** What is on the wire *)

Definition byte (p : packet) (off : Z) : Z := default 0 (p !! Z.to_nat off).
Definition be16 (p : packet) (off : Z) : Z := 256 * byte p off + byte p (off + 1).
Definition be32 (p : packet) (off : Z) : Z := 65536 * be16 p off + be16 p (off + 2).
Definition plen (p : packet) : Z := Z.of_nat (length p).

Lemma byte_range p off : is_bytes p -> 0 <= byte p off < 256.
Proof.
  intros H. unfold byte. destruct (p !! Z.to_nat off) as [b|] eqn:E; simpl; [|lia].
  by apply (Forall_lookup_1 _ _ _ _ H E).
Qed.
Lemma be16_range p off : is_bytes p -> 0 <= be16 p off < 2 ^ 16.
Proof.
  intros H. unfold be16. pose proof (byte_range p off H). pose proof (byte_range p (off + 1) H). lia.
Qed.

Lemma pload_run p off : 0 <= off < plen p -> pload off p = Ok (byte p off) p.
Proof.
  unfold plen. intros H. unfold pload, byte. destruct (Z.ltb_spec off 0); [lia|].
  by destruct (lookup_lt_is_Some_2 p (Z.to_nat off)) as [b ->]; [lia|].
Qed.
Lemma pload16_run p off :
  0 <= off -> off + 1 < plen p -> pload16 off p = Ok (byte p off + 256 * byte p (off + 1)) p.
Proof.
  intros H1 H2. unfold pload16. rewrite (bind_ok _ _ _ _ _ (pload_run p off ltac:(lia))).
  by rewrite (bind_ok _ _ _ _ _ (pload_run p (off + 1) ltac:(lia))).
Qed.
Lemma pload32_run p off :
  0 <= off -> off + 3 < plen p ->
  pload32 off p = Ok (byte p off + 256 * byte p (off + 1)
                      + 65536 * (byte p (off + 2) + 256 * byte p (off + 2 + 1))) p.
Proof.
  intros H1 H2. unfold pload32. rewrite (bind_ok _ _ _ _ _ (pload16_run p off ltac:(lia) ltac:(lia))).
  by rewrite (bind_ok _ _ _ _ _ (pload16_run p (off + 2) ltac:(lia) ltac:(lia))).
Qed.
Lemma pstore_run p off b :
  0 <= off < plen p -> pstore off b p = Ok tt (<[Z.to_nat off := u8 b]> p).
Proof.
  unfold plen. intros H. unfold pstore. destruct (Z.leb_spec 0 off); [|lia].
  by destruct (Z.ltb_spec off (Z.of_nat (length p))); [|lia].
Qed.

Lemma bind_data_end {B} (f : Z -> cmd packet B) p : (data_end ≫= f) p = f (plen p) p.
Proof. reflexivity. Qed.

(** Add up constant offsets. *)
Ltac offsets :=
  repeat match goal with
  | |- context [Z0 + ?b] => change (Z0 + b) with b
  | |- context [Zpos ?a + Zpos ?b] =>
      let c := eval vm_compute in (Zpos a + Zpos b) in change (Zpos a + Zpos b) with c
  end.

(** Step a load whose offset is inside the packet. *)
Ltac load_step :=
  first [ rewrite bind_data_end
        | erewrite bind_ok by (apply pload_run; lia)
        | erewrite bind_ok by (apply pload16_run; lia)
        | erewrite bind_ok by (apply pload32_run; lia) ].

(** Byte order. *)
Lemma bpf_ntohs_bytes a b : 0 <= a < 256 -> 0 <= b < 256 -> bpf_ntohs (a + 256 * b) = 256 * a + b.
Proof.
  intros Ha Hb. unfold bpf_ntohs, u16.
  rewrite Z.shiftl_mul_pow2, Z.shiftr_div_pow2 by lia.
  replace ((a + 256 * b) / 2 ^ 8) with b by (apply Z.div_unique with a; lia).
  rewrite (lor_disjoint _ b 8) by (try apply Z.mod_mul; lia).
  symmetry. apply Z.mod_unique with b; lia.
Qed.
Lemma bpf_ntohl_bytes a b c d :
  0 <= a < 256 -> 0 <= b < 256 -> 0 <= c < 256 -> 0 <= d < 256 ->
  bpf_ntohl (a + 256 * b + 65536 * (c + 256 * d)) = 65536 * (256 * a + b) + (256 * c + d).
Proof.
  intros Ha Hb Hc Hd. unfold bpf_ntohl. change 0xFFFF with (2 ^ 16 - 1).
  rewrite land_low by lia. rewrite Z.shiftr_div_pow2 by lia.
  replace ((a + 256 * b + 65536 * (c + 256 * d)) mod 2 ^ 16) with (a + 256 * b)
    by (apply Z.mod_unique with (c + 256 * d); lia).
  replace ((a + 256 * b + 65536 * (c + 256 * d)) / 2 ^ 16) with (c + 256 * d)
    by (apply Z.div_unique with (a + 256 * b); lia).
  rewrite !bpf_ntohs_bytes by lia. rewrite Z.shiftl_mul_pow2 by lia.
  rewrite (lor_disjoint _ _ 16) by (try apply Z.mod_mul; lia). lia.
Qed.
Lemma bpf_ntohs_inj a b : 0 <= a < 2 ^ 16 -> 0 <= b < 2 ^ 16 -> bpf_ntohs a = bpf_ntohs b -> a = b.
Proof.
  intros Ha Hb. pose proof (Z.div_mod a 256 ltac:(lia)). pose proof (Z.div_mod b 256 ltac:(lia)).
  pose proof (Z.mod_pos_bound a 256 ltac:(lia)). pose proof (Z.mod_pos_bound b 256 ltac:(lia)).
  assert (0 <= a / 256 < 256) by (split; [apply Z.div_pos|apply Z.div_lt_upper_bound]; lia).
  assert (0 <= b / 256 < 256) by (split; [apply Z.div_pos|apply Z.div_lt_upper_bound]; lia).
  replace a with (a mod 256 + 256 * (a / 256)) by lia.
  replace b with (b mod 256 + 256 * (b / 256)) by lia.
  rewrite !bpf_ntohs_bytes by lia. lia.
Qed.
Lemma bpf_ntohs_range v : 0 <= bpf_ntohs v < 2 ^ 16.
Proof. apply u16_range. Qed.

(** A little-endian load compared with a converted constant compares the number on
    the wire. *)
Lemma field_eqb a b c :
  0 <= a < 256 -> 0 <= b < 256 -> 0 <= c < 2 ^ 16 ->
  (a + 256 * b =? bpf_htons c) = (256 * a + b =? c).
Proof.
  intros Ha Hb Hc. rewrite <- (bpf_ntohs_bytes a b Ha Hb). unfold bpf_htons.
  assert (Hi : bpf_ntohs (bpf_ntohs c) = c).
  { pose proof (Z.div_mod c 256 ltac:(lia)). pose proof (Z.mod_pos_bound c 256 ltac:(lia)).
    assert (0 <= c / 256 < 256) by (split; [apply Z.div_pos|apply Z.div_lt_upper_bound]; lia).
    replace c with (c mod 256 + 256 * (c / 256)) at 1 by lia. rewrite bpf_ntohs_bytes by lia.
    rewrite (Z.add_comm (256 * _)), bpf_ntohs_bytes by lia. lia. }
  destruct (Z.eqb_spec (a + 256 * b) (bpf_ntohs c)) as [E|E],
           (Z.eqb_spec (bpf_ntohs (a + 256 * b)) c) as [F|F]; try done.
  - rewrite E, Hi in F. done.
  - destruct E. apply bpf_ntohs_inj; [lia|apply bpf_ntohs_range|]. by rewrite Hi.
Qed.

(** ** The one's complement sum of 16-bit words (RFC 1071) *)

Definition oc_add (a b : Z) : Z := let s := a + b in if s <? 2 ^ 16 then s else s - 0xFFFF.
Definition oc_sum (ws : list Z) : Z := foldr oc_add 0 ws.
(** The words of a segment, most significant byte first, an odd byte padded. *)
Fixpoint words_of (bs : list Z) : list Z :=
  match bs with
  | [] => []
  | [a] => [256 * a]
  | a :: b :: bs' => 256 * a + b :: words_of bs'
  end.
Definition zsum (ws : list Z) : Z := foldr Z.add 0 ws.
(** A checksummed sequence of words is accepted when it sums to all ones. *)
Definition csum_valid (ws : list Z) : Prop := oc_sum ws = 0xFFFF.

Lemma zsum_app a b : zsum (a ++ b) = zsum a + zsum b.
Proof. unfold zsum. induction a as [|x a IH]; simpl; [done|]. rewrite IH. lia. Qed.
Lemma zsum_nonneg ws : Forall (fun w => 0 <= w < 2 ^ 16) ws -> 0 <= zsum ws.
Proof. induction 1; simpl in *; lia. Qed.

(** The folded sum is the residue of the sum modulo [2^16 - 1], in [1..0xFFFF]
    unless every word is zero. *)
Lemma oc_sum_spec ws :
  Forall (fun w => 0 <= w < 2 ^ 16) ws ->
  0 <= oc_sum ws < 2 ^ 16 /\
  (exists q, zsum ws = 0xFFFF * q + oc_sum ws) /\ (oc_sum ws = 0 <-> zsum ws = 0).
Proof.
  induction 1 as [|w ws Hw Hws IH]; simpl.
  { split; [lia|]. split; [by exists 0|done]. }
  destruct IH as (Hr & [q Hq] & Hz). pose proof (zsum_nonneg ws Hws).
  unfold oc_add. destruct (Z.ltb_spec (w + oc_sum ws) (2 ^ 16)).
  - split; [lia|]. split; [exists q; lia|lia].
  - split; [lia|]. split; [exists (q + 1); lia|]. lia.
Qed.
Lemma csum_valid_iff ws :
  Forall (fun w => 0 <= w < 2 ^ 16) ws ->
  csum_valid ws <-> 0 < zsum ws /\ zsum ws mod 0xFFFF = 0.
Proof.
  intros H. destruct (oc_sum_spec ws H) as (Hr & [q Hq] & Hz). pose proof (zsum_nonneg ws H).
  unfold csum_valid. split.
  - intros E. split; [lia|]. rewrite Hq, E. symmetry. apply Z.mod_unique with (q + 1); lia.
  - intros [Hp Hm]. rewrite Hq, Z.mul_comm, Z.add_comm, Z_mod_plus_full in Hm.
    destruct (decide (oc_sum ws = 0xFFFF)) as [|Hn]; [done|].
    rewrite Z.mod_small in Hm by lia. lia.
Qed.

Lemma words_of_range p : is_bytes p -> Forall (fun w => 0 <= w < 2 ^ 16) (words_of p).
Proof.
  assert (H : forall n p, (length p < n)%nat -> is_bytes p ->
    Forall (fun w => 0 <= w < 2 ^ 16) (words_of p)).
  2:{ intros Hp. by apply (H (S (length p))); [lia|]. }
  induction n as [|n IH]; intros q Hl Hq; [lia|].
  destruct q as [|a [|b q]]; simpl in *; [done| |].
  - apply Forall_cons in Hq as [Ha _]. constructor; [lia|done].
  - apply Forall_cons in Hq as [Ha Hq]. apply Forall_cons in Hq as [Hb Hq].
    constructor; [lia|]. apply IH; [lia|done].
Qed.
(** Changing the second byte of a word changes the sum by as much. *)
Lemma zsum_insert_odd p i a b :
  p !! (2 * i + 1)%nat = Some a ->
  zsum (words_of (<[(2 * i + 1)%nat := b]> p)) = zsum (words_of p) - a + b.
Proof.
  revert p. induction i as [|i IH]; intros p H.
  - destruct p as [|x [|y p]]; simpl in *; simplify_eq. simpl. lia.
  - replace (2 * S i + 1)%nat with (S (S (2 * i + 1))) in * by lia.
    destruct p as [|x [|y p]]; simpl in H; [done|done|].
    simpl. change (foldr Z.add 0) with zsum. rewrite IH by done. lia.
Qed.

(** ** BPF maps *)

(** bpf_map_update_elem with BPF_ANY on a hash or array of at most [max] entries: a new key
    is refused when the map is full. *)
Definition bpf_map_update {K V} `{Countable K} (max : Z) (k : K) (v : V) (m : gmap K V) : gmap K V :=
  match m !! k with
  | Some _ => <[k := v]> m
  | None => if Z.of_nat (size m) <? max then <[k := v]> m else m
  end.

Section Maps.
Context {K V : Type} `{Countable K}.
Implicit Types m : gmap K V.

Lemma update_room max k v m :
  is_Some (m !! k) \/ Z.of_nat (size m) < max -> bpf_map_update max k v m = <[k := v]> m.
Proof.
  intros Hr. unfold bpf_map_update. destruct (m !! k); [done|].
  destruct Hr as [[? ?]|Hr]; [done|]. by rewrite (proj2 (Z.ltb_lt _ _)).
Qed.
Lemma update_empty max k v : 0 < max -> bpf_map_update max k v (∅ : gmap K V) = {[k := v]}.
Proof. intros Hm. apply update_room. right. by rewrite map_size_empty. Qed.
Lemma update_other max k k' v m : k <> k' -> bpf_map_update max k v m !! k' = m !! k'.
Proof.
  intros Hn. unfold bpf_map_update. destruct (m !! k); [by apply lookup_insert_ne|].
  destruct (_ <? _); [by apply lookup_insert_ne|done].
Qed.
Lemma update_dom max k v m : dom (bpf_map_update max k v m) ⊆ {[k]} ∪ dom m.
Proof. unfold bpf_map_update. destruct (m !! k); [|destruct (_ <? _)]; rewrite ?dom_insert; set_solver. Qed.
End Maps.
