(* ===== verification/SecurityGroup.v ===== *)
(** * The XDP security group (xdp-security-group/sg.bpf.c)

    [is_secure_source] and the XDP program over it, which rejects TCP segments to
    port 12160 that do not come from port 10216. *)

From S2P Require Import Prelude Packet.

Definition is_secure_source (data : Z) : cmd packet Z :=
  e ← data_end;
  let eth_header := data in
  if e <? eth_header + SIZEOF_ETHHDR then mret 1 else
  pr ← h_proto eth_header;
  if negb (pr =? bpf_htons ETH_P_IP) then mret 1 else
  let ip_header := eth_header + SIZEOF_ETHHDR in
  if e <? ip_header + SIZEOF_IPHDR then mret 1 else
  nx ← protocol ip_header;
  if negb (nx =? IPPROTO_TCP) then mret 1 else
  let tcp_header := ip_header + SIZEOF_IPHDR in
  if e <? tcp_header + SIZEOF_TCPHDR then mret 1 else
  d ← dest tcp_header;
  if d =? bpf_htons 12160 then
    s ← source tcp_header;
    if negb (s =? bpf_htons 10216) then mret 0 (* reject *) else mret 1 (* accept *)
  else mret 1.

Definition xdp_secure_policy : cmd packet Z :=
  r ← is_secure_source 0;
  if nonzero r then mret XDP_PASS else mret XDP_DROP.

(** A frame that is long enough for the three headers (without IP options) and
    carries TCP over IPv4. *)
Definition tcp4 (p : packet) : bool :=
  (54 <=? plen p) && (be16 p 12 =? ETH_P_IP) && (byte p 23 =? IPPROTO_TCP).

Lemma is_secure_source_run p :
  is_bytes p ->
  is_secure_source 0 p =
    Ok (b2i (negb (tcp4 p && (be16 p 36 =? 12160) && negb (be16 p 34 =? 10216)))) p.
Proof.
  intros Hp. pose proof (fun off => byte_range p off Hp) as B.
  unfold is_secure_source, tcp4, h_proto, protocol, dest, source,
    SIZEOF_ETHHDR, SIZEOF_IPHDR, SIZEOF_TCPHDR, be16.
  offsets. load_step.
  destruct (Z.ltb_spec (plen p) 14); [by destruct (Z.leb_spec 54 (plen p)); [lia|]|].
  load_step. rewrite field_eqb by (apply B || done). offsets.
  destruct (256 * byte p 12 + byte p 13 =? ETH_P_IP); cbn [negb];
    [|by destruct (54 <=? plen p)].
  destruct (Z.ltb_spec (plen p) 34); [by destruct (Z.leb_spec 54 (plen p)); [lia|]|].
  load_step. destruct (byte p 23 =? IPPROTO_TCP); cbn [negb]; [|by destruct (54 <=? plen p)].
  destruct (Z.ltb_spec (plen p) 54), (Z.leb_spec 54 (plen p)); try lia; [done|].
  load_step. rewrite field_eqb by (apply B || done). offsets.
  destruct (256 * byte p 36 + byte p 37 =? 12160); [|done].
  load_step. rewrite field_eqb by (apply B || done). offsets.
  by destruct (256 * byte p 34 + byte p 35 =? 10216).
Qed.


(** A segment to port 12160 (0x2F80) from port 80. *)
Definition sg_frame : packet :=
  replicate 12 0 ++ [8; 0] ++ replicate 9 0 ++ [6] ++ replicate 10 0 ++ [0; 80; 0x2F; 0x80]
    ++ replicate 16 0.
