(* ===== verification/TcpPush.v ===== *)
(** * Setting the TCP PSH flag (tcp_push/tcp_push.c)

    [tcp_psh] and its two entry points, for XDP and for tc; the helper
    [bpf_get_prandom_u32] is an argument, the number it returns. *)

From S2P Require Import Prelude Packet.

Definition RATIO : Z := 10.
Definition TC_ACT_OK : Z := 0.
Definition TC_ACT_SHOT : Z := 2.

Definition tcp_psh (prandom_u32 data : Z) : cmd packet Z :=
  let eth := data in
  let iph := eth + SIZEOF_ETHHDR in
  let tcphdr := iph + SIZEOF_IPHDR in
  e ← data_end;
  if e <? tcphdr + SIZEOF_TCPHDR then mret 0 else
  pr ← h_proto eth;
  if negb (pr =? bpf_htons ETH_P_IP) then mret 0 else
  nx ← protocol iph;
  if negb (nx =? IPPROTO_TCP) then mret 0 else
  sy ← syn tcphdr;
  if nonzero sy then mret 0 else
  fi ← fin tcphdr;
  if nonzero fi then mret 0 else
  rs ← rst tcphdr;
  if nonzero rs then mret 0 else
  ps ← psh tcphdr;
  if nonzero ps then mret 0 else
  if prandom_u32 mod RATIO =? 0 then
    set_psh tcphdr;;
    mret 0
  else mret 0.

Definition xdp_main (prandom_u32 : Z) : cmd packet Z :=
  r ← tcp_psh prandom_u32 0;
  if nonzero r then mret XDP_DROP else mret XDP_PASS.

Definition tc_main (prandom_u32 : Z) : cmd packet Z :=
  r ← tcp_psh prandom_u32 0;
  if nonzero r then mret TC_ACT_SHOT else mret TC_ACT_OK.

(** The segments the program marks: TCP over IPv4 with none of FIN, SYN, RST and PSH
    (the four low bits of the flags byte) set, one in [RATIO]. *)
Definition fires (p : packet) (prandom_u32 : Z) : bool :=
  (54 <=? plen p) && (be16 p 12 =? ETH_P_IP) && (byte p 23 =? IPPROTO_TCP)
  && (Z.land (byte p 47) 15 =? 0) && (prandom_u32 mod RATIO =? 0).
Definition marked (p : packet) : packet := <[47%nat := byte p 47 + 8]> p.

Definition flag_bits (b : Z) : bool :=
  eqb (nonzero (bits b 1 1) || nonzero (bits b 0 1) || nonzero (bits b 2 1) || nonzero (bits b 3 1))
      (negb (Z.land b 15 =? 0))
  && (negb (Z.land b 15 =? 0) || (u8 (Z.lor b 8) =? b + 8)).
Lemma flag_bits_all b : 0 <= b < 256 -> flag_bits b = true.
Proof.
  intros H. assert (forallb (fun n => flag_bits (Z.of_nat n)) (seq 0 256) = true) as A
    by (vm_compute; reflexivity).
  rewrite forallb_forall in A. replace b with (Z.of_nat (Z.to_nat b)) by lia.
  apply A, in_seq. lia.
Qed.

Lemma tcp_flag_step {B} i p (f : Z -> cmd packet B) :
  54 <= plen p -> (tcp_flag i 34 ≫= f) p = f (bits (byte p 47) i 1) p.
Proof.
  intros H. unfold tcp_flag. offsets. rewrite bind_bind. by load_step.
Qed.

Lemma tcp_psh_run p r :
  is_bytes p -> tcp_psh r 0 p = Ok 0 (if fires p r then marked p else p).
Proof.
  intros Hp. pose proof (fun off => byte_range p off Hp) as B.
  unfold tcp_psh, fires, h_proto, protocol, SIZEOF_ETHHDR, SIZEOF_IPHDR, SIZEOF_TCPHDR, be16.
  offsets. load_step.
  destruct (Z.ltb_spec (plen p) 54), (Z.leb_spec 54 (plen p)); try lia; [done|].
  load_step. rewrite field_eqb by (apply B || done). offsets.
  destruct (256 * byte p 12 + byte p 13 =? ETH_P_IP); cbn [negb andb]; [|done].
  load_step. destruct (byte p 23 =? IPPROTO_TCP); cbn [negb andb]; [|done].
  unfold syn, fin, rst, psh.
  pose proof (flag_bits_all _ (B 47)) as F. unfold flag_bits in F.
  apply andb_prop in F as [F1 F2]. apply eqb_prop in F1.
  rewrite !tcp_flag_step by done.
  destruct (nonzero (bits (byte p 47) 1 1)); [by destruct (Z.land _ _ =? 0)|].
  rewrite !tcp_flag_step by done.
  destruct (nonzero (bits (byte p 47) 0 1)); [by destruct (Z.land _ _ =? 0)|].
  rewrite !tcp_flag_step by done.
  destruct (nonzero (bits (byte p 47) 2 1)); [by destruct (Z.land _ _ =? 0)|].
  rewrite !tcp_flag_step by done.
  destruct (nonzero (bits (byte p 47) 3 1)); [by destruct (Z.land _ _ =? 0)|].
  destruct (Z.land (byte p 47) 15 =? 0); [|done]. cbn [negb andb orb] in *.
  destruct (r mod RATIO =? 0); [|done].
  unfold set_psh. offsets. rewrite bind_bind. load_step.
  erewrite bind_ok by (apply pstore_run; lia). apply Z.eqb_eq in F2. rewrite F2. reflexivity.
Qed.


Lemma marked_bytes p : is_bytes p -> Z.land (byte p 47) 15 = 0 -> is_bytes (marked p).
Proof.
  intros Hp Hz. apply Forall_insert; [done|]. pose proof (byte_range p 47 Hp) as Hb.
  pose proof (flag_bits_all _ Hb) as F. apply andb_prop in F as [_ F]. rewrite Hz in F.
  apply Z.eqb_eq in F. rewrite <- F. apply u8_range.
Qed.

(** The checksum is left as it was ("recalculate the checksum?" in the source): a
    segment that was valid, with the words of its pseudo header, is not valid any more
    once the program has marked it. *)
Theorem tcp_psh_stale_checksum p r pseudo :
  is_bytes p -> Forall (fun w => 0 <= w < 2 ^ 16) pseudo -> fires p r = true ->
  csum_valid (pseudo ++ words_of (drop 34 p)) ->
  exists p', xdp_main r p = Ok XDP_PASS p' /\
             ~ csum_valid (pseudo ++ words_of (drop 34 p')).
Proof.
  intros Hp Hps Hf Hv. exists (marked p). split.
  { unfold xdp_main. rewrite (bind_ok _ _ _ _ _ (tcp_psh_run p r Hp)). by rewrite Hf. }
  unfold fires in Hf. rewrite !andb_true_iff, Z.eqb_eq, Z.leb_le, !Z.eqb_eq in Hf.
  destruct Hf as [[[[Hl _] _] Hz] _].
  assert (Hb : forall q, is_bytes q -> Forall (fun w => 0 <= w < 2 ^ 16) (pseudo ++ words_of (drop 34 q))).
  { intros q Hq. apply Forall_app. split; [done|]. apply words_of_range. by apply Forall_drop. }
  rewrite csum_valid_iff in Hv by auto. rewrite csum_valid_iff by auto using marked_bytes.
  unfold marked. rewrite zsum_app, drop_insert_ge by lia.
  change (47 - 34)%nat with (2 * 6 + 1)%nat. rewrite zsum_app in Hv.
  rewrite (zsum_insert_odd _ _ (byte p 47)).
  2:{ rewrite lookup_drop. unfold byte, plen in *. change (34 + (2 * 6 + 1))%nat with 47%nat.
      change (Z.to_nat 47) with 47%nat.
      by destruct (lookup_lt_is_Some_2 p 47) as [b ->]; [lia|]. }
  destruct Hv as [_ Hv]. intros [_ Hn].
  replace (zsum pseudo + (zsum (words_of (drop 34 p)) - byte p 47 + (byte p 47 + 8)))
    with ((zsum pseudo + zsum (words_of (drop 34 p))) + 8) in Hn by lia.
  rewrite Z.add_mod, Hv in Hn by lia. done.
Qed.

Definition ack_frame : packet :=
  replicate 12 0 ++ [8; 0] ++ replicate 9 0 ++ [6] ++ replicate 10 0 ++ replicate 12 0
    ++ [0x50; 0x10; 0; 0; 0xAF; 0xEF; 0; 0].
Lemma ack_frame_bytes : is_bytes ack_frame.
Proof. unfold is_bytes, ack_frame. simpl. repeat (constructor; [lia|]). constructor. Qed.
Lemma tcp_psh_stale_checksum_witness :
  csum_valid ([] ++ words_of (drop 34 ack_frame)) /\
  exists p', xdp_main 20 ack_frame = Ok XDP_PASS p' /\ ~ csum_valid ([] ++ words_of (drop 34 p')).
Proof.
  split; [reflexivity|].
  exact (tcp_psh_stale_checksum ack_frame 20 [] ack_frame_bytes (Forall_nil_2 _) eq_refl eq_refl).
Defined.
