(* ===== verification/HttpSimple.v ===== *)
(** * The HTTP socket filter (ebpf-http/http-parse-simple.c)

    [http_filter] of http-parse-simple.c, and what it shares with the filter of
    http-parse-complete.c: the header accesses, which the bcc front end rewrites into
    packet loads ([cursor_advance] and the header structs of bcc/proto.h are the
    parameter [proto]), and the [load_byte] of the payload.  A load outside the packet
    ends a socket filter at once with result 0; no filter has written anything before
    its last load, so that end is [halt (ExitProc 0)] under [filter_run]. *)

From S2P Require Import Prelude Packet.

(** The headers of bcc/proto.h: sizes, and the fields the filters read, by cursor. *)
Record proto := {
  sizeof_ethernet_t : Z; sizeof_ip_t : Z; sizeof_tcp_t : Z;
  ethernet_type : packet -> Z -> option Z;
  ip_nextp : packet -> Z -> option Z; ip_hlen : packet -> Z -> option Z;
  ip_tlen : packet -> Z -> option Z;
  ip_src : packet -> Z -> option Z; ip_dst : packet -> Z -> option Z;
  tcp_src_port : packet -> Z -> option Z; tcp_dst_port : packet -> Z -> option Z;
  tcp_offset : packet -> Z -> option Z
}.

(** [n] bytes, most significant first; [None] outside the packet. *)
Fixpoint be (n : nat) (p : packet) (off : Z) : option Z :=
  match n with
  | O => Some 0
  | S n' => hi ← be n' p off;
            lo ← (if off <? 0 then None else p !! Z.to_nat (off + Z.of_nat n'));
            Some (256 * hi + lo)
  end.

(** The documented layout: Ethernet, IPv4 and TCP as on the wire. *)
Record wire_layout (P : proto) : Prop := {
  wl_eth : sizeof_ethernet_t P = 14; wl_ip : sizeof_ip_t P = 20; wl_tcp : sizeof_tcp_t P = 20;
  wl_type p c : ethernet_type P p c = be 2 p (c + 12);
  wl_nextp p c : ip_nextp P p c = be 1 p (c + 9);
  wl_hlen p c : ip_hlen P p c = (fun b => b mod 16) <$> be 1 p c;
  wl_tlen p c : ip_tlen P p c = be 2 p (c + 2);
  wl_src p c : ip_src P p c = be 4 p (c + 12);
  wl_dst p c : ip_dst P p c = be 4 p (c + 16);
  wl_sport p c : tcp_src_port P p c = be 2 p c;
  wl_dport p c : tcp_dst_port P p c = be 2 p (c + 2);
  wl_offset p c : tcp_offset P p c = (fun b => b / 16) <$> be 1 p (c + 12)
}.

Definition IP_TCP : Z := 6.
Definition ETH_HLEN : Z := 14.
Definition KEEP : Z := -1.
Definition DROP : Z := 0.

(** A load of the filter: outside the packet the program ends with 0. *)
Definition skb_load {S} (v : option Z) : cmd S Z :=
  match v with Some x => mret x | None => halt (ExitProc 0) end.
Definition filter_run {S} (m : cmd S Z) : cmd S Z := fun s =>
  match m s with Halt (ExitProc c) => Ok c s | o => o end.

(** [for (i = payload_offset; i < payload_offset + 7; i++) p[j] = load_byte(skb, i)]. *)
Fixpoint load_payload {S} (skb : packet) (n : nat) (i : Z) : cmd S (list Z) :=
  match n with
  | O => mret []
  | S n' => b ← skb_load (be 1 skb i); l ← load_payload skb n' (i + 1); mret (b :: l)
  end.

Definition chr (s : string) : Z :=
  match s with String c _ => Z.of_nat (Ascii.nat_of_ascii c) | EmptyString => 0 end.

(** The comparisons with the methods, in the source's order. *)
Definition http_match (p : list Z) : bool :=
  let c i ch := default 0 (p !! i) =? chr ch in
  if c 0%nat "H" && c 1%nat "T" && c 2%nat "T" && c 3%nat "P" then true else
  if c 0%nat "G" && c 1%nat "E" && c 2%nat "T" then true else
  if c 0%nat "P" && c 1%nat "O" && c 2%nat "S" && c 3%nat "T" then true else
  if c 0%nat "P" && c 1%nat "U" && c 2%nat "T" then true else
  if c 0%nat "D" && c 1%nat "E" && c 2%nat "L" && c 3%nat "E" && c 4%nat "T" && c 5%nat "E" then true else
  if c 0%nat "H" && c 1%nat "E" && c 2%nat "A" && c 3%nat "D" then true else
  false.

Section Filter.
Context (P : proto).

Definition http_filter_body (skb : packet) : cmd unit Z :=
  let ethernet := 0 in
  let cursor := ethernet + sizeof_ethernet_t P in
  ty ← skb_load (ethernet_type P skb ethernet);
  if negb (ty =? 0x0800) then mret DROP else
  let ip := cursor in
  let cursor := ip + sizeof_ip_t P in
  nx ← skb_load (ip_nextp P skb ip);
  if negb (nx =? IP_TCP) then mret DROP else
  let tcp := cursor in
  hlen ← skb_load (ip_hlen P skb ip);
  let ip_header_length := u32 (Z.shiftl hlen 2) in
  offset ← skb_load (tcp_offset P skb tcp);
  let tcp_header_length := u32 (Z.shiftl offset 2) in
  let payload_offset := u32 (ETH_HLEN + ip_header_length + tcp_header_length) in
  tlen ← skb_load (ip_tlen P skb ip);
  let payload_length := u32 (tlen - ip_header_length - tcp_header_length) in
  if payload_length <? 7 then mret DROP else
  p ← load_payload skb 7 payload_offset;
  if http_match p then mret KEEP else mret DROP.

Definition http_filter (skb : packet) : cmd unit Z := filter_run (http_filter_body skb).
End Filter.

(** ** What an HTTP packet is *)

Definition methods : list string := ["HTTP"; "GET"; "POST"; "PUT"; "DELETE"; "HEAD"]%string.
Fixpoint bytes_of (s : string) : list Z :=
  match s with
  | EmptyString => []
  | String c s' => Z.of_nat (Ascii.nat_of_ascii c) :: bytes_of s'
  end.
Definition starts_with (p : list Z) (m : string) : bool :=
  bool_decide (take (String.length m) p = bytes_of m).

Definition ip_hl (p : packet) : Z := 4 * (byte p 14 mod 16).
Definition tcp_hl (p : packet) : Z := 4 * (byte p 46 / 16).
Definition payload (p : packet) : list Z := drop (Z.to_nat (14 + ip_hl p + tcp_hl p)) p.

(** TCP over IPv4 whose payload is complete in its first 7 bytes and starts with a
    method; the length announced by the IP header is compared as a 32-bit number. *)
Definition http_packet (p : packet) : bool :=
  (47 <=? plen p) && (be16 p 12 =? 0x800) && (byte p 23 =? IP_TCP)
  && negb (u32 (be16 p 16 - ip_hl p - tcp_hl p) <? 7)
  && (7 <=? plen (payload p)) && existsb (starts_with (payload p)) methods.

(** ** Loads *)

Lemma at_byte p off :
  0 <= off -> (if off <? 0 then None else p !! Z.to_nat off)
              = if off <? plen p then Some (byte p off) else None.
Proof.
  intros H. unfold byte, plen. destruct (Z.ltb_spec off 0); [lia|].
  destruct (Z.ltb_spec off (Z.of_nat (length p))).
  - by destruct (lookup_lt_is_Some_2 p (Z.to_nat off)) as [b ->]; [lia|].
  - apply lookup_ge_None. lia.
Qed.
Lemma be_S n p off :
  0 <= off -> be (S n) p off =
    (hi ← be n p off; if off + Z.of_nat n <? plen p
                      then Some (256 * hi + byte p (off + Z.of_nat n)) else None).
Proof.
  intros H. simpl. destruct (be n p off) as [hi|]; simpl; [|done].
  pose proof (at_byte p (off + Z.of_nat n) ltac:(lia)) as E.
  destruct (Z.ltb_spec off 0); [lia|]. destruct (Z.ltb_spec (off + Z.of_nat n) 0); [lia|].
  rewrite E. by destruct (_ <? _).
Qed.
Lemma be1 p off : 0 <= off -> be 1 p off = if off + 1 <=? plen p then Some (byte p off) else None.
Proof.
  intros H. rewrite be_S by done. cbn [be mbind option_bind]. replace (off + Z.of_nat 0) with off by lia.
  destruct (Z.ltb_spec off (plen p)), (Z.leb_spec (off + 1) (plen p)); (lia || done).
Qed.
Lemma be2 p off : 0 <= off -> be 2 p off = if off + 2 <=? plen p then Some (be16 p off) else None.
Proof.
  intros H. rewrite be_S, be1 by done. unfold be16.
  destruct (Z.leb_spec (off + 1) (plen p)), (Z.ltb_spec (off + Z.of_nat 1) (plen p)),
    (Z.leb_spec (off + 2) (plen p)); simpl; (lia || done).
Qed.
Lemma be4 p off : 0 <= off -> be 4 p off = if off + 4 <=? plen p then Some (be32 p off) else None.
Proof.
  intros H. rewrite be_S, be_S, be2 by done. unfold be32, be16.
  replace (off + Z.of_nat 2) with (off + 2) by lia. replace (off + Z.of_nat 3) with (off + 2 + 1) by lia.
  destruct (Z.leb_spec (off + 2) (plen p)), (Z.ltb_spec (off + 2) (plen p)),
    (Z.ltb_spec (off + 2 + 1) (plen p)), (Z.leb_spec (off + 4) (plen p)); simpl; try (lia || done).
  f_equal. lia.
Qed.

Lemma load_payload_run {S} (p : packet) n i (s : S) :
  0 <= i -> (0 < n)%nat ->
  load_payload p n i s =
    if i + Z.of_nat n <=? plen p then Ok (take n (drop (Z.to_nat i) p)) s else Halt (ExitProc 0).
Proof.
  revert i. induction n as [|n IH]; intros i Hi Hn; [lia|]. cbn [load_payload].
  rewrite be1 by done. destruct (Z.leb_spec (i + 1) (plen p)) as [Hl|Hl].
  2:{ simpl. by destruct (Z.leb_spec (i + Z.of_nat (Datatypes.S n)) (plen p)); [lia|]. }
  assert (E : drop (Z.to_nat i) p = byte p i :: drop (Z.to_nat (i + 1)) p).
  { replace (Z.to_nat (i + 1)) with (Datatypes.S (Z.to_nat i)) by lia. unfold byte, plen in *.
    destruct (lookup_lt_is_Some_2 p (Z.to_nat i)) as [b Hb]; [lia|]. rewrite Hb. by apply drop_S. }
  rewrite E. unfold skb_load. rewrite bind_ret.
  destruct n as [|n].
  { simpl. replace (i + 1) with (i + Z.of_nat 1) in Hl by lia. by destruct (Z.leb_spec (i + Z.of_nat 1) (plen p)); [|lia]. }
  unfold mbind, cmd_bind. rewrite IH by lia.
  replace (i + 1 + Z.of_nat (Datatypes.S n)) with (i + Z.of_nat (Datatypes.S (Datatypes.S n))) by lia.
  by destruct (_ <=? _).
Qed.

(** The chain of comparisons is the prefix test. *)
Lemma bool_decide_cons (x y : Z) l m :
  bool_decide (x :: l = y :: m) = (x =? y) && bool_decide (l = m).
Proof.
  destruct (Z.eqb_spec x y) as [->|Hn]; simpl.
  - apply bool_decide_ext. naive_solver.
  - apply bool_decide_eq_false_2. naive_solver.
Qed.
Lemma http_match_spec l :
  (7 <= length l)%nat -> http_match (take 7 l) = existsb (starts_with l) methods.
Proof.
  intros H. do 7 (destruct l as [|? l]; [simpl in H; lia|]). clear H.
  unfold methods. cbn [existsb]. unfold starts_with.
  cbn [String.length take bytes_of]. rewrite !bool_decide_cons, !bool_decide_eq_true_2 by done.
  unfold http_match. cbn [lookup list_lookup default chr].
  rewrite !andb_true_r, <- !andb_assoc, !orb_false_r.
  repeat match goal with |- context [if ?b then true else ?c] => replace (if b then true else c) with (b || c) by by destruct b end.
  by rewrite orb_false_r.
Qed.

(** ** The filter *)

Lemma hdr_len b : 0 <= b < 16 -> u32 (Z.shiftl b 2) = 4 * b.
Proof. intros H. rewrite Z.shiftl_mul_pow2 by lia. rewrite u32_small by lia. lia. Qed.
Lemma ip_hl_range p : is_bytes p -> 0 <= ip_hl p <= 60.
Proof. unfold ip_hl. pose proof (Z.mod_pos_bound (byte p 14) 16 ltac:(lia)). lia. Qed.
Lemma tcp_hl_range p : is_bytes p -> 0 <= tcp_hl p <= 60.
Proof.
  intros H. unfold tcp_hl. pose proof (byte_range p 46 H).
  assert (0 <= byte p 46 / 16 < 16) by (split; [apply Z.div_pos|apply Z.div_lt_upper_bound]; lia). lia.
Qed.
Lemma plen_payload p :
  is_bytes p -> (7 <=? plen (payload p)) = (14 + ip_hl p + tcp_hl p + Z.of_nat 7 <=? plen p).
Proof.
  intros H. pose proof (ip_hl_range p H). pose proof (tcp_hl_range p H).
  unfold plen, payload. rewrite length_drop.
  destruct (Z.leb_spec 7 (Z.of_nat (length p - Z.to_nat (14 + ip_hl p + tcp_hl p)))),
    (Z.leb_spec (14 + ip_hl p + tcp_hl p + Z.of_nat 7) (Z.of_nat (length p))); (lia || done).
Qed.

(** The payload part of both filters. *)
Definition payload_check {S} (skb : packet) (hl th tlen : Z) : cmd S bool :=
  let payload_length := u32 (tlen - hl - th) in
  if payload_length <? 7 then mret false else
  p ← load_payload skb 7 (u32 (ETH_HLEN + hl + th));
  mret (http_match p).
Lemma payload_check_run {S} p (s : S) :
  is_bytes p ->
  payload_check p (ip_hl p) (tcp_hl p) (be16 p 16) s =
    if negb (u32 (be16 p 16 - ip_hl p - tcp_hl p) <? 7) && negb (7 <=? plen (payload p))
    then Halt (ExitProc 0)
    else Ok (negb (u32 (be16 p 16 - ip_hl p - tcp_hl p) <? 7)
             && (7 <=? plen (payload p)) && existsb (starts_with (payload p)) methods) s.
Proof.
  intros H. pose proof (ip_hl_range p H). pose proof (tcp_hl_range p H).
  unfold payload_check. destruct (u32 _ <? 7); [done|]. cbn [negb andb].
  unfold ETH_HLEN. rewrite u32_small by lia. rewrite plen_payload by done.
  unfold mbind, cmd_bind. rewrite load_payload_run by lia.
  destruct (Z.leb_spec (14 + ip_hl p + tcp_hl p + Z.of_nat 7) (plen p)); [|done]. simpl.
  unfold mret, cmd_ret. f_equal. apply (http_match_spec (payload p)).
  unfold payload. rewrite length_drop. unfold plen in *. lia.
Qed.


(** The wire layout as a concrete parameter. *)
Definition wire_proto : proto := {|
  sizeof_ethernet_t := 14; sizeof_ip_t := 20; sizeof_tcp_t := 20;
  ethernet_type p c := be 2 p (c + 12);
  ip_nextp p c := be 1 p (c + 9);
  ip_hlen p c := (fun b => b mod 16) <$> be 1 p c;
  ip_tlen p c := be 2 p (c + 2);
  ip_src p c := be 4 p (c + 12); ip_dst p c := be 4 p (c + 16);
  tcp_src_port p c := be 2 p c; tcp_dst_port p c := be 2 p (c + 2);
  tcp_offset p c := (fun b => b / 16) <$> be 1 p (c + 12)
|}.
Lemma wire_proto_layout : wire_layout wire_proto.
Proof. by constructor. Qed.

(** "GET / H" over TCP/IPv4. *)
Definition get_frame : packet :=
  replicate 12 0 ++ [8; 0] ++ [0x45; 0; 0; 47] ++ replicate 5 0 ++ [6; 0; 0; 10; 0; 0; 1; 10; 0; 0; 2]
    ++ [0; 80; 0; 90] ++ replicate 8 0 ++ [0x50; 0x10] ++ replicate 6 0 ++ bytes_of "GET / H".
Lemma get_frame_bytes : is_bytes get_frame.
Proof. apply (bool_decide_unpack _). vm_compute. exact I. Qed.
