(* ===== verification/HttpParse.v ===== *)
(** * The HTTP session filter (ebpf-http/http-parse-complete.c)

    The socket filter [http_filter] and the XDP program [xdp_prog1], which share the
    hash table [sessions]; [get_tcp_flag] and the incremental checksum update the
    XDP program uses.  User space may rewrite the leaves of the table between packets. *)

From S2P Require Import Prelude Packet HttpSimple.

Record Key := { src_ip : Z; dst_ip : Z; src_port : Z; dst_port : Z }.
#[export] Instance Key_eq_dec : EqDecision Key.
Proof. solve_decision. Defined.
#[export] Instance Key_countable : Countable Key.
Proof.
  refine (inj_countable' (fun k => (src_ip k, dst_ip k, src_port k, dst_port k))
            (fun '(a, b, c, d) => {| src_ip := a; dst_ip := b; src_port := c; dst_port := d |}) _).
  by intros [].
Defined.
Record Leaf := { timestamp : Z; times : Z }.

(** BPF_TABLE("hash", struct Key, struct Leaf, sessions, 1024): inserting a new key into a
    full table fails and leaves it as it is. *)
Abbreviation sessions := (gmap Key Leaf).
Definition MAX_SESSIONS : Z := 1024.
Definition lookup_or_init (key : Key) (zero : Leaf) (t : sessions) : sessions :=
  match t !! key with
  | Some _ => t
  | None => if Z.of_nat (size t) <? MAX_SESSIONS then <[key := zero]> t else t
  end.

(** ** The socket filter *)

Section Filter.
Context (P : proto).

Definition http_filter_body (skb : packet) : cmd sessions Z :=
  let ethernet := 0 in
  let cursor := ethernet + sizeof_ethernet_t P in
  ty ← skb_load (ethernet_type P skb ethernet);
  if negb (ty =? 0x0800) then mret DROP else
  let ip := cursor in
  let cursor := ip + sizeof_ip_t P in
  nx ← skb_load (ip_nextp P skb ip);
  if negb (nx =? IP_TCP) then mret DROP else
  let zero := {| timestamp := 1; times := 0 |} in
  let tcp := cursor in
  dst ← skb_load (ip_dst P skb ip);
  src ← skb_load (ip_src P skb ip);
  dport ← skb_load (tcp_dst_port P skb tcp);
  sport ← skb_load (tcp_src_port P skb tcp);
  let key := {| src_ip := src; dst_ip := dst; src_port := sport; dst_port := dport |} in
  hlen ← skb_load (ip_hlen P skb ip);
  let ip_header_length := u32 (Z.shiftl hlen 2) in
  offset ← skb_load (tcp_offset P skb tcp);
  let tcp_header_length := u32 (Z.shiftl offset 2) in
  let payload_offset := u32 (ETH_HLEN + ip_header_length + tcp_header_length) in
  tlen ← skb_load (ip_tlen P skb ip);
  let payload_length := u32 (tlen - ip_header_length - tcp_header_length) in
  if payload_length <? 7 then mret DROP else
  p ← load_payload skb 7 payload_offset;
  if negb (http_match p) then mret DROP else
  (* HTTP_MATCH *)
  t ← get;
  match t !! key with
  | Some lookup_leaf => if timestamp lookup_leaf =? 1 then mret DROP else mret KEEP
  | None => put (lookup_or_init key zero t);; mret KEEP
  end.

Definition http_filter (skb : packet) : cmd sessions Z := filter_run (http_filter_body skb).
End Filter.

(** ** The XDP program *)

Definition get_tcp_flag (tcp : Z) : cmd packet Z :=
  r ← res1 tcp; let flags := u16 (0 + Z.shiftl r 8) in
  d ← doff tcp; let flags := u16 (flags + Z.shiftl d 12) in
  u ← urg tcp; let flags := u16 (flags + Z.shiftl u 5) in
  a ← ack tcp; let flags := u16 (flags + Z.shiftl a 4) in
  p ← psh tcp; let flags := u16 (flags + Z.shiftl p 3) in
  t ← rst tcp; let flags := u16 (flags + Z.shiftl t 2) in
  s ← syn tcp; let flags := u16 (flags + Z.shiftl s 1) in
  f ← fin tcp; mret (u16 (flags + f)).

Definition csum_incremental_update_modified (old_csum old_field new_field : Z) : Z :=
  let csum := Z.land (Z.lnot old_csum) 0xFFFF + Z.land (Z.lnot old_field) 0xFFFF + new_field in
  let csum := Z.shiftr csum 16 + Z.land csum 0xFFFF in
  let csum := csum + Z.shiftr csum 16 in
  u16 (Z.lnot csum).

Definition xstate : Type := packet * sessions.
Definition on_pkt {A} (m : cmd packet A) : cmd xstate A :=
  zoom fst (fun p s => (p, s.2)) m.

Definition xdp_prog1 : cmd xstate Z :=
  e ← on_pkt data_end;
  let eth := 0 in
  if negb (eth + SIZEOF_ETHHDR <=? e) then mret XDP_PASS else
  let ip := eth + SIZEOF_ETHHDR in
  if negb (ip + SIZEOF_IPHDR <=? e) then mret XDP_PASS else
  nx ← on_pkt (protocol ip);
  if negb (nx =? IPPROTO_TCP) then mret XDP_PASS else
  let tcp := ip + SIZEOF_IPHDR in
  if negb (tcp + SIZEOF_TCPHDR <=? e) then mret XDP_PASS else
  da ← on_pkt (daddr ip);
  sa ← on_pkt (saddr ip);
  dp ← on_pkt (dest tcp);
  sp ← on_pkt (source tcp);
  let key := {| src_ip := bpf_ntohl sa; dst_ip := bpf_ntohl da;
                src_port := bpf_ntohs sp; dst_port := bpf_ntohs dp |} in
  st ← get;
  match st.2 !! key with
  | None => mret XDP_PASS
  | Some lookup_leaf =>
      if negb (timestamp lookup_leaf =? 2) then mret XDP_PASS else
      if times lookup_leaf >? 10 then mret XDP_PASS else
      old_flags ← on_pkt (get_tcp_flag tcp);
      flags ← on_pkt (get_tcp_flag tcp);
      ck ← on_pkt (check tcp);
      on_pkt (set_check tcp
        (bpf_htons (csum_incremental_update_modified (bpf_ntohs ck) old_flags flags)));;
      modify (fun s : xstate => (s.1, <[key := {| timestamp := timestamp lookup_leaf;
                                         times := s32 (times lookup_leaf + 1) |}]> s.2));;
      mret XDP_DROP
  end.
