(* ===== verification/HttpParseProof.v ===== *)
(** * Properties of the HTTP session filter

    The incremental checksum update keeps a checksummed header valid; [xdp_prog1]
    drops exactly the segments of a session marked by user space, at most 11 of them,
    and never leaves its packet; [http_filter] keeps the first HTTP packet of a session
    and drops the later ones. *)

From S2P Require Import Prelude Packet HttpSimple HttpParse.

(** ** The incremental checksum *)

Lemma lnot16 x : 0 <= x < 2 ^ 16 -> Z.land (Z.lnot x) 0xFFFF = 0xFFFF - x.
Proof.
  intros H. change 0xFFFF with (2 ^ 16 - 1) at 1. rewrite land_low by lia.
  unfold Z.lnot. symmetry. apply Z.mod_unique with (-1); lia.
Qed.

(** The new checksum is the old one plus the old field minus the new one, modulo
    [2^16 - 1]; it is 0xFFFF only when the folded sum is zero. *)
Lemma csum_update_spec c m m' :
  0 <= c < 2 ^ 16 -> 0 <= m < 2 ^ 16 -> 0 <= m' < 2 ^ 16 ->
  let c' := csum_incremental_update_modified c m m' in
  0 <= c' < 2 ^ 16 /\ (exists q, c' = c + m - m' + 0xFFFF * q) /\
  (c' = 0xFFFF <-> c = 0xFFFF /\ m = 0xFFFF /\ m' = 0).
Proof.
  intros Hc Hm Hm'. unfold csum_incremental_update_modified. rewrite !lnot16 by done.
  set (s := 0xFFFF - c + (0xFFFF - m) + m'). assert (Hs : 0 <= s <= 3 * 0xFFFF) by lia.
  assert (Z.land s 0xFFFF = s mod 2 ^ 16) as -> by (change 0xFFFF with (2 ^ 16 - 1); apply land_low; lia).
  rewrite !Z.shiftr_div_pow2 by lia.
  pose proof (Z.div_mod s (2 ^ 16) ltac:(lia)) as E1.
  pose proof (Z.mod_pos_bound s (2 ^ 16) ltac:(lia)) as B1.
  set (h := s / 2 ^ 16) in *. set (l := s mod 2 ^ 16) in *.
  assert (Hh : 0 <= h <= 2) by lia.
  set (g := (h + l) / 2 ^ 16).
  assert (Hg : (g = 0 /\ h + l < 2 ^ 16) \/ (g = 1 /\ 2 ^ 16 <= h + l)).
  { destruct (Z.ltb_spec (h + l) (2 ^ 16)).
    - left. split; [apply Z.div_small; lia|done].
    - right. split; [symmetry; apply Z.div_unique with (h + l - 2 ^ 16); lia|done]. }
  assert (Hr : u16 (Z.lnot (h + l + g)) = 0xFFFF - (h + l + g) + 2 ^ 16 * g).
  { unfold u16, Z.lnot. symmetry. apply Z.mod_unique with (- 1 - g); lia. }
  cbv zeta. rewrite Hr. split; [lia|]. split; [exists (h + g - 1); lia|]. lia.
Qed.

(** Replacing a 16-bit word of a checksummed header and updating its checksum with
    [csum_incremental_update_modified] keeps the header valid, as long as the new
    header is not all zero apart from the checksum. *)
Theorem csum_update_keeps_valid c m m' l1 l2 :
  Forall (fun w => 0 <= w < 2 ^ 16) (c :: m :: m' :: l1 ++ l2) ->
  0 < zsum (l1 ++ m' :: l2) ->
  csum_valid (c :: l1 ++ m :: l2) ->
  csum_valid (csum_incremental_update_modified c m m' :: l1 ++ m' :: l2).
Proof.
  rewrite !Forall_cons, Forall_app. intros (Hc & Hm & Hm' & H1 & H2) Hp Hv.
  destruct (csum_update_spec c m m' Hc Hm Hm') as (Hr & [q Hq] & _).
  set (c' := csum_incremental_update_modified c m m') in *. clearbody c'.
  rewrite csum_valid_iff in Hv by (rewrite Forall_cons, Forall_app, Forall_cons; auto).
  rewrite csum_valid_iff by (rewrite Forall_cons, Forall_app, Forall_cons; auto).
  change (zsum (c' :: ?l)) with (c' + zsum l). change (zsum (c :: ?l)) with (c + zsum l) in Hv.
  rewrite zsum_app in Hp, Hv |- *.
  change (zsum (m' :: l2)) with (m' + zsum l2) in *. change (zsum (m :: l2)) with (m + zsum l2) in Hv.
  split; [lia|]. destruct Hv as [_ Hv].
  replace (c' + (zsum l1 + (m' + zsum l2))) with (c + (zsum l1 + (m + zsum l2)) + q * 0xFFFF) by lia.
  by rewrite Z_mod_plus_full.
Qed.

(** The whole-header check of a rewritten word: 0x4500 replaced by 0x4600. *)
Lemma csum_update_keeps_valid_witness :
  csum_valid [0xB9FD; 0x4500; 0x0102] /\
  csum_valid [csum_incremental_update_modified 0xB9FD 0x4500 0x4600; 0x4600; 0x0102].
Proof.
  split; [reflexivity|].
  apply (csum_update_keeps_valid 0xB9FD 0x4500 0x4600 [] [0x0102]); [|reflexivity|reflexivity].
  repeat (constructor; [lia|]). constructor.
Defined.

(** When the field does not change, neither does the checksum, except that 0xFFFF
    becomes 0, the other representation of zero. *)
Lemma csum_update_same c m :
  0 <= c < 2 ^ 16 -> 0 <= m < 2 ^ 16 ->
  csum_incremental_update_modified c m m = if c =? 0xFFFF then 0 else c.
Proof.
  intros Hc Hm. destruct (csum_update_spec c m m Hc Hm Hm) as (Hr & [q Hq] & Hz).
  set (c' := csum_incremental_update_modified c m m) in *. clearbody c'.
  destruct (Z.eqb_spec c 0xFFFF); lia.
Qed.

(** ** The XDP program *)

Definition key_of (p : packet) : Key :=
  {| src_ip := be32 p 26; dst_ip := be32 p 30; src_port := be16 p 34; dst_port := be16 p 36 |}.
(** The checksum field after the update with an unchanged flags word. *)
Definition with_csum (p : packet) : packet :=
  if be16 p 50 =? 0xFFFF then <[51%nat := 0]> (<[50%nat := 0]> p) else p.
Definition punish (l : Leaf) : bool := (timestamp l =? 2) && (times l <=? 10).
Definition bump (l : Leaf) : Leaf := {| timestamp := timestamp l; times := s32 (times l + 1) |}.
(** TCP (whatever the Ethernet type) and long enough for the headers. *)
Definition xdp_tcp (p : packet) : bool := (54 <=? plen p) && (byte p 23 =? IPPROTO_TCP).

Lemma on_pkt_step {A B} (m : cmd packet A) (f : A -> cmd xstate B) p t a p' :
  m p = Ok a p' -> (on_pkt m ≫= f) (p, t) = f a (p', t).
Proof. intros H. unfold mbind, cmd_bind, on_pkt, zoom. simpl. by rewrite H. Qed.

Lemma get_tcp_flag_run p :
  54 <= plen p -> exists v, get_tcp_flag 34 p = Ok v p /\ 0 <= v < 2 ^ 16.
Proof.
  intros H. unfold get_tcp_flag, res1, doff, urg, ack, psh, rst, syn, fin, tcp_flag. offsets.
  repeat (rewrite bind_bind; load_step; rewrite bind_ret).
  eexists. split; [reflexivity|]. apply u16_range.
Qed.

Lemma insert_same p off : 0 <= off < plen p -> <[Z.to_nat off := byte p off]> p = p.
Proof.
  intros H. apply list_insert_id. unfold byte, plen in *.
  by destruct (lookup_lt_is_Some_2 p (Z.to_nat off)) as [b ->]; [lia|].
Qed.

Lemma set_check_run p c :
  54 <= plen p -> 0 <= c < 2 ^ 16 ->
  set_check 34 (bpf_htons c) p =
    Ok tt (<[51%nat := c mod 256]> (<[50%nat := c / 256]> p)).
Proof.
  intros Hl Hc. unfold set_check, pstore16. offsets.
  pose proof (Z.div_mod c 256 ltac:(lia)). pose proof (Z.mod_pos_bound c 256 ltac:(lia)).
  assert (0 <= c / 256 < 256) by (split; [apply Z.div_pos|apply Z.div_lt_upper_bound]; lia).
  assert (bpf_htons c = 256 * (c mod 256) + c / 256) as ->.
  { unfold bpf_htons. rewrite <- bpf_ntohs_bytes by lia. f_equal. lia. }
  erewrite bind_ok by (apply pstore_run; lia).
  rewrite pstore_run by (unfold plen in *; rewrite length_insert; lia).
  rewrite Z.shiftr_div_pow2 by lia. unfold u8.
  replace ((256 * (c mod 256) + c / 256) mod 2 ^ 8) with (c / 256)
    by (apply Z.mod_unique with (c mod 256); lia).
  replace ((256 * (c mod 256) + c / 256) / 2 ^ 8) with (c mod 256)
    by (apply Z.div_unique with (c / 256); lia).
  by rewrite (Z.mod_small (c mod 256)) by lia.
Qed.

(** The checksum step of the program. *)
Lemma update_check_run p v :
  54 <= plen p -> is_bytes p -> 0 <= v < 2 ^ 16 ->
  set_check 34 (bpf_htons (csum_incremental_update_modified (be16 p 50) v v)) p
  = Ok tt (with_csum p).
Proof.
  intros Hl Hp Hv. pose proof (be16_range p 50 Hp). rewrite csum_update_same by done.
  unfold with_csum. destruct (Z.eqb_spec (be16 p 50) 0xFFFF) as [E|E].
  { by rewrite set_check_run. }
  rewrite set_check_run by done.
  pose proof (byte_range p 50 Hp). pose proof (byte_range p 51 Hp).
  replace (be16 p 50 / 256) with (byte p 50)
    by (apply Z.div_unique with (byte p 51); unfold be16; offsets; lia).
  replace (be16 p 50 mod 256) with (byte p 51)
    by (apply Z.mod_unique with (byte p 50); unfold be16; offsets; lia).
  change 51%nat with (Z.to_nat 51). change 50%nat with (Z.to_nat 50).
  by rewrite !insert_same by lia.
Qed.

(** What the program does with a packet and the table. *)
Definition xdp_result (p : packet) (t : sessions) : Z * xstate :=
  match t !! key_of p with
  | Some l => if xdp_tcp p && punish l
              then (XDP_DROP, (with_csum p, <[key_of p := bump l]> t))
              else (XDP_PASS, (p, t))
  | None => (XDP_PASS, (p, t))
  end.
Lemma xdp_result_pass p t : xdp_tcp p = false -> xdp_result p t = (XDP_PASS, (p, t)).
Proof. unfold xdp_result. intros ->. by destruct (t !! key_of p). Qed.

Lemma xdp_prog1_run p t :
  is_bytes p -> xdp_prog1 (p, t) = Ok (xdp_result p t).1 (xdp_result p t).2.
Proof.
  intros Hp. pose proof (fun off => byte_range p off Hp) as B.
  unfold xdp_prog1, SIZEOF_ETHHDR, SIZEOF_IPHDR, SIZEOF_TCPHDR. offsets.
  erewrite on_pkt_step by reflexivity. fold (plen p).
  destruct (Z.leb_spec 54 (plen p)) as [H54|H54].
  2:{ rewrite xdp_result_pass by (unfold xdp_tcp; by destruct (Z.leb_spec 54 (plen p)); [lia|]).
      destruct (Z.leb_spec 14 (plen p)), (Z.leb_spec 34 (plen p)); try (lia || done).
      cbn [negb]. unfold protocol. offsets. erewrite on_pkt_step by (apply pload_run; lia).
      by destruct (byte p 23 =? IPPROTO_TCP). }
  assert (H54' : (54 <=? plen p) = true) by lia.
  destruct (Z.leb_spec 14 (plen p)), (Z.leb_spec 34 (plen p)); try lia. cbn [negb].
  unfold protocol, daddr, saddr, dest, source. offsets.
  erewrite on_pkt_step by (apply pload_run; lia).
  destruct (byte p 23 =? IPPROTO_TCP) eqn:Ep; cbn [negb].
  2:{ by rewrite xdp_result_pass by (unfold xdp_tcp; by rewrite Ep, andb_false_r). }
  do 2 erewrite on_pkt_step by (apply pload32_run; lia).
  do 2 erewrite on_pkt_step by (apply pload16_run; lia). offsets.
  rewrite !bpf_ntohl_bytes, !bpf_ntohs_bytes by apply B.
  rewrite bind_get. cbn [snd].
  replace ({| src_ip := _; dst_ip := _; src_port := _; dst_port := _ |}) with (key_of p)
    by (unfold key_of, be32, be16; by offsets).
  unfold xdp_result, xdp_tcp. rewrite Ep, H54'.
  destruct (t !! key_of p) as [l|]; [|done]. unfold punish.
  destruct (timestamp l =? 2) eqn:Et; cbn [negb andb]; [|done].
  rewrite Z.gtb_ltb. destruct (Z.leb_spec (times l) 10), (Z.ltb_spec 10 (times l)); try lia; [|done].
  destruct (get_tcp_flag_run p H54) as (v & Hv & Hr).
  do 2 erewrite on_pkt_step by exact Hv.
  unfold check. erewrite on_pkt_step by (apply pload16_run; offsets; lia). offsets.
  rewrite bpf_ntohs_bytes by apply B.
  pose proof (update_check_run p v H54 Hp Hr) as Hu. unfold be16 in Hu. revert Hu. offsets. intros Hu.
  erewrite on_pkt_step by exact Hu. reflexivity.
Qed.


(** Running the program on packets one after the other, counting the drops of a
    session. *)
Fixpoint xdp_drops (k : Key) (ps : list packet) (t : sessions) : option (nat * sessions) :=
  match ps with
  | [] => Some (0%nat, t)
  | p :: ps' =>
      match xdp_prog1 (p, t) with
      | Ok r (_, t') =>
          '(n, t'') ← xdp_drops k ps' t';
          Some ((if (r =? XDP_DROP) && bool_decide (key_of p = k) then S n else n), t'')
      | Halt _ => None
      end
  end.

Lemma times_bump l : - 2 ^ 31 <= times l <= 10 -> times (bump l) = times l + 1.
Proof.
  intros H. simpl. destruct (Z.ltb_spec (times l + 1) 0); [apply s32_neg|apply s32_small]; lia.
Qed.

(** A session loses at most 11 segments until user space resets its leaf, however
    many packets of whatever sessions arrive. *)
Theorem xdp_drops_bounded k ps t l :
  Forall is_bytes ps -> t !! k = Some l -> - 2 ^ 31 <= times l ->
  exists n t', xdp_drops k ps t = Some (n, t') /\ Z.of_nat n <= Z.max 0 (11 - times l).
Proof.
  intros Hps. revert t l. induction Hps as [|p ps Hp Hps IH]; intros t l Hk Hl; cbn [xdp_drops].
  { exists 0%nat, t. split; [done|lia]. }
  rewrite xdp_prog1_run by done. unfold xdp_result.
  assert (Hsame : exists n t', ('(n, t'') ← xdp_drops k ps t;
    Some (if (XDP_PASS =? XDP_DROP) && bool_decide (key_of p = k) then S n else n, t''))
    = Some (n, t') /\ Z.of_nat n <= Z.max 0 (11 - times l)).
  { destruct (IH t l Hk Hl) as (n & t' & -> & Hn). by exists n, t'. }
  destruct (t !! key_of p) as [l'|] eqn:El; [|done].
  destruct (xdp_tcp p && punish l') eqn:Ep; [|done]. cbn [fst snd].
  apply andb_prop in Ep as [_ Ep]. unfold punish in Ep. apply andb_prop in Ep as [_ Ep].
  apply Z.leb_le in Ep. case_bool_decide as Ek.
  - subst k. rewrite El in Hk. simplify_eq.
    destruct (IH (<[key_of p := bump l]> t) (bump l)) as (n & t' & -> & Hn).
    { apply lookup_insert_eq. }
    { rewrite times_bump by lia. lia. }
    rewrite times_bump in Hn by lia. exists (S n), t'. split; [done|lia].
  - destruct (IH (<[key_of p := bump l']> t) l) as (n & t' & -> & Hn); [by rewrite lookup_insert_ne|done|].
    by exists n, t'.
Qed.

Definition marked_leaf : Leaf := {| timestamp := 2; times := 9 |}.
Definition marked_table : sessions := {[ key_of get_frame := marked_leaf ]}.
Lemma xdp_drops_bounded_witness :
  exists n t', xdp_drops (key_of get_frame) (replicate 5 get_frame) marked_table = Some (n, t') /\
    Z.of_nat n <= 2.
Proof.
  apply (xdp_drops_bounded (key_of get_frame) (replicate 5 get_frame) marked_table marked_leaf).
  - apply Forall_replicate, get_frame_bytes.
  - reflexivity.
  - vm_compute. discriminate.
Defined.

(** ** The socket filter *)

Definition fresh_leaf : Leaf := {| timestamp := 1; times := 0 |}.
(** The verdict on an HTTP packet, by its session. *)
Definition verdict (t : sessions) (k : Key) : Z :=
  match t !! k with Some l => if timestamp l =? 1 then DROP else KEEP | None => KEEP end.

(** Programs that end in a drop without touching the table. *)
Definition drops (m : cmd sessions Z) : Prop := forall t, m t = Halt (ExitProc 0) \/ m t = Ok DROP t.
Lemma drops_ret : drops (mret DROP).
Proof. by right. Qed.
Lemma drops_load o f : (forall v, o = Some v -> drops (f v)) -> drops (skb_load o ≫= f).
Proof. intros H t. destruct o as [v|]; [|by left]. apply (H v eq_refl). Qed.
Lemma drops_if (b : bool) m1 m2 : drops m1 -> drops m2 -> drops (if b then m1 else m2).
Proof. by destruct b. Qed.

Lemma http_filter_run P p t :
  wire_layout P -> is_bytes p ->
  http_filter P p t =
    if http_packet p then Ok (verdict t (key_of p)) (lookup_or_init (key_of p) fresh_leaf t)
    else Ok DROP t.
Proof.
  intros W Hp. unfold http_filter, filter_run, http_filter_body, http_packet.
  rewrite (wl_eth P W), (wl_ip P W), (wl_type P W), (wl_nextp P W), (wl_hlen P W), (wl_tlen P W),
    (wl_offset P W), (wl_src P W), (wl_dst P W), (wl_sport P W), (wl_dport P W). offsets.
  rewrite !be4, !be2, !be1 by lia. offsets.
  destruct (Z.leb_spec 47 (plen p)) as [H47|H47]; cbn [andb].
  - repeat match goal with |- context [Zpos ?a <=? plen p] =>
      rewrite (proj2 (Z.leb_le (Zpos a) (plen p))) by lia end.
    cbn [skb_load fmap option_fmap option_map]. rewrite !bind_ret.
    destruct (be16 p 12 =? 0x800); cbn [negb andb]; [|done]. rewrite !bind_ret.
    destruct (byte p 23 =? IP_TCP); cbn [negb andb]; [|done]. rewrite !bind_ret.
    rewrite !hdr_len.
    + fold (ip_hl p) (tcp_hl p). pose proof (payload_check_run p t Hp) as R.
      unfold payload_check in R. destruct (u32 _ <? 7); [done|].
      unfold mbind, cmd_bind in *. destruct (load_payload _ _ _ _) as [l s'|e].
      * destruct (7 <=? plen (payload p)); [|done].
        unfold mret, cmd_ret in R. cbn [negb andb] in *.
        destruct (existsb _ _); injection R as -> ->; [|done]. cbn.
        fold (key_of p). unfold verdict, lookup_or_init.
        destruct (t !! key_of p) as [lf|]; [by destruct (timestamp lf =? 1)|].
        by destruct (_ <? MAX_SESSIONS).
      * cbn [negb andb] in *. destruct (7 <=? plen (payload p)); [done|]. by injection R as ->.
    + pose proof (byte_range p 46 Hp). split; [apply Z.div_pos|apply Z.div_lt_upper_bound]; lia.
    + apply Z.mod_pos_bound. lia.
  - match goal with |- match ?m t with _ => _ end = _ => assert (drops m) as D end.
    { repeat first [apply drops_load; [intros ? ?]|apply drops_if; [apply drops_ret|]]. done. }
    by destruct (D t) as [-> | ->].
Qed.

(** The filter on packets one after the other: the verdicts and the final table. *)
Fixpoint http_run (P : proto) (ps : list packet) (t : sessions) : option (list Z * sessions) :=
  match ps with
  | [] => Some ([], t)
  | p :: ps' =>
      match http_filter P p t with
      | Ok r t' => '(rs, t'') ← http_run P ps' t'; Some (r :: rs, t'')
      | Halt _ => None
      end
  end.

Lemma lookup_or_init_keeps k z t k' l : t !! k' = Some l -> lookup_or_init k z t !! k' = Some l.
Proof.
  intros H. unfold lookup_or_init. destruct (t !! k) eqn:E; [done|].
  destruct (_ <? _); [|done]. rewrite lookup_insert_ne; [done|]. intros ->. by rewrite H in E.
Qed.

Lemma http_run_drops P k l ps t :
  wire_layout P -> Forall is_bytes ps -> t !! k = Some l -> timestamp l = 1 ->
  exists rs t', http_run P ps t = Some (rs, t') /\
    forall i q, ps !! i = Some q -> key_of q = k -> rs !! i = Some DROP.
Proof.
  intros W Hps. revert t. induction Hps as [|p ps Hp Hps IH]; intros t Hk Hl; cbn [http_run].
  { by exists [], t. }
  rewrite http_filter_run by done.
  destruct (http_packet p).
  - destruct (IH (lookup_or_init (key_of p) fresh_leaf t)) as (rs & t' & -> & H);
      [by apply lookup_or_init_keeps|done|].
    eexists (_ :: rs), t'. split; [reflexivity|]. intros [|i] q; simpl; [|by apply H].
    intros [= ->] ->. unfold verdict. rewrite Hk, Hl. done.
  - destruct (IH t Hk Hl) as (rs & t' & -> & H). eexists (_ :: rs), t'. split; [reflexivity|].
    intros [|i] q; simpl; [done|by apply H].
Qed.


