(* ===== verification/Samplefs.v ===== *)
(** * The sample file system (lktm/fs/samplefs)

    The file system is developed over several days; each day's directory is a complete
    copy of it.  The definitions follow day 11 and take the day as an argument where the
    copies differ.  The kernel the module calls (allocation, inodes, dentries, character
    tables, /proc) is the parameter [kernel]; what it hands out lives in the state [fs].
    Times are not kept; [printk] has no effect. *)

From Stdlib Require Import Ascii.
From S2P Require Import Prelude Arch.

(** ** Constants *)

Definition SAMPLEFS_MAGIC : Z := 0x73616d70.
Definition SAMPLEFS_ROOT_I : Z := 2.
Definition SFS_MNT_CASE : Z := 1.
Definition NAME_MAX : Z := 255.
Definition ENAMETOOLONG : Z := 36.
Definition ENOSPC : Z := 28.
Definition PAGE_SIZE : Z := 4096.
Definition PAGE_SHIFT : Z := 12.

Definition S_IFMT : Z := 0xf000.
Definition S_IFLNK : Z := 0xa000.
Definition S_IFREG : Z := 0x8000.
Definition S_IFDIR : Z := 0x4000.
Definition S_ISGID : Z := 0x400.
Definition S_IRWXUGO : Z := 0x1ff.
Definition S_ISDIR (mode : Z) : bool := Z.land mode S_IFMT =? S_IFDIR.

(** ** Data *)

Record samplefs_sb_info := SbInfo { rsize : Z; wsize : Z; flags : Z; local_nls : Z }.

Inductive inode_ops :=
| EmptyInodeOps | SimpleDirInodeOps | SfsCiInodeOps | SfsDirInodeOps | SfsFileInodeOps
| PageSymlinkInodeOps.
Inductive file_ops := EmptyFops | SimpleDirOperations | SfsFileOperations | SpecialFops.
Inductive aspace_ops := EmptyAops | SfsAops.
Inductive dentry_ops := NoDops | SfsDentryOps | SfsCiDentryOps.

Record inode := Inode {
  i_mode : Z; i_uid : Z; i_gid : Z; i_nlink : Z; i_size : Z; i_blocks : Z; i_count : Z;
  i_op : inode_ops; i_fop : file_ops; a_ops : aspace_ops
}.
Record dentry := Dentry {
  d_parent : Z; d_len : Z; d_inode : option Z; d_count : Z; d_op : dentry_ops
}.
Record super_block := SuperBlock {
  s_maxbytes : Z; s_blocksize : Z; s_blocksize_bits : Z; s_magic : Z; s_time_gran : Z;
  s_fs_info : option Z; s_root : option Z
}.

(** The live objects of the kernel that the module holds or created. *)
Record fs := Fs {
  inodes : gmap Z inode;
  dentries : gmap Z dentry;
  infos : gmap Z samplefs_sb_info; (* what kzalloc returned and kfree has not taken back *)
  nls_refs : Z;                    (* character tables loaded and not unloaded *)
  sblk : super_block
}.
Definition set_inodes m s := Fs m (dentries s) (infos s) (nls_refs s) (sblk s).
Definition set_dentries m s := Fs (inodes s) m (infos s) (nls_refs s) (sblk s).
Definition set_infos m s := Fs (inodes s) (dentries s) m (nls_refs s) (sblk s).
Definition set_nls n s := Fs (inodes s) (dentries s) (infos s) n (sblk s).
Definition set_sb b s := Fs (inodes s) (dentries s) (infos s) (nls_refs s) b.

(** ** The kernel *)

Record kernel := Kernel {
  k_kzalloc : fs -> option Z;              (* a zeroed object *)
  k_new_inode : fs -> option Z;            (* an inode with one link and one reference *)
  k_d_alloc_root : fs -> bool;             (* whether a root dentry could be made *)
  k_init_special_inode : inode -> Z -> Z -> inode;
  k_page_symlink : fs -> Z -> Z -> Z;      (* 0 or an error *)
  k_load_nls_default : Z;
  k_simple_strtoul : string -> Z;
  k_kstrtoul : string -> option Z;
  k_fsuid : Z; k_fsgid : Z;
  MAX_LFS_FILESIZE : Z
}.

(** What the kernel documents: new objects are not in use; init_special_inode sets
    the mode, the file operations and the device number. *)
Record kernel_ok (K : kernel) : Prop := {
  kzalloc_fresh s p : k_kzalloc K s = Some p -> infos s !! p = None;
  new_inode_fresh s i : k_new_inode K s = Some i -> inodes s !! i = None;
  special_mode i m d : i_mode (k_init_special_inode K i m d) = m;
  special_nlink i m d : i_nlink (k_init_special_inode K i m d) = i_nlink i;
  special_size i m d : i_size (k_init_special_inode K i m d) = i_size i;
  special_count i m d : i_count (k_init_special_inode K i m d) = i_count i
}.

(** ** Mount options *)

(** [strsep(&options, ",")] until it returns NULL. *)
Fixpoint strsep_all (s : string) : list string :=
  match s with
  | EmptyString => [EmptyString]
  | String c s' =>
      if Ascii.eqb c ","%char then EmptyString :: strsep_all s'
      else match strsep_all s' with
           | t :: l => String c t :: l
           | [] => [String c EmptyString]
           end
  end.

(** [value = strchr(data, '='); *value++ = 0]: the key and the value, if any. *)
Fixpoint cut_value (s : string) : string * option string :=
  match s with
  | EmptyString => (EmptyString, None)
  | String c s' =>
      if Ascii.eqb c "="%char then (EmptyString, Some s')
      else let '(k, v) := cut_value s' in (String c k, v)
  end.

Definition tolower (c : Ascii.ascii) : Ascii.ascii :=
  let n := Ascii.nat_of_ascii c in
  if ((65 <=? n) && (n <=? 90))%nat then Ascii.ascii_of_nat (n + 32) else c.
(** [strnicmp(s, t, n) == 0]. *)
Fixpoint strnicmp_eq (s t : string) (n : nat) : bool :=
  match n with
  | O => true
  | S n' =>
      match s, t with
      | EmptyString, EmptyString => true
      | String a s', String b t' => Ascii.eqb (tolower a) (tolower b) && strnicmp_eq s' t' n'
      | _, _ => false
      end
  end.

Definition set_rsize v i := SbInfo v (wsize i) (flags i) (local_nls i).
Definition set_wsize v i := SbInfo (rsize i) v (flags i) (local_nls i).
Definition set_flags v i := SbInfo (rsize i) (wsize i) v (local_nls i).

Section Samplefs.
Context (K : kernel) (day : Z).
Abbreviation M := (cmd fs).

(** One token of the options (day 4 and later). *)
Definition parse_option (data : string) (sfs_sb : samplefs_sb_info) : samplefs_sb_info :=
  if String.eqb data EmptyString then sfs_sb else
  let '(key, value) := cut_value data in
  if strnicmp_eq key "rsize" 5 then
    match value with
    | Some v => if String.eqb v EmptyString then sfs_sb
                else let size := s32 (k_simple_strtoul K v) in
                     if size >? 0 then set_rsize size sfs_sb else sfs_sb
    | None => sfs_sb
    end
  else if strnicmp_eq key "wsize" 5 then
    match value with
    | Some v => if String.eqb v EmptyString then sfs_sb
                else let size := s32 (k_simple_strtoul K v) in
                     if size >? 0 then set_wsize size sfs_sb else sfs_sb
    | None => sfs_sb
    end
  else if (5 <=? day) && (strnicmp_eq key "nocase" 6 || strnicmp_eq key "ignorecase" 10) then
    set_flags (Z.lor (flags sfs_sb) SFS_MNT_CASE) sfs_sb
  else sfs_sb.

(** One token on days 2 and 3: kstrtoul rejects a bad number, and parsing stops. *)
Definition parse_option_k (data : string) (sfs_sb : samplefs_sb_info) : option samplefs_sb_info :=
  if String.eqb data EmptyString then Some sfs_sb else
  let '(key, value) := cut_value data in
  if strnicmp_eq key "rsize" 5 then
    match value with
    | Some v => if String.eqb v EmptyString then Some sfs_sb
                else match k_kstrtoul K v with
                     | None => None
                     | Some size => Some (if size >? 0 then set_rsize (u32 size) sfs_sb else sfs_sb)
                     end
    | None => Some sfs_sb
    end
  else if strnicmp_eq key "wsize" 5 then
    match value with
    | Some v => if String.eqb v EmptyString then Some sfs_sb
                else match k_kstrtoul K v with
                     | None => None
                     | Some size => Some (if size >? 0 then set_wsize (u32 size) sfs_sb else sfs_sb)
                     end
    | None => Some sfs_sb
    end
  else Some sfs_sb.
Fixpoint parse_options_k (l : list string) (sfs_sb : samplefs_sb_info) : samplefs_sb_info :=
  match l with
  | [] => sfs_sb
  | t :: l' => match parse_option_k t sfs_sb with
               | Some sfs_sb' => parse_options_k l' sfs_sb'
               | None => sfs_sb
               end
  end.

Definition samplefs_parse_mount_options (options : option string) (sfs_sb : samplefs_sb_info)
  : samplefs_sb_info :=
  match options with
  | None => sfs_sb
  | Some s => if 4 <=? day then fold_left (fun i t => parse_option t i) (strsep_all s) sfs_sb
              else parse_options_k (strsep_all s) sfs_sb
  end.

(** ** Inodes *)

Definition load_inode (i : Z) : M inode := fun s =>
  match inodes s !! i with Some n => Ok n s | None => Halt (Fault i) end.
Definition store_inode (i : Z) (n : inode) : M unit := modify (fun s => set_inodes (<[i := n]> (inodes s)) s).
(** [SFS_SB(sb)] followed by a dereference. *)
Definition load_info : M samplefs_sb_info := fun s =>
  match s_fs_info (sblk s) with
  | Some p => match infos s !! p with Some i => Ok i s | None => Halt (Fault p) end
  | None => Halt (Fault 0)
  end.
(** [iput]: the last reference destroys the inode (drop_inode is generic_delete_inode). *)
Definition iput (i : Z) : M unit :=
  n ← load_inode i;
  if i_count n =? 1 then modify (fun s => set_inodes (delete i (inodes s)) s)
  else store_inode i (Inode (i_mode n) (i_uid n) (i_gid n) (i_nlink n) (i_size n) (i_blocks n)
                        (i_count n - 1) (i_op n) (i_fop n) (a_ops n)).

Definition samplefs_get_inode (mode dev : Z) : M (option Z) :=
  s ← get;
  match k_new_inode K s with
  | None => mret None
  | Some i =>
      let aops := if 9 <=? day then SfsAops else EmptyAops in
      let n := Inode mode (k_fsuid K) (k_fsgid K) 1 0 0 1 EmptyInodeOps EmptyFops aops in
      let mk op fop links :=
        Inode mode (k_fsuid K) (k_fsgid K) links 0 0 1 op fop aops in
      n' ← (if Z.land mode S_IFMT =? S_IFDIR then
              if day =? 5 then
                info ← load_info;
                mret (mk (if has (flags info) SFS_MNT_CASE then SfsCiInodeOps else SimpleDirInodeOps)
                         EmptyFops 2)
              else mret (mk (if 6 <=? day then SfsDirInodeOps else SimpleDirInodeOps)
                            (if 7 <=? day then SimpleDirOperations else EmptyFops) 2)
            else if (Z.land mode S_IFMT =? S_IFREG) && (5 <=? day) then
              mret (mk (if 7 <=? day then SfsFileInodeOps else SimpleDirInodeOps)
                       (if 9 <=? day then SfsFileOperations else EmptyFops) 1)
            else if (Z.land mode S_IFMT =? S_IFLNK) && (11 <=? day) then
              mret (mk PageSymlinkInodeOps EmptyFops 1)
            else mret (k_init_special_inode K n mode dev));
      store_inode i n' ;;
      mret (Some i)
  end.

(** ** Directory operations (inode.c, days 6 to 11) *)

Definition load_dentry (d : Z) : M dentry := fun s =>
  match dentries s !! d with Some x => Ok x s | None => Halt (Fault d) end.
Definition store_dentry (d : Z) (x : dentry) : M unit :=
  modify (fun s => set_dentries (<[d := x]> (dentries s)) s).
(** [d_instantiate(dentry, inode)] and [dget(dentry)]. *)
Definition d_instantiate (d : Z) (i : Z) : M unit :=
  x ← load_dentry d; store_dentry d (Dentry (d_parent x) (d_len x) (Some i) (d_count x) (d_op x)).
Definition dget (d : Z) : M unit :=
  x ← load_dentry d; store_dentry d (Dentry (d_parent x) (d_len x) (d_inode x) (d_count x + 1) (d_op x)).

Definition sfs_lookup (dir d : Z) : M Z :=
  x ← load_dentry d;
  if d_len x >? NAME_MAX then mret (- ENAMETOOLONG) else
  ops ← (if day =? 5 then mret SfsCiDentryOps
         else info ← load_info;
              mret (if has (flags info) SFS_MNT_CASE then SfsCiDentryOps else SfsDentryOps));
  store_dentry d (Dentry (d_parent x) (d_len x) None (d_count x) ops) ;; (* d_add(dentry, NULL) *)
  mret 0.

Definition add_size (n : inode) (k : Z) : inode :=
  Inode (i_mode n) (i_uid n) (i_gid n) (i_nlink n) (i_size n + k) (i_blocks n) (i_count n)
        (i_op n) (i_fop n) (a_ops n).
Definition add_link (n : inode) : inode :=
  Inode (i_mode n) (i_uid n) (i_gid n) (i_nlink n + 1) (i_size n) (i_blocks n) (i_count n)
        (i_op n) (i_fop n) (a_ops n).
(** The group and, for directories, the set-group-ID bit of the parent. *)
Definition set_gid (n : inode) (gid : Z) (sgid : bool) : inode :=
  Inode (if sgid then Z.lor (i_mode n) S_ISGID else i_mode n) (i_uid n) gid (i_nlink n) (i_size n)
        (i_blocks n) (i_count n) (i_op n) (i_fop n) (a_ops n).

Definition sfs_mknod (dir d mode dev : Z) : M Z :=
  r ← samplefs_get_inode mode dev;
  match r with
  | None => mret (- ENOSPC)
  | Some i =>
      p ← load_inode dir;
      (if has (i_mode p) S_ISGID then
         n ← load_inode i; store_inode i (set_gid n (i_gid p) (S_ISDIR mode))
       else mret tt) ;;
      d_instantiate d i ;;
      dget d ;;
      p ← load_inode dir;
      store_inode dir (add_size p 0x20) ;;
      mret 0
  end.

Definition sfs_mkdir (dir d mode : Z) : M Z :=
  retval ← sfs_mknod dir d (Z.lor mode S_IFDIR) 0;
  if retval =? 0 then
    p ← load_inode dir; store_inode dir (add_link p) ;; mret retval
  else mret retval.

Definition sfs_create (dir d mode : Z) : M Z := sfs_mknod dir d (Z.lor mode S_IFREG) 0.

(** Day 11. *)
Definition sfs_symlink (dir d : Z) (symname : string) : M Z :=
  r ← samplefs_get_inode (Z.lor S_IFLNK S_IRWXUGO) 0;
  match r with
  | None => mret (- ENOSPC)
  | Some i =>
      let l := Z.of_nat (String.length symname) + 1 in
      s ← get;
      let error := k_page_symlink K s i l in
      if error =? 0 then
        p ← load_inode dir;
        (if has (i_mode p) S_ISGID then
           n ← load_inode i; store_inode i (set_gid n (i_gid p) false)
         else mret tt) ;;
        d_instantiate d i ;;
        dget d ;;
        mret error
      else iput i ;; mret error
  end.

(** ** Mounting and unmounting *)

Definition kfree_info (p : Z) : M unit := modify (fun s => set_infos (delete p (infos s)) s).
Definition set_fs_info (p : option Z) : M unit := modify (fun s =>
  let b := sblk s in
  set_sb (SuperBlock (s_maxbytes b) (s_blocksize b) (s_blocksize_bits b) (s_magic b) (s_time_gran b)
            p (s_root b)) s).
Definition set_root (r : option Z) : M unit := modify (fun s =>
  let b := sblk s in
  set_sb (SuperBlock (s_maxbytes b) (s_blocksize b) (s_blocksize_bits b) (s_magic b) (s_time_gran b)
            (s_fs_info b) r) s).
(** [sb->s_fs_info = kzalloc(...)]. *)
Definition alloc_info : M (option Z) :=
  s ← get;
  match k_kzalloc K s with
  | Some p => modify (fun s => set_infos (<[p := SbInfo 0 0 0 0]> (infos s)) s) ;;
              set_fs_info (Some p) ;; mret (Some p)
  | None => set_fs_info None ;; mret None
  end.
(** The root dentry takes over the reference to the inode.  On failure d_alloc_root
    leaves the reference with the caller; d_make_root (days 2 and 3) drops it. *)
Definition alloc_root (i : Z) : M bool :=
  s ← get;
  if k_d_alloc_root K s then set_root (Some i) ;; mret true
  else (if day <=? 3 then iput i else mret tt) ;; set_root None ;; mret false.
(** [iget_locked(sb, SAMPLEFS_ROOT_I)] (days 2 and 3). *)
Definition iget_root : M (option Z) :=
  s ← get;
  match k_new_inode K s with
  | None => mret None
  | Some i => store_inode i (Inode 0 0 0 1 0 0 1 EmptyInodeOps EmptyFops EmptyAops) ;; mret (Some i)
  end.

Definition fill_info (p : Z) (data : option string) : M unit :=
  modify (fun s => set_nls (nls_refs s + 1) s) ;;
  s ← get;
  match infos s !! p with
  | None => halt (Fault p)
  | Some i =>
      modify (fun s => set_infos (<[p := samplefs_parse_mount_options data
        (SbInfo (rsize i) (wsize i) (flags i) (k_load_nls_default K))]> (infos s)) s)
  end.

Definition samplefs_fill_super (data : option string) : M Z :=
  modify (fun s => set_sb (SuperBlock (MAX_LFS_FILESIZE K) PAGE_SIZE PAGE_SHIFT SAMPLEFS_MAGIC 1
                             (s_fs_info (sblk s)) (s_root (sblk s))) s) ;;
  if 5 <=? day then
    q ← alloc_info;
    match q with
    | None => mret (- ENOMEM)
    | Some p =>
        r ← samplefs_get_inode (Z.lor S_IFDIR 0x1ed) 0;
        match r with
        | None => kfree_info p ;; mret (- ENOMEM)
        | Some i =>
            ok ← alloc_root i;
            if ok : bool then fill_info p data ;; mret 0
            else iput i ;; kfree_info p ;; mret (- ENOMEM)
        end
    end
  else
    r ← (if day =? 4 then samplefs_get_inode (Z.lor S_IFDIR 0x1ed) 0 else iget_root);
    match r with
    | None => mret (- ENOMEM)
    | Some i =>
        q ← alloc_info;
        match q with
        | None => iput i ;; mret (- ENOMEM)
        | Some p =>
            ok ← alloc_root i;
            if ok : bool then fill_info p data ;; mret 0
            else iput i ;; kfree_info p ;; mret (- ENOMEM)
        end
    end.

Definition samplefs_put_super : M unit :=
  s ← get;
  match s_fs_info (sblk s) with
  | None => mret tt
  | Some p =>
      load_info ;; (* sfs_sb->local_nls *)
      modify (fun s => set_nls (nls_refs s - 1) s) ;;
      kfree_info p
  end.

End Samplefs.

(** ** Case-insensitive names (days 5 to 11)

    The character table and the hash functions of the kernel are parameters. *)

Record qstr := Qstr { q_name : list Z; q_len : Z; q_hash : Z }.

Section Names.
Context (nls_tolower : Z -> Z) (nls_strnicmp : list Z -> list Z -> Z -> Z).
Context (init_name_hash : Z) (partial_name_hash : Z -> Z -> Z) (end_name_hash : Z -> Z).

Fixpoint hash_from (n : nat) (i : Z) (name : list Z) (hash : Z) : Z :=
  match n with
  | O => hash
  | S n' => hash_from n' (i + 1) name
              (partial_name_hash (nls_tolower (default 0 (name !! Z.to_nat i))) hash)
  end.

Definition sfs_ci_hash (q : qstr) : Z * qstr :=
  let hash := hash_from (Z.to_nat (q_len q)) 0 (q_name q) init_name_hash in
  (0, Qstr (q_name q) (q_len q) (end_name_hash hash)).

(** [memcpy(a->name, b->name, a->len)]. *)
Definition copy_name (a b : qstr) : qstr :=
  Qstr (take (Z.to_nat (q_len a)) (q_name b) ++ drop (Z.to_nat (q_len a)) (q_name a)) (q_len a) (q_hash a).

Definition sfs_ci_compare (a b : qstr) : Z * qstr :=
  if (q_len a =? q_len b) && (nls_strnicmp (q_name a) (q_name b) (q_len a) =? 0)
  then (0, copy_name a b)
  else (1, a).
End Names.

Definition sfs_delete_dentry (d : Z) : Z := 1.

(** ** The /proc file (days 4 to 11)

    [sfs_debug_read] writes the whole text to [buf] and returns how much of it, from
    [offset] on, belongs to this read: the start ([*beginBuffer - buf]), the length,
    and whether it set [*eof]. *)

Definition DEBUG_TEXT : string :=
  "Display Debugging Information" +:+ String "010" (
  "-----------------------------" +:+ String "010" EmptyString).

Definition sfs_debug_read (offset count : Z) : Z * Z * bool :=
  let beginBuffer := offset in
  let length := Z.of_nat (String.length DEBUG_TEXT) in
  let eof := offset + count >=? length in
  if length <? offset then (beginBuffer, 0, true)
  else
    let length := length - offset in
    (beginBuffer, (if length >? count then count else length), eof).

(** ** Loading and unloading the module (days 3 to 11) *)

Record module := Module_ {
  sample_parm : Z;
  proc_fs_samplefs : bool;      (* the directory pointer is not NULL *)
  proc_entries : list string;   (* entries that exist under /proc *)
  registered : bool
}.

Definition sfs_proc_init (mkdir_ok : bool) (m : module) : module :=
  if mkdir_ok
  then Module_ (sample_parm m) true ("samplefs/DebugData" :: "samplefs" :: proc_entries m) (registered m)
  else Module_ (sample_parm m) false (proc_entries m) (registered m).
Definition sfs_proc_clean (m : module) : module :=
  if proc_fs_samplefs m
  then Module_ (sample_parm m) true
         (filter (fun e => e <> "samplefs/DebugData" /\ e <> "samplefs") (proc_entries m)) (registered m)
  else m.

(** [reg] is the result of register_filesystem. *)
Definition init_samplefs_fs (mkdir_ok : bool) (reg : Z) (m : module) : Z * module :=
  let m := sfs_proc_init mkdir_ok m in
  let parm := if sample_parm m >? 256 then 10 else sample_parm m in
  (reg, Module_ parm (proc_fs_samplefs m) (proc_entries m) (registered m || (reg =? 0))).
Definition exit_samplefs_fs (m : module) : module :=
  let m := sfs_proc_clean m in
  Module_ (sample_parm m) (proc_fs_samplefs m) (proc_entries m) false.
