(* ===== verification/SamplefsProof.v ===== *)
(** * Properties of the sample file system

    The hash of a name agrees with the case-insensitive comparison; options compose;
    mounting either succeeds or gives everything back, and unmounting gives the rest
    back; the link count of a directory is 2 plus its subdirectories after any sequence
    of creations; reading the /proc file piece by piece gives the whole text. *)

From Stdlib Require Import Ascii.
From S2P Require Import Prelude Arch Samplefs.

(** ** Names *)

Section Names.
Context (nls_tolower : Z -> Z) (nls_strnicmp : list Z -> list Z -> Z -> Z).
Context (init_name_hash : Z) (partial_name_hash : Z -> Z -> Z) (end_name_hash : Z -> Z).

Definition fold_name (q : qstr) : list Z := nls_tolower <$> take (Z.to_nat (q_len q)) (q_name q).
Definition wf_name (q : qstr) : Prop := 0 <= q_len q <= Z.of_nat (length (q_name q)).

Lemma hash_from_fold name n i h :
  0 <= i -> (Z.to_nat i + n <= length name)%nat ->
  hash_from nls_tolower partial_name_hash n i name h =
  fold_left (fun h c => partial_name_hash c h) (nls_tolower <$> take n (drop (Z.to_nat i) name)) h.
Proof.
  revert i h. induction n as [|n IH]; intros i h Hi Hn; [done|]. cbn [hash_from].
  destruct (lookup_lt_is_Some_2 name (Z.to_nat i)) as [c Hc]; [lia|].
  rewrite (drop_S _ _ _ Hc), Hc. cbn [take fmap list_fmap fold_left default].
  rewrite IH by lia. do 2 f_equal. by replace (Z.to_nat (i + 1)) with (S (Z.to_nat i)) by lia.
Qed.
Lemma ci_hash_fold q :
  wf_name q ->
  q_hash (sfs_ci_hash nls_tolower init_name_hash partial_name_hash end_name_hash q).2
  = end_name_hash (fold_left (fun h c => partial_name_hash c h) (fold_name q) init_name_hash).
Proof.
  intros [H1 H2]. unfold sfs_ci_hash, fold_name. cbn [snd q_hash].
  rewrite hash_from_fold by lia. by rewrite drop_0.
Qed.
End Names.

(** The documented comparison: 0 exactly when the first [n] characters agree up to case. *)
Definition strnicmp_ok (nls_tolower : Z -> Z) (nls_strnicmp : list Z -> list Z -> Z -> Z) : Prop :=
  forall a b n, 0 <= n <= Z.of_nat (length a) -> n <= Z.of_nat (length b) ->
    nls_strnicmp a b n = 0 <->
    nls_tolower <$> take (Z.to_nat n) a = nls_tolower <$> take (Z.to_nat n) b.

(** C27: Names that [sfs_ci_compare] calls equal have the same [sfs_ci_hash], before and after
    the first name is overwritten with the spelling of the second, as the dentry cache
    requires of the pair; and names that differ only in case are called equal. *)
Theorem ci_compare_hash tl cmp ih ph eh a b :
  strnicmp_ok tl cmp -> wf_name a -> wf_name b ->
  let hash q := q_hash (sfs_ci_hash tl ih ph eh q).2 in
  let '(r, a') := sfs_ci_compare cmp a b in
  (r = 0 <-> q_len a = q_len b /\ fold_name tl a = fold_name tl b) /\
  (r = 0 -> hash a = hash b /\ hash a' = hash b /\
            take (Z.to_nat (q_len a')) (q_name a') = take (Z.to_nat (q_len b)) (q_name b)).
Proof.
  intros Hs Ha Hb. unfold sfs_ci_compare.
  destruct (Z.eqb_spec (q_len a) (q_len b)) as [E|E]; cbn [andb]; [|by split; [split; [done|tauto]|done]].
  pose proof (Hs (q_name a) (q_name b) (q_len a)) as Hc. unfold wf_name in *.
  destruct (Z.eqb_spec (cmp (q_name a) (q_name b) (q_len a)) 0) as [F|F].
  - apply Hc in F; [|lia|lia]. assert (G : fold_name tl a = fold_name tl b) by (unfold fold_name; by rewrite F, E).
    split; [tauto|]. intros _.
    assert (T : take (Z.to_nat (q_len a)) (q_name (copy_name a b)) = take (Z.to_nat (q_len b)) (q_name b)).
    { unfold copy_name. cbn [q_name]. rewrite take_app_le, take_take by (rewrite length_take; lia).
      f_equal. lia. }
    assert (W : wf_name (copy_name a b)).
    { unfold wf_name, copy_name. cbn [q_len q_name]. rewrite length_app, length_take, length_drop. lia. }
    rewrite !ci_hash_fold by done. rewrite G. split; [done|]. split; [|exact T].
    unfold fold_name at 1. cbn [q_len copy_name]. by rewrite T.
  - split; [|done]. split; [done|]. intros [_ G]. exfalso. apply F, Hc; [lia|lia|].
    unfold fold_name in G. by rewrite <- E in G.
Qed.

(** ** Mount options *)

Lemma strsep_all_cons s : exists t l, strsep_all s = t :: l.
Proof.
  destruct s as [|c s]; simpl; [eauto|]. destruct (Ascii.eqb c ",");
    [eauto|]. destruct (strsep_all s); eauto.
Qed.
Lemma strsep_all_app a b : strsep_all (a +:+ String "," b) = strsep_all a ++ strsep_all b.
Proof.
  induction a as [|c a IH]; [done|].
  change (String c a +:+ String "," b) with (String c (a +:+ String "," b)). cbn [strsep_all].
  rewrite IH. destruct (Ascii.eqb c ","); [done|].
  destruct (strsep_all_cons a) as (t & l & ->). done.
Qed.

Definition size_ok (v : Z) : Prop := 0 < v < 2 ^ 31.
Lemma parse_option_sizes K day t i :
  let i' := parse_option K day t i in
  (rsize i' = rsize i \/ size_ok (rsize i')) /\ (wsize i' = wsize i \/ size_ok (wsize i')) /\
  local_nls i' = local_nls i /\ Z.land (flags i') (flags i) = flags i.
Proof.
  assert (Hs : forall v, (s32 v >? 0) = true -> size_ok (s32 v)).
  { intros v Hv. pose proof (s32_range v). unfold size_ok. lia. }
  assert (Hf : Z.land (flags i) (flags i) = flags i) by apply Z.land_diag.
  unfold parse_option. cbv zeta. destruct (String.eqb t EmptyString); [tauto|].
  destruct (cut_value t) as [key [v|]].
  all: destruct (strnicmp_eq key "rsize" 5).
  1,3: try destruct (String.eqb v EmptyString); try tauto.
  1: destruct (s32 (k_simple_strtoul K v) >? 0) eqn:E; [|tauto]; simpl; auto 10.
  all: destruct (strnicmp_eq key "wsize" 5).
  1,3: try destruct (String.eqb v EmptyString); try tauto.
  1: destruct (s32 (k_simple_strtoul K v) >? 0) eqn:E; [|tauto]; simpl; auto 10.
  all: destruct (_ && _); [|tauto]; simpl; repeat split; auto.
  all: apply Z.bits_inj'; intros n Hn; rewrite Z.land_spec, Z.lor_spec;
       by destruct (Z.testbit (flags i) n), (Z.testbit SFS_MNT_CASE n).
Qed.

(** Options are handled one after the other, left to right, however they are joined; a
    size is only ever set to a positive value that fits an int, a flag is never cleared,
    and anything else in the superblock data stays. *)
Theorem mount_options_compose K day a b i :
  4 <= day ->
  samplefs_parse_mount_options K day (Some (a +:+ String "," b)) i =
    samplefs_parse_mount_options K day (Some b) (samplefs_parse_mount_options K day (Some a) i) /\
  let i' := samplefs_parse_mount_options K day (Some a) i in
  (rsize i' = rsize i \/ size_ok (rsize i')) /\ (wsize i' = wsize i \/ size_ok (wsize i')) /\
  local_nls i' = local_nls i /\ Z.land (flags i') (flags i) = flags i.
Proof.
  intros Hd. unfold samplefs_parse_mount_options. destruct (Z.leb_spec 4 day); [|lia].
  rewrite strsep_all_app, fold_left_app. split; [done|]. cbv zeta.
  generalize (strsep_all a). intros l. revert i. induction l as [|t l IH]; intros i; cbn [fold_left].
  { rewrite Z.land_diag. auto. }
  destruct (parse_option_sizes K day t i) as (R1 & W1 & N1 & F1).
  destruct (IH (parse_option K day t i)) as (R2 & W2 & N2 & F2).
  set (i1 := parse_option K day t i) in *. set (i2 := fold_left _ l i1) in *. clearbody i1 i2.
  split; [destruct R2 as [->|]; auto|]. split; [destruct W2 as [->|]; auto|].
  split; [congruence|].
  apply Z.bits_inj'. intros n Hn. rewrite Z.land_spec.
  apply (f_equal (fun z => Z.testbit z n)) in F1, F2. rewrite Z.land_spec in F1, F2.
  destruct (Z.testbit (flags i) n), (Z.testbit (flags i1) n), (Z.testbit (flags i2) n); done.
Qed.

(** ** The /proc file *)

Definition DEBUG_BYTES : list ascii := String.list_ascii_of_string DEBUG_TEXT.
(** What one read returns. *)
Definition read_piece (offset count : Z) : list ascii * bool :=
  let '(start, len, eof) := sfs_debug_read offset count in
  (take (Z.to_nat len) (drop (Z.to_nat start) DEBUG_BYTES), eof).
(** Reading [count] bytes at a time until the end is reported. *)
Fixpoint read_file_all (fuel : nat) (count offset : Z) : option (list ascii) :=
  match fuel with
  | O => None
  | S fuel' =>
      let '(bytes, eof) := read_piece offset count in
      if eof then Some bytes
      else rest ← read_file_all fuel' count (offset + Z.of_nat (length bytes)); Some (bytes ++ rest)
  end.

Lemma debug_len : Z.of_nat (String.length DEBUG_TEXT) = 60 /\ length DEBUG_BYTES = 60%nat.
Proof. split; reflexivity. Qed.

Lemma read_file_all_from fuel count offset :
  0 < count -> 0 <= offset <= 60 -> 60 - offset < Z.of_nat fuel ->
  read_file_all fuel count offset = Some (drop (Z.to_nat offset) DEBUG_BYTES).
Proof.
  intros Hc. revert offset. induction fuel as [|fuel IH]; intros offset Ho Hf; [lia|].
  cbn [read_file_all]. unfold read_piece, sfs_debug_read.
  destruct debug_len as [-> L]. destruct (Z.ltb_spec 60 offset); [lia|].
  rewrite Z.gtb_ltb, Z.geb_leb.
  destruct (Z.leb_spec 60 (offset + count)), (Z.ltb_spec count (60 - offset)); try lia.
  - f_equal. apply take_ge. rewrite length_drop. lia.
  - rewrite length_take, length_drop, L.
    replace (offset + Z.of_nat (Z.to_nat count `min` (60 - Z.to_nat offset))) with (offset + count) by lia.
    rewrite IH by lia. cbn [mbind option_bind]. f_equal.
    replace (Z.to_nat (offset + count)) with (Z.to_nat offset + Z.to_nat count)%nat by lia.
    rewrite <- drop_drop. apply take_drop.
Qed.

(** Whatever the size of the pieces, a reader gets the whole text, once, and is told the
    end; no read returns more than was asked for. *)
Theorem debug_read_complete count :
  0 < count ->
  read_file_all 62 count 0 = Some DEBUG_BYTES /\
  (forall offset, 0 <= offset -> (sfs_debug_read offset count).1.2 <= count).
Proof.
  intros Hc. split; [apply (read_file_all_from 62 count 0); lia|].
  intros offset Ho. unfold sfs_debug_read. destruct debug_len as [-> _].
  destruct (60 <? offset); simpl; [lia|]. rewrite Z.gtb_ltb.
  destruct (Z.ltb_spec count (60 - offset)); simpl; lia.
Qed.

(** ** Inodes *)

Record fresh_inode (mode : Z) (n : inode) : Prop := {
  fi_mode : i_mode n = mode;
  fi_nlink : i_nlink n = if S_ISDIR mode then 2 else 1;
  fi_size : i_size n = 0;
  fi_count : i_count n = 1
}.

Lemma get_inode_run K day mode dev s :
  kernel_ok K -> day <> 5 \/ (exists info, load_info s = Ok info s) ->
  samplefs_get_inode K day mode dev s = Ok None s \/
  exists i n, inodes s !! i = None /\ fresh_inode mode n /\
    samplefs_get_inode K day mode dev s = Ok (Some i) (set_inodes (<[i := n]> (inodes s)) s).
Proof.
  intros HK Hi. unfold samplefs_get_inode. rewrite bind_get.
  destruct (k_new_inode K s) as [i|] eqn:E; [|by left]. right. exists i.
  pose proof (new_inode_fresh K HK s i E) as Hf. unfold store_inode.
  destruct (Z.land mode S_IFMT =? S_IFDIR) eqn:Ed.
  { assert (Hd : S_ISDIR mode = true) by done.
    destruct (Z.eqb_spec day 5).
    - destruct Hi as [Hi|[info Hi]]; [done|].
      rewrite bind_bind, (bind_ok _ _ _ _ _ Hi), bind_ret, bind_modify.
      eexists. split; [done|]. split; [|reflexivity]. constructor; simpl; by rewrite ?Hd.
    - rewrite bind_ret, bind_modify.
      eexists. split; [done|]. split; [|reflexivity]. constructor; simpl; by rewrite ?Hd. }
  assert (Hd : S_ISDIR mode = false) by done.
  destruct (_ && (5 <=? day)); [|destruct (_ && (11 <=? day))]; rewrite bind_ret, bind_modify;
    eexists; (split; [done|]); (split; [|reflexivity]); constructor; rewrite ?Hd; try done.
  - apply (special_mode K HK).
  - by rewrite (special_nlink K HK).
  - by rewrite (special_size K HK).
  - by rewrite (special_count K HK).
Qed.

Lemma set_inodes_same s : set_inodes (inodes s) s = s.
Proof. by destruct s. Qed.

(** ** Mounting *)

Lemma iput_last i n s :
  inodes s !! i = None -> i_count n = 1 -> forall s0, inodes s0 = <[i := n]> (inodes s) ->
  iput i s0 = Ok tt (set_inodes (inodes s) s0).
Proof.
  intros Hn Hc s0 H0. unfold iput.
  rewrite (bind_ok (load_inode i) _ _ n s0) by (unfold load_inode; by rewrite H0, lookup_insert_eq).
  rewrite Hc. cbn. unfold modify. do 2 f_equal. rewrite H0. by apply delete_insert_id.
Qed.

(** What [samplefs_fill_super] does, by its result. *)
Definition mounted (K : kernel) (day : Z) (data : option string) (s s' : fs) : Prop :=
  exists p i n, s_fs_info (sblk s') = Some p /\ s_root (sblk s') = Some i /\
    infos s !! p = None /\ inodes s !! i = None /\ fresh_inode (Z.lor S_IFDIR 0x1ed) n /\
    inodes s' = <[i := n]> (inodes s) /\
    infos s' = <[p := samplefs_parse_mount_options K day data
                        (SbInfo 0 0 0 (k_load_nls_default K))]> (infos s) /\
    nls_refs s' = nls_refs s + 1 /\ dentries s' = dentries s.
Definition same_objects (s s' : fs) : Prop :=
  inodes s' = inodes s /\ infos s' = infos s /\ nls_refs s' = nls_refs s /\ dentries s' = dentries s.

Section Mount.
Context (K : kernel) (HK : kernel_ok K) (day : Z).

Lemma alloc_info_run s :
  (exists s', alloc_info K s = Ok None s' /\ same_objects s s') \/
  (exists p s', alloc_info K s = Ok (Some p) s' /\ infos s !! p = None /\
     s_fs_info (sblk s') = Some p /\ infos s' = <[p := SbInfo 0 0 0 0]> (infos s) /\
     inodes s' = inodes s /\ nls_refs s' = nls_refs s /\ dentries s' = dentries s).
Proof.
  unfold alloc_info. rewrite bind_get. destruct (k_kzalloc K s) as [p|] eqn:E.
  - right. exists p. eexists. split; [reflexivity|]. split; [by apply (kzalloc_fresh K HK)|]. done.
  - left. eexists. split; [reflexivity|]. done.
Qed.

(** From the root inode on: the common end of the function on day 4 and later. *)
Lemma fill_tail data p i n s0 s :
  4 <= day -> s_fs_info (sblk s) = Some p -> infos s0 !! p = None -> inodes s0 !! i = None ->
  fresh_inode (Z.lor S_IFDIR 0x1ed) n ->
  inodes s = <[i := n]> (inodes s0) -> infos s = <[p := SbInfo 0 0 0 0]> (infos s0) ->
  nls_refs s = nls_refs s0 -> dentries s = dentries s0 ->
  exists r s', (ok ← alloc_root K day i;
                if ok : bool then fill_info K day p data ;; mret 0
                else iput i ;; kfree_info p ;; mret (- ENOMEM)) s = Ok r s' /\
    (r = 0 /\ mounted K day data s0 s' \/ r = - ENOMEM /\ same_objects s0 s').
Proof.
  intros Hd Hp Hpn Hin Hf Hi Hinf Hn Hde. unfold alloc_root. rewrite bind_bind, bind_get.
  destruct (Z.leb_spec day 3); [lia|]. destruct (k_d_alloc_root K s).
  - rewrite bind_bind. unfold set_root. rewrite bind_modify, bind_ret. unfold fill_info.
    rewrite bind_bind, bind_modify, bind_bind, bind_get. cbn [infos set_nls set_sb].
    rewrite Hinf, lookup_insert_eq. rewrite bind_modify.
    do 2 eexists. split; [reflexivity|]. left. split; [done|].
    exists p, i, n. cbn. rewrite Hi, Hinf, Hn, insert_insert_eq. repeat split; try done; apply Hf.
  - rewrite bind_bind, bind_ret, bind_bind. unfold set_root. rewrite bind_modify, bind_ret.
    erewrite bind_ok by (by apply (iput_last i n s0 Hin (fi_count _ _ Hf))).
    unfold kfree_info. rewrite bind_modify.
    do 2 eexists. split; [reflexivity|]. right. split; [done|]. unfold same_objects. cbn.
    rewrite Hinf, delete_insert_id by done. done.
Qed.
End Mount.

Lemma put_super_run p info s :
  s_fs_info (sblk s) = Some p -> infos s !! p = Some info ->
  samplefs_put_super s = Ok tt (set_infos (delete p (infos s)) (set_nls (nls_refs s - 1) s)).
Proof.
  intros Hp Hi. unfold samplefs_put_super. rewrite bind_get, Hp.
  erewrite bind_ok by (unfold load_info; rewrite Hp, Hi; reflexivity). reflexivity.
Qed.

Lemma fill_super_run K day data s :
  kernel_ok K -> 4 <= day ->
  exists r s', samplefs_fill_super K day data s = Ok r s' /\
    (r = 0 /\ mounted K day data s s' \/ r = - ENOMEM /\ same_objects s s').
Proof.
  intros HK Hd. unfold samplefs_fill_super. rewrite bind_modify.
  set (s1 := set_sb _ s). assert (S1 : same_objects s s1) by done. clearbody s1.
  destruct S1 as (I1 & F1 & N1 & D1).
  destruct (Z.leb_spec 5 day).
  - destruct (alloc_info_run K HK s1) as [(s2 & E2 & S2)|(p & s2 & E2 & Hp & P2 & F2 & I2 & N2 & D2)];
      rewrite (bind_ok _ _ _ _ _ E2).
    { do 2 eexists. split; [reflexivity|]. right. split; [done|]. unfold same_objects in *. intuition congruence. }
    destruct (get_inode_run K day (Z.lor S_IFDIR 0x1ed) 0 s2 HK) as [E|(i & n & Hi & Hf & E)].
    { right. eexists. unfold load_info. by rewrite P2, F2, lookup_insert_eq. }
    + rewrite (bind_ok _ _ _ _ _ E). unfold kfree_info. rewrite bind_modify.
      do 2 eexists. split; [reflexivity|]. right. split; [done|]. unfold same_objects. cbn.
      rewrite F2, delete_insert_id by done. intuition congruence.
    + rewrite (bind_ok _ _ _ _ _ E). apply (fill_tail K day data p i n s); try done; cbn; try congruence; lia.
  - assert (day = 4) as -> by lia. cbn [Z.eqb Pos.eqb].
    destruct (get_inode_run K 4 (Z.lor S_IFDIR 0x1ed) 0 s1 HK) as [E|(i & n & Hi & Hf & E)]; [by left| |].
    { rewrite (bind_ok _ _ _ _ _ E). do 2 eexists. split; [reflexivity|]. right.
      split; [done|]. unfold same_objects. intuition congruence. }
    rewrite (bind_ok _ _ _ _ _ E). rewrite I1 in Hi.
    match goal with |- context [alloc_info K ≫= ?f] => set (k := f) end.
    destruct (alloc_info_run K HK (set_inodes (<[i := n]> (inodes s1)) s1))
      as [(s2 & E2 & S2)|(p & s2 & E2 & Hp & P2 & F2 & I2 & N2 & D2)]; rewrite (bind_ok _ _ _ _ _ E2); subst k.
    + cbv beta iota. destruct S2 as (I2 & F2 & N2 & D2). cbn in I2, F2, N2, D2.
      erewrite bind_ok by (by apply (iput_last i n s Hi (fi_count _ _ Hf)); rewrite I2, I1).
      do 2 eexists. split; [reflexivity|]. right. split; [done|]. unfold same_objects. cbn. intuition congruence.
    + cbn in F2, I2, N2, D2, Hp. apply (fill_tail K 4 data p i n s); try done; cbn; congruence.
Qed.


(** On days 2 and 3 a failing d_make_root has dropped the reference to the root inode
    already; the [iput] that follows uses the inode after it was freed. *)
Theorem early_days_double_iput K day data s :
  kernel_ok K -> day = 2 \/ day = 3 ->
  (forall s, k_new_inode K s <> None) -> (forall s, k_kzalloc K s <> None) ->
  (forall s, k_d_alloc_root K s = false) ->
  exists i, inodes s !! i = None /\ samplefs_fill_super K day data s = Halt (Fault i).
Proof.
  intros HK Hd Hi Hp Hr. unfold samplefs_fill_super, iget_root, alloc_info, alloc_root.
  rewrite bind_modify. destruct (Z.leb_spec 5 day); [lia|]. destruct (Z.eqb_spec day 4); [lia|].
  rewrite bind_bind, bind_get. set (s1 := set_sb _ s).
  destruct (k_new_inode K s1) as [i|] eqn:Ei; [|by apply Hi in Ei].
  pose proof (new_inode_fresh K HK s1 i Ei) as Hn. change (inodes s1) with (inodes s) in Hn.
  exists i. split; [exact Hn|]. unfold store_inode. rewrite bind_bind, bind_modify, bind_ret.
  rewrite bind_bind, bind_get. destruct (k_kzalloc K _) as [p|] eqn:Ep; [|by apply Hp in Ep].
  rewrite bind_bind, bind_modify. unfold set_fs_info.
  rewrite bind_bind, bind_modify, bind_ret, bind_bind, bind_get, Hr.
  destruct (Z.leb_spec day 3); [|lia]. rewrite bind_bind.
  erewrite bind_ok by (by apply (iput_last i (Inode 0 0 0 1 0 0 1 EmptyInodeOps EmptyFops EmptyAops) s)).
  unfold set_root. rewrite bind_bind, bind_modify, bind_ret. unfold iput.
  rewrite bind_bind. apply bind_halt. unfold load_inode. cbn. by rewrite Hn.
Qed.

(** On day 5 the root inode is created before the options are read: the root keeps the
    case-sensitive operations whatever the options say. *)
Theorem day5_nocase_ignored K data s s' :
  kernel_ok K -> samplefs_fill_super K 5 data s = Ok 0 s' ->
  exists i n, s_root (sblk s') = Some i /\ inodes s' !! i = Some n /\ i_op n = SimpleDirInodeOps.
Proof.
  intros HK H. unfold samplefs_fill_super in H. rewrite bind_modify in H. cbn [Z.leb Z.compare Pos.compare] in H.
  set (s1 := set_sb _ s) in H. clearbody s1. change (5 <=? 5) with true in H. cbv iota in H.
  destruct (alloc_info_run K HK s1) as [(s2 & E2 & _)|(p & s2 & E2 & _ & P2 & F2 & _)];
    rewrite (bind_ok _ _ _ _ _ E2) in H; [done|].
  unfold samplefs_get_inode in H. rewrite bind_bind, bind_get in H.
  destruct (k_new_inode K s2) as [i|]; [|done].
  change (Z.land (Z.lor S_IFDIR 0x1ed) S_IFMT =? S_IFDIR) with true in H. change (5 =? 5) with true in H.
  cbv iota in H. rewrite !bind_bind in H.
  erewrite bind_ok in H by (unfold load_info; rewrite P2, F2, lookup_insert_eq; reflexivity).
  rewrite bind_ret in H. unfold store_inode in H. rewrite bind_bind, bind_modify, bind_ret in H.
  unfold alloc_root in H. rewrite bind_bind, bind_get in H.
  destruct (k_d_alloc_root K _).
  - unfold set_root in H. rewrite bind_bind, bind_modify, bind_ret in H. unfold fill_info in H.
    rewrite bind_bind, bind_modify, bind_bind, bind_get in H. cbn [infos set_nls set_sb set_inodes] in H.
    rewrite F2, lookup_insert_eq, bind_modify in H. injection H as <-.
    do 2 eexists. split; [reflexivity|]. cbn. by rewrite lookup_insert_eq.
  - change (5 <=? 3) with false in H. cbv iota in H.
    rewrite !bind_bind, bind_ret in H. unfold set_root in H. rewrite bind_bind, bind_modify, bind_ret in H.
    apply bind_inv in H as (? & ? & _ & H). apply bind_inv in H as (? & ? & _ & H). done.
Qed.

(** ** Directories *)

(** The dentry is that of a subdirectory of [dir]. *)
Definition subdir_of (s : fs) (dir : Z) (x : dentry) : bool :=
  (d_parent x =? dir) &&
  match d_inode x with
  | Some i => match inodes s !! i with Some n => S_ISDIR (i_mode n) | None => false end
  | None => false
  end.
Definition subdirs (s : fs) (dir : Z) : Z :=
  Z.of_nat (size (filter (fun kx => subdir_of s dir kx.2 = true) (dentries s))).

(** Dentries refer to inodes in use, and a directory has a link for each of its
    subdirectories beside its own two. *)
Record tree_ok (s : fs) : Prop := {
  tree_refs d x i : dentries s !! d = Some x -> d_inode x = Some i ->
    is_Some (inodes s !! i) /\ is_Some (inodes s !! d_parent x);
  tree_links i n : inodes s !! i = Some n -> S_ISDIR (i_mode n) = true -> i_nlink n = 2 + subdirs s i
}.

(** The state the VFS calls a creation in: a directory and a negative dentry under it. *)
Definition creatable (s : fs) (dir d : Z) : Prop :=
  exists p x, inodes s !! dir = Some p /\ S_ISDIR (i_mode p) = true /\
    dentries s !! d = Some x /\ d_parent x = dir /\ d_inode x = None.

Lemma count_insert (P P' : Z * dentry -> Prop) `{!forall x, Decision (P x), !forall x, Decision (P' x)}
    (m : gmap Z dentry) d x x' :
  m !! d = Some x -> ~ P (d, x) -> (forall k y, k <> d -> m !! k = Some y -> P' (k, y) <-> P (k, y)) ->
  Z.of_nat (size (filter P' (<[d := x']> m))) =
    Z.of_nat (size (filter P m)) + (if decide (P' (d, x')) then 1 else 0).
Proof.
  intros Hd Hn Hs.
  assert (E : filter P' (delete d m) = filter P m).
  { apply map_eq. intros k. apply option_eq. intros y.
    rewrite !map_lookup_filter_Some. destruct (decide (k = d)) as [->|Hk].
    - rewrite lookup_delete_eq. split; [by intros [? _]|]. intros [H1 H2]. rewrite Hd in H1. by simplify_eq.
    - rewrite lookup_delete_ne by done. split; intros [H1 H2]; (split; [done|]); by apply (Hs k y). }
  rewrite <- (insert_delete_eq m d x'). destruct (decide (P' (d, x'))).
  - rewrite map_filter_insert_True by done. rewrite map_size_insert_None.
    + rewrite E. lia.
    + apply map_lookup_filter_None_2. left. apply lookup_delete_eq.
  - rewrite map_filter_insert_False by done. rewrite delete_delete_eq, E. lia.
Qed.

Lemma link_tree s s' dir d p p' x x' i n :
  tree_ok s -> inodes s !! dir = Some p -> S_ISDIR (i_mode p) = true ->
  dentries s !! d = Some x -> d_inode x = None -> inodes s !! i = None ->
  i_mode p' = i_mode p -> i_nlink p' = i_nlink p + (if S_ISDIR (i_mode n) then 1 else 0) ->
  (S_ISDIR (i_mode n) = true -> i_nlink n = 2) ->
  d_parent x' = dir -> d_inode x' = Some i ->
  inodes s' = <[dir := p']> (<[i := n]> (inodes s)) -> dentries s' = <[d := x']> (dentries s) ->
  tree_ok s'.
Proof.
  intros [Tr Tl] Hp Hd Hx Hxn Hi Hm Hl Hn2 Hx' Hxi Hin Hde.
  assert (Hne : dir <> i) by (intros ->; by rewrite Hi in Hp).
  assert (Hold : forall j, is_Some (inodes s !! j) -> is_Some (inodes s' !! j)).
  { intros j Hj. rewrite Hin. destruct (decide (j = dir)) as [->|]; [rewrite lookup_insert_eq; eauto|].
    rewrite lookup_insert_ne by done. destruct (decide (j = i)) as [->|]; [rewrite lookup_insert_eq; eauto|].
    by rewrite lookup_insert_ne. }
  constructor.
  - intros e y j He Hj. rewrite Hde in He. destruct (decide (e = d)) as [->|].
    + rewrite lookup_insert_eq in He. simplify_eq. split; [|apply Hold; eauto].
      rewrite Hin, lookup_insert_ne, lookup_insert_eq by done. eauto.
    + rewrite lookup_insert_ne in He by done. destruct (Tr e y j He Hj). auto.
  - intros e m He Hdir.
    assert (Hc : subdirs s' e = subdirs s e + if (dir =? e) && S_ISDIR (i_mode n) then 1 else 0).
    { unfold subdirs. rewrite Hde. erewrite (count_insert _ _ _ d x x' Hx).
      - assert (subdir_of s' e x' = (dir =? e) && S_ISDIR (i_mode n)) as Hsub.
        { unfold subdir_of. rewrite Hx', Hxi, Hin, lookup_insert_ne, lookup_insert_eq by done. done. }
        cbn [snd]. rewrite Hsub. by destruct (_ && _); case_decide.
      - cbn. unfold subdir_of. rewrite Hxn, andb_false_r. done.
      - intros k y Hk Hy. cbn. assert (subdir_of s' e y = subdir_of s e y) as ->; [|done].
        unfold subdir_of. destruct (d_inode y) as [j|] eqn:Ej; [|done].
        destruct (Tr k y j Hy Ej) as [[nj Hj] _]. rewrite Hj, Hin.
        destruct (decide (j = dir)) as [->|]; [rewrite lookup_insert_eq, Hm; by simplify_eq|].
        rewrite !lookup_insert_ne, Hj; [done| |done]. intros ->. by rewrite Hi in Hj. }
    rewrite Hc. rewrite Hin in He. destruct (Z.eqb_spec dir e) as [<-|Hde'].
    + rewrite lookup_insert_eq in He. injection He as <-. rewrite Hl, (Tl dir p Hp Hd). cbn [andb]. lia.
    + rewrite lookup_insert_ne in He by done. cbn [andb]. rewrite Z.add_0_r.
      destruct (decide (e = i)) as [->|]; [|rewrite lookup_insert_ne in He by done; by apply Tl].
      rewrite lookup_insert_eq in He. injection He as <-. rewrite Hn2 by done.
      assert (subdirs s i = 0) as ->; [|lia]. unfold subdirs.
      enough (filter (fun kx => subdir_of s i kx.2 = true) (dentries s) = ∅) as -> by done.
      apply map_empty_filter_2. intros k y Hy. cbn. unfold subdir_of.
      destruct (Z.eqb_spec (d_parent y) i) as [Ep|]; [|done].
      destruct (d_inode y) as [j|] eqn:Ej; [|done]. destruct (Tr k y j Hy Ej) as [_ [z Hz]].
      by rewrite Ep, Hi in Hz.
Qed.

Section Creation.
Context (K : kernel) (HK : kernel_ok K) (day : Z) (Hday : 6 <= day).

Lemma load_inode_run i n s : inodes s !! i = Some n -> load_inode i s = Ok n s.
Proof. intros H. unfold load_inode. by rewrite H. Qed.
Lemma load_dentry_run d x s : dentries s !! d = Some x -> load_dentry d s = Ok x s.
Proof. intros H. unfold load_dentry. by rewrite H. Qed.

Lemma isdir_sgid m : S_ISDIR (Z.lor m S_ISGID) = S_ISDIR m.
Proof.
  unfold S_ISDIR. rewrite Z.land_lor_distr_l. change (Z.land S_ISGID S_IFMT) with 0. by rewrite Z.lor_0_r.
Qed.

(** The inode of a new entry: the group and set-group-ID bit follow the directory. *)
Definition inherit (p n : inode) (sgid : bool) : inode :=
  if has (i_mode p) S_ISGID then set_gid n (i_gid p) sgid else n.

(** Attaching a new inode to a negative dentry, as both creators do. *)
Lemma attach_run {A} dir d i p x n sgid s (k : cmd fs A) :
  inodes s !! dir = Some p -> dir <> i -> inodes s !! i = Some n ->
  dentries s !! d = Some x ->
  (p ← load_inode dir;
   (if has (i_mode p) S_ISGID then
      n ← load_inode i; store_inode i (set_gid n (i_gid p) sgid)
    else mret tt) ;;
   d_instantiate d i ;;
   dget d ;;
   k) s =
  k (set_dentries (<[d := Dentry (d_parent x) (d_len x) (Some i) (d_count x + 1) (d_op x)]> (dentries s))
       (set_inodes (<[i := inherit p n sgid]> (inodes s)) s)).
Proof.
  intros Hp Hne Hn Hx. rewrite (bind_ok _ _ _ _ _ (load_inode_run dir p s Hp)).
  assert (E : (if has (i_mode p) S_ISGID then
      n ← load_inode i; store_inode i (set_gid n (i_gid p) sgid) else mret tt) s
      = Ok tt (set_inodes (<[i := inherit p n sgid]> (inodes s)) s)).
  { unfold inherit. destruct (has _ _).
    - by rewrite (bind_ok _ _ _ _ _ (load_inode_run i n s Hn)).
    - rewrite insert_id by done. by destruct s. }
  rewrite (bind_ok _ _ _ _ _ E). unfold d_instantiate, dget, store_dentry.
  rewrite bind_bind. erewrite bind_ok by (by apply load_dentry_run). rewrite bind_modify.
  rewrite bind_bind. erewrite bind_ok by (by apply load_dentry_run, lookup_insert_eq). rewrite bind_modify.
  cbn. by rewrite insert_insert_eq.
Qed.

Lemma mknod_run dir d mode dev s :
  creatable s dir d ->
  sfs_mknod K day dir d mode dev s = Ok (- ENOSPC) s \/
  exists i p x n s', sfs_mknod K day dir d mode dev s = Ok 0 s' /\
    inodes s !! dir = Some p /\ dentries s !! d = Some x /\ inodes s !! i = None /\ fresh_inode mode n /\
    inodes s' = <[dir := add_size p 0x20]> (<[i := inherit p n (S_ISDIR mode)]> (inodes s)) /\
    dentries s' = <[d := Dentry (d_parent x) (d_len x) (Some i) (d_count x + 1) (d_op x)]> (dentries s) /\
    infos s' = infos s /\ sblk s' = sblk s.
Proof.
  intros (p & x & Hp & Hd & Hx & Hxp & Hxn). unfold sfs_mknod.
  destruct (get_inode_run K day mode dev s HK) as [E|(i & n & Hi & Hf & E)]; [left; lia| |].
  { left. by rewrite (bind_ok _ _ _ _ _ E). }
  right. assert (Hne : dir <> i) by (intros ->; by rewrite Hi in Hp).
  exists i, p, x, n. rewrite (bind_ok _ _ _ _ _ E).
  rewrite (attach_run dir d i p x n);
    [|cbn; by rewrite lookup_insert_ne|done|cbn; by rewrite lookup_insert_eq|done].
  erewrite bind_ok by (apply load_inode_run; cbn; rewrite !lookup_insert_ne by done; exact Hp).
  unfold store_inode. rewrite bind_modify.
  eexists. split; [reflexivity|]. cbn. rewrite insert_insert_eq. done.
Qed.

Lemma inherit_dir p n b : S_ISDIR (i_mode (inherit p n b)) = S_ISDIR (i_mode n).
Proof. unfold inherit. destruct (has _ _), b; try done. apply isdir_sgid. Qed.
Lemma inherit_nlink p n b : i_nlink (inherit p n b) = i_nlink n.
Proof. unfold inherit. by destruct (has _ _). Qed.

Lemma mknod_tree dir d mode dev s r s' :
  creatable s dir d -> S_ISDIR mode = false -> tree_ok s ->
  sfs_mknod K day dir d mode dev s = Ok r s' -> tree_ok s'.
Proof.
  intros Hc Hm HT H. destruct (mknod_run dir d mode dev s Hc)
    as [E|(i & p & x & n & s1 & E & Hp & Hx & Hi & Hf & H1 & H2 & _)]; rewrite H in E.
  { by injection E as -> ->. }
  injection E as -> ->. destruct Hc as (p0 & x0 & Hp0 & Hd & Hx0 & Hxp & Hxn).
  rewrite Hp in Hp0. injection Hp0 as <-. rewrite Hx in Hx0. injection Hx0 as <-. subst dir.
  eapply (link_tree s s1 (d_parent x) d p (add_size p 0x20) x
    (Dentry (d_parent x) (d_len x) (Some i) (d_count x + 1) (d_op x))); try done.
  all: rewrite ?inherit_dir, ?inherit_nlink, ?(fi_mode _ _ Hf), ?Hm; try done.
  simpl. lia.
Qed.

Lemma mkdir_run dir d mode s :
  creatable s dir d -> Z.land mode S_IFMT = 0 ->
  sfs_mkdir K day dir d mode s = Ok (- ENOSPC) s \/
  exists i p x n s', sfs_mkdir K day dir d mode s = Ok 0 s' /\
    inodes s !! dir = Some p /\ dentries s !! d = Some x /\ inodes s !! i = None /\
    fresh_inode (Z.lor mode S_IFDIR) n /\
    inodes s' = <[dir := add_link (add_size p 0x20)]> (<[i := inherit p n true]> (inodes s)) /\
    dentries s' = <[d := Dentry (d_parent x) (d_len x) (Some i) (d_count x + 1) (d_op x)]> (dentries s).
Proof.
  intros Hc Hm. unfold sfs_mkdir.
  assert (Hd : S_ISDIR (Z.lor mode S_IFDIR) = true).
  { unfold S_ISDIR. rewrite Z.land_lor_distr_l, Hm. done. }
  destruct (mknod_run dir d (Z.lor mode S_IFDIR) 0 s Hc)
    as [E|(i & p & x & n & s1 & E & Hp & Hx & Hi & Hf & H1 & H2 & _)]; rewrite (bind_ok _ _ _ _ _ E).
  { left. done. }
  right. exists i, p, x, n. cbn [Z.eqb].
  erewrite bind_ok by (apply load_inode_run; rewrite H1; apply lookup_insert_eq).
  unfold store_inode. rewrite bind_modify. eexists. split; [reflexivity|].
  cbn. rewrite H1, insert_insert_eq, Hd. done.
Qed.

Lemma mkdir_tree dir d mode s r s' :
  creatable s dir d -> Z.land mode S_IFMT = 0 -> tree_ok s ->
  sfs_mkdir K day dir d mode s = Ok r s' -> tree_ok s'.
Proof.
  intros Hc Hm HT H. destruct (mkdir_run dir d mode s Hc Hm)
    as [E|(i & p & x & n & s1 & E & Hp & Hx & Hi & Hf & H1 & H2)]; rewrite H in E.
  { by injection E as -> ->. }
  injection E as -> ->. destruct Hc as (p0 & x0 & Hp0 & Hd & Hx0 & Hxp & Hxn).
  rewrite Hp in Hp0. injection Hp0 as <-. rewrite Hx in Hx0. injection Hx0 as <-. subst dir.
  assert (Hdir : S_ISDIR (Z.lor mode S_IFDIR) = true).
  { unfold S_ISDIR. rewrite Z.land_lor_distr_l, Hm. done. }
  eapply (link_tree s s1 (d_parent x) d p (add_link (add_size p 0x20)) x
    (Dentry (d_parent x) (d_len x) (Some i) (d_count x + 1) (d_op x))); try done.
  all: rewrite ?inherit_dir, ?inherit_nlink, ?(fi_mode _ _ Hf), ?(fi_nlink _ _ Hf), ?Hdir; try done.
Qed.

Lemma symlink_tree dir d name s r s' :
  creatable s dir d -> tree_ok s -> sfs_symlink K day dir d name s = Ok r s' -> tree_ok s'.
Proof.
  intros Hc HT H. pose proof Hc as (p & x & Hp & Hd & Hx & Hxp & Hxn). unfold sfs_symlink in H.
  destruct (get_inode_run K day (Z.lor S_IFLNK S_IRWXUGO) 0 s HK) as [E|(i & n & Hi & Hf & E)]; [left; lia| |];
    rewrite (bind_ok _ _ _ _ _ E) in H.
  { by injection H as <- <-. }
  assert (Hne : dir <> i) by (intros ->; by rewrite Hi in Hp).
  rewrite bind_get in H. destruct (Z.eqb_spec (k_page_symlink K
    (set_inodes (<[i := n]> (inodes s)) s) i (Z.of_nat (String.length name) + 1)) 0) as [Ez|Ez].
  - rewrite (attach_run dir d i p x n) in H;
      [|cbn; by rewrite lookup_insert_ne|done|cbn; by rewrite lookup_insert_eq|done].
    injection H as <- <-. subst dir.
    assert (Hl : S_ISDIR (i_mode (inherit p n false)) = false)
      by (by rewrite inherit_dir, (fi_mode _ _ Hf)).
    refine (link_tree s _ (d_parent x) d p p x
      (Dentry (d_parent x) (d_len x) (Some i) (d_count x + 1) (d_op x)) i (inherit p n false)
      HT Hp Hd Hx Hxn Hi eq_refl _ _ eq_refl eq_refl _ _).
    + rewrite Hl. lia.
    + rewrite Hl. discriminate.
    + cbn [inodes set_dentries set_inodes]. rewrite insert_insert_eq, insert_insert_ne by done.
      rewrite (insert_id (inodes s) (d_parent x) p) by done. reflexivity.
    + reflexivity.
  - erewrite bind_ok in H by (by apply (iput_last i n s Hi (fi_count _ _ Hf))).
    injection H as <- <-. by destruct s.
Qed.
End Creation.

(** A negative dentry does not count. *)
Lemma negative_tree s s' d x' :
  tree_ok s -> (forall x, dentries s !! d = Some x -> d_inode x = None) -> d_inode x' = None ->
  inodes s' = inodes s -> dentries s' = <[d := x']> (dentries s) -> tree_ok s'.
Proof.
  intros [Tr Tl] Hd Hx' Hi Hde. constructor.
  - intros e y j He Hj. rewrite Hi. rewrite Hde in He. destruct (decide (e = d)) as [->|].
    + rewrite lookup_insert_eq in He. injection He as <-. by rewrite Hx' in Hj.
    + rewrite lookup_insert_ne in He by done. by apply (Tr e).
  - intros i n Hn Hdir. rewrite Hi in Hn. rewrite (Tl i n Hn Hdir). unfold subdirs. do 3 f_equal.
    apply map_eq. intros k. apply option_eq. intros y. rewrite !map_lookup_filter_Some, Hde. cbn.
    assert (S : forall z, subdir_of s' i z = subdir_of s i z) by (intros z; unfold subdir_of; by rewrite Hi).
    assert (N : forall z, d_inode z = None -> subdir_of s i z = false)
      by (intros z Hz; unfold subdir_of; by rewrite Hz, andb_false_r).
    rewrite S. destruct (decide (k = d)) as [->|Hk].
    + rewrite lookup_insert_eq. split; intros [H1 H2].
      * by rewrite (N y (Hd y H1)) in H2.
      * injection H1 as <-. by rewrite (N x' Hx') in H2.
    + by rewrite lookup_insert_ne.
Qed.

(** What the VFS does with a mounted file system: new negative dentries, lookups, and
    creations under a directory with a negative dentry (mknod is not used for
    directories; create and mkdir pass permission bits only). *)
Inductive vfs_step (K : kernel) (day : Z) : fs -> fs -> Prop :=
| vfs_alloc s d dir len : dentries s !! d = None ->
    vfs_step K day s (set_dentries (<[d := Dentry dir len None 1 NoDops]> (dentries s)) s)
| vfs_lookup s dir d x r s' : dentries s !! d = Some x -> d_inode x = None ->
    sfs_lookup day dir d s = Ok r s' -> vfs_step K day s s'
| vfs_mknod s dir d mode dev r s' : creatable s dir d -> S_ISDIR mode = false ->
    sfs_mknod K day dir d mode dev s = Ok r s' -> vfs_step K day s s'
| vfs_create s dir d mode r s' : creatable s dir d -> Z.land mode S_IFMT = 0 ->
    sfs_create K day dir d mode s = Ok r s' -> vfs_step K day s s'
| vfs_mkdir s dir d mode r s' : creatable s dir d -> Z.land mode S_IFMT = 0 ->
    sfs_mkdir K day dir d mode s = Ok r s' -> vfs_step K day s s'
| vfs_symlink s dir d name r s' : 11 <= day -> creatable s dir d ->
    sfs_symlink K day dir d name s = Ok r s' -> vfs_step K day s s'.

Lemma lookup_tree day dir d x r s s' :
  tree_ok s -> dentries s !! d = Some x -> d_inode x = None ->
  sfs_lookup day dir d s = Ok r s' -> tree_ok s'.
Proof.
  intros HT Hx Hn H. unfold sfs_lookup in H. rewrite (bind_ok _ _ _ _ _ (load_dentry_run d x s Hx)) in H.
  destruct (d_len x >? NAME_MAX); [by injection H as <- <-|].
  apply bind_inv in H as (ops & s1 & H1 & H).
  assert (s1 = s) as ->.
  { destruct (day =? 5); [by injection H1|]. apply bind_inv in H1 as (inf & s2 & H2 & H1).
    unfold load_info in H2. destruct (s_fs_info _); [|done]. destruct (infos s !! _); [|done].
    by injection H2 as <- <-; injection H1. }
  unfold store_dentry in H. rewrite bind_modify in H. injection H as <- <-.
  apply (negative_tree s _ d (Dentry (d_parent x) (d_len x) None (d_count x) ops)); try done.
  intros y Hy. rewrite Hx in Hy. by injection Hy as <-.
Qed.

Lemma vfs_step_tree K day s s' :
  kernel_ok K -> 6 <= day -> vfs_step K day s s' -> tree_ok s -> tree_ok s'.
Proof.
  intros HK Hd H HT. destruct H.
  - apply (negative_tree s _ d (Dentry dir len None 1 NoDops)); try done. intros x Hx. congruence.
  - by eapply lookup_tree.
  - by eapply (mknod_tree K HK day Hd dir d mode dev s).
  - eapply (mknod_tree K HK day Hd dir d (Z.lor mode S_IFREG) 0 s); try done.
    unfold S_ISDIR. rewrite Z.land_lor_distr_l. match goal with H : _ = 0 |- _ => rewrite H end. done.
  - by eapply (mkdir_tree K HK day Hd dir d mode s).
  - by eapply (symlink_tree K HK day Hd dir d name s).
Qed.

(** C25: From the mount on, whatever sequence of lookups and creations follows, the link
    count of every directory is 2 plus the number of its subdirectories. *)
Theorem directory_links K day data s0 s1 s2 i n :
  kernel_ok K -> 6 <= day -> inodes s0 = ∅ -> dentries s0 = ∅ ->
  samplefs_fill_super K day data s0 = Ok 0 s1 -> rtc (vfs_step K day) s1 s2 ->
  inodes s2 !! i = Some n -> S_ISDIR (i_mode n) = true -> i_nlink n = 2 + subdirs s2 i.
Proof.
  intros HK Hd Hi Hde Hm Hs. enough (tree_ok s2) as [_ T] by apply T.
  assert (T1 : tree_ok s1).
  { destruct (fill_super_run K day data s0 HK ltac:(lia)) as (r & s' & E & H). rewrite Hm in E.
    injection E as <- <-. destruct H as [[_ H]|[? _]]; [|done].
    destruct H as (p & j & m & _ & _ & _ & _ & Hf & Hin & _ & _ & Hd1). constructor.
    - intros d x k. by rewrite Hd1, Hde, lookup_empty.
    - intros k m' Hk _. rewrite Hin, Hi in Hk. apply lookup_insert_Some in Hk as [[<- <-]|[_ Hk]].
      + rewrite (fi_nlink _ _ Hf). unfold subdirs. by rewrite Hd1, Hde, map_filter_empty, map_size_empty.
      + by rewrite lookup_empty in Hk. }
  clear Hm. induction Hs as [|s1 s3 s2 Hst _ IH]; [done|].
  apply IH. by apply (vfs_step_tree K day s1).
Qed.

(** ** A concrete kernel *)

Definition next_key {A} (m : gmap Z A) : Z := 1 + map_fold (fun k _ b => Z.max k b) 0 m.
Lemma next_key_fresh {A} (m : gmap Z A) : m !! next_key m = None.
Proof.
  enough (forall k a, m !! k = Some a -> k <= map_fold (fun k _ b => Z.max k b) 0 m) as H.
  { destruct (m !! next_key m) eqn:E; [|done]. apply H in E. unfold next_key in E. lia. }
  apply (map_fold_weak_ind (fun b m => forall k a, m !! k = Some a -> k <= b)).
  - intros k a. by rewrite lookup_empty.
  - intros k x m' r Hk IH k' a. rewrite lookup_insert_Some. intros [[<- _]|[_ H]]; [lia|].
    apply IH in H. lia.
Qed.
Definition demo_kernel (root_ok : bool) : kernel := {|
  k_kzalloc s := Some (next_key (infos s));
  k_new_inode s := Some (next_key (inodes s));
  k_d_alloc_root _ := root_ok;
  k_init_special_inode i m d := Inode m (i_uid i) (i_gid i) (i_nlink i) (i_size i) (i_blocks i) (i_count i)
                                  (i_op i) SpecialFops (a_ops i);
  k_page_symlink _ _ _ := 0;
  k_load_nls_default := 7;
  k_simple_strtoul s := Z.of_nat (String.length s);
  k_kstrtoul s := Some (Z.of_nat (String.length s));
  k_fsuid := 0; k_fsgid := 0; MAX_LFS_FILESIZE := 2 ^ 63 - 1
|}.
Lemma demo_kernel_ok b : kernel_ok (demo_kernel b).
Proof.
  constructor; try done.
  - intros s p [= <-]. apply next_key_fresh.
  - intros s i [= <-]. apply next_key_fresh.
Qed.
Definition empty_fs : fs := Fs ∅ ∅ ∅ 0 (SuperBlock 0 0 0 0 0 None None).

Definition lower (c : Z) : Z := if (65 <=? c) && (c <=? 90) then c + 32 else c.
Definition demo_cmp (a b : list Z) (n : Z) : Z :=
  if bool_decide (lower <$> take (Z.to_nat n) a = lower <$> take (Z.to_nat n) b) then 0 else 1.
Lemma demo_cmp_ok : strnicmp_ok lower demo_cmp.
Proof. intros a b n _ _. unfold demo_cmp. case_bool_decide; split; try done. Qed.
Lemma ci_compare_hash_witness :
  let a := Qstr [65; 98] 2 0 in let b := Qstr [97; 66] 2 0 in
  let hash q := q_hash (sfs_ci_hash lower 0 Z.add id q).2 in
  wf_name a /\ wf_name b /\ hash a = hash b.
Proof.
  assert (Wa : wf_name (Qstr [65; 98] 2 0)) by (split; vm_compute; discriminate).
  assert (Wb : wf_name (Qstr [97; 66] 2 0)) by (split; vm_compute; discriminate).
  split; [exact Wa|]. split; [exact Wb|].
  pose proof (ci_compare_hash lower demo_cmp 0 Z.add id _ _ demo_cmp_ok Wa Wb) as H.
  exact (proj1 (proj2 H eq_refl)).
Defined.
Lemma mount_options_compose_witness :
  rsize (samplefs_parse_mount_options (demo_kernel true) 11 (Some "RSIZE=abc,nocase"%string) (SbInfo 0 0 0 0)) = 3.
Proof.
  exact (f_equal rsize
    (proj1 (mount_options_compose (demo_kernel true) 11 "RSIZE=abc" "nocase" (SbInfo 0 0 0 0) ltac:(lia)))).
Defined.
Lemma debug_read_complete_witness : read_file_all 62 7 0 = Some DEBUG_BYTES.
Proof. exact (proj1 (debug_read_complete 7 ltac:(lia))). Defined.
Lemma early_days_double_iput_witness :
  exists i, samplefs_fill_super (demo_kernel false) 3 None empty_fs = Halt (Fault i).
Proof.
  destruct (early_days_double_iput (demo_kernel false) 3 None empty_fs (demo_kernel_ok false))
    as (i & _ & H); [by right|done|done|done|by exists i].
Defined.

(** Mount, then make a directory under the root. *)
Definition demo_mounted : fs :=
  match samplefs_fill_super (demo_kernel true) 11 None empty_fs with Ok _ s => s | Halt _ => empty_fs end.
Definition demo_dentry : fs :=
  set_dentries (<[5 := Dentry 1 3 None 1 NoDops]> (dentries demo_mounted)) demo_mounted.
Definition demo_mkdir : fs :=
  match sfs_mkdir (demo_kernel true) 11 1 5 0x1ed demo_dentry with Ok _ s => s | Halt _ => empty_fs end.
Lemma directory_links_witness :
  exists n, inodes demo_mkdir !! 1 = Some n /\ i_nlink n = 2 + subdirs demo_mkdir 1 /\ subdirs demo_mkdir 1 = 1.
Proof.
  eexists. split; [vm_compute; reflexivity|]. split; [|vm_compute; reflexivity].
  apply (directory_links (demo_kernel true) 11 None empty_fs demo_mounted demo_mkdir 1).
  - apply demo_kernel_ok.
  - lia.
  - reflexivity.
  - reflexivity.
  - vm_compute. reflexivity.
  - apply (rtc_l _ _ demo_dentry); [apply vfs_alloc; reflexivity|]. apply rtc_once.
    apply (vfs_mkdir _ _ _ 1 5 0x1ed 0); [|reflexivity|vm_compute; reflexivity].
    do 2 eexists. split; [vm_compute; reflexivity|]. split; [reflexivity|].
    split; [vm_compute; reflexivity|]. split; reflexivity.
  - vm_compute. reflexivity.
  - reflexivity.
Defined.
