(* ===== verification/SamplefsDays.v ===== *)
(** * The days of the sample file system

    Each directory dayN of lktm/fs/samplefs is a copy of the file system at that stage;
    its functions are those of [Samplefs] for that day.  Day 11 is the copy [Samplefs]
    itself follows. *)

From S2P Require Import Prelude Samplefs.

(** ** Days 1 and 2: only the file system is registered *)

(** [reg] is the result of register_filesystem. *)
Definition register_only (reg : Z) (m : module) : Z * module :=
  (reg, Module_ (sample_parm m) (proc_fs_samplefs m) (proc_entries m) (registered m || (reg =? 0))).
Definition unregister (m : module) : module :=
  Module_ (sample_parm m) (proc_fs_samplefs m) (proc_entries m) false.

(** ** Day 1: an empty superblock *)

Definition day1_fill_super (data : option string) : cmd fs Z := mret 0.
Definition day1_init := register_only.
Definition day1_exit := unregister.

(** ** Day 2 *)

Definition day2_init := register_only.
Definition day2_exit := unregister.
(** The type of the root dentry is changed by hand: [d_flags] are the flags d_make_root gave
    it, the result is the new value; DCACHE_DIRECTORY_TYPE is a constant of the kernel. *)
Definition day2_root_flags (DCACHE_DIRECTORY_TYPE d_flags : Z) : Z :=
  Z.lor (Z.land d_flags 0x1101111) DCACHE_DIRECTORY_TYPE.
Definition day2_fill_super (K : kernel) (DCACHE_DIRECTORY_TYPE : Z) (data : option string) (d_flags : Z) :
    cmd fs (Z * Z) :=
  r ← samplefs_fill_super K 2 data;
  mret (r, if r =? 0 then day2_root_flags DCACHE_DIRECTORY_TYPE d_flags else d_flags).
(** The mask keeps bit 20: with the kernel's numbers (type in bits 20 to 22, 1 for a whiteout,
    2 for a directory) the type of a whiteout becomes 3, not 2. *)
Lemma day2_type_not_directory d_flags :
  Z.testbit d_flags 20 = true -> Z.testbit (day2_root_flags 0x200000 d_flags) 20 = true.
Proof. intros H. unfold day2_root_flags. by rewrite Z.lor_spec, Z.land_spec, H. Qed.
Definition day2_put_super := samplefs_put_super.
Definition day2_parse_mount_options := fun K => samplefs_parse_mount_options K 2.

(** ** Day 3 *)

Definition day3_put_super := samplefs_put_super.
Definition day3_parse_mount_options := fun K => samplefs_parse_mount_options K 3.
Definition day3_fill_super := fun K => samplefs_fill_super K 3.
Definition day3_proc_init := sfs_proc_init.
Definition day3_proc_clean := sfs_proc_clean.
Definition day3_init := init_samplefs_fs.
Definition day3_exit := exit_samplefs_fs.

(** ** Day 4 *)

Definition day4_put_super := samplefs_put_super.
Definition day4_parse_mount_options := fun K => samplefs_parse_mount_options K 4.
Definition day4_fill_super := fun K => samplefs_fill_super K 4.
Definition day4_get_inode := fun K => samplefs_get_inode K 4.
Definition day4_debug_read := sfs_debug_read.
Definition day4_proc_init := sfs_proc_init.
Definition day4_proc_clean := sfs_proc_clean.
Definition day4_init := init_samplefs_fs.
Definition day4_exit := exit_samplefs_fs.

(** ** Day 5 *)

Definition day5_put_super := samplefs_put_super.
Definition day5_parse_mount_options := fun K => samplefs_parse_mount_options K 5.
Definition day5_fill_super := fun K => samplefs_fill_super K 5.
Definition day5_get_inode := fun K => samplefs_get_inode K 5.
Definition day5_debug_read := sfs_debug_read.
Definition day5_proc_init := sfs_proc_init.
Definition day5_proc_clean := sfs_proc_clean.
Definition day5_init := init_samplefs_fs.
Definition day5_exit := exit_samplefs_fs.
Definition day5_ci_hash := sfs_ci_hash.
Definition day5_ci_compare := sfs_ci_compare.
Definition day5_delete_dentry := sfs_delete_dentry.
Definition day5_lookup := sfs_lookup 5.

(** ** Day 6 *)

Definition day6_put_super := samplefs_put_super.
Definition day6_parse_mount_options := fun K => samplefs_parse_mount_options K 6.
Definition day6_fill_super := fun K => samplefs_fill_super K 6.
Definition day6_get_inode := fun K => samplefs_get_inode K 6.
Definition day6_debug_read := sfs_debug_read.
Definition day6_proc_init := sfs_proc_init.
Definition day6_proc_clean := sfs_proc_clean.
Definition day6_init := init_samplefs_fs.
Definition day6_exit := exit_samplefs_fs.
Definition day6_ci_hash := sfs_ci_hash.
Definition day6_ci_compare := sfs_ci_compare.
Definition day6_delete_dentry := sfs_delete_dentry.
Definition day6_lookup := sfs_lookup 6.
Definition day6_mknod := fun K => sfs_mknod K 6.
Definition day6_mkdir := fun K => sfs_mkdir K 6.
Definition day6_create := fun K => sfs_create K 6.

(** ** Day 7 *)

Definition day7_put_super := samplefs_put_super.
Definition day7_parse_mount_options := fun K => samplefs_parse_mount_options K 7.
Definition day7_fill_super := fun K => samplefs_fill_super K 7.
Definition day7_get_inode := fun K => samplefs_get_inode K 7.
Definition day7_debug_read := sfs_debug_read.
Definition day7_proc_init := sfs_proc_init.
Definition day7_proc_clean := sfs_proc_clean.
Definition day7_init := init_samplefs_fs.
Definition day7_exit := exit_samplefs_fs.
Definition day7_ci_hash := sfs_ci_hash.
Definition day7_ci_compare := sfs_ci_compare.
Definition day7_delete_dentry := sfs_delete_dentry.
Definition day7_lookup := sfs_lookup 7.
Definition day7_mknod := fun K => sfs_mknod K 7.
Definition day7_mkdir := fun K => sfs_mkdir K 7.
Definition day7_create := fun K => sfs_create K 7.

(** ** Day 9 *)

Definition day9_put_super := samplefs_put_super.
Definition day9_parse_mount_options := fun K => samplefs_parse_mount_options K 9.
Definition day9_fill_super := fun K => samplefs_fill_super K 9.
Definition day9_get_inode := fun K => samplefs_get_inode K 9.
Definition day9_debug_read := sfs_debug_read.
Definition day9_proc_init := sfs_proc_init.
Definition day9_proc_clean := sfs_proc_clean.
Definition day9_init := init_samplefs_fs.
Definition day9_exit := exit_samplefs_fs.
Definition day9_ci_hash := sfs_ci_hash.
Definition day9_ci_compare := sfs_ci_compare.
Definition day9_delete_dentry := sfs_delete_dentry.
Definition day9_lookup := sfs_lookup 9.
Definition day9_mknod := fun K => sfs_mknod K 9.
Definition day9_mkdir := fun K => sfs_mkdir K 9.
Definition day9_create := fun K => sfs_create K 9.
