(* ===== verification/SampleBlk.v ===== *)
(** * The sample block driver (lktm/drivers/block/sampleblk)

    A disk in memory, in two copies: day2 serves a request queue ([sampleblk_request]),
    day1 the multi-queue interface ([myramdisk_queue_rq]); [day] selects the copy where
    the rest differs.  The state holds the kernel objects the driver owns, by address, the
    pages of the requests and the results reported to the block layer; the kernel's
    allocators are the parameter [blk_kernel].  Locks, [kmap] and messages have no effect
    here.  A copy outside its area or its page is a fault. *)

From stdpp Require Import pretty.
From S2P Require Import Prelude Arch.

Definition EIO : Z := 5.
Definition SAMPLEBLK_MINOR : Z := 1.
Definition sampleblk_sect_size : Z := 512.
Definition sampleblk_nsects : Z := 10 * 1024.

(** [struct sampleblk_dev]; pointers are addresses, 0 is NULL. *)
Record sampleblk_dev := Dev { minor : Z; queue : Z; disk : Z; size : Z; data : Z }.
Definition set_minor v d := Dev v (queue d) (disk d) (size d) (data d).
Definition set_queue v d := Dev (minor d) v (disk d) (size d) (data d).
Definition set_disk v d := Dev (minor d) (queue d) v (size d) (data d).
Definition set_size v d := Dev (minor d) (queue d) (disk d) v (data d).
Definition set_data_area v d := Dev (minor d) (queue d) (disk d) (size d) v.

(** The fields of [struct gendisk] the driver fills; [visible] after [add_disk]. *)
Record gendisk := Disk {
  d_major : Z; first_minor : Z; private_data : Z; d_queue : Z; disk_name : string;
  capacity : Z; visible : bool
}.

Record blk := Blk {
  sampleblk_major : Z;
  dev_ptr : Z;                      (* the global [sampleblk_dev] *)
  devs : gmap Z sampleblk_dev;      (* from kzalloc *)
  areas : gmap Z (list Z);          (* from vmalloc *)
  queues : gmap Z Z;                (* request queues, with [queuedata] *)
  disks : gmap Z gendisk;
  blkdevs : gset Z;                 (* registered major numbers *)
  pages : gmap Z (list Z);          (* the pages requests refer to *)
  ended : list Z                    (* results of completed requests, in order *)
}.
Definition set_major v s := Blk v (dev_ptr s) (devs s) (areas s) (queues s) (disks s) (blkdevs s) (pages s) (ended s).
Definition set_dev_ptr v s := Blk (sampleblk_major s) v (devs s) (areas s) (queues s) (disks s) (blkdevs s) (pages s) (ended s).
Definition set_devs v s := Blk (sampleblk_major s) (dev_ptr s) v (areas s) (queues s) (disks s) (blkdevs s) (pages s) (ended s).
Definition set_areas v s := Blk (sampleblk_major s) (dev_ptr s) (devs s) v (queues s) (disks s) (blkdevs s) (pages s) (ended s).
Definition set_queues v s := Blk (sampleblk_major s) (dev_ptr s) (devs s) (areas s) v (disks s) (blkdevs s) (pages s) (ended s).
Definition set_disks v s := Blk (sampleblk_major s) (dev_ptr s) (devs s) (areas s) (queues s) v (blkdevs s) (pages s) (ended s).
Definition set_blkdevs v s := Blk (sampleblk_major s) (dev_ptr s) (devs s) (areas s) (queues s) (disks s) v (pages s) (ended s).
Definition set_pages v s := Blk (sampleblk_major s) (dev_ptr s) (devs s) (areas s) (queues s) (disks s) (blkdevs s) v (ended s).
Definition set_ended v s := Blk (sampleblk_major s) (dev_ptr s) (devs s) (areas s) (queues s) (disks s) (blkdevs s) (pages s) v.

(** The object at an address; a stale or null pointer is a fault. *)
Definition deref {A} (objs : blk -> gmap Z A) (p : Z) : cmd blk A := fun s =>
  match objs s !! p with Some a => Ok a s | None => Halt (Fault p) end.

(** ** Requests *)

Record bio_vec := BioVec { bv_page : Z; bv_len : Z; bv_offset : Z }.
(** What the block layer's accessors return for a request: [cmd_type == REQ_TYPE_FS],
    blk_rq_pos, blk_rq_bytes, blk_rq_cur_sectors, rq_data_dir (1 for a write), the
    segments rq_for_each_segment visits, and rq_disk->private_data. *)
Record request := Request {
  rq_fs : bool; rq_pos : Z; rq_bytes : Z; rq_cur_sectors : Z; rq_write : Z;
  rq_segments : list bio_vec; rq_private : Z
}.

(** Part of an array of bytes, and replacing a part. *)
Definition slice (off n : Z) (l : list Z) : list Z := take (Z.to_nat n) (drop (Z.to_nat off) l).
Definition splice (off : Z) (bs l : list Z) : list Z :=
  take (Z.to_nat off) l ++ bs ++ drop (Z.to_nat off + length bs) l.
Definition within (off n : Z) (l : list Z) : bool :=
  (0 <=? off) && (0 <=? n) && (off + n <=? Z.of_nat (length l)).

(** The two directions of [memcpy] between the data area and a page. *)
Definition copy_in (area pos page off n : Z) : cmd blk unit :=
  if n =? 0 then mret tt else
  l ← deref areas area;
  b ← deref pages page;
  if negb (within pos n l) then halt (Fault (area + pos))
  else if negb (within off n b) then halt (Fault (page + off))
  else modify (fun s => set_areas (<[area := splice pos (slice off n b) l]> (areas s)) s).
Definition copy_out (area pos page off n : Z) : cmd blk unit :=
  if n =? 0 then mret tt else
  l ← deref areas area;
  b ← deref pages page;
  if negb (within pos n l) then halt (Fault (area + pos))
  else if negb (within off n b) then halt (Fault (page + off))
  else modify (fun s => set_pages (<[page := splice off (slice pos n l) b]> (pages s)) s).

Definition sampleblk_handle_io (dev pos size page off write : Z) : cmd blk Z :=
  d ← deref devs dev;
  (if nonzero write then copy_in (data d) pos page off size
   else copy_out (data d) pos page off size) ;;
  mret 0.

(** The loop over the segments; it leaves with [rv]. *)
Fixpoint io_segments (pos write rv : Z) (segs : list bio_vec) : cmd blk Z :=
  match segs with
  | [] => mret rv
  | b :: segs' =>
      s ← get;
      rv ← sampleblk_handle_io (dev_ptr s) pos (bv_len b) (bv_page b) (bv_offset b) write;
      if rv <? 0 then mret rv else io_segments (u64 (pos + bv_len b)) write rv segs'
  end.

(** One round of the loop of [sampleblk_request], up to [skip]; [rv] keeps its value from
    the round before until it is assigned. *)
Definition handle_request (rq : request) (rv : Z) : cmd blk Z :=
  if negb (rq_fs rq) then mret (- EIO)
  else
    s ← get;
    if negb (dev_ptr s =? rq_private rq) then panic "BUG"
    else
      let pos := u64 (rq_pos rq * sampleblk_sect_size) in
      d ← deref devs (dev_ptr s);
      if u64 (size d) <? u64 (pos + rq_bytes rq) then mret (- EIO)
      else io_segments pos (rq_write rq) rv (rq_segments rq).

(** The requests are those [blk_fetch_request] returns until it returns NULL. *)
Fixpoint request_loop (rv : Z) (rqs : list request) : cmd blk unit :=
  match rqs with
  | [] => mret tt
  | rq :: rqs' =>
      rv ← handle_request rq rv;
      modify (fun s => set_ended (ended s ++ [rv]) s) ;;
      request_loop rv rqs'
  end.
Definition sampleblk_request (rqs : list request) : cmd blk unit := request_loop 0 rqs.

Definition BLK_STS_OK : Z := 0.
Definition BLK_STS_IOERR : Z := 10.

(** day1: the loop of [myramdisk_queue_rq]; every round moves blk_rq_cur_sectors. *)
Fixpoint mq_segments (dev pos num_sector write : Z) (segs : list bio_vec) : cmd blk Z :=
  match segs with
  | [] => mret BLK_STS_OK
  | b :: segs' =>
      d ← deref devs dev;
      let offset := u64 (pos * sampleblk_sect_size) in
      let n := u64 (num_sector * sampleblk_sect_size) in
      if u64 (offset + n) <=? u64 (size d) then
        (if write =? 1 then copy_in (data d) offset (bv_page b) (bv_offset b) n
         else copy_out (data d) offset (bv_page b) (bv_offset b) n) ;;
        mq_segments dev (u64 (pos + num_sector)) num_sector write segs'
      else mret BLK_STS_IOERR
  end.
Definition myramdisk_queue_rq (rq : request) : cmd blk Z :=
  ret ← mq_segments (rq_private rq) (rq_pos rq) (rq_cur_sectors rq) (rq_write rq) (rq_segments rq);
  modify (fun s => set_ended (ended s ++ [ret]) s) ;;
  mret ret.

Definition sampleblk_ioctl (command argument : Z) : cmd blk Z := mret 0.
Definition sampleblk_open (mode : Z) : cmd blk Z := mret 0.
Definition sampleblk_release (mode : Z) : cmd blk unit := mret tt.

(** ** Loading and unloading *)

(** Addresses the kernel returns, 0 for failure; [register_blkdev] returns the major
    number or an error. *)
Record blk_kernel := BlkKernel {
  k_register_blkdev : blk -> Z;
  k_kzalloc : blk -> Z;
  k_vmalloc : blk -> Z -> Z * list Z;
  k_init_queue : blk -> Z;
  k_alloc_disk : blk -> Z
}.
(** Objects the kernel hands out are not in use; an area has the size asked for. *)
Record blk_kernel_ok (K : blk_kernel) : Prop := {
  register_fresh s : 0 <= k_register_blkdev K s -> k_register_blkdev K s ∉ blkdevs s;
  kzalloc_fresh s : k_kzalloc K s <> 0 -> devs s !! k_kzalloc K s = None;
  vmalloc_fresh s n : (k_vmalloc K s n).1 <> 0 -> areas s !! (k_vmalloc K s n).1 = None;
  vmalloc_size s n : (k_vmalloc K s n).1 <> 0 -> Z.of_nat (length (k_vmalloc K s n).2) = n;
  queue_fresh s : k_init_queue K s <> 0 -> queues s !! k_init_queue K s = None;
  disk_fresh s : k_alloc_disk K s <> 0 -> disks s !! k_alloc_disk K s = None
}.

Definition free_obj {A} (objs : blk -> gmap Z A) (upd : gmap Z A -> blk -> blk) (p : Z) : cmd blk unit :=
  deref objs p ;; modify (fun s => upd (delete p (objs s)) s).
Definition kfree (p : Z) : cmd blk unit := if p =? 0 then mret tt else free_obj devs set_devs p.
Definition vfree (p : Z) : cmd blk unit := if p =? 0 then mret tt else free_obj areas set_areas p.
Definition blk_cleanup_queue := free_obj queues set_queues.
Definition put_disk := free_obj disks set_disks.
Definition upd_disk (p : Z) (f : gendisk -> gendisk) : cmd blk unit :=
  g ← deref disks p; modify (fun s => set_disks (<[p := f g]> (disks s)) s).
Definition del_gendisk (p : Z) : cmd blk unit :=
  upd_disk p (fun g => Disk (d_major g) (first_minor g) (private_data g) (d_queue g) (disk_name g) (capacity g) false).

(** [sampleblk_dev->field = v]. *)
Definition upd_dev (f : sampleblk_dev -> sampleblk_dev) : cmd blk unit :=
  s ← get; d ← deref devs (dev_ptr s);
  modify (fun s => set_devs (<[dev_ptr s := f d]> (devs s)) s).

Section Module_.
Context (K : blk_kernel) (day : Z).

Definition fail_dev (rv : Z) : cmd blk Z := s ← get; kfree (dev_ptr s) ;; mret rv.
Definition fail_data (rv : Z) : cmd blk Z :=
  s ← get; d ← deref devs (dev_ptr s); vfree (data d) ;; fail_dev rv.
Definition fail_queue (rv : Z) : cmd blk Z :=
  s ← get; d ← deref devs (dev_ptr s); blk_cleanup_queue (queue d) ;; fail_data rv.

(** From [alloc_disk] to the end. *)
Definition alloc_and_add_disk (mn : Z) : cmd blk Z :=
  s ← get;
  let g := k_alloc_disk K s in
  if g =? 0 then fail_queue (- ENOMEM)
  else
    modify (fun s => set_disks (<[g := Disk 0 0 0 0 EmptyString 0 false]> (disks s)) s) ;;
    upd_dev (set_disk g) ;;
    s ← get;
    d ← deref devs (dev_ptr s);
    upd_disk g (fun _ => Disk (sampleblk_major s) mn (dev_ptr s) (queue d)
                              ("sampleblk" +:+ pretty mn)%string sampleblk_nsects true) ;;
    mret 0.

Definition sampleblk_alloc (mn : Z) : cmd blk Z :=
  s ← get;
  let p := k_kzalloc K s in
  modify (set_dev_ptr p) ;;
  if p =? 0 then mret (- ENOMEM)
  else
    modify (fun s => set_devs (<[p := Dev 0 0 0 0 0]> (devs s)) s) ;;
    let sz := s32 (sampleblk_sect_size * sampleblk_nsects) in
    upd_dev (set_size sz) ;;
    s ← get;
    let '(a, bytes) := k_vmalloc K s sz in
    (if a =? 0 then mret tt else modify (fun s => set_areas (<[a := bytes]> (areas s)) s)) ;;
    upd_dev (set_data_area a) ;;
    if a =? 0 then fail_dev (- ENOMEM)
    else
      upd_dev (set_minor mn) ;;
      s ← get;
      let q := k_init_queue K s in
      (if q =? 0 then mret tt else modify (fun s => set_queues (<[q := 0]> (queues s)) s)) ;;
      upd_dev (set_queue q) ;;
      if q =? 0 then fail_data (- ENOMEM)
      else
        (if day =? 1 then modify (fun s => set_queues (<[q := dev_ptr s]> (queues s)) s) else mret tt) ;;
        alloc_and_add_disk mn.

Definition sampleblk_free (p : Z) : cmd blk unit :=
  d ← deref devs p;
  del_gendisk (disk d) ;;
  blk_cleanup_queue (queue d) ;;
  put_disk (disk d) ;;
  vfree (data d) ;;
  kfree p.

Definition sampleblk_init : cmd blk Z :=
  s ← get;
  let mj := k_register_blkdev K s in
  modify (set_major mj) ;;
  if mj <? 0 then mret mj
  else
    modify (fun s => set_blkdevs ({[mj]} ∪ blkdevs s) s) ;;
    rv ← sampleblk_alloc SAMPLEBLK_MINOR;
    mret 0.

Definition sampleblk_exit : cmd blk unit :=
  s ← get;
  sampleblk_free (dev_ptr s) ;;
  modify (fun s => set_blkdevs (blkdevs s ∖ {[sampleblk_major s]}) s).
End Module_.

(** ** The copy of day1 *)

Definition day1_handle_io := sampleblk_handle_io.
Definition day1_alloc (K : blk_kernel) (mn : Z) : cmd blk Z := sampleblk_alloc K 1 mn.
Definition day1_free := sampleblk_free.
Definition day1_init (K : blk_kernel) : cmd blk Z := sampleblk_init K 1.
Definition day1_exit := sampleblk_exit.
