(* ===== verification/SampleBlkProof.v ===== *)
(** * Properties of the sample block driver

    A disk is an array of bytes and a request moves one range of it: the reference the
    segment loops of both copies are compared with.  Loading gives back what it took when
    it fails, and unloading after a failed load uses an object that is gone. *)

From S2P Require Import Prelude Arch SampleBlk.

(** ** Parts of arrays *)

Lemma slice_length off n l : within off n l = true -> Z.of_nat (length (slice off n l)) = n.
Proof. unfold within, slice. rewrite length_take, length_drop. lia. Qed.
Lemma splice_length off bs l :
  0 <= off -> off + Z.of_nat (length bs) <= Z.of_nat (length l) -> length (splice off bs l) = length l.
Proof. intros. unfold splice. rewrite !length_app, length_take, length_drop. lia. Qed.
Lemma splice_nil off l : splice off [] l = l.
Proof. unfold splice. simpl. rewrite Nat.add_0_r. apply take_drop. Qed.

Lemma splice_lookup off bs l i :
  0 <= off -> off + Z.of_nat (length bs) <= Z.of_nat (length l) ->
  splice off bs l !! i =
    if decide (Z.to_nat off <= i < Z.to_nat off + length bs)%nat then bs !! (i - Z.to_nat off)%nat else l !! i.
Proof.
  intros H1 H2. unfold splice. case_decide as Hd.
  - rewrite lookup_app_r by (rewrite length_take; lia). rewrite length_take, Nat.min_l by lia.
    by rewrite lookup_app_l by lia.
  - destruct (decide (i < Z.to_nat off)%nat).
    + rewrite lookup_app_l by (rewrite length_take; lia). by rewrite lookup_take_lt by lia.
    + rewrite lookup_app_r by (rewrite length_take; lia). rewrite length_take, Nat.min_l by lia.
      rewrite lookup_app_r by lia. rewrite lookup_drop. f_equal. lia.
Qed.

Lemma slice_lookup off n l i :
  slice off n l !! i = if decide (i < Z.to_nat n)%nat then l !! (Z.to_nat off + i)%nat else None.
Proof.
  unfold slice. case_decide; [by rewrite lookup_take_lt, lookup_drop by lia|].
  by rewrite lookup_take_ge by lia.
Qed.

(** Two adjacent parts replaced one after the other. *)
Lemma splice_splice off b1 b2 l :
  0 <= off -> off + Z.of_nat (length b1) + Z.of_nat (length b2) <= Z.of_nat (length l) ->
  splice (off + Z.of_nat (length b1)) b2 (splice off b1 l) = splice off (b1 ++ b2) l.
Proof.
  intros H1 H2. apply list_eq. intros i.
  rewrite !splice_lookup by (rewrite ?splice_length, ?length_app; lia). rewrite length_app.
  repeat case_decide; try lia; rewrite ?lookup_app_l, ?lookup_app_r by lia; f_equal; lia.
Qed.

Lemma slice_splice off bs l :
  0 <= off -> off + Z.of_nat (length bs) <= Z.of_nat (length l) ->
  slice off (Z.of_nat (length bs)) (splice off bs l) = bs.
Proof.
  intros H1 H2. apply list_eq. intros i. rewrite slice_lookup, splice_lookup by done.
  repeat case_decide; try lia; [f_equal; lia|]. symmetry. apply lookup_ge_None. lia.
Qed.
Lemma slice_splice_other off n off' bs l :
  0 <= off -> 0 <= off' -> off' + Z.of_nat (length bs) <= Z.of_nat (length l) ->
  off + n <= off' \/ off' + Z.of_nat (length bs) <= off ->
  slice off n (splice off' bs l) = slice off n l.
Proof.
  intros H1 H2 H3 H4. apply list_eq. intros i. rewrite !slice_lookup.
  case_decide; [|done]. rewrite splice_lookup by done. case_decide; [lia|done].
Qed.
Lemma slice_app off n m l :
  0 <= off -> 0 <= n -> 0 <= m -> slice off (n + m) l = slice off n l ++ slice (off + n) m l.
Proof.
  intros. unfold slice. rewrite !Z2Nat.inj_add by lia. rewrite <- drop_drop. symmetry. apply take_take_drop.
Qed.

(** ** The reference *)

Definition page_of (pgs : gmap Z (list Z)) (b : bio_vec) : list Z := default [] (pgs !! bv_page b).
Definition seg_bytes (pgs : gmap Z (list Z)) (b : bio_vec) : list Z := slice (bv_offset b) (bv_len b) (page_of pgs b).
(** The bytes the segments hold, and storing bytes into them. *)
Definition gather (pgs : gmap Z (list Z)) (segs : list bio_vec) : list Z := segs ≫= seg_bytes pgs.
Fixpoint scatter (pgs : gmap Z (list Z)) (segs : list bio_vec) (bs : list Z) : gmap Z (list Z) :=
  match segs with
  | [] => pgs
  | b :: segs' =>
      scatter (<[bv_page b := splice (bv_offset b) (take (Z.to_nat (bv_len b)) bs) (page_of pgs b)]> pgs)
              segs' (drop (Z.to_nat (bv_len b)) bs)
  end.
Definition total (segs : list bio_vec) : Z := foldr (fun b n => bv_len b + n) 0 segs.

(** Moving a range of the disk: what a request means. *)
Definition move (write : Z) (pos : Z) (segs : list bio_vec) (l : list Z) (pgs : gmap Z (list Z)) :
    list Z * gmap Z (list Z) :=
  if nonzero write then (splice pos (gather pgs segs) l, pgs)
  else (l, scatter pgs segs (slice pos (total segs) l)).

(** The segment lies in a page. *)
Definition seg_ok (pgs : gmap Z (list Z)) (b : bio_vec) : Prop :=
  exists l, pgs !! bv_page b = Some l /\ within (bv_offset b) (bv_len b) l = true.

Lemma seg_ok_page pgs b : seg_ok pgs b ->
  pgs !! bv_page b = Some (page_of pgs b) /\ within (bv_offset b) (bv_len b) (page_of pgs b) = true.
Proof. intros (l & Hl & Hw). unfold page_of. by rewrite Hl. Qed.
Lemma seg_len_nonneg pgs b : seg_ok pgs b -> 0 <= bv_len b.
Proof. intros (l & _ & Hw). unfold within in Hw. lia. Qed.
Lemma total_nonneg pgs segs : Forall (seg_ok pgs) segs -> 0 <= total segs.
Proof.
  induction 1 as [|b segs Hb _ IH]; simpl; [lia|]. pose proof (seg_len_nonneg _ _ Hb). lia.
Qed.
Lemma seg_bytes_length pgs b : seg_ok pgs b -> Z.of_nat (length (seg_bytes pgs b)) = bv_len b.
Proof. intros [_ Hw]%seg_ok_page. by apply slice_length. Qed.
Lemma gather_length pgs segs : Forall (seg_ok pgs) segs -> Z.of_nat (length (gather pgs segs)) = total segs.
Proof.
  induction 1 as [|b segs Hb _ IH]; [done|]. unfold gather in *. cbn [mbind list_bind total foldr].
  rewrite length_app, Nat2Z.inj_add, (seg_bytes_length _ _ Hb). unfold total in IH. lia.
Qed.

(** Overwriting part of a page keeps every segment inside its page. *)
Lemma seg_ok_splice pgs b bs b' :
  seg_ok pgs b -> Z.of_nat (length bs) = bv_len b -> seg_ok pgs b' ->
  seg_ok (<[bv_page b := splice (bv_offset b) bs (page_of pgs b)]> pgs) b'.
Proof.
  intros Hb Hl (l & Hp & Hw). apply seg_ok_page in Hb as [Hp' Hw'].
  destruct (decide (bv_page b = bv_page b')) as [E|E].
  - rewrite <- E in Hp. rewrite Hp' in Hp. injection Hp as <-.
    eexists. rewrite <- E, lookup_insert_eq. split; [done|]. unfold within in *.
    rewrite splice_length by lia. done.
  - exists l. by rewrite lookup_insert_ne.
Qed.
Lemma seg_ok_scatter pgs segs bs b :
  Forall (seg_ok pgs) segs -> Z.of_nat (length bs) = total segs -> seg_ok pgs b ->
  seg_ok (scatter pgs segs bs) b.
Proof.
  revert pgs bs. induction segs as [|c segs IH]; intros pgs bs Hs Hl Hb; simpl; [done|].
  apply Forall_cons in Hs as [Hc Hs]. simpl in Hl. pose proof (total_nonneg _ _ Hs).
  pose proof (seg_len_nonneg _ _ Hc).
  assert (Z.of_nat (length (take (Z.to_nat (bv_len c)) bs)) = bv_len c) as Ht
    by (rewrite length_take; unfold total in *; lia).
  apply IH; [|rewrite length_drop; unfold total in *; lia|by apply seg_ok_splice].
  eapply Forall_impl; [exact Hs|]. intros d Hd. by apply seg_ok_splice.
Qed.

(** ** One segment *)

Lemma set_areas_same s : set_areas (areas s) s = s.
Proof. by destruct s. Qed.
Lemma set_pages_same s : set_pages (pages s) s = s.
Proof. by destruct s. Qed.

Lemma copy_in_run a pos b l s :
  areas s !! a = Some l -> seg_ok (pages s) b -> within pos (bv_len b) l = true ->
  copy_in a pos (bv_page b) (bv_offset b) (bv_len b) s =
    Ok tt (set_areas (<[a := splice pos (seg_bytes (pages s) b) l]> (areas s)) s).
Proof.
  intros Ha Hb Hw. pose proof (seg_bytes_length _ _ Hb) as Hl. apply seg_ok_page in Hb as [Hp Hw'].
  unfold copy_in. destruct (Z.eqb_spec (bv_len b) 0) as [E|E].
  - rewrite E in Hl. destruct (seg_bytes (pages s) b); [|done].
    by rewrite splice_nil, insert_id, set_areas_same.
  - unfold deref. unfold mbind at 1, cmd_bind at 1. rewrite Ha. unfold mbind, cmd_bind. rewrite Hp.
    by rewrite Hw, Hw'.
Qed.
Lemma copy_out_run a pos b l s :
  areas s !! a = Some l -> seg_ok (pages s) b -> within pos (bv_len b) l = true ->
  copy_out a pos (bv_page b) (bv_offset b) (bv_len b) s =
    Ok tt (set_pages (<[bv_page b := splice (bv_offset b) (slice pos (bv_len b) l) (page_of (pages s) b)]> (pages s)) s).
Proof.
  intros Ha Hb Hw. apply seg_ok_page in Hb as [Hp Hw']. unfold copy_out.
  destruct (Z.eqb_spec (bv_len b) 0) as [E|E].
  - pose proof (slice_length _ _ _ Hw) as Hl. rewrite E in *. destruct (slice pos 0 l); [|done].
    by rewrite splice_nil, insert_id, set_pages_same.
  - unfold deref. unfold mbind at 1, cmd_bind at 1. rewrite Ha. unfold mbind, cmd_bind. rewrite Hp.
    by rewrite Hw, Hw'.
Qed.

(** One segment moves what [move] moves for that segment alone. *)
Definition moved (a : Z) (w pos : Z) (segs : list bio_vec) (l : list Z) (s : blk) : blk :=
  let '(l', pgs) := move w pos segs l (pages s) in set_pages pgs (set_areas (<[a := l']> (areas s)) s).

Lemma copy_run a w pos b l s :
  areas s !! a = Some l -> seg_ok (pages s) b -> within pos (bv_len b) l = true ->
  (if nonzero w then copy_in a pos (bv_page b) (bv_offset b) (bv_len b)
   else copy_out a pos (bv_page b) (bv_offset b) (bv_len b)) s = Ok tt (moved a w pos [b] l s).
Proof.
  intros Ha Hb Hw. unfold moved, move. destruct (nonzero w).
  - rewrite (copy_in_run _ _ _ l) by done. unfold gather. cbn [mbind list_bind]. rewrite app_nil_r. by destruct s.
  - rewrite (copy_out_run _ _ _ l) by done. rewrite (insert_id (areas s)), set_areas_same by done. cbn.
    rewrite Z.add_0_r, take_ge; [done|]. unfold slice. rewrite length_take. lia.
Qed.

(** The segments one after the other move the whole range. *)
Lemma moved_nil a w pos l s : areas s !! a = Some l -> moved a w pos [] l s = s.
Proof.
  intros Ha. unfold moved, move. destruct (nonzero w); cbn; rewrite ?splice_nil, insert_id by done;
    by destruct s.
Qed.
Lemma moved_area a w pos segs l s : areas (moved a w pos segs l s) !! a = Some (move w pos segs l (pages s)).1.
Proof. unfold moved. destruct (move _ _ _ _ _). apply lookup_insert_eq. Qed.
Lemma moved_pages a w pos segs l s : pages (moved a w pos segs l s) = (move w pos segs l (pages s)).2.
Proof. unfold moved. by destruct (move _ _ _ _ _). Qed.
Lemma move_length w pos segs l pgs :
  Forall (seg_ok pgs) segs -> within pos (total segs) l = true -> length (move w pos segs l pgs).1 = length l.
Proof.
  intros Hs Hw. unfold move. destruct (nonzero w); [|done]. cbn [fst]. pose proof (gather_length _ _ Hs).
  unfold within in Hw. apply splice_length; lia.
Qed.
Lemma move_seg_ok w pos segs l pgs b :
  Forall (seg_ok pgs) segs -> within pos (total segs) l = true -> seg_ok pgs b ->
  seg_ok (move w pos segs l pgs).2 b.
Proof.
  intros Hs Hw Hb. unfold move. destruct (nonzero w); [done|]. cbn [snd].
  apply seg_ok_scatter; [done|by apply slice_length|done].
Qed.

Lemma move_cons w pos b segs l pgs :
  Forall (seg_ok pgs) (b :: segs) -> within pos (total (b :: segs)) l = true ->
  move w pos (b :: segs) l pgs =
    let '(l1, p1) := move w pos [b] l pgs in move w (pos + bv_len b) segs l1 p1.
Proof.
  intros [Hb Hs]%Forall_cons Hw. pose proof (total_nonneg _ _ Hs). pose proof (seg_len_nonneg _ _ Hb).
  unfold within in Hw. cbn [total foldr] in Hw. unfold total in H. unfold move. destruct (nonzero w).
  - unfold gather. cbn [mbind list_bind]. rewrite app_nil_r.
    pose proof (gather_length _ _ Hs) as Hg. unfold gather, total in Hg.
    rewrite <- (seg_bytes_length _ _ Hb). rewrite splice_splice; [done|lia|].
    rewrite (seg_bytes_length _ _ Hb). lia.
  - cbn [scatter total foldr]. rewrite Z.add_0_r. fold (total segs). unfold total in *.
    rewrite slice_app by lia. set (n := slice pos (bv_len b) l).
    assert (length n = Z.to_nat (bv_len b)) as Hn by (subst n; unfold slice; rewrite length_take, length_drop; lia).
    rewrite <- Hn, take_app_length, drop_app_length, take_ge by done. done.
Qed.

Lemma moved_cons a w pos b segs l s :
  Forall (seg_ok (pages s)) (b :: segs) -> within pos (total (b :: segs)) l = true ->
  moved a w (pos + bv_len b) segs (move w pos [b] l (pages s)).1 (moved a w pos [b] l s) =
  moved a w pos (b :: segs) l s.
Proof.
  intros Hs Hw. unfold moved. rewrite (move_cons w pos b segs l) by done.
  destruct (move w pos [b] l (pages s)) as [l1 p1]. cbn [fst snd pages set_pages].
  destruct (move w (pos + bv_len b) segs l1 p1) as [l2 p2].
  unfold set_pages, set_areas. cbn. by rewrite insert_insert_eq.
Qed.

(** ** The request queue *)

(** The global points to a device whose data area holds [l]. *)
Definition shows (s : blk) (d : sampleblk_dev) (l : list Z) : Prop :=
  devs s !! dev_ptr s = Some d /\ areas s !! data d = Some l /\
  size d = Z.of_nat (length l) /\ size d < 2 ^ 63.

Lemma moved_shows s d l w pos segs :
  shows s d l -> Forall (seg_ok (pages s)) segs -> within pos (total segs) l = true ->
  shows (moved (data d) w pos segs l s) d (move w pos segs l (pages s)).1.
Proof.
  intros (H1 & H2 & H3 & H4) Hs Hw. split; [|split; [apply moved_area|split; [|done]]].
  - unfold moved. by destruct (move _ _ _ _ _).
  - by rewrite move_length.
Qed.

Lemma io_segments_run w segs pos rv d l s :
  shows s d l -> Forall (seg_ok (pages s)) segs -> within pos (total segs) l = true ->
  io_segments pos w rv segs s = Ok (match segs with [] => rv | _ => 0 end) (moved (data d) w pos segs l s).
Proof.
  revert pos rv l s. induction segs as [|b segs IH]; intros pos rv l s Hsh Hs Hw.
  { simpl. rewrite moved_nil; [done|]. apply Hsh. }
  pose proof Hs as [Hb Hs']%Forall_cons. pose proof (total_nonneg _ _ Hs') as Hn.
  pose proof (seg_len_nonneg _ _ Hb). pose proof Hsh as (H1 & H2 & H3 & H4).
  assert (within pos (bv_len b) l = true) as Hw1.
  { unfold within in *. cbn [total foldr] in Hw. unfold total in Hn. lia. }
  cbn [io_segments]. rewrite bind_get. unfold sampleblk_handle_io.
  erewrite bind_ok.
  2:{ erewrite bind_ok by (unfold deref; rewrite H1; reflexivity).
      erewrite bind_ok by (by apply copy_run). reflexivity. }
  cbn [Z.ltb Z.compare].
  assert (Hw2 : within pos (total [b]) l = true) by (cbn; by rewrite Z.add_0_r).
  assert (Forall (seg_ok (pages s)) [b]) as Hb1 by auto.
  rewrite u64_small by (unfold within in *; lia).
  rewrite (IH _ _ (move w pos [b] l (pages s)).1).
  - rewrite moved_cons by done. by destruct segs.
  - by apply moved_shows.
  - rewrite moved_pages. eapply Forall_impl; [exact Hs'|]. intros c Hc. by apply move_seg_ok.
  - unfold within in *. rewrite move_length by (done || (unfold within; lia)).
    cbn [total foldr] in Hw. unfold total in *. lia.
Qed.

(** What the block layer guarantees of a request of the file system: it is for this
    disk, its length is that of its segments, of which there is at least one, these lie in
    their pages, and its position does not exceed 64 bits. *)
Record rq_ok (s : blk) (rq : request) : Prop := {
  ok_private : rq_private rq = dev_ptr s;
  ok_pos : 0 <= rq_pos rq;
  ok_bytes : rq_bytes rq = total (rq_segments rq);
  ok_range : rq_pos rq * sampleblk_sect_size + rq_bytes rq < 2 ^ 64;
  ok_some : rq_segments rq <> [];
  ok_segs : Forall (seg_ok (pages s)) (rq_segments rq)
}.

(** The request's place on the disk, and whether it is served. *)
Definition rq_start (rq : request) : Z := rq_pos rq * sampleblk_sect_size.
Definition served (l : list Z) (rq : request) : bool :=
  rq_fs rq && (rq_start rq + rq_bytes rq <=? Z.of_nat (length l)).

(** The reference for one request: disk, pages and reported results. *)
Definition spec_request (st : list Z * gmap Z (list Z) * list Z) (rq : request) :=
  let '(l, pgs, res) := st in
  if served l rq then
    let '(l', pgs') := move (rq_write rq) (rq_start rq) (rq_segments rq) l pgs in (l', pgs', res ++ [0])
  else (l, pgs, res ++ [- EIO]).

(** The state with given disk, pages and results. *)
Definition holds (d : sampleblk_dev) (st : list Z * gmap Z (list Z) * list Z) (s : blk) : blk :=
  let '(l, pgs, res) := st in set_ended res (set_pages pgs (set_areas (<[data d := l]> (areas s)) s)).

Lemma handle_request_run d l s rq rv :
  shows s d l -> (rq_fs rq = true -> rq_ok s rq) ->
  handle_request rq rv s =
    if served l rq then Ok 0 (moved (data d) (rq_write rq) (rq_start rq) (rq_segments rq) l s)
    else Ok (- EIO) s.
Proof.
  intros Hsh Hok. pose proof Hsh as (H1 & H2 & H3 & H4). unfold handle_request, served.
  destruct (rq_fs rq); [|done]. destruct (Hok eq_refl) as [P1 P2 P3 P4 P5 P6]. cbn [negb andb].
  rewrite bind_get, P1, Z.eqb_refl. cbn [negb]. cbv zeta.
  erewrite bind_ok by (unfold deref; rewrite H1; reflexivity).
  pose proof (total_nonneg _ _ P6). unfold rq_start, sampleblk_sect_size in *.
  rewrite (u64_small (rq_pos rq * 512)), (u64_small (size d)), u64_small by lia. rewrite H3.
  destruct (Z.ltb_spec (Z.of_nat (length l)) (rq_pos rq * 512 + rq_bytes rq)).
  - by rewrite (proj2 (Z.leb_gt _ _)).
  - rewrite (proj2 (Z.leb_le _ _)) by done. rewrite (io_segments_run _ _ _ _ d l); [|done..|].
    + by destruct (rq_segments rq) eqn:E.
    + unfold within. lia.
Qed.

(** The block layer's guarantees survive serving a request. *)
Lemma seg_oks_holds s d l w pos segs segs' :
  shows s d l -> Forall (seg_ok (pages s)) segs -> within pos (total segs) l = true ->
  Forall (seg_ok (pages s)) segs' -> Forall (seg_ok (pages (moved (data d) w pos segs l s))) segs'.
Proof.
  intros Hsh Hs Hw H. rewrite moved_pages. eapply Forall_impl; [exact H|].
  intros b Hb. by apply move_seg_ok.
Qed.

Lemma served_within l s rq : rq_ok s rq -> served l rq = true -> within (rq_start rq) (total (rq_segments rq)) l = true.
Proof.
  intros [P1 P2 P3 P4 P5 P6] Hs. pose proof (total_nonneg _ _ P6).
  unfold served, within, rq_start, sampleblk_sect_size in *. lia.
Qed.

(** One request: the state and the reference stay together. *)
Lemma request_step d l s rq rv :
  shows s d l -> (rq_fs rq = true -> rq_ok s rq) ->
  exists rv' s1 l1, handle_request rq rv s = Ok rv' s1 /\
    spec_request (l, pages s, ended s) rq = (l1, pages s1, ended s ++ [rv']) /\
    shows s1 d l1 /\ ended s1 = ended s /\ dev_ptr s1 = dev_ptr s /\
    (forall segs, Forall (seg_ok (pages s)) segs -> Forall (seg_ok (pages s1)) segs) /\
    s1 = set_pages (pages s1) (set_areas (<[data d := l1]> (areas s)) s).
Proof.
  intros Hsh Hok. rewrite (handle_request_run d l) by done. unfold spec_request.
  destruct (served l rq) eqn:E.
  - assert (rq_ok s rq) as Ho by (apply Hok; unfold served in E; by destruct (rq_fs rq)).
    pose proof (served_within _ _ _ Ho E) as Hw.
    pose proof (moved_shows s d l (rq_write rq) _ _ Hsh (ok_segs _ _ Ho) Hw) as Hsh'.
    pose proof (fun segs => seg_oks_holds s d l (rq_write rq) _ _ segs Hsh (ok_segs _ _ Ho) Hw) as Hs.
    unfold moved in *. destruct (move _ _ _ _ _) as [l' pgs']. do 3 eexists. split; [reflexivity|].
    repeat split; try done; apply Hsh'.
  - exists (- EIO), s, l. repeat split; try done; try apply Hsh.
    rewrite insert_id by apply Hsh. by destruct s.
Qed.

Lemma rq_ok_stable s s1 rq :
  dev_ptr s1 = dev_ptr s ->
  (forall segs, Forall (seg_ok (pages s)) segs -> Forall (seg_ok (pages s1)) segs) ->
  rq_ok s rq -> rq_ok s1 rq.
Proof. intros Hp Hs [P1 P2 P3 P4 P5 P6]. split; auto. congruence. Qed.

Lemma request_loop_run rqs rv d l s :
  shows s d l -> Forall (fun rq => rq_fs rq = true -> rq_ok s rq) rqs ->
  exists l' s', request_loop rv rqs s = Ok tt s' /\ shows s' d l' /\
    foldl spec_request (l, pages s, ended s) rqs = (l', pages s', ended s') /\
    s' = holds d (l', pages s', ended s') s.
Proof.
  revert rv l s. induction rqs as [|rq rqs IH]; intros rv l s Hsh Hok.
  { exists l, s. repeat split; try done; try apply Hsh. simpl.
    rewrite insert_id by apply Hsh. by destruct s. }
  apply Forall_cons in Hok as [Hrq Hok].
  destruct (request_step d l s rq rv Hsh Hrq) as (rv' & s1 & l1 & Hrun & Hspec & Hsh1 & He & Hp & Hst & Heq).
  cbn [request_loop foldl]. rewrite (bind_ok _ _ _ _ _ Hrun), bind_modify, Hspec.
  destruct (IH rv' l1 (set_ended (ended s1 ++ [rv']) s1)) as (l' & s' & Hrun' & Hsh' & Hf & Heq').
  - done.
  - eapply Forall_impl; [exact Hok|]. intros r Hr Hfs. by apply (rq_ok_stable s); [done|done|apply Hr].
  - exists l', s'. split; [done|]. split; [done|]. cbn in Hf. rewrite He in Hf. split; [done|].
    rewrite Heq'. unfold holds. cbn. rewrite Heq. unfold set_ended, set_pages, set_areas. cbn.
    by rewrite insert_insert_eq.
Qed.


(** ** Reading back *)

(** Two segments share no byte. *)
Definition seg_disj (b c : bio_vec) : Prop :=
  bv_page b <> bv_page c \/ bv_offset b + bv_len b <= bv_offset c \/ bv_offset c + bv_len c <= bv_offset b.

Lemma seg_bytes_other pgs b c bs :
  seg_ok pgs b -> seg_ok pgs c -> seg_disj b c -> Z.of_nat (length bs) = bv_len c ->
  seg_bytes (<[bv_page c := splice (bv_offset c) bs (page_of pgs c)]> pgs) b = seg_bytes pgs b.
Proof.
  intros Hb Hc Hd Hl. apply seg_ok_page in Hb as [Hb Wb]. apply seg_ok_page in Hc as [Hc Wc].
  unfold seg_bytes at 1, page_of at 1. destruct (decide (bv_page c = bv_page b)) as [E|E].
  - rewrite <- E, lookup_insert_eq. cbn [from_option id]. unfold within in *.
    rewrite slice_splice_other; [|lia..|].
    + unfold seg_bytes. f_equal. unfold page_of. by rewrite E.
    + destruct Hd as [Hd|Hd]; [congruence|lia].
  - by rewrite lookup_insert_ne.
Qed.
Lemma seg_bytes_scatter pgs segs bs b :
  Forall (seg_ok pgs) segs -> seg_ok pgs b -> Forall (seg_disj b) segs ->
  Z.of_nat (length bs) = total segs -> seg_bytes (scatter pgs segs bs) b = seg_bytes pgs b.
Proof.
  revert pgs bs. induction segs as [|c segs IH]; intros pgs bs Hs Hb Hd Hl; [done|].
  apply Forall_cons in Hs as [Hc Hs]. apply Forall_cons in Hd as [Hdc Hd].
  pose proof (total_nonneg _ _ Hs). pose proof (seg_len_nonneg _ _ Hc).
  cbn [total foldr] in Hl. unfold total in *.
  assert (Z.of_nat (length (take (Z.to_nat (bv_len c)) bs)) = bv_len c) as Ht by (rewrite length_take; lia).
  cbn [scatter]. rewrite IH; [by apply seg_bytes_other| | |done|rewrite length_drop; unfold total; lia].
  - eapply Forall_impl; [exact Hs|]. intros e He. by apply seg_ok_splice.
  - by apply seg_ok_splice.
Qed.

(** Bytes stored into segments that do not overlap are the bytes they hold. *)
Lemma gather_scatter pgs segs bs :
  Forall (seg_ok pgs) segs -> pairwise seg_disj segs -> Z.of_nat (length bs) = total segs ->
  gather (scatter pgs segs bs) segs = bs.
Proof.
  revert pgs bs. induction segs as [|b segs IH]; intros pgs bs Hs Hd Hl.
  { destruct bs; [done|]. cbn in Hl. lia. }
  apply Forall_cons in Hs as [Hb Hs]. destruct Hd as [Hdb Hd].
  pose proof (total_nonneg _ _ Hs). pose proof (seg_len_nonneg _ _ Hb).
  cbn [total foldr] in Hl. unfold total in *. set (n := Z.to_nat (bv_len b)).
  assert (Z.of_nat (length (take n bs)) = bv_len b) as Ht by (subst n; rewrite length_take; lia).
  cbn [scatter]. fold n. set (pgs1 := <[_ := _]> pgs).
  assert (forall c, seg_ok pgs c -> seg_ok pgs1 c) as Hok by (intros c Hc; by apply seg_ok_splice).
  assert (Forall (seg_ok pgs1) segs) as Hs1 by (eapply Forall_impl; [exact Hs|done]).
  assert (Z.of_nat (length (drop n bs)) = total segs) as Hdl by (subst n; rewrite length_drop; unfold total; lia).
  unfold gather in *. cbn [mbind list_bind]. rewrite IH by done.
  rewrite seg_bytes_scatter by auto. unfold seg_bytes, page_of. subst pgs1. rewrite lookup_insert_eq. cbn [from_option id].
  apply seg_ok_page in Hb as [_ Wb]. unfold within in Wb.
  rewrite <- Ht, slice_splice by lia. apply take_drop.
Qed.

(** What of [rq_ok] concerns disk and pages alone. *)
Definition fits (pgs : gmap Z (list Z)) (rq : request) : Prop :=
  rq_fs rq = true -> 0 <= rq_pos rq /\ rq_bytes rq = total (rq_segments rq) /\ Forall (seg_ok pgs) (rq_segments rq).

Lemma ok_fits s rq : (rq_fs rq = true -> rq_ok s rq) -> fits (pages s) rq.
Proof. intros H Hf. by destruct (H Hf). Qed.
Lemma fits_within pgs l rq : fits pgs rq -> served l rq = true ->
  Forall (seg_ok pgs) (rq_segments rq) /\ within (rq_start rq) (total (rq_segments rq)) l = true.
Proof.
  intros Hf Hs. unfold served in Hs. apply andb_prop in Hs as [H1 H2]. destruct (Hf H1) as (P1 & P2 & P3).
  pose proof (total_nonneg _ _ P3). split; [done|]. unfold within, rq_start, sampleblk_sect_size in *. lia.
Qed.

Lemma spec_fits l pgs res rq rq' :
  fits pgs rq -> fits pgs rq' -> fits (spec_request (l, pgs, res) rq).1.2 rq'.
Proof.
  intros Hf Hf' Hfs. destruct (Hf' Hfs) as (P1 & P2 & P3). split; [done|]. split; [done|].
  unfold spec_request. destruct (served l rq) eqn:E; [|done]. destruct (fits_within _ _ _ Hf E) as [Q1 Q2].
  pose proof (fun b => move_seg_ok (rq_write rq) _ _ _ _ b Q1 Q2) as H.
  destruct (move _ _ _ _ _). cbn. eapply Forall_impl; [exact P3|]. auto.
Qed.

(** A request that does not write into a range leaves it alone. *)
Definition apart (pos n : Z) (rq : request) : Prop :=
  nonzero (rq_write rq) = true -> pos + n <= rq_start rq \/ rq_start rq + rq_bytes rq <= pos.
Lemma spec_keeps l pgs res rq pos n :
  0 <= pos -> fits pgs rq -> apart pos n rq ->
  let l' := (spec_request (l, pgs, res) rq).1.1 in
  slice pos n l' = slice pos n l /\ length l' = length l.
Proof.
  intros Hp Hf Ha. unfold spec_request. destruct (served l rq) eqn:E; [|done].
  destruct (fits_within _ _ _ Hf E) as [Q1 Q2]. pose proof (move_length (rq_write rq) _ _ _ _ Q1 Q2) as Hl.
  pose proof (gather_length _ _ Q1) as Hg. unfold served in E. apply andb_prop in E as [E1 E2].
  destruct (Hf E1) as (_ & Hb & _). unfold move in *. unfold apart in Ha.
  destruct (nonzero (rq_write rq)); cbn in *; [|done]. split; [|done].
  unfold within in Q2. apply slice_splice_other; try lia.
Qed.
Lemma spec_run_keeps mid l pgs res pos n :
  0 <= pos -> Forall (fits pgs) mid -> Forall (apart pos n) mid ->
  let st := foldl spec_request (l, pgs, res) mid in
  slice pos n st.1.1 = slice pos n l /\ length st.1.1 = length l /\
  forall rq, fits pgs rq -> fits st.1.2 rq.
Proof.
  intros Hp. revert l pgs res. induction mid as [|rq mid IH]; intros l pgs res Hf Ha; [done|].
  apply Forall_cons in Hf as [Hf Hfs]. apply Forall_cons in Ha as [Ha Has].
  destruct (spec_keeps l pgs res rq pos n Hp Hf Ha) as [K1 K2].
  pose proof (fun rq' => spec_fits l pgs res rq rq' Hf) as Hfit.
  cbn [foldl]. destruct (spec_request (l, pgs, res) rq) as [[l1 p1] r1]. cbn in K1, K2, Hfit.
  destruct (IH l1 p1 r1) as (I1 & I2 & I3); [eapply Forall_impl; [exact Hfs|auto]|done|].
  cbn in *. rewrite I1, I2. auto.
Qed.

Lemma spec_write l pgs res rq :
  fits pgs rq -> served l rq = true -> nonzero (rq_write rq) = true ->
  let st := spec_request (l, pgs, res) rq in
  slice (rq_start rq) (rq_bytes rq) st.1.1 = gather pgs (rq_segments rq) /\ length st.1.1 = length l.
Proof.
  intros Hf Hs Hw. destruct (fits_within _ _ _ Hf Hs) as [Q1 Q2]. pose proof (gather_length _ _ Q1) as Hg.
  unfold spec_request. rewrite Hs. pose proof (move_length (rq_write rq) _ _ _ _ Q1 Q2) as Hl.
  unfold served in Hs. apply andb_prop in Hs as [E1 _]. destruct (Hf E1) as (_ & Hb & _).
  unfold move in *. rewrite Hw in *. cbn in *. split; [|done]. unfold within in Q2.
  rewrite Hb, <- Hg. apply slice_splice; lia.
Qed.
Lemma spec_read l pgs res rq :
  fits pgs rq -> served l rq = true -> rq_write rq = 0 -> pairwise seg_disj (rq_segments rq) ->
  gather (spec_request (l, pgs, res) rq).1.2 (rq_segments rq) = slice (rq_start rq) (rq_bytes rq) l.
Proof.
  intros Hf Hs Hw Hd. destruct (fits_within _ _ _ Hf Hs) as [Q1 Q2].
  unfold spec_request. rewrite Hs. unfold served in Hs. apply andb_prop in Hs as [E1 _].
  destruct (Hf E1) as (_ & -> & _). unfold move. rewrite Hw. cbn.
  apply gather_scatter; [done|done|]. by apply slice_length.
Qed.

(** C29: What was written is read back: a write, then any requests that do not write into its
    range, then a read of the range into segments that do not overlap, cut as one likes. *)
Theorem sampleblk_read_back w mid r d l s :
  shows s d l -> Forall (fun rq => rq_fs rq = true -> rq_ok s rq) (w :: mid ++ [r]) ->
  served l w = true -> nonzero (rq_write w) = true ->
  Forall (apart (rq_start w) (rq_bytes w)) mid ->
  rq_fs r = true -> rq_write r = 0 -> rq_pos r = rq_pos w -> rq_bytes r = rq_bytes w ->
  pairwise seg_disj (rq_segments r) ->
  exists s', sampleblk_request (w :: mid ++ [r]) s = Ok tt s' /\
    gather (pages s') (rq_segments r) = gather (pages s) (rq_segments w).
Proof.
  intros Hsh Hok Hw1 Hw2 Hmid Hr1 Hr2 Hr3 Hr4 Hr5.
  destruct (request_loop_run (w :: mid ++ [r]) 0 d l s Hsh Hok) as (l' & s' & Hrun & _ & Hf & _).
  exists s'. split; [exact Hrun|]. apply (f_equal (fun st => st.1.2)) in Hf. cbn [fst snd] in Hf. rewrite <- Hf. clear Hf Hrun.
  assert (Forall (fits (pages s)) (w :: mid ++ [r])) as Hfit by (eapply Forall_impl; [exact Hok|apply ok_fits]).
  apply Forall_cons in Hfit as [Fw [Fm [Fr _]%Forall_cons]%Forall_app].
  destruct (spec_write l (pages s) (ended s) w Fw Hw1 Hw2) as [W1 W2].
  pose proof (fun rq => spec_fits l (pages s) (ended s) w rq Fw) as Hfit.
  cbn [foldl]. rewrite foldl_app. destruct (spec_request _ w) as [[l1 p1] r1]. cbn [fst snd] in *.
  destruct (fits_within _ _ _ Fw Hw1) as [_ Hwith].
  destruct (spec_run_keeps mid l1 p1 r1 (rq_start w) (rq_bytes w)) as (M1 & M2 & M3);
    [unfold within in Hwith; lia|eapply Forall_impl; [exact Fm|auto]|done|].
  destruct (foldl _ _ mid) as [[l2 p2] r2]. cbn [fst snd foldl] in *.
  assert (rq_start r = rq_start w) as Es by (unfold rq_start; by rewrite Hr3).
  rewrite spec_read; [by rewrite Es, Hr4, M1|by apply M3, Hfit| |done|done].
  unfold served in *. rewrite Hr1, Es, Hr4, M2, W2. by apply andb_prop in Hw1 as [_ ->].
Qed.

(** ** A result that stays *)

(** A request without data (a flush) is ended with the result of the request before it:
    after one that failed it fails too. *)
Theorem sampleblk_stale_result bad flush d l s :
  shows s d l -> rq_fs bad = false -> rq_fs flush = true -> rq_private flush = dev_ptr s ->
  rq_segments flush = [] -> rq_pos flush = 0 -> rq_bytes flush = 0 ->
  (exists s1, sampleblk_request [flush] s = Ok tt s1 /\ ended s1 = ended s ++ [0]) /\
  (exists s2, sampleblk_request [bad; flush] s = Ok tt s2 /\ ended s2 = ended s ++ [- EIO; - EIO]).
Proof.
  intros (H1 & H2 & H3 & H4) Hb Hf Hp Hs Hpos Hn.
  assert (forall rv t, devs t = devs s -> dev_ptr t = dev_ptr s -> handle_request flush rv t = Ok rv t) as Hflush.
  { intros rv t Ht1 Ht2. unfold handle_request. rewrite Hf. cbn [negb]. rewrite bind_get, Hp, Ht2, Z.eqb_refl. cbn [negb].
    erewrite bind_ok by (unfold deref; rewrite Ht1, H1; reflexivity).
    rewrite Hpos, Hn, Hs. change (u64 (u64 (0 * sampleblk_sect_size) + 0)) with 0.
    pose proof (u64_range (size d)). by rewrite (proj2 (Z.ltb_ge _ _)) by lia. }
  unfold sampleblk_request. cbn [request_loop]. split.
  - erewrite bind_ok by (by apply Hflush). eexists. split; reflexivity.
  - erewrite bind_ok by (unfold handle_request; rewrite Hb; reflexivity). rewrite bind_modify.
    erewrite bind_ok by (by apply Hflush). eexists. split; [reflexivity|]. cbn. by rewrite <- app_assoc.
Qed.

(** ** The multi-queue copy *)

(** Every segment has the length of the first, in whole sectors. *)
Definition uniform (rq : request) : Prop :=
  Forall (fun b => bv_len b = rq_cur_sectors rq * sampleblk_sect_size) (rq_segments rq).

Lemma mq_segments_run p w segs pos n d l s :
  devs s !! p = Some d -> areas s !! data d = Some l -> size d = Z.of_nat (length l) -> size d < 2 ^ 63 ->
  w = 0 \/ w = 1 -> Forall (seg_ok (pages s)) segs -> Forall (fun b => bv_len b = n * 512) segs ->
  0 <= pos -> pos * 512 + total segs <= size d ->
  mq_segments p pos n w segs s = Ok BLK_STS_OK (moved (data d) w (pos * 512) segs l s).
Proof.
  intros H1 H2 H3 H4 Hw. revert pos l s H1 H2 H3. induction segs as [|b segs IH]; intros pos l s H1 H2 H3 Hs Hu Hp Ht.
  { simpl. by rewrite moved_nil. }
  pose proof Hs as [Hb Hs']%Forall_cons. apply Forall_cons in Hu as [Hub Hu].
  pose proof (total_nonneg _ _ Hs'). pose proof (seg_len_nonneg _ _ Hb).
  cbn [total foldr] in Ht. fold (total segs) in Ht.
  cbn [mq_segments]. erewrite bind_ok by (unfold deref; rewrite H1; reflexivity).
  unfold sampleblk_sect_size. rewrite (u64_small (pos * 512)), (u64_small (n * 512)), (u64_small (size d)) by lia.
  rewrite (u64_small (pos * 512 + n * 512)), (u64_small (pos + n)), (proj2 (Z.leb_le _ _)) by lia. rewrite <- Hub.
  assert (within (pos * 512) (total [b]) l = true) as Hw1 by (unfold within; cbn; lia).
  assert (Forall (seg_ok (pages s)) [b]) as Hb1 by auto.
  assert ((w =? 1) = nonzero w) as -> by (by destruct Hw as [->| ->]).
  erewrite bind_ok by (apply copy_run; [exact H2|done|unfold within in *; cbn in Hw1; lia]).
  rewrite (IH _ (move w (pos * 512) [b] l (pages s)).1).
  - replace ((pos + n) * 512) with (pos * 512 + bv_len b) by lia. rewrite moved_cons; [done..|].
    unfold within. cbn [total foldr]. fold (total segs). lia.
  - unfold moved. by destruct (move _ _ _ _ _).
  - apply moved_area.
  - by rewrite move_length.
  - rewrite moved_pages. eapply Forall_impl; [exact Hs'|]. intros c Hc. by apply move_seg_ok.
  - done.
  - lia.
  - lia.
Qed.

(** A request whose segments all have the length of the first is served like the
    reference says. *)
Theorem myramdisk_uniform rq d l s :
  devs s !! rq_private rq = Some d -> areas s !! data d = Some l -> size d = Z.of_nat (length l) ->
  size d < 2 ^ 63 -> rq_write rq = 0 \/ rq_write rq = 1 -> 0 <= rq_pos rq ->
  Forall (seg_ok (pages s)) (rq_segments rq) -> uniform rq ->
  rq_start rq + total (rq_segments rq) <= size d ->
  myramdisk_queue_rq rq s =
    Ok BLK_STS_OK
       (holds d (move (rq_write rq) (rq_start rq) (rq_segments rq) l (pages s), ended s ++ [BLK_STS_OK]) s).
Proof.
  intros H1 H2 H3 H4 Hw Hp Hs Hu Ht. unfold myramdisk_queue_rq, rq_start, sampleblk_sect_size in *.
  erewrite bind_ok by (by apply (mq_segments_run _ _ _ _ _ d l)).
  rewrite bind_modify. unfold moved, holds. by destruct (move _ _ _ _ _).
Qed.

(** ** Loading and unloading *)

Lemma deref_run {A} (objs : blk -> gmap Z A) p a s : objs s !! p = Some a -> deref objs p s = Ok a s.
Proof. intros H. unfold deref. by rewrite H. Qed.
Lemma free_obj_run {A} (objs : blk -> gmap Z A) upd p a s :
  objs s !! p = Some a -> free_obj objs upd p s = Ok tt (upd (delete p (objs s)) s).
Proof. intros H. unfold free_obj. by rewrite (bind_ok _ _ _ _ _ (deref_run _ _ _ _ H)). Qed.
Lemma upd_dev_run f mj p d D A Q G B P E :
  upd_dev f (Blk mj p (<[p := d]> D) A Q G B P E) = Ok tt (Blk mj p (<[p := f d]> D) A Q G B P E).
Proof.
  unfold upd_dev. rewrite bind_get.
  erewrite bind_ok by (apply deref_run; apply lookup_insert_eq).
  unfold modify, set_devs. cbn. by rewrite insert_insert_eq.
Qed.
Lemma kfree_run mj p d D A Q G B P E :
  p <> 0 -> D !! p = None ->
  kfree p (Blk mj p (<[p := d]> D) A Q G B P E) = Ok tt (Blk mj p D A Q G B P E).
Proof.
  intros Hp HD. unfold kfree. rewrite (proj2 (Z.eqb_neq _ _)) by done.
  erewrite free_obj_run by apply lookup_insert_eq. unfold set_devs. cbn.
  by rewrite delete_insert_id.
Qed.
Lemma vfree_run a bytes mj p D A Q G B P E :
  a <> 0 -> A !! a = None ->
  vfree a (Blk mj p D (<[a := bytes]> A) Q G B P E) = Ok tt (Blk mj p D A Q G B P E).
Proof.
  intros Ha HA. unfold vfree. rewrite (proj2 (Z.eqb_neq _ _)) by done.
  erewrite free_obj_run by apply lookup_insert_eq. unfold set_areas. cbn. by rewrite delete_insert_id.
Qed.
Lemma cleanup_run q v mj p D A Q G B P E :
  Q !! q = None ->
  blk_cleanup_queue q (Blk mj p D A (<[q := v]> Q) G B P E) = Ok tt (Blk mj p D A Q G B P E).
Proof.
  intros HQ. unfold blk_cleanup_queue. erewrite free_obj_run by apply lookup_insert_eq.
  unfold set_queues. cbn. by rewrite delete_insert_id.
Qed.

(** The failure exits, from the last label to the first. *)
Lemma fail_dev_run rv mj p d D A Q G B P E :
  p <> 0 -> D !! p = None ->
  fail_dev rv (Blk mj p (<[p := d]> D) A Q G B P E) = Ok rv (Blk mj p D A Q G B P E).
Proof. intros Hp HD. unfold fail_dev. rewrite bind_get. cbn [dev_ptr]. by erewrite bind_ok by (by apply kfree_run). Qed.
Lemma fail_data_run rv bytes mj p d D A Q G B P E :
  p <> 0 -> D !! p = None -> data d <> 0 -> A !! data d = None ->
  fail_data rv (Blk mj p (<[p := d]> D) (<[data d := bytes]> A) Q G B P E) = Ok rv (Blk mj p D A Q G B P E).
Proof.
  intros Hp HD Ha HA. unfold fail_data. rewrite bind_get. cbn [dev_ptr].
  erewrite bind_ok by (apply deref_run; apply lookup_insert_eq).
  erewrite bind_ok by (by apply vfree_run). by apply fail_dev_run.
Qed.
Lemma fail_queue_run rv bytes v mj p d D A Q G B P E :
  p <> 0 -> D !! p = None -> data d <> 0 -> A !! data d = None -> Q !! queue d = None ->
  fail_queue rv (Blk mj p (<[p := d]> D) (<[data d := bytes]> A) (<[queue d := v]> Q) G B P E) =
    Ok rv (Blk mj p D A Q G B P E).
Proof.
  intros Hp HD Ha HA HQ. unfold fail_queue. rewrite bind_get. cbn [dev_ptr].
  erewrite bind_ok by (apply deref_run; apply lookup_insert_eq).
  erewrite bind_ok by (by apply cleanup_run). by apply fail_data_run.
Qed.

Definition DISK_BYTES : Z := sampleblk_sect_size * sampleblk_nsects.
(** The state in which the disk is up. *)
Definition disk_up (day p a q g : Z) (bytes : list Z) (s : blk) : blk :=
  Blk (sampleblk_major s) p
      (<[p := Dev SAMPLEBLK_MINOR q g DISK_BYTES a]> (devs s)) (<[a := bytes]> (areas s))
      (<[q := if day =? 1 then p else 0]> (queues s))
      (<[g := Disk (sampleblk_major s) SAMPLEBLK_MINOR p q "sampleblk1" sampleblk_nsects true]> (disks s))
      (blkdevs s) (pages s) (ended s).
Definition fresh_for (p a q g : Z) (s : blk) : Prop :=
  p <> 0 /\ devs s !! p = None /\ a <> 0 /\ areas s !! a = None /\
  queues s !! q = None /\ disks s !! g = None.

(** What an allocation that started in [s] leaves. *)
Definition allocated (day : Z) (s : blk) (r : Z) (s' : blk) : Prop :=
  (r = 0 /\ exists p a q g bytes, fresh_for p a q g s /\ Z.of_nat (length bytes) = DISK_BYTES /\
     s' = disk_up day p a q g bytes s) \/
  (r = - ENOMEM /\ exists p, devs s !! p = None /\ s' = set_dev_ptr p s).

Lemma add_disk_run K day mj p0 p a q bytes D A Q G B P E :
  blk_kernel_ok K -> p <> 0 -> D !! p = None -> a <> 0 -> A !! a = None -> Q !! q = None ->
  Z.of_nat (length bytes) = DISK_BYTES ->
  exists r s', alloc_and_add_disk K SAMPLEBLK_MINOR
      (Blk mj p (<[p := Dev SAMPLEBLK_MINOR q 0 DISK_BYTES a]> D) (<[a := bytes]> A)
           (<[q := if day =? 1 then p else 0]> Q) G B P E) = Ok r s' /\
    allocated day (Blk mj p0 D A Q G B P E) r s'.
Proof.
  intros HK Hp HD Ha HA HQ Hl. unfold alloc_and_add_disk. rewrite bind_get.
  set (s3 := Blk _ _ _ _ _ _ _ _ _). pose proof (disk_fresh K HK s3) as Fg. cbn in Fg.
  set (g := k_alloc_disk K s3) in *. clearbody g. subst s3. cbv zeta.
  destruct (Z.eqb_spec g 0) as [Eg|Eg].
  { do 2 eexists. split; [by apply (fail_queue_run _ _ _ _ _ (Dev SAMPLEBLK_MINOR q 0 DISK_BYTES a))|].
    right. split; [done|]. by exists p. }
  specialize (Fg Eg). rewrite bind_modify. unfold set_disks at 1.
  cbn [disks sampleblk_major dev_ptr devs areas queues blkdevs pages ended].
  rewrite (bind_ok _ _ _ _ _ (upd_dev_run _ _ _ _ _ _ _ _ _ _ _)), bind_get. cbn [dev_ptr].
  erewrite bind_ok by (apply deref_run; apply lookup_insert_eq). unfold upd_disk. rewrite bind_bind.
  erewrite bind_ok by (apply deref_run; apply lookup_insert_eq). rewrite bind_modify.
  unfold set_disks. cbn [disks sampleblk_major dev_ptr devs areas queues blkdevs pages ended].
  rewrite insert_insert_eq. do 2 eexists. split; [reflexivity|].
  left. split; [done|]. by exists p, a, q, g, bytes.
Qed.

(** Allocation: the disk is up, or nothing is left of what was taken. *)
Lemma sampleblk_alloc_run K day s :
  blk_kernel_ok K -> devs s !! 0 = None ->
  exists r s', sampleblk_alloc K day SAMPLEBLK_MINOR s = Ok r s' /\ allocated day s r s'.
Proof.
  intros HK H0. destruct s as [mj p0 D A Q G B P E]. unfold sampleblk_alloc. rewrite bind_get.
  set (s0 := Blk mj p0 D A Q G B P E). pose proof (kzalloc_fresh K HK s0) as Fp. cbn in Fp.
  set (p := k_kzalloc K s0) in *. clearbody p. cbv zeta. rewrite bind_modify.
  destruct (Z.eqb_spec p 0) as [Ep|Ep].
  { do 2 eexists. split; [reflexivity|]. right. split; [done|]. exists p. by rewrite Ep. }
  specialize (Fp Ep). subst s0. rewrite bind_modify. unfold set_devs, set_dev_ptr.
  cbn [disks sampleblk_major dev_ptr devs areas queues blkdevs pages ended].
  rewrite (bind_ok _ _ _ _ _ (upd_dev_run _ _ _ _ _ _ _ _ _ _ _)), bind_get.
  set (s1 := Blk _ _ _ _ _ _ _ _ _). change (s32 _) with DISK_BYTES.
  pose proof (vmalloc_fresh K HK s1 DISK_BYTES) as Fa. pose proof (vmalloc_size K HK s1 DISK_BYTES) as La.
  destruct (k_vmalloc K s1 DISK_BYTES) as [a bytes]. cbn [fst snd] in Fa, La. subst s1. cbn [areas] in Fa.
  destruct (Z.eqb_spec a 0) as [Ea|Ea].
  { rewrite bind_ret, (bind_ok _ _ _ _ _ (upd_dev_run _ _ _ _ _ _ _ _ _ _ _)).
    do 2 eexists. split; [by apply fail_dev_run|]. right. split; [done|]. by exists p. }
  specialize (Fa Ea). specialize (La Ea). rewrite bind_modify. unfold set_areas at 1.
  cbn [disks sampleblk_major dev_ptr devs areas queues blkdevs pages ended].
  do 2 rewrite (bind_ok _ _ _ _ _ (upd_dev_run _ _ _ _ _ _ _ _ _ _ _)). rewrite bind_get.
  set (s2 := Blk _ _ _ _ _ _ _ _ _). pose proof (queue_fresh K HK s2) as Fq. cbn [s2 queues] in Fq.
  set (q := k_init_queue K s2) in *. clearbody q. subst s2.
  destruct (Z.eqb_spec q 0) as [Eq|Eq].
  { rewrite bind_ret, (bind_ok _ _ _ _ _ (upd_dev_run _ _ _ _ _ _ _ _ _ _ _)).
    do 2 eexists. split; [by apply (fail_data_run _ bytes _ _ (Dev SAMPLEBLK_MINOR q 0 DISK_BYTES a))|].
    right. split; [done|]. by exists p. }
  specialize (Fq Eq). rewrite bind_modify. unfold set_queues.
  cbn [disks sampleblk_major dev_ptr devs areas queues blkdevs pages ended].
  rewrite (bind_ok _ _ _ _ _ (upd_dev_run _ _ _ _ _ _ _ _ _ _ _)).
  pose proof (add_disk_run K day mj p0 p a q bytes D A Q G B P E HK Ep Fp Ea Fa Fq La) as Hadd.
  destruct (day =? 1); [|exact Hadd].
  rewrite bind_modify.
  cbn [disks sampleblk_major dev_ptr devs areas queues blkdevs pages ended]. rewrite insert_insert_eq. exact Hadd.
Qed.

(** What the driver has taken from the kernel. *)
Definition same_objects (s s' : blk) : Prop :=
  devs s' = devs s /\ areas s' = areas s /\ queues s' = queues s /\ disks s' = disks s /\
  blkdevs s' = blkdevs s.

Lemma sampleblk_free_run day p a q g bytes s :
  fresh_for p a q g s -> sampleblk_free p (disk_up day p a q g bytes s) = Ok tt (set_dev_ptr p s).
Proof.
  intros (Hp & HD & Ha & HA & HQ & HG). destruct s as [mj p0 D A Q G B P E]. unfold disk_up.
  cbn [disks sampleblk_major dev_ptr devs areas queues blkdevs pages ended] in *.
  unfold sampleblk_free. erewrite bind_ok by (apply deref_run; apply lookup_insert_eq). cbn [disk queue data].
  unfold del_gendisk, upd_disk.
  rewrite bind_bind. erewrite bind_ok by (apply deref_run; apply lookup_insert_eq). rewrite bind_modify.
  unfold set_disks at 1. cbn [disks sampleblk_major dev_ptr devs areas queues blkdevs pages ended].
  rewrite insert_insert_eq. erewrite bind_ok by (by apply cleanup_run).
  unfold put_disk. erewrite bind_ok by (eapply free_obj_run; apply lookup_insert_eq).
  unfold set_disks. cbn [disks sampleblk_major dev_ptr devs areas queues blkdevs pages ended].
  rewrite delete_insert_id by done.
  erewrite bind_ok by (by apply vfree_run). by apply kfree_run.
Qed.

(** The disk is up with the size of the source, and unloading gives everything back. *)
Definition loaded (s s' : blk) : Prop :=
  exists p a q g bytes, fresh_for p a q g s /\ Z.of_nat (length bytes) = DISK_BYTES /\
    devs s' = <[p := Dev SAMPLEBLK_MINOR q g DISK_BYTES a]> (devs s) /\ dev_ptr s' = p /\
    areas s' = <[a := bytes]> (areas s) /\
    exists s2, sampleblk_exit s' = Ok tt s2 /\ same_objects s s2.
(** No disk could be made: everything but the major number has been given back, and
    unloading follows the pointer to a device that is gone. *)
Definition half_loaded (s s' : blk) : Prop :=
  same_objects (set_blkdevs ({[sampleblk_major s']} ∪ blkdevs s) s) s' /\
  sampleblk_exit s' = Halt (Fault (dev_ptr s')).


(** ** Witnesses *)

Definition ex_dev : sampleblk_dev := Dev 1 7 8 2048 100.
Definition ex_disk : list Z := replicate 2048 0.
Definition ex_state : blk :=
  Blk 250 50 {[50 := ex_dev]} {[100 := ex_disk]} {[7 := 0]} ∅ {[250]}
      (<[1 := replicate 1024 3]> (<[2 := replicate 1024 4]> {[3 := replicate 1024 0]})) [].
(** A sector from two pages to sector 2, a request past the end, and the sector read back. *)
Definition ex_write : request := Request true 2 512 0 1 [BioVec 1 256 0; BioVec 2 256 768] 50.
Definition ex_beyond : request := Request true 4 512 1 1 [BioVec 1 512 0] 50.
Definition ex_read : request := Request true 2 512 1 0 [BioVec 3 128 0; BioVec 3 384 200] 50.

Lemma seg_ok_compute pgs b :
  match pgs !! bv_page b with Some l => within (bv_offset b) (bv_len b) l | None => false end = true -> seg_ok pgs b.
Proof. unfold seg_ok. destruct (pgs !! bv_page b) as [l|]; [eauto|done]. Qed.
Ltac solve_rq := split; [reflexivity|by vm_compute|reflexivity|reflexivity|done|
  repeat (apply Forall_cons; split; [apply seg_ok_compute; vm_compute; reflexivity|]); apply Forall_nil_2].
Lemma ex_shows : shows ex_state ex_dev ex_disk.
Proof. repeat split; vm_compute; reflexivity. Qed.
Lemma ex_rqs_ok : Forall (fun rq => rq_fs rq = true -> rq_ok ex_state rq) (ex_write :: [ex_beyond] ++ [ex_read]).
Proof. repeat (apply Forall_cons; split; [intros _; solve_rq|]). apply Forall_nil_2. Qed.


Lemma sampleblk_read_back_witness :
  exists s', sampleblk_request (ex_write :: [ex_beyond] ++ [ex_read]) ex_state = Ok tt s' /\
    gather (pages s') (rq_segments ex_read) = replicate 256 3 ++ replicate 256 4.
Proof.
  refine (sampleblk_read_back ex_write [ex_beyond] ex_read ex_dev ex_disk ex_state ex_shows ex_rqs_ok
            eq_refl eq_refl _ eq_refl eq_refl eq_refl eq_refl _).
  - apply Forall_cons. split; [|apply Forall_nil_2]. intros _. left. vm_compute. discriminate.
  - split; [|split; [apply Forall_nil_2|exact I]]. apply Forall_cons. split; [|apply Forall_nil_2].
    right. left. vm_compute. discriminate.
Defined.

Lemma sampleblk_stale_result_witness :
  exists s2, sampleblk_request [Request false 0 0 0 0 [] 50; Request true 0 0 0 1 [] 50] ex_state = Ok tt s2 /\
    ended s2 = [- EIO; - EIO].
Proof.
  exact (proj2 (sampleblk_stale_result (Request false 0 0 0 0 [] 50) (Request true 0 0 0 1 [] 50)
                  ex_dev ex_disk ex_state ex_shows eq_refl eq_refl eq_refl eq_refl eq_refl eq_refl)).
Defined.

(** Day 1: two sectors from two pages. *)
Definition ex_uniform : request := Request true 1 1024 1 1 [BioVec 1 512 0; BioVec 2 512 512] 50.
Lemma myramdisk_uniform_witness :
  myramdisk_queue_rq ex_uniform ex_state =
    Ok BLK_STS_OK (holds ex_dev (move 1 512 (rq_segments ex_uniform) ex_disk (pages ex_state), [BLK_STS_OK]) ex_state).
Proof.
  refine (myramdisk_uniform ex_uniform ex_dev ex_disk ex_state eq_refl eq_refl eq_refl eq_refl (or_intror eq_refl) _ _ _ _).
  - vm_compute. discriminate.
  - repeat (apply Forall_cons; split; [apply seg_ok_compute; vm_compute; reflexivity|]). apply Forall_nil_2.
  - repeat constructor.
  - vm_compute. discriminate.
Defined.

(** Segments of different lengths: with 1024 and then 512 bytes the second copy takes 1024
    bytes too and leaves its page. *)
Example myramdisk_mixed_segments :
  myramdisk_queue_rq (Request true 0 1536 2 1 [BioVec 1 1024 0; BioVec 2 512 512] 50) ex_state = Halt (Fault 514).
Proof. vm_compute. reflexivity. Qed.

(** A kernel that has every object, or every one but a queue. *)
Definition ex_kernel (q : bool) : blk_kernel :=
  BlkKernel (fun s => fresh (blkdevs s)) (fun s => fresh (dom (devs s)))
    (fun s n => if n <? 0 then (0, []) else (fresh (dom (areas s)), replicate (Z.to_nat n) 0))
    (fun s => if q then fresh (dom (queues s)) else 0) (fun s => fresh (dom (disks s))).
Lemma fresh_none {A} (m : gmap Z A) : m !! fresh (dom m) = None.
Proof. apply not_elem_of_dom, is_fresh. Qed.
Lemma ex_kernel_ok q : blk_kernel_ok (ex_kernel q).
Proof.
  split; cbn; intros; try apply fresh_none; try apply is_fresh.
  - destruct (n <? 0); [done|apply fresh_none].
  - destruct (Z.ltb_spec n 0); [done|]. cbn [snd]. rewrite length_replicate. lia.
  - destruct q; [apply fresh_none|done].
Qed.
