(* ===== verification/KvmTests.v ===== *)
(** * The stand-alone KVM tests (kvm_test/run_simple, kvm_test/page_table, kvm_test/kernel)

    Each test.c puts a few bytes of machine code into a virtual machine and prints what the
    code sends to a port.  run_simple stays in real mode; page_table and kernel differ in one
    bit ([sce]) and run in 64-bit mode behind page tables of their own.  KVM is the record
    [kvm]; [x86_run] is the processor, for the instructions the arrays contain. *)

From S2P Require Import Prelude Memory Arch Kmalloc Translate TranslateProof Hypercall Hypervisor.

(** ** State *)

(** The virtual machine, and the characters printed by [putchar]. *)
Record test_vm := TestVm {
  t_mem : mem;
  t_rax : Z; t_rcx : Z; t_rdx : Z; t_rip : Z; t_rsp : Z; t_rflags : Z;
  t_sregs : kvm_sregs;
  t_out : list Z
}.
Definition set_tmem m s := TestVm m (t_rax s) (t_rcx s) (t_rdx s) (t_rip s) (t_rsp s) (t_rflags s) (t_sregs s) (t_out s).
Definition set_rax v s := TestVm (t_mem s) v (t_rcx s) (t_rdx s) (t_rip s) (t_rsp s) (t_rflags s) (t_sregs s) (t_out s).
Definition set_rcx v s := TestVm (t_mem s) (t_rax s) v (t_rdx s) (t_rip s) (t_rsp s) (t_rflags s) (t_sregs s) (t_out s).
Definition set_rdx v s := TestVm (t_mem s) (t_rax s) (t_rcx s) v (t_rip s) (t_rsp s) (t_rflags s) (t_sregs s) (t_out s).
Definition set_rip v s := TestVm (t_mem s) (t_rax s) (t_rcx s) (t_rdx s) v (t_rsp s) (t_rflags s) (t_sregs s) (t_out s).
Definition set_rsp v s := TestVm (t_mem s) (t_rax s) (t_rcx s) (t_rdx s) (t_rip s) v (t_rflags s) (t_sregs s) (t_out s).
Definition set_tflags v s := TestVm (t_mem s) (t_rax s) (t_rcx s) (t_rdx s) (t_rip s) (t_rsp s) v (t_sregs s) (t_out s).
Definition set_tsregs v s := TestVm (t_mem s) (t_rax s) (t_rcx s) (t_rdx s) (t_rip s) (t_rsp s) (t_rflags s) v (t_out s).
Definition set_out v s := TestVm (t_mem s) (t_rax s) (t_rcx s) (t_rdx s) (t_rip s) (t_rsp s) (t_rflags s) (t_sregs s) v.

(** What KVM_RUN reports; for port I/O the first byte of the data. *)
Inductive test_exit :=
| Exit_HLT | Exit_IO (c : Z) | Exit_FAIL_ENTRY | Exit_INTERNAL_ERROR | Exit_SHUTDOWN | Exit_OTHER (r : Z).

(** The results of the calls that are tested, and KVM_RUN; [None] when the guest runs on
    for ever. *)
Record kvm := Kvm {
  open_kvm : Z; api_version : Z; create_vm : Z;
  kvm_run : test_vm -> option (test_exit * test_vm)
}.

Definition memsize : Z := 0x40000000.

(** ** Page tables and segments of the 64-bit tests *)

Definition store64 (off v : Z) : cmd test_vm unit := modify (fun s => set_tmem (st64 (t_mem s) off v) s).

(** [set_pagetable(mem, &sregs)]; [sce] for kernel/test.c. *)
Definition set_pagetable (sce : bool) (sregs : kvm_sregs) : cmd test_vm kvm_sregs :=
  let pml4_addr := 0x1000 in
  let pdpt_addr := 0x2000 in
  let pd_addr := 0x3000 in
  store64 pml4_addr (Z.lor pdpt_addr 3) ;;
  store64 pdpt_addr (Z.lor pd_addr 3) ;;
  store64 pd_addr (Z.lor 0x80 3) ;;
  let cr4 := Z.lor (Z.shiftl 1 5) 0x600 in
  let cr0 := 0x80050033 in
  let efer := if sce then Z.lor 0x500 1 else 0x500 in
  mret (Sregs (sr_cs sregs) (sr_ds sregs) (sr_es sregs) (sr_fs sregs) (sr_gs sregs) (sr_ss sregs)
              cr0 pml4_addr cr4 efer).

Definition set_segment_regs (sregs : kvm_sregs) : kvm_sregs :=
  let code := Segment 0 0xffffffff (Z.shiftl 1 3) 1 11 0 0 1 1 1 in
  let data := Segment 0 0xffffffff (Z.shiftl 2 3) 1 3 0 0 1 1 1 in
  Sregs code data data data data data (sr_cr0 sregs) (sr_cr3 sregs) (sr_cr4 sregs) (sr_efer sregs).

(** run_simple: the code segment starts at 0. *)
Definition set_cs_base (sregs : kvm_sregs) : kvm_sregs :=
  let c := sr_cs sregs in
  Sregs (Segment 0 (seg_limit c) 0 (seg_present c) (seg_type c) (seg_dpl c) (seg_db c) (seg_s c) (seg_l c) (seg_g c))
        (sr_ds sregs) (sr_es sregs) (sr_fs sregs) (sr_gs sregs) (sr_ss sregs)
        (sr_cr0 sregs) (sr_cr3 sregs) (sr_cr4 sregs) (sr_efer sregs).

(** ** [kvm_init] *)

Section Init.
Context (K : kvm).

(** The loop around KVM_RUN: a shutdown and an unknown reason are printed and the guest
    is run again. *)
Definition exit_loop : cmd test_vm unit :=
  mloop (fun _ : unit =>
    s ← (get : cmd test_vm test_vm);
    match kvm_run K s with
    | None => halt OutOfFuel
    | Some (e, s') =>
        put s' ;;
        match e with
        | Exit_HLT | Exit_FAIL_ENTRY | Exit_INTERNAL_ERROR => mret (inr tt)
        | Exit_IO c => modify (fun s => set_out (t_out s ++ [c]) s) ;; mret (inl tt)
        | Exit_SHUTDOWN | Exit_OTHER _ => mret (inl tt)
        end
    end) tt.

(** The registers the tests set. *)
Definition init_regs (user_entry : Z) : cmd test_vm unit :=
  modify (fun s => set_tflags 0x2 (set_rsp 0x200000 (set_rip user_entry s))).

(** Opening KVM, the version, the machine and its memory, an anonymous mapping. *)
Definition create (code : list Z) : cmd test_vm unit :=
  if open_kvm K <? 0 then halt (ExitProc 0)
  else if api_version K <? 0 then halt (ExitProc 0)
  else if negb (api_version K =? 12) then halt (ExitProc 0)
  else if create_vm K <? 0 then halt (ExitProc (-1))
  else modify (set_tmem (put_bytes (fun _ => 0) 0 code)).

(** page_table/test.c and kernel/test.c. *)
Definition kvm_init (sce : bool) (code : list Z) : cmd test_vm unit :=
  create code ;;
  init_regs 0 ;;
  s ← get;
  sregs ← set_pagetable sce (t_sregs s);
  modify (set_tsregs (set_segment_regs sregs)) ;;
  exit_loop.

(** run_simple/test.c. *)
Definition kvm_init_simple (code : list Z) : cmd test_vm unit :=
  create code ;;
  init_regs 0 ;;
  modify (fun s => set_tsregs (set_cs_base (t_sregs s)) s) ;;
  exit_loop.

(** The string literals, without the terminating 0. *)
Definition long_code : list Z :=
  [0x48; 0xB8; 0x41; 0x42; 0x43; 0x44; 0x31; 0x32; 0x33; 0x0A; 0x6A; 0x08; 0x59; 0xBA; 0x17; 0x02; 0x00; 0x00;
   0xEE; 0x48; 0xC1; 0xE8; 0x08; 0xE2; 0xF9; 0xF4].
Definition simple_code : list Z := [0xB0; 0x61; 0xBA; 0x17; 0x02; 0xEE; 0xB0; 0x0A; 0xEE; 0xF4].

(** [main]: [after] is what follows the literal in the program's memory; [code_len] is 100. *)
Definition main_long (sce : bool) (after : list Z) : cmd test_vm unit :=
  kvm_init sce (take 100 (long_code ++ [0] ++ after)).
Definition main_simple : cmd test_vm unit := kvm_init_simple (take 10 (simple_code ++ [0])).
End Init.

(** ** The processor *)

Definition long_mode (s : test_vm) : bool :=
  has (sr_efer (t_sregs s)) EFER_LMA && (seg_l (sr_cs (t_sregs s)) =? 1).

(** The physical address: through the page tables, or from the code segment's base. *)
Definition phys (s : test_vm) (va : Z) : option Z :=
  if has (sr_cr0 (t_sregs s)) CR0_PG then x_pa <$> walk (t_mem s) (sr_cr3 (t_sregs s)) va
  else Some (seg_base (sr_cs (t_sregs s)) + va mod 2 ^ 16).
Definition byte_at (s : test_vm) (va : Z) : option Z :=
  pa ← phys s va; if pa <? memsize then Some (u8 (t_mem s pa)) else None.
(** A little-endian word, byte by byte; and storing one. *)
Fixpoint word_at (n : nat) (s : test_vm) (va : Z) : option Z :=
  match n with
  | O => Some 0
  | S n' => b ← byte_at s va; r ← word_at n' s (va + 1); Some (b + 256 * r)
  end.
Fixpoint put_word (n : nat) (va v : Z) (s : test_vm) : option test_vm :=
  match n with
  | O => Some s
  | S n' =>
      pa ← phys s va;
      if pa <? memsize then
        put_word n' (va + 1) (Z.shiftr v 8) (set_tmem (fun x => if x =? pa then u8 v else t_mem s x) s)
      else None
  end.

(** The instructions of the arrays. *)
Inductive insn :=
| Mov_al (i : Z) | Mov_dx (i : Z) | Mov_rax (i : Z) | Mov_edx (i : Z) | Push (i : Z) | Pop_rcx
| Out_dx_al | Shr_rax (i : Z) | Loop (d : Z) | Hlt.

(** The instruction at [rip] and its length. *)
Definition decode (s : test_vm) : option (insn * Z) :=
  let rip := t_rip s in
  op ← byte_at s rip;
  if op =? 0xF4 then Some (Hlt, 1)
  else if op =? 0xEE then Some (Out_dx_al, 1)
  else if negb (long_mode s) then
    if op =? 0xB0 then i ← byte_at s (rip + 1); Some (Mov_al i, 2)
    else if op =? 0xBA then i ← word_at 2 s (rip + 1); Some (Mov_dx i, 3)
    else None
  else if op =? 0xBA then i ← word_at 4 s (rip + 1); Some (Mov_edx i, 5)
  else if op =? 0x6A then i ← byte_at s (rip + 1); Some (Push i, 2)
  else if op =? 0x59 then Some (Pop_rcx, 1)
  else if op =? 0xE2 then d ← byte_at s (rip + 1); Some (Loop d, 2)
  else if op =? 0x48 then
    op2 ← byte_at s (rip + 1);
    if op2 =? 0xB8 then i ← word_at 8 s (rip + 2); Some (Mov_rax i, 10)
    else if op2 =? 0xC1 then
      rm ← byte_at s (rip + 2);
      if rm =? 0xE8 then i ← byte_at s (rip + 3); Some (Shr_rax i, 4) else None
    else None
  else None.

(** Reading [al], and replacing [al] or [dx] in the full register. *)
Definition get_al (rax : Z) : Z := rax mod 2 ^ 8.
Definition put_al (v rax : Z) : Z := rax - rax mod 2 ^ 8 + v mod 2 ^ 8.
Definition put_dx (v rdx : Z) : Z := rdx - rdx mod 2 ^ 16 + v mod 2 ^ 16.
Lemma get_put_al v r : get_al (put_al v r) = v mod 2 ^ 8.
Proof.
  unfold get_al, put_al. rewrite (Z.mod_eq r (2 ^ 8)) by lia.
  replace (r - (r - 2 ^ 8 * (r / 2 ^ 8)) + v mod 2 ^ 8) with (v mod 2 ^ 8 + r / 2 ^ 8 * 2 ^ 8) by lia.
  rewrite Z.mod_add by lia. apply Zmod_mod.
Qed.

(** One instruction; [inr] leaves the guest.  A fault ends in a shutdown, as there is no
    interrupt table; an instruction that is not modelled in an error of the emulation. *)
Definition step (s : test_vm) : test_vm + (test_exit * test_vm) :=
  match decode s with
  | None => inr (match byte_at s (t_rip s) with None => Exit_SHUTDOWN | Some _ => Exit_INTERNAL_ERROR end, s)
  | Some (i, n) =>
      let s1 := set_rip (t_rip s + n) s in
      match i with
      | Hlt => inr (Exit_HLT, s1)
      | Out_dx_al => inr (Exit_IO (get_al (t_rax s)), s1)
      | Mov_al v => inl (set_rax (put_al v (t_rax s)) s1)
      | Mov_dx v => inl (set_rdx (put_dx v (t_rdx s)) s1)
      | Mov_rax v => inl (set_rax v s1)
      | Mov_edx v => inl (set_rdx v s1)
      | Push v =>
          let sp := u64 (t_rsp s - 8) in
          match put_word 8 sp (u64 (signed 8 v)) (set_rsp sp s1) with
          | Some s2 => inl s2
          | None => inr (Exit_SHUTDOWN, s)
          end
      | Pop_rcx =>
          match word_at 8 s (t_rsp s) with
          | Some v => inl (set_rcx v (set_rsp (u64 (t_rsp s + 8)) s1))
          | None => inr (Exit_SHUTDOWN, s)
          end
      | Shr_rax v => inl (set_rax (Z.shiftr (t_rax s) (v mod 64)) s1)
      | Loop d =>
          let c := u64 (t_rcx s - 1) in
          inl (set_rcx c (if c =? 0 then s1 else set_rip (t_rip s1 + signed 8 d) s1))
      end
  end.
Definition x86_run (s : test_vm) : option (test_exit * test_vm) := loop step s.

(** ** Theorems *)

Definition works (K : kvm) : Prop :=
  0 <= open_kvm K /\ api_version K = 12 /\ 0 <= create_vm K /\ kvm_run K = x86_run.

Lemma create_run K code s : works K -> create K code s = Ok tt (set_tmem (put_bytes (fun _ => 0) 0 code) s).
Proof.
  intros (H1 & H2 & H3 & _). unfold create. rewrite !(proj2 (Z.ltb_ge _ _)) by lia. by rewrite H2.
Qed.

(** What a run that returns has printed. *)
Definition printed (o : outcome test_vm unit) : option (list Z) :=
  match o with Ok _ s => Some (t_out s) | Halt _ => None end.
Lemma printed_ok o l : printed o = Some l -> exists s', o = Ok tt s' /\ t_out s' = l.
Proof. destruct o as [[] s|]; [|done]. intros [= <-]. eauto. Qed.

(** The 64-bit tests return and print ABCD123 and a line feed, whatever follows the literal
    that is copied with 73 bytes too many. *)
Theorem long_test_prints K sce after s :
  works K -> (73 <= length after)%nat -> t_out s = [] ->
  exists s', main_long K sce after s = Ok tt s' /\ t_out s' = [0x41; 0x42; 0x43; 0x44; 0x31; 0x32; 0x33; 0x0A].
Proof.
  intros HK Ha Ho. do 73 (destruct after as [|? after]; [cbn in Ha; lia|]). clear Ha.
  unfold main_long, kvm_init. rewrite (bind_ok _ _ _ _ _ (create_run K _ s HK)).
  destruct HK as (_ & _ & _ & HK). unfold exit_loop. rewrite HK. clear HK.
  destruct s as [m a c d ip sp fl sr out]. cbn in Ho. subst out.
  apply printed_ok. destruct sce; vm_compute; reflexivity.
Qed.

(** In real mode, as KVM resets the processor, run_simple prints a and a line feed. *)
Theorem simple_test_prints K s :
  works K -> t_out s = [] -> sr_cr0 (t_sregs s) = 0x60000010 -> sr_efer (t_sregs s) = 0 ->
  exists s', main_simple K s = Ok tt s' /\ t_out s' = [0x61; 0x0A].
Proof.
  intros HK Ho H0 He. unfold main_simple, kvm_init_simple. rewrite (bind_ok _ _ _ _ _ (create_run K _ s HK)).
  destruct HK as (_ & _ & _ & HK). unfold exit_loop. rewrite HK. clear HK.
  destruct s as [m a c d ip sp fl sr out]. cbn in Ho, H0, He. subst out.
  destruct sr as [cs ds es fs gs ss cr0 cr3 cr4 efer]. cbn in H0, He. subst cr0 efer.
  apply printed_ok. transitivity (Some [get_al (put_al 0x61 a); get_al (put_al 0x0A (put_al 0x61 a))]).
  - unfold x86_run, step. generalize get_al put_al. intros. vm_compute. reflexivity.
  - by rewrite !get_put_al.
Qed.

(** ** The page tables of the 64-bit tests *)

(** A table with one entry, its first. *)
Lemma one_entry m t e va bits :
  ld64 m t = e -> (forall x, t + 8 <= x < t + 4096 -> m x = 0) ->
  entry m t va bits = if tbl_index va bits =? 0 then e else 0.
Proof.
  intros He Hz. pose proof (tbl_index_range va bits). unfold entry.
  destruct (Z.eqb_spec (tbl_index va bits) 0) as [->|Hn]; [by rewrite Z.add_0_r|].
  rewrite (ld_ext 8 m (fun _ => 0)); [done|]. intros x Hx. apply Hz. unfold rng in Hx. lia.
Qed.

(** An address is below 2MB exactly when it uses the first entry of every table. *)
Lemma first_entries va :
  0 <= va < 2 ^ 47 ->
  va < 0x200000 <-> tbl_index va 39 = 0 /\ tbl_index va 30 = 0 /\ tbl_index va 21 = 0.
Proof. intros H. rewrite !tbl_index_div by lia. Z.to_euclidean_division_equations. lia. Qed.

(** After [set_pagetable] exactly the first 2MB are mapped, onto themselves, writable and
    for the kernel only. *)
Theorem set_pagetable_identity sce code sregs s :
  Z.of_nat (length code) <= 0x1000 ->
  exists m sregs', set_pagetable sce sregs (set_tmem (put_bytes (fun _ => 0) 0 code) s) = Ok sregs' (set_tmem m s) /\
    (forall i, 0 <= i < Z.of_nat (length code) -> m i = u8 (default 0 (code !! Z.to_nat i))) /\
    forall va, walk m (sr_cr3 sregs') va =
      if (0 <=? va) && (va <? 0x200000) then Some (Xlat va false true) else None.
Proof.
  intros Hl. do 2 eexists. split; [reflexivity|]. cbn [t_mem set_tmem sr_cr3].
  set (m0 := put_bytes _ _ _). set (m := st64 (st64 (st64 m0 _ _) _ _) _ _).
  assert (forall x, 0x1000 <= x -> m0 x = 0) as H0.
  { intros x Hx. unfold m0, put_bytes. by rewrite (proj2 (andb_false_iff _ _)) by lia. }
  assert (forall x, 0x1008 <= x -> ~ rng 0x2000 8 x -> ~ rng 0x3000 8 x -> m x = 0) as Hz.
  { intros x H1 H2 H3. unfold m, st64. rewrite !st_outside by (unfold rng in *; lia). apply H0. lia. }
  split.
  { intros i Hi. unfold m, st64. rewrite !st_outside by (unfold rng; lia). unfold m0, put_bytes.
    rewrite (proj2 (andb_true_iff _ _)) by lia. by rewrite Z.sub_0_r. }
  assert (forall va bits, entry m 0x1000 va bits = if tbl_index va bits =? 0 then 0x2003 else 0) as E4.
  { intros. apply one_entry; [|intros x Hx; apply Hz; unfold rng; lia].
    unfold m, ld64, st64. rewrite !ld_st_other by lia. apply ld64_st64. lia. }
  assert (forall va bits, entry m 0x2000 va bits = if tbl_index va bits =? 0 then 0x3003 else 0) as E3.
  { intros. apply one_entry; [|intros x Hx; apply Hz; unfold rng; lia].
    unfold m, ld64, st64. rewrite ld_st_other by lia. apply ld64_st64. lia. }
  assert (forall va bits, entry m 0x3000 va bits = if tbl_index va bits =? 0 then 0x83 else 0) as E2.
  { intros. apply one_entry; [|intros x Hx; apply Hz; unfold rng; lia]. apply ld64_st64. lia. }
  clearbody m. intros va. unfold walk. destruct (Z.leb_spec 0 va); cbn [andb negb]; [|done].
  destruct (Z.ltb_spec va (2 ^ 47)); cbn [negb]; [|by rewrite (proj2 (Z.ltb_ge _ _)) by lia].
  pose proof (first_entries va ltac:(lia)) as Hf. cbv zeta.
  change (entry_addr 12 0x1000) with 0x1000. rewrite E4.
  destruct (Z.eqb_spec (tbl_index va 39) 0); [|by rewrite (proj2 (Z.ltb_ge _ _)) by lia].
  change (entry_addr 12 0x2003) with 0x2000. rewrite E3.
  destruct (Z.eqb_spec (tbl_index va 30) 0); [|by rewrite (proj2 (Z.ltb_ge _ _)) by lia].
  change (entry_addr 12 0x3003) with 0x3000. rewrite E2.
  destruct (Z.eqb_spec (tbl_index va 21) 0); [|by rewrite (proj2 (Z.ltb_ge _ _)) by lia].
  rewrite (proj2 (Z.ltb_lt _ _)) by tauto. cbn. do 2 f_equal. rewrite Z.mod_small by lia. done.
Qed.

(** ** Witnesses *)

Definition ex_seg : kvm_segment := Segment 0xffff0000 0xffff 0xf000 1 11 0 0 1 0 0.
Definition ex_sregs : kvm_sregs := Sregs ex_seg ex_seg ex_seg ex_seg ex_seg ex_seg 0x60000010 0 0 0.
Definition ex_kvm : kvm := Kvm 3 12 4 x86_run.
Definition ex_vm : test_vm := TestVm (fun _ => 0) 0 0 0 0xfff0 0 2 ex_sregs [].
Lemma ex_works : works ex_kvm.
Proof. done. Qed.

Lemma long_test_prints_witness :
  exists s', main_long ex_kvm true (replicate 80 0x90) ex_vm = Ok tt s' /\
    t_out s' = [0x41; 0x42; 0x43; 0x44; 0x31; 0x32; 0x33; 0x0A].
Proof.
  apply (long_test_prints ex_kvm true (replicate 80 0x90) ex_vm ex_works); [|reflexivity].
  rewrite length_replicate. lia.
Defined.
Lemma simple_test_prints_witness :
  exists s', main_simple ex_kvm ex_vm = Ok tt s' /\ t_out s' = [0x61; 0x0A].
Proof. exact (simple_test_prints ex_kvm ex_vm ex_works eq_refl eq_refl eq_refl). Defined.
Lemma set_pagetable_identity_witness :
  exists m sregs', set_pagetable false ex_sregs (set_tmem (put_bytes (fun _ => 0) 0 long_code) ex_vm) =
      Ok sregs' (set_tmem m ex_vm) /\
    walk m (sr_cr3 sregs') 0x1ffff8 = Some (Xlat 0x1ffff8 false true) /\ walk m (sr_cr3 sregs') 0x200000 = None.
Proof.
  destruct (set_pagetable_identity false long_code ex_sregs ex_vm) as (m & sr & H & _ & Hw); [vm_compute; discriminate|].
  exists m, sr. split; [exact H|]. split; [exact (Hw 0x1ffff8)|exact (Hw 0x200000)].
Defined.

(** ** The copies

    page_table/test.c does not set EFER.SCE; the rest is the text of kernel/test.c. *)
Definition page_table_kvm_init (K : kvm) : list Z -> cmd test_vm unit := kvm_init K false.
Definition page_table_set_pagetable : kvm_sregs -> cmd test_vm kvm_sregs := set_pagetable false.
Definition page_table_set_segment_regs : kvm_sregs -> kvm_sregs := set_segment_regs.
Definition page_table_main (K : kvm) : list Z -> cmd test_vm unit := main_long K false.
