(* ===== verification/Sockmap.v ===== *)
(** * Socket redirection between local processes (sockmap_1)

    [bpf_sockmap] puts every established IPv4 connection of the host into a
    hash of sockets; [bpf_redir] hands what a process sends to the socket found under the
    key with the two ends exchanged.  The map is a finite map with the kernel's rules for
    updates.  bpf_htonl is the same exchange of bytes as [bpf_ntohl]. *)

From S2P Require Import Prelude Packet.

(** ** The programs *)

Record sock_key := SockKey { sip4 : Z; dip4 : Z; family : Z; sport : Z; dport : Z }.
#[export] Instance sock_key_eq_dec : EqDecision sock_key.
Proof. solve_decision. Defined.
#[export] Instance sock_key_countable : Countable sock_key.
Proof.
  refine (inj_countable' (fun k => (sip4 k, dip4 k, family k, sport k, dport k))
            (fun '(a, b, c, d, e) => SockKey a b c d e) _).
  by intros [].
Defined.

(** The context fields the programs read. *)
Record bpf_sock_ops := SockOps {
  ops_op : Z; ops_family : Z; ops_remote_ip4 : Z; ops_local_ip4 : Z; ops_remote_port : Z; ops_local_port : Z
}.
Record sk_msg_md := MsgMd { msg_remote_ip4 : Z; msg_local_ip4 : Z; msg_remote_port : Z; msg_local_port : Z }.

Definition extract_key4_from_ops (ops : bpf_sock_ops) : sock_key :=
  SockKey (ops_local_ip4 ops) (ops_remote_ip4 ops) 1
          (Z.shiftr (bpf_ntohl (ops_local_port ops)) 16) (Z.shiftr (ops_remote_port ops) 16).
Definition extract_key4_from_msg (msg : sk_msg_md) : sock_key :=
  SockKey (msg_remote_ip4 msg) (msg_local_ip4 msg) 1
          (Z.shiftr (msg_remote_port msg) 16) (Z.shiftr (bpf_ntohl (msg_local_port msg)) 16).

(** The map of sockets, by identity.  BPF_NOEXIST keeps an entry that is there; an update
    may also be refused, as when the map is full. *)
Abbreviation sockhash := (gmap sock_key Z).
Definition BPF_SOCK_OPS_ACTIVE_ESTABLISHED_CB : Z := 4.
Definition BPF_SOCK_OPS_PASSIVE_ESTABLISHED_CB : Z := 5.
Definition SK_PASS : Z := 1.

Section Hash.
Context (refused : sockhash -> sock_key -> bool).

Definition sock_hash_update (m : sockhash) (k : sock_key) (sk : Z) : sockhash :=
  match m !! k with
  | Some _ => m
  | None => if refused m k then m else <[k := sk]> m
  end.
Definition bpf_sock_ops_ipv4 (ops : bpf_sock_ops) (sk : Z) (m : sockhash) : sockhash :=
  sock_hash_update m (extract_key4_from_ops ops) sk.
(** The program; [sk] is the socket the event is about.  It returns 0. *)
Definition bpf_sockmap (ops : bpf_sock_ops) (sk : Z) (m : sockhash) : Z * sockhash :=
  if (ops_op ops =? BPF_SOCK_OPS_PASSIVE_ESTABLISHED_CB) || (ops_op ops =? BPF_SOCK_OPS_ACTIVE_ESTABLISHED_CB)
  then (0, if ops_family ops =? 2 then bpf_sock_ops_ipv4 ops sk m else m)
  else (0, m).
End Hash.

(** The verdict, and the socket the message is handed to; without one it takes the
    ordinary way. *)
Definition bpf_redir (msg : sk_msg_md) (m : sockhash) : Z * option Z :=
  (SK_PASS, m !! extract_key4_from_msg msg).

(** ** Connections *)

(** A connected socket: addresses in network order, ports as numbers. *)
Record sock := Sock { local_ip : Z; local_port : Z; remote_ip : Z; remote_port : Z }.
Definition port_ok (p : Z) : Prop := 0 <= p < 2 ^ 16.
Definition sock_ok (s : sock) : Prop := port_ok (local_port s) /\ port_ok (remote_port s).
(** The two ends of one connection. *)
Definition peer (a b : sock) : Prop :=
  local_ip b = remote_ip a /\ local_port b = remote_port a /\ remote_ip b = local_ip a /\ remote_port b = local_port a.

(** The context the kernel builds: [local_port] in host order, [remote_port] in network
    order. *)
Definition ops_of (op : Z) (s : sock) : bpf_sock_ops :=
  SockOps op 2 (remote_ip s) (local_ip s) (bpf_ntohl (remote_port s)) (local_port s).
Definition msg_of (s : sock) : sk_msg_md :=
  MsgMd (remote_ip s) (local_ip s) (bpf_ntohl (remote_port s)) (local_port s).

(** What happens to the sockets of the host: a connection is established, a socket is
    closed (the kernel takes it out of the map), anything else reported to the program. *)
Inductive event := Established (op : Z) (sk : Z) | Closed (sk : Z) | OtherOp (op : Z) (sk : Z).

Section Events.
Context (refused : sockhash -> sock_key -> bool) (socks : Z -> sock).
Definition handle (m : sockhash) (e : event) : sockhash :=
  match e with
  | Established op sk | OtherOp op sk => (bpf_sockmap refused (ops_of op (socks sk)) sk m).2
  | Closed sk => filter (fun kv => kv.2 <> sk) m
  end.
Definition hash_after (es : list event) (m : sockhash) : sockhash := foldl handle m es.
End Events.

(** The byte-swapped port is in the upper half of the swapped word. *)
Lemma swapped_port p : port_ok p -> Z.shiftr (bpf_ntohl p) 16 = bpf_ntohs p.
Proof.
  intros [H1 H2]. pose proof (Z.div_mod p 256 ltac:(lia)).
  pose proof (Z.mod_pos_bound p 256 ltac:(lia)).
  assert (0 <= p / 256 < 256) by (Z.to_euclidean_division_equations; lia).
  replace p with (p mod 256 + 256 * (p / 256) + 65536 * (0 + 256 * 0)) at 1 by lia.
  rewrite bpf_ntohl_bytes by lia. rewrite Z.shiftr_div_pow2 by lia.
  replace p with (p mod 256 + 256 * (p / 256)) at 3 by lia. rewrite bpf_ntohs_bytes by lia.
  change (2 ^ 16) with 65536. Z.to_euclidean_division_equations; lia.
Qed.
Lemma ntohs_inj p q : port_ok p -> port_ok q -> bpf_ntohs p = bpf_ntohs q -> p = q.
Proof.
  intros [H1 H2] [H3 H4]. pose proof (Z.div_mod p 256 ltac:(lia)). pose proof (Z.div_mod q 256 ltac:(lia)).
  pose proof (Z.mod_pos_bound p 256 ltac:(lia)). pose proof (Z.mod_pos_bound q 256 ltac:(lia)).
  assert (0 <= p / 256 < 256) by (Z.to_euclidean_division_equations; lia).
  assert (0 <= q / 256 < 256) by (Z.to_euclidean_division_equations; lia).
  replace p with (p mod 256 + 256 * (p / 256)) at 1 by lia.
  replace q with (q mod 256 + 256 * (q / 256)) at 1 by lia.
  rewrite !bpf_ntohs_bytes by lia. lia.
Qed.

(** The key a socket is stored under, and the key of a message it sends. *)
Definition stored_key (s : sock) : sock_key :=
  SockKey (local_ip s) (remote_ip s) 1 (bpf_ntohs (local_port s)) (bpf_ntohs (remote_port s)).
Lemma ops_key op s : sock_ok s -> extract_key4_from_ops (ops_of op s) = stored_key s.
Proof. intros [H1 H2]. unfold extract_key4_from_ops, ops_of. cbn. by rewrite !swapped_port. Qed.
Lemma msg_key s :
  sock_ok s -> extract_key4_from_msg (msg_of s) =
    SockKey (remote_ip s) (local_ip s) 1 (bpf_ntohs (remote_port s)) (bpf_ntohs (local_port s)).
Proof. intros [H1 H2]. unfold extract_key4_from_msg, msg_of. cbn. by rewrite !swapped_port. Qed.
(** The key of a message is the stored key of the other end, and of nothing else. *)
Lemma key_peer a b : sock_ok a -> sock_ok b -> extract_key4_from_msg (msg_of a) = stored_key b <-> peer a b.
Proof.
  intros Ha Hb. rewrite msg_key by done. unfold stored_key, peer. split.
  - intros [= E1 E2 E3 E4]. destruct Ha, Hb. apply ntohs_inj in E3, E4; auto.
  - intros (-> & -> & -> & ->). done.
Qed.

Section Redirect.
Context (refused : sockhash -> sock_key -> bool) (socks : Z -> sock) (Hok : forall i, sock_ok (socks i)).

(** Every socket is stored under its own key. *)
Definition well_keyed (m : sockhash) : Prop := forall k i, m !! k = Some i -> k = stored_key (socks i).

Lemma sockmap_lookup op sk m k i :
  (bpf_sockmap refused (ops_of op (socks sk)) sk m).2 !! k = Some i ->
  m !! k = Some i \/ (k = stored_key (socks sk) /\ i = sk).
Proof.
  unfold bpf_sockmap. destruct (_ || _); cbn; [|by left].
  unfold bpf_sock_ops_ipv4, sock_hash_update. rewrite ops_key by done.
  destruct (m !! stored_key (socks sk)) eqn:E; [by left|]. destruct (refused _ _); [by left|].
  destruct (decide (stored_key (socks sk) = k)) as [<-|Hn].
  - rewrite lookup_insert_eq. intros [= <-]. by right.
  - rewrite lookup_insert_ne by done. by left.
Qed.
Lemma sockmap_keeps op sk m k i :
  m !! k = Some i -> (bpf_sockmap refused (ops_of op (socks sk)) sk m).2 !! k = Some i.
Proof.
  intros H. unfold bpf_sockmap. destruct (_ || _); cbn; [|done].
  unfold bpf_sock_ops_ipv4, sock_hash_update. set (k' := extract_key4_from_ops _).
  destruct (m !! k') eqn:E; [done|]. destruct (refused _ _); [done|].
  rewrite lookup_insert_ne; [done|]. congruence.
Qed.

Lemma handle_keyed m e : well_keyed m -> well_keyed (handle refused socks m e).
Proof.
  intros Hw k i. destruct e as [op sk|sk|op sk]; cbn [handle].
  - intros [H|[-> ->]]%sockmap_lookup; auto.
  - intros [H _]%map_lookup_filter_Some. auto.
  - intros [H|[-> ->]]%sockmap_lookup; auto.
Qed.
Lemma hash_keyed es m : well_keyed m -> well_keyed (hash_after refused socks es m).
Proof. revert m. induction es as [|e es IH]; intros m Hm; [done|]. apply IH. by apply handle_keyed. Qed.

Lemma hash_keeps es m k i :
  m !! k = Some i -> Closed i ∉ es -> hash_after refused socks es m !! k = Some i.
Proof.
  revert m. induction es as [|e es IH]; intros m Hm Hc; [done|].
  apply not_elem_of_cons in Hc as [Hne Hc]. apply IH; [|done].
  destruct e as [op sk|sk|op sk]; cbn [handle]; [by apply sockmap_keeps| |by apply sockmap_keeps].
  apply map_lookup_filter_Some. split; [done|]. cbn. congruence.
Qed.
End Redirect.

(** C31: Messages go to the other end of their connection or take the ordinary way: whatever
    happened before, a message that is redirected is handed to a socket that is the peer of
    the sender; and once the peer's connection has been recorded, everything sent to it until
    it is closed is handed to it. *)
Theorem redirect_to_peer refused socks es a :
  (forall i, sock_ok (socks i)) ->
  (forall v b, bpf_redir (msg_of (socks a)) (hash_after refused socks es ∅) = (v, Some b) -> peer (socks a) (socks b)) /\
  (forall op b es', peer (socks a) (socks b) ->
     op = BPF_SOCK_OPS_ACTIVE_ESTABLISHED_CB \/ op = BPF_SOCK_OPS_PASSIVE_ESTABLISHED_CB ->
     hash_after refused socks es ∅ !! stored_key (socks b) = None ->
     refused (hash_after refused socks es ∅) (stored_key (socks b)) = false -> Closed b ∉ es' ->
     bpf_redir (msg_of (socks a)) (hash_after refused socks (es ++ Established op b :: es') ∅) = (SK_PASS, Some b)).
Proof.
  intros Hok. split.
  - intros v b [= _ H]. apply (hash_keyed refused socks Hok es ∅) in H; [by apply key_peer|done].
  - intros op b es' Hp Hop Hn Hr Hc. unfold bpf_redir. f_equal.
    rewrite (proj2 (key_peer (socks a) (socks b) (Hok a) (Hok b)) Hp).
    unfold hash_after. rewrite foldl_app. fold (hash_after refused socks es ∅). cbn [foldl].
    apply hash_keeps; [|done]. cbn [handle]. unfold bpf_sockmap.
    replace (_ || _) with true by (by destruct Hop as [->| ->]). cbn [snd ops_family ops_of Z.eqb Pos.eqb].
    unfold bpf_sock_ops_ipv4, sock_hash_update. rewrite ops_key, Hn, Hr by done. apply lookup_insert_eq.
Qed.

Definition ex_socks (i : Z) : sock :=
  if i =? 1 then Sock 0x0100007f 40000 0x0100007f 80 else Sock 0x0100007f 80 0x0100007f 40000.
Lemma redirect_to_peer_witness :
  bpf_redir (msg_of (ex_socks 1)) (hash_after (fun _ _ => false) ex_socks ([Established 4 1] ++ [Established 5 2]) ∅) =
    (SK_PASS, Some 2).
Proof.
  refine (proj2 (redirect_to_peer (fun _ _ => false) ex_socks [Established 4 1] 1 _) 5 2 [] _ _ _ eq_refl _).
  - intros i. unfold ex_socks. destruct (i =? 1); split; split; vm_compute; (reflexivity || discriminate).
  - repeat split.
  - by right.
  - vm_compute. reflexivity.
  - apply not_elem_of_nil.
Defined.
