(* ===== verification/Libc.v ===== *)
(** * Library routines the user programs share

    [atoi] and the [%d] of [sprintf], over lists of bytes.  A string is the bytes before its
    terminator; the bytes that follow it in a larger buffer may be left in place, as
    [atoi] stops at the first byte that is no digit. *)

From S2P Require Import Prelude.

Definition is_digit (c : Z) : bool := (48 <=? c) && (c <=? 57).
Definition is_space (c : Z) : bool := (c =? 32) || ((9 <=? c) && (c <=? 13)).

Fixpoint atoi_digits (acc : Z) (l : list Z) : Z :=
  match l with
  | c :: l' => if is_digit c then atoi_digits (10 * acc + (c - 48)) l' else acc
  | [] => acc
  end.
Definition atoi_signed (l : list Z) : Z :=
  match l with
  | c :: l' => if c =? 45 then - atoi_digits 0 l'
               else if c =? 43 then atoi_digits 0 l' else atoi_digits 0 l
  | [] => 0
  end.
Fixpoint atoi (l : list Z) : Z :=
  match l with
  | c :: l' => if is_space c then atoi l' else atoi_signed l
  | [] => 0
  end.

(** The decimal digits of [n >= 0], most significant first; an [int] has at most ten. *)
Fixpoint digits (fuel : nat) (n : Z) (l : list Z) : list Z :=
  match fuel with
  | O => l
  | S f => if n <? 10 then (48 + n) :: l else digits f (n / 10) ((48 + n mod 10) :: l)
  end.
Definition sprintf_d (n : Z) : list Z :=
  if n <? 0 then 45 :: digits 10 (- n) [] else digits 10 n [].

Lemma is_digit_48 d : 0 <= d < 10 -> is_digit (48 + d) = true.
Proof. intros H. unfold is_digit. lia. Qed.

(** Reading digits back continues where they were written. *)
Lemma atoi_digits_app fuel : forall n l,
  0 <= n < 10 ^ Z.of_nat fuel ->
  exists k, 0 <= k /\
    forall acc, atoi_digits acc (digits fuel n l) = atoi_digits (10 ^ k * acc + n) l.
Proof.
  induction fuel as [|f IH]; intros n l Hn; [exists 0; split; [done|]; intros acc; f_equal; lia|].
  cbn [digits]. destruct (Z.ltb_spec n 10) as [Hs|Hb].
  - exists 1. split; [done|]. intros acc. cbn [atoi_digits]. rewrite is_digit_48 by lia. f_equal. lia.
  - rewrite Nat2Z.inj_succ, Z.pow_succ_r in Hn by lia.
    destruct (IH (n / 10) ((48 + n mod 10) :: l)) as (k & Hk & E).
    { split; [apply Z.div_pos; lia|]. apply Z.div_lt_upper_bound; lia. }
    exists (k + 1). split; [lia|]. intros acc. rewrite E. cbn [atoi_digits].
    pose proof (Z.mod_pos_bound n 10). rewrite is_digit_48 by lia. f_equal.
    rewrite Z.pow_add_r by lia. pose proof (Z.div_mod n 10). lia.
Qed.

(** The first byte written is a digit. *)
Lemma digits_head fuel : forall n l, 0 <= n < 10 ^ Z.of_nat fuel -> (0 < fuel)%nat ->
  exists d l', digits fuel n l = (48 + d) :: l' /\ 0 <= d < 10.
Proof.
  induction fuel as [|f IH]; intros n l Hn Hf; [lia|]. cbn [digits].
  destruct (Z.ltb_spec n 10) as [Hs|Hb]; [exists n, l; split; [done|lia]|].
  rewrite Nat2Z.inj_succ, Z.pow_succ_r in Hn by lia.
  assert (0 <= n / 10 < 10 ^ Z.of_nat f) by (split; [apply Z.div_pos; lia|apply Z.div_lt_upper_bound; lia]).
  destruct f as [|f]; [cbn in Hn; lia|]. by apply IH; [|lia].
Qed.

(** What is left after the digits does not matter. *)
Definition no_digit (rest : list Z) : Prop := match rest with c :: _ => is_digit c = false | [] => True end.
Lemma atoi_digits_stop acc rest : no_digit rest -> atoi_digits acc rest = acc.
Proof. destruct rest as [|c rest]; [done|]. cbn. by intros ->. Qed.

Lemma digits_app fuel : forall n l rest, digits fuel n l ++ rest = digits fuel n (l ++ rest).
Proof. induction fuel as [|f IH]; intros n l rest; cbn [digits]; [done|]. destruct (n <? 10); [done|]. by rewrite IH. Qed.

Lemma atoi_digits_read n rest :
  0 <= n < 10 ^ 10 -> no_digit rest -> atoi_digits 0 (digits 10 n rest) = n.
Proof.
  intros Hn Hr. destruct (atoi_digits_app 10 n rest Hn) as (k & Hk & ->). rewrite atoi_digits_stop by done. lia.
Qed.

(** [atoi] reads back what [sprintf("%d")] wrote, whatever follows it in the buffer. *)
Theorem atoi_sprintf n rest :
  - 2 ^ 31 <= n < 2 ^ 31 -> no_digit rest -> atoi (sprintf_d n ++ rest) = n.
Proof.
  intros Hn Hr. unfold sprintf_d. destruct (Z.ltb_spec n 0) as [Hneg|Hpos].
  - change (- atoi_digits 0 (digits 10 (- n) [] ++ rest) = n). rewrite digits_app, atoi_digits_read by (done || lia). lia.
  - rewrite digits_app. cbn [app]. destruct (digits_head 10 n rest) as (d & l' & E & Hd); [lia..|].
    pose proof (atoi_digits_read n rest ltac:(lia) Hr) as Hread. rewrite E in *. cbn [atoi].
    replace (is_space (48 + d)) with false by (unfold is_space; lia). unfold atoi_signed.
    replace (48 + d =? 45) with false by lia. by replace (48 + d =? 43) with false by lia.
Qed.
