(* ===== verification/SockProxy.v ===== *)
(** * A proxy between two servers (sockmap_2)

    sockmap_kern.c forwards in the kernel: [bpf_prog2] looks the server's port up and hands
    the data to the other socket.  sockmap_user.c sets the maps up; SIGHUP takes the sockets
    out of the map and puts them back.  The loop of proxy.c and sockmap_user.c forwards in
    user space.  Sockets and [select] are the parameter [sockets]. *)

From S2P Require Import Prelude Libc Packet Sockmap.

(** ** In the kernel *)

Definition MAX_ENTRIES : Z := 2.

Record proxy := Proxy {
  proxy_map : gmap Z Z;   (* port of a server to index in sock_map *)
  sock_map : gmap Z Z;
  ctrl : Z
}.

(** [bpf_prog1]: the whole buffer is one message. *)
Definition bpf_prog1 (len : Z) : Z := len.
Definition SK_DROP : Z := 0.
(** [bpf_prog2]: the verdict and the socket the data is handed to. *)
Definition bpf_prog2 (skb_remote_port : Z) (p : proxy) : Z * option Z :=
  let port := u16 (bpf_ntohl skb_remote_port) in
  match proxy_map p !! port with
  | None => (SK_DROP, None)
  | Some index =>
      match sock_map p !! index with (* bpf_sk_redirect_map *)
      | Some sd => (SK_PASS, Some sd)
      | None => (SK_DROP, None)
      end
  end.

(** ** Setting up and SIGHUP *)

Definition put_socks (sd1 sd2 : Z) (m : gmap Z Z) : gmap Z Z :=
  bpf_map_update MAX_ENTRIES 1 sd2 (bpf_map_update MAX_ENTRIES 0 sd1 m).
(** The map updates of [main]; ports are unsigned short. *)
Definition setup (port1 port2 sd1 sd2 : Z) (p : proxy) : proxy :=
  Proxy (bpf_map_update MAX_ENTRIES (u16 port2) 0 (bpf_map_update MAX_ENTRIES (u16 port1) 1 (proxy_map p)))
        (put_socks sd1 sd2 (sock_map p)) (ctrl p).
Definition hup_handler (sd1 sd2 : Z) (p : proxy) : proxy :=
  if ctrl p =? 1 then Proxy (proxy_map p) (put_socks sd1 sd2 (sock_map p)) 0
  else if ctrl p =? 0 then Proxy (proxy_map p) (delete 1 (delete 0 (sock_map p))) 1
  else p.

Lemma update_second (k k' v v' : Z) :
  bpf_map_update MAX_ENTRIES k' v' ({[k := v]} : gmap Z Z) = <[k' := v']> {[k := v]}.
Proof.
  unfold bpf_map_update. destruct (({[k := v]} : gmap Z Z) !! k'); [done|]. by rewrite map_size_singleton.
Qed.

Definition both (sd1 sd2 : Z) : gmap Z Z := <[1 := sd2]> {[0 := sd1]}.
Lemma put_socks_empty sd1 sd2 : put_socks sd1 sd2 ∅ = both sd1 sd2.
Proof. unfold put_socks. by rewrite update_empty, update_second. Qed.
Lemma take_socks sd1 sd2 : delete 1 (delete 0 (both sd1 sd2)) = ∅.
Proof. apply map_eq. intros i. unfold both. rewrite !lookup_delete, lookup_insert. 
  repeat case_decide; try done. by rewrite lookup_singleton_ne by congruence.
Qed.

(** The state after [n] signals: the sockets are in the map when [n] is even. *)
Lemma hup_state sd1 sd2 pm n :
  Nat.iter n (hup_handler sd1 sd2) (Proxy pm (both sd1 sd2) 0) =
    if Nat.even n then Proxy pm (both sd1 sd2) 0 else Proxy pm ∅ 1.
Proof.
  induction n as [|n IH]; [done|]. rewrite Nat.iter_succ, IH, Nat.even_succ, <- Nat.negb_even.
  destruct (Nat.even n); unfold hup_handler; cbn.
  - by rewrite take_socks.
  - by rewrite put_socks_empty.
Qed.

(** The port of a server as the program finds it. *)
Lemma remote_port_read p : port_ok p -> u16 (bpf_ntohl (bpf_ntohl p)) = p.
Proof.
  intros [H1 H2]. pose proof (Z.div_mod p 256 ltac:(lia)). pose proof (Z.mod_pos_bound p 256 ltac:(lia)).
  assert (0 <= p / 256 < 256) by (Z.to_euclidean_division_equations; lia).
  replace (bpf_ntohl p) with (0 + 256 * 0 + 65536 * (p / 256 + 256 * (p mod 256))).
  2:{ replace p with (p mod 256 + 256 * (p / 256) + 65536 * (0 + 256 * 0)) at 3 by lia.
      rewrite bpf_ntohl_bytes by lia. lia. }
  rewrite bpf_ntohl_bytes by lia. rewrite u16_small by lia. lia.
Qed.

(** With servers at different ports, after an even number of signals what one server
    sends is handed to the socket of the other; after an odd number no socket is in the map,
    and what reaches the program is dropped. *)
Lemma setup_forwards port1 port2 sd1 sd2 n :
  port_ok port1 -> port_ok port2 -> port1 <> port2 ->
  let p := Nat.iter n (hup_handler sd1 sd2) (setup port1 port2 sd1 sd2 (Proxy ∅ ∅ 0)) in
  bpf_prog2 (bpf_ntohl port1) p = (if Nat.even n then (SK_PASS, Some sd2) else (SK_DROP, None)) /\
  bpf_prog2 (bpf_ntohl port2) p = (if Nat.even n then (SK_PASS, Some sd1) else (SK_DROP, None)) /\
  (forall port, port_ok port -> port <> port1 -> port <> port2 -> bpf_prog2 (bpf_ntohl port) p = (SK_DROP, None)).
Proof.
  intros H1 H2 Hne. unfold setup. cbn [proxy_map sock_map ctrl].
  rewrite put_socks_empty, update_empty, update_second by done.
  rewrite !(u16_small port1), !(u16_small port2) by (unfold port_ok in *; lia). rewrite hup_state.
  unfold bpf_prog2. rewrite !remote_port_read by done.
  assert (forall q, proxy_map (if Nat.even n then Proxy q (both sd1 sd2) 0 else Proxy q ∅ 1) = q) as Hpm
    by (intros q; by destruct (Nat.even n)).
  rewrite !Hpm. split; [|split].
  - rewrite lookup_insert_ne, lookup_singleton_eq by done. by destruct (Nat.even n).
  - rewrite lookup_insert_eq. by destruct (Nat.even n).
  - intros port Hp N1 N2. rewrite remote_port_read by done. by rewrite lookup_insert_ne, lookup_singleton_ne by done.
Qed.

(** Servers at the same port: both entries are one, and the first server gets back what it
    sends. *)
Theorem proxy_same_port port sd1 sd2 :
  port_ok port -> bpf_prog2 (bpf_ntohl port) (setup port port sd1 sd2 (Proxy ∅ ∅ 0)) = (SK_PASS, Some sd1).
Proof.
  intros H. unfold setup. cbn [proxy_map sock_map ctrl].
  rewrite put_socks_empty, update_empty, update_second by done.
  unfold bpf_prog2. rewrite remote_port_read, u16_small by (unfold port_ok in *; lia || done). cbn [proxy_map].
  by rewrite lookup_insert_eq.
Qed.

(** ** In user space *)

(** [select] on the two sockets; [recv], [None] for -1; [send]. *)
Record sockets (W : Type) := Sockets {
  sk_select : W -> W * (bool * bool);
  sk_recv : W -> Z -> Z -> W * option (list Z);
  sk_send : W -> Z -> list Z -> W
}.
Arguments sk_select {W}. Arguments sk_recv {W}. Arguments sk_send {W}.

(** What the process has received and sent, in order. *)
Inductive io := Recv (sd : Z) (bs : list Z) | Send (sd : Z) (bs : list Z).
Record relay (W : Type) := Relay { outside : W; buf : list Z; trace : list io }.
Arguments Relay {W}. Arguments outside {W}. Arguments buf {W}. Arguments trace {W}.

Section Relay.
Context {W : Type} (net : sockets W) (MAXSIZE : Z).

(** [ret = recv(from, buf, MAXSIZE, 0); send(to, buf, ret, 0)].  When [recv] fails the
    length passed to [send] is [(size_t)-1], past the end of [buf]. *)
Definition forward (from to : Z) : cmd (relay W) unit :=
  s ← get;
  let '(w, r) := sk_recv net (outside s) from MAXSIZE in
  match r with
  | None => halt (Fault (u64 (-1)))
  | Some bs =>
      let b := bs ++ drop (length bs) (buf s) in
      let out := take (length bs) b in
      put (Relay (sk_send net w to out) b (trace s ++ [Recv from bs; Send to out]))
  end.

(** One round of the loop. *)
Definition round (sd1 sd2 : Z) : cmd (relay W) unit :=
  s ← get;
  let '(w, (r1, r2)) := sk_select net (outside s) in
  put (Relay w (replicate (Z.to_nat MAXSIZE) 0) (trace s)) ;;
  (if r1 : bool then forward sd1 sd2 else mret tt) ;;
  (if r2 : bool then forward sd2 sd1 else mret tt).
Fixpoint rounds (n : nat) (sd1 sd2 : Z) : cmd (relay W) unit :=
  match n with O => mret tt | S n' => round sd1 sd2 ;; rounds n' sd1 sd2 end.
End Relay.

(** proxy.c and sockmap_user.c differ in the size of the buffer. *)
Definition proxy_round {W} (net : sockets W) := round net 100.
Definition sockmap_user_round {W} (net : sockets W) := round net 1024.

Definition received (sd : Z) (t : list io) : list Z :=
  t ≫= fun e => match e with Recv d bs => if d =? sd then bs else [] | Send _ _ => [] end.
Definition sent (sd : Z) (t : list io) : list Z :=
  t ≫= fun e => match e with Send d bs => if d =? sd then bs else [] | Recv _ _ => [] end.

Section RelayProof.
Context {W : Type} (net : sockets W) (MAXSIZE : Z).
Context (recv_works : forall w sd n, (sk_recv net w sd n).2 <> None).

(** What came from each server has gone to the other. *)
Definition relayed (sd1 sd2 : Z) (t : list io) : Prop :=
  sent sd2 t = received sd1 t /\ sent sd1 t = received sd2 t.

Lemma forward_run from to s :
  exists w b bs, forward net MAXSIZE from to s = Ok tt (Relay w b (trace s ++ [Recv from bs; Send to bs])).
Proof.
  unfold forward. rewrite bind_get. pose proof (recv_works (outside s) from MAXSIZE) as Hr.
  destruct (sk_recv net (outside s) from MAXSIZE) as [w [bs|]]; [|done].
  do 3 eexists. unfold put. by rewrite take_app_length.
Qed.
Lemma relayed_step sd1 sd2 from to t bs :
  sd1 <> sd2 -> (from = sd1 /\ to = sd2) \/ (from = sd2 /\ to = sd1) ->
  relayed sd1 sd2 t -> relayed sd1 sd2 (t ++ [Recv from bs; Send to bs]).
Proof.
  intros Hne Hd [H1 H2]. unfold relayed, sent, received in *. rewrite !bind_app, H1, H2. cbn.
  destruct Hd as [[-> ->]|[-> ->]]; rewrite ?Z.eqb_refl, ?app_nil_r;
    rewrite ?(proj2 (Z.eqb_neq sd1 sd2)), ?(proj2 (Z.eqb_neq sd2 sd1)) by done; by rewrite ?app_nil_r.
Qed.
Lemma round_run sd1 sd2 s :
  sd1 <> sd2 -> relayed sd1 sd2 (trace s) ->
  exists s', round net MAXSIZE sd1 sd2 s = Ok tt s' /\ relayed sd1 sd2 (trace s').
Proof.
  intros Hne Hr. unfold round. rewrite bind_get. destruct (sk_select net (outside s)) as [w [r1 r2]].
  set (s1 := Relay w (replicate (Z.to_nat MAXSIZE) 0) (trace s)).
  erewrite (bind_ok (put s1)) by reflexivity.
  assert (exists s2, (if r1 then forward net MAXSIZE sd1 sd2 else mret tt) s1 = Ok tt s2 /\ relayed sd1 sd2 (trace s2))
    as (s2 & E & Hr2).
  { destruct r1; [|by exists s1]. destruct (forward_run sd1 sd2 s1) as (w' & b & bs & ->).
    eexists. split; [reflexivity|]. apply relayed_step; auto. }
  rewrite (bind_ok _ _ _ _ _ E). destruct r2; [|by exists s2].
  destruct (forward_run sd2 sd1 s2) as (w' & b & bs & ->). eexists. split; [reflexivity|].
  apply relayed_step; auto.
Qed.
End RelayProof.


(** ** From the command line *)

(** [socket], [gethostbyname] (the address in network order) and [connect], whose result
    the programs do not look at. *)
Record resolver (W : Type) := Resolver {
  rs_socket : W -> W * Z;
  rs_gethostbyname : list Z -> option Z;
  rs_connect : W -> Z -> Z -> Z -> W
}.
Arguments rs_socket {W}. Arguments rs_gethostbyname {W}. Arguments rs_connect {W}.

Section Main.
Context {W : Type} (lib : resolver W).

Definition tcp_socket : cmd W Z := fun w => let '(w', sd) := rs_socket lib w in Ok sd w'.
(** [p->h_addr] of a result of gethostbyname. *)
Definition h_addr (p : option Z) : cmd W Z := match p with Some a => mret a | None => halt (Fault 0) end.
Lemma tcp_socket_run w w' sd : rs_socket lib w = (w', sd) -> tcp_socket w = Ok sd w'.
Proof. intros H. unfold tcp_socket. by rewrite H. Qed.
(** The part of [main] both programs have: two sockets, connected to the servers of the
    arguments; the result are the sockets and the ports. *)
Definition connect_servers (host1 serv1 host2 serv2 : list Z) : cmd W ((Z * Z) * (Z * Z)) :=
  proxysd1 ← tcp_socket;
  proxysd2 ← tcp_socket;
  let proxy1 := rs_gethostbyname lib host1 in
  let port1 := u16 (atoi serv1) in
  let proxy2 := rs_gethostbyname lib host2 in
  let port2 := u16 (atoi serv2) in
  addr1 ← h_addr proxy1;
  addr2 ← h_addr proxy2;
  modify (fun w => rs_connect lib w proxysd1 (bpf_htons port1) addr1) ;;
  modify (fun w => rs_connect lib w proxysd2 (bpf_htons port2) addr2) ;;
  mret ((proxysd1, port1), (proxysd2, port2)).

(** The loop, [n] rounds of it. *)
Definition relay_loop (net : sockets W) (n : nat) (sd1 sd2 : Z) : cmd W (list io) := fun w =>
  match rounds net 100 n sd1 sd2 (Relay w [] []) with
  | Ok _ s => Ok (trace s) (outside s)
  | Halt e => Halt e
  end.
(** [main] of proxy.c after [n] rounds; [inl] is the code passed to [exit]. *)
Definition proxy_main (net : sockets W) (n : nat) (argv : list (list Z)) : cmd W (Z + list io) :=
  match argv with
  | [_; host1; serv1; host2; serv2] =>
      r ← connect_servers host1 serv1 host2 serv2;
      let '((sd1, _), (sd2, _)) := r in
      t ← relay_loop net n sd1 sd2;
      mret (inr t)
  | _ => mret (inl 1)
  end.
(** [main] of sockmap_user.c up to its loop; [p] are the maps of the loaded program. *)
Definition sockmap_main (argv : list (list Z)) (p : proxy) : cmd W (Z + proxy) :=
  match argv with
  | [_; host1; serv1; host2; serv2] =>
      r ← connect_servers host1 serv1 host2 serv2;
      let '((sd1, port1), (sd2, port2)) := r in
      mret (inr (setup port1 port2 sd1 sd2 p))
  | _ => mret (inl 1)
  end.
(** [int_handler] of both: the descriptors that stay open, and the exit code. *)
Definition int_handler (sd1 sd2 : Z) (open : gset Z) : gset Z * Z := (open ∖ {[sd1]} ∖ {[sd2]}, 0).

Context (w0 w1 w2 : W) (sd1 sd2 addr1 addr2 port1 port2 : Z) (prog host1 host2 : list Z).
Context (Hs1 : rs_socket lib w0 = (w1, sd1)) (Hs2 : rs_socket lib w1 = (w2, sd2)).
Context (Hh1 : rs_gethostbyname lib host1 = Some addr1) (Hh2 : rs_gethostbyname lib host2 = Some addr2).
Context (Hp1 : port_ok port1) (Hp2 : port_ok port2).
Definition args : list (list Z) := [prog; host1; sprintf_d port1; host2; sprintf_d port2].
Definition connected : W := rs_connect lib (rs_connect lib w2 sd1 (bpf_htons port1) addr1) sd2 (bpf_htons port2) addr2.

Lemma port_arg port : port_ok port -> u16 (atoi (sprintf_d port)) = port.
Proof using.
  intros H. unfold port_ok in H. rewrite <- (app_nil_r (sprintf_d port)), atoi_sprintf by (lia || done). by apply u16_small.
Qed.
Lemma connect_servers_run :
  connect_servers host1 (sprintf_d port1) host2 (sprintf_d port2) w0 = Ok ((sd1, port1), (sd2, port2)) connected.
Proof using Hs1 Hs2 Hh1 Hh2 Hp1 Hp2.
  unfold connect_servers. erewrite bind_ok by (by apply tcp_socket_run). erewrite bind_ok by (by apply tcp_socket_run).
  rewrite Hh1, Hh2, !port_arg by done. reflexivity.
Qed.
End Main.

(** Started with two hosts that resolve and two different ports in decimal, sockmap_user
    connects one socket to each server, at the port of the argument, and sets the maps up so
    that what comes from one server is handed to the socket of the other. *)
Theorem sockmap_main_forwards {W} (lib : resolver W) w0 w1 w2 sd1 sd2 addr1 addr2 port1 port2 prog host1 host2 :
  rs_socket lib w0 = (w1, sd1) -> rs_socket lib w1 = (w2, sd2) ->
  rs_gethostbyname lib host1 = Some addr1 -> rs_gethostbyname lib host2 = Some addr2 ->
  port_ok port1 -> port_ok port2 -> port1 <> port2 ->
  exists p, sockmap_main lib (args port1 port2 prog host1 host2) (Proxy ∅ ∅ 0) w0 =
      Ok (inr p) (rs_connect lib (rs_connect lib w2 sd1 (bpf_htons port1) addr1) sd2 (bpf_htons port2) addr2) /\
    forall n, let p' := Nat.iter n (hup_handler sd1 sd2) p in
      bpf_prog2 (bpf_ntohl port1) p' = (if Nat.even n then (SK_PASS, Some sd2) else (SK_DROP, None)) /\
      bpf_prog2 (bpf_ntohl port2) p' = (if Nat.even n then (SK_PASS, Some sd1) else (SK_DROP, None)) /\
      (forall port, port_ok port -> port <> port1 -> port <> port2 -> bpf_prog2 (bpf_ntohl port) p' = (SK_DROP, None)).
Proof.
  intros Hs1 Hs2 Hh1 Hh2 Hp1 Hp2 Hne. eexists. split.
  - unfold sockmap_main, args. erewrite bind_ok by (by eapply connect_servers_run). reflexivity.
  - intros n. by apply setup_forwards.
Qed.

(** A program that does not get four arguments exits with 1 and opens nothing; a host that
    does not resolve is a null pointer. *)
Theorem proxy_main_refuses {W} (lib : resolver W) (net : sockets W) n argv w :
  (length argv <> 5%nat -> proxy_main lib net n argv w = Ok (inl 1) w) /\
  (forall prog host1 serv1 host2 serv2, argv = [prog; host1; serv1; host2; serv2] ->
     rs_gethostbyname lib host1 = None \/ rs_gethostbyname lib host2 = None ->
     proxy_main lib net n argv w = Halt (Fault 0)).
Proof.
  split.
  - intros H. do 6 (destruct argv as [|? argv]; [done|]). done.
  - intros prog host1 serv1 host2 serv2 -> H. unfold proxy_main. apply bind_halt. unfold connect_servers.
    destruct (rs_socket lib w) as [w1 s1] eqn:E1. erewrite bind_ok by (by apply tcp_socket_run).
    destruct (rs_socket lib w1) as [w2 s2] eqn:E2. erewrite bind_ok by (by apply tcp_socket_run).
    destruct (rs_gethostbyname lib host1); [|by apply bind_halt]. erewrite bind_ok by reflexivity.
    destruct H as [|H]; [done|]. rewrite H. by apply bind_halt.
Qed.

Definition ex_net : sockets nat := Sockets nat (fun w => (S w, (true, Nat.even w))) (fun w sd _ => (w, Some [sd; Z.of_nat w])) (fun w _ _ => w).
Definition ex_lib : resolver (Z * list (Z * Z)) :=
  Resolver _ (fun w => ((w.1 + 1, w.2), w.1)) (fun _ => Some 0x0100007f) (fun w sd port _ => (w.1, w.2 ++ [(sd, port)])).
Lemma sockmap_main_forwards_witness :
  exists p, sockmap_main ex_lib (args 8080 9090 [] [] []) (Proxy ∅ ∅ 0) (5, []) = Ok (inr p) (7, [(5, 36895); (6, 33315)]) /\
    bpf_prog2 (bpf_ntohl 8080) p = (SK_PASS, Some 6).
Proof.
  destruct (sockmap_main_forwards ex_lib (5, []) (6, []) (7, []) 5 6 0x0100007f 0x0100007f 8080 9090 [] [] []) as (p & E & H);
    [reflexivity|reflexivity|reflexivity|reflexivity|split; vm_compute; easy|split; vm_compute; easy|discriminate|].
  exists p. split; [exact E|]. exact (proj1 (H O)).
Defined.
