(* ===== verification/Tracing.v ===== *)
(** * Tracing programs that change results (kprobe_file_read, crash_systemd, tc)

    kprobe_file_read/bpf_test.c answers the reads of chosen processes itself: two characters
    and a zero, then end of file, in turn; load.c chooses the process.  crash_systemd/bpf_kern.c
    answers every read of process 1 with 0.  The traffic counters of tc-traffic-stat and
    tc-bandwidth-limit.  What the helpers report about the caller is the record [call]. *)

From S2P Require Import Prelude Packet.

(** ** [my_memcmp] *)

(** The loop [while (--count && b1[0] == b2[0])], then the difference of the bytes it stopped
    at; the buffers are lists of bytes, reading past one is a fault. *)
Fixpoint my_memcmp_loop (count : nat) (b1 b2 : list Z) : option Z :=
  match b1, b2 with
  | x :: r1, y :: r2 =>
      match count with
      | S (S _ as c) => if x =? y then my_memcmp_loop c r1 r2 else Some (x - y)
      | _ => Some (x - y)
      end
  | _, _ => None
  end.
Definition my_memcmp (b1 b2 : list Z) (count : nat) : option Z :=
  match count with O => Some 0 | _ => my_memcmp_loop count b1 b2 end.

Lemma memcmp_more n x y b1 b2 :
  my_memcmp_loop (S (S n)) (x :: b1) (y :: b2) = if x =? y then my_memcmp_loop (S n) b1 b2 else Some (x - y).
Proof. reflexivity. Qed.

(** It compares: 0 for equal prefixes, otherwise the difference at the first place where
    they differ; it reads no byte past [count]. *)
Theorem my_memcmp_spec b1 b2 n :
  (n <= length b1)%nat -> (n <= length b2)%nat ->
  (take n b1 = take n b2 /\ my_memcmp b1 b2 n = Some 0) \/
  (exists i x y, (i < n)%nat /\ take i b1 = take i b2 /\ b1 !! i = Some x /\ b2 !! i = Some y /\ x <> y /\
     my_memcmp b1 b2 n = Some (x - y)).
Proof.
  destruct n as [|n]; [by left|]. cbn [my_memcmp].
  revert b1 b2. induction n as [|n IH]; intros [|x b1] [|y b2] H1 H2; cbn in H1, H2; try lia.
  - destruct (decide (x = y)) as [->|Hn].
    + left. cbn. by rewrite Z.sub_diag.
    + right. exists O, x, y. repeat split; auto; lia.
  - rewrite memcmp_more. destruct (Z.eqb_spec x y) as [->|Hn].
    + destruct (IH b1 b2) as [[E ->]|(i & u & v & Hi & E & E1 & E2 & Hne & ->)]; [lia|lia| |].
      * left. split; [|done]. change (S (S n)) with (1 + S n)%nat. cbn [take Nat.add]. f_equal. exact E.
      * right. exists (S i), u, v. repeat split; auto; [lia|]. cbn. by f_equal.
    + right. exists O, x, y. repeat split; auto; lia.
Qed.

(** ** The probe on read *)

Definition PAYLOAD : list Z := [0x64; 0x64; 0]. (* dd *)
Definition NAME_LEN : Z := 24.
Definition MAX_PIDS : Z := 100.

(** A call of read as the probe sees it: the name of the caller, padded to 24 bytes, the
    process, the address of the saved registers and the buffer among them, and whether
    bpf_probe_write_user can write there. *)
Record call := Call { c_comm : list Z; c_pid : Z; c_regs : Z; c_buf : Z; c_writable : bool }.

Record probe := Probe { comm : gmap (list Z) Z; written : gmap Z Z }.

(** What the caller gets: nothing changed, or a result, with the bytes put at its buffer. *)
Inductive answer := Untouched | Override (ret : Z) (bytes : list Z).

Definition kprobe_sys_read (c : call) (p : probe) : probe * answer :=
  match comm p !! c_comm c with
  | None => (p, Untouched)
  | Some _ =>
      let my_written := written p !! c_pid c in
      if c_regs c =? 0 then (p, Untouched)
      else if c_buf c =? 0 then (p, Untouched)
      else if match my_written with Some w => w =? 1 | None => false end then
        (Probe (comm p) (bpf_map_update MAX_PIDS (c_pid c) 0 (written p)), Override 0 [])
      else
        (Probe (comm p) (bpf_map_update MAX_PIDS (c_pid c) 1 (written p)),
         Override (Z.of_nat (length PAYLOAD)) (if c_writable c then PAYLOAD else []))
  end.

(** The answers to a sequence of calls. *)
Fixpoint probe_run (cs : list call) (p : probe) : list answer :=
  match cs with
  | [] => []
  | c :: cs' => let '(p', a) := kprobe_sys_read c p in a :: probe_run cs' p'
  end.

(** load.c: the key for the name given on the command line; a name of 24 characters or more
    is copied past the end of the structure. *)
Definition proc_name (arg : list Z) : option (list Z) :=
  if Z.of_nat (length arg) <? NAME_LEN then Some (arg ++ replicate (Z.to_nat NAME_LEN - length arg) 0) else None.
(** [main] after the file has been loaded ([loaded] is 0). *)
Definition load_main (argc : Z) (arg : list Z) (loaded : Z) : cmd probe Z :=
  if argc <? 2 then mret 1
  else if nonzero loaded then mret 1
  else match proc_name arg with
       | None => halt (Fault NAME_LEN)
       | Some k => modify (fun p => Probe (bpf_map_update 100 k 1 (comm p)) (written p)) ;; mret 0
       end.

(** ** The reads of a watched process alternate *)

(** The answers to the calls of one process. *)
Definition answers_of (pid : Z) (cs : list call) (p : probe) : list answer :=
  snd <$> filter (fun ca => c_pid ca.1 = pid) (zip cs (probe_run cs p)).
Definition turn (c : call) (w : bool) : answer :=
  if w then Override 0 [] else Override 3 (if c_writable c then PAYLOAD else []).
(** Data and end of file in turn, starting with end of file if [w]. *)
Fixpoint turns (w : bool) (cs : list call) : list answer :=
  match cs with [] => [] | c :: cs' => turn c w :: turns (negb w) cs' end.

(** A call of a watched process with a buffer. *)
Definition watched (cm : gmap (list Z) Z) (c : call) : Prop :=
  is_Some (cm !! c_comm c) /\ c_regs c <> 0 /\ c_buf c <> 0.

Definition done_flag (p : probe) (pid : Z) : bool :=
  match written p !! pid with Some w => w =? 1 | None => false end.

Lemma probe_comm c p : comm (kprobe_sys_read c p).1 = comm p.
Proof. unfold kprobe_sys_read. destruct (comm p !! _); [|done]. repeat case_match; done. Qed.
Lemma probe_other c p pid : c_pid c <> pid -> done_flag (kprobe_sys_read c p).1 pid = done_flag p pid.
Proof.
  intros Hn. unfold done_flag, kprobe_sys_read. destruct (comm p !! _); [|done].
  destruct (_ =? 0); [done|]. destruct (c_buf c =? 0); [done|].
  destruct (match written p !! c_pid c with Some _ => _ | None => _ end); cbn; by rewrite update_other.
Qed.
Lemma probe_dom c p : dom (written (kprobe_sys_read c p).1) ⊆ {[c_pid c]} ∪ dom (written p).
Proof.
  unfold kprobe_sys_read. destruct (comm p !! _); [|set_solver].
  destruct (_ =? 0); [set_solver|]. destruct (c_buf c =? 0); [set_solver|].
  destruct (match written p !! c_pid c with Some _ => _ | None => _ end); cbn; apply update_dom.
Qed.
Lemma probe_turn c p :
  watched (comm p) c -> is_Some (written p !! c_pid c) \/ Z.of_nat (size (written p)) < MAX_PIDS ->
  exists p', kprobe_sys_read c p = (p', turn c (done_flag p (c_pid c))) /\
    done_flag p' (c_pid c) = negb (done_flag p (c_pid c)).
Proof.
  intros ([v Hv] & Hr & Hb) Hroom. unfold kprobe_sys_read, done_flag. rewrite Hv.
  rewrite (proj2 (Z.eqb_neq _ _)) by done. rewrite (proj2 (Z.eqb_neq _ _)) by done.
  rewrite !update_room by done.
  destruct (match written p !! c_pid c with Some _ => _ | None => _ end);
    eexists; (split; [reflexivity|]); cbn; by rewrite lookup_insert_eq.
Qed.

(** There is room for every process of a set of at most [MAX_PIDS]. *)
Lemma room (pids : gset Z) (m : gmap Z Z) pid :
  dom m ⊆ pids -> pid ∈ pids -> Z.of_nat (size pids) <= MAX_PIDS ->
  is_Some (m !! pid) \/ Z.of_nat (size m) < MAX_PIDS.
Proof.
  intros Hd Hp Hs. destruct (m !! pid) eqn:E; [left; eauto|]. right.
  assert (pid ∉ dom m) as Hn by (by apply not_elem_of_dom).
  assert (size ({[pid]} ∪ dom m : gset Z) <= size pids)%nat as Hle by (apply subseteq_size; set_solver).
  rewrite size_union in Hle by set_solver. rewrite size_singleton, size_dom in Hle. lia.
Qed.

(** C33: Calls of other processes may come in between: the calls of a watched process are
    answered with the payload and with end of file in turn, while at most 100 processes are
    watched at all. *)
Theorem reads_alternate pid (pids : gset Z) cs p :
  Forall (fun c => c_pid c ∈ pids) cs -> dom (written p) ⊆ pids -> Z.of_nat (size pids) <= MAX_PIDS ->
  Forall (fun c => c_pid c = pid -> watched (comm p) c) cs ->
  answers_of pid cs p = turns (done_flag p pid) (filter (fun c => c_pid c = pid) cs).
Proof.
  intros Hin Hd Hs. revert p Hd. unfold answers_of.
  induction cs as [|c cs IH]; intros p Hd Hw; [done|].
  apply Forall_cons in Hin as [Hc Hin]. apply Forall_cons in Hw as [Hwc Hw]. specialize (IH Hin).
  pose proof (probe_comm c p) as Ec. pose proof (probe_dom c p) as Ed.
  cbn [probe_run]. destruct (kprobe_sys_read c p) as [p' a] eqn:E. cbn [fst] in Ec, Ed.
  cbn [zip zip_with]. rewrite !filter_cons. cbn [fst].
  assert (Forall (fun c0 => c_pid c0 = pid -> watched (comm p') c0) cs) as Hw' by (by rewrite Ec).
  assert (dom (written p') ⊆ pids) as Hd' by set_solver.
  case_decide as Hp.
  - rewrite fmap_cons. rewrite (IH p' Hd' Hw').
    destruct (probe_turn c p (Hwc Hp) (room pids _ _ Hd Hc Hs)) as (p2 & E2 & Ef).
    rewrite E in E2. injection E2 as -> ->. rewrite Hp in Ef |- *. cbn [turns snd]. by rewrite Ef.
  - rewrite (IH p' Hd' Hw'). f_equal. pose proof (probe_other c p pid Hp) as H. rewrite E in H. exact H.
Qed.

(** The process named on the command line is watched from then on: the name of a running
    process reaches the probe padded with zeros, as load.c pads it. *)
Theorem load_main_watches arg k p :
  proc_name arg = Some k -> Z.of_nat (size (comm p)) < 100 ->
  exists p', load_main 2 arg 0 p = Ok 0 p' /\ written p' = written p /\
    forall c, c_comm c = k -> c_regs c <> 0 -> c_buf c <> 0 -> watched (comm p') c.
Proof.
  intros Hk Hs. unfold load_main. change (2 <? 2) with false. change (nonzero 0) with false. cbv iota.
  rewrite Hk, bind_modify, update_room by auto. eexists. split; [reflexivity|]. split; [done|].
  intros c <- Hr Hb. split; [|done]. cbn. rewrite lookup_insert_eq. eauto.
Qed.

(** ** Process 1, and the counters *)

(** crash_systemd: the result of a read of process 1 is 0. *)
Definition kprobe_unix_stream_recvmsg (pid_tgid : Z) : option Z :=
  if negb (s32 (Z.shiftr (u64 pid_tgid) 32) =? 1) then None else Some 0.

(** fexit_example/bpf_kern.c: the buffer it prints for process 1; [si] is what lies at the
    place of the second argument, and a failing bpf_probe_read_user fills the buffer with 0. *)
Definition read_exit (pid_tgid si : Z) (user : Z -> nat -> option (list Z)) : option (list Z) :=
  let pid := u32 (Z.shiftr (u64 pid_tgid) 32) in
  if negb (pid =? 1) then None else Some (default (replicate 100 0) (user si 100%nat)).
(** kprobe_file_read/bpf_test1.c: the bytes it prints on every execve. *)
Definition kretprobe_sys_read : list Z := [104; 101; 108; 108; 111; 32; 119; 111; 114; 0].
(** xdp-helloworld/drop.c *)
Definition xdp_drop (ctx : list Z) : Z := XDP_DROP.

(** The two programs that look at process 1 look at the same calls. *)
Lemma process_one pid_tgid si user :
  kprobe_unix_stream_recvmsg pid_tgid = None <-> read_exit pid_tgid si user = None.
Proof.
  unfold kprobe_unix_stream_recvmsg, read_exit.
  assert (0 <= Z.shiftr (u64 pid_tgid) 32 < 2 ^ 32) as H.
  { pose proof (u64_range pid_tgid). rewrite Z.shiftr_div_pow2 by lia. Z.to_euclidean_division_equations; lia. }
  rewrite u32_small by lia. set (x := Z.shiftr _ _) in *.
  assert ((s32 x =? 1) = (x =? 1)) as ->.
  { destruct (Z.ltb_spec x (2 ^ 31)); [by rewrite s32_small by lia|].
    unfold s32, signed. rewrite Z.mod_small by lia. case_match; lia. }
  by destruct (x =? 1).
Qed.

(** tc-traffic-stat and tc-bandwidth-limit count the bytes that arrive on one interface. *)
Record counter := Counter { ifindex : Z; traffic : Z }.
Definition netif_receive_skb (dev data_len : Z) (c : counter) : counter :=
  if dev =? ifindex c then Counter (ifindex c) (u64 (traffic c + data_len)) else c.
(** tc-bandwidth-limit/bpf/bandwidthlimit.bpf.c is the same program. *)
Definition bandwidthlimit_receive_skb := netif_receive_skb.

(** After any packets the counter holds the sum of the lengths on its interface, modulo
    2^64. *)
Theorem traffic_sum pkts c :
  0 <= traffic c < 2 ^ 64 ->
  traffic (foldl (fun c '(dev, n) => netif_receive_skb dev n c) c pkts) =
    u64 (traffic c + foldr (fun '(dev, n) t => (if dev =? ifindex c then n else 0) + t) 0 pkts).
Proof.
  revert c. induction pkts as [|[dev n] pkts IH]; intros c Hc; cbn [foldl foldr].
  { by rewrite Z.add_0_r, u64_small. }
  unfold netif_receive_skb at 2. destruct (dev =? ifindex c) eqn:E; [|by rewrite IH].
  rewrite IH by apply u64_range. cbn [traffic ifindex]. unfold u64. rewrite Zplus_mod_idemp_l. f_equal. lia.
Qed.

(** ** Witnesses *)

Definition ex_name : list Z := [0x73; 0x73; 0x68] ++ replicate 21 0.
Definition ex_probe : probe := Probe {[ex_name := 1]} ∅.
Definition ex_call (pid : Z) : call := Call ex_name pid 1 0x1000 true.
Lemma reads_alternate_witness :
  answers_of 7 [ex_call 7; ex_call 8; ex_call 7; ex_call 7] ex_probe = [Override 3 PAYLOAD; Override 0 []; Override 3 PAYLOAD].
Proof.
  refine (reads_alternate 7 {[7; 8]} [ex_call 7; ex_call 8; ex_call 7; ex_call 7] ex_probe _ _ _ _).
  - repeat (apply Forall_cons; split; [vm_compute; set_solver|]). apply Forall_nil_2.
  - set_solver.
  - vm_compute. discriminate.
  - repeat (apply Forall_cons; split; [intros _; split; [eexists; vm_compute; reflexivity|done]|]). apply Forall_nil_2.
Defined.
Lemma load_main_watches_witness :
  exists p', load_main 2 [0x73; 0x73; 0x68] 0 (Probe ∅ ∅) = Ok 0 p' /\ watched (comm p') (ex_call 9).
Proof.
  destruct (load_main_watches [0x73; 0x73; 0x68] ex_name (Probe ∅ ∅)) as (p' & H & _ & Hw);
    [reflexivity|vm_compute; reflexivity|].
  exists p'. split; [exact H|]. apply Hw; done.
Defined.
Lemma my_memcmp_spec_witness : my_memcmp [1; 2; 3] [1; 4; 5] 3 = Some (-2).
Proof.
  destruct (my_memcmp_spec [1; 2; 3] [1; 4; 5] 3) as [[H _]|(i & x & y & _ & _ & _ & _ & _ & _)];
    [cbn; lia|cbn; lia|discriminate H|reflexivity].
Defined.
