(* ===== verification/Threads.v ===== *)
(** * Kernel threads (modules/deadlock, modules/makeKernelDead)

    deadlock.c starts two threads that take two mutexes in opposite order and never release
    them.  makeKernelDead/test.c has a server that waits on a queue and a client that wakes
    it up; each thread is a state machine whose steps are the accesses to shared data, and
    the machine interleaves them. *)

From stdpp Require Import relations.
From S2P Require Import Prelude.

(** ** deadlock.c *)

Inductive tid := T1 | T2.
Inductive mutex := my_mutex1 | my_mutex2.
#[export] Instance tid_eq_dec : EqDecision tid.
Proof. solve_decision. Defined.
#[export] Instance mutex_eq_dec : EqDecision mutex.
Proof. solve_decision. Defined.

Inductive action := mutex_lock (m : mutex) | msleep (ms : Z).
#[export] Instance action_eq_dec : EqDecision action.
Proof. solve_decision. Defined.

Definition MyPrintk1 : list action := [mutex_lock my_mutex1; msleep 1000; mutex_lock my_mutex2].
Definition MyPrintk2 : list action := [mutex_lock my_mutex2; msleep 1000; mutex_lock my_mutex1].

(** The owners of the mutexes, and what each thread still has to do. *)
Record dstate := DState { owner1 : option tid; owner2 : option tid; rest1 : list action; rest2 : list action }.
#[export] Instance dstate_eq_dec : EqDecision dstate.
Proof. solve_decision. Defined.
Definition owner (m : mutex) (s : dstate) : option tid := match m with my_mutex1 => owner1 s | my_mutex2 => owner2 s end.
Definition set_owner (m : mutex) (t : tid) (s : dstate) : dstate :=
  match m with
  | my_mutex1 => DState (Some t) (owner2 s) (rest1 s) (rest2 s)
  | my_mutex2 => DState (owner1 s) (Some t) (rest1 s) (rest2 s)
  end.
Definition rest (t : tid) (s : dstate) : list action := match t with T1 => rest1 s | T2 => rest2 s end.
Definition set_rest (t : tid) (l : list action) (s : dstate) : dstate :=
  match t with
  | T1 => DState (owner1 s) (owner2 s) l (rest2 s)
  | T2 => DState (owner1 s) (owner2 s) (rest1 s) l
  end.

(** [d_init]: fresh mutexes and two threads. *)
Definition d_init : dstate := DState None None MyPrintk1 MyPrintk2.

(** The next step of a thread; a mutex that is owned, by whomever, cannot be taken. *)
Definition thread_step (t : tid) (s : dstate) : option dstate :=
  match rest t s with
  | [] => None
  | msleep _ :: l => Some (set_rest t l s)
  | mutex_lock m :: l =>
      match owner m s with None => Some (set_owner m t (set_rest t l s)) | Some _ => None end
  end.
Definition dstep (s s' : dstate) : Prop := exists t, thread_step t s = Some s'.
Definition successors (s : dstate) : list dstate := omap (fun t => thread_step t s) [T1; T2].

(** A thread that waits for a mutex. *)
Definition blocked (t : tid) (s : dstate) : bool :=
  match rest t s with
  | mutex_lock m :: _ => match owner m s with Some _ => true | None => false end
  | _ => false
  end.
Definition returned (t : tid) (s : dstate) : bool := match rest t s with [] => true | _ => false end.

(** *** Exploring the states *)

Fixpoint explore (n : nat) (l : list dstate) : list dstate :=
  match n with O => l | S n' => l ++ explore n' (l ≫= successors) end.
Definition reachable_states : list dstate := remove_dups (explore 6 [d_init]).

Lemma successors_step s s' : dstep s s' <-> s' ∈ successors s.
Proof.
  unfold successors. rewrite list_elem_of_omap. split.
  - intros [t Ht]. exists t. split; [destruct t; set_solver|done].
  - intros (t & _ & Ht). by exists t.
Qed.
Lemma states_closed :
  forallb (fun s => forallb (fun s' => bool_decide (s' ∈ reachable_states)) (successors s)) reachable_states = true.
Proof. vm_compute. reflexivity. Qed.
Lemma reachable_listed s : rtc dstep d_init s -> s ∈ reachable_states.
Proof.
  intros H. revert s H. apply (rtc_ind_r (R:=dstep) (fun s => s ∈ reachable_states) d_init); [|intros x y _ Hxy IH].
  - apply (bool_decide_eq_true (d_init ∈ reachable_states)). vm_compute. reflexivity.
  - pose proof states_closed as Hc. rewrite forallb_forall in Hc.
    specialize (Hc x (proj1 (list_elem_of_In _ _) IH)). rewrite forallb_forall in Hc.
    eapply bool_decide_eq_true, Hc. by apply list_elem_of_In, successors_step.
Qed.
(** A decidable property of every reachable state. *)
Lemma reachable_all (P : dstate -> bool) s : forallb P reachable_states = true -> rtc dstep d_init s -> P s = true.
Proof. intros H Hs. rewrite forallb_forall in H. by apply H, list_elem_of_In, reachable_listed. Qed.

(** A step takes one action off one thread. *)
Lemma thread_step_shrinks t s s' :
  thread_step t s = Some s' -> (length (rest1 s) + length (rest2 s) = S (length (rest1 s') + length (rest2 s')))%nat.
Proof.
  destruct s as [o1 o2 l1 l2]. unfold thread_step. destruct t; cbn [rest rest1 rest2].
  - destruct l1 as [|[[]|] l1]; [done|destruct o1; [done|]|destruct o2; [done|]|]; intros [= <-]; cbn; lia.
  - destruct l2 as [|[[]|] l2]; [done|destruct o1; [done|]|destruct o2; [done|]|]; intros [= <-]; cbn; lia.
Qed.

(** C34: Every run comes to an end within six steps; at the end a thread waits for a mutex that
    nobody will release; the two threads never both return; and in some run both wait. *)
Theorem deadlock_always :
  (forall s n, nsteps dstep n d_init s -> (n <= 6)%nat) /\
  (forall s, rtc dstep d_init s -> (forall s', ~ dstep s s') -> blocked T1 s = true \/ blocked T2 s = true) /\
  (forall s, rtc dstep d_init s -> ~ (returned T1 s = true /\ returned T2 s = true)) /\
  (exists s, rtc dstep d_init s /\ blocked T1 s = true /\ blocked T2 s = true).
Proof.
  split; [|split; [|split]].
  - intros s n Hn.
    enough (forall s1 s2, nsteps dstep n s1 s2 ->
      (length (rest1 s2) + length (rest2 s2) + n = length (rest1 s1) + length (rest2 s1))%nat) as H.
    { apply H in Hn. cbn in Hn. lia. }
    clear. induction 1 as [s|n s1 s2 s3 [t Ht] _ IH]; [lia|].
    enough (length (rest1 s1) + length (rest2 s1) = S (length (rest1 s2) + length (rest2 s2)))%nat by lia.
    by apply (thread_step_shrinks t).
  - intros s Hs Hstuck.
    pose proof (reachable_all (fun s => match successors s with [] => blocked T1 s || blocked T2 s | _ => true end) s
                  ltac:(vm_compute; reflexivity) Hs) as H. cbn beta in H.
    destruct (successors s) as [|s' l] eqn:E.
    + by apply orb_prop in H.
    + exfalso. apply (Hstuck s'). apply successors_step. rewrite E. left.
  - intros s Hs [H1 H2].
    pose proof (reachable_all (fun s => negb (returned T1 s && returned T2 s)) s ltac:(vm_compute; reflexivity) Hs) as H.
    cbn beta in H. by rewrite H1, H2 in H.
  - exists (DState (Some T1) (Some T2) [mutex_lock my_mutex2] [mutex_lock my_mutex1]). split; [|by split].
    eapply rtc_l; [exists T1; reflexivity|]. eapply rtc_l; [exists T2; reflexivity|].
    eapply rtc_l; [exists T1; reflexivity|]. apply rtc_once. exists T2. reflexivity.
Qed.

(** ** makeKernelDead/test.c *)

(** Where the threads are: the server tests kthread_should_stop, waits, clears the flag; the
    client tests, sleeps, looks at its counter and sets the flag, wakes the server. *)
Inductive server_pc := S_test | S_wait | S_clear | S_end.
Inductive client_pc := C_test | C_sleep | C_check | C_wake | C_end.

(** [events] counts the times the flag was set, [rounds] the times the server left
    wait_event because of it. *)
Record wstate := WState {
  t_can_run : Z; server_stop : bool; client_stop : bool;
  sp : server_pc; cp : client_pc; index : Z; events : nat; rounds : nat
}.

(** [multhread_server], one step; [None] while it is blocked or has ended. *)
Definition multhread_server (s : wstate) : option wstate :=
  let goto pc run r := Some (WState run (server_stop s) (client_stop s) pc (cp s) (index s) (events s) r) in
  match sp s with
  | S_test => if server_stop s then goto S_end (t_can_run s) (rounds s) else goto S_wait (t_can_run s) (rounds s)
  | S_wait =>
      if nonzero (t_can_run s) then goto S_clear (t_can_run s) (S (rounds s))
      else if server_stop s then goto S_clear (t_can_run s) (rounds s)
      else None
  | S_clear => goto S_test 0 (rounds s)
  | S_end => None
  end.

(** [multhread_client], one step. *)
Definition multhread_client (s : wstate) : option wstate :=
  let goto pc run i e := Some (WState run (server_stop s) (client_stop s) (sp s) pc i e (rounds s)) in
  match cp s with
  | C_test =>
      if client_stop s then goto C_end (t_can_run s) (index s) (events s)
      else goto C_sleep (t_can_run s) (s32 (index s + 1)) (events s)
  | C_sleep => goto C_check (t_can_run s) (index s) (events s)
  | C_check =>
      if Z.rem (index s) 5 =? 0 then goto C_wake 1 (index s) (S (events s))
      else goto C_test (t_can_run s) (index s) (events s)
  | C_wake => goto C_test (t_can_run s) (index s) (events s)
  | C_end => None
  end.

(** [multhread_exit]: kthread_stop of the server, then of the client; each waits for the
    thread to end. *)
Definition stop_server (s : wstate) : wstate :=
  WState (t_can_run s) true (client_stop s) (sp s) (cp s) (index s) (events s) (rounds s).
Definition stop_client (s : wstate) : wstate :=
  WState (t_can_run s) (server_stop s) true (sp s) (cp s) (index s) (events s) (rounds s).

(** The result of [multhread_init], when kthread_run returns an error ([Some e]) or a
    thread; and whether the two threads run afterwards. *)
Definition multhread_init (server client : option Z) : Z * bool * bool :=
  match server with
  | Some e => (e, false, false)
  | None => match client with
            | Some e => (e, false, false) (* kthread_stop(main_task) *)
            | None => (0, true, true)
            end
  end.
Definition started : wstate := WState 0 false false S_test C_test 0 0 0.

Inductive wstep : wstate -> wstate -> Prop :=
| step_server s s' : multhread_server s = Some s' -> wstep s s'
| step_client s s' : multhread_client s = Some s' -> wstep s s'
| step_stop_server s : wstep s (stop_server s)
| step_stop_client s : sp s = S_end -> wstep s (stop_client s).

(** A set flag the server has not seen yet. *)
Definition pending (s : wstate) : nat :=
  match sp s with S_clear => 0 | _ => if nonzero (t_can_run s) then 1 else 0 end.

Lemma step_rounds s s' : wstep s s' -> (rounds s + pending s <= events s -> rounds s' + pending s' <= events s')%nat.
Proof.
  destruct 1 as [s s' H|s s' H|s|s _]; [| |done|done]; destruct s as [run ss cs p c i e r]; cbn in *.
  - unfold multhread_server in H. cbn in H.
    destruct p; [destruct ss|destruct (nonzero run) eqn:E; [|destruct ss]| |]; simplify_eq; cbn; rewrite ?E; cbn; try lia.
    all: destruct (nonzero run); lia.
  - unfold multhread_client in H. cbn in H.
    destruct c; [destruct cs| |destruct (_ =? 0)| |]; simplify_eq; cbn; try done;
      destruct p; try destruct (nonzero run); cbn; lia.
Qed.

(** The server runs at most once for every time the client has set the flag; once it is
    told to stop it ends, whatever the flag says, after at most three steps of its own. *)
Theorem server_rounds :
  (forall s, rtc wstep started s -> (rounds s <= events s)%nat) /\
  (forall s, server_stop s = true -> exists n s', (n <= 3)%nat /\
     nsteps (fun a b => multhread_server a = Some b) n s s' /\ sp s' = S_end).
Proof.
  split.
  - intros s H. enough (rounds s + pending s <= events s)%nat by lia. revert s H.
    apply (rtc_ind_r (R:=wstep) (fun s => rounds s + pending s <= events s)%nat started); [cbn; lia|].
    intros x y _ Hxy IH. by apply (step_rounds x).
  - intros [run ss cs p c i e r] H. cbn in H. subst ss.
    assert (forall run r, nsteps (fun a b => multhread_server a = Some b) 1
              (WState run true cs S_test c i e r) (WState run true cs S_end c i e r)) as H1
      by (intros; apply nsteps_once; done).
    assert (forall run r, nsteps (fun a b => multhread_server a = Some b) 2
              (WState run true cs S_clear c i e r) (WState 0 true cs S_end c i e r)) as H2
      by (intros; eapply nsteps_l; [reflexivity|apply H1]).
    destruct p.
    + exists 1%nat. eexists. split; [lia|]. split; [apply H1|done].
    + exists 3%nat. destruct (nonzero run) eqn:E; eexists; (split; [lia|]);
        (split; [eapply nsteps_l; [unfold multhread_server; cbn; rewrite E; reflexivity|apply H2]|done]).
    + exists 2%nat. eexists. split; [lia|]. split; [apply H2|done].
    + exists O. eexists. split; [lia|]. split; [apply nsteps_O|done].
Qed.
