(* ===== verification/Device.v ===== *)
(** * The character device (modules/device)

    device.c keeps one buffer of 100 bytes for all its users; client_mtt.c is ten threads that
    write a string and read it back.  User memory enters as the bytes the copies find there;
    the kernel's answers when the module is loaded are the record [answers]. *)

From S2P Require Import Prelude.

Definition MAX_LENGTH : Z := 92.
Definition DATA_SIZE : nat := 100.

(** The buffer, the mutex, and the position of each open file. *)
Record device := Device { data : list Z; fib_mutex : bool; f_pos : gmap Z Z }.

(** [open]: a busy mutex is reported and ignored. *)
Definition open (file : Z) (d : device) : Z * device := (0, Device (data d) true (<[file := 0]> (f_pos d))).
Definition release (file : Z) (d : device) : Z * device := (0, Device (data d) false (delete file (f_pos d))).

(** [strlen(data)]; [None] when there is no 0 in the buffer and the scan leaves it. *)
Fixpoint strlen (l : list Z) : option nat :=
  match l with
  | [] => None
  | c :: l' => if c =? 0 then Some O else S <$> strlen l'
  end.
(** [read]: what is copied to the user, whatever [size] is, and the result. *)
Definition read (size : Z) : cmd device (list Z * Z) :=
  d ← get;
  match strlen (data d) with
  | None => halt (Fault (Z.of_nat DATA_SIZE))
  | Some n => mret (take n (data d), 0)
  end.
(** [write]: 100 bytes from the user's buffer, whatever [size] is; [bytes] are those that can
    be read there, from which at most 100 are taken. *)
Definition write (bytes : list Z) (size : Z) (d : device) : Z * device :=
  let got := take DATA_SIZE bytes in
  (1, Device (got ++ drop (length got) (data d)) (fib_mutex d) (f_pos d)).

(** [device_lseek]; positions are 64-bit. *)
Definition device_lseek (file offset orig : Z) (d : device) : Z * device :=
  let pos := default 0 (f_pos d !! file) in
  let new_pos :=
    if orig =? 0 then offset
    else if orig =? 1 then s64 (pos + offset)
    else if orig =? 2 then s64 (MAX_LENGTH - offset)
    else 0 in
  let new_pos := if MAX_LENGTH <? new_pos then MAX_LENGTH else new_pos in
  let new_pos := if new_pos <? 0 then 0 else new_pos in
  (new_pos, Device (data d) (fib_mutex d) (<[file := new_pos]> (f_pos d))).

(** ** Uses of the device *)

Inductive op := Open (file : Z) | Release (file : Z) | Write (bytes : list Z) (size : Z) | Lseek (file offset orig : Z).
Definition perform (d : device) (o : op) : device :=
  match o with
  | Open f => (open f d).2
  | Release f => (release f d).2
  | Write b n => (write b n d).2
  | Lseek f off orig => (device_lseek f off orig d).2
  end.
Definition after (os : list op) (d : device) : device := foldl perform d os.

(** The C string at the start of a buffer. *)
Definition cstring (l : list Z) : option (list Z) := n ← strlen l; Some (take n l).

Definition no_write (o : op) : bool := match o with Write _ _ => false | _ => true end.
Lemma perform_data o d : no_write o = true -> data (perform d o) = data d.
Proof. by destruct o. Qed.
Lemma after_data os d : Forall (fun o => no_write o = true) os -> data (after os d) = data d.
Proof.
  revert d. induction os as [|o os IH]; intros d H; [done|]. apply Forall_cons in H as [Ho H].
  unfold after in *. cbn [foldl]. rewrite IH by done. by apply perform_data.
Qed.

(** A read returns the string of the last write by anybody, whatever else was done before
    and since, and leaves the device alone; if what was written has no 0 among its 100 bytes
    the scan leaves the buffer. *)
Lemma read_last_write before bytes n since size d :
  length bytes = DATA_SIZE -> length (data d) = DATA_SIZE -> Forall (fun o => no_write o = true) since ->
  let d' := after (before ++ Write bytes n :: since) d in
  read size d' = match cstring bytes with Some s => Ok (s, 0) d' | None => Halt (Fault 100) end.
Proof.
  intros Hb Hd Hs. cbn zeta. unfold after. rewrite foldl_app. cbn [foldl].
  fold (after before d) (after since (perform (after before d) (Write bytes n))).
  set (d1 := after before d). set (d2 := after since _).
  assert (data d2 = bytes) as E.
  { unfold d2. rewrite after_data by done. cbn [perform write snd data]. rewrite take_ge by lia.
    assert (length (data d1) = DATA_SIZE) as H1.
    { unfold d1, after. clear -Hd. revert d Hd. induction before as [|o os IH]; intros d Hd; [done|]. apply IH.
      destruct o; try done. cbn [perform write snd data].
      rewrite length_app, length_drop, length_take. lia. }
    rewrite drop_ge by (rewrite ?length_take; lia). apply app_nil_r. }
  unfold read. rewrite bind_get, E. unfold cstring. by destruct (strlen bytes).
Qed.

(** [child] of client_mtt.c: open, write, read; [since] is what the other threads do before
    the read, [bytes] the 100 bytes at the thread's string. *)
Definition child (file : Z) (bytes : list Z) (len : Z) (since : list op) : cmd device (list Z * Z) := fun d =>
  read 100 (after ([Open file] ++ Write bytes len :: since) d).

(** A thread gets its own string back if no other thread writes between its write and its
    read; if another one does it gets the string of the last that did. *)
Theorem client_gets file own n since d :
  length own = DATA_SIZE -> length (data d) = DATA_SIZE -> is_Some (cstring own) ->
  Forall (fun o => no_write o = true) since ->
  (exists d', child file own n since d = Ok (default [] (cstring own), 0) d') /\
  (forall before other m, length other = DATA_SIZE -> is_Some (cstring other) ->
     exists d', child file own n (before ++ Write other m :: since) d = Ok (default [] (cstring other), 0) d').
Proof.
  intros Ho Hd [s Hs] Hno. unfold child. split.
  - eexists. rewrite read_last_write by done. by rewrite Hs.
  - intros before other m Hl [s' Hs'].
    change ([Open file] ++ Write own n :: before ++ Write other m :: since)
      with (([Open file; Write own n] ++ before) ++ Write other m :: since).
    eexists. rewrite read_last_write by done. by rewrite Hs'.
Qed.

(** Positions stay between 0 and [MAX_LENGTH], for any arguments of lseek. *)
Definition positions_ok (d : device) : Prop := map_Forall (fun _ p => 0 <= p <= MAX_LENGTH) (f_pos d).
Lemma lseek_range file offset orig d : 0 <= (device_lseek file offset orig d).1 <= MAX_LENGTH.
Proof.
  unfold device_lseek. cbn [fst]. set (p := if orig =? 0 then _ else _). unfold MAX_LENGTH.
  destruct (Z.ltb_spec 92 p); cbn; [lia|]. destruct (Z.ltb_spec p 0); lia.
Qed.
Theorem positions_bounded os d : positions_ok d -> positions_ok (after os d).
Proof.
  revert d. induction os as [|o os IH]; intros d Hd; [done|]. apply IH. unfold positions_ok in *.
  destruct o as [f|f|b n|f off orig]; cbn [perform].
  - by apply map_Forall_insert_2.
  - by apply map_Forall_delete.
  - done.
  - pose proof (lseek_range f off orig d) as Hr. unfold device_lseek in *. cbn [fst snd f_pos] in *.
    by apply map_Forall_insert_2.
Qed.

(** ** Loading and unloading *)

(** What the kernel answers when the module is loaded: results of alloc_chrdev_region and
    cdev_add, and whether the allocations succeed. *)
Record answers := Answers { region_rc : Z; cdev_ok : bool; add_rc : Z; class_ok : bool; device_ok : bool }.
(** What the module holds. *)
Record held := Held { h_region : bool; h_cdev : bool; h_class : bool; h_device : bool }.
Definition nothing : held := Held false false false false.

(** The labels at the end of [init_dev]. *)
Definition failed_cdev (rc : Z) (h : held) : Z * held := (rc, Held false (h_cdev h) (h_class h) (h_device h)).
Definition failed_class_create (rc : Z) (h : held) : Z * held :=
  failed_cdev rc (Held (h_region h) false (h_class h) (h_device h)).
Definition failed_device_create (rc : Z) (h : held) : Z * held :=
  failed_class_create rc (Held (h_region h) (h_cdev h) false (h_device h)).

Definition init_dev (k : answers) : Z * held :=
  if region_rc k <? 0 then (region_rc k, nothing)
  else
    let h := Held true false false false in
    if negb (cdev_ok k) then failed_cdev (-1) h
    else
      let h := Held true true false false in
      if add_rc k <? 0 then failed_cdev (-2) h
      else if negb (class_ok k) then failed_class_create (-3) h
      else
        let h := Held true true true false in
        if negb (device_ok k) then failed_device_create (-4) h
        else (add_rc k, Held true true true true).
Definition exit_dev (h : held) : held := nothing.

(** Loading succeeds exactly when every step does, and then everything is held; a load that
    fails gives everything back, except the cdev when cdev_add fails. *)
Theorem init_dev_balanced k :
  let '(rc, h) := init_dev k in
  (0 <= rc <-> 0 <= region_rc k /\ cdev_ok k = true /\ 0 <= add_rc k /\ class_ok k = true /\ device_ok k = true) /\
  (0 <= rc -> h = Held true true true true) /\
  (rc < 0 -> h = nothing \/ (rc = -2 /\ h = Held false true false false)).
Proof.
  unfold init_dev. destruct (Z.ltb_spec (region_rc k) 0).
  { naive_solver lia. }
  destruct (cdev_ok k); cbn [negb]; [|cbn; naive_solver lia].
  destruct (Z.ltb_spec (add_rc k) 0); [cbn; naive_solver lia|].
  destruct (class_ok k); cbn [negb]; [|cbn; naive_solver lia].
  destruct (device_ok k); cbn [negb]; cbn; naive_solver lia.
Qed.

(** ** Witnesses *)

Definition ex_data (c : Z) : list Z := [c; c; c] ++ replicate 97 0.
Definition ex_device : device := Device (replicate 100 0) false ∅.
Lemma read_last_write_witness :
  read 100 (after ([Open 3; Write (ex_data 97) 3] ++ Write (ex_data 98) 3 :: [Open 4; Lseek 3 200 0]) ex_device) =
    Ok ([98; 98; 98], 0) (after ([Open 3; Write (ex_data 97) 3] ++ Write (ex_data 98) 3 :: [Open 4; Lseek 3 200 0]) ex_device).
Proof.
  exact (read_last_write [Open 3; Write (ex_data 97) 3] (ex_data 98) 3 [Open 4; Lseek 3 200 0] 100 ex_device
           eq_refl eq_refl ltac:(repeat constructor)).
Defined.
Lemma positions_bounded_witness : positions_ok (after [Open 3; Lseek 3 200 0; Lseek 3 (-500) 1] ex_device).
Proof. apply (positions_bounded [Open 3; Lseek 3 200 0; Lseek 3 (-500) 1] ex_device). apply map_Forall_empty. Defined.
Lemma client_gets_witness :
  exists d', child 3 (ex_data 97) 3 ([Open 4] ++ Write (ex_data 98) 3 :: [Open 5]) ex_device = Ok ([98; 98; 98], 0) d'.
Proof.
  refine (proj2 (client_gets 3 (ex_data 97) 3 [Open 5] ex_device eq_refl eq_refl _ _) [Open 4] (ex_data 98) 3 eq_refl _);
    [eexists; reflexivity|repeat constructor|eexists; reflexivity].
Defined.
