(* ===== verification/Modules.v ===== *)
(** * Small kernel modules

    modules/print_super_block/print_sb.c walks the kernel's list of super blocks;
    modules/d_process/mock.c waits for a condition; softlockup_test/softlockup_test.c spins
    with a lock held; lktm/drivers/nmi/sample_nmi.c and pure_kprobe_example/kprobe_example.c
    register handlers.  The kernel's data and the results of its functions are parameters. *)

From S2P Require Import Prelude.

(** ** print_sb.c *)

Record super_block := SuperBlock { s_dev : Z; s_type_name : string }.

(** The kernel: addresses of symbols (0 if there is none), the [next] pointers of list
    heads, the super blocks by address, and the locks that are held. *)
Record sbs := Sbs {
  symbols : gmap string Z;
  list_next : gmap Z Z;
  blocks_at : gmap Z super_block;
  held : gset Z
}.
Definition set_held (h : gset Z) (s : sbs) : sbs := Sbs (symbols s) (list_next s) (blocks_at s) h.

(** [MAJOR] and [MINOR] of a 32-bit [dev_t]. *)
Definition MINORBITS : Z := 20.
Definition MAJOR (dev : Z) : Z := Z.shiftr (u32 dev) MINORBITS.
Definition MINOR (dev : Z) : Z := Z.land (u32 dev) (Z.ones MINORBITS).

Definition kallsyms_lookup_name (n : string) : cmd sbs Z := fun s => Ok (default 0 (symbols s !! n)) s.
(** A lock that is held is waited for without end. *)
Definition spin_lock (p : Z) : cmd sbs unit := fun s =>
  if p =? 0 then Halt (Fault 0)
  else if decide (p ∈ held s) then Halt OutOfFuel else Ok tt (set_held ({[p]} ∪ held s) s).
Definition spin_unlock (p : Z) : cmd sbs unit := modify (fun s => set_held (held s ∖ {[p]}) s).
Definition load_next (p : Z) : cmd sbs Z := fun s =>
  match list_next s !! p with Some q => Ok q s | None => Halt (Fault p) end.

(** [list_entry(pos, struct super_block, s_list)]; [s_list] is the first member. *)
Definition sb_entry (pos : Z) : cmd sbs super_block := fun s =>
  match blocks_at s !! pos with Some b => Ok b s | None => Halt (Fault pos) end.

(** The body of [list_for_each]; the state of the loop is the position and what was printed. *)
Definition sb_body (head : Z) (st : Z * list (Z * Z * string)) : cmd sbs ((Z * list (Z * Z * string)) + list (Z * Z * string)) :=
  let '(pos, out) := st in
  if pos =? head then mret (inr out)
  else
    sb ← sb_entry pos;
    nx ← load_next pos;
    mret (inl (nx, out ++ [(MAJOR (s_dev sb), MINOR (s_dev sb), s_type_name sb)])).

(** [my_init]: the result is 0; the output are the lines of the list and the number printed
    at the end, [sizeof(struct inode) * count] with [count] never changed. *)
Definition my_init (sizeof_inode : Z) : cmd sbs (Z * (list (Z * Z * string) * Z)) :=
  sb_lock_address ← kallsyms_lookup_name "sb_lock";
  super_blocks_address ← kallsyms_lookup_name "super_blocks";
  spin_lock sb_lock_address ;;
  pos ← load_next super_blocks_address;
  out ← mloop (sb_body super_blocks_address) (pos, []);
  spin_unlock sb_lock_address ;;
  mret (0, (out, sizeof_inode * 0)).

(** The list from [p] to [q] holds the super blocks [l], given by address and content. *)
Fixpoint sb_list (s : sbs) (p : Z) (l : list (Z * super_block)) (q : Z) : Prop :=
  match l with
  | [] => p = q
  | (a, b) :: l' => p = a /\ a <> q /\ blocks_at s !! a = Some b /\
                    exists n, list_next s !! a = Some n /\ sb_list s n l' q
  end.
Definition sb_line (b : super_block) : Z * Z * string := (MAJOR (s_dev b), MINOR (s_dev b), s_type_name b).

Lemma sb_walk s head l : forall p out,
  sb_list s p l head -> run (mbody (sb_body head)) (S (length l)) ((p, out), s) =
    inr (Ok (out ++ map (sb_line ∘ snd) l) s).
Proof.
  induction l as [|[a b] l IH]; intros p out.
  - intros ->. apply mbody_done. cbn. by rewrite Z.eqb_refl, app_nil_r.
  - intros (-> & Hne & Hb & n & Hn & Hl). cbn [length]. erewrite mbody_next.
    2:{ cbn. rewrite (proj2 (Z.eqb_neq _ _)) by done.
        erewrite bind_ok by (unfold sb_entry; by rewrite Hb).
        erewrite bind_ok by (unfold load_next; by rewrite Hn). reflexivity. }
    rewrite (IH n _ Hl). by rewrite <- app_assoc.
Qed.

(** Loading the module prints one line for every super block of the list, in its order, under
    the lock, which is free again afterwards; the number at the end is always 0. *)
Theorem print_sb_complete sizeof_inode s lock head first l :
  symbols s !! "sb_lock" = Some lock -> symbols s !! "super_blocks" = Some head ->
  lock <> 0 -> ~ (lock ∈ held s) -> list_next s !! head = Some first -> sb_list s first l head ->
  Z.of_nat (length l) < 2 ^ 64 ->
  my_init sizeof_inode s = Ok (0, (map (sb_line ∘ snd) l, 0)) s.
Proof.
  intros Hl Hh H0 Hfree Hn Hlist Hlen. unfold my_init.
  erewrite bind_ok by (unfold kallsyms_lookup_name; by rewrite Hl).
  erewrite bind_ok by (unfold kallsyms_lookup_name; by rewrite Hh). cbn [default].
  set (s1 := set_held ({[lock]} ∪ held s) s).
  erewrite (bind_ok (spin_lock lock)).
  2:{ unfold spin_lock. by rewrite (proj2 (Z.eqb_neq _ _)), decide_False by done. }
  erewrite bind_ok by (unfold load_next; cbn; by rewrite Hn). fold s1.
  assert (forall p m, sb_list s p m head -> sb_list s1 p m head) as Hs1.
  { intros p m. revert p. induction m as [|[a b] m IH]; intros p; [done|]. cbn.
    intros (-> & H1 & H2 & n & H3 & H4). eauto 10. }
  erewrite (bind_ok (mloop _ _)).
  2:{ eapply mloop_result; [apply sb_walk, Hs1, Hlist|]. lia. }
  cbn [app]. unfold spin_unlock. rewrite bind_modify, Z.mul_0_r. unfold mret, cmd_ret. f_equal.
  unfold s1, set_held. destruct s as [sy ln ba hd]. cbn in *. f_equal. by rewrite difference_union_distr_l_L, difference_diag_L, union_empty_l_L,
    difference_disjoint_L by (apply disjoint_singleton_r; done).
Qed.

(** Without the symbols the lock is taken at address 0. *)
Theorem print_sb_unresolved sizeof_inode s :
  symbols s !! "sb_lock" = None -> my_init sizeof_inode s = Halt (Fault 0).
Proof.
  intros Hl. unfold my_init. erewrite bind_ok by (unfold kallsyms_lookup_name; by rewrite Hl).
  erewrite bind_ok by reflexivity. by apply bind_halt.
Qed.

(** ** Handlers that are registered and removed *)

Definition NMI_DONE : Z := 0.
Definition NMI_HANDLED : Z := 1.

(** What the NMI handler prints. *)
Inductive nmi_line := User_Stack (rsp v : Z) | Kernel_Stack (count rsp v : Z).
(** sample_nmi.c: whether the handler is registered, [nmi_ignore], the static [i] of the
    handler, and the output. *)
Record nmi := Nmi { nmi_registered : bool; nmi_ignore : Z; nmi_i : Z; nmi_out : list nmi_line }.

(** [samplenmi_handler]; [PAGE_OFFSET] is where the addresses of the kernel start, [mem] is what the stack pointer of the interrupted code points to,
    if the address is mapped. *)
Definition samplenmi_handler (PAGE_OFFSET : Z) (mem : Z -> option Z) (sp : Z) : cmd nmi Z := fun s =>
  if nonzero (nmi_ignore s) then Ok NMI_DONE s
  else
    let rsp := u64 sp in
    match mem rsp with
    | None => Halt (Fault rsp)
    | Some v =>
        if rsp <? PAGE_OFFSET then
          Ok NMI_HANDLED (Nmi (nmi_registered s) (nmi_ignore s) (nmi_i s) (nmi_out s ++ [User_Stack rsp v]))
        else
          let i := s32 (nmi_i s + 1) in
          Ok NMI_HANDLED (Nmi (nmi_registered s) (nmi_ignore s) i (nmi_out s ++ [Kernel_Stack i rsp v]))
    end.
(** [rv] is the result of register_nmi_handler, which keeps the handler when it is 0. *)
Definition samplenmi_init (rv : Z) : cmd nmi Z := fun s =>
  if nonzero rv then Ok rv s else Ok 0 (Nmi true (nmi_ignore s) (nmi_i s) (nmi_out s)).
Definition samplenmi_exit : cmd nmi unit := fun s => Ok tt (Nmi false (nmi_ignore s) (nmi_i s) (nmi_out s)).

(** kprobe_example.c: the addresses of the handlers in [kp] (0 if there is none) and whether
    the probe is planted. *)
Inductive handler := NoHandler | Handler_pre | Handler_post | Handler_fault.
Record kprobe := Kprobe { pre_handler : handler; post_handler : handler; fault_handler : handler; planted : bool }.
Definition kp : kprobe := Kprobe NoHandler NoHandler NoHandler false.
(** The handlers print; the results tell the kernel to go on and not to skip the fault. *)
Definition handler_pre : Z := 0.
Definition handler_fault : Z := 0.
(** [ret] is the result of register_kprobe. *)
Definition kprobe_init (ret : Z) : cmd kprobe Z := fun _ =>
  let k := Kprobe Handler_pre Handler_post Handler_fault in
  if ret <? 0 then Ok ret (k false) else Ok 0 (k true).
Definition kprobe_exit : cmd kprobe unit := fun k =>
  Ok tt (Kprobe (pre_handler k) (post_handler k) (fault_handler k) false).

(** A kernel module: loading sets its static data up and calls [init], a module whose [init]
    fails is not loaded, and [exit] is called when a loaded module is taken out. *)
Record kmodule (S : Type) := Kmodule { m_data : S; m_init : Z -> cmd S Z; m_exit : cmd S unit; m_live : S -> bool }.
Arguments m_data {S}. Arguments m_init {S}. Arguments m_exit {S}. Arguments m_live {S}.
Inductive request := Insmod (result : Z) | Rmmod.
(** Requests to the module loader: a loaded module cannot be loaded again, and only a loaded
    one is removed. *)
Definition serve {S} (m : kmodule S) (r : request) (st : bool * S) : bool * S :=
  let '(loaded, s) := st in
  match r, loaded with
  | Insmod ret, false => match m_init m ret (m_data m) with Ok v s' => (v =? 0, s') | Halt _ => (loaded, s) end
  | Rmmod, true => match m_exit m s with Ok _ s' => (false, s') | Halt _ => (loaded, s) end
  | _, _ => (loaded, s)
  end.
Definition nmi_module : kmodule nmi := Kmodule _ (Nmi false 0 0 []) samplenmi_init samplenmi_exit nmi_registered.
Definition kprobe_module : kmodule kprobe := Kmodule _ kp kprobe_init kprobe_exit planted.

(** What a module has to promise: [init] returns, and its result says whether something is
    registered then; [exit] leaves nothing registered. *)
Class Balanced {S} (m : kmodule S) : Prop := {
  init_says : forall ret, exists v s', m_init m ret (m_data m) = Ok v s' /\ m_live m s' = (v =? 0);
  exit_clears : forall s, exists s', m_exit m s = Ok tt s' /\ m_live m s' = false
}.
#[export] Instance nmi_balanced : Balanced nmi_module.
Proof.
  constructor; [|eauto]. intros ret. cbn. unfold samplenmi_init, nonzero.
  destruct (ret =? 0) eqn:E; eexists _, _; by split.
Qed.
#[export] Instance kprobe_balanced : Balanced kprobe_module.
Proof.
  constructor; [|eauto]. intros ret. cbn. unfold kprobe_init.
  destruct (ret <? 0) eqn:E; eexists _, _; (split; [reflexivity|]); [|done].
  cbn. symmetry. apply Z.eqb_neq. lia.
Qed.

(** Whatever is loaded and removed, with whatever result of the registration: the handler
    is registered exactly while the module is loaded. *)
Theorem module_balanced {S} (m : kmodule S) `{!Balanced m} rs s :
  m_live m s = false -> let st := foldl (fun st r => serve m r st) (false, s) rs in m_live m st.2 = st.1.
Proof.
  intros H. change (m_live m (false, s).2 = (false, s).1) in H. revert H. generalize (false, s). clear s.
  induction rs as [|r rs IH]; intros [b s] H; cbn [foldl]; [done|]. apply IH.
  destruct r as [ret|], b; cbn [serve]; try done.
  - destruct (init_says (m:=m) ret) as (v & s' & -> & E). done.
  - destruct (exit_clears (m:=m) s) as (s' & -> & E). done.
Qed.

(** The handler run on a sequence of interrupts. *)
Fixpoint nmis (PAGE_OFFSET : Z) (mem : Z -> option Z) (sps : list Z) (s : nmi) : outcome nmi (list Z) :=
  match sps with
  | [] => Ok [] s
  | sp :: sps' =>
      match samplenmi_handler PAGE_OFFSET mem sp s with
      | Halt e => Halt e
      | Ok r s1 => match nmis PAGE_OFFSET mem sps' s1 with Ok l s2 => Ok (r :: l) s2 | Halt e => Halt e end
      end
  end.
Definition on_kernel (PAGE_OFFSET sp : Z) : bool := PAGE_OFFSET <=? u64 sp.
(** The lines for a sequence of interrupts when [i] is the count so far. *)
Fixpoint nmi_lines (PAGE_OFFSET : Z) (mem : Z -> Z) (i : Z) (sps : list Z) : list nmi_line :=
  match sps with
  | [] => []
  | sp :: sps' =>
      if on_kernel PAGE_OFFSET sp then Kernel_Stack (i + 1) (u64 sp) (mem (u64 sp)) :: nmi_lines PAGE_OFFSET mem (i + 1) sps'
      else User_Stack (u64 sp) (mem (u64 sp)) :: nmi_lines PAGE_OFFSET mem i sps'
  end.

(** While stack pointers point to mapped memory every interrupt is claimed, and the lines
    number the ones that came on a kernel stack. *)
Theorem nmi_counts PAGE_OFFSET (mem : Z -> Z) sps s :
  nmi_ignore s = 0 -> 0 <= nmi_i s -> nmi_i s + Z.of_nat (length sps) < 2 ^ 31 ->
  nmis PAGE_OFFSET (fun a => Some (mem a)) sps s =
    Ok (replicate (length sps) NMI_HANDLED)
       (Nmi (nmi_registered s) 0 (nmi_i s + Z.of_nat (length (List.filter (on_kernel PAGE_OFFSET) sps)))
            (nmi_out s ++ nmi_lines PAGE_OFFSET mem (nmi_i s) sps)).
Proof.
  revert s. induction sps as [|sp sps IH]; intros [rg ig i out] Hi H0 Hn; cbn in Hi, H0; subst ig.
  { cbn. by rewrite app_nil_r, Z.add_0_r. }
  cbn [length nmi_i] in Hn. cbn [nmis nmi_lines List.filter length replicate].
  unfold samplenmi_handler. change (nonzero (nmi_ignore _)) with false. cbv iota zeta.
  replace (on_kernel PAGE_OFFSET sp) with (negb (u64 sp <? PAGE_OFFSET)) by (unfold on_kernel; lia).
  destruct (u64 sp <? PAGE_OFFSET); cbn [negb].
  - rewrite IH by (cbn; lia). cbn. by rewrite <- app_assoc.
  - cbn [nmi_i nmi_registered nmi_ignore nmi_out]. rewrite s32_small by lia.
    rewrite IH by (cbn; lia). cbn [nmi_i nmi_registered nmi_ignore nmi_out length].
    rewrite <- app_assoc. cbn [app]. do 2 f_equal. lia.
Qed.

(** ** Threads that do not come back *)

(** mock.c: [Ds1_init] as far as its accesses to [condition]: the assignment, the two tests
    of [wait_event] (before and after the task is put on the queue), sleeping, and the
    return.  The parameter file of the module can be written at any time. *)
Inductive ds1_pc := Assign | First_test | Second_test | Asleep | Returned.
#[export] Instance ds1_pc_eq_dec : EqDecision ds1_pc.
Proof. solve_decision. Defined.
Record ds1 := Ds1 { ds_pc : ds1_pc; condition : Z }.
Inductive ds1_event := Insmod_runs | Param_written (v : Z).
#[export] Instance ds1_event_eq_dec : EqDecision ds1_event.
Proof. solve_decision. Defined.
(** No code calls [wake_up] on the queue, so a task that sleeps stays asleep. *)
Definition Ds1_init (e : ds1_event) (s : ds1) : ds1 :=
  match e with
  | Param_written v => Ds1 (ds_pc s) (u32 v)
  | Insmod_runs =>
      match ds_pc s with
      | Assign => Ds1 First_test 0x1234
      | First_test => if condition s =? 123 then Ds1 Returned (condition s) else Ds1 Second_test (condition s)
      | Second_test => if condition s =? 123 then Ds1 Returned (condition s) else Ds1 Asleep (condition s)
      | Asleep => s
      | Returned => s
      end
  end.
Definition ds1_run (es : list ds1_event) (s : ds1) : ds1 := foldl (fun s e => Ds1_init e s) s es.
Definition runs (es : list ds1_event) : nat := length (filter (fun e => e = Insmod_runs) es).

Definition ds1_left (p : ds1_pc) : nat :=
  match p with Assign => 3 | First_test => 2 | Second_test => 1 | Asleep => 0 | Returned => 0 end.
Lemma ds1_progress es : forall s,
  (ds_pc s = Assign \/ condition s <> 123) -> ds_pc s <> Returned -> (ds1_left (ds_pc s) <= runs es)%nat ->
  Forall (fun e => forall v, e = Param_written v -> u32 v <> 123) es ->
  ds_pc (ds1_run es s) = Asleep.
Proof.
  induction es as [|e es IH]; intros [pc c] Hc Hr Hn HF; cbn [ds_pc condition] in *.
  - destruct pc; cbn in *; done || lia.
  - apply Forall_cons in HF as [He HF]. unfold ds1_run. cbn [foldl]. apply IH; [| | |done]; clear IH HF.
    all: unfold runs in *; rewrite filter_cons in Hn; destruct e as [|v].
    all: try rewrite (decide_True (P := Insmod_runs = Insmod_runs)) in Hn by done.
    all: try rewrite (decide_False (P := Param_written v = Insmod_runs)) in Hn by done.
    all: destruct pc; cbn in *; auto; try (destruct Hc as [|Hc]; [done|]); try rewrite (proj2 (Z.eqb_neq c 123)) by done; cbn; auto; try lia.
Qed.
Lemma ds1_asleep es s : ds_pc s = Asleep -> ds_pc (ds1_run es s) = Asleep.
Proof.
  revert s. induction es as [|[|v] es IH]; intros [pc c] H; cbn in H; subst; [done|apply IH; done..].
Qed.

(** insmod sleeps for ever: it does when nobody writes 123 to the parameter, whatever the
    module was loaded with; once it sleeps, writing 123 does not wake it; and it returns in a
    run in which 123 is written after the assignment. *)
Theorem insmod_hangs :
  (forall es s, ds_pc s = Assign -> (3 <= runs es)%nat ->
    Forall (fun e => forall v, e = Param_written v -> u32 v <> 123) es -> ds_pc (ds1_run es s) = Asleep) /\
  (forall es s, ds_pc s = Asleep -> ds_pc (ds1_run es s) = Asleep) /\
  ds_pc (ds1_run [Insmod_runs; Param_written 123; Insmod_runs] (Ds1 Assign 1234)) = Returned.
Proof.
  split; [|split; [apply ds1_asleep|reflexivity]].
  intros es s Hs Hn HF. apply ds1_progress; auto; rewrite Hs; [done|exact Hn].
Qed.

(** softlockup_test.c: the thread, whether [kthread_stop] has asked it to stop, the lock, the
    counter of the endless loop and the lines the loop has printed. *)
Inductive sl_pc := Should_stop | Lock | Spin | Ended (val : Z).
Record softlockup := Softlockup { sl_at : sl_pc; sl_stop : bool; sl_lock : bool; sl_i : Z; sl_lines : Z }.
Inductive sl_event := Task_runs | Stop_asked.
(** [task], a step at a time. *)
Definition task (s : softlockup) : softlockup :=
  match sl_at s with
  | Should_stop => if sl_stop s then Softlockup (Ended 1) true (sl_lock s) (sl_i s) (sl_lines s)
                   else Softlockup Lock false (sl_lock s) (sl_i s) (sl_lines s)
  | Lock => if sl_lock s then s else Softlockup Spin (sl_stop s) true 0 (sl_lines s)
  | Spin => Softlockup Spin (sl_stop s) (sl_lock s) (u32 (sl_i s + 1))
              (if sl_i s =? 0 then sl_lines s + 1 else sl_lines s)
  | Ended _ => s
  end.
(** [softlockup_init]; [started] is false if kthread_run gives an error, whose pointer then
    goes to set_cpus_allowed_ptr. *)
Definition softlockup_init (started : bool) : outcome softlockup Z :=
  if started then Ok 0 (Softlockup Should_stop false false 0 0) else Halt (Fault (u64 (-12))).
(** [softlockup_exit] asks the thread to stop and waits for it. *)
Definition softlockup_exit (s : softlockup) : softlockup :=
  Softlockup (sl_at s) true (sl_lock s) (sl_i s) (sl_lines s).
Definition exit_returns (s : softlockup) : bool := match sl_at s with Ended _ => sl_stop s | _ => false end.
Definition sl_step (s : softlockup) (e : sl_event) : softlockup :=
  match e with Task_runs => task s | Stop_asked => softlockup_exit s end.
Definition sl_run (es : list sl_event) (s : softlockup) : softlockup := foldl sl_step s es.
Definition task_runs (es : list sl_event) : Z :=
  Z.of_nat (length (List.filter (fun e => match e with Task_runs => true | Stop_asked => false end) es)).

Lemma sl_spins es : forall s, sl_at s = Spin -> sl_lock s = true -> 0 <= sl_i s < 2 ^ 32 ->
  let s' := sl_run es s in
  sl_at s' = Spin /\ sl_lock s' = true /\ sl_i s' = u32 (sl_i s + task_runs es).
Proof.
  unfold sl_run, task_runs. induction es as [|[] es IH]; intros [pc st lk i n]; cbn [sl_at sl_lock sl_i]; intros -> -> Hi.
  - cbn. by rewrite Z.add_0_r, u32_small.
  - cbn [foldl sl_step]. destruct (IH (task (Softlockup Spin st true i n))) as (H1 & H2 & H3); [done|done|cbn; apply u32_range|].
    cbn zeta. rewrite H1, H2, H3. split; [done|]. split; [done|]. cbn [task sl_at sl_i sl_stop List.filter length].
    unfold u32. rewrite Zplus_mod_idemp_l. f_equal. lia.
  - cbn [foldl sl_step]. apply (IH (softlockup_exit (Softlockup Spin st true i n))); done.
Qed.

(** If the thread has started its loop before it is asked to stop, it takes the lock at its
    next step and never gives it up, the counter goes round, and removing the module never
    returns; asked before that, the thread ends with 1 and removing the module does. *)
Theorem softlockup_never_stops s0 es :
  softlockup_init true = Ok 0 s0 ->
  (let s := sl_run (Task_runs :: Task_runs :: es) s0 in
   sl_at s = Spin /\ sl_lock s = true /\ sl_i s = u32 (task_runs es) /\ exit_returns s = false) /\
  exit_returns (sl_run [Stop_asked; Task_runs] s0) = true.
Proof.
  intros [= <-]. split; [|done]. cbn zeta.
  change (sl_run (Task_runs :: Task_runs :: es) _) with (sl_run es (Softlockup Spin false true 0 0)).
  destruct (sl_spins es (Softlockup Spin false true 0 0)) as (H1 & H2 & H3); [done|done|done|].
  unfold exit_returns. by rewrite H1, H2, H3.
Qed.

(** ** Witnesses *)

Definition ex_sbs : sbs :=
  Sbs {["sb_lock" := 0x100; "super_blocks" := 0x200]} {[0x200 := 0x1000; 0x1000 := 0x2000; 0x2000 := 0x200]}
      {[0x1000 := SuperBlock 0x800001 "ext4"; 0x2000 := SuperBlock 5 "proc"]} ∅.
Lemma print_sb_complete_witness : my_init 600 ex_sbs = Ok (0, ([(8, 1, "ext4"%string); (0, 5, "proc"%string)], 0)) ex_sbs.
Proof.
  refine (print_sb_complete 600 ex_sbs 0x100 0x200 0x1000 [(0x1000, SuperBlock 0x800001 "ext4"); (0x2000, SuperBlock 5 "proc")] _ _ _ _ _ _ _);
    [reflexivity|reflexivity|lia|set_solver|reflexivity| |cbn; lia].
  split; [done|]. split; [lia|]. split; [reflexivity|]. exists 0x2000. split; [reflexivity|].
  split; [done|]. split; [lia|]. split; [reflexivity|]. exists 0x200. by split.
Defined.
Lemma module_balanced_witness :
  m_live nmi_module (foldl (fun st r => serve nmi_module r st) (false, Nmi false 0 0 []) [Insmod (-12); Insmod 0; Insmod 0; Rmmod; Insmod 0]).2 = true.
Proof. exact (module_balanced nmi_module [Insmod (-12); Insmod 0; Insmod 0; Rmmod; Insmod 0] (Nmi false 0 0 []) eq_refl). Defined.
Lemma nmi_counts_witness :
  nmis 0xffff888000000000 (fun a => Some (a mod 256)) [0x7fff0; 0xffff888000000010] (Nmi true 0 0 []) =
    Ok [1; 1] (Nmi true 0 1 [User_Stack 0x7fff0 0xf0; Kernel_Stack 1 0xffff888000000010 0x10]).
Proof. refine (nmi_counts 0xffff888000000000 (fun a => a mod 256) [0x7fff0; 0xffff888000000010] (Nmi true 0 0 []) _ _ _); cbn; done || lia. Defined.
Lemma softlockup_never_stops_witness :
  exit_returns (sl_run [Task_runs; Task_runs; Stop_asked; Task_runs] (Softlockup Should_stop false false 0 0)) = false.
Proof. exact (proj2 (proj2 (proj2 (proj1 (softlockup_never_stops (Softlockup Should_stop false false 0 0) [Stop_asked; Task_runs] eq_refl))))). Defined.
