(* ===== verification/FaultTest.v ===== *)
(** * The fault injection test (linux_inject/fail_nth_test.c)

    The program makes the [i]-th allocation of [socketpair] fail, for [i = 1, 2, ...], until
    an [i] is reached that is not used up.  The kernel behind /proc/self/task/../fail-nth
    and the two system calls is the parameter [injector]. *)

From S2P Require Import Prelude Libc.

(** Writing a number to the file, the system call that is tested, reading the file back
    ([None] for -1), closing, and the descriptors that are open. *)
Record injector (W : Type) := Injector {
  fi_write : W -> list Z -> W;
  fi_socketpair : W -> W * (Z + Z * Z);
  fi_pread : W -> option (list Z);
  fi_close : W -> Z -> W;
  fi_fds : W -> gset Z
}.
Arguments fi_write {W}. Arguments fi_socketpair {W}. Arguments fi_pread {W}.
Arguments fi_close {W}. Arguments fi_fds {W}.

(** A line of output: the number, whether the fault was injected, the result and [errno]. *)
Record report := Report { rp_i : Z; rp_injected : bool; rp_res : Z; rp_err : Z }.
Record ftest (W : Type) := FTest { ft_kernel : W; ft_buf : list Z; ft_errno : Z; ft_log : list report }.
Arguments FTest {W}. Arguments ft_kernel {W}. Arguments ft_buf {W}. Arguments ft_errno {W}. Arguments ft_log {W}.

(** Bytes written over the start of a buffer. *)
Definition overwrite (l b : list Z) : list Z := l ++ drop (length l) b.

Section Test.
Context {W : Type} (K : injector W).

(** One round of the loop; [inr] is the [break]. *)
Definition fail_nth_round (i : Z) : cmd (ftest W) (Z + Z) :=
  s ← get;
  let buf := overwrite (sprintf_d i ++ [0]) (ft_buf s) in
  let w := fi_write K (ft_kernel s) (sprintf_d i) in
  let '(w, r) := fi_socketpair K w in
  let '(res, err) := match r with inl e => (-1, e) | inr _ => (0, ft_errno s) end in
  let buf := match fi_pread K w with Some l => overwrite l buf | None => buf end in
  let w := match r with inr (a, b) => fi_close K (fi_close K w a) b | inl _ => w end in
  let n := atoi buf in
  put (FTest w buf err (ft_log s ++ [Report i (n =? 0) res err])) ;;
  mret (if nonzero n then inr 0 else inl (i + 1)).

Definition fail_nth_main : cmd (ftest W) Z := mloop fail_nth_round 1.
End Test.

(** Documented behaviour (Documentation/fault-injection): reading gives 0 when the fault set
    up by the last write was injected and a positive number, at most the one written, when it
    was not; a call has at most [F] places that can fail, so from [F + 1] on the fault is not
    used up.  Descriptors come in pairs that were not open. *)
Record injector_ok {W} (K : injector W) (F : Z) : Prop := InjectorOk {
  fi_reads : forall w i w' r, 0 < i < 2 ^ 31 -> fi_socketpair K (fi_write K w (sprintf_d i)) = (w', r) ->
    exists n, fi_pread K w' = Some (sprintf_d n ++ [10]) /\ 0 <= n <= i /\ (F < i -> n <> 0);
  fi_opens : forall w w' r, fi_socketpair K w = (w', r) ->
    match r with
    | inl _ => fi_fds K w' = fi_fds K w
    | inr (a, b) => fi_fds K w' = ({[a; b]} ∪ fi_fds K w) /\ ~ (a ∈ fi_fds K w) /\ ~ (b ∈ fi_fds K w)
    end;
  fi_closes : forall w fd, fi_fds K (fi_close K w fd) = fi_fds K w ∖ {[fd]};
  fi_writes : forall w l, fi_fds K (fi_write K w l) = fi_fds K w
}.

Section TestProof.
Context {W : Type} (K : injector W) (F : Z) (K_ok : injector_ok K F).

Lemma atoi_overwrite n b : 0 <= n < 2 ^ 31 -> atoi (overwrite (sprintf_d n ++ [10]) b) = n.
Proof. intros Hn. unfold overwrite. rewrite <- app_assoc. apply atoi_sprintf; [lia|done]. Qed.

Lemma fail_round_run i s :
  0 < i < 2 ^ 31 ->
  exists w b e res err n, fail_nth_round K i s =
      Ok (if nonzero n then inr 0 else inl (i + 1)) (FTest w b e (ft_log s ++ [Report i (n =? 0) res err])) /\
    fi_fds K w = fi_fds K (ft_kernel s) /\ (F < i -> n <> 0).
Proof.
  intros Hi. unfold fail_nth_round. rewrite bind_get.
  destruct (fi_socketpair K (fi_write K (ft_kernel s) (sprintf_d i))) as [w r] eqn:E.
  destruct (fi_reads _ _ K_ok (ft_kernel s) i w r Hi E) as (n & -> & Hn & Hf).
  pose proof (fi_opens _ _ K_ok _ _ _ E) as Ho. rewrite (fi_writes _ _ K_ok) in Ho.
  rewrite atoi_overwrite by lia. destruct r as [e|[a b]].
  - do 5 eexists. exists n. split; [reflexivity|]. done.
  - do 5 eexists. exists n. split; [reflexivity|]. split; [|done].
    rewrite !(fi_closes _ _ K_ok). destruct Ho as (-> & Ha & Hb). clear - Ha Hb. set_solver.
Qed.

(** The rounds from [i] on. *)
Lemma rounds_run c : forall i s, 0 < i -> i + Z.of_nat c = F + 1 -> F < 2 ^ 31 - 1 ->
  exists s' k l, run (mbody (fail_nth_round K)) (S c) (i, s) = inr (Ok 0 s') /\
    ft_log s' = ft_log s ++ l ++ [k] /\ Forall (fun r => rp_injected r = true) l /\ rp_injected k = false /\
    map rp_i (l ++ [k]) = seqZ i (Z.of_nat (length l) + 1) /\ Z.of_nat (length l) <= Z.of_nat c /\
    fi_fds K (ft_kernel s') = fi_fds K (ft_kernel s).
Proof.
  induction c as [|c IH]; intros i s Hi Hc HF;
    destruct (fail_round_run i s ltac:(lia)) as (w & b & e & res & err & n & Hrun & Hfds & Hn).
  - unfold nonzero in Hrun. rewrite (proj2 (Z.eqb_neq n 0)) in Hrun by (apply Hn; lia).
    eexists _, _, []. split; [by apply mbody_done; rewrite Hrun|].
    split; [reflexivity|]. done.
  - unfold nonzero in Hrun. destruct (Z.eqb_spec n 0) as [_|Hne]; cbn [negb] in Hrun.
    + destruct (IH (i + 1) (FTest w b e (ft_log s ++ [Report i true res err]))) as (s' & k & l & Hr & Hl & Hi1 & Hk & Hs & Hlen & Hf);
        [lia..|].
      exists s', k, (Report i true res err :: l). split; [by erewrite mbody_next by exact Hrun|].
      split; [rewrite Hl; cbn; by rewrite <- app_assoc|]. split; [by constructor|]. split; [done|].
      split; [|split; [cbn [length]; lia|by rewrite Hf]].
      cbn [app map rp_i length]. rewrite Hs. rewrite (seqZ_cons i) by lia. f_equal. f_equal; lia.
    + eexists _, _, []. split; [by apply mbody_done; rewrite Hrun|].
      split; [reflexivity|]. split; [constructor|]. done.
Qed.
End TestProof.


(** Without the file (no fault injection in the kernel) the number just printed is still in
    the buffer, so the test ends after its first round and reports that nothing failed. *)
Theorem fail_nth_no_file {W} (K : injector W) s :
  (forall w, fi_pread K w = None) -> exists s', fail_nth_main K s = Ok 0 s' /\
    exists r, ft_log s' = ft_log s ++ [r] /\ rp_i r = 1 /\ rp_injected r = false.
Proof.
  intros Hp.
  assert (exists s', fail_nth_round K 1 s = Ok (inr 0) s' /\
    exists r, ft_log s' = ft_log s ++ [r] /\ rp_i r = 1 /\ rp_injected r = false) as (s' & Hr & H).
  { unfold fail_nth_round. rewrite bind_get. destruct (fi_socketpair K _) as [w r]. rewrite Hp.
    destruct r as [e|[a b]]; (eexists; split; [reflexivity|]; eexists; split; [reflexivity|done]). }
  exists s'. split; [|done]. apply (mloop_result _ 1%nat); [by apply mbody_done|lia].
Qed.

(** A kernel whose [socketpair] allocates twice; the state holds the pending number and the
    next descriptor. *)
Definition ex_injector : injector (Z * gset Z) := Injector (Z * gset Z)
  (fun w l => (atoi l, w.2))
  (fun w => if (1 <=? w.1) && (w.1 <=? 2) then ((0, w.2), inl 23)
            else ((Z.max 0 (w.1 - 2), {[fresh w.2; fresh ({[fresh w.2]} ∪ w.2)]} ∪ w.2), inr (fresh w.2, fresh ({[fresh w.2]} ∪ w.2))))
  (fun w => Some (sprintf_d w.1 ++ [10]))
  (fun w fd => (w.1, w.2 ∖ {[fd]}))
  snd.
Lemma ex_injector_ok : injector_ok ex_injector 2.
Proof.
  split; [|..|done|done].
  - intros w i w' r Hi. cbn [fi_socketpair fi_write ex_injector fst snd].
    rewrite <- (app_nil_r (sprintf_d i)), atoi_sprintf by (done || lia).
    destruct (Z.leb_spec 1 i), (Z.leb_spec i 2); cbn [andb]; intros [= <- <-]; eexists;
      (split; [reflexivity|]); cbn [fst]; lia.
  - intros w w' r. cbn [fi_socketpair ex_injector]. destruct (_ && _); intros [= <- <-]; [done|].
    cbn [fi_fds ex_injector snd]. split; [done|]. split; [apply is_fresh|].
    pose proof (is_fresh ({[fresh w.2]} ∪ w.2)) as Hf. clear - Hf. set_solver.
Qed.

